(* ===== verification/_CoqProject ===== *)
-Q . S2P
Prelude.v
GoStd.v
GoNum.v
GoTime.v
GoSort.v
GoHeap.v
Sha256.v
Decisions.v
Storage.v
Images.v
WatchSchedule.v
GoJson.v
BuildSpec.v
RepoHost.v
AppTypes.v
DeepCopy.v
Kube.v
GoNet.v
Config.v
BuildSteps.v
Naming.v
AppView.v
GitCred.v
BuildPod.v
Children.v
Free.v
Prog.v
JsonDecode.v
NodeImages.v
Ensure.v
GitSync.v
Measure.v
Cleanup.v
Metrics.v
Controller.v
Footprint.v
Serial.v
Lifecycle.v
StatusInv.v
MetricsTrace.v
Watches.v
Validation.v
Progress.v
Serving.v
FirstBuild.v
CleanupProgress.v
Worlds.v
Observability.v
Shim.v
ShimProc.v
Unstructured.v
Humanize.v
View.v
ViewMap.v
AppJson.v
ViewSpec.v
JsonPrint.v
GoUrl.v
ListPage.v
ConsoleCalls.v
ConsoleClient.v
ClientProc.v
ConsolePatch.v
Loki.v
LogView.v
Manifest.v
Server.v
ServerSpec.v
SentryHttp.v
ConsoleMain.v
Startup.v
ConsoleWorlds.v
