(* ===== verification/Prelude.v ===== *)
(** * toggle-web-baker: a verification of the operator and its console

    toggle-web-baker is a Kubernetes operator that builds static web sites.  A
    user writes an App resource (a git repository, the build phases, storage
    thresholds, an ingress); the operator clones and builds it in a locked-down
    Job, publishes the result to a volume, serves it with nginx, rebuilds it on a
    schedule or when the repository moves, measures and cleans its volumes, and
    reports all of it in the App's status, in Prometheus metrics and to Sentry.  A
    web console, a separate program behind an authenticating proxy, lists the Apps,
    shows one with its builds and logs, and writes the annotations that ask the
    operator for a rebuild or a cleanup.  The two meet in the App object alone.

    ** The parts of the program and the files that model them

    Go language and libraries (no file under src/ but used everywhere):
    - [GoStd] byte strings, UTF-8, package strings, [%q]; [GoNum] integers of 64
      bits, strconv, [time.ParseDuration] with its float64 fractions; [GoTime] the
      calendar, RFC 3339 and durations; [GoSort] stable sorting; [GoHeap] memory with
      pointers, slices and maps; [Sha256]; [GoJson]
      what [json.Marshal] writes, [JsonDecode] what [json.Unmarshal] reads,
      [JsonPrint] JSON put together with [fmt]; [GoNet] [net.ParseCIDR]; [GoUrl]
      query strings.
    - Classes hold what is not fixed by code that can be read here; theorems are
      proved for every instance, witnesses use the one named after it:
      [GoRuntime] Unicode tables above ASCII and texts of library errors
      ([ascii_only_tables]); [MapOrder] the order of [range] over a map, any
      permutation of the entries ([some_order]); [KubeLib] resource quantities and
      cron parsing ([any_quantity]); [CronNext] the next tick of a schedule
      ([next_minute]); [FloatLib] the printing and conversion of floats
      ([some_floats]); [UnstructuredLib] apimachinery's accessors of generic
      objects ([plain_accessors]); [PageLib] templates, YAML and Chroma
      ([some_pages]); [PatchServer] the merge patch of the API server
      ([merging_server]); [MetaCopies] the deep copies of apimachinery's types
      ([structural_copies]).

    src/internal/domain, pure decisions:
    - [Decisions] trigger.go and cleanup.go (DecideBuild, DecideCleanup);
      [Storage] storage.go; [Images] nodeimage.go and registry.go;
      [WatchSchedule] watchschedule.go; [BuildSpec] buildspec.go (the staleness
      hash); [RepoHost] repohost.go, with the part of [net/url.Parse] it needs.

    src/api/v1alpha1/app_types.go: [AppTypes], the App with its spec and status,
    and [AppJson], the object its JSON tags make of it; zz_generated.deepcopy.go:
    [DeepCopy], over [GoHeap].  Kubernetes objects as far as the operator fills or
    reads them: [Kube].

    src/internal/controller, pure part:
    - [Config] and [NodeImages] config.go (defaults, start-up validation); [BuildSteps]
      buildsteps.go, termination.go, platformfault.go (step timeline, histories,
      failure attribution); [Naming] naming.go, util.go; [AppView] the pure helpers
      of app_controller.go; [GitCred] the credential decision of gitcred.go;
      [BuildPod] buildpod.go; [Children] children.go.

    Effects.  [Free] gives programs over a type of calls: a request is a
    constructor indexed by the type of its answer, and a program is a tree of calls
    that continues with the answer it gets.  [Prog] instantiates it with the calls
    of the operator (API server, clock, metrics recorder, reporter), [ConsoleCalls]
    with those of the console, [Startup] and [ConsoleMain] with those of the two
    entry points, [ShimProc] with the system calls of the phase wrapper and
    [ClientProc] with channels, mutex, once and goroutines.

    src/internal/controller, effectful part:
    - [Ensure] ensure.go; [GitSync] gitcred.go and gitauth_secret.go; [Measure]
      measure.go; [Cleanup] cleanup.go; [Metrics] metrics.go (the Recorder, whose
      mutex makes each operation one step); [Controller] app_controller.go, the
      whole [Reconcile] handler with every early return and every call it makes, in
      the order of the code; [Watches] its SetupWithManager, the objects that wake
      the reconciler and the map from each to its App.
    - src/cmd/main.go: [Startup].

    src/internal/observability: [Observability] (set-up, rate limiter, zap core, filters,
    fingerprints; a history of the reporter is a sequence of inputs).
    src/images/shim/main.go: [Shim] (the texts: command echo, peak report) and
    [ShimProc] (the whole process over its system calls).

    src/console:
    - internal/view: [Unstructured] coerce.go and the generic objects it reads;
      [Humanize] humanize.go, storagebar.go, commit.go; [View] the view model and
      what is derived from it; [ViewMap] the projection of a stored App into it.
    - internal/k8s: [ConsoleClient] the reads and writes of client.go and metrics.go;
      [ClientProc] its construction, informer and shutdown, as goroutines that
      interleave; [ConsolePatch] its patches, merged and read back by the operator.
      internal/loki: [Loki].
    - internal/server: [ListPage] the list page of server.go; [LogView] loghl.go and
      the HTML written by hand; [Manifest] manifest.go; [Server] the handlers and
      routes of server.go with the page data of render.go.
    - internal/sentryhttp: [SentryHttp], the middleware around the routes.
      cmd/console/main.go: [ConsoleMain].
    - The Go interfaces between these packages are the records AppPatcher,
      PodReader, PodMetricser and LokiTailer of [ConsoleCalls]; the classes
      [ReadOnlyApps] and its siblings are what the handlers are proved against, and
      [ConsoleClient] and [Loki] have the instances.  [production] ([ServerSpec])
      wires them as cmd/console does.

    ** State and effects

    [run p tr x] says that program [p] can perform the trace [tr] of calls and
    answers and return [x]; no assumption is made on the answers, so a theorem about
    every [run] covers stale caches, conflicts, missing objects and failing writes
    at every call, and an interleaving with other writers.  Programs are finite
    trees, so every handler returns for every sequence of answers; [execute] runs a
    program against a concrete cluster.  Order properties are automata over calls
    ([monitor]): [feed M s tr] runs one over a trace and is [None] when a call is
    out of order.  [wp], [quiet], [calls], [returns] and [returns_given] prove
    that all runs of a program are accepted, compositionally along the code, and
    [inevitable] that a call is made on every path whose answers meet a condition;
    [Footprint] lists which calls each part can make.  A Go error is a value of
    [result], a nil pointer is [None], a panic is [Panic] of [outcome], a mutated
    App is returned.

    ** What the theorems show

    - One reconcile pass, all runs ([Serial], [Lifecycle], [Validation]): builds and
      cleanups exclude each other; only Apps that passed all seven validations are built,
      from the loaded spec; results are persisted before their Jobs are deleted; a site is served
      only on evidence of a success; each rebuild token is processed; a rejection
      by any of the seven validations is reported and, the sync of the credential copy
      before it aside, does nothing else; a finished build is recorded once, and as
      what; deletion always ends by removing the finalizer.  [Worlds] applies them
      to concrete clusters and evaluates them.
    - All passes over the life of an App ([StatusInv]): with [lived], the reachability
      relation of an App object under passes, edits and stale caches, every status says
      Ready only on a success, backs each recorded success, shows a failure as Degraded
      and keeps its histories bounded and finished.
    - Progress ([Progress]): on a cluster that works ([healthy], a condition on the
      answers; what comes back of a created Job only has to keep its name) a pass over an
      admissible App completes, and a requested build is
      inevitable when no Job is unfinished; whoever calls an App Ready has put
      up its whole serving stack in that pass ([Serving]), and three passes take a fresh
      App to a served site ([FirstBuild]); a requested cleanup is inevitable too ([CleanupProgress]).
    - The loop around the passes: whatever a pass writes wakes its App again, and
      no App that has nothing to do with it ([Watches]).
    - Isolation ([BuildPod], [Children], [Cleanup], [GitSync], [GitCred], [RepoHost]):
      which container sees Secrets, the git credential and the published volume;
      security contexts; exactly what the network policies let through, by the semantics
      the NetworkPolicy API documents and for any reading of IP blocks; RBAC; the credential copy and its host
      allowlist.
    - Decision functions are characterised exactly ([Storage], [Images],
      [WatchSchedule], [Config], [BuildSpec], [BuildSteps]).
    - Metrics series are exact in every reachable recorder state ([Metrics]), and
      after every pass they say what the status it wrote says ([MetricsTrace]); an
      event reaches Sentry exactly once per problem and hour over the whole history
      ([Observability]).
    - The phase wrapper ([Shim], [ShimProc]): it is transparent for the command, its
      signals and its exit code; its echo is read back by a POSIX shell (for a command whose name is no
      reserved word and no assignment) and its peak, where one was measured and the log
      could be written, by the operator; it installs itself atomically.
    - Start-up ([Startup], [ConsoleMain]): the manager never starts on a configuration
      that was not loaded and validated; the console serves the production handlers
      over the client it was given, without waiting for the cluster; a failure ends
      either process with status 1.
    - Memory and concurrency: generated deep copies say the same and share nothing
      ([DeepCopy]); the goroutines of a console client never crash, never get stuck and
      all end ([ClientProc]).
    - Operator and console together: [shows_app] ([ViewSpec]) states on the
      operator's own types what the console should show; the projection of the
      stored object refines it, and so does the detail page in every run
      ([ServerSpec]).  The console's patches, merged by the API server, change
      annotations only and are what the operator's triggers read, for user names of
      printable ASCII characters ([ConsolePatch]).
      The page announces an injected setup exactly when the operator injects one
      ([Manifest]); a log pane asks the kubelet or Loki only for a container the
      operator's pod has ([ServerSpec]).
    - The console alone: in every run it writes at most one patch, for an
      authenticated POST, of the App in the path ([ServerSpec]); its list page is in
      bounds, complete over all pages, independent of the order of the cache, and
      its links lead where they say ([ListPage], [GoUrl]); the manifest page depends
      on no hidden value ([Manifest]); a log line becomes fixed tags around escaped text that makes up the
      line ([LogView]);
      a panic is contained and reported once ([SentryHttp]).  [ConsoleWorlds]
      applies these to concrete requests.

    ** Bounds

    Go's int and int64 are [Z] wrapped by [i64].  Loops without structural recursion
    take fuel: [itoa_loop] the bit length of the number ([itoa_fuel_enough]);
    [duration_loop] the length of the text, each term of which consumes a byte
    ([duration_loop_total]); [trim_left] and [trim_right] the length of the text,
    each turn of which removes a byte; [string_body] the length of the text and
    [parse_json] two nested calls per byte ([string_body_fuel], [parse_json_fuel]);
    [ipv6_loop] the eight groups of an address; [human_loop]
    seven divisions by 1024, which empty any int64; a repetition in a regular
    expression ([LogView]) the length of the text; the signal loop of the wrapper a
    bound on the signals that arrive while the child runs, and it gives up only when
    that many have ([wrap_transparent]).  The list page assumes that the
    number of Apps and one page fit an int64 ([fits]); without it Go's own page
    arithmetic would wrap.

    ** Not modelled

    YAML decoding of the configuration file, client-go and its informers, the HTTP
    server, the execution of HTML templates, Chroma and the Sentry client belong to
    libraries; where code here depends on their results they are parameters or calls.
    Registering types in the scheme (groupversion_info.go) and vectors in the metrics
    registry only calls libraries, and so does the choice of an injected clock or
    reader for tests.  internal/sentrytest is a helper of the tests.  The admission
    (CEL) rules in the markers of app_types.go are evaluated by the API server. *)
From Stdlib Require Import ZArith Ascii String.
From stdpp Require Import base gmap strings list numbers sorting.

#[global] Set Default Proof Using "Type".

Declare Scope go_scope.
Delimit Scope go_scope with go.
Open Scope Z_scope.
Open Scope go_scope.

(** ** Record update

    Go assigns struct fields in place; the model returns an updated record,
    written [r <| field := v |>].  A record type opts in with an [Eta]
    instance, the constructor applied to all of its projections; the setter of
    one projection is found by abstracting that projection in the instance. *)
Class Eta (R : Type) := eta_of : R → R.
Class Setter {R E : Type} (proj : R → E) := set_field : (E → E) → R → R.
#[global] Hint Mode Setter - - + : typeclass_instances.

Ltac build_setter proj :=
  match type of proj with
  | ?R → ?E =>
      let inst := constr:(_ : Eta R) in
      let body := eval hnf in inst in
      match eval pattern proj in body with
      | ?g proj =>
          let s := eval cbv beta in
            (fun (f : E → E) (r : R) => g (fun r' : R => f (proj r')) r) in
          exact s
      end
  end.
#[export] Hint Extern 1 (Setter ?proj) => build_setter proj : typeclass_instances.

Notation "r <| proj := v |>" := (set_field (proj := proj) (λ _, v) r)
  (at level 1, left associativity, proj at next level,
   format "r  <| proj  :=  v |>") : go_scope.
Notation "r <| proj ::= f |>" := (set_field (proj := proj) f r)
  (at level 1, left associativity, proj at next level,
   format "r  <| proj  ::=  f |>") : go_scope.

(** ** Errors

    A Go [error] is its text together with the API-server reason that
    [apierrors.IsNotFound] and its siblings look for through [errors.As]; an
    error made by [fmt.Errorf] has no reason of its own and inherits the one
    of the error it wraps with [%w]. *)
Inductive ApiReason := NotFound | AlreadyExists | Conflict | OtherReason.
Record error := MkError { err_reason : option ApiReason; err_text : string }.

Inductive result (A : Type) :=
| Ok (x : A)
| Err (e : error).
Arguments Ok {A} x.
Arguments Err {A} e.

Definition errorf (text : string) : error := MkError None text.
Definition wrapf (prefix : string) (e : error) : error :=
  MkError (err_reason e) (prefix +:+ err_text e).

#[global] Instance ApiReason_eq_dec : EqDecision ApiReason.
Proof. solve_decision. Defined.
#[global] Instance error_eq_dec : EqDecision error.
Proof. solve_decision. Defined.
#[global] Instance result_eq_dec `{EqDecision A} : EqDecision (result A).
Proof. solve_decision. Defined.

(** The error monad: a Go function that returns [(T, error)] and whose caller
    returns early on a non-nil error. *)
#[global] Instance result_ret : MRet result := @Ok.
#[global] Instance result_bind : MBind result := λ A B f m,
  match m with Ok x => f x | Err e => Err e end.

Definition is_ok {A} (r : result A) : bool :=
  match r with Ok _ => true | Err _ => false end.

Lemma bind_ok {A B} (f : A → result B) (m : result A) y :
  m ≫= f = Ok y ↔ ∃ x, m = Ok x ∧ f x = Ok y.
Proof.
  destruct m; cbn; split; [eauto | naive_solver | done | naive_solver].
Qed.

Lemma bind_err {A B} (f : A → result B) (m : result A) e :
  m ≫= f = Err e ↔ m = Err e ∨ ∃ x, m = Ok x ∧ f x = Err e.
Proof. destruct m; cbn; naive_solver. Qed.

(** ** Machine integers

    Go's [int] and [int64] are two's-complement 64-bit; [i64] wraps a
    mathematical integer into that range. *)
Definition i64_min : Z := - 2 ^ 63.
Definition i64_max : Z := 2 ^ 63 - 1.
Definition i64 (z : Z) : Z := (z + 2 ^ 63) mod 2 ^ 64 - 2 ^ 63.
Definition in_i64 (z : Z) : Prop := i64_min ≤ z ≤ i64_max.

#[global] Instance in_i64_dec z : Decision (in_i64 z).
Proof. unfold in_i64. apply _. Defined.

Lemma i64_in_range z : in_i64 (i64 z).
Proof.
  unfold in_i64, i64, i64_min, i64_max.
  pose proof (Z.mod_pos_bound (z + 2 ^ 63) (2 ^ 64)). lia.
Qed.

Lemma i64_id z : in_i64 z → i64 z = z.
Proof.
  unfold in_i64, i64, i64_min, i64_max. intros ?. rewrite Z.mod_small; lia.
Qed.

(** ** Hint databases and tactics *)
Create HintDb baker discriminated.
Create Rewrite HintDb baker.
#[export] Hint Resolve i64_in_range : baker.
#[export] Hint Rewrite @i64_id using (unfold in_i64, i64_min, i64_max in *; lia) : baker.

(** Boolean tests of the code turned into propositions. *)
Ltac breflect :=
  repeat match goal with
  | H : (_ && _)%bool = true |- _ => apply andb_true_iff in H as [? ?]
  | H : (_ || _)%bool = false |- _ => apply orb_false_iff in H as [? ?]
  | H : (_ || _)%bool = true |- _ => apply orb_true_iff in H
  | H : (_ && _)%bool = false |- _ => apply andb_false_iff in H
  | H : negb _ = true |- _ => apply negb_true_iff in H
  | H : negb _ = false |- _ => apply negb_false_iff in H
  | H : bool_decide _ = true |- _ => apply bool_decide_eq_true_1 in H
  | H : bool_decide _ = false |- _ => apply bool_decide_eq_false_1 in H
  | H : (_ <? _) = true |- _ => apply Z.ltb_lt in H
  | H : (_ <? _) = false |- _ => apply Z.ltb_ge in H
  | H : (_ <=? _) = true |- _ => apply Z.leb_le in H
  | H : (_ <=? _) = false |- _ => apply Z.leb_gt in H
  | H : (_ =? _) = true |- _ => apply Z.eqb_eq in H
  | H : (_ =? _) = false |- _ => apply Z.eqb_neq in H
  | H : String.eqb _ _ = true |- _ => apply String.eqb_eq in H
  | H : String.eqb _ _ = false |- _ => apply String.eqb_neq in H
  end.

(** Splits on the scrutinee of the first [match] or [if] of the goal. *)
Ltac split_match :=
  match goal with
  | |- context [match ?x with _ => _ end] =>
      lazymatch x with
      | context [match _ with _ => _ end] => fail
      | _ => let E := fresh "E" in destruct x eqn:E
      end
  end.

(** ** Lists and options *)
Lemma find_some_elem {A} (f : A → bool) l x :
  List.find f l = Some x → x ∈ l ∧ f x = true.
Proof. intros [? ?]%List.find_some. by rewrite list_elem_of_In. Qed.

Lemma find_none_elem {A} (f : A → bool) l x :
  List.find f l = None → x ∈ l → f x = false.
Proof. intros H ?%list_elem_of_In. by eapply List.find_none. Qed.

Lemma existsb_elem {A} (f : A → bool) l :
  existsb f l = true ↔ ∃ x, x ∈ l ∧ f x = true.
Proof.
  rewrite existsb_exists. split; intros (x & ? & ?); exists x;
    by rewrite ?list_elem_of_In in *.
Qed.

(** Elements of a list without repeated keys are determined by their keys. *)
Lemma NoDup_fmap_inj {A B} (key : A → B) l x y :
  NoDup (key <$> l) → x ∈ l → y ∈ l → key x = key y → x = y.
Proof.
  induction l as [|a l IH]; [by intros _ ?%elem_of_nil|]. rewrite fmap_cons, NoDup_cons.
  intros [Hn Hd] [->|Hx]%elem_of_cons [->|Hy]%elem_of_cons E; [done|..].
  - destruct Hn. rewrite E. by apply list_elem_of_fmap_2.
  - destruct Hn. rewrite <-E. by apply list_elem_of_fmap_2.
  - by apply IH.
Qed.

Lemma forallb_elem {A} (f : A → bool) l :
  forallb f l = true ↔ ∀ x, x ∈ l → f x = true.
Proof.
  rewrite forallb_forall. split; intros H x Hx; apply H;
    by rewrite ?list_elem_of_In in *.
Qed.
