(* ===== verification/GoStd.v ===== *)
(** The part of the Go language and standard library the sources use: byte
    strings and UTF-8, [strings], [strconv], [fmt]'s [%q], [time.ParseDuration],
    [crypto/sha256] and [encoding/hex].  A Go string is a byte string, which is
    what [string] is here.  The Unicode tables above ASCII and the texts of
    library errors are a parameter (class [GoRuntime]). *)
From Stdlib Require Import ZArith Ascii String DecimalString DecimalZ.
From stdpp Require Import base gmap strings list numbers sorting.
From S2P Require Import Prelude.

Open Scope string_scope.
Open Scope list_scope.
Open Scope Z_scope.

(** ** Bytes *)
Definition bv (c : ascii) : Z := Z.of_N (N_of_ascii c).
Definition chr (z : Z) : ascii := ascii_of_N (Z.to_N z).

Lemma bv_range c : 0 ≤ bv c < 256.
Proof. unfold bv. pose proof (N_ascii_bounded c). lia. Qed.

Lemma chr_bv c : chr (bv c) = c.
Proof. unfold chr, bv. rewrite N2Z.id. apply ascii_N_embedding. Qed.

Lemma bv_inj c d : bv c = bv d → c = d.
Proof. intros H. by rewrite <- (chr_bv c), <- (chr_bv d), H. Qed.

(** ** Appending *)
Lemma str_app_cons c p t : String c p +:+ t = String c (p +:+ t).
Proof. reflexivity. Qed.
Lemma str_app_nil_l t : "" +:+ t = t.
Proof. reflexivity. Qed.
Lemma str_app_nil_r p : p +:+ "" = p.
Proof. induction p as [|c p IH]; [done|]. by rewrite str_app_cons, IH. Qed.
Lemma str_app_assoc p q r : (p +:+ q) +:+ r = p +:+ (q +:+ r).
Proof. induction p as [|c p IH]; [done|]. by rewrite !str_app_cons, IH. Qed.
Lemma str_length_app p q :
  String.length (p +:+ q) = (String.length p + String.length q)%nat.
Proof. induction p as [|c p IH]; [done|]. rewrite str_app_cons. cbn. by rewrite IH. Qed.
Lemma str_app_inj p q r : p +:+ q = p +:+ r → q = r.
Proof. induction p as [|c p IH]; [done|]. rewrite !str_app_cons. intros [=]. eauto. Qed.
#[export] Hint Rewrite str_app_cons str_app_nil_l str_app_nil_r str_app_assoc : baker.

Definition between (lo c hi : Z) : bool := (lo <=? c) && (c <=? hi).

Fixpoint string_forallb (f : ascii → bool) (s : string) : bool :=
  match s with "" => true | String c s' => f c && string_forallb f s' end.

Definition is_ascii : string → bool := string_forallb (λ c, bv c <? 128).

(** ** UTF-8

    [decode s] splits [s] the way [for range s] does: the runes with the bytes
    each was read from, an ill-formed byte standing for U+FFFD on its own. *)
Definition RuneError : Z := 0xFFFD.
Definition cont (b : Z) : bool := between 0x80 b 0xBF.
Definition valid2 (b0 b1 : Z) : bool := between 0xC2 b0 0xDF && cont b1.
Definition valid3 (b0 b1 b2 : Z) : bool :=
  between 0xE0 b0 0xEF &&
  between (if b0 =? 0xE0 then 0xA0 else 0x80) b1
          (if b0 =? 0xED then 0x9F else 0xBF) && cont b2.
Definition valid4 (b0 b1 b2 b3 : Z) : bool :=
  between 0xF0 b0 0xF4 &&
  between (if b0 =? 0xF0 then 0x90 else 0x80) b1
          (if b0 =? 0xF4 then 0x8F else 0xBF) && cont b2 && cont b3.

Definition s1 (a : ascii) : string := String a "".
Definition s2 (a b : ascii) : string := String a (s1 b).
Definition s3 (a b c : ascii) : string := String a (s2 b c).
Definition s4 (a b c d : ascii) : string := String a (s3 b c d).

Definition lo6 (b : Z) : Z := b - 0x80.

Fixpoint decode (s : string) : list (Z * string) :=
  match s with
  | "" => []
  | String a t1 =>
      if bv a <? 128 then (bv a, s1 a) :: decode t1 else
      match t1 with
      | "" => [(RuneError, s1 a)]
      | String b t2 =>
          if valid2 (bv a) (bv b)
          then ((bv a - 0xC0) * 64 + lo6 (bv b), s2 a b) :: decode t2 else
          match t2 with
          | "" => (RuneError, s1 a) :: decode t1
          | String c t3 =>
              if valid3 (bv a) (bv b) (bv c)
              then ((bv a - 0xE0) * 4096 + lo6 (bv b) * 64 + lo6 (bv c), s3 a b c)
                     :: decode t3 else
              match t3 with
              | "" => (RuneError, s1 a) :: decode t1
              | String d t4 =>
                  if valid4 (bv a) (bv b) (bv c) (bv d)
                  then ((bv a - 0xF0) * 262144 + lo6 (bv b) * 4096
                        + lo6 (bv c) * 64 + lo6 (bv d), s4 a b c d) :: decode t4
                  else (RuneError, s1 a) :: decode t1
              end
          end
      end
  end.

(** [utf8.AppendRune]: surrogates and out-of-range runes encode as U+FFFD. *)
Definition encode3 (r : Z) : string :=
  s3 (chr (0xE0 + r / 4096)) (chr (0x80 + (r / 64) mod 64)) (chr (0x80 + r mod 64)).
Definition encode_rune (r : Z) : string :=
  if between 0 r 0x7F then s1 (chr r)
  else if between 0x80 r 0x7FF then s2 (chr (0xC0 + r / 64)) (chr (0x80 + r mod 64))
  else if between 0x800 r 0xD7FF || between 0xE000 r 0xFFFF then encode3 r
  else if between 0x10000 r 0x10FFFF then
    s4 (chr (0xF0 + r / 262144)) (chr (0x80 + (r / 4096) mod 64))
       (chr (0x80 + (r / 64) mod 64)) (chr (0x80 + r mod 64))
  else encode3 RuneError.

Definition concat_strings (l : list string) : string := foldr String.append "" l.
Lemma concat_strings_nil : concat_strings [] = "".
Proof. reflexivity. Qed.
Lemma concat_strings_cons x l : concat_strings (x :: l) = x +:+ concat_strings l.
Proof. reflexivity. Qed.

(** What the model leaves to the Go runtime: the Unicode tables of package
    [unicode] above U+007F, and the texts of standard-library errors, which the
    program only copies into messages. *)
Class GoRuntime := {
  uni_lower : Z → Z;              (* unicode.ToLower *)
  uni_fold_eq : Z → Z → bool;     (* same unicode.SimpleFold orbit *)
  uni_print : Z → bool;           (* strconv.IsPrint *)
  duration_error_text : string → string;  (* of time.ParseDuration *)
  url_error_text : string → string;       (* of url.Parse *)
  (* the treatment by url.Parse of a host that has brackets or several colons,
     which differs between Go releases: scheme, host[:port] -> u.Host *)
  url_odd_host : string → string → option string;
}.

(** A concrete table, for evaluation: no case above ASCII, all printable. *)
Definition ascii_only_tables : GoRuntime :=
  {| uni_lower r := r; uni_fold_eq := Z.eqb; uni_print _ := true;
     duration_error_text _ := "time: invalid duration";
     url_error_text _ := "parse error"; url_odd_host _ _ := None |}.

(** The order in which [range] visits a map, which the language leaves open: some
    arrangement of the entries. *)
Class MapOrder := {
  range_map : ∀ {V : Type}, gmap string V → list (string * V);
  range_map_perm : ∀ (V : Type) (m : gmap string V), range_map m ≡ₚ map_to_list m;
}.
Definition some_order : MapOrder :=
  {| range_map V m := map_to_list m; range_map_perm V m := Permutation_refl _ |}.

Lemma range_map_elem `{MapOrder} {V} (m : gmap string V) k v :
  (k, v) ∈ range_map m ↔ m !! k = Some v.
Proof. by rewrite range_map_perm, elem_of_map_to_list. Qed.

(** ** Package strings *)
Fixpoint HasPrefix (s prefix : string) {struct prefix} : bool :=
  match prefix with
  | "" => true
  | String c p' =>
      match s with
      | "" => false
      | String d s' => Ascii.eqb c d && HasPrefix s' p'
      end
  end.

(** [strings.Index]; [None] is Go's -1. *)
Fixpoint Index (s sub : string) : option nat :=
  if HasPrefix s sub then Some 0%nat
  else match s with "" => None | String _ s' => S <$> Index s' sub end.

Definition Contains (s sub : string) : bool := bool_decide (is_Some (Index s sub)).

Fixpoint drop (n : nat) (s : string) : string :=
  match n, s with
  | O, _ => s
  | S n', String _ s' => drop n' s'
  | S _, "" => ""
  end.

Fixpoint take (n : nat) (s : string) : string :=
  match n, s with
  | S n', String c s' => String c (take n' s')
  | _, _ => ""
  end.

(** [strings.LastIndex] of a one-byte separator. *)
Fixpoint LastIndexByte (s : string) (c : ascii) : option nat :=
  match s with
  | "" => None
  | String d s' =>
      match LastIndexByte s' c with
      | Some i => Some (S i)
      | None => if Ascii.eqb c d then Some 0%nat else None
      end
  end.

Fixpoint IndexByte (s : string) (c : ascii) : option nat :=
  match s with
  | "" => None
  | String d s' => if Ascii.eqb c d then Some 0%nat else S <$> IndexByte s' c
  end.

(** [strings.Split] on a one-byte separator: never empty. *)
Fixpoint SplitByte (s : string) (c : ascii) : list string :=
  match s with
  | "" => [""]
  | String d s' =>
      if Ascii.eqb c d then "" :: SplitByte s' c
      else match SplitByte s' c with
           | w :: ws => String d w :: ws
           | [] => [String d ""]
           end
  end.

Fixpoint Join (l : list string) (sep : string) : string :=
  match l with
  | [] => ""
  | [x] => x
  | x :: l' => x +:+ sep +:+ Join l' sep
  end.

(** The text after the byte [c], if [s] starts with it. *)
Definition after (c : ascii) (s : string) : option string :=
  match s with String d r => if Ascii.eqb c d then Some r else None | "" => None end.

Definition CutPrefix (s prefix : string) : string * bool :=
  if HasPrefix s prefix then (drop (String.length prefix) s, true) else (s, false).

(** The encodings of the runes [unicode.IsSpace] accepts. *)
Definition space_seqs : list string :=
  map encode_rune
    ([0x09; 0x0A; 0x0B; 0x0C; 0x0D; 0x20; 0x85; 0xA0; 0x1680; 0x2028; 0x2029;
      0x202F; 0x205F; 0x3000] ++ seqZ 0x2000 11).

Definition space_prefix (s : string) : option string :=
  List.find (HasPrefix s) space_seqs.

(** [strings.TrimLeftFunc(s, unicode.IsSpace)]; the fuel is the length. *)
Fixpoint trim_left (fuel : nat) (s : string) : string :=
  match fuel with
  | O => s
  | S f => match space_prefix s with
           | Some p => trim_left f (drop (String.length p) s)
           | None => s
           end
  end.

Definition HasSuffix (s suffix : string) : bool :=
  (String.length suffix <=? String.length s)%nat &&
  String.eqb (drop (String.length s - String.length suffix) s) suffix.

Definition space_suffix (s : string) : option string :=
  List.find (HasSuffix s) space_seqs.

Fixpoint trim_right (fuel : nat) (s : string) : string :=
  match fuel with
  | O => s
  | S f => match space_suffix s with
           | Some p => trim_right f (take (String.length s - String.length p) s)
           | None => s
           end
  end.

Definition TrimSpace (s : string) : string :=
  let l := trim_left (String.length s) s in trim_right (String.length l) l.

Definition lower_byte (c : ascii) : ascii :=
  if between 65 (bv c) 90 then chr (bv c + 32) else c.

Fixpoint string_map (f : ascii → ascii) (s : string) : string :=
  match s with "" => "" | String c s' => String (f c) (string_map f s') end.

Section unicode.
Context `{GoRuntime}.

Definition lower_rune (r : Z) : Z :=
  if r <? 128 then (if between 65 r 90 then r + 32 else r) else uni_lower r.

(** [strings.ToLower]: bytewise on ASCII, else [strings.Map(unicode.ToLower)]. *)
Definition ToLower (s : string) : string :=
  if is_ascii s then string_map lower_byte s
  else concat_strings (map (λ '(r, _), encode_rune (lower_rune r)) (decode s)).

Definition fold_eq (r q : Z) : bool :=
  if (r <? 128) && (q <? 128) then lower_rune r =? lower_rune q
  else (r =? q) || uni_fold_eq r q.

Fixpoint fold_eq_list (l k : list (Z * string)) : bool :=
  match l, k with
  | [], [] => true
  | (r, _) :: l', (q, _) :: k' => fold_eq r q && fold_eq_list l' k'
  | _, _ => false
  end.

Definition EqualFold (s t : string) : bool := fold_eq_list (decode s) (decode t).

(** [strconv.Quote], the [%q] verb. *)
Definition hex_digit (z : Z) : ascii :=
  if z <? 10 then chr (48 + z) else chr (87 + z).
Definition hex2 (z : Z) : string := s2 (hex_digit (z / 16 mod 16)) (hex_digit (z mod 16)).
Definition hex4 (z : Z) : string := hex2 (z / 256 mod 256) +:+ hex2 (z mod 256).

Definition is_print (r : Z) : bool :=
  if r <? 128 then between 0x20 r 0x7E else uni_print r.

Definition bs : ascii := chr 92.

Definition quote_rune (r : Z) (raw : string) : string :=
  match raw with
  | String a "" =>
      if 128 <=? bv a then s2 bs "x" +:+ hex2 (bv a)
      else if (r =? 34) || (r =? 92) then s2 bs a
      else if is_print r then raw
      else if r =? 7 then s2 bs "a" else if r =? 8 then s2 bs "b"
      else if r =? 12 then s2 bs "f" else if r =? 10 then s2 bs "n"
      else if r =? 13 then s2 bs "r" else if r =? 9 then s2 bs "t"
      else if r =? 11 then s2 bs "v"
      else s2 bs "x" +:+ hex2 r
  | _ =>
      if is_print r then raw
      else if r <? 0x10000 then s2 bs "u" +:+ hex4 r
      else s2 bs "U" +:+ hex4 (r / 65536) +:+ hex4 (r mod 65536)
  end.

Definition dquote : string := s1 (chr 34).
Definition Quote (s : string) : string :=
  dquote +:+ concat_strings (map (λ '(r, raw), quote_rune r raw) (decode s)) +:+ dquote.
End unicode.

(** ** Byte classes along strings *)
Lemma string_forallb_app f s t :
  string_forallb f (s +:+ t) = string_forallb f s && string_forallb f t.
Proof.
  induction s as [|c s IH]; [done|]. rewrite str_app_cons. cbn. by rewrite IH, andb_assoc.
Qed.

Lemma string_forallb_impl (f g : ascii → bool) s :
  (∀ c, f c = true → g c = true) → string_forallb f s = true → string_forallb g s = true.
Proof.
  intros Hfg. induction s as [|c s IH]; cbn; [done|].
  intros [? ?]%andb_true_iff. apply andb_true_iff. auto.
Qed.

Definition avoids (c : ascii) : string → bool := string_forallb (λ d, negb (Ascii.eqb c d)).

(** Splitting undoes joining, when no part contains the separator. *)
Lemma SplitByte_avoids c s : avoids c s = true → SplitByte s c = [s].
Proof.
  induction s as [|d s IH]; [done|]. cbn. intros [Hc Hs]%andb_true_iff.
  apply negb_true_iff in Hc. by rewrite Hc, IH.
Qed.
Lemma SplitByte_app c a b : avoids c a = true → SplitByte (a +:+ String c b) c = a :: SplitByte b c.
Proof.
  induction a as [|d a IH]; [intros _; rewrite str_app_nil_l; cbn [SplitByte]; by rewrite Ascii.eqb_refl|].
  rewrite str_app_cons. cbn. intros [Hc Hs]%andb_true_iff. apply negb_true_iff in Hc. by rewrite Hc, IH.
Qed.
Lemma SplitByte_Join c l : l ≠ [] → forallb (avoids c) l = true → SplitByte (Join l (s1 c)) c = l.
Proof.
  induction l as [|a l IH]; [done|]. intros _ [Ha Hl]%andb_true_iff.
  destruct l as [|b l]; [by apply SplitByte_avoids|].
  change (Join (a :: b :: l) (s1 c)) with (a +:+ String c (Join (b :: l) (s1 c))).
  by rewrite SplitByte_app, IH.
Qed.
