(* ===== verification/GoNum.v ===== *)
(** Numbers in Go: [strconv.Itoa], [strconv.ParseInt], [time.ParseDuration]
    (with the float64 arithmetic it uses for fractions) and the integer
    operators [/] and [%], with the laws the components use. *)
From Stdlib Require Import ZArith Ascii String.
From Stdlib Require Import SpecFloat.
From stdpp Require Import base gmap strings list numbers sorting.
From S2P Require Import Prelude GoStd.

Open Scope string_scope.
Open Scope list_scope.
Open Scope Z_scope.

(** ** Decimal printing *)
(** [strconv.Itoa] / [strconv.FormatInt(n, 10)] / the [%d] verb. *)
Fixpoint itoa_loop (fuel : nat) (n : Z) (acc : string) : string :=
  match fuel with
  | O => acc
  | S f =>
      if n <? 10 then String (chr (48 + n)) acc
      else itoa_loop f (n / 10) (String (chr (48 + n mod 10)) acc)
  end.
Definition itoa_fuel (n : Z) : nat := S (Z.to_nat (Z.log2 n)).
Definition Itoa (n : Z) : string :=
  if n <? 0 then String (chr 45) (itoa_loop (itoa_fuel (- n)) (- n) "")
  else itoa_loop (itoa_fuel n) n "".

(** ** strconv.ParseInt(s, 10, 64) *)
Inductive NumError := ErrSyntax | ErrRange.
#[global] Instance NumError_eq_dec : EqDecision NumError.
Proof. solve_decision. Defined.

Definition digit (c : ascii) : option Z :=
  if between 48 (bv c) 57 then Some (bv c - 48) else None.

Definition u64_max : Z := 2 ^ 64 - 1.

(** The digit loop of [ParseUint]: a range error is reported as soon as the
    value leaves 64 bits, before the rest of the text is looked at. *)
Fixpoint parse_digits (acc : Z) (s : string) : Z * option NumError :=
  match s with
  | "" => (acc, None)
  | String c s' =>
      match digit c with
      | None => (0, Some ErrSyntax)
      | Some d =>
          if u64_max <? acc * 10 + d then (u64_max, Some ErrRange)
          else parse_digits (acc * 10 + d) s'
      end
  end.

Definition ParseUint (s : string) : Z * option NumError :=
  match s with "" => (0, Some ErrSyntax) | _ => parse_digits 0 s end.

Definition split_sign (s : string) : bool * string :=
  match s with
  | String c s' =>
      if bv c =? 43 then (false, s') else if bv c =? 45 then (true, s') else (false, s)
  | "" => (false, s)
  end.

Definition ParseInt (s : string) : Z * option NumError :=
  match s with
  | "" => (0, Some ErrSyntax)
  | _ =>
      let '(neg, digits) := split_sign s in
      match ParseUint digits with
      | (_, Some ErrSyntax) => (0, Some ErrSyntax)
      | (un, _) =>
          if negb neg && (2 ^ 63 <=? un) then (2 ^ 63 - 1, Some ErrRange)
          else if neg && (2 ^ 63 <? un) then (- 2 ^ 63, Some ErrRange)
          else ((if neg then - un else un), None)
      end
  end.

Definition parse_int_ok (s : string) : option Z :=
  match ParseInt s with (n, None) => Some n | _ => None end.

(** ** fmt's [%.1f]

    of the quotient n/div of naturals that a float64 holds exactly: rounded to
    tenths, halves to even. *)
Definition one_decimal (n div : Z) : string :=
  let q := 10 * n / div in
  let rem := 10 * n mod div in
  let t := if 2 * rem <? div then q else if div <? 2 * rem then q + 1
           else if Z.even q then q else q + 1 in
  Itoa (t / 10) +:+ "." +:+ Itoa (t mod 10).

(** ** float64

    Package [time] multiplies a fraction in float64; [SpecFloat] gives the
    IEEE binary64 operations on integers. *)
Definition f64 := spec_float.
Definition f64_of_Z (n : Z) : f64 := binary_normalize 53 1024 n 0 false.
Definition f64_mul : f64 → f64 → f64 := SFmul 53 1024.
Definition f64_div : f64 → f64 → f64 := SFdiv 53 1024.
(** Conversion to an unsigned integer truncates toward zero. *)
Definition u64_of_f64 (x : f64) : Z :=
  match x with
  | S754_finite false m e =>
      if 0 <=? e then Z.pos m * 2 ^ e else Z.pos m / 2 ^ (- e)
  | _ => 0
  end.

(** ** time.ParseDuration *)
Definition Nanosecond : Z := 1.
Definition Microsecond : Z := 1000.
Definition Millisecond : Z := 1000000.
Definition Second : Z := 1000000000.
Definition Minute : Z := 60 * Second.
Definition Hour : Z := 60 * Minute.

Definition unit_ns (u : string) : option Z :=
  if decide (u = "ns") then Some Nanosecond
  else if decide (u = "us" ∨ u = encode_rune 0xB5 +:+ "s" ∨ u = encode_rune 0x3BC +:+ "s")
  then Some Microsecond
  else if decide (u = "ms") then Some Millisecond
  else if decide (u = "s") then Some Second
  else if decide (u = "m") then Some Minute
  else if decide (u = "h") then Some Hour
  else None.

(** [leadingInt]: [None] is its overflow error. *)
Fixpoint leadingInt (x : Z) (s : string) : option (Z * string) :=
  match s with
  | "" => Some (x, "")
  | String c s' =>
      match digit c with
      | None => Some (x, s)
      | Some d =>
          if 2 ^ 63 / 10 <? x then None
          else if 2 ^ 63 <? x * 10 + d then None
          else leadingInt (x * 10 + d) s'
      end
  end.

Fixpoint leadingFraction (overflow : bool) (x : Z) (scale : f64) (s : string)
    : Z * f64 * string :=
  match s with
  | "" => (x, scale, "")
  | String c s' =>
      match digit c with
      | None => (x, scale, s)
      | Some d =>
          if overflow then leadingFraction true x scale s'
          else if (2 ^ 63 - 1) / 10 <? x then leadingFraction true x scale s'
          else if 2 ^ 63 <? x * 10 + d then leadingFraction true x scale s'
          else leadingFraction false (x * 10 + d) (f64_mul scale (f64_of_Z 10)) s'
      end
  end.

Definition unit_char (c : ascii) : bool :=
  negb (bool_decide (is_Some (digit c))) && negb (bv c =? 46).

Fixpoint span_unit (s : string) : string * string :=
  match s with
  | String c s' =>
      if unit_char c then let '(u, r) := span_unit s' in (String c u, r) else ("", s)
  | "" => ("", "")
  end.

Definition starts_number (s : string) : bool :=
  match s with
  | String c _ => (bv c =? 46) || bool_decide (is_Some (digit c))
  | "" => false
  end.

(** One [number unit] term: its length in nanoseconds and the rest. *)
Definition duration_term (s : string) : option (Z * string) :=
  if negb (starts_number s) then None else
  '(v, r) ← leadingInt 0 s;
  let pre := negb (String.length s =? String.length r)%nat in
  let '(f, scale, r', post) :=
    match r with
    | String c r1 =>
        if bv c =? 46 then
          let '(f, scale, r2) := leadingFraction false 0 (f64_of_Z 1) r1 in
          (f, scale, r2, negb (String.length r1 =? String.length r2)%nat)
        else (0, f64_of_Z 1, r, false)
    | "" => (0, f64_of_Z 1, r, false)
    end in
  if negb pre && negb post then None else
  let '(u, rest) := span_unit r' in
  match u with
  | "" => None
  | _ =>
      unit ← unit_ns u;
      if 2 ^ 63 / unit <? v then None else
      let v' := v * unit in
      let v'' := if 0 <? f
                 then v' + u64_of_f64 (f64_mul (f64_of_Z f) (f64_div (f64_of_Z unit) scale))
                 else v' in
      if (0 <? f) && (2 ^ 63 <? v'') then None else Some (v'', rest)
  end.

(** The term loop.  [None] means the fuel ran out, [Some None] a parse error. *)
Fixpoint duration_loop (fuel : nat) (d : Z) (s : string) : option (option Z) :=
  match s with
  | "" => Some (Some d)
  | _ =>
      match fuel with
      | O => None
      | S fuel' =>
          match duration_term s with
          | None => Some None
          | Some (v, rest) =>
              if 2 ^ 63 <? d + v then Some None else duration_loop fuel' (d + v) rest
          end
      end
  end.

Definition ParseDuration (s : string) : option Z :=
  let '(neg, t) := split_sign s in
  if decide (t = "0") then Some 0
  else if decide (t = "") then None
  else match duration_loop (String.length t) 0 t with
       | Some (Some d) =>
           if neg then Some (- d) else if 2 ^ 63 - 1 <? d then None else Some d
       | _ => None
       end.


(** ** Laws *)
Lemma digit_chr d : 0 ≤ d < 10 → digit (chr (48 + d)) = Some d.
Proof.
  intros ?. unfold digit, bv, chr.
  rewrite N_ascii_embedding by lia. rewrite Z2N.id by lia.
  unfold between. replace (48 <=? 48 + d) with true by (symmetry; apply Z.leb_le; lia).
  replace (48 + d <=? 57) with true by (symmetry; apply Z.leb_le; lia).
  cbn. f_equal. lia.
Qed.

(** The digits [Itoa] prints, read back by any left-to-right decimal reader
    that starts at 0: one lemma for [ParseUint] and [leadingInt]. *)
Section decimal_reader.
Context {R : Type} (rd : Z → string → R) (bound : Z).
Hypothesis rd_digit : ∀ x d s, 0 ≤ x → 0 ≤ d < 10 → x * 10 + d ≤ bound →
  rd x (String (chr (48 + d)) s) = rd (x * 10 + d) s.

Lemma read_itoa_loop fuel n acc :
  0 ≤ n ≤ bound → n < 10 ^ Z.of_nat fuel → rd 0 (itoa_loop fuel n acc) = rd n acc.
Proof using rd_digit.
  revert n acc. induction fuel as [|fuel IH]; intros n acc Hn Hf.
  { cbn in *. by replace n with 0 by lia. }
  rewrite Nat2Z.inj_succ, Z.pow_succ_r in Hf by lia. cbn [itoa_loop].
  destruct (n <? 10) eqn:E; breflect.
  { rewrite rd_digit by lia. reflexivity. }
  pose proof (Z.div_mod n 10). pose proof (Z.mod_pos_bound n 10).
  rewrite IH.
  - rewrite rd_digit by lia. f_equal. lia.
  - split; [apply Z.div_pos; lia|]. lia.
  - apply Z.div_lt_upper_bound; lia.
Qed.

Lemma itoa_fuel_enough n : 0 ≤ n → n < 10 ^ Z.of_nat (itoa_fuel n).
Proof using.
  intros ?. unfold itoa_fuel.
  rewrite Nat2Z.inj_succ, Z2Nat.id by apply Z.log2_nonneg.
  destruct (decide (n = 0)) as [->|]; [reflexivity|].
  destruct (Z.log2_spec n) as [_ ?]; [lia|].
  pose proof (Z.pow_le_mono_l 2 10 (Z.succ (Z.log2 n)) ltac:(lia)). lia.
Qed.

Lemma read_Itoa n acc :
  0 ≤ n ≤ bound → rd 0 (itoa_loop (itoa_fuel n) n acc) = rd n acc.
Proof using rd_digit.
  intros ?. apply read_itoa_loop; [lia|]. apply itoa_fuel_enough; lia.
Qed.
End decimal_reader.

Lemma itoa_loop_app fuel n acc t :
  itoa_loop fuel n acc +:+ t = itoa_loop fuel n (acc +:+ t).
Proof.
  revert n acc. induction fuel as [|fuel IH]; intros n acc; [done|]. cbn.
  destruct (n <? 10); [done|]. by rewrite IH.
Qed.

(** The first character of a printed natural number is a digit. *)
Lemma itoa_loop_head fuel n acc : 0 ≤ n → (0 < fuel)%nat →
  ∃ d t, 0 ≤ d < 10 ∧ itoa_loop fuel n acc = String (chr (48 + d)) t.
Proof.
  revert n acc. induction fuel as [|[|fuel] IH]; intros n acc Hn Hf; [lia|..].
  - cbn. pose proof (Z.mod_pos_bound n 10). destruct (n <? 10) eqn:E; breflect.
    + exists n, acc. split; [lia|done].
    + exists (n mod 10), acc. split; [lia|done].
  - cbn [itoa_loop] in *. destruct (n <? 10) eqn:E; breflect.
    + exists n, acc. split; [lia|done].
    + apply IH; [apply Z.div_pos; lia | lia].
Qed.

Lemma chr_digit_bv d : 0 ≤ d < 10 → bv (chr (48 + d)) = 48 + d.
Proof. intros ?. unfold bv, chr. rewrite N_ascii_embedding, Z2N.id; lia. Qed.

Lemma split_sign_digit d t : 0 ≤ d < 10 →
  split_sign (String (chr (48 + d)) t) = (false, String (chr (48 + d)) t).
Proof.
  intros ?. cbn. rewrite chr_digit_bv by done.
  by rewrite (proj2 (Z.eqb_neq (48 + d) 43)), (proj2 (Z.eqb_neq (48 + d) 45)) by lia.
Qed.

Lemma ParseUint_Itoa n : 0 ≤ n ≤ u64_max →
  ParseUint (itoa_loop (itoa_fuel n) n "") = (n, None).
Proof.
  intros Hn. destruct (itoa_loop_head (itoa_fuel n) n "") as (d & t & Hd & E);
    [lia | unfold itoa_fuel; lia|].
  unfold ParseUint. rewrite E, <- E.
  rewrite (read_Itoa parse_digits u64_max); [done| |done].
  intros x c s Hx Hc Hb. cbn [parse_digits]. rewrite digit_chr by done.
  by rewrite (proj2 (Z.ltb_ge _ _)) by lia.
Qed.

(** Printing then parsing an [int64] gives it back. *)
Lemma ParseInt_Itoa n : in_i64 n → ParseInt (Itoa n) = (n, None).
Proof.
  unfold in_i64, i64_min, i64_max. intros Hn. unfold Itoa.
  destruct (n <? 0) eqn:E; breflect.
  - cbn [ParseInt]. change (split_sign (String (chr 45) ?t)) with (true, t).
    cbn beta iota. rewrite ParseUint_Itoa by (unfold u64_max; lia).
    cbn. rewrite (proj2 (Z.ltb_ge _ _)) by lia. f_equal. lia.
  - destruct (itoa_loop_head (itoa_fuel n) n "") as (d & t & Hd & Hs);
      [lia | unfold itoa_fuel; lia|].
    unfold ParseInt. rewrite Hs, split_sign_digit by done. rewrite <- Hs.
    rewrite ParseUint_Itoa by (unfold u64_max; lia).
    cbn. rewrite (proj2 (Z.leb_gt _ _)) by lia. done.
Qed.

Lemma Itoa_inj n m : in_i64 n → in_i64 m → Itoa n = Itoa m → n = m.
Proof.
  intros ?%ParseInt_Itoa Hm%ParseInt_Itoa E. rewrite E in *. congruence.
Qed.

(** *** ParseDuration terminates within its fuel *)
Lemma leadingInt_length x s v r :
  leadingInt x s = Some (v, r) → (String.length r ≤ String.length s)%nat.
Proof.
  revert x. induction s as [|c s IH]; intros x; cbn; [naive_solver|].
  repeat split_match; intros; simplify_eq; cbn; try lia. apply IH in H. lia.
Qed.

Lemma leadingFraction_length o x sc s v sc' r :
  leadingFraction o x sc s = (v, sc', r) → (String.length r ≤ String.length s)%nat.
Proof.
  revert o x sc. induction s as [|c s IH]; intros o x sc; cbn; [naive_solver|].
  repeat split_match; intros; simplify_eq; cbn; try lia; apply IH in H; lia.
Qed.

Lemma span_unit_length s u r :
  span_unit s = (u, r) → String.length s = (String.length u + String.length r)%nat.
Proof.
  revert u r. induction s as [|c s IH]; intros u r; cbn; [naive_solver|].
  destruct (unit_char c); [|naive_solver].
  destruct (span_unit s) as [u' r'] eqn:E. intros [= <- <-]. cbn.
  by rewrite (IH _ _ eq_refl).
Qed.

Lemma duration_term_consumes s v r :
  duration_term s = Some (v, r) → (String.length r < String.length s)%nat.
Proof.
  unfold duration_term. destruct (starts_number s); [|done]. cbn [negb].
  intros ([w t] & Hi & H)%bind_Some. apply leadingInt_length in Hi.
  match type of H with
  | (let '_ := ?m in _) = _ => destruct m as [[[f sc] t'] post] eqn:Et
  end.
  assert (String.length t' ≤ String.length t)%nat.
  { destruct t as [|c t1]; [by simplify_eq|]. destruct (bv c =? 46); [|by simplify_eq].
    destruct (leadingFraction _ _ _ _) as [[f' sc''] t2] eqn:Ef. simplify_eq.
    apply leadingFraction_length in Ef. cbn. lia. }
  destruct (negb _ && negb post); [done|].
  destruct (span_unit t') as [u rest] eqn:Eu. apply span_unit_length in Eu.
  destruct u; [done|]. apply bind_Some in H as (un & _ & H).
  repeat case_match; simplify_eq; cbn in *; lia.
Qed.

Lemma duration_loop_total fuel d s :
  (String.length s ≤ fuel)%nat → is_Some (duration_loop fuel d s).
Proof.
  revert d s. induction fuel as [|fuel IH]; intros d [|c s] Hl; cbn in *;
    try lia; eauto.
  destruct (duration_term _) as [[v r]|] eqn:E; [|eauto].
  apply duration_term_consumes in E. cbn in E.
  case_match; [eauto|]. apply IH. lia.
Qed.

(** *** A whole number with one unit *)
Lemma leadingInt_Itoa n c t : 0 ≤ n ≤ 2 ^ 63 → digit c = None →
  leadingInt 0 (itoa_loop (itoa_fuel n) n (String c t)) = Some (n, String c t).
Proof.
  intros Hn Hc. rewrite (read_Itoa leadingInt (2 ^ 63)).
  - cbn. by rewrite Hc.
  - intros x d s Hx Hd Hb. cbn [leadingInt]. rewrite digit_chr by done.
    rewrite (proj2 (Z.ltb_ge _ _)), (proj2 (Z.ltb_ge _ _)); [done|lia|].
    apply Z.div_le_lower_bound; lia.
  - done.
Qed.

Lemma itoa_loop_length fuel n acc : 0 ≤ n → (0 < fuel)%nat →
  (String.length acc < String.length (itoa_loop fuel n acc))%nat.
Proof.
  revert n acc. induction fuel as [|[|fuel] IH]; intros n acc Hn Hf; [lia|..].
  - cbn. destruct (n <? 10); cbn; lia.
  - cbn [itoa_loop] in *. destruct (n <? 10) eqn:E; breflect; [cbn; lia|].
    eapply Nat.lt_trans; [|apply IH; [apply Z.div_pos; lia|lia]]. cbn. lia.
Qed.

Lemma ParseDuration_Itoa_unit n u unit :
  0 ≤ n → n * unit < 2 ^ 63 → 0 < unit →
  unit_ns u = Some unit → span_unit u = (u, "") → u ≠ "" →
  ParseDuration (Itoa n +:+ u) = Some (n * unit).
Proof.
  intros Hn Hb Hu Hunit Hspan Hne. destruct u as [|c u]; [done|].
  assert (Hc : unit_char c = true).
  { cbn in Hspan. by destruct (unit_char c); [|simplify_eq]. }
  assert (Hd : digit c = None ∧ (bv c =? 46) = false).
  { unfold unit_char in Hc. apply andb_true_iff in Hc as [Hc1 ?%negb_true_iff].
    split; [|done]. destruct (digit c) eqn:Ed; [|done]. cbn in Hc1. done. }
  destruct Hd as [Hd Hdot].
  assert (Hi : Itoa n +:+ String c u = itoa_loop (itoa_fuel n) n (String c u)).
  { unfold Itoa. rewrite (proj2 (Z.ltb_ge _ _)) by done. by rewrite itoa_loop_app. }
  rewrite Hi. set (s := itoa_loop _ _ _).
  destruct (itoa_loop_head (itoa_fuel n) n (String c u)) as (d & t & Hdr & E);
    [lia | unfold itoa_fuel; lia |]. fold s in E.
  assert (Hlen : (String.length (String c u) < String.length s)%nat).
  { apply itoa_loop_length; [lia | unfold itoa_fuel; lia]. }
  assert (Hterm : duration_term s = Some (n * unit, "")).
  { unfold duration_term.
    assert (starts_number s = true) as ->.
    { rewrite E. cbn. rewrite digit_chr by done. apply orb_true_r. }
    cbn [negb]. unfold s. rewrite leadingInt_Itoa; [|nia|done]. fold s. cbn [mbind option_bind].
    rewrite Hdot. rewrite (proj2 (Nat.eqb_neq _ _)) by lia. cbn [negb andb].
    rewrite Hspan, Hunit. cbn [mbind option_bind].
    rewrite (proj2 (Z.ltb_ge _ _)); [|apply Z.div_le_lower_bound; nia].
    done. }
  unfold ParseDuration. rewrite E, split_sign_digit by done. rewrite <- E.
  rewrite decide_False; cycle 1.
  { intros E'. rewrite E' in Hlen. cbn in Hlen. lia. }
  rewrite decide_False by (rewrite E; done).
  assert (∃ fuel, String.length s = S fuel) as [fuel Ef].
  { destruct (String.length s); [cbn in Hlen; lia | eauto]. }
  rewrite Ef. assert (duration_loop (S fuel) 0 s = Some (Some (n * unit))) as ->.
  { rewrite E at 1. cbn [duration_loop]. rewrite <- E, Hterm.
    rewrite (proj2 (Z.ltb_ge _ _)) by lia. by destruct fuel. }
  by rewrite (proj2 (Z.ltb_ge _ _)) by lia.
Qed.
