(* ===== verification/GoTime.v ===== *)
(** Package time as the operator and the console use it: the calendar, RFC 3339
    texts in both directions, differences and the printed form of durations.  A
    time is a count of nanoseconds since the Unix epoch, always in UTC. *)
From Stdlib Require Import ZArith Ascii String.
From stdpp Require Import base gmap strings list numbers sorting.
From S2P Require Import Prelude GoStd GoNum.

Open Scope string_scope.
Open Scope list_scope.
Open Scope Z_scope.

(** ** The Gregorian calendar *)
Definition is_leap (y : Z) : bool :=
  (y mod 4 =? 0) && (negb (y mod 100 =? 0) || (y mod 400 =? 0)).
Definition leap_day (y : Z) : Z := if is_leap y then 1 else 0.
Definition daysIn (m y : Z) : Z :=
  if m =? 2 then 28 + leap_day y
  else if (m =? 4) || (m =? 6) || (m =? 9) || (m =? 11) then 30 else 31.
(** Days of the year before the first of month [m]. *)
Definition days_before_month (y m : Z) : Z :=
  nth (Z.to_nat (m - 1)) [0; 31; 59; 90; 120; 151; 181; 212; 243; 273; 304; 334] 0
  + (if 2 <? m then leap_day y else 0).
(** Days from 1 January of year 1 to 1 January of year [y]. *)
Definition days_before_year (y : Z) : Z :=
  365 * (y - 1) + (y - 1) / 4 - (y - 1) / 100 + (y - 1) / 400.
Definition day_of (y m d : Z) : Z := days_before_year y + days_before_month y m + (d - 1).
Definition epoch_day : Z := 719162.

(** The month and day of a day of the year: the last month that starts by then. *)
Fixpoint month_scan (fuel : nat) (y m yday : Z) : Z * Z :=
  match fuel with
  | O => (m, yday + 1)
  | S f => if yday <? daysIn m y then (m, yday + 1) else month_scan f y (m + 1) (yday - daysIn m y)
  end.
(** Year, month and day of a day counted from 1 January of year 1, through the
    cycles of 400, 100, 4 and 1 years. *)
Definition cycle_year (r : Z) : Z * Z :=
  let n100 := Z.min 3 (r / 36524) in
  let r100 := r - n100 * 36524 in
  let n4 := r100 / 1461 in
  let r4 := r100 mod 1461 in
  let n1 := Z.min 3 (r4 / 365) in
  (100 * n100 + 4 * n4 + n1 + 1, r4 - n1 * 365).
Definition civil (z : Z) : Z * Z * Z :=
  let '(y, yday) := cycle_year (z mod 146097) in
  let '(m, d) := month_scan 12 y 1 yday in
  (400 * (z / 146097) + y, m, d).

(** ** time.Time.Format(time.RFC3339) in UTC *)
Definition digit_of (n : Z) : ascii := chr (48 + n mod 10).
Definition pad2 (n : Z) : string := s2 (digit_of (n / 10)) (digit_of n).
Definition pad4 (n : Z) : string := pad2 (n / 100) +:+ pad2 (n mod 100).
(** [appendInt(b, y, 4)] *)
Definition year_text (y : Z) : string :=
  if y <? 0 then "-" +:+ (if - y <=? 9999 then pad4 (- y) else Itoa (- y))
  else if y <=? 9999 then pad4 y else Itoa y.

Definition second_of_day (t : Z) : Z := (t / Second) mod 86400.
Definition FormatRFC3339 (t : Z) : string :=
  let '(y, m, d) := civil (t / Second / 86400 + epoch_day) in
  let s := second_of_day t in
  year_text y +:+ String "-" (pad2 m +:+ String "-" (pad2 d +:+ String "T" (pad2 (s / 3600) +:+
  String ":" (pad2 (s / 60 mod 60) +:+ String ":" (pad2 (s mod 60) +:+ "Z"))))).

(** ** time.Parse(time.RFC3339, s)

    The strict parser that is tried first accepts a part of what the general one
    accepts, with the same value, so the general one decides: it also takes a
    one-digit hour, a comma before the fraction, and offsets up to 24:60. *)
Definition dig (s : string) : option (Z * string) :=
  match s with String c t => d ← digit c; Some (d, t) | "" => None end.
Definition num2 (s : string) : option (Z * string) :=
  '(a, t) ← dig s; '(b, u) ← dig t; Some (10 * a + b, u).
Definition num4 (s : string) : option (Z * string) :=
  '(a, t) ← num2 s; '(b, u) ← num2 t; Some (100 * a + b, u).
Definition num12 (s : string) : option (Z * string) :=
  '(a, t) ← dig s; match dig t with Some (b, u) => Some (10 * a + b, u) | None => Some (a, t) end.
Definition in_range (lo hi : Z) (x : option (Z * string)) : option (Z * string) :=
  '(n, s) ← x; if between lo n hi then Some (n, s) else None.

(** The digits of a fraction: the first nine count, scaled to nanoseconds. *)
Fixpoint frac_digits (scale acc : Z) (s : string) : Z * string :=
  match dig s with
  | Some (d, _) => match s with String _ t => frac_digits (scale / 10) (acc + d * scale) t | "" => (acc, s) end
  | None => (acc, s)
  end.
Definition fraction (s : string) : Z * string :=
  match s with
  | String c t =>
      if (Ascii.eqb c "." || Ascii.eqb c ",") && bool_decide (is_Some (dig t))
      then frac_digits 100000000 0 t else (0, s)
  | "" => (0, s)
  end.

(** Z, or an offset; the result is the offset in seconds. *)
Definition zone (s : string) : option (Z * string) :=
  match s with
  | String c t =>
      if Ascii.eqb c "Z" then Some (0, t)
      else '(h, t1) ← in_range 0 24 (num2 t); t2 ← after ":" t1; '(m, t3) ← in_range 0 60 (num2 t2);
           if Ascii.eqb c "+" then Some ((h * 60 + m) * 60, t3)
           else if Ascii.eqb c "-" then Some (- ((h * 60 + m) * 60), t3) else None
  | "" => None
  end.

Definition ParseRFC3339 (s : string) : option Z :=
  '(y, a) ← num4 s; a ← after "-" a;
  '(m, a) ← in_range 1 12 (num2 a); a ← after "-" a;
  '(d, a) ← num2 a; a ← after "T" a;
  '(hh, a) ← in_range 0 23 (num12 a); a ← after ":" a;
  '(mm, a) ← in_range 0 59 (num2 a); a ← after ":" a;
  '(ss, a) ← in_range 0 59 (num2 a);
  let '(ns, a) := fraction a in
  '(off, a) ← zone a;
  if negb (String.eqb a "") || negb (between 1 d (daysIn m y)) then None
  else Some (((day_of y m d - epoch_day) * 86400 + hh * 3600 + mm * 60 + ss - off) * Second + ns).

(** ** Differences and durations *)
(** [t.Sub(u)] saturates. *)
Definition Sub (t u : Z) : Z := Z.max i64_min (Z.min i64_max (t - u)).

(** [d.Round(time.Second)] for d >= 0: halves away from zero, saturating. *)
Definition round_second (d : Z) : Z :=
  let r := d mod Second in
  if r + r <? Second then d - r
  else if d + Second - r <=? i64_max then d + Second - r else i64_max.

(** A fraction of [n] digits without its trailing zeros, with its point. *)
Fixpoint frac_text (n : nat) (v : Z) (acc : string) : string :=
  match n with
  | O => if String.eqb acc "" then "" else String "." acc
  | S n' => frac_text n' (v / 10)
              (if String.eqb acc "" && (v mod 10 =? 0) then "" else String (digit_of v) acc)
  end.
(** [d.String()] for d >= 0. *)
Definition duration_string (d : Z) : string :=
  if d =? 0 then "0s"
  else if d <? Microsecond then Itoa d +:+ "ns"
  else if d <? Millisecond then Itoa (d / Microsecond) +:+ frac_text 3 (d mod Microsecond) "" +:+ "µs"
  else if d <? Second then Itoa (d / Millisecond) +:+ frac_text 6 (d mod Millisecond) "" +:+ "ms"
  else
    let u := d / Second in
    let secs := Itoa (u mod 60) +:+ frac_text 9 (d mod Second) "" +:+ "s" in
    if u <? 60 then secs
    else let mins := Itoa (u / 60 mod 60) +:+ "m" +:+ secs in
         if u <? 3600 then mins else Itoa (u / 3600) +:+ "h" +:+ mins.

Example time_examples :
  ParseRFC3339 "2026-06-30T12:00:00Z" = Some 1782820800000000000 ∧
  FormatRFC3339 1782820800999999999 = "2026-06-30T12:00:00Z" ∧
  map ParseRFC3339 ["2026-06-30T12:00:00+01:30"; "2024-02-29T1:00:00,5Z"; "2023-02-29T01:00:00Z"; "";
                    "2026-06-30T24:00:00Z"; "2026-06-30 12:00:00Z"; "2026-06-30T12:00:00Zx"]
    = [Some 1782815400000000000; Some 1709168400500000000; None; None; None; None; None] ∧
  map duration_string [34 * Second; 3 * Minute; 1500 * Millisecond; 2 * Hour + 5 * Second; 1500; i64_max]
    = ["34s"; "3m0s"; "1.5s"; "2h0m5s"; "1.5µs"; "2562047h47m16.854775807s"].
Proof. vm_compute. auto. Qed.

(** ** The calendar is a bijection with the days *)
Definition valid_date (y m d : Z) : bool := between 1 m 12 && between 1 d (daysIn m y).

Ltac fold_constants := repeat match goal with
  | |- context [Z.pos ?a + Z.pos ?b] =>
      let v := eval cbv in (Z.pos a + Z.pos b) in change (Z.pos a + Z.pos b) with v
  | |- context [Z.pos ?a - Z.pos ?b] =>
      let v := eval cbv in (Z.pos a - Z.pos b) in change (Z.pos a - Z.pos b) with v
  | |- context [Z.to_nat ?z] => let v := eval cbv in (Z.to_nat z) in change (Z.to_nat z) with v
  end.

(** The months of a year, given the length of its February. *)
Lemma month_scan_spec y yday m d :
  0 ≤ yday < 365 + leap_day y → month_scan 12 y 1 yday = (m, d) →
  valid_date y m d = true ∧ days_before_month y m + (d - 1) = yday.
Proof.
  intros Hy. unfold valid_date, days_before_month, between.
  assert (Hl : leap_day y = 0 ∨ leap_day y = 1) by (unfold leap_day; case_match; auto).
  cbn [month_scan]. fold_constants. unfold daysIn.
  destruct Hl as [Hl|Hl]; rewrite Hl in *; cbn -[Z.ltb Z.leb Z.sub Z.add];
    repeat (match goal with |- context [if ?a <? ?b then _ else _] => destruct (Z.ltb_spec a b) end;
      [intros [= <- <-]; fold_constants; cbn -[Z.leb Z.sub Z.add]; rewrite ?andb_true_iff, ?Z.leb_le; lia|]); lia.
Qed.

(** The years of a cycle. *)
Lemma cycle_year_spec r y yday :
  0 ≤ r < 146097 → cycle_year r = (y, yday) →
  days_before_year y + yday = r ∧ 0 ≤ yday < 365 + leap_day y.
Proof.
  unfold cycle_year. intros Hr [= <- <-].
  set (n100 := Z.min 3 (r / 36524)). set (r100 := r - n100 * 36524).
  assert (0 ≤ n100 ≤ 3 ∧ 0 ≤ r100 ∧ (n100 < 3 → r100 < 36524) ∧ r100 < 36525)
    by (subst n100 r100; pose proof (Z.div_mod r 36524); pose proof (Z.mod_pos_bound r 36524); lia).
  set (n4 := r100 / 1461). set (r4 := r100 mod 1461). set (n1 := Z.min 3 (r4 / 365)).
  assert (r100 = 1461 * n4 + r4 ∧ 0 ≤ r4 < 1461 ∧ 0 ≤ n4 ≤ 24)
    by (subst n4 r4; pose proof (Z.div_mod r100 1461); pose proof (Z.mod_pos_bound r100 1461); lia).
  assert (0 ≤ n1 ≤ 3 ∧ 0 ≤ r4 - n1 * 365 ∧ (n1 < 3 → r4 - n1 * 365 < 365) ∧ r4 - n1 * 365 < 366)
    by (subst n1; pose proof (Z.div_mod r4 365); pose proof (Z.mod_pos_bound r4 365); lia).
  clearbody n1 r4 n4. subst r100. clearbody n100.
  unfold days_before_year, leap_day, is_leap. set (y := 100 * n100 + 4 * n4 + n1 + 1).
  assert ((y - 1) / 4 = 25 * n100 + n4) as -> by (symmetry; apply Z.div_unique_pos with n1; subst y; lia).
  assert ((y - 1) / 100 = n100) as -> by (symmetry; apply Z.div_unique_pos with (4 * n4 + n1); subst y; lia).
  assert ((y - 1) / 400 = 0) as -> by (apply Z.div_small; subst y; lia).
  split; [subst y; lia|].
  destruct (Z.eq_dec n1 3) as [->|]; [|case_match; lia].
  assert (y mod 4 = 0) as -> by (symmetry; apply Z.mod_unique_pos with (25 * n100 + n4 + 1); subst y; lia).
  destruct (Z.eq_dec n4 24) as [->|].
  - destruct (Z.eq_dec n100 3) as [->|]; [|case_match; lia]. replace y with 400 by (subst y; lia). change (400 mod 100) with 0. change (400 mod 400) with 0. cbn [Z.eqb negb orb andb]. lia.
  - assert (y mod 100 = 4 * n4 + 4) as ->
      by (symmetry; apply Z.mod_unique_pos with n100; subst y; lia).
    rewrite (proj2 (Z.eqb_neq (4 * n4 + 4) 0)) by lia. cbn [Z.eqb negb orb andb]. lia.
Qed.

Lemma is_leap_cycle q y : is_leap (400 * q + y) = is_leap y.
Proof.
  unfold is_leap.
  replace (400 * q + y) with (y + 100 * q * 4) at 1 by lia. rewrite Z_mod_plus_full.
  replace (400 * q + y) with (y + 4 * q * 100) at 1 by lia. rewrite Z_mod_plus_full.
  replace (400 * q + y) with (y + q * 400) by lia. by rewrite Z_mod_plus_full.
Qed.
Lemma daysIn_cycle q m y : daysIn m (400 * q + y) = daysIn m y.
Proof. unfold daysIn, leap_day. by rewrite is_leap_cycle. Qed.
Lemma day_of_cycle q y m d : day_of (400 * q + y) m d = 146097 * q + day_of y m d.
Proof.
  unfold day_of, days_before_month, leap_day. rewrite is_leap_cycle. unfold days_before_year.
  replace (400 * q + y - 1) with (y - 1 + 100 * q * 4) at 2 by lia. rewrite Z_div_plus_full by lia.
  replace (400 * q + y - 1) with (y - 1 + 4 * q * 100) at 2 by lia. rewrite Z_div_plus_full by lia.
  replace (400 * q + y - 1) with (y - 1 + q * 400) at 2 by lia. rewrite Z_div_plus_full by lia.
  lia.
Qed.
(** [civil] inverts [day_of], and gives a date of the calendar. *)
Lemma civil_spec z y m d : civil z = (y, m, d) → valid_date y m d = true ∧ day_of y m d = z.
Proof.
  unfold civil. pose proof (Z.mod_pos_bound z 146097 ltac:(lia)) as Hr.
  destruct (cycle_year _) as [y0 yd] eqn:Ey. apply cycle_year_spec in Ey as [Ey Hyd]; [|done].
  destruct (month_scan _ _ _ _) as [m0 d0] eqn:Em. apply month_scan_spec in Em as [Hv Hm]; [|done].
  intros [= <- <- <-]. split; [unfold valid_date in *; by rewrite daysIn_cycle|].
  rewrite day_of_cycle. unfold day_of. pose proof (Z.div_mod z 146097). lia.
Qed.

(** ** Reading back what is printed *)
Lemma dig_digit n s : dig (String (digit_of n) s) = Some (n mod 10, s).
Proof. cbn. unfold digit_of. by rewrite digit_chr by (apply Z.mod_pos_bound; lia). Qed.
Lemma num2_pad2 n s : 0 ≤ n < 100 → num2 (pad2 n +:+ s) = Some (n, s).
Proof.
  intros Hn. unfold num2, pad2, s2, s1. rewrite !str_app_cons, str_app_nil_l, dig_digit. cbn [mbind option_bind].
  rewrite dig_digit. cbn. do 2 f_equal.
  rewrite (Z.mod_small (n / 10)) by (split; [apply Z.div_pos|apply Z.div_lt_upper_bound]; lia).
  pose proof (Z.div_mod n 10). lia.
Qed.
Lemma num12_pad2 n s : 0 ≤ n < 100 → num12 (pad2 n +:+ s) = Some (n, s).
Proof.
  intros Hn. pose proof (num2_pad2 n s Hn) as H. unfold num2 in H. unfold num12, pad2, s2, s1 in *.
  rewrite !str_app_cons, str_app_nil_l, dig_digit in *. cbn [mbind option_bind] in *.
  by rewrite dig_digit in *.
Qed.
Lemma num4_pad4 n s : 0 ≤ n < 10000 → num4 (pad4 n +:+ s) = Some (n, s).
Proof.
  intros Hn. unfold num4, pad4. rewrite str_app_assoc.
  rewrite num2_pad2 by (split; [apply Z.div_pos|apply Z.div_lt_upper_bound]; lia). cbn [mbind option_bind].
  rewrite num2_pad2 by (apply Z.mod_pos_bound; lia). cbn. do 2 f_equal.
  pose proof (Z.div_mod n 100). lia.
Qed.
Lemma after_cons c s : after c (String c s) = Some s.
Proof. cbn. by rewrite Ascii.eqb_refl. Qed.
Lemma in_range_ok lo hi n s : lo ≤ n ≤ hi → in_range lo hi (Some (n, s)) = Some (n, s).
Proof. intros Hn. unfold in_range, between. cbn. by rewrite !(proj2 (Z.leb_le _ _)) by lia. Qed.

Definition year_of (t : Z) : Z := (civil (t / Second / 86400 + epoch_day)).1.1.

(** A time of the years 0 to 9999, printed and read back, is the time to the second. *)
Lemma ParseRFC3339_Format t :
  0 ≤ year_of t ≤ 9999 → ParseRFC3339 (FormatRFC3339 t) = Some (t / Second * Second).
Proof.
  unfold year_of, FormatRFC3339. destruct (civil _) as [[y m] d] eqn:Ec. cbn [fst]. intros Hy.
  apply civil_spec in Ec as [Hv Hd]. unfold valid_date in Hv. breflect.
  unfold between in *. breflect. set (s := second_of_day t).
  assert (Hs : 0 ≤ s < 86400) by (apply Z.mod_pos_bound; lia).
  assert (Hh : 0 ≤ s / 3600 < 24) by (split; [apply Z.div_pos|apply Z.div_lt_upper_bound]; lia).
  assert (Hm : 0 ≤ s / 60 mod 60 < 60) by (apply Z.mod_pos_bound; lia).
  assert (Hs' : 0 ≤ s mod 60 < 60) by (apply Z.mod_pos_bound; lia).
  assert (daysIn m y ≤ 31) by (unfold daysIn, leap_day; repeat case_match; lia).
  unfold year_text. rewrite (proj2 (Z.ltb_ge y 0)), (proj2 (Z.leb_le y 9999)) by lia.
  unfold ParseRFC3339. rewrite num4_pad4 by lia. cbn [mbind option_bind].
  rewrite after_cons. cbn [mbind option_bind]. rewrite num2_pad2, in_range_ok by lia. cbn [mbind option_bind].
  rewrite after_cons. cbn [mbind option_bind]. rewrite num2_pad2 by lia. cbn [mbind option_bind].
  rewrite after_cons. cbn [mbind option_bind]. rewrite num12_pad2, in_range_ok by lia. cbn [mbind option_bind].
  rewrite after_cons. cbn [mbind option_bind]. rewrite num2_pad2, in_range_ok by lia. cbn [mbind option_bind].
  rewrite after_cons. cbn [mbind option_bind]. rewrite num2_pad2, in_range_ok by lia.
  cbn [mbind option_bind fraction zone Ascii.eqb String.eqb].
  unfold between. rewrite (proj2 (Z.leb_le 1 d)), (proj2 (Z.leb_le d _)) by lia. cbn. f_equal.
  rewrite Hd. subst s. unfold second_of_day.
  pose proof (Z.div_mod (t / Second) 86400). set (u := t / Second) in *.
  set (v := u mod 86400) in *. pose proof (Z.div_mod v 60). pose proof (Z.div_mod (v / 60) 60).
  assert (v / 3600 = v / 60 / 60) as -> by (rewrite Z.div_div by lia; done).
  unfold epoch_day. lia.
Qed.
