(* ===== verification/GoSort.v ===== *)
(** Package sort: [sort.SliceStable] and [sort.Strings], and what a stable sort by a
    strict weak order guarantees. *)
From Stdlib Require Import ZArith Ascii String.
From stdpp Require Import base gmap strings list numbers sorting.
From S2P Require Import Prelude.

Open Scope list_scope.
Open Scope Z_scope.

Lemma StronglySorted_impl {A} (R R' : A → A → Prop) l :
  (∀ x y, R x y → R' x y) → StronglySorted R l → StronglySorted R' l.
Proof. intros HR. induction 1; constructor; [done|]. eapply Forall_impl; eauto. Qed.

Section stable.
Context {A : Type} (less : A → A → bool).

Fixpoint insert_stable (x : A) (l : list A) : list A :=
  match l with
  | [] => [x]
  | y :: l' => if less y x then y :: insert_stable x l' else x :: l
  end.
(** The stable sorted arrangement of [l]; with an order it is the only one, so it
    does not matter by which algorithm it is reached. *)
Definition SliceStable (l : list A) : list A := foldr insert_stable [] l.

(** Strict weak orders: what the comparison functions handed to package sort are. *)
Class StrictWeak : Prop := {
  less_irrefl x : less x x = false;
  less_trans x y z : less x y = true → less y z = true → less x z = true;
  less_cotrans x y z : less x z = true → less x y = true ∨ less y z = true;
}.

Definition not_after (x y : A) : Prop := less y x = false.

Lemma insert_stable_perm x l : insert_stable x l ≡ₚ x :: l.
Proof.
  induction l as [|y l IH]; cbn; [done|]. destruct (less y x); [|done].
  rewrite IH. apply Permutation_swap.
Qed.
Lemma SliceStable_perm l : SliceStable l ≡ₚ l.
Proof. induction l as [|x l IH]; cbn; [done|]. by rewrite insert_stable_perm, IH. Qed.

(** Elements that are not ordered among themselves keep their places. *)
Lemma insert_stable_filter (f : A → bool) x l :
  (∀ a b, f a = true → f b = true → less a b = false) →
  List.filter f (insert_stable x l) = List.filter f (x :: l).
Proof.
  intros Hf. induction l as [|y l IH]; [done|]. cbn [insert_stable].
  destruct (less y x) eqn:E; [|done]. cbn [List.filter] in *. rewrite IH.
  destruct (f x) eqn:Ex, (f y) eqn:Ey; try done. by rewrite Hf in E.
Qed.
Lemma SliceStable_stable (f : A → bool) l :
  (∀ a b, f a = true → f b = true → less a b = false) →
  List.filter f (SliceStable l) = List.filter f l.
Proof.
  intros Hf. induction l as [|x l IH]; [done|]. cbn [SliceStable foldr].
  rewrite insert_stable_filter by done. cbn. by rewrite <-IH.
Qed.

Context `{StrictWeak}.
Set Default Proof Using "All".

Lemma not_after_trans x y z : not_after x y → not_after y z → not_after x z.
Proof.
  unfold not_after. intros Hx Hy. destruct (less z x) eqn:E; [|done].
  destruct (less_cotrans z y x E); congruence.
Qed.
Lemma less_not_after x y : less x y = true → not_after x y.
Proof.
  unfold not_after. intros Hl. destruct (less y x) eqn:E; [|done].
  pose proof (less_trans _ _ _ Hl E) as Hx. by rewrite less_irrefl in Hx.
Qed.

Lemma insert_stable_sorted x l :
  StronglySorted not_after l → StronglySorted not_after (insert_stable x l).
Proof.
  induction 1 as [|y l Hl IH Hy]; cbn; [repeat constructor|]. destruct (less y x) eqn:E.
  - constructor; [done|]. rewrite insert_stable_perm. constructor; [by apply less_not_after|done].
  - constructor; [by constructor|]. constructor; [done|].
    eapply Forall_impl; [exact Hy|]. intros z. by apply not_after_trans.
Qed.
Lemma SliceStable_sorted l : StronglySorted not_after (SliceStable l).
Proof. induction l as [|x l IH]; cbn; [constructor|]. by apply insert_stable_sorted. Qed.

(** Where the order tells all elements apart, the input order does not matter. *)
Lemma SliceStable_canonical l k :
  l ≡ₚ k → (∀ x y, x ∈ l → y ∈ l → less x y = false → less y x = false → x = y) →
  SliceStable l = SliceStable k.
Proof.
  intros Hp Hd. apply (StronglySorted_unique_strong not_after);
    [|apply SliceStable_sorted..|by rewrite !SliceStable_perm].
  intros x y. rewrite !SliceStable_perm. rewrite <-Hp. unfold not_after. intros; by apply Hd.
Qed.
End stable.
Set Default Proof Using "Type".
Arguments StrictWeak {A} less.

(** ** Orders *)
(** The [<] of Go on strings: bytewise. *)
Notation str_less := String.ltb.
Lemma str_less_leb s t : str_less s t = negb (String.leb t s).
Proof.
  unfold String.ltb, String.leb. rewrite (String.compare_antisym t s).
  by destruct (s ?= t)%string.
Qed.
Lemma str_leb_trans s t u : String.leb s t = true → String.leb t u = true → String.leb s u = true.
Proof.
  intros Hs Ht. apply Is_true_true, (transitivity (R := String.le) (y := t)); by apply Is_true_true.
Qed.
#[global] Instance str_less_order : StrictWeak str_less.
Proof.
  split; intros *; rewrite !str_less_leb.
  - destruct (String.leb_total x x) as [->| ->]; done.
  - rewrite !negb_true_iff. intros Hx Hy. destruct (String.leb z x) eqn:E; [|done].
    destruct (String.leb_total y z) as [Hz|Hz]; [|congruence].
    by rewrite (str_leb_trans _ _ _ Hz E) in Hx.
  - rewrite !negb_true_iff. intros Hz.
    destruct (String.leb y x) eqn:E1; [|by left]. destruct (String.leb z y) eqn:E2; [|by right].
    by rewrite (str_leb_trans _ _ _ E2 E1) in Hz.
Qed.
Lemma str_less_total s t : str_less s t = false → str_less t s = false → s = t.
Proof. rewrite !str_less_leb, !negb_false_iff. intros. by apply String.leb_antisym. Qed.

#[global] Instance Zltb_order : StrictWeak Z.ltb.
Proof. split; intros *; [lia| |]; intros; breflect; rewrite ?Z.ltb_lt; lia. Qed.

(** [if less1 || less2] of Go: by the first key, and within it by the second. *)
Section keys.
Context {A : Type}.
Definition by_key {K} (less : K → K → bool) (f : A → K) : A → A → bool := λ x y, less (f x) (f y).
Definition lex (l1 l2 : A → A → bool) : A → A → bool :=
  λ x y, if l1 x y then true else if l1 y x then false else l2 x y.
#[global] Instance by_key_order {K} (less : K → K → bool) (f : A → K) `{!StrictWeak less} :
  StrictWeak (by_key less f).
Proof.
  unfold by_key. split; intros *; [apply (less_irrefl less)|apply (less_trans less)|apply (less_cotrans less)].
Qed.
Lemma lex_spec l1 l2 x y :
  lex l1 l2 x y = true ↔
  l1 x y = true ∨ (l1 x y = false ∧ l1 y x = false ∧ l2 x y = true).
Proof. unfold lex. destruct (l1 x y), (l1 y x); intuition congruence. Qed.

#[global] Instance lex_order l1 l2 `{!StrictWeak l1} `{!StrictWeak l2} : StrictWeak (lex l1 l2).
Proof.
  pose proof (less_cotrans l1) as C. split.
  - intros x. unfold lex. by rewrite (less_irrefl l1), (less_irrefl l2).
  - intros x y z. rewrite !lex_spec. intros [Hx|(Hx & Hx' & Hx2)] [Hy|(Hy & Hy' & Hy2)].
    + left. by eapply (less_trans l1).
    + left. destruct (C x z y Hx); [done|congruence].
    + left. destruct (C y x z Hy); [congruence|done].
    + right. split_and!; [by eapply (not_after_trans l1)..|by eapply (less_trans l2)].
  - intros x y z. rewrite !lex_spec. intros [Hx|(Hx & Hx' & Hx2)]; [destruct (C x y z Hx); auto|].
    destruct (l1 x y) eqn:Exy; [auto|]. destruct (l1 y z) eqn:Eyz; [auto|].
    assert (l1 y x = false) by (destruct (l1 y x) eqn:E; [destruct (C _ z _ E); congruence|done]).
    assert (l1 z y = false) by (destruct (l1 z y) eqn:E; [destruct (C _ x _ E); congruence|done]).
    destruct (less_cotrans l2 x y z Hx2); [left|right]; auto.
Qed.
End keys.
