(* ===== verification/GoHeap.v ===== *)
(** Go values with references: structs are values, pointers, slices and maps refer to
    cells of a heap.  A value is read against its type as a tree without locations;
    [deep_copier] says that a function copies every cell a value reaches.

    The heap is the list of allocated cells; a location is an index, so the cells
    allocated after a point are those at or above the length of the heap there. *)
From Stdlib Require Import ZArith Ascii String.
From stdpp Require Import base gmap strings list numbers sorting.
From S2P Require Import Prelude GoStd.

Open Scope string_scope.
Open Scope list_scope.
Open Scope nat_scope.

(** ** Values, cells, types *)
Inductive scalar := SStr (s : string) | SInt (n : Z) | SBool (b : bool) | STime (t : Z).
(** A slice is a window (offset, length) of an array cell. *)
Inductive gval :=
| VScalar (x : scalar)
| VStruct (fields : list (string * gval))
| VPtr (l : option nat)
| VSlice (s : option (nat * nat * nat))
| VMap (l : option nat).
Inductive cell := CVal (v : gval) | CArr (vs : list gval) | CMap (m : gmap string gval).
Notation heap := (list cell).

Inductive basic := BStr | BInt | BBool | BTime.
Inductive ty :=
| TBasic (b : basic)
| TStruct (fields : list (string * ty))
| TPtr (t : ty)
| TSlice (t : ty)
| TMap (t : ty).

Definition basic_ty (x : scalar) : basic :=
  match x with SStr _ => BStr | SInt _ => BInt | SBool _ => BBool | STime _ => BTime end.
#[global] Instance basic_eq_dec : EqDecision basic.
Proof. solve_decision. Defined.

(** The zero value of a type, which [new] and [make] fill with. *)
Fixpoint zero_value (t : ty) : gval :=
  match t with
  | TBasic BStr => VScalar (SStr "")
  | TBasic BInt => VScalar (SInt 0)
  | TBasic BBool => VScalar (SBool false)
  | TBasic BTime => VScalar (STime 0)
  | TStruct fields => VStruct (map (λ ft, (ft.1, zero_value ft.2)) fields)
  | TPtr _ => VPtr None
  | TSlice _ => VSlice None
  | TMap _ => VMap None
  end.

(** What a value says, locations aside; [None] for a value not of the type. *)
Inductive tree :=
| Leaf (x : scalar)
| Node (fields : list (string * tree))
| Ref (t : option tree)
| Seq (l : option (list tree))
| Dict (m : option (list (string * tree))).

Section tree_fields.
Context (rec : ty → gval → option tree) (rec' : ty → gval → Prop).
Fixpoint tree_fields (ts : list (string * ty)) (vs : list (string * gval)) : option (list (string * tree)) :=
  match ts, vs with
  | [], [] => Some []
  | (f, t) :: ts, (g, v) :: vs =>
      if String.eqb f g then x ← rec t v; xs ← tree_fields ts vs; Some ((f, x) :: xs) else None
  | _, _ => None
  end.
Fixpoint all_fields (ts : list (string * ty)) (vs : list (string * gval)) : Prop :=
  match ts, vs with
  | (_, t) :: ts, (_, v) :: vs => rec' t v ∧ all_fields ts vs
  | _, _ => True
  end.
End tree_fields.

Fixpoint tree_of (t : ty) (h : heap) (v : gval) {struct t} : option tree :=
  match t, v with
  | TBasic b, VScalar x => if decide (basic_ty x = b) then Some (Leaf x) else None
  | TStruct ts, VStruct vs => Node <$> tree_fields (λ t v, tree_of t h v) ts vs
  | TPtr t, VPtr None => Some (Ref None)
  | TPtr t, VPtr (Some l) => match h !! l with Some (CVal v) => x ← tree_of t h v; Some (Ref (Some x)) | _ => None end
  | TSlice t, VSlice None => Some (Seq None)
  | TSlice t, VSlice (Some (l, off, n)) =>
      match h !! l with
      | Some (CArr vs) => if off + n <=? length vs
                          then xs ← mapM (tree_of t h) (firstn n (skipn off vs)); Some (Seq (Some xs)) else None
      | _ => None end
  | TMap t, VMap None => Some (Dict None)
  | TMap t, VMap (Some l) =>
      match h !! l with
      | Some (CMap m) => xs ← mapM (λ kv, x ← tree_of t h kv.2; Some (kv.1, x)) (map_to_list m); Some (Dict (Some xs))
      | _ => None end
  | _, _ => None
  end.

(** Every location the value reaches is at or above [n]. *)
Fixpoint above (t : ty) (n : nat) (h : heap) (v : gval) {struct t} : Prop :=
  match t, v with
  | TStruct ts, VStruct vs => all_fields (λ t v, above t n h v) ts vs
  | TPtr t, VPtr (Some l) => n ≤ l ∧ match h !! l with Some (CVal v) => above t n h v | _ => True end
  | TSlice t, VSlice (Some (l, off, k)) =>
      n ≤ l ∧ match h !! l with Some (CArr vs) => Forall (above t n h) (firstn k (skipn off vs)) | _ => True end
  | TMap t, VMap (Some l) =>
      n ≤ l ∧ match h !! l with Some (CMap m) => Forall (λ kv, above t n h kv.2) (map_to_list m) | _ => True end
  | _, _ => True
  end.

(** Types without references. *)
Fixpoint flat (t : ty) : bool :=
  match t with
  | TBasic _ => true
  | TStruct ts => forallb (λ ft, flat ft.2) ts
  | _ => false
  end.

(** The cells of [h] from [n] on are cells of [h']. *)
Definition kept (n : nat) (h h' : heap) : Prop := ∀ l c, n ≤ l → h !! l = Some c → h' !! l = Some c.

(** ** Copiers *)
Definition copier := gval → heap → gval * heap.
Definition deep_copier (t : ty) (c : copier) : Prop :=
  ∀ h v x, tree_of t h v = Some x →
    let '(v', h') := c v h in
    kept 0 h h' ∧ tree_of t h' v' = Some x ∧ above t (length h) h' v'.

(** Assigning the struct behind [in] to the one behind [out]. *)
Definition assign : copier := λ v h, (v, h).
Definition alloc (c : cell) (h : heap) : nat * heap := (length h, h ++ [c]).
Definition store (l : nat) (c : cell) (h : heap) : heap := <[l := c]> h.

(** For a field that is not nil: a [new] T, then the DeepCopyInto of T from the old
    target into the new one, or an assignment. *)
Definition new_into (t : ty) (into : copier) : copier := λ v h,
  match v with
  | VPtr (Some p) =>
      match h !! p with
      | Some (CVal x) =>
          let '(l, h) := alloc (CVal (zero_value t)) h in
          let '(y, h) := into x h in
          (VPtr (Some l), store l (CVal y) h)
      | _ => (v, h)
      end
  | _ => (v, h)
  end.

(** The loop over a slice, from index [i]: DeepCopyInto of element [i] into element [i]. *)
Fixpoint slice_loop (into : copier) (l i : nat) (xs : list gval) (h : heap) : heap :=
  match xs with
  | [] => h
  | x :: xs =>
      let '(y, h) := into x h in
      let h := match h !! l with Some (CArr ys) => store l (CArr (<[i := y]> ys)) h | _ => h end in
      slice_loop into l (S i) xs h
  end.
(** For a slice that is not nil: a [make] of the same length, then the loop; [copy] assigns
    each element. *)
Definition slice_into (t : ty) (into : copier) : copier := λ v h,
  match v with
  | VSlice (Some (p, off, n)) =>
      match h !! p with
      | Some (CArr vs) =>
          let xs := firstn n (skipn off vs) in
          let '(l, h) := alloc (CArr (replicate n (zero_value t))) h in
          (VSlice (Some (l, 0, n)), slice_loop into l 0 xs h)
      | _ => (v, h)
      end
  | _ => (v, h)
  end.

(** For a map that is not nil: a [make], then an assignment per key of the range. *)
Definition map_copy `{MapOrder} : copier := λ v h,
  match v with
  | VMap (Some p) =>
      match h !! p with
      | Some (CMap m) =>
          let '(l, h) := alloc (CMap ∅) h in
          (VMap (Some l), store l (CMap (foldl (λ acc kv, <[kv.1 := kv.2]> acc) ∅ (range_map m))) h)
      | _ => (v, h)
      end
  | _ => (v, h)
  end.

(** A struct is first assigned, then the statements replace fields one by one, each from
    the field of the source. *)
Fixpoint get_field (f : string) (vs : list (string * gval)) : option gval :=
  match vs with [] => None | (g, v) :: vs => if String.eqb f g then Some v else get_field f vs end.
Fixpoint set_field_of (f : string) (y : gval) (vs : list (string * gval)) : list (string * gval) :=
  match vs with [] => [] | (g, v) :: vs => if String.eqb f g then (g, y) :: vs else (g, v) :: set_field_of f y vs end.
Fixpoint statements (stmts : list (string * copier)) (vs out : list (string * gval)) (h : heap)
    : list (string * gval) * heap :=
  match stmts with
  | [] => (out, h)
  | (f, c) :: stmts =>
      match get_field f vs with
      | Some x => let '(y, h) := c x h in statements stmts vs (set_field_of f y out) h
      | None => statements stmts vs out h
      end
  end.
Definition fields (stmts : list (string * copier)) : copier := λ v h,
  match v with
  | VStruct vs => let '(out, h) := statements stmts vs vs h in (VStruct out, h)
  | _ => (v, h)
  end.

(** The DeepCopy method of a pointer: nil for nil. *)
Definition deep_copy_ptr (t : ty) (into : copier) : copier := new_into t into.

(** ** Reading is stable *)
Section ty_ind.
Context (P : ty → Prop) (Hbasic : ∀ b, P (TBasic b)) (Hstruct : ∀ ts, Forall (λ ft, P ft.2) ts → P (TStruct ts))
  (Hptr : ∀ t, P t → P (TPtr t)) (Hslice : ∀ t, P t → P (TSlice t)) (Hmap : ∀ t, P t → P (TMap t)).
Fixpoint ty_ind' (t : ty) : P t :=
  match t with
  | TBasic b => Hbasic b
  | TStruct ts => Hstruct ts ((fix go ts : Forall (λ ft, P ft.2) ts :=
      match ts with [] => List.Forall_nil _ | ft :: ts => List.Forall_cons _ ft ts (ty_ind' ft.2) (go ts) end) ts)
  | TPtr t => Hptr t (ty_ind' t)
  | TSlice t => Hslice t (ty_ind' t)
  | TMap t => Hmap t (ty_ind' t)
  end.
End ty_ind.

Lemma kept_refl n h : kept n h h.
Proof. by intros l c. Qed.
Lemma kept_trans n h1 h2 h3 : kept n h1 h2 → kept n h2 h3 → kept n h1 h3.
Proof. intros H1 H2 l c Hl Hc. eauto. Qed.
Lemma kept_le n m h h' : n ≤ m → kept n h h' → kept m h h'.
Proof. intros Hle Hk l c Hl Hc. apply Hk; [lia|done]. Qed.
Lemma kept_length h h' : kept 0 h h' → length h ≤ length h'.
Proof.
  intros Hk. destruct (decide (length h = 0)) as [->|Hn]; [lia|].
  destruct (lookup_lt_is_Some_2 h (length h - 1)) as [c Hc]; [lia|]. apply Hk, lookup_lt_Some in Hc; lia.
Qed.
Lemma kept_alloc c h : kept 0 h (h ++ [c]).
Proof. intros l d _ Hd. by apply lookup_app_l_Some. Qed.
Lemma kept_store n l c h : l < n → kept n h (store l c h).
Proof. intros Hl k d Hk Hd. unfold store. rewrite list_lookup_insert_ne by lia. done. Qed.
Lemma kept_store_new n l c h h' : length h = n → n ≤ l → kept 0 h h' → kept 0 h (store l c h').
Proof.
  intros Hn Hl Hk k d _ Hd. unfold store. pose proof (lookup_lt_Some _ _ _ Hd).
  rewrite list_lookup_insert_ne by lia. by apply Hk; [lia|].
Qed.

Lemma above_le t n m h v : m ≤ n → above t n h v → above t m h v.
Proof.
  intros Hm. revert v. induction t as [b|ts IH|t IH|t IH|t IH] using ty_ind'; intros v; destruct v; try done; cbn.
  - revert fields0. induction IH as [|[f t] ts Ht _ IHs]; intros [|[g v] vs]; try done. cbn. intros [? ?]. split; auto.
  - destruct l as [l|]; [|done]. intros [? Hv]. split; [lia|]. destruct (h !! l) as [[]|]; auto.
  - destruct s as [[[l off] k]|]; [|done]. intros [? Hv]. split; [lia|]. destruct (h !! l) as [[]|]; auto.
    eapply Forall_impl; eauto.
  - destruct l as [l|]; [|done]. intros [? Hv]. split; [lia|]. destruct (h !! l) as [[]|]; auto.
    eapply Forall_impl; [exact Hv|]. auto.
Qed.
Lemma above_0 t h v : above t 0 h v.
Proof.
  revert v. induction t as [b|ts IH|t IH|t IH|t IH] using ty_ind'; intros v; destruct v; try done; cbn.
  - revert fields0. induction IH as [|[f t] ts Ht _ IHs]; intros [|[g v] vs]; done.
  - destruct l as [l|]; [|done]. split; [lia|]. destruct (h !! l) as [[]|]; auto.
  - destruct s as [[[l off] k]|]; [|done]. split; [lia|]. destruct (h !! l) as [[]|]; auto.
    apply Forall_forall. auto.
  - destruct l as [l|]; [|done]. split; [lia|]. destruct (h !! l) as [[]|]; auto. apply Forall_forall. auto.
Qed.

Lemma mapM_stable {A B} (f g : A → option B) (P Q : A → Prop) l ys :
  (∀ x y, f x = Some y → P x → g x = Some y ∧ Q x) → mapM f l = Some ys → Forall P l →
  mapM g l = Some ys ∧ Forall Q l.
Proof.
  intros Hfg Hm%mapM_Some HP. split.
  - apply mapM_Some. induction Hm as [|x y l ys Hx _ IH]; constructor; inversion HP; subst; [by apply Hfg|auto].
  - induction Hm as [|x y l ys Hx _ IH]; constructor; inversion HP; subst; [by eapply Hfg|auto].
Qed.

(** Reading depends on the cells reached alone. *)
Lemma frame t n h h' v x : kept n h h' → tree_of t h v = Some x → above t n h v →
  tree_of t h' v = Some x ∧ above t n h' v.
Proof.
  intros Hk. revert v x. induction t as [b|ts IH|t IH|t IH|t IH] using ty_ind'; intros v x.
  - by destruct v.
  - destruct v as [|vs| | |]; try done. cbn. intros Ht Ha.
    apply fmap_Some in Ht as (xs & Ht & ->).
    cut (tree_fields (λ t v, tree_of t h' v) ts vs = Some xs ∧ all_fields (λ t v, above t n h' v) ts vs);
      [intros [-> ?]; done|].
    revert vs xs Ht Ha. induction IH as [|[f t] ts Hft _ IHs]; intros [|[g v] vs] xs; try done. cbn.
    destruct (String.eqb f g); [|done]. intros Ht [Hv Hvs].
    apply bind_Some in Ht as (y & Hy & Ht). apply bind_Some in Ht as (ys & Hys & [= <-]).
    destruct (Hft v y Hy Hv) as [E1 E2]. destruct (IHs vs ys Hys Hvs) as [E3 E4]. cbn in E1. rewrite E1, E3. done.
  - destruct v as [| |[l|]| |]; try done. cbn. destruct (h !! l) as [[v| |]|] eqn:El; try done.
    intros Ht [Hl Hv]. apply bind_Some in Ht as (y & Hy & [= <-]). rewrite (Hk l _ Hl El).
    destruct (IH v y Hy Hv) as [-> ?]. done.
  - destruct v as [| | |[[[l off] k]|]|]; try done. cbn. destruct (h !! l) as [[|vs|]|] eqn:El; try done.
    destruct (off + k <=? length vs) eqn:Elen; [|done].
    intros Ht [Hl Hv]. apply bind_Some in Ht as (ys & Hy & [= <-]). rewrite (Hk l _ Hl El), Elen.
    destruct (mapM_stable _ (tree_of t h') (above t n h) (above t n h') _ _ IH Hy Hv) as [-> ?]. done.
  - destruct v as [| | | |[l|]]; try done. cbn. destruct (h !! l) as [[| |m]|] eqn:El; try done.
    intros Ht [Hl Hv]. apply bind_Some in Ht as (ys & Hy & [= <-]). rewrite (Hk l _ Hl El).
    cut (mapM (λ kv, x ← tree_of t h' kv.2; Some (kv.1, x)) (map_to_list m) = Some ys ∧
      Forall (λ kv, above t n h' kv.2) (map_to_list m)); [intros [-> ?]; done|].
    eapply mapM_stable; [|exact Hy|exact Hv].
    clear ys Hy Hv. intros [k y] z Hz Ha. apply bind_Some in Hz as (w & Hw & [= <-]). cbn in *.
    destruct (IH y w Hw Ha) as [-> ?]. done.
Qed.
Lemma tree_kept t h h' v x : kept 0 h h' → tree_of t h v = Some x → tree_of t h' v = Some x.
Proof. intros Hk Ht. apply (frame t 0 h h' v x Hk Ht), above_0. Qed.

(** A value of a type without references is read the same in every heap. *)
Lemma flat_tree t h h' v x n : flat t = true → tree_of t h v = Some x → tree_of t h' v = Some x ∧ above t n h' v.
Proof.
  revert v x. induction t as [b|ts IH|t IH|t IH|t IH] using ty_ind'; intros v x Hf; try done.
  - destruct v as [|vs| | |]; try done. cbn in *. intros Ht. apply fmap_Some in Ht as (xs & Ht & ->).
    cut (tree_fields (λ t v, tree_of t h' v) ts vs = Some xs ∧ all_fields (λ t v, above t n h' v) ts vs);
      [intros [-> ?]; done|].
    revert vs xs Ht. induction IH as [|[f t] ts Hft _ IHs]; intros [|[g v] vs] xs; try done. cbn in *.
    apply andb_true_iff in Hf as [Hf Hfs].
    destruct (String.eqb f g); [|done]. intros Ht.
    apply bind_Some in Ht as (y & Hy & Ht). apply bind_Some in Ht as (ys & Hys & [= <-]).
    destruct (Hft v y Hf Hy) as [E1 E2]. destruct (IHs Hfs vs ys Hys) as [E3 E4]. rewrite E1, E3. done.
Qed.

(** ** The combinators copy deeply *)
Lemma assign_deep t : flat t = true → deep_copier t assign.
Proof. intros Hf h v x Hx. destruct (flat_tree t h h v x (length h) Hf Hx). by split; [apply kept_refl|]. Qed.

Lemma new_into_deep t into : deep_copier t into → deep_copier (TPtr t) (new_into t into).
Proof.
  intros Hc h v x Hx. destruct v as [| |[p|]| |]; try done; [|by split; [apply kept_refl|]].
  cbn in Hx. unfold new_into. destruct (h !! p) as [[w| |]|] eqn:Ep; try done.
  apply bind_Some in Hx as (y & Hy & [= <-]). unfold alloc. cbn [fst snd].
  pose proof (tree_kept _ _ _ _ _ (kept_alloc (CVal (zero_value t)) h) Hy) as Hy'.
  specialize (Hc _ _ _ Hy'). destruct (into w _) as [w' h1]. destruct Hc as (Hk & Hw & Ha).
  rewrite length_app in Ha. cbn in Ha. pose proof (kept_length _ _ Hk) as Hlen. rewrite length_app in Hlen. cbn in Hlen.
  assert (Hk1 : kept 0 h h1) by (eapply kept_trans; [apply kept_alloc|exact Hk]).
  destruct (frame t (length h + 1) h1 (store (length h) (CVal w') h1) w' y) as [Hw' Ha'];
    [apply kept_store; lia|done..|].
  assert (El : store (length h) (CVal w') h1 !! length h = Some (CVal w'))
    by (unfold store; rewrite list_lookup_insert_eq by lia; done).
  split_and!.
  - by apply (kept_store_new (length h)).
  - cbn. rewrite El, Hw'. done.
  - cbn. split; [lia|]. rewrite El. eapply above_le; [|exact Ha']. lia.
Qed.

Lemma foldl_insert_lookup (l : list (string * gval)) (acc : gmap string gval) k : NoDup l.*1 →
  foldl (λ acc kv, <[kv.1 := kv.2]> acc) acc l !! k =
  match (list_to_map l : gmap string gval) !! k with Some v => Some v | None => acc !! k end.
Proof.
  revert acc. induction l as [|[k' v] l IH]; intros acc Hnd; [done|].
  cbn [foldl fst snd]. apply NoDup_cons in Hnd as [Hni Hnd]. rewrite IH, list_to_map_cons by done. destruct (decide (k = k')) as [->|Hne].
  - rewrite lookup_insert_eq. rewrite (not_elem_of_list_to_map_1 _ _ Hni). by rewrite lookup_insert_eq.
  - by rewrite !lookup_insert_ne.
Qed.
Lemma foldl_insert_range `{MapOrder} (m : gmap string gval) :
  foldl (λ acc kv, <[kv.1 := kv.2]> acc) ∅ (range_map m) = m.
Proof.
  assert (Hnd : NoDup (range_map m).*1) by (rewrite range_map_perm; apply NoDup_fst_map_to_list).
  apply map_eq. intros k. rewrite foldl_insert_lookup by done.
  rewrite (list_to_map_proper _ (map_to_list m) Hnd (range_map_perm _ m)), list_to_map_to_list.
  by destruct (m !! k); [|rewrite lookup_empty].
Qed.
Lemma map_copy_deep `{MapOrder} t : flat t = true → deep_copier (TMap t) map_copy.
Proof.
  intros Hf h v x Hx. destruct v as [| | | |[p|]]; try done; [|by split; [apply kept_refl|]].
  cbn in Hx. unfold map_copy. destruct (h !! p) as [[| |m]|] eqn:Ep; try done.
  apply bind_Some in Hx as (xs & Hxs & [= <-]). unfold alloc. cbn [fst snd].
  rewrite foldl_insert_range. set (c := CMap m). set (h1 := h ++ [CMap ∅]).
  assert (Hk : kept 0 h (store (length h) c h1)) by (apply (kept_store_new (length h)); [done|lia|apply kept_alloc]).
  assert (El : store (length h) c h1 !! length h = Some c).
  { unfold store. rewrite list_lookup_insert_eq; [done|]. unfold h1. rewrite length_app. cbn. lia. }
  cut (mapM (λ kv, x ← tree_of t (store (length h) c h1) kv.2; Some (kv.1, x)) (map_to_list m) = Some xs ∧
    Forall (λ kv, above t (length h) (store (length h) c h1) kv.2) (map_to_list m)).
  { intros [E1 E2]. split_and!; [done| |]; cbn; rewrite El; cbn; [by rewrite E1|split; [lia|done]]. }
  eapply (mapM_stable _ _ (λ _, True)); [|exact Hxs|by apply Forall_true].
  intros [k y] z Hz _. apply bind_Some in Hz as (w & Hw & [= <-]). cbn in *.
  destruct (flat_tree t h (store (length h) c h1) y w (length h) Hf Hw) as [-> ?]. done.
Qed.

(** The loop over a slice, with the elements written so far. *)
Lemma slice_loop_spec t into h0 l xs : deep_copier t into → length h0 = l →
  ∀ i h ys zs Ys Xs, kept 0 h0 h → h !! l = Some (CArr (ys ++ zs)) → length ys = i → length zs = length xs →
  mapM (tree_of t h0) xs = Some Xs → Forall2 (λ y Y, tree_of t h y = Some Y ∧ above t (S l) h y) ys Ys →
  let h' := slice_loop into l i xs h in
  kept 0 h0 h' ∧ ∃ ys', h' !! l = Some (CArr ys') ∧
    Forall2 (λ y Y, tree_of t h' y = Some Y ∧ above t (S l) h' y) ys' (Ys ++ Xs).
Proof.
  intros Hc Hl. induction xs as [|x xs IH]; intros i h ys zs Ys Xs Hk Hcell Hi Hz HX HY; cbn.
  - destruct zs; [|done]. injection HX as <-. rewrite app_nil_r in *. eauto.
  - destruct zs as [|z zs]; [done|]. cbn in HX. apply bind_Some in HX as (X & HX & HXs).
    apply bind_Some in HXs as (Xs' & HXs & [= <-]).
    pose proof (Hc h x X (tree_kept _ _ _ _ _ Hk HX)) as Hx. destruct (into x h) as [y h1]. destruct Hx as (Hk1 & Hy & Ha).
    pose proof (lookup_lt_Some _ _ _ Hcell) as Hlt. pose proof (kept_length _ _ Hk1) as Hlen.
    rewrite (Hk1 l _ (Nat.le_0_l l) Hcell). subst i. rewrite insert_app_r_alt by lia. rewrite Nat.sub_diag. cbn [insert list_insert].
    set (h2 := store l _ h1).
    assert (Hk2 : kept (S l) h1 h2) by (apply kept_store; lia).
    replace (Ys ++ X :: Xs') with ((Ys ++ [X]) ++ Xs') by (by rewrite <- app_assoc).
    apply (IH (S (length ys)) h2 (ys ++ [y]) zs (Ys ++ [X]) Xs'); [| | |cbn in Hz; lia|done|].
    + apply (kept_store_new l); [done..|]. by eapply kept_trans.
    + unfold h2, store. rewrite list_lookup_insert_eq by lia. by rewrite <- app_assoc.
    + rewrite length_app. cbn. lia.
    + apply Forall2_app; [|constructor; [|done]].
      * eapply Forall2_impl; [exact HY|]. intros w W [Hw Haw].
        apply (frame t (S l) h); [|done..]. eapply kept_trans; [|exact Hk2]. by eapply kept_le; [|exact Hk1]; lia.
      * apply (frame t (S l) h1); [done..|]. eapply above_le; [|exact Ha]. lia.
Qed.
Lemma slice_into_deep t into : deep_copier t into → deep_copier (TSlice t) (slice_into t into).
Proof.
  intros Hc h v x Hx. destruct v as [| | |[[[p off] n]|]|]; try done; [|by split; [apply kept_refl|]].
  cbn in Hx. unfold slice_into. destruct (h !! p) as [[|vs|]|] eqn:Ep; try done.
  destruct (off + n <=? length vs) eqn:Elen; [|done]. apply Nat.leb_le in Elen.
  apply bind_Some in Hx as (Xs & HXs & [= <-]). unfold alloc. cbn [fst snd].
  set (xs := firstn n (skipn off vs)) in *.
  assert (Hn : length xs = n) by (unfold xs; rewrite length_take, length_drop; lia).
  set (h1 := h ++ _).
  destruct (slice_loop_spec t into h (length h) xs Hc eq_refl 0 h1 [] (replicate n (zero_value t)) [] Xs)
    as (Hk & ys & Hl & Hys); [apply kept_alloc| |done|by rewrite length_replicate|done|constructor|].
  { unfold h1. rewrite lookup_app_r, Nat.sub_diag by lia. done. }
  set (h' := slice_loop _ _ _ _ _) in *. clearbody h'. cbn in Hys.
  pose proof (Forall2_length _ _ _ Hys) as Hlen. assert (HlX : length Xs = n).
  { rewrite <- Hn. symmetry. by apply mapM_Some, Forall2_length in HXs. }
  split_and!; [done| |]; cbn; rewrite Hl; cbn.
  - rewrite (proj2 (Nat.leb_le n (length ys))) by lia. rewrite drop_0, firstn_all2 by lia.
    rewrite (proj2 (mapM_Some _ _ Xs)); [done|]. eapply Forall2_impl; [exact Hys|]. by intros ? ? [? _].
  - split; [lia|]. rewrite drop_0, firstn_all2 by lia. apply Forall_forall. intros y Hy.
    apply list_elem_of_lookup in Hy as [i Hi]. destruct (Forall2_lookup_l _ _ _ _ _ Hys Hi) as (Y & _ & _ & Ha).
    eapply above_le; [|exact Ha]. lia.
Qed.

(** ** Structs *)
Section struct.
Context (n : nat).
(** The fields of the copy while the statements for the fields [rest] are still to come. *)
Fixpoint field_inv (rest : list string) (h : heap) (ts : list (string * ty)) (xs : list (string * tree))
    (out : list (string * gval)) : Prop :=
  match ts, xs, out with
  | [], [], [] => True
  | (f, t) :: ts, (g, x) :: xs, (k, v) :: out =>
      g = f ∧ k = f ∧ tree_of t h v = Some x ∧ (f ∉ rest → above t n h v) ∧ field_inv rest h ts xs out
  | _, _, _ => False
  end.
Lemma field_inv_kept rest rest' h h' ts xs out : kept 0 h h' → (∀ f, f ∈ ts.*1 → f ∉ rest' → f ∉ rest) →
  field_inv rest h ts xs out → field_inv rest' h' ts xs out.
Proof.
  intros Hk. revert xs out. induction ts as [|[f t] ts IH]; intros [|[g x] xs] [|[k v] out] Hr; try done. cbn.
  intros (-> & -> & Hx & Ha & Hi). split_and!; [done..|by eapply tree_kept| |].
  - intros Hf. eapply (frame t n h); [by eapply kept_le; [|exact Hk]; lia|done|]. apply Ha, Hr; [by left|done].
  - apply IH; [|done]. intros f' Hf'. apply Hr. by right.
Qed.
Lemma field_inv_set f y rest h h' ts xs out : kept 0 h h' → NoDup ts.*1 →
  (∀ i t x, ts !! i = Some (f, t) → xs !! i = Some (f, x) → tree_of t h' y = Some x ∧ above t n h' y) →
  field_inv (f :: rest) h ts xs out → field_inv rest h' ts xs (set_field_of f y out).
Proof.
  intros Hk. revert xs out. induction ts as [|[g t] ts IH]; intros [|[g' x] xs] [|[k v] out] Hnd Hy; try done.
  cbn. intros (-> & -> & Hx & Ha & Hi). apply NoDup_cons in Hnd as [Hg Hnd].
  destruct (String.eqb_spec f g) as [<-|Hne]; cbn.
  - destruct (Hy 0 t x) as [? ?]; [done..|]. split_and!; [done..|].
    eapply field_inv_kept; [exact Hk| |exact Hi]. intros f' Hf' Hn [->|?]%elem_of_cons; done.
  - split_and!; [done..|by eapply tree_kept| |].
    + intros Hf. eapply (frame t n h); [by eapply kept_le; [|exact Hk]; lia|done|]. apply Ha. by intros [->|?]%elem_of_cons.
    + apply IH; [done| |done]. intros i. apply (Hy (S i)).
Qed.
Lemma field_inv_start rest h ts vs xs : tree_fields (λ t v, tree_of t h v) ts vs = Some xs →
  (∀ f t v, (f, t) ∈ ts → f ∉ rest → is_Some (tree_of t h v) → above t n h v) → field_inv rest h ts xs vs.
Proof.
  revert vs xs. induction ts as [|[f t] ts IH]; intros [|[g v] vs] xs Ht Hf; try done; cbn in Ht.
  { by injection Ht as <-. }
  destruct (String.eqb_spec f g) as [->|]; [|done]. apply bind_Some in Ht as (x & Hx & Ht).
  apply bind_Some in Ht as (xs' & Hxs & [= <-]). cbn. split_and!; [done..| |].
  - intros Hn. apply (Hf g); [by left|done|eauto].
  - apply IH; [done|]. intros f' t' v' Hin. apply Hf. by right.
Qed.
Lemma field_inv_end h ts xs out : field_inv [] h ts xs out →
  tree_fields (λ t v, tree_of t h v) ts out = Some xs ∧ all_fields (λ t v, above t n h v) ts out.
Proof.
  revert xs out. induction ts as [|[f t] ts IH]; intros [|[g x] xs] [|[k v] out]; try done. cbn.
  intros (-> & -> & Hx & Ha & Hi). destruct (IH _ _ Hi) as [E1 E2]. rewrite String.eqb_refl, Hx, E1.
  split; [done|]. split; [|done]. apply Ha. by intros ?%not_elem_of_nil.
Qed.
End struct.

Lemma tree_fields_get h ts vs xs f v : tree_fields (λ t v, tree_of t h v) ts vs = Some xs → get_field f vs = Some v →
  ∃ i t x, ts !! i = Some (f, t) ∧ xs !! i = Some (f, x) ∧ tree_of t h v = Some x.
Proof.
  revert vs xs. induction ts as [|[g t] ts IH]; intros [|[g' w] vs] xs Ht Hg; try done; cbn in *.
  destruct (String.eqb_spec g g') as [->|]; [|done]. apply bind_Some in Ht as (x & Hx & Ht).
  apply bind_Some in Ht as (xs' & Hxs & [= <-]). destruct (String.eqb_spec f g') as [->|].
  - injection Hg as ->. by exists 0, t, x.
  - destruct (IH _ _ Hxs Hg) as (i & t' & x' & ?). by exists (S i), t', x'.
Qed.
Lemma tree_fields_none h ts vs xs f : tree_fields (λ t v, tree_of t h v) ts vs = Some xs → get_field f vs = None →
  f ∉ ts.*1.
Proof.
  revert vs xs. induction ts as [|[g t] ts IH]; intros [|[g' w] vs] xs Ht Hg; try done; cbn in *.
  { by intros ?%not_elem_of_nil. }
  destruct (String.eqb_spec g g') as [->|]; [|done]. apply bind_Some in Ht as (x & Hx & Ht).
  apply bind_Some in Ht as (xs' & Hxs & [= <-]). destruct (String.eqb_spec f g') as [->|Hne]; [done|].
  intros [->|Hf]%elem_of_cons; [done|]. by eapply IH.
Qed.

Lemma statements_spec n h0 ts vs xs stmts : NoDup ts.*1 → tree_fields (λ t v, tree_of t h0 v) ts vs = Some xs →
  (∀ f c t, (f, c) ∈ stmts → (f, t) ∈ ts → deep_copier t c) →
  ∀ out h, n ≤ length h → kept 0 h0 h → field_inv n stmts.*1 h ts xs out →
  let '(out', h') := statements stmts vs out h in kept 0 h h' ∧ field_inv n [] h' ts xs out'.
Proof.
  intros Hnd Ht. induction stmts as [|[f c] stmts IH]; intros Hc out h Hn Hk Hi; cbn; [by split; [apply kept_refl|]|].
  specialize (IH (λ f c t Hin, Hc f c t (list_elem_of_further _ _ _ Hin))).
  destruct (get_field f vs) as [v|] eqn:Eg.
  - destruct (tree_fields_get _ _ _ _ _ _ Ht Eg) as (i & t & x & Hti & Hxi & Hx).
    pose proof (Hc f c t (list_elem_of_here _ _) (list_elem_of_lookup_2 _ _ _ Hti) h v x (tree_kept _ _ _ _ _ Hk Hx)) as Hcopy.
    destruct (c v h) as [y h1]. destruct Hcopy as (Hk1 & Hy & Ha).
    assert (Hi1 : field_inv n stmts.*1 h1 ts xs (set_field_of f y out)).
    { apply (field_inv_set n f y _ h); [done..| |done]. intros j t' x' Htj Hxj.
      assert (j = i) as -> by (eapply NoDup_lookup; [exact Hnd| |]; rewrite list_lookup_fmap, ?Htj, ?Hti; done).
      rewrite Hti in Htj. rewrite Hxi in Hxj. injection Htj as <-. injection Hxj as <-.
      split; [done|]. by eapply above_le; [|exact Ha]. }
    specialize (IH _ h1 ltac:(pose proof (kept_length _ _ Hk1); lia) (kept_trans _ _ _ _ Hk Hk1) Hi1).
    destruct (statements stmts vs _ h1) as [out' h']. destruct IH as [Hk2 ?]. split; [by eapply kept_trans|done].
  - apply IH; [done..|]. eapply field_inv_kept; [apply kept_refl| |exact Hi].
    intros f' Hf' Hn' [->|?]%elem_of_cons; [|done]. by eapply tree_fields_none in Eg.
Qed.

(** The statement for a field, if there is one. *)
Definition covers (stmts : list (string * copier)) (ft : string * ty) : Prop :=
  (ft.1 ∉ stmts.*1 → flat ft.2 = true) ∧ ∀ c, (ft.1, c) ∈ stmts → deep_copier ft.2 c.
Lemma fields_deep ts stmts : NoDup ts.*1 → Forall (covers stmts) ts → deep_copier (TStruct ts) (fields stmts).
Proof.
  intros Hnd Hc h v x Hx. destruct v as [|vs| | |]; try done. cbn in Hx. apply fmap_Some in Hx as (xs & Hx & ->).
  unfold fields. rewrite Forall_forall in Hc.
  assert (Hi : field_inv (length h) stmts.*1 h ts xs vs).
  { apply field_inv_start; [done|]. intros f t v Hin Hn [y Hy]. destruct (Hc _ Hin) as [Hf _].
    by apply (flat_tree t h h v y (length h) (Hf Hn)). }
  assert (Hs : ∀ f c t, (f, c) ∈ stmts → (f, t) ∈ ts → deep_copier t c).
  { intros f c t Hst Hin. destruct (Hc _ Hin) as [_ Hd]. by apply Hd. }
  pose proof (statements_spec (length h) h ts vs xs stmts Hnd Hx Hs vs h (Nat.le_refl _) (kept_refl 0 h) Hi) as Hr.
  destruct (statements stmts vs vs h) as [out h']. destruct Hr as [Hk [E1 E2]%field_inv_end].
  split; [done|]. cbn. by rewrite E1.
Qed.

(** ** The reference: copying by the type alone *)
Fixpoint deep `{MapOrder} (t : ty) : copier :=
  match t with
  | TBasic _ => assign
  | TStruct ts => fields (map (λ ft, (ft.1, deep ft.2)) ts)
  | TPtr t => new_into t (deep t)
  | TSlice t => slice_into t (deep t)
  | TMap _ => map_copy
  end.
(** Field names are distinct and the values of maps have no references. *)
Fixpoint wf_ty (t : ty) : bool :=
  match t with
  | TBasic _ => true
  | TStruct ts => bool_decide (NoDup ts.*1) && forallb (λ ft, wf_ty ft.2) ts
  | TPtr t | TSlice t => wf_ty t
  | TMap t => flat t
  end.
Lemma deep_deep `{MapOrder} t : wf_ty t = true → deep_copier t (deep t).
Proof.
  induction t as [b|ts IH|t IH|t IH|t IH] using ty_ind'; cbn [wf_ty deep]; intros Hw.
  - by apply assign_deep.
  - apply andb_true_iff in Hw as [Hnd%bool_decide_eq_true Hw]. apply fields_deep; [done|].
    rewrite Forall_forall in *. intros [f t] Hin. split; cbn.
    + intros Hn. exfalso. apply Hn. rewrite <- list_fmap_compose. exact (list_elem_of_fmap_2 fst _ _ Hin).
    + intros c ([f' t'] & [= -> ->] & Hin')%list_elem_of_fmap. 
      assert ((f', t) = (f', t')) as [= ->] by (by apply (NoDup_fmap_inj fst ts)).
      apply (IH _ Hin'). by apply (proj1 (forallb_elem _ _) Hw (f', t')).
  - apply new_into_deep, IH, Hw.
  - apply slice_into_deep, IH, Hw.
  - by apply map_copy_deep.
Qed.

(** ** Independence *)
(** What a deep copy is for: it says what the original says; it keeps saying so whatever is
    written to the cells that existed before, and the original keeps saying so whatever is
    written to the cells of the copy. *)
Definition independent (t : ty) (h : heap) (v v' : gval) (h' : heap) (x : tree) : Prop :=
  tree_of t h' v = Some x ∧ tree_of t h' v' = Some x ∧
  (∀ h'', kept (length h) h' h'' → tree_of t h'' v' = Some x) ∧
  (∀ h'', (∀ l, l < length h → h'' !! l = h' !! l) → tree_of t h'' v = Some x).
Lemma deep_copier_independent t c h v x : deep_copier t c → tree_of t h v = Some x →
  let '(v', h') := c v h in independent t h v v' h' x.
Proof.
  intros Hc Hx. specialize (Hc h v x Hx). destruct (c v h) as [v' h']. destruct Hc as (Hk & Hx' & Ha).
  split_and!; [by eapply tree_kept|done| |].
  - intros h'' Hk''. by apply (frame t (length h) h' h'' v' x).
  - intros h'' Hl. eapply tree_kept, Hx. intros l d _ Hd. pose proof (lookup_lt_Some _ _ _ Hd).
    rewrite Hl by done. by apply Hk; [lia|].
Qed.
