(* ===== verification/Sha256.v ===== *)
(** [crypto/sha256.Sum256] and [encoding/hex.EncodeToString] (FIPS 180-4), the
    digest behind build-spec hashes, job-name suffixes and the credential
    fingerprint.  Words are integers below 2^32 with the wrap-around written out. *)
From Stdlib Require Import ZArith Ascii String.
From stdpp Require Import base gmap strings list numbers sorting.
From S2P Require Import Prelude GoStd.

Open Scope string_scope.
Open Scope list_scope.
Open Scope Z_scope.

Definition w32 (z : Z) : Z := z mod 2 ^ 32.
Definition add32 (a b : Z) : Z := w32 (a + b).
Definition rotr (x n : Z) : Z := w32 (Z.lor (Z.shiftr x n) (Z.shiftl x (32 - n))).
Definition not32 (x : Z) : Z := Z.lxor x (2 ^ 32 - 1).
Definition ch (x y z : Z) : Z := Z.lxor (Z.land x y) (Z.land (not32 x) z).
Definition maj (x y z : Z) : Z := Z.lxor (Z.lxor (Z.land x y) (Z.land x z)) (Z.land y z).
Definition xor3 (a b c : Z) : Z := Z.lxor (Z.lxor a b) c.
Definition bsig0 (x : Z) := xor3 (rotr x 2) (rotr x 13) (rotr x 22).
Definition bsig1 (x : Z) := xor3 (rotr x 6) (rotr x 11) (rotr x 25).
Definition ssig0 (x : Z) := xor3 (rotr x 7) (rotr x 18) (Z.shiftr x 3).
Definition ssig1 (x : Z) := xor3 (rotr x 17) (rotr x 19) (Z.shiftr x 10).

(** FIPS 180-4 derives its constants from the first 64 primes: the initial
    state takes the first 32 bits of the fractional parts of square roots, the
    round constants those of cube roots.  They are computed here rather than
    tabulated. *)
Definition is_prime (n : nat) : bool :=
  forallb (fun d => negb (Nat.eqb (n mod d) 0)) (seq 2 (n - 2)).

(** The 64th prime is 311. *)
Definition primes64 : list Z :=
  map Z.of_nat (List.filter is_prime (seq 2 310)).

(** The integer cube root of [n], the bits of weight below [2^k] found from the
    highest down, [r] being the bits already found. *)
Fixpoint cbrt_bits (k : nat) (n r : Z) : Z :=
  match k with
  | O => r
  | S k' =>
      let r' := r + 2 ^ Z.of_nat k' in
      cbrt_bits k' n (if (r' ^ 3 <=? n)%Z then r' else r)
  end.

Definition K256 : list Z :=
  Eval vm_compute in map (fun p => w32 (cbrt_bits 35 (p * 2 ^ 96) 0)) primes64.

Definition H256 : list Z :=
  Eval vm_compute in map (fun p => w32 (Z.sqrt (p * 2 ^ 64))) (firstn 8 primes64).

Example round_constants : length K256 = 64%nat /\ head K256 = Some 0x428a2f98.
Proof. split; reflexivity. Qed.

Fixpoint bytes_of (s : string) : list Z :=
  match s with "" => [] | String c s' => bv c :: bytes_of s' end.

(** The big-endian bytes of [n], [k] of them. *)
Fixpoint be_bytes (k : nat) (n : Z) : list Z :=
  match k with O => [] | S k' => be_bytes k' (n / 256) ++ [n mod 256] end.

Definition pad (m : list Z) : list Z :=
  let l := Z.of_nat (length m) in
  m ++ [0x80] ++ replicate (Z.to_nat ((55 - l) mod 64)) 0 ++ be_bytes 8 (l * 8).

Fixpoint words (m : list Z) : list Z :=
  match m with
  | a :: b :: c :: d :: m' => (a * 2 ^ 24 + b * 2 ^ 16 + c * 2 ^ 8 + d) :: words m'
  | _ => []
  end.

(** Message schedule: [w] holds the last 16 words, newest first. *)
Fixpoint schedule (n : nat) (w : list Z) : list Z :=
  match n with
  | O => []
  | S n' =>
      let nth i := List.nth i w 0 in
      let x := w32 (ssig1 (nth 1%nat) + nth 6%nat + ssig0 (nth 14%nat) + nth 15%nat) in
      x :: schedule n' (x :: firstn 15 w)
  end.

Definition round (st : list Z) (kw : Z * Z) : list Z :=
  match st with
  | [a; b; c; d; e; f; g; h] =>
      let t1 := h + bsig1 e + ch e f g + kw.1 + kw.2 in
      let t2 := bsig0 a + maj a b c in
      [w32 (t1 + t2); a; b; c; w32 (d + t1); e; f; g]
  | _ => st
  end.

Definition compress (st : list Z) (block : list Z) : list Z :=
  let w := block ++ schedule 48 (rev block) in
  zip_with add32 st (foldl round st (zip K256 w)).

Fixpoint blocks (n : nat) (ws : list Z) (st : list Z) : list Z :=
  match n with
  | O => st
  | S n' => blocks n' (skipn 16 ws) (compress st (firstn 16 ws))
  end.

(** The digest as 32 bytes. *)
Definition Sum256 (m : list Z) : list Z :=
  let ws := words (pad m) in
  concat (map (be_bytes 4) (blocks (length ws / 16) ws H256)).

Definition hex_encode (l : list Z) : string := concat_strings (map hex2 l).

(** [hex.EncodeToString(sha256.Sum256([]byte(s)))]. *)
Definition sha256_hex (s : string) : string := hex_encode (Sum256 (bytes_of s)).

Example sha256_empty : sha256_hex "" =
  "e3b0c44298fc1c149afbf4c8996fb92427ae41e4649b934ca495991b7852b855".
Proof. vm_compute. reflexivity. Qed.
Example sha256_abc : sha256_hex "abc" =
  "ba7816bf8f01cfea414140de5dae2223b00361a396177a9cb410ff61f20015ad".
Proof. vm_compute. reflexivity. Qed.
Example sha256_two_blocks :
  sha256_hex "abcdbcdecdefdefgefghfghighijhijkijkljklmklmnlmnomnopnopq" =
  "248d6a61d20638b8e5c026930c3e6039a33ce45964ff2167f6ecedd419db06c1".
Proof. vm_compute. reflexivity. Qed.

(** A digest has 32 bytes, for a message of any length. *)
Lemma length_round st kw : length st = 8%nat → length (round st kw) = 8%nat.
Proof. do 8 (destruct st as [|? st]; [done|]). by destruct st. Qed.
Lemma length_compress st block : length st = 8%nat → length (compress st block) = 8%nat.
Proof.
  intros Hs. unfold compress. rewrite length_zip_with, Hs. enough (∀ l s, length s = 8%nat → length (foldl round s l) = 8%nat)
    as -> by done. induction l as [|kw l IH]; intros s Hl; [done|]. cbn. by apply IH, length_round.
Qed.
Lemma length_blocks n ws st : length st = 8%nat → length (blocks n ws st) = 8%nat.
Proof. revert ws st. induction n as [|n IH]; intros ws st Hs; [done|]. cbn. by apply IH, length_compress. Qed.
Lemma length_Sum256 m : length (Sum256 m) = 32%nat.
Proof.
  unfold Sum256. set (st := blocks _ _ _). assert (Hs : length st = 8%nat) by by apply length_blocks.
  clearbody st. do 8 (destruct st as [|? st]; [done|]). by destruct st.
Qed.
Lemma sha256_hex_nonempty s : sha256_hex s ≠ "".
Proof.
  unfold sha256_hex, hex_encode. pose proof (length_Sum256 (bytes_of s)) as Hl. by destruct (Sum256 (bytes_of s)).
Qed.
