(* ===== verification/Decisions.v ===== *)
(** The two start/wait chokepoints of internal/domain: [DecideBuild]
    (trigger.go) and [DecideCleanup] (cleanup.go), with their enumerations. *)
From Stdlib Require Import ZArith Ascii String.
From stdpp Require Import base gmap strings list numbers sorting.
From S2P Require Import Prelude.

Open Scope string_scope.
Open Scope list_scope.
Open Scope Z_scope.

(* Go: internal/domain/trigger.go BuildDecision @3-15 *)
Inductive BuildDecision := NoBuild | StartBuild | DeferBuild.

(* Go: internal/domain/trigger.go DecideBuild *)
Definition DecideBuild (requestedToken lastProcessedToken : string) (buildActive : bool)
    : BuildDecision :=
  if decide (requestedToken = lastProcessedToken) then NoBuild
  else if buildActive then DeferBuild
  else StartBuild.

(* Go: internal/domain/cleanup.go CleanupDecision @3-18 *)
Inductive CleanupDecision := NoCleanup | StartCleanup | WaitCleanup.

(* Go: internal/domain/cleanup.go DecideCleanup *)
Definition DecideCleanup (requestedToken processedToken : string)
    (buildActive cleanupActive : bool) : CleanupDecision :=
  if decide (requestedToken = "" ∨ requestedToken = processedToken) then NoCleanup
  else if buildActive || cleanupActive then WaitCleanup
  else StartCleanup.

#[global] Instance BuildDecision_eq_dec : EqDecision BuildDecision.
Proof. solve_decision. Defined.
#[global] Instance CleanupDecision_eq_dec : EqDecision CleanupDecision.
Proof. solve_decision. Defined.

Lemma DecideBuild_start r p a :
  DecideBuild r p a = StartBuild ↔ r ≠ p ∧ a = false.
Proof. unfold DecideBuild. case_decide; destruct a; naive_solver. Qed.

Lemma DecideCleanup_start r p b c :
  DecideCleanup r p b c = StartCleanup ↔ r ≠ "" ∧ r ≠ p ∧ b = false ∧ c = false.
Proof. unfold DecideCleanup. case_decide; destruct b, c; naive_solver. Qed.

Lemma DecideCleanup_no r p b c :
  DecideCleanup r p b c = NoCleanup ↔ r = "" ∨ r = p.
Proof. unfold DecideCleanup. case_decide; destruct b, c; naive_solver. Qed.
