(* ===== verification/Storage.v ===== *)
(** internal/domain/storage.go: per-volume storage thresholds, their ordering
    check and the threshold badge. *)
From Stdlib Require Import ZArith Ascii String.
From stdpp Require Import base gmap strings list numbers sorting fin_maps.
From S2P Require Import Prelude GoStd GoNum.

Open Scope string_scope.
Open Scope list_scope.
Open Scope Z_scope.

(* Go: internal/domain/storage.go ThresholdStateOK @11-18 *)
Definition ThresholdStateOK : string := "OK".
Definition ThresholdStateAlert : string := "Alert".
Definition ThresholdStateCritical : string := "Critical".

(* Go: internal/domain/storage.go VolumeThresholds *)
Record VolumeThresholds := MkVolumeThresholds {
  CleanupBytes : Z;
  AlertBytes : Z;
  CapBytes : Z;
}.
Definition noThresholds : VolumeThresholds := MkVolumeThresholds 0 0 0.

(* Go: internal/domain/storage.go StorageConfig *)
Record StorageConfig := MkStorageConfig {
  sc_Cache : VolumeThresholds;
  sc_DataCache : VolumeThresholds;
  sc_Output : VolumeThresholds;
}.

(* Go: internal/domain/storage.go NamedVolume *)
Record NamedVolume := MkNamedVolume { nv_Name : string; nv_Thresholds : VolumeThresholds }.

(* Go: internal/domain/storage.go Volumes *)
Definition Volumes (cfg : StorageConfig) : list NamedVolume :=
  [MkNamedVolume "cache" (sc_Cache cfg);
   MkNamedVolume "dataCache" (sc_DataCache cfg);
   MkNamedVolume "output" (sc_Output cfg)].

Definition ordered (v : VolumeThresholds) : list (string * Z) :=
  [("cleanupThreshold", CleanupBytes v); ("alertThreshold", AlertBytes v);
   ("releaseSizeCap", CapBytes v)].

(** The loop of [validateVolume]; [prev] is the last threshold that was set. *)
(* Go: internal/domain/storage.go validateVolume *)
Fixpoint validateVolume_loop (name : string) (prev : option (string * Z))
    (l : list (string * Z)) : result unit :=
  match l with
  | [] => Ok tt
  | (label, val) :: l' =>
      if val =? 0 then validateVolume_loop name prev l'
      else match prev with
           | Some (plabel, pval) =>
               if val <=? pval
               then Err (errorf ("storage." +:+ name +:+ ": " +:+ plabel +:+ " (" +:+
                      Itoa pval +:+ ") must be < " +:+ label +:+ " (" +:+ Itoa val +:+ ")"))
               else validateVolume_loop name (Some (label, val)) l'
           | None => validateVolume_loop name (Some (label, val)) l'
           end
  end.

(* Go: internal/domain/storage.go validateVolume *)
Definition validateVolume (name : string) (v : VolumeThresholds) : result unit :=
  validateVolume_loop name None (ordered v).

(* Go: internal/domain/storage.go ValidateStorage *)
Fixpoint validateVolumes (vols : list NamedVolume) : result unit :=
  match vols with
  | [] => Ok tt
  | vol :: vols' =>
      validateVolume (nv_Name vol) (nv_Thresholds vol);; validateVolumes vols'
  end.

(* Go: internal/domain/storage.go ValidateStorage *)
Definition ValidateStorage (cfg : StorageConfig) : result unit :=
  validateVolumes (Volumes cfg).

Section unicode.
Context `{GoRuntime}.

(* Go: internal/domain/storage.go thresholdsForKey *)
Definition thresholdsForKey (key : string) (cfg : StorageConfig)
    : option VolumeThresholds :=
  let k := ToLower key in
  if Contains k "total" then None
  else if Contains k "output" then Some (sc_Output cfg)
  else if Contains k "data" then Some (sc_DataCache cfg)
  else if Contains k "cache" then Some (sc_Cache cfg)
  else None.

(* Go: internal/domain/storage.go EvaluateThresholdState *)
Definition over_cap (cfg : StorageConfig) (kv : string * Z) : bool :=
  match thresholdsForKey kv.1 cfg with
  | Some v => (0 <? CapBytes v) && (CapBytes v <=? kv.2)
  | None => false
  end.
(* Go: internal/domain/storage.go EvaluateThresholdState *)
Definition over_alert (cfg : StorageConfig) (kv : string * Z) : bool :=
  match thresholdsForKey kv.1 cfg with
  | Some v => (0 <? AlertBytes v) && (AlertBytes v <=? kv.2)
  | None => false
  end.

(** The loop body: the two flags after one more map entry. *)
(* Go: internal/domain/storage.go EvaluateThresholdState *)
Definition threshold_step (cfg : StorageConfig) (acc : bool * bool) (kv : string * Z)
    : bool * bool :=
  (acc.1 || over_cap cfg kv, acc.2 || over_alert cfg kv).

(** [entries] is the order in which the runtime happens to visit the map. *)
(* Go: internal/domain/storage.go EvaluateThresholdState *)
Definition EvaluateThresholdState_in (entries : list (string * Z)) (cfg : StorageConfig)
    : string :=
  match entries with
  | [] => ""
  | _ =>
      let '(critical, alert) := foldl (threshold_step cfg) (false, false) entries in
      if critical then ThresholdStateCritical
      else if alert then ThresholdStateAlert
      else ThresholdStateOK
  end.

(* Go: internal/domain/storage.go EvaluateThresholdState *)
Definition EvaluateThresholdState (sizes : gmap string Z) (cfg : StorageConfig) : string :=
  EvaluateThresholdState_in (map_to_list sizes) cfg.

Lemma threshold_fold cfg entries acc :
  foldl (threshold_step cfg) acc entries =
  (acc.1 || existsb (over_cap cfg) entries, acc.2 || existsb (over_alert cfg) entries).
Proof.
  revert acc. induction entries as [|kv l IH]; intros [x y]; cbn;
    [by rewrite !orb_false_r|].
  rewrite IH. cbn. by rewrite !orb_assoc.
Qed.

Lemma existsb_perm {A} (f : A → bool) l k : l ≡ₚ k → existsb f l = existsb f k.
Proof.
  induction 1; cbn; [done | congruence | | congruence].
  rewrite !orb_assoc. f_equal. apply orb_comm.
Qed.

Lemma EvaluateThresholdState_perm entries entries' cfg :
  entries ≡ₚ entries' →
  EvaluateThresholdState_in entries cfg = EvaluateThresholdState_in entries' cfg.
Proof.
  intros Hp. unfold EvaluateThresholdState_in. rewrite !threshold_fold. cbn [fst snd orb].
  rewrite (existsb_perm _ _ _ Hp), (existsb_perm (over_alert cfg) _ _ Hp).
  pose proof (Permutation_length Hp).
  by destruct entries, entries'.
Qed.
End unicode.

(** ** Ordering of the thresholds *)
Definition thresholds_ordered (v : VolumeThresholds) : Prop :=
  (CleanupBytes v ≠ 0 → AlertBytes v ≠ 0 → CleanupBytes v < AlertBytes v) ∧
  (AlertBytes v ≠ 0 → CapBytes v ≠ 0 → AlertBytes v < CapBytes v) ∧
  (CleanupBytes v ≠ 0 → CapBytes v ≠ 0 → CleanupBytes v < CapBytes v).

Lemma validateVolume_ok name v :
  validateVolume name v = Ok tt ↔ thresholds_ordered v.
Proof.
  unfold validateVolume, ordered, thresholds_ordered. destruct v as [c a k]. cbn.
  repeat (case_match; breflect; cbn; try (split; [done|]); try (split; [|done]));
    try lia; split; done || (intros; repeat split; lia).
Qed.

Lemma validateVolumes_ok vols :
  validateVolumes vols = Ok tt ↔ Forall (thresholds_ordered ∘ nv_Thresholds) vols.
Proof.
  induction vols as [|vol vols IH]; cbn [validateVolumes]; [by split|].
  pose proof (validateVolume_ok (nv_Name vol) (nv_Thresholds vol)) as Hv.
  rewrite Forall_cons, <- IH. unfold compose. rewrite <- Hv.
  unfold mbind, result_bind.
  destruct (validateVolume _ _) as [[]|]; intuition congruence.
Qed.

(** The operator accepts a storage configuration exactly when, for every
    volume, the thresholds that are set (non-zero) are strictly increasing from
    cleanup to alert to cap, the pair cleanup/cap included when alert is unset. *)
Theorem ValidateStorage_iff_ordered cfg :
  ValidateStorage cfg = Ok tt ↔
  thresholds_ordered (sc_Cache cfg) ∧ thresholds_ordered (sc_DataCache cfg) ∧
  thresholds_ordered (sc_Output cfg).
Proof.
  unfold ValidateStorage, Volumes. rewrite validateVolumes_ok, !Forall_cons, Forall_nil. cbn.
  tauto.
Qed.

(** Some measured volume reaches its hard cap, or its alert threshold. *)
Definition some_over `{GoRuntime} (test : StorageConfig → string * Z → bool)
    (cfg : StorageConfig) (sizes : gmap string Z) : Prop :=
  ∃ key size, sizes !! key = Some size ∧ test cfg (key, size) = true.

Lemma existsb_some_over `{GoRuntime} test cfg sizes :
  existsb (test cfg) (map_to_list sizes) = true ↔ some_over test cfg sizes.
Proof.
  rewrite existsb_elem. unfold some_over. split.
  - intros ([k v] & Hin & ?). exists k, v. by rewrite elem_of_map_to_list in Hin.
  - intros (k & v & ? & ?). exists (k, v). by rewrite elem_of_map_to_list.
Qed.

(** The storage badge is exactly "" when nothing is measured, Critical when
    some volume reaches its cap, Alert when none does and some volume reaches its
    alert threshold, and OK otherwise, whatever the order in which the size map is
    visited. *)
Theorem EvaluateThresholdState_correct `{GoRuntime} sizes cfg :
  (∀ entries, entries ≡ₚ map_to_list sizes →
     EvaluateThresholdState_in entries cfg = EvaluateThresholdState sizes cfg) ∧
  (EvaluateThresholdState sizes cfg = "" ↔ sizes = ∅) ∧
  (EvaluateThresholdState sizes cfg = ThresholdStateCritical ↔ some_over over_cap cfg sizes) ∧
  (EvaluateThresholdState sizes cfg = ThresholdStateAlert ↔
     ¬ some_over over_cap cfg sizes ∧ some_over over_alert cfg sizes) ∧
  (EvaluateThresholdState sizes cfg = ThresholdStateOK ↔
     sizes ≠ ∅ ∧ ¬ some_over over_cap cfg sizes ∧ ¬ some_over over_alert cfg sizes).
Proof.
  split; [intros; by apply EvaluateThresholdState_perm|].
  rewrite <- !existsb_some_over. unfold EvaluateThresholdState, EvaluateThresholdState_in.
  destruct (map_to_list sizes) as [|kv l] eqn:E.
  { apply map_to_list_empty_iff in E. cbn. naive_solver. }
  assert (sizes ≠ ∅) by (intros ->; by rewrite map_to_list_empty in E).
  rewrite threshold_fold. cbn [fst snd]. rewrite !orb_false_l.
  destruct (existsb (over_cap cfg) (kv :: l)), (existsb (over_alert cfg) (kv :: l));
    naive_solver.
Qed.

(** With an accepted configuration a deploy is never blocked before it has
    warned: a volume at or over its hard cap whose alert threshold is set is at or
    over the alert threshold too. *)
Theorem accepted_cap_implies_alert `{GoRuntime} cfg key size v :
  ValidateStorage cfg = Ok tt → thresholdsForKey key cfg = Some v → 0 < AlertBytes v →
  over_cap cfg (key, size) = true → over_alert cfg (key, size) = true.
Proof.
  intros Hok Hk Ha. unfold over_cap, over_alert. cbn. rewrite Hk. intros Hc. breflect.
  assert (thresholds_ordered v) as (_ & Hlt & _).
  { apply validateVolumes_ok in Hok. unfold Volumes in Hok.
    rewrite !Forall_cons in Hok. destruct Hok as (?&?&?&_). cbn in *.
    unfold thresholdsForKey in Hk. repeat case_match; simplify_eq; done. }
  apply andb_true_iff. rewrite Z.ltb_lt, Z.leb_le. lia.
Qed.

Definition example_storage : StorageConfig :=
  MkStorageConfig (MkVolumeThresholds 100 200 0) (MkVolumeThresholds 0 0 0)
    (MkVolumeThresholds 0 500 1000).

Lemma accepted_cap_implies_alert_witness :
  let _ := ascii_only_tables in
  over_alert example_storage ("output", 1200) = true.
Proof.
  cbn zeta.
  apply (@accepted_cap_implies_alert ascii_only_tables example_storage "output" 1200
           (sc_Output example_storage)); vm_compute; reflexivity.
Defined.
