(* ===== verification/Images.v ===== *)
(** internal/domain/nodeimage.go and registry.go: the managed node images, the
    resolution of a phase's container image, and the registry allowlist. *)
From Stdlib Require Import ZArith Ascii String.
From stdpp Require Import base gmap strings list numbers sorting.
From S2P Require Import Prelude GoStd GoNum.

Open Scope string_scope.
Open Scope list_scope.
Open Scope Z_scope.

(** ** nodeimage.go *)
(* Go: internal/domain/nodeimage.go NodeImage *)
Record NodeImage := MkNodeImage {
  ni_Image : string;
  ni_RunAsUser : option Z;
  ni_Home : string;
}.

(* Go: internal/domain/nodeimage.go DefaultNodeHome @22-25 *)
Definition DefaultNodeHome : string := "/work".

(* Go: internal/domain/nodeimage.go ResolvedPhase *)
Record ResolvedPhase := MkResolvedPhase {
  rp_Image : string;
  rp_RunAsUser : option Z;
  rp_Home : string;
}.

(* Go: internal/domain/nodeimage.go LookupNodeImage *)
Definition LookupNodeImage (nodeImages : gmap string NodeImage) (nodeVersion : Z)
    : option NodeImage :=
  if nodeVersion =? 0 then None else nodeImages !! Itoa nodeVersion.

(* Go: internal/domain/nodeimage.go ResolvePhase *)
Definition ResolvePhase (userImage : string) (userRunAsUser : option Z) (nodeVersion : Z)
    (nodeImages : gmap string NodeImage) (cloneFallback : string) : ResolvedPhase :=
  if negb (String.eqb userImage "") then MkResolvedPhase userImage userRunAsUser ""
  else match LookupNodeImage nodeImages nodeVersion with
       | Some ni =>
           let home := if String.eqb (ni_Home ni) "" then DefaultNodeHome else ni_Home ni in
           MkResolvedPhase (ni_Image ni) (ni_RunAsUser ni) home
       | None => MkResolvedPhase cloneFallback None ""
       end.

(** ** registry.go *)
(* Go: internal/domain/registry.go PhaseImage *)
Record PhaseImage := MkPhaseImage { pi_Phase : string; pi_Image : string }.

(* Go: internal/domain/registry.go isImageBoundary *)
Definition isImageBoundary (c : ascii) : bool :=
  (bv c =? 47) || (bv c =? 58) || (bv c =? 64).

(** The result of evaluating a Go expression that may index out of range. *)
Inductive outcome (A : Type) := Val (x : A) | Panic.
Arguments Val {A} x.
Arguments Panic {A}.

(** [s[i]] on a string. *)
Definition byte_at (s : string) (i : Z) : outcome ascii :=
  if i <? 0 then Panic
  else match String.get (Z.to_nat i) s with Some c => Val c | None => Panic end.

(* Go: internal/domain/registry.go imageAllowed *)
Fixpoint imageAllowed (allowlist : list string) (image : string) : outcome bool :=
  match allowlist with
  | [] => Val false
  | prefix :: rest =>
      if String.eqb prefix "" then imageAllowed rest image
      else if String.eqb image prefix then Val true
      else if negb (HasPrefix image prefix) then imageAllowed rest image
      else match byte_at prefix (Z.of_nat (String.length prefix) - 1) with
           | Panic => Panic
           | Val c =>
               if isImageBoundary c then Val true
               else match byte_at image (Z.of_nat (String.length prefix)) with
                    | Panic => Panic
                    | Val d => if isImageBoundary d then Val true
                               else imageAllowed rest image
                    end
           end
  end.

(* Go: internal/domain/registry.go CheckImagesAllowed *)
Fixpoint CheckImagesAllowed `{GoRuntime} (allowlist : list string)
    (images : list PhaseImage) : outcome (result unit) :=
  match images with
  | [] => Val (Ok tt)
  | im :: rest =>
      match imageAllowed allowlist (pi_Image im) with
      | Panic => Panic
      | Val false =>
          Val (Err (errorf (pi_Phase im +:+ " image " +:+ Quote (pi_Image im) +:+
                            " is not on the registry allowlist")))
      | Val true => CheckImagesAllowed allowlist rest
      end
  end.

(** ** Prefixes and string indexing *)
Lemma HasPrefix_app p t : HasPrefix (p +:+ t) p = true.
Proof. induction p as [|c p IH]; [done|]. rewrite str_app_cons. cbn [HasPrefix].
  by rewrite Ascii.eqb_refl. Qed.

Lemma HasPrefix_spec s p : HasPrefix s p = true ↔ ∃ t, s = p +:+ t.
Proof.
  split; [|intros [t ->]; apply HasPrefix_app].
  revert s. induction p as [|c p IH]; intros [|d s]; cbn [HasPrefix];
    [by exists "" | by exists (String d s) | done |].
  intros [->%Ascii.eqb_eq [t ->]%IH]%andb_true_iff. by exists t.
Qed.

Lemma get_app_length p c t : String.get (String.length p) (p +:+ String c t) = Some c.
Proof. by induction p. Qed.

Lemma byte_at_app p c t : byte_at (p +:+ String c t) (Z.of_nat (String.length p)) = Val c.
Proof.
  unfold byte_at. rewrite (proj2 (Z.ltb_ge _ _)), Nat2Z.id by lia.
  by rewrite get_app_length.
Qed.

Lemma get_last p : p ≠ "" → ∃ q c, p = q +:+ s1 c ∧
  byte_at p (Z.of_nat (String.length p) - 1) = Val c.
Proof.
  intros Hp. assert (∃ q c, p = q +:+ s1 c) as (q & c & ->).
  { induction p as [|a p IH]; [done|]. destruct p as [|b p]; [by exists "", a|].
    destruct IH as (q & c & ->); [done|]. by exists (String a q), c. }
  exists q, c. split; [done|]. unfold byte_at, s1.
  rewrite str_length_app, Nat.add_1_r.
  rewrite (proj2 (Z.ltb_ge _ _)) by lia.
  replace (Z.to_nat (Z.of_nat (S (String.length q)) - 1)) with (String.length q) by lia.
  by rewrite get_app_length.
Qed.

(** An allowlist entry admits an image: they are equal, or the image extends the
    entry and the extension starts at a separator. *)
Definition admits (prefix image : string) : Prop :=
  prefix ≠ "" ∧
  (image = prefix ∨
   ∃ c t, image = prefix +:+ String c t ∧
     (isImageBoundary c = true ∨ ∃ q d, prefix = q +:+ s1 d ∧ isImageBoundary d = true)).

Lemma snoc_inj q c q' c' : q +:+ s1 c = q' +:+ s1 c' → c = c'.
Proof.
  revert q'. induction q as [|a q IH]; intros [|b q']; cbn; intros [=]; subst; eauto.
  - by destruct q'.
  - by destruct q.
Qed.

(** One allowlist entry, as a decision. *)
Lemma imageAllowed_cons prefix rest image :
  (admits prefix image ∧ imageAllowed (prefix :: rest) image = Val true) ∨
  (¬ admits prefix image ∧ imageAllowed (prefix :: rest) image = imageAllowed rest image).
Proof.
  cbn [imageAllowed]. unfold admits.
  destruct (String.eqb_spec prefix "") as [->|Hne]; [right; naive_solver|].
  destruct (String.eqb_spec image prefix) as [->|Hi]; [left; naive_solver|].
  destruct (HasPrefix image prefix) eqn:Hp; cbn [negb]; cycle 1.
  { right. split; [|done]. intros (_ & [?|(c & t & -> & _)]); [done|].
    by rewrite HasPrefix_app in Hp. }
  apply HasPrefix_spec in Hp as [t ->].
  destruct t as [|c t]; [by rewrite str_app_nil_r in Hi|].
  destruct (get_last prefix Hne) as (q & d & Hq & ->).
  rewrite byte_at_app. cbv beta iota.
  destruct (isImageBoundary d) eqn:Ed; [left; split; [|done]; split; [done|]; right;
    exists c, t; split; [done|]; right; by exists q, d|].
  destruct (isImageBoundary c) eqn:Ec; [left; split; [|done]; split; [done|]; right;
    exists c, t; naive_solver|].
  right. split; [|done]. intros (_ & [?|(c' & t' & E & [Hb|(q' & d' & E' & Hb)])]); [done|..].
  - apply (f_equal (String.get (String.length prefix))) in E.
    rewrite !get_app_length in E. simplify_eq. congruence.
  - rewrite Hq in E'. apply snoc_inj in E'. congruence.
Qed.

(** The allowlist test never indexes out of range, and it accepts an image
    exactly when some non-empty entry equals it, or is a prefix of it and the
    match ends at a separator (the entry's last byte or the image's next byte is
    one of / : @), so the entry ghcr.io/org never admits ghcr.io/org-evil/x. *)
Theorem imageAllowed_correct allowlist image :
  (Exists (λ p, admits p image) allowlist ∧ imageAllowed allowlist image = Val true) ∨
  (Forall (λ p, ¬ admits p image) allowlist ∧ imageAllowed allowlist image = Val false).
Proof.
  induction allowlist as [|p l IH]; [right; split; [constructor|done]|].
  destruct (imageAllowed_cons p l image) as [[? ->]|[? ->]]; [left; split; [by left|done]|].
  destruct IH as [[? ->]|[? ->]]; [left|right]; (split; [by constructor|done]).
Qed.

Lemma imageAllowed_val allowlist image : ∃ b, imageAllowed allowlist image = Val b ∧
  (b = true ↔ Exists (λ p, admits p image) allowlist).
Proof.
  induction allowlist as [|p l IH]; [exists false; split; [done|]; split; [done|inversion 1]|].
  destruct (imageAllowed_cons p l image) as [[Hp ->]|[Hp ->]].
  - exists true. split; [done|]. split; [by left|done].
  - destruct IH as (b & -> & IH). exists b. split; [done|].
    rewrite Exists_cons, IH. tauto.
Qed.

Lemma CheckImagesAllowed_val `{GoRuntime} allowlist images :
  ∃ r, CheckImagesAllowed allowlist images = Val r.
Proof.
  induction images as [|im images IH]; cbn [CheckImagesAllowed]; [by eexists|].
  destruct (imageAllowed_val allowlist (pi_Image im)) as ([] & -> & _); [done|by eexists].
Qed.

(** The reconcile-time check passes exactly when every user-supplied phase
    image is admitted by some allowlist entry, and it never panics. *)
Theorem CheckImagesAllowed_correct `{GoRuntime} allowlist images :
  ∃ r, CheckImagesAllowed allowlist images = Val r ∧
    (r = Ok tt ↔ Forall (λ im, Exists (λ p, admits p (pi_Image im)) allowlist) images).
Proof.
  induction images as [|im images IH]; cbn [CheckImagesAllowed].
  { exists (Ok tt). split; [done|]. split; [constructor|done]. }
  destruct (imageAllowed_val allowlist (pi_Image im)) as (b & -> & Hb).
  destruct b.
  - destruct IH as (r & -> & Hr). exists r. split; [done|].
    rewrite Forall_cons, Hr. tauto.
  - eexists. split; [done|]. rewrite Forall_cons. split; [done|].
    intros [Hx _]. apply Hb in Hx. done.
Qed.

(** ** What phase resolution gives *)
(** A node-image entry as the operator's start-up check accepts it. *)
Definition node_image_ok (ni : NodeImage) : Prop :=
  ni_Image ni ≠ "" ∧ ∃ uid, ni_RunAsUser ni = Some uid ∧ 1 ≤ uid.

Lemma ResolvePhase_managed nodeVersion nodeImages clone ni :
  LookupNodeImage nodeImages nodeVersion = Some ni →
  ResolvePhase "" None nodeVersion nodeImages clone =
  MkResolvedPhase (ni_Image ni) (ni_RunAsUser ni)
    (if String.eqb (ni_Home ni) "" then DefaultNodeHome else ni_Home ni).
Proof. intros E. unfold ResolvePhase. by rewrite E. Qed.

Lemma ResolvePhase_home userImage uid nodeVersion nodeImages clone :
  rp_Home (ResolvePhase userImage uid nodeVersion nodeImages clone) ≠ "" ↔
  userImage = "" ∧ is_Some (LookupNodeImage nodeImages nodeVersion).
Proof.
  unfold ResolvePhase. destruct (String.eqb_spec userImage "") as [->|]; cbn [negb];
    [|cbn; naive_solver].
  destruct (LookupNodeImage nodeImages nodeVersion) as [ni|]; cbn [rp_Home].
  - destruct (String.eqb_spec (ni_Home ni) ""); naive_solver.
  - split; [done|]. intros [_ []]. done.
Qed.
