(* ===== verification/WatchSchedule.v ===== *)
(** internal/domain/watchschedule.go: the cron schedule of a poll interval. *)
From Stdlib Require Import ZArith Ascii String.
From stdpp Require Import base gmap strings list numbers sorting.
From S2P Require Import Prelude GoStd GoNum.

Open Scope string_scope.
Open Scope list_scope.
Open Scope Z_scope.

Section watch.
Context `{GoRuntime}.

(* Go: internal/domain/watchschedule.go WatchCron *)
Definition WatchCron (interval : string) : result string :=
  let q := "watch interval " +:+ Quote interval in
  match ParseDuration interval with
  | None => Err (errorf (q +:+ " is not a valid duration: " +:+
                          duration_error_text interval))
  | Some d =>
      if d <? Minute then Err (errorf (q +:+ " must be at least 1m"))
      else if negb (Z.rem d Minute =? 0) then Err (errorf (q +:+ " must be whole minutes"))
      else
        let minutes := Z.quot d Minute in
        if minutes <=? 59 then Ok ("*/" +:+ Itoa minutes +:+ " * * * *")
        else if negb (Z.rem d Hour =? 0)
        then Err (errorf (q +:+ " above 59m must be whole hours"))
        else
          let hours := Z.quot d Hour in
          if 23 <? hours
          then Err (errorf (q +:+ " must be at most 23h (cron cannot express longer periods)"))
          else Ok ("0 */" +:+ Itoa hours +:+ " * * *")
  end.

(** The cron schedule that polls every [d] nanoseconds, if there is one. *)
Definition cron_of (d : Z) (schedule : string) : Prop :=
  (∃ m, 1 ≤ m ≤ 59 ∧ d = m * Minute ∧ schedule = "*/" +:+ Itoa m +:+ " * * * *") ∨
  (∃ h, 1 ≤ h ≤ 23 ∧ d = h * Hour ∧ schedule = "0 */" +:+ Itoa h +:+ " * * *").

Lemma rem_zero_mul d u : 0 < u → (Z.rem d u =? 0) = true → d = Z.quot d u * u.
Proof. intros ? E. breflect. pose proof (Z.quot_rem d u). lia. Qed.

Lemma rem_mul m u : 0 < u → (Z.rem (m * u) u =? 0) = true.
Proof. intros ?. apply Z.eqb_eq. by rewrite Z.rem_mul by lia. Qed.

(** A poll interval is accepted exactly when it parses to a whole number of
    minutes between 1 and 59, or to a whole number of hours between 1 and 23,
    and the schedule is then the cron expression of that very period; every
    other interval is an error. *)
Theorem WatchCron_correct interval schedule :
  WatchCron interval = Ok schedule ↔
  ∃ d, ParseDuration interval = Some d ∧ cron_of d schedule.
Proof.
  unfold WatchCron, cron_of. split.
  - destruct (ParseDuration interval) as [d|]; [|done].
    repeat case_match; try done; intros [= <-]; exists d; (split; [done|]);
      breflect.
    + left. exists (Z.quot d Minute).
      pose proof (Z.quot_rem d Minute). unfold Minute, Second in *.
      split_and!; [lia..|done].
    + right. exists (Z.quot d Hour).
      pose proof (Z.quot_rem d Hour). pose proof (Z.quot_rem d Minute).
      unfold Hour, Minute, Second in *. split_and!; [lia..|done].
  - intros (d & -> & [(m & Hm & -> & ->)|(h & Hh & -> & ->)]).
    + assert ((m * Minute <? Minute) = false) as ->
        by (apply Z.ltb_ge; unfold Minute, Second; lia).
      rewrite rem_mul by done.
      cbn [negb]. rewrite Z.quot_mul by done.
      by rewrite (proj2 (Z.leb_le _ _)) by lia.
    + assert (E : h * Hour = h * 60 * Minute) by (unfold Hour, Minute, Second; lia).
      assert ((h * Hour <? Minute) = false) as ->
        by (apply Z.ltb_ge; unfold Hour, Minute, Second; lia).
      assert ((Z.rem (h * Hour) Minute =? 0) = true) as -> by (rewrite E; by apply rem_mul).
      assert (Z.quot (h * Hour) Minute = h * 60) as -> by (rewrite E; by apply Z.quot_mul).
      cbn [negb].
      rewrite (proj2 (Z.leb_gt _ _)) by lia. rewrite rem_mul by done.
      cbn [negb]. rewrite Z.quot_mul by done.
      by rewrite (proj2 (Z.ltb_ge _ _)) by lia.
Qed.

(** Every interval of the shape the CRD admits for minutes, a decimal number
    followed by m, is converted or rejected as the grid demands: n minutes give
    the minute schedule for 1 to 59, the hour schedule for whole hours up to 23,
    and are rejected otherwise. *)
Theorem WatchCron_minutes n :
  0 ≤ n → n * Minute < 2 ^ 63 →
  (∃ schedule, WatchCron (Itoa n +:+ "m") = Ok schedule ∧ cron_of (n * Minute) schedule) ↔
  (1 ≤ n ≤ 59 ∨ (n mod 60 = 0 ∧ 60 ≤ n ≤ 1380)).
Proof.
  intros Hn Hb.
  assert (Hp : ParseDuration (Itoa n +:+ "m") = Some (n * Minute)).
  { apply ParseDuration_Itoa_unit; done. }
  split.
  - intros (s & _ & [(m & Hm & E & _)|(h & Hh & E & _)]).
    + left. unfold Minute, Second in *. lia.
    + right. assert (n = h * 60) as -> by (unfold Hour, Minute, Second in *; lia).
      rewrite Z.mod_mul by done. lia.
  - intros [Hm|[Hm Hr]].
    + exists ("*/" +:+ Itoa n +:+ " * * * *").
      assert (cron_of (n * Minute) ("*/" +:+ Itoa n +:+ " * * * *")) by (left; eauto).
      split; [|done]. apply WatchCron_correct. eauto.
    + assert (Hc : cron_of (n * Minute) ("0 */" +:+ Itoa (n / 60) +:+ " * * *")).
      { right. exists (n / 60). pose proof (Z.div_mod n 60).
        unfold Hour. split; [lia|]. split; [|done].
        rewrite Z.mul_assoc. f_equal. lia. }
      eexists. split; [|exact Hc]. apply WatchCron_correct. eauto.
Qed.
End watch.

Lemma WatchCron_minutes_witness :
  let _ := ascii_only_tables in
  (∃ schedule, WatchCron (Itoa 90 +:+ "m") = Ok schedule ∧ cron_of (90 * Minute) schedule) ↔
  (1 ≤ 90 ≤ 59 ∨ (90 mod 60 = 0 ∧ 60 ≤ 90 ≤ 1380)).
Proof.
  cbn zeta. apply (@WatchCron_minutes ascii_only_tables 90); [lia | vm_compute; reflexivity].
Defined.

Example WatchCron_10m : let _ := ascii_only_tables in WatchCron "10m" = Ok "*/10 * * * *".
Proof. vm_compute. reflexivity. Qed.
Example WatchCron_90m : let _ := ascii_only_tables in is_ok (WatchCron "90m") = false.
Proof. vm_compute. reflexivity. Qed.
