(* ===== verification/GoJson.v ===== *)
(** [encoding/json]: the text [json.Marshal] writes for the values the operator
    hashes, and the proof that the text determines the value. *)
From Stdlib Require Import ZArith Ascii String.
From stdpp Require Import base gmap strings list numbers sorting.
From S2P Require Import Prelude GoStd GoNum Images.

Open Scope string_scope.
Open Scope list_scope.
Open Scope Z_scope.

(** A struct marshals as an object whose keys are in field order, a map as one
    whose keys are sorted. *)
Inductive json :=
| JNull
| JBool (b : bool)
| JNum (n : Z)
| JStr (s : string)
| JArr (l : list json)
| JObj (l : list (string * json)).

Definition u2028 : string := encode_rune 0x2028.
Definition u2029 : string := encode_rune 0x2029.

Definition html_safe (c : ascii) : bool :=
  between 0x20 (bv c) 0x7F &&
  negb ((bv c =? 34) || (bv c =? 92) || (bv c =? 60) || (bv c =? 62) || (bv c =? 38)).

(** The escape of one rune given by its bytes ([appendString], HTML-escaping on):
    an ill-formed byte is written as the escape of U+FFFD. *)
Definition json_chunk (raw : string) : string :=
  match raw with
  | String a "" =>
      if 128 <=? bv a then s2 bs "u" +:+ "fffd"
      else if html_safe a then raw
      else if (bv a =? 34) || (bv a =? 92) then s2 bs a
      else if bv a =? 8 then s2 bs "b" else if bv a =? 12 then s2 bs "f"
      else if bv a =? 10 then s2 bs "n" else if bv a =? 13 then s2 bs "r"
      else if bv a =? 9 then s2 bs "t"
      else s2 bs "u" +:+ "00" +:+ hex2 (bv a)
  | _ =>
      if decide (raw = u2028) then s2 bs "u" +:+ "2028"
      else if decide (raw = u2029) then s2 bs "u" +:+ "2029"
      else raw
  end.

Definition json_body (l : list (Z * string)) : string :=
  concat_strings (map (λ x, json_chunk x.2) l).

Definition json_string (s : string) : string :=
  dquote +:+ json_body (decode s) +:+ dquote.

Fixpoint json_enc (j : json) : string :=
  let tail := fix tail l :=
    match l with [] => "]" | x :: l' => "," +:+ json_enc x +:+ tail l' end in
  let otail := fix otail l :=
    match l with
    | [] => "}"
    | (k, x) :: l' => "," +:+ json_string k +:+ ":" +:+ json_enc x +:+ otail l'
    end in
  match j with
  | JNull => "null"
  | JBool true => "true"
  | JBool false => "false"
  | JNum n => Itoa n
  | JStr s => json_string s
  | JArr [] => "[]"
  | JArr (x :: l) => "[" +:+ json_enc x +:+ tail l
  | JObj [] => "{}"
  | JObj ((k, x) :: l) => "{" +:+ json_string k +:+ ":" +:+ json_enc x +:+ otail l
  end.

Fixpoint arr_tail (l : list json) : string :=
  match l with [] => "]" | x :: l' => "," +:+ json_enc x +:+ arr_tail l' end.
Fixpoint obj_tail (l : list (string * json)) : string :=
  match l with
  | [] => "}"
  | (k, x) :: l' => "," +:+ json_string k +:+ ":" +:+ json_enc x +:+ obj_tail l'
  end.

Lemma json_enc_arr x l : json_enc (JArr (x :: l)) = "[" +:+ json_enc x +:+ arr_tail l.
Proof. reflexivity. Qed.
Lemma json_enc_obj k x l : json_enc (JObj ((k, x) :: l)) =
  "{" +:+ json_string k +:+ ":" +:+ json_enc x +:+ obj_tail l.
Proof. reflexivity. Qed.

(** ** Well-formed text *)
Definition multibyte (raw : string) : bool :=
  match raw with
  | String a (String b "") => valid2 (bv a) (bv b)
  | String a (String b (String c "")) => valid3 (bv a) (bv b) (bv c)
  | String a (String b (String c (String d ""))) => valid4 (bv a) (bv b) (bv c) (bv d)
  | _ => false
  end.
Definition rune_bytes (raw : string) : bool :=
  match raw with String a "" => bv a <? 128 | _ => multibyte raw end.

(** [utf8.ValidString]. *)
Definition valid_utf8 (s : string) : Prop := Forall (λ x, rune_bytes x.2 = true) (decode s).
#[global] Instance valid_utf8_dec s : Decision (valid_utf8 s).
Proof. unfold valid_utf8. apply _. Defined.

Inductive json_valid : json → Prop :=
| jv_null : json_valid JNull
| jv_bool b : json_valid (JBool b)
| jv_num n : json_valid (JNum n)
| jv_str s : valid_utf8 s → json_valid (JStr s)
| jv_arr l : Forall json_valid l → json_valid (JArr l)
| jv_obj l : Forall (λ kv, valid_utf8 kv.1 ∧ json_valid kv.2) l → json_valid (JObj l).

(** ** [decode] loses nothing *)
Lemma decode_raw s : concat_strings (map snd (decode s)) = s.
Proof.
  enough (∀ n s, (String.length s ≤ n)%nat → concat_strings (map snd (decode s)) = s) by eauto.
  clear s. induction n as [|n IH]; intros [|a t1] Hl; cbn [String.length] in Hl; try done;
    [lia|].
  cbn [decode].
  repeat (case_match; subst); cbn [map snd String.length] in *; try done;
    rewrite concat_strings_cons; unfold s4, s3, s2, s1;
    rewrite !str_app_cons, str_app_nil_l; repeat f_equal; apply IH; cbn; lia.
Qed.

Lemma decode_snd_inj s t : map snd (decode s) = map snd (decode t) → s = t.
Proof. intros E. by rewrite <- (decode_raw s), <- (decode_raw t), E. Qed.

(** ** The escapes form a prefix code *)
Definition special : list string := map (λ z, s1 (chr z)) (seqZ 0 128) ++ [u2028; u2029].
Definition compatible (x y : string) : bool := HasPrefix x y || HasPrefix y x.
Definition head_is (f : ascii → bool) (s : string) : bool :=
  match s with String a _ => f a | "" => false end.

Lemma app_compatible x y u v : x +:+ u = y +:+ v → compatible x y = true.
Proof.
  unfold compatible. revert y. induction x as [|a x IH]; intros [|b y]; try done.
  rewrite !str_app_cons. intros [= -> E]. cbn [HasPrefix].
  rewrite Ascii.eqb_refl. by apply IH.
Qed.

Lemma special_prefix_free : forallb (λ x, forallb (λ y,
    String.eqb x y || negb (compatible (json_chunk x) (json_chunk y))) special) special = true.
Proof. vm_compute. reflexivity. Qed.

Lemma special_heads : forallb (λ x,
    head_is (λ a, (bv a <? 128) && negb (bv a =? 34)) (json_chunk x)) special = true.
Proof. vm_compute. reflexivity. Qed.

Lemma multibyte_head raw : multibyte raw = true → head_is (λ a, 128 <=? bv a) raw = true.
Proof.
  destruct raw as [|a [|b [|c [|d [|? ?]]]]]; try done; cbn;
    unfold valid2, valid3, valid4, between; intros ?; breflect; apply Z.leb_le; lia.
Qed.

Lemma multibyte_prefix_free x y u v :
  multibyte x = true → multibyte y = true → x +:+ u = y +:+ v → x = y.
Proof.
  destruct x as [|a [|b [|c [|d [|? ?]]]]]; try done;
    destruct y as [|a' [|b' [|c' [|d' [|? ?]]]]]; try done;
    intros Hx Hy E; rewrite ?str_app_cons, ?str_app_nil_l in E; simplify_eq; try done;
    exfalso; revert Hx Hy; cbn; unfold valid2, valid3, valid4, between;
    intros; breflect; lia.
Qed.

Lemma rune_bytes_cases raw : rune_bytes raw = true →
  raw ∈ special ∨ (multibyte raw = true ∧ json_chunk raw = raw).
Proof.
  destruct raw as [|a [|b t]]; [done| |].
  - cbn. intros Ha. left. unfold special. rewrite elem_of_app. left.
    apply list_elem_of_fmap. exists (bv a). rewrite chr_bv. split; [done|].
    apply elem_of_seqZ. pose proof (bv_range a). breflect. lia.
  - intros Hm. change (multibyte (String a (String b t)) = true) in Hm.
    destruct (decide (String a (String b t) = u2028)) as [->|];
      [left; vm_compute; by repeat constructor|].
    destruct (decide (String a (String b t) = u2029)) as [->|];
      [left; vm_compute; by repeat constructor|].
    right. split; [done|]. unfold json_chunk. by rewrite !decide_False.
Qed.

Lemma head_is_app f x u : head_is f x = true → head_is f (x +:+ u) = true.
Proof. by destruct x. Qed.

Lemma chunk_head raw : rune_bytes raw = true →
  head_is (λ a, negb (bv a =? 34)) (json_chunk raw) = true.
Proof.
  intros [Hs|[Hm ->]]%rune_bytes_cases.
  - pose proof special_heads as Hh. rewrite forallb_elem in Hh. specialize (Hh _ Hs).
    destruct (json_chunk raw); [done|].
    cbn in *. by apply andb_true_iff in Hh as [_ ?].
  - apply multibyte_head in Hm. destruct raw; [done|]. cbn in *. breflect.
    apply negb_true_iff, Z.eqb_neq. lia.
Qed.

Lemma chunk_prefix_free x y u v : rune_bytes x = true → rune_bytes y = true →
  json_chunk x +:+ u = json_chunk y +:+ v → x = y.
Proof.
  assert (Hmix : ∀ x y u v, x ∈ special → multibyte y = true →
    json_chunk x +:+ u = y +:+ v → False).
  { clear. intros x y u v Hx Hy%multibyte_head E.
    pose proof special_heads as Hh. rewrite forallb_elem in Hh. specialize (Hh _ Hx).
    apply (head_is_app _ _ u) in Hh. rewrite E in Hh.
    destruct y; [done|]. rewrite str_app_cons in Hh. cbn in *. breflect. lia. }
  intros [Hx|[Hx Ex]]%rune_bytes_cases [Hy|[Hy Ey]]%rune_bytes_cases E.
  - pose proof special_prefix_free as Hp. rewrite forallb_elem in Hp. specialize (Hp _ Hx).
    rewrite forallb_elem in Hp. specialize (Hp _ Hy).
    apply orb_true_iff in Hp as [->%String.eqb_eq|Hn]; [done|].
    by rewrite (app_compatible _ _ _ _ E) in Hn.
  - rewrite Ey in E. exfalso. eauto.
  - rewrite Ex in E. exfalso. eauto.
  - rewrite Ex, Ey in E. eauto using multibyte_prefix_free.
Qed.

Lemma json_body_inj l k u v :
  Forall (λ x, rune_bytes x.2 = true) l → Forall (λ x, rune_bytes x.2 = true) k →
  json_body l +:+ dquote +:+ u = json_body k +:+ dquote +:+ v →
  map snd l = map snd k ∧ u = v.
Proof.
  assert (Hq : ∀ x t u, rune_bytes x = true → json_chunk x +:+ t = dquote +:+ u → False).
  { clear. intros x t u Hx%chunk_head E. apply (head_is_app _ _ t) in Hx.
    by rewrite E in Hx. }
  intros Hl. revert k. induction Hl as [|x l Hx Hl IH]; intros k Hk;
    destruct Hk as [|y k Hy Hk]; unfold json_body; cbn [map];
    rewrite ?concat_strings_cons, ?concat_strings_nil, ?str_app_nil_l, ?str_app_assoc.
  - intros E. split; [done|]. by apply str_app_inj in E.
  - intros E. exfalso. symmetry in E. eapply (Hq y.2); eauto.
  - intros E. exfalso. eapply (Hq x.2); eauto.
  - intros E. pose proof (chunk_prefix_free _ _ _ _ Hx Hy E) as Exy.
    rewrite Exy in E. apply str_app_inj in E.
    destruct (IH k Hk E) as [? ?]. split; [|done]. cbn. congruence.
Qed.

Lemma json_string_inj s t u v : valid_utf8 s → valid_utf8 t →
  json_string s +:+ u = json_string t +:+ v → s = t ∧ u = v.
Proof.
  intros Hs Ht. unfold json_string. rewrite !str_app_assoc. intros E%str_app_inj.
  apply json_body_inj in E as [E ?]; [|done..]. by apply decode_snd_inj in E.
Qed.

(** ** Numbers end where their digits do *)
Definition delimited (t : string) : Prop :=
  match t with String c _ => digit c = None | "" => True end.

Fixpoint read_number (x : Z) (s : string) : Z * string :=
  match s with
  | String c s' =>
      match digit c with Some d => read_number (x * 10 + d) s' | None => (x, s) end
  | "" => (x, "")
  end.

Lemma read_number_delimited x t : delimited t → read_number x t = (x, t).
Proof. destruct t; cbn; [done|]. by intros ->. Qed.

Lemma read_number_itoa n t : 0 ≤ n → delimited t →
  read_number 0 (itoa_loop (itoa_fuel n) n t) = (n, t).
Proof.
  intros Hn Ht. rewrite (read_Itoa read_number n); [by apply read_number_delimited| |lia].
  intros x d s Hx Hd Hb. cbn. by rewrite digit_chr.
Qed.

Lemma itoa_nonneg_digit n t : 0 ≤ n →
  head_is (λ a, bv a =? 45) (itoa_loop (itoa_fuel n) n t) = false.
Proof.
  intros Hn. destruct (itoa_loop_head (itoa_fuel n) n t) as (d & r & Hd & ->);
    [lia | unfold itoa_fuel; lia|].
  cbn [head_is]. rewrite chr_digit_bv by done. apply Z.eqb_neq. lia.
Qed.

Lemma Itoa_app_inj n m t u : delimited t → delimited u →
  Itoa n +:+ t = Itoa m +:+ u → n = m ∧ t = u.
Proof.
  intros Ht Hu. unfold Itoa.
  destruct (n <? 0) eqn:En, (m <? 0) eqn:Em; breflect;
    rewrite ?str_app_cons, !itoa_loop_app, ?str_app_nil_l; intros E.
  - apply (str_app_inj (s1 (chr 45))) in E. apply (f_equal (read_number 0)) in E.
    rewrite !read_number_itoa in E by (done || lia). simplify_eq. split; [lia|done].
  - exfalso. pose proof (itoa_nonneg_digit m u Em) as Hh. by rewrite <- E in Hh.
  - exfalso. pose proof (itoa_nonneg_digit n t En) as Hh. by rewrite E in Hh.
  - apply (f_equal (read_number 0)) in E.
    rewrite !read_number_itoa in E by (done || lia). by simplify_eq.
Qed.

(** ** The text determines the value *)
Lemma json_ind' (P : json → Prop) :
  P JNull → (∀ b, P (JBool b)) → (∀ n, P (JNum n)) → (∀ s, P (JStr s)) →
  (∀ l, Forall P l → P (JArr l)) →
  (∀ l, Forall (λ kv, P kv.2) l → P (JObj l)) → ∀ j, P j.
Proof.
  intros Hnull Hbool Hnum Hstr Harr Hobj.
  fix IH 1. intros [| b | n | s | l | l];
    [exact Hnull | apply Hbool | apply Hnum | apply Hstr | apply Harr | apply Hobj].
  - induction l as [|x l IHl]; constructor; [apply IH | exact IHl].
  - induction l as [|[k x] l IHl]; constructor; [apply IH | exact IHl].
Qed.

(** The first character of a number or of a constant tells the constructors
    apart. *)
Definition tag (c : ascii) : Z :=
  if (bv c =? 45) || bool_decide (is_Some (digit c)) then 0 else bv c.

Definition head_tag (s : string) : option Z :=
  match s with String c _ => Some (tag c) | "" => None end.

Definition json_tag (j : json) : Z :=
  match j with
  | JNum _ => 0 | JNull => 110 | JBool true => 116 | JBool false => 102
  | JStr _ => 34 | JArr _ => 91 | JObj _ => 123
  end.

Lemma json_enc_tag j t : head_tag (json_enc j +:+ t) = Some (json_tag j).
Proof.
  destruct j as [|[]|n|s|[|x l]|[|[k x] l]]; try reflexivity.
  cbn [json_enc json_tag]. unfold Itoa. destruct (n <? 0) eqn:En; [reflexivity|]. breflect.
  rewrite itoa_loop_app. edestruct (itoa_loop_head (itoa_fuel n) n) as (d & r & Hd & ->);
    [done | unfold itoa_fuel; lia |].
  cbn [head_tag]. unfold tag. rewrite digit_chr by done.
  rewrite bool_decide_eq_true_2 by eauto. by rewrite orb_true_r.
Qed.

Lemma json_tag_eq j k t u : json_enc j +:+ t = json_enc k +:+ u → json_tag j = json_tag k.
Proof. intros E. apply (f_equal head_tag) in E. rewrite !json_enc_tag in E. congruence. Qed.

Lemma json_enc_not_close j t c s : json_enc j +:+ t = String c s → bv c ≠ 93 ∧ bv c ≠ 125.
Proof.
  intros E. apply (f_equal head_tag) in E. rewrite json_enc_tag in E. cbn in E.
  injection E as E. revert E. unfold tag, digit.
  split; intros Hc; revert E; rewrite Hc; destruct j as [|[]|n|s'|l|l]; vm_compute; done.
Qed.

(** Encodings of [j] are never ambiguous: read left to right, followed by text
    that does not continue a number, they determine [j] and that text. *)
Definition determines (j : json) : Prop := ∀ k t u,
  json_valid j → json_valid k → delimited t → delimited u →
  json_enc j +:+ t = json_enc k +:+ u → j = k ∧ t = u.

Lemma delimited_tail l t : delimited (arr_tail l +:+ t).
Proof. by destruct l. Qed.
Lemma delimited_otail l t : delimited (obj_tail l +:+ t).
Proof. by destruct l as [|[] ?]. Qed.

Lemma arr_tail_inj l k t u :
  Forall determines l → Forall json_valid l → Forall json_valid k →
  arr_tail l +:+ t = arr_tail k +:+ u → l = k ∧ t = u.
Proof.
  intros Hd Hl. revert k. induction Hl as [|x l Hx Hl IH]; intros k Hk;
    destruct Hk as [|y k Hy Hk]; cbn [arr_tail]; rewrite ?str_app_assoc; try done.
  - intros E. by apply str_app_inj in E.
  - apply Forall_cons in Hd as [Hdx Hd]. intros E%str_app_inj.
    apply Hdx in E as [-> E]; auto using delimited_tail.
    apply IH in E as [-> ->]; auto.
Qed.

Lemma obj_tail_inj l k t u :
  Forall (λ kv, determines kv.2) l →
  Forall (λ kv, valid_utf8 kv.1 ∧ json_valid kv.2) l →
  Forall (λ kv, valid_utf8 kv.1 ∧ json_valid kv.2) k →
  obj_tail l +:+ t = obj_tail k +:+ u → l = k ∧ t = u.
Proof.
  intros Hd Hl. revert k. induction Hl as [|[kx x] l [Hkx Hx] Hl IH]; intros k Hk;
    destruct Hk as [|[ky y] k [Hky Hy] Hk]; cbn [obj_tail]; rewrite ?str_app_assoc; try done.
  - intros E. by apply str_app_inj in E.
  - apply Forall_cons in Hd as [Hdx Hd]. intros E%str_app_inj.
    apply json_string_inj in E as [-> E]; [|done..]. apply str_app_inj in E.
    apply Hdx in E as [Ex E]; auto using delimited_otail. cbn in Ex. subst.
    apply IH in E as [-> ->]; auto.
Qed.

Lemma json_enc_determines j : determines j.
Proof.
  induction j as [|b|n|s|l Hl|l Hl] using json_ind'; intros k t u Hj Hk Ht Hu E;
    pose proof (json_tag_eq _ _ _ _ E) as Htag;
    destruct k as [|[]|m|s'|k|k]; try destruct b; try done; clear Htag.
  - split; [done|]. by apply str_app_inj in E.
  - split; [done|]. by apply str_app_inj in E.
  - split; [done|]. by apply str_app_inj in E.
  - apply Itoa_app_inj in E as [-> ->]; done.
  - inversion Hj; inversion Hk; subst.
    apply json_string_inj in E as [-> ->]; done.
  - inversion Hj as [| | | |? Hjl|]; inversion Hk as [| | | |? Hkl|]; subst.
    destruct l as [|x l], k as [|y k]; rewrite ?json_enc_arr, ?str_app_assoc in E.
    + split; [done|]. by apply str_app_inj in E.
    + exfalso. apply (str_app_inj "[") in E. symmetry in E.
      by apply json_enc_not_close in E as [[] _].
    + exfalso. apply (str_app_inj "[") in E.
      by apply json_enc_not_close in E as [[] _].
    + apply str_app_inj in E. apply Forall_cons in Hl as [Hdx Hl].
      apply Forall_cons in Hjl as [? ?]. apply Forall_cons in Hkl as [? ?].
      apply Hdx in E as [-> E]; auto using delimited_tail.
      apply arr_tail_inj in E as [-> ->]; auto.
  - inversion Hj as [| | | | |? Hjl]; inversion Hk as [| | | | |? Hkl]; subst.
    destruct l as [|[kx x] l], k as [|[ky y] k]; rewrite ?json_enc_obj, ?str_app_assoc in E.
    + split; [done|]. by apply str_app_inj in E.
    + exfalso. by apply (str_app_inj "{") in E.
    + exfalso. by apply (str_app_inj "{") in E.
    + apply str_app_inj in E. apply Forall_cons in Hl as [Hdx Hl].
      apply Forall_cons in Hjl as [[? ?] ?]. apply Forall_cons in Hkl as [[? ?] ?].
      apply json_string_inj in E as [-> E]; [|done..]. apply str_app_inj in E.
      apply Hdx in E as [Ex E]; auto using delimited_otail. cbn in Ex. subst.
      apply obj_tail_inj in E as [-> ->]; auto.
Qed.

(** [json.Marshal] is injective on values whose strings are valid UTF-8. *)
Lemma json_enc_inj j k :
  json_valid j → json_valid k → json_enc j = json_enc k → j = k.
Proof.
  intros Hj Hk E. destruct (json_enc_determines j k "" "") as [? _]; try done.
  by rewrite !str_app_nil_r.
Qed.
