(* ===== verification/BuildSpec.v ===== *)
(** internal/domain/buildspec.go: the build-relevant part of an App spec, its
    content hash and staleness. *)
From Stdlib Require Import ZArith Ascii String.
From stdpp Require Import base gmap strings list numbers sorting.
From S2P Require Import Prelude GoStd GoNum GoJson Sha256.

Open Scope string_scope.
Open Scope list_scope.
Open Scope Z_scope.

(** A Go slice or map that may be nil: [None] is nil, [Some] may be empty. *)
Notation nilable A := (option A).

(* Go: internal/domain/buildspec.go PhaseSpec *)
Record PhaseSpec := MkPhaseSpec {
  ps_Image : string;
  ps_Command : nilable (list string);
  ps_RunAsUser : option Z;
  ps_Env : nilable (gmap string string);
  ps_Skip : bool;
}.

(* Go: internal/domain/buildspec.go BuildSpec *)
Record BuildSpec := MkBuildSpec {
  bs_Repo : string;
  bs_Ref : string;
  bs_PackageManager : string;
  bs_NodeVersion : Z;
  bs_Setup : PhaseSpec;
  bs_Fetch : PhaseSpec;
  bs_Build : PhaseSpec;
  bs_OutputDir : string;
  bs_SecretRefs : nilable (list string);
}.

#[export] Instance eta_PhaseSpec : Eta PhaseSpec := λ p,
  MkPhaseSpec (ps_Image p) (ps_Command p) (ps_RunAsUser p) (ps_Env p) (ps_Skip p).
#[export] Instance eta_BuildSpec : Eta BuildSpec := λ b,
  MkBuildSpec (bs_Repo b) (bs_Ref b) (bs_PackageManager b) (bs_NodeVersion b) (bs_Setup b)
    (bs_Fetch b) (bs_Build b) (bs_OutputDir b) (bs_SecretRefs b).
#[global] Instance PhaseSpec_eq_dec : EqDecision PhaseSpec.
Proof. solve_decision. Defined.
#[global] Instance BuildSpec_eq_dec : EqDecision BuildSpec.
Proof. solve_decision. Defined.

(** [if len(x) == 0 { x = nil }] *)
Definition nil_if_empty (l : nilable (list string)) : nilable (list string) :=
  match l with Some [] => None | _ => l end.
Definition nil_if_empty_map (m : nilable (gmap string string)) : nilable (gmap string string) :=
  match m with
  | Some m' => if decide (m' = ∅) then None else m
  | None => None
  end.

(* Go: internal/domain/buildspec.go PhaseSpec.normalized @91-99 *)
Definition phase_normalized (p : PhaseSpec) : PhaseSpec :=
  p <| ps_Command ::= nil_if_empty |> <| ps_Env ::= nil_if_empty_map |>.

(* Go: internal/domain/buildspec.go BuildSpec.normalized @81-89 *)
Definition normalized (b : BuildSpec) : BuildSpec :=
  b <| bs_SecretRefs ::= nil_if_empty |>
    <| bs_Setup ::= phase_normalized |>
    <| bs_Fetch ::= phase_normalized |>
    <| bs_Build ::= phase_normalized |>.

(** ** The marshalled payload (struct tags of lines 10-31 and 37-59) *)
Definition string_le (s t : string) : Prop := String.leb s t = true.
#[global] Instance string_le_dec : RelDecision string_le.
Proof. intros s t. unfold string_le. apply _. Defined.

Definition key_le (x y : string * string) : Prop := string_le x.1 y.1.
#[global] Instance key_le_dec : RelDecision key_le.
Proof. intros x y. unfold key_le. apply _. Defined.

(** Map entries in key order, as [json.Marshal] writes them. *)
Definition sorted_entries (m : gmap string string) : list (string * string) :=
  merge_sort key_le (map_to_list m).

Definition json_strings (l : nilable (list string)) : json :=
  match l with None => JNull | Some l => JArr (map JStr l) end.

Definition omitempty {A} (empty : bool) (key : string) (v : A) (f : A → json)
    : list (string * json) :=
  if empty then [] else [(key, f v)].

(* Go: internal/domain/buildspec.go PhaseSpec @10-31 *)
Definition phase_json (p : PhaseSpec) : json :=
  JObj ([("image", JStr (ps_Image p)); ("command", json_strings (ps_Command p))]
    ++ match ps_RunAsUser p with Some u => [("runAsUser", JNum u)] | None => [] end
    ++ match ps_Env p with
       | Some m => omitempty (bool_decide (m = ∅)) "env" m
                     (λ m, JObj (map (λ kv, (kv.1, JStr kv.2)) (sorted_entries m)))
       | None => []
       end
    ++ omitempty (negb (ps_Skip p)) "skip" true JBool).

(* Go: internal/domain/buildspec.go BuildSpec @37-59 *)
Definition spec_json (b : BuildSpec) : json :=
  JObj ([("repo", JStr (bs_Repo b)); ("ref", JStr (bs_Ref b));
         ("packageManager", JStr (bs_PackageManager b))]
    ++ omitempty (bs_NodeVersion b =? 0) "nodeVersion" (bs_NodeVersion b) JNum
    ++ [("setup", phase_json (bs_Setup b)); ("fetch", phase_json (bs_Fetch b));
        ("build", phase_json (bs_Build b))]
    ++ omitempty (String.eqb (bs_OutputDir b) "") "outputDir" (bs_OutputDir b) JStr
    ++ [("secretRefs", json_strings (bs_SecretRefs b))]).

(* Go: internal/domain/buildspec.go Hash *)
Definition payload (b : BuildSpec) : string := json_enc (spec_json (normalized b)).

(* Go: internal/domain/buildspec.go Hash *)
Definition Hash (b : BuildSpec) : string := sha256_hex (payload b).

(* Go: internal/domain/buildspec.go IsStale *)
Definition IsStale (current : BuildSpec) (lastBuiltHash : string) : bool :=
  negb (String.eqb (Hash current) lastBuiltHash).

Definition empty_phase : PhaseSpec := MkPhaseSpec "" None None None false.
Definition example_spec : BuildSpec :=
  MkBuildSpec "https://github.com/org/site" "main" "yarn" 24 empty_phase empty_phase
    (MkPhaseSpec "" (Some ["yarn"; "build"]) None (Some {["B" := "2"; "A" := "<1>"]}) false)
    "dist" None.

(** The text, written with single quotes for double ones. *)
Example payload_example :
  payload example_spec = string_map (λ c, if bv c =? 39 then chr 34 else c)
    (concat_strings [
     "{'repo':'https://github.com/org/site','ref':'main','packageManager':'yarn',";
     "'nodeVersion':24,'setup':{'image':'','command':null},";
     "'fetch':{'image':'','command':null},'build':{'image':'','command':['yarn','build'],";
     "'env':{'A':'\u003c1\u003e','B':'2'}},'outputDir':'dist','secretRefs':null}"]).
Proof. vm_compute. reflexivity. Qed.

(** ** The payload determines the normalized spec *)
Lemma sorted_entries_perm m : sorted_entries m ≡ₚ map_to_list m.
Proof. apply merge_sort_Permutation. Qed.

#[global] Instance sorted_entries_inj : Inj (=) (=) sorted_entries.
Proof.
  intros m n E. assert (map_to_list m ≡ₚ map_to_list n) as Hp.
  { by rewrite <- (sorted_entries_perm m), E, sorted_entries_perm. }
  by apply map_to_list_inj.
Qed.

#[global] Instance JStr_inj : Inj (=) (=) JStr.
Proof. by intros ?? [=]. Qed.
#[global] Instance entry_json_inj :
  Inj (=) (=) (λ kv : string * string, (kv.1, JStr kv.2)).
Proof. by intros [] [] [= -> ->]. Qed.

Lemma json_strings_inj l k : json_strings l = json_strings k → l = k.
Proof.
  destruct l as [l|], k as [k|]; cbn; try done. intros [= E].
  f_equal. by apply (inj (fmap JStr)).
Qed.

Definition phase_normal (p : PhaseSpec) : Prop :=
  ps_Command p ≠ Some [] ∧ ps_Env p ≠ Some ∅.

Lemma phase_normalized_normal p : phase_normal (phase_normalized p).
Proof.
  destruct p as [i [[|]|] r [m|] sk]; split; cbn; try done; case_decide; try done;
    intros [=]; done.
Qed.

Lemma phase_json_inj p q : phase_normal p → phase_normal q →
  phase_json p = phase_json q → p = q.
Proof.
  destruct p as [i c r e sk], q as [i' c' r' e' sk']. unfold phase_normal. cbn.
  intros [_ He] [_ He']. unfold phase_json, omitempty. cbn [ps_Image ps_Command ps_RunAsUser ps_Env ps_Skip].
  intros E. injection E as -> Hc%json_strings_inj Hrest. subst c'.
  assert (Henv : ∀ m : gmap string string, Some m ≠ Some ∅ → bool_decide (m = ∅) = false).
  { intros m Hm. apply bool_decide_eq_false_2. congruence. }
  destruct e as [m|], e' as [m'|]; rewrite ?Henv in Hrest by done;
    destruct r as [u|], r' as [u'|], sk, sk'; cbn in Hrest; simplify_eq; done.
Qed.

Lemma spec_json_inj b c : spec_json (normalized b) = spec_json (normalized c) →
  normalized b = normalized c.
Proof.
  unfold spec_json, omitempty. set (b' := normalized b). set (c' := normalized c).
  assert (Hn : ∀ d, phase_normal (bs_Setup (normalized d)) ∧
    phase_normal (bs_Fetch (normalized d)) ∧ phase_normal (bs_Build (normalized d))).
  { intros d. cbn. auto using phase_normalized_normal. }
  destruct (Hn b) as (Hb1 & Hb2 & Hb3), (Hn c) as (Hc1 & Hc2 & Hc3).
  fold b' in Hb1, Hb2, Hb3. fold c' in Hc1, Hc2, Hc3. clearbody b' c'. clear Hn b c.
  destruct b' as [r1 f1 p1 n1 s1 e1 u1 o1 x1], c' as [r2 f2 p2 n2 s2 e2 u2 o2 x2].
  cbn [bs_Repo bs_Ref bs_PackageManager bs_NodeVersion bs_Setup bs_Fetch bs_Build
       bs_OutputDir bs_SecretRefs] in *.
  pose proof phase_json_inj as HP. pose proof json_strings_inj as HS. revert HP HS.
  generalize phase_json as pj, json_strings as js. intros pj js HP HS E.
  injection E as -> -> -> E.
  destruct (n1 =? 0) eqn:E1, (n2 =? 0) eqn:E2; breflect;
    destruct (String.eqb_spec o1 ""), (String.eqb_spec o2 ""); cbn in E; simplify_eq;
    repeat match goal with
    | H : pj _ = pj _ |- _ => apply HP in H; [|done..]
    | H : js _ = js _ |- _ => apply HS in H
    end; by subst.
Qed.

(** ** What the hash sees *)
(** Two specs ask for the same build: they differ at most in nil against empty
    collections. *)
Definition same_build (b c : BuildSpec) : Prop := normalized b = normalized c.
#[global] Instance same_build_equiv : Equivalence same_build.
Proof. unfold same_build. split; red; congruence. Qed.
#[global] Instance Hash_proper : Proper (same_build ==> eq) Hash.
Proof. intros b c E. unfold Hash, payload. by rewrite E. Qed.
#[global] Instance IsStale_proper : Proper (same_build ==> eq ==> eq) IsStale.
Proof. intros b c E h _ <-. unfold IsStale. by rewrite E. Qed.
#[global] Instance same_build_dec : RelDecision same_build.
Proof. intros b c. unfold same_build. apply _. Defined.

(** Every string of the spec is valid UTF-8 (the API server only stores such). *)
Definition phase_utf8 (p : PhaseSpec) : Prop :=
  valid_utf8 (ps_Image p) ∧ Forall valid_utf8 (default [] (ps_Command p)) ∧
  map_Forall (λ k v, valid_utf8 k ∧ valid_utf8 v) (default ∅ (ps_Env p)).
Definition spec_utf8 (b : BuildSpec) : Prop :=
  valid_utf8 (bs_Repo b) ∧ valid_utf8 (bs_Ref b) ∧ valid_utf8 (bs_PackageManager b) ∧
  valid_utf8 (bs_OutputDir b) ∧ Forall valid_utf8 (default [] (bs_SecretRefs b)) ∧
  phase_utf8 (bs_Setup b) ∧ phase_utf8 (bs_Fetch b) ∧ phase_utf8 (bs_Build b).
#[global] Instance spec_utf8_dec b : Decision (spec_utf8 b).
Proof. unfold spec_utf8, phase_utf8. apply _. Defined.

Lemma json_strings_valid l : Forall valid_utf8 (default [] l) → json_valid (json_strings l).
Proof.
  destruct l as [l|]; cbn; [|constructor]. intros Hl. constructor.
  apply Forall_fmap. eapply Forall_impl; [exact Hl|]. intros. by constructor.
Qed.

Lemma omitempty_valid {A} b k (v : A) f : valid_utf8 k → json_valid (f v) →
  Forall (λ kv, valid_utf8 kv.1 ∧ json_valid kv.2) (omitempty b k v f).
Proof. intros. unfold omitempty. destruct b; repeat constructor; done. Qed.

Lemma ascii_key_valid k : forallb (λ x, rune_bytes x.2) (decode k) = true → valid_utf8 k.
Proof. intros Hk. apply Forall_forall. intros x Hx. rewrite forallb_elem in Hk. auto. Qed.

Lemma phase_json_valid p : phase_utf8 p → json_valid (phase_json p).
Proof.
  intros (Hi & Hc & He). constructor.
  repeat rewrite ?Forall_app, ?Forall_cons, ?Forall_nil; cbn [fst snd].
  split_and!; try (apply ascii_key_valid; vm_compute; reflexivity).
  - by constructor.
  - by apply json_strings_valid.
  - done.
  - destruct (ps_RunAsUser p); repeat constructor; apply ascii_key_valid; vm_compute; done.
  - destruct (ps_Env p) as [m|]; [|constructor]. cbn in He.
    apply omitempty_valid; [apply ascii_key_valid; vm_compute; done|].
    constructor. apply Forall_fmap. rewrite sorted_entries_perm.
    apply Forall_forall. intros [k v] Hkv%elem_of_map_to_list.
    destruct (He k v Hkv). split; [done|]. by constructor.
  - apply omitempty_valid; [apply ascii_key_valid; vm_compute; done | constructor].
Qed.

Lemma spec_json_valid b : spec_utf8 b → json_valid (spec_json b).
Proof.
  intros (Hr & Hf & Hp & Ho & Hs & Hph1 & Hph2 & Hph3). constructor.
  repeat rewrite ?Forall_app, ?Forall_cons, ?Forall_nil; cbn [fst snd].
  split_and!; try (apply ascii_key_valid; vm_compute; reflexivity);
    try (by constructor); auto using phase_json_valid, json_strings_valid.
  all: apply omitempty_valid; [apply ascii_key_valid; vm_compute; done | by constructor].
Qed.

Lemma normalized_utf8 b : spec_utf8 b → spec_utf8 (normalized b).
Proof.
  assert (Hl : ∀ l, default [] (nil_if_empty l) = default [] l) by (by intros [[]|]).
  assert (Hm : ∀ m, default ∅ (nil_if_empty_map m) = default ∅ m).
  { intros [m|]; cbn; [|done]. by case_decide. }
  unfold spec_utf8, phase_utf8. cbn. by rewrite !Hl, !Hm.
Qed.

(** C37: for specs with valid UTF-8 text, and unless their payloads collide under
    SHA-256, a spec is not stale against the stored hash of another exactly when
    the two ask for the same build: they agree on every hashed field, where a nil
    and an empty command, env or secretRefs count as equal. *)
Theorem IsStale_correct b c :
  spec_utf8 b → spec_utf8 c →
  (Hash b = Hash c → payload b = payload c) →
  IsStale b (Hash c) = false ↔ same_build b c.
Proof.
  intros Hb Hc Hcol. unfold IsStale. rewrite negb_false_iff, String.eqb_eq.
  split; [|by intros ->]. intros E%Hcol. apply spec_json_inj.
  apply json_enc_inj; auto using spec_json_valid, normalized_utf8.
Qed.

Lemma IsStale_correct_witness :
  IsStale example_spec (Hash (example_spec <| bs_Ref := "dev" |>)) = true ∧
  ¬ same_build example_spec (example_spec <| bs_Ref := "dev" |>) ∧
  IsStale example_spec (Hash (example_spec <| bs_SecretRefs := Some [] |>)) = false.
Proof.
  assert (Hf : IsStale example_spec (Hash (example_spec <| bs_Ref := "dev" |>)) = true)
    by (vm_compute; reflexivity).
  split; [exact Hf|]. split.
  - intros S. apply (IsStale_correct example_spec (example_spec <| bs_Ref := "dev" |>)) in S.
    + exact (eq_true_false_abs _ Hf S).
    + apply (bool_decide_unpack _). vm_compute. exact I.
    + apply (bool_decide_unpack _). vm_compute. exact I.
    + intros E. exfalso. revert E. vm_compute. discriminate.
  - vm_compute. reflexivity.
Defined.
