(* ===== verification/AppTypes.v ===== *)
(** api/v1alpha1/app_types.go: the App resource: its spec, its status, and the
    string constants the controller shares.  A Go string type with named constants
    stays a string (the zero value is a possible value); a pointer is an [option];
    [metav1.Time] and [metav1.Duration] are nanosecond counts. *)
From Stdlib Require Import ZArith Ascii String.
From stdpp Require Import base gmap strings list numbers sorting.
From S2P Require Import Prelude GoStd GoNum BuildSpec.

Open Scope string_scope.
Open Scope list_scope.
Open Scope Z_scope.

(** Time: nanoseconds since the Unix epoch; the zero [time.Time] is year 1. *)
Notation Time := Z (only parsing).
Definition zero_time : Time := - 62135596800 * 1000000000.
Definition IsZero (t : Time) : bool := t =? zero_time.
(** [t.Unix()]: whole seconds, rounded down. *)
Definition Unix (t : Time) : Z := t / 1000000000.

(** ** Constants *)
Definition GroupName : string := "baker.toggle-corp.com".

(* Go: api/v1alpha1/app_types.go RebuildAnnotation @9-13 *)
Definition RebuildAnnotation : string := "rebuild.baker.toggle-corp.com/requested-at".
(* Go: api/v1alpha1/app_types.go RebuildByAnnotation @15-20 *)
Definition RebuildByAnnotation : string := "rebuild.baker.toggle-corp.com/by".
(* Go: api/v1alpha1/app_types.go RebuildCommitAnnotation @22-28 *)
Definition RebuildCommitAnnotation : string := "rebuild.baker.toggle-corp.com/commit".
(* Go: api/v1alpha1/app_types.go WatchLastSeenAnnotation @30-35 *)
Definition WatchLastSeenAnnotation : string := "watch.baker.toggle-corp.com/last-seen-sha".
(* Go: api/v1alpha1/app_types.go FinalizerName @37-38 *)
Definition FinalizerName : string := "baker.toggle-corp.com/finalizer".
(* Go: api/v1alpha1/app_types.go AppResource @40-43 *)
Definition AppResource : string := "apps".
(* Go: api/v1alpha1/app_types.go SpecHashAnnotation @45-48 *)
Definition SpecHashAnnotation : string := "baker.toggle-corp.com/spec-hash".
(* Go: api/v1alpha1/app_types.go CleanupCacheRequestedAtAnnotation @50-54 *)
Definition CleanupCacheRequestedAtAnnotation : string := "cleanup-cache.baker.toggle-corp.com/requested-at".
(* Go: api/v1alpha1/app_types.go CleanupCacheByAnnotation @56-59 *)
Definition CleanupCacheByAnnotation : string := "cleanup-cache.baker.toggle-corp.com/by".
(* Go: api/v1alpha1/app_types.go CleanupReleasesRequestedAtAnnotation @61-66 *)
Definition CleanupReleasesRequestedAtAnnotation : string := "cleanup-releases.baker.toggle-corp.com/requested-at".
(* Go: api/v1alpha1/app_types.go CleanupReleasesByAnnotation @68-71 *)
Definition CleanupReleasesByAnnotation : string := "cleanup-releases.baker.toggle-corp.com/by".

(* Go: api/v1alpha1/app_types.go PhaseAwaitingFirstBuild @78-78 *)
Definition PhaseAwaitingFirstBuild : string := "AwaitingFirstBuild".
(* Go: api/v1alpha1/app_types.go PhaseBuilding @79-79 *)
Definition PhaseBuilding : string := "Building".
(* Go: api/v1alpha1/app_types.go PhaseReady @80-80 *)
Definition PhaseReady : string := "Ready".
(* Go: api/v1alpha1/app_types.go PhaseDegraded @81-81 *)
Definition PhaseDegraded : string := "Degraded".
(* Go: api/v1alpha1/app_types.go AllPhases @84-88 *)
Definition AllPhases : list string :=
  [PhaseAwaitingFirstBuild; PhaseBuilding; PhaseReady; PhaseDegraded].

(* Go: api/v1alpha1/app_types.go ConditionReady @92-92 *)
Definition ConditionReady : string := "Ready".
(* Go: api/v1alpha1/app_types.go ConditionBuildSucceeded @93-93 *)
Definition ConditionBuildSucceeded : string := "BuildSucceeded".
(* Go: api/v1alpha1/app_types.go ConditionIngressReady @94-94 *)
Definition ConditionIngressReady : string := "IngressReady".
(* Go: api/v1alpha1/app_types.go ConditionDegraded @95-95 *)
Definition ConditionDegraded : string := "Degraded".
(* Go: api/v1alpha1/app_types.go ReasonAwaitingFirstBuild @100-100 *)
Definition ReasonAwaitingFirstBuild : string := "AwaitingFirstBuild".
(* Go: api/v1alpha1/app_types.go ReasonBuilding @101-101 *)
Definition ReasonBuilding : string := "Building".
(* Go: api/v1alpha1/app_types.go ReasonReady @102-102 *)
Definition ReasonReady : string := "Ready".
(* Go: api/v1alpha1/app_types.go ReasonInvalidStorageClass @103-103 *)
Definition ReasonInvalidStorageClass : string := "InvalidStorageClass".
(* Go: api/v1alpha1/app_types.go ReasonImageNotAllowed @104-104 *)
Definition ReasonImageNotAllowed : string := "ImageNotAllowed".
(* Go: api/v1alpha1/app_types.go ReasonUnknownNodeVersion @105-105 *)
Definition ReasonUnknownNodeVersion : string := "UnknownNodeVersion".
(* Go: api/v1alpha1/app_types.go ReasonInvalidStorage @106-106 *)
Definition ReasonInvalidStorage : string := "InvalidStorage".
(* Go: api/v1alpha1/app_types.go ReasonInvalidSpec @107-107 *)
Definition ReasonInvalidSpec : string := "InvalidSpec".
(* Go: api/v1alpha1/app_types.go ReasonMissingTLSSecret @108-108 *)
Definition ReasonMissingTLSSecret : string := "MissingTLSSecret".
(* Go: api/v1alpha1/app_types.go ReasonConfigError @109-109 *)
Definition ReasonConfigError : string := "ConfigError".
(* Go: api/v1alpha1/app_types.go ReasonInvalidRepoAuth @113-113 *)
Definition ReasonInvalidRepoAuth : string := "InvalidRepoAuth".
(* Go: api/v1alpha1/app_types.go ReasonBuildFailed @116-116 *)
Definition ReasonBuildFailed : string := "BuildFailed".
(* Go: api/v1alpha1/app_types.go TerminationReasonOOMKilled @125-128 *)
Definition TerminationReasonOOMKilled : string := "OOMKilled".
(* Go: api/v1alpha1/app_types.go ReasonOOMKilled @122-122 *)
Definition ReasonOOMKilled : string := TerminationReasonOOMKilled.
(* Go: api/v1alpha1/app_types.go PackageManagerYarn @358-358 *)
Definition PackageManagerYarn : string := "yarn".
(* Go: api/v1alpha1/app_types.go PackageManagerPnpm @359-359 *)
Definition PackageManagerPnpm : string := "pnpm".
(* Go: api/v1alpha1/app_types.go BuildResultSucceeded @626-626 *)
Definition BuildResultSucceeded : string := "Succeeded".
(* Go: api/v1alpha1/app_types.go BuildResultFailed @627-627 *)
Definition BuildResultFailed : string := "Failed".
(* Go: api/v1alpha1/app_types.go BuildResultAborted @630-630 *)
Definition BuildResultAborted : string := "Aborted".
(* Go: api/v1alpha1/app_types.go StepStatusPending @638-638 *)
Definition StepStatusPending : string := "Pending".
(* Go: api/v1alpha1/app_types.go StepStatusRunning @639-639 *)
Definition StepStatusRunning : string := "Running".
(* Go: api/v1alpha1/app_types.go StepStatusSucceeded @640-640 *)
Definition StepStatusSucceeded : string := "Succeeded".
(* Go: api/v1alpha1/app_types.go StepStatusFailed @641-641 *)
Definition StepStatusFailed : string := "Failed".
(* Go: api/v1alpha1/app_types.go StepStatusAborted @642-642 *)
Definition StepStatusAborted : string := "Aborted".
(* Go: api/v1alpha1/app_types.go StepClone @649-649 *)
Definition StepClone : string := "clone".
(* Go: api/v1alpha1/app_types.go StepSetup @650-650 *)
Definition StepSetup : string := "setup".
(* Go: api/v1alpha1/app_types.go StepFetch @651-651 *)
Definition StepFetch : string := "fetch".
(* Go: api/v1alpha1/app_types.go StepBuild @652-652 *)
Definition StepBuild : string := "build".
(* Go: api/v1alpha1/app_types.go StepCopier @653-653 *)
Definition StepCopier : string := "copier".
(* Go: api/v1alpha1/app_types.go StepRelease @654-654 *)
Definition StepRelease : string := "release".
(* Go: api/v1alpha1/app_types.go BuildTriggerScheduled @699-699 *)
Definition BuildTriggerScheduled : string := "Scheduled".
(* Go: api/v1alpha1/app_types.go BuildTriggerManual @700-700 *)
Definition BuildTriggerManual : string := "Manual".
(* Go: api/v1alpha1/app_types.go BuildTriggerSpecChange @701-701 *)
Definition BuildTriggerSpecChange : string := "SpecChange".
(* Go: api/v1alpha1/app_types.go BuildTriggerCommit @705-705 *)
Definition BuildTriggerCommit : string := "Commit".
(* Go: api/v1alpha1/app_types.go BuildPhasePending @712-712 *)
Definition BuildPhasePending : string := "Pending".
(* Go: api/v1alpha1/app_types.go BuildPhaseRunning @713-713 *)
Definition BuildPhaseRunning : string := "Running".
(* Go: api/v1alpha1/app_types.go BuildPhaseComplete @714-714 *)
Definition BuildPhaseComplete : string := "Complete".

(** ** Spec *)
(* Go: api/v1alpha1/app_types.go ConfigMapKeySelector *)
Record ConfigMapKeySelector := MkConfigMapKeySelector {
  cmk_Name : string;
  cmk_Key : string;
}.
#[export] Instance eta_ConfigMapKeySelector : Eta ConfigMapKeySelector := λ x,
  MkConfigMapKeySelector (cmk_Name x) (cmk_Key x).
#[global] Instance ConfigMapKeySelector_eq_dec : EqDecision ConfigMapKeySelector.
Proof. solve_decision. Defined.

(* Go: api/v1alpha1/app_types.go SecretKeySelector *)
Record SecretKeySelector := MkSecretKeySelector {
  sks_Name : string;
  sks_Key : string;
}.
#[export] Instance eta_SecretKeySelector : Eta SecretKeySelector := λ x,
  MkSecretKeySelector (sks_Name x) (sks_Key x).
#[global] Instance SecretKeySelector_eq_dec : EqDecision SecretKeySelector.
Proof. solve_decision. Defined.

(* Go: api/v1alpha1/app_types.go EnvVarSource *)
Record EnvVarSource := MkEnvVarSource {
  evs_ConfigMapKeyRef : option ConfigMapKeySelector;
}.
#[export] Instance eta_EnvVarSource : Eta EnvVarSource := λ x,
  MkEnvVarSource (evs_ConfigMapKeyRef x).
#[global] Instance EnvVarSource_eq_dec : EqDecision EnvVarSource.
Proof. solve_decision. Defined.

(* Go: api/v1alpha1/app_types.go EnvVar *)
Record EnvVar := MkEnvVar {
  ev_Name : string;
  ev_Value : string;
  ev_ValueFrom : option EnvVarSource;
}.
#[export] Instance eta_EnvVar : Eta EnvVar := λ x,
  MkEnvVar (ev_Name x) (ev_Value x) (ev_ValueFrom x).
#[global] Instance EnvVar_eq_dec : EqDecision EnvVar.
Proof. solve_decision. Defined.

(* Go: api/v1alpha1/app_types.go EnvVarWithSecretSource *)
Record EnvVarWithSecretSource := MkEnvVarWithSecretSource {
  evss_SecretKeyRef : SecretKeySelector;
}.
#[export] Instance eta_EnvVarWithSecretSource : Eta EnvVarWithSecretSource := λ x,
  MkEnvVarWithSecretSource (evss_SecretKeyRef x).
#[global] Instance EnvVarWithSecretSource_eq_dec : EqDecision EnvVarWithSecretSource.
Proof. solve_decision. Defined.

(* Go: api/v1alpha1/app_types.go EnvVarWithSecret *)
Record EnvVarWithSecret := MkEnvVarWithSecret {
  evw_Name : string;
  evw_ValueFrom : EnvVarWithSecretSource;
}.
#[export] Instance eta_EnvVarWithSecret : Eta EnvVarWithSecret := λ x,
  MkEnvVarWithSecret (evw_Name x) (evw_ValueFrom x).
#[global] Instance EnvVarWithSecret_eq_dec : EqDecision EnvVarWithSecret.
Proof. solve_decision. Defined.

(* Go: api/v1alpha1/app_types.go PhaseSpec *)
Record ApiPhaseSpec := MkApiPhaseSpec {
  aps_Image : string;
  aps_Command : nilable (list string);
  aps_Env : list EnvVar;
  aps_EnvMap : gmap string string;
  aps_RunAsUser : option Z;
  aps_MemoryLimit : string;
}.
#[export] Instance eta_ApiPhaseSpec : Eta ApiPhaseSpec := λ x,
  MkApiPhaseSpec (aps_Image x) (aps_Command x) (aps_Env x) (aps_EnvMap x) (aps_RunAsUser x)
  (aps_MemoryLimit x).
#[global] Instance ApiPhaseSpec_eq_dec : EqDecision ApiPhaseSpec.
Proof. solve_decision. Defined.

(* Go: api/v1alpha1/app_types.go BuildPhaseSpec *)
Record BuildPhaseSpec := MkBuildPhaseSpec {
  bps_PhaseSpec : ApiPhaseSpec;
  bps_OutputDir : string;
}.
#[export] Instance eta_BuildPhaseSpec : Eta BuildPhaseSpec := λ x,
  MkBuildPhaseSpec (bps_PhaseSpec x) (bps_OutputDir x).
#[global] Instance BuildPhaseSpec_eq_dec : EqDecision BuildPhaseSpec.
Proof. solve_decision. Defined.

(* Go: api/v1alpha1/app_types.go FetchPhaseSpec *)
Record FetchPhaseSpec := MkFetchPhaseSpec {
  fps_PhaseSpec : ApiPhaseSpec;
  fps_Secrets : list EnvVarWithSecret;
}.
#[export] Instance eta_FetchPhaseSpec : Eta FetchPhaseSpec := λ x,
  MkFetchPhaseSpec (fps_PhaseSpec x) (fps_Secrets x).
#[global] Instance FetchPhaseSpec_eq_dec : EqDecision FetchPhaseSpec.
Proof. solve_decision. Defined.

(* Go: api/v1alpha1/app_types.go SetupPhaseSpec *)
Record SetupPhaseSpec := MkSetupPhaseSpec {
  sps_PhaseSpec : ApiPhaseSpec;
  sps_Skip : bool;
}.
#[export] Instance eta_SetupPhaseSpec : Eta SetupPhaseSpec := λ x,
  MkSetupPhaseSpec (sps_PhaseSpec x) (sps_Skip x).
#[global] Instance SetupPhaseSpec_eq_dec : EqDecision SetupPhaseSpec.
Proof. solve_decision. Defined.

(* Go: api/v1alpha1/app_types.go PhasesSpec *)
Record PhasesSpec := MkPhasesSpec {
  phs_Setup : SetupPhaseSpec;
  phs_Fetch : FetchPhaseSpec;
  phs_Build : BuildPhaseSpec;
}.
#[export] Instance eta_PhasesSpec : Eta PhasesSpec := λ x,
  MkPhasesSpec (phs_Setup x) (phs_Fetch x) (phs_Build x).
#[global] Instance PhasesSpec_eq_dec : EqDecision PhasesSpec.
Proof. solve_decision. Defined.

(* Go: api/v1alpha1/app_types.go PipelineSpec *)
Record PipelineSpec := MkPipelineSpec {
  pl_NodeVersion : Z;
  pl_PackageManager : string;
  pl_Submodules : bool;
  pl_Timeout : option Z;
  pl_Phases : PhasesSpec;
}.
#[export] Instance eta_PipelineSpec : Eta PipelineSpec := λ x,
  MkPipelineSpec (pl_NodeVersion x) (pl_PackageManager x) (pl_Submodules x) (pl_Timeout x)
  (pl_Phases x).
#[global] Instance PipelineSpec_eq_dec : EqDecision PipelineSpec.
Proof. solve_decision. Defined.

(* Go: api/v1alpha1/app_types.go TLSConfig *)
Record TLSConfig := MkTLSConfig {
  tls_SecretName : string;
}.
#[export] Instance eta_TLSConfig : Eta TLSConfig := λ x,
  MkTLSConfig (tls_SecretName x).
#[global] Instance TLSConfig_eq_dec : EqDecision TLSConfig.
Proof. solve_decision. Defined.

(* Go: api/v1alpha1/app_types.go IngressConfig *)
Record IngressConfig := MkIngressConfig {
  ic_ClassName : option string;
  ic_Host : string;
  ic_TLS : option TLSConfig;
  ic_Annotations : gmap string string;
}.
#[export] Instance eta_IngressConfig : Eta IngressConfig := λ x,
  MkIngressConfig (ic_ClassName x) (ic_Host x) (ic_TLS x) (ic_Annotations x).
#[global] Instance IngressConfig_eq_dec : EqDecision IngressConfig.
Proof. solve_decision. Defined.

(* Go: api/v1alpha1/app_types.go AuthSecretRef *)
Record AuthSecretRef := MkAuthSecretRef {
  asr_Name : string;
  asr_Key : string;
}.
#[export] Instance eta_AuthSecretRef : Eta AuthSecretRef := λ x,
  MkAuthSecretRef (asr_Name x) (asr_Key x).
#[global] Instance AuthSecretRef_eq_dec : EqDecision AuthSecretRef.
Proof. solve_decision. Defined.

(* Go: api/v1alpha1/app_types.go AuthConfig *)
Record AuthConfig := MkAuthConfig {
  ac_PasswordHash : option string;
  ac_SecretRef : option AuthSecretRef;
}.
#[export] Instance eta_AuthConfig : Eta AuthConfig := λ x,
  MkAuthConfig (ac_PasswordHash x) (ac_SecretRef x).
#[global] Instance AuthConfig_eq_dec : EqDecision AuthConfig.
Proof. solve_decision. Defined.

(* Go: api/v1alpha1/app_types.go RepoAuthSecretRef *)
Record RepoAuthSecretRef := MkRepoAuthSecretRef {
  ras_Name : string;
}.
#[export] Instance eta_RepoAuthSecretRef : Eta RepoAuthSecretRef := λ x,
  MkRepoAuthSecretRef (ras_Name x).
#[global] Instance RepoAuthSecretRef_eq_dec : EqDecision RepoAuthSecretRef.
Proof. solve_decision. Defined.

(* Go: api/v1alpha1/app_types.go RepoAuthConfig *)
Record RepoAuthConfig := MkRepoAuthConfig {
  rac_SecretRef : RepoAuthSecretRef;
}.
#[export] Instance eta_RepoAuthConfig : Eta RepoAuthConfig := λ x,
  MkRepoAuthConfig (rac_SecretRef x).
#[global] Instance RepoAuthConfig_eq_dec : EqDecision RepoAuthConfig.
Proof. solve_decision. Defined.

(* Go: api/v1alpha1/app_types.go CacheThresholds *)
Record CacheThresholds := MkCacheThresholds {
  ct_CleanupBytes : Z;
  ct_AlertBytes : Z;
}.
#[export] Instance eta_CacheThresholds : Eta CacheThresholds := λ x,
  MkCacheThresholds (ct_CleanupBytes x) (ct_AlertBytes x).
#[global] Instance CacheThresholds_eq_dec : EqDecision CacheThresholds.
Proof. solve_decision. Defined.

(* Go: api/v1alpha1/app_types.go DataCacheThresholds *)
Record DataCacheThresholds := MkDataCacheThresholds {
  dct_CleanupBytes : Z;
  dct_AlertBytes : Z;
  dct_RunDeltaBytes : Z;
}.
#[export] Instance eta_DataCacheThresholds : Eta DataCacheThresholds := λ x,
  MkDataCacheThresholds (dct_CleanupBytes x) (dct_AlertBytes x) (dct_RunDeltaBytes x).
#[global] Instance DataCacheThresholds_eq_dec : EqDecision DataCacheThresholds.
Proof. solve_decision. Defined.

(* Go: api/v1alpha1/app_types.go OutputThresholds *)
Record OutputThresholds := MkOutputThresholds {
  ot_AlertBytes : Z;
  ot_CapBytes : Z;
}.
#[export] Instance eta_OutputThresholds : Eta OutputThresholds := λ x,
  MkOutputThresholds (ot_AlertBytes x) (ot_CapBytes x).
#[global] Instance OutputThresholds_eq_dec : EqDecision OutputThresholds.
Proof. solve_decision. Defined.

(* Go: api/v1alpha1/app_types.go StorageConfig *)
Record ApiStorageConfig := MkApiStorageConfig {
  asc_Cache : CacheThresholds;
  asc_DataCache : DataCacheThresholds;
  asc_Output : OutputThresholds;
}.
#[export] Instance eta_ApiStorageConfig : Eta ApiStorageConfig := λ x,
  MkApiStorageConfig (asc_Cache x) (asc_DataCache x) (asc_Output x).
#[global] Instance ApiStorageConfig_eq_dec : EqDecision ApiStorageConfig.
Proof. solve_decision. Defined.

(* Go: api/v1alpha1/app_types.go ScheduledBuildsSpec *)
Record ScheduledBuildsSpec := MkScheduledBuildsSpec {
  sb_Enabled : bool;
  sb_Schedule : string;
  sb_AlertThreshold : Z;
}.
#[export] Instance eta_ScheduledBuildsSpec : Eta ScheduledBuildsSpec := λ x,
  MkScheduledBuildsSpec (sb_Enabled x) (sb_Schedule x) (sb_AlertThreshold x).
#[global] Instance ScheduledBuildsSpec_eq_dec : EqDecision ScheduledBuildsSpec.
Proof. solve_decision. Defined.

(* Go: api/v1alpha1/app_types.go WatchCommitsSpec *)
Record WatchCommitsSpec := MkWatchCommitsSpec {
  wc_Enabled : bool;
  wc_Interval : string;
}.
#[export] Instance eta_WatchCommitsSpec : Eta WatchCommitsSpec := λ x,
  MkWatchCommitsSpec (wc_Enabled x) (wc_Interval x).
#[global] Instance WatchCommitsSpec_eq_dec : EqDecision WatchCommitsSpec.
Proof. solve_decision. Defined.

(* Go: api/v1alpha1/app_types.go HistorySpec *)
Record HistorySpec := MkHistorySpec {
  hs_KeepRecent : Z;
  hs_KeepFailed : Z;
}.
#[export] Instance eta_HistorySpec : Eta HistorySpec := λ x,
  MkHistorySpec (hs_KeepRecent x) (hs_KeepFailed x).
#[global] Instance HistorySpec_eq_dec : EqDecision HistorySpec.
Proof. solve_decision. Defined.

(* Go: api/v1alpha1/app_types.go AppSpec *)
Record AppSpec := MkAppSpec {
  as_Repo : string;
  as_Ref : string;
  as_Group : string;
  as_ScheduledBuilds : option ScheduledBuildsSpec;
  as_WatchCommits : option WatchCommitsSpec;
  as_Pipeline : PipelineSpec;
  as_KeepReleases : Z;
  as_RepoAuth : option RepoAuthConfig;
  as_Ingress : IngressConfig;
  as_Auth : option AuthConfig;
  as_Storage : ApiStorageConfig;
  as_History : option HistorySpec;
}.
#[export] Instance eta_AppSpec : Eta AppSpec := λ x,
  MkAppSpec (as_Repo x) (as_Ref x) (as_Group x) (as_ScheduledBuilds x) (as_WatchCommits x)
  (as_Pipeline x) (as_KeepReleases x) (as_RepoAuth x) (as_Ingress x) (as_Auth x) (as_Storage
  x) (as_History x).
#[global] Instance AppSpec_eq_dec : EqDecision AppSpec.
Proof. solve_decision. Defined.

(** ** Status *)
(* Go: api/v1alpha1/app_types.go BuildStep *)
Record BuildStep := MkBuildStep {
  st_Name : string;
  st_Status : string;
  st_Message : string;
  st_PeakMemoryBytes : Z;
  st_StartedAt : option Z;
  st_FinishedAt : option Z;
  st_MemoryLimit : string;
}.
#[export] Instance eta_BuildStep : Eta BuildStep := λ x,
  MkBuildStep (st_Name x) (st_Status x) (st_Message x) (st_PeakMemoryBytes x) (st_StartedAt x)
  (st_FinishedAt x) (st_MemoryLimit x).
#[global] Instance BuildStep_eq_dec : EqDecision BuildStep.
Proof. solve_decision. Defined.

(* Go: api/v1alpha1/app_types.go BuildTermination *)
Record BuildTermination := MkBuildTermination {
  bt_Reason : string;
  bt_Container : string;
  bt_ExitCode : Z;
  bt_MemoryLimit : string;
  bt_FinishedAt : option Z;
}.
#[export] Instance eta_BuildTermination : Eta BuildTermination := λ x,
  MkBuildTermination (bt_Reason x) (bt_Container x) (bt_ExitCode x) (bt_MemoryLimit x)
  (bt_FinishedAt x).
#[global] Instance BuildTermination_eq_dec : EqDecision BuildTermination.
Proof. solve_decision. Defined.

(* Go: api/v1alpha1/app_types.go BuildStatus *)
Record BuildStatus := MkBuildStatus {
  b_Phase : string;
  b_Result : string;
  b_JobName : string;
  b_PodName : string;
  b_StartTime : option Z;
  b_CompletionTime : option Z;
  b_Attempts : Z;
  b_Trigger : string;
  b_TriggeredBy : string;
  b_Commit : string;
  b_Steps : list BuildStep;
  b_ResolvedImages : gmap string string;
  b_FailedStep : string;
  b_Message : string;
  b_LogsRef : string;
  b_Termination : option BuildTermination;
}.
#[export] Instance eta_BuildStatus : Eta BuildStatus := λ x,
  MkBuildStatus (b_Phase x) (b_Result x) (b_JobName x) (b_PodName x) (b_StartTime x)
  (b_CompletionTime x) (b_Attempts x) (b_Trigger x) (b_TriggeredBy x) (b_Commit x) (b_Steps x)
  (b_ResolvedImages x) (b_FailedStep x) (b_Message x) (b_LogsRef x) (b_Termination x).
#[global] Instance BuildStatus_eq_dec : EqDecision BuildStatus.
Proof. solve_decision. Defined.

(* Go: api/v1alpha1/app_types.go ReleaseStatus *)
Record ReleaseStatus := MkReleaseStatus {
  rs_Current : string;
  rs_Previous : string;
  rs_ServingSince : option Z;
}.
#[export] Instance eta_ReleaseStatus : Eta ReleaseStatus := λ x,
  MkReleaseStatus (rs_Current x) (rs_Previous x) (rs_ServingSince x).
#[global] Instance ReleaseStatus_eq_dec : EqDecision ReleaseStatus.
Proof. solve_decision. Defined.

(* Go: api/v1alpha1/app_types.go StorageStatus *)
Record StorageStatus := MkStorageStatus {
  ss_MeasuredAt : option Z;
  ss_Sizes : gmap string Z;
  ss_LastRunDeltas : gmap string Z;
  ss_ThresholdState : string;
  ss_ReleaseCount : Z;
  ss_Capacities : gmap string Z;
}.
#[export] Instance eta_StorageStatus : Eta StorageStatus := λ x,
  MkStorageStatus (ss_MeasuredAt x) (ss_Sizes x) (ss_LastRunDeltas x) (ss_ThresholdState x)
  (ss_ReleaseCount x) (ss_Capacities x).
#[global] Instance StorageStatus_eq_dec : EqDecision StorageStatus.
Proof. solve_decision. Defined.

(* Go: api/v1alpha1/app_types.go CleanupActionStatus *)
Record CleanupActionStatus := MkCleanupActionStatus {
  ca_RequestedAt : string;
  ca_RequestedBy : string;
  ca_Phase : string;
  ca_StartedAt : option Z;
  ca_CompletedAt : option Z;
  ca_ReclaimedBytes : Z;
  ca_Message : string;
}.
#[export] Instance eta_CleanupActionStatus : Eta CleanupActionStatus := λ x,
  MkCleanupActionStatus (ca_RequestedAt x) (ca_RequestedBy x) (ca_Phase x) (ca_StartedAt x)
  (ca_CompletedAt x) (ca_ReclaimedBytes x) (ca_Message x).
#[global] Instance CleanupActionStatus_eq_dec : EqDecision CleanupActionStatus.
Proof. solve_decision. Defined.

(* Go: api/v1alpha1/app_types.go CleanupStatus *)
Record CleanupStatus := MkCleanupStatus {
  cs_Cache : option CleanupActionStatus;
  cs_Releases : option CleanupActionStatus;
}.
#[export] Instance eta_CleanupStatus : Eta CleanupStatus := λ x,
  MkCleanupStatus (cs_Cache x) (cs_Releases x).
#[global] Instance CleanupStatus_eq_dec : EqDecision CleanupStatus.
Proof. solve_decision. Defined.

(* Go: api/v1alpha1/app_types.go ManualTrigger *)
Record ManualTrigger := MkManualTrigger {
  mt_TriggeredBy : string;
  mt_Time : option Z;
}.
#[export] Instance eta_ManualTrigger : Eta ManualTrigger := λ x,
  MkManualTrigger (mt_TriggeredBy x) (mt_Time x).
#[global] Instance ManualTrigger_eq_dec : EqDecision ManualTrigger.
Proof. solve_decision. Defined.

(** [metav1.Condition]. *)
Record Condition := MkCondition {
  c_Type : string;
  c_Status : string;
  c_Reason : string;
  c_Message : string;
  c_LastTransitionTime : Z;
  c_ObservedGeneration : Z;
}.
#[export] Instance eta_Condition : Eta Condition := λ x,
  MkCondition (c_Type x) (c_Status x) (c_Reason x) (c_Message x) (c_LastTransitionTime x)
  (c_ObservedGeneration x).
#[global] Instance Condition_eq_dec : EqDecision Condition.
Proof. solve_decision. Defined.

(* Go: api/v1alpha1/app_types.go AppStatus *)
Record AppStatus := MkAppStatus {
  s_ObservedGeneration : Z;
  s_Phase : string;
  s_NodeName : string;
  s_URL : string;
  s_SpecStale : bool;
  s_Conditions : list Condition;
  s_Build : BuildStatus;
  s_ConsecutiveScheduledFailures : Z;
  s_BuildHistory : list BuildStatus;
  s_FailedBuildHistory : list BuildStatus;
  s_LastProcessedRebuild : string;
  s_LastBuiltSpecHash : string;
  s_LastBuildTime : option Z;
  s_LastSuccessfulBuildTime : option Z;
  s_Release : ReleaseStatus;
  s_Storage : StorageStatus;
  s_LastManualTrigger : ManualTrigger;
  s_Cleanup : option CleanupStatus;
}.
#[export] Instance eta_AppStatus : Eta AppStatus := λ x,
  MkAppStatus (s_ObservedGeneration x) (s_Phase x) (s_NodeName x) (s_URL x) (s_SpecStale x)
  (s_Conditions x) (s_Build x) (s_ConsecutiveScheduledFailures x) (s_BuildHistory x)
  (s_FailedBuildHistory x) (s_LastProcessedRebuild x) (s_LastBuiltSpecHash x) (s_LastBuildTime
  x) (s_LastSuccessfulBuildTime x) (s_Release x) (s_Storage x) (s_LastManualTrigger x)
  (s_Cleanup x).
#[global] Instance AppStatus_eq_dec : EqDecision AppStatus.
Proof. solve_decision. Defined.

(** ** Object metadata *)
(** [metav1.OwnerReference], with an absent Controller pointer read as false. *)
Record OwnerReference := MkOwnerReference {
  or_Kind : string;
  or_Name : string;
  or_UID : string;
  or_Controller : bool;
}.
#[export] Instance eta_OwnerReference : Eta OwnerReference := λ x,
  MkOwnerReference (or_Kind x) (or_Name x) (or_UID x) (or_Controller x).
#[global] Instance OwnerReference_eq_dec : EqDecision OwnerReference.
Proof. solve_decision. Defined.

(** [metav1.ObjectMeta]: the fields the operator reads or writes. *)
Record ObjectMeta := MkObjectMeta {
  om_Name : string;
  om_Namespace : string;
  om_UID : string;
  om_ResourceVersion : string;
  om_Generation : Z;
  om_Labels : gmap string string;
  om_Annotations : gmap string string;
  om_Finalizers : list string;
  om_DeletionTimestamp : option Z;
  om_OwnerReferences : list OwnerReference;
}.
#[export] Instance eta_ObjectMeta : Eta ObjectMeta := λ x,
  MkObjectMeta (om_Name x) (om_Namespace x) (om_UID x) (om_ResourceVersion x) (om_Generation
  x) (om_Labels x) (om_Annotations x) (om_Finalizers x) (om_DeletionTimestamp x)
  (om_OwnerReferences x).
#[global] Instance ObjectMeta_eq_dec : EqDecision ObjectMeta.
Proof. solve_decision. Defined.

(* Go: api/v1alpha1/app_types.go App *)
Record App := MkApp {
  app_Meta : ObjectMeta;
  app_Spec : AppSpec;
  app_Status : AppStatus;
}.
#[export] Instance eta_App : Eta App := λ x,
  MkApp (app_Meta x) (app_Spec x) (app_Status x).
#[global] Instance App_eq_dec : EqDecision App.
Proof. solve_decision. Defined.

(** ** Zero values *)
Definition zero_meta : ObjectMeta := MkObjectMeta "" "" "" "" 0 ∅ ∅ [] None [].
Definition zero_phase : ApiPhaseSpec := MkApiPhaseSpec "" None [] ∅ None "".
Definition zero_build : BuildStatus :=
  MkBuildStatus "" "" "" "" None None 0 "" "" "" [] ∅ "" "" "" None.
Definition zero_action : CleanupActionStatus := MkCleanupActionStatus "" "" "" None None 0 "".
Definition zero_storage : ApiStorageConfig :=
  MkApiStorageConfig (MkCacheThresholds 0 0) (MkDataCacheThresholds 0 0 0)
    (MkOutputThresholds 0 0).
Definition zero_status : AppStatus :=
  MkAppStatus 0 "" "" "" false [] zero_build 0 [] [] "" "" None None
    (MkReleaseStatus "" "" None) (MkStorageStatus None ∅ ∅ "" 0 ∅)
    (MkManualTrigger "" None) None.

(** ** Accessors *)
Definition app_Name (app : App) : string := om_Name (app_Meta app).
Definition app_Namespace (app : App) : string := om_Namespace (app_Meta app).
Definition app_UID (app : App) : string := om_UID (app_Meta app).
(** [app.Annotations[k]]: the empty string when absent. *)
Definition annotation (app : App) (k : string) : string :=
  default "" (om_Annotations (app_Meta app) !! k).
Definition app_Pipeline (app : App) : PipelineSpec := as_Pipeline (app_Spec app).
Definition app_Setup (app : App) : SetupPhaseSpec := phs_Setup (pl_Phases (app_Pipeline app)).
Definition app_Fetch (app : App) : FetchPhaseSpec := phs_Fetch (pl_Phases (app_Pipeline app)).
Definition app_BuildPhase (app : App) : BuildPhaseSpec := phs_Build (pl_Phases (app_Pipeline app)).
Definition build_of (app : App) : BuildStatus := s_Build (app_Status app).
(** [app.Status.Build.f = v] and its siblings. *)
Definition on_status (f : AppStatus → AppStatus) (app : App) : App := app <| app_Status ::= f |>.
Definition on_build (f : BuildStatus → BuildStatus) (app : App) : App :=
  on_status (λ s, s <| s_Build ::= f |>) app.
