(* ===== verification/DeepCopy.v ===== *)
(** api/v1alpha1/zz_generated.deepcopy.go: the deep copies of the API types.

    Each struct of app_types.go is a type of [GoHeap]; each generated function is the list
    of its statements: after the struct assignment, one per field it replaces.  The
    deep copies of apimachinery (ObjectMeta, ListMeta, Condition, Time) are library code:
    the class [MetaCopies] says that they are deep. *)
From Stdlib Require Import ZArith Ascii String.
From stdpp Require Import base gmap strings list numbers sorting.
From S2P Require Import Prelude GoStd GoHeap.

Open Scope string_scope.
Open Scope list_scope.

Notation TStr := (TBasic BStr).
Notation TInt := (TBasic BInt).
Notation TBool := (TBasic BBool).
Notation TTime := (TBasic BTime).

Class MetaCopies := {
  ObjectMeta_ty : ty; ObjectMeta_DeepCopyInto : copier;
  ObjectMeta_deep : deep_copier ObjectMeta_ty ObjectMeta_DeepCopyInto;
  ListMeta_ty : ty; ListMeta_DeepCopyInto : copier;
  ListMeta_deep : deep_copier ListMeta_ty ListMeta_DeepCopyInto;
  Condition_ty : ty; Condition_DeepCopyInto : copier;
  Condition_deep : deep_copier Condition_ty Condition_DeepCopyInto;
  Time_DeepCopy : copier;
  Time_deep : deep_copier (TPtr TTime) Time_DeepCopy;
}.

(** metav1.TypeMeta and metav1.Duration have no references. *)
Definition TypeMeta_ty : ty := TStruct [("Kind", TStr); ("APIVersion", TStr)].
Definition Duration_ty : ty := TStruct [("Duration", TInt)].

(** A pointer as a runtime.Object: the nil pointer gives the nil interface. *)
Definition as_object (r : gval * heap) : option gval * heap :=
  (match r.1 with VPtr None => None | v => Some v end, r.2).

Section deepcopy.
Context `{MapOrder} `{MetaCopies}.

(* Go: api/v1alpha1/app_types.go ConfigMapKeySelector @131-136 *)
Definition ConfigMapKeySelector_ty : ty := TStruct [("Name", TStr); ("Key", TStr)].
(* Go: api/v1alpha1/zz_generated.deepcopy.go ConfigMapKeySelector.DeepCopyInto @370-373 *)
Definition ConfigMapKeySelector_DeepCopyInto : copier := assign.
(* Go: api/v1alpha1/zz_generated.deepcopy.go ConfigMapKeySelector.DeepCopy @375-383 *)
Definition ConfigMapKeySelector_DeepCopy : copier := deep_copy_ptr ConfigMapKeySelector_ty ConfigMapKeySelector_DeepCopyInto.

(* Go: api/v1alpha1/app_types.go SecretKeySelector @139-144 *)
Definition SecretKeySelector_ty : ty := TStruct [("Name", TStr); ("Key", TStr)].
(* Go: api/v1alpha1/zz_generated.deepcopy.go SecretKeySelector.DeepCopyInto @717-720 *)
Definition SecretKeySelector_DeepCopyInto : copier := assign.
(* Go: api/v1alpha1/zz_generated.deepcopy.go SecretKeySelector.DeepCopy @722-730 *)
Definition SecretKeySelector_DeepCopy : copier := deep_copy_ptr SecretKeySelector_ty SecretKeySelector_DeepCopyInto.

(* Go: api/v1alpha1/app_types.go EnvVarSource @149-152 *)
Definition EnvVarSource_ty : ty := TStruct [("ConfigMapKeyRef", TPtr ConfigMapKeySelector_ty)].
(* Go: api/v1alpha1/zz_generated.deepcopy.go EnvVarSource.DeepCopyInto @420-428 *)
Definition EnvVarSource_DeepCopyInto : copier := fields
  [("ConfigMapKeyRef", new_into ConfigMapKeySelector_ty assign)].
(* Go: api/v1alpha1/zz_generated.deepcopy.go EnvVarSource.DeepCopy @430-438 *)
Definition EnvVarSource_DeepCopy : copier := deep_copy_ptr EnvVarSource_ty EnvVarSource_DeepCopyInto.

(* Go: api/v1alpha1/app_types.go EnvVar @156-163 *)
Definition EnvVar_ty : ty := TStruct [("Name", TStr); ("Value", TStr); ("ValueFrom", TPtr EnvVarSource_ty)].
(* Go: api/v1alpha1/zz_generated.deepcopy.go EnvVar.DeepCopyInto @400-408 *)
Definition EnvVar_DeepCopyInto : copier := fields
  [("ValueFrom", new_into EnvVarSource_ty EnvVarSource_DeepCopyInto)].
(* Go: api/v1alpha1/zz_generated.deepcopy.go EnvVar.DeepCopy @410-418 *)
Definition EnvVar_DeepCopy : copier := deep_copy_ptr EnvVar_ty EnvVar_DeepCopyInto.

(* Go: api/v1alpha1/app_types.go EnvVarWithSecretSource @166-169 *)
Definition EnvVarWithSecretSource_ty : ty := TStruct [("SecretKeyRef", SecretKeySelector_ty)].
(* Go: api/v1alpha1/zz_generated.deepcopy.go EnvVarWithSecretSource.DeepCopyInto @456-460 *)
Definition EnvVarWithSecretSource_DeepCopyInto : copier := fields [("SecretKeyRef", assign)].
(* Go: api/v1alpha1/zz_generated.deepcopy.go EnvVarWithSecretSource.DeepCopy @462-470 *)
Definition EnvVarWithSecretSource_DeepCopy : copier := deep_copy_ptr EnvVarWithSecretSource_ty EnvVarWithSecretSource_DeepCopyInto.

(* Go: api/v1alpha1/app_types.go EnvVarWithSecret @173-178 *)
Definition EnvVarWithSecret_ty : ty := TStruct [("Name", TStr); ("ValueFrom", EnvVarWithSecretSource_ty)].
(* Go: api/v1alpha1/zz_generated.deepcopy.go EnvVarWithSecret.DeepCopyInto @440-444 *)
Definition EnvVarWithSecret_DeepCopyInto : copier := fields [("ValueFrom", assign)].
(* Go: api/v1alpha1/zz_generated.deepcopy.go EnvVarWithSecret.DeepCopy @446-454 *)
Definition EnvVarWithSecret_DeepCopy : copier := deep_copy_ptr EnvVarWithSecret_ty EnvVarWithSecret_DeepCopyInto.

(* Go: api/v1alpha1/app_types.go PhaseSpec @189-231 *)
Definition PhaseSpec_ty : ty := TStruct
  [("Image", TStr); ("Command", TSlice TStr); ("Env", TSlice EnvVar_ty); ("EnvMap", TMap TStr);
   ("RunAsUser", TPtr TInt); ("MemoryLimit", TStr)].
(* Go: api/v1alpha1/zz_generated.deepcopy.go PhaseSpec.DeepCopyInto @574-601 *)
Definition PhaseSpec_DeepCopyInto : copier := fields
  [("Command", slice_into TStr assign); ("Env", slice_into EnvVar_ty EnvVar_DeepCopyInto);
   ("EnvMap", map_copy); ("RunAsUser", new_into TInt assign)].
(* Go: api/v1alpha1/zz_generated.deepcopy.go PhaseSpec.DeepCopy @603-611 *)
Definition PhaseSpec_DeepCopy : copier := deep_copy_ptr PhaseSpec_ty PhaseSpec_DeepCopyInto.

(* Go: api/v1alpha1/app_types.go BuildPhaseSpec @241-258 *)
Definition BuildPhaseSpec_ty : ty := TStruct [("PhaseSpec", PhaseSpec_ty); ("OutputDir", TStr)].
(* Go: api/v1alpha1/zz_generated.deepcopy.go BuildPhaseSpec.DeepCopyInto @207-211 *)
Definition BuildPhaseSpec_DeepCopyInto : copier := fields [("PhaseSpec", PhaseSpec_DeepCopyInto)].
(* Go: api/v1alpha1/zz_generated.deepcopy.go BuildPhaseSpec.DeepCopy @213-221 *)
Definition BuildPhaseSpec_DeepCopy : copier := deep_copy_ptr BuildPhaseSpec_ty BuildPhaseSpec_DeepCopyInto.

(* Go: api/v1alpha1/app_types.go FetchPhaseSpec @264-270 *)
Definition FetchPhaseSpec_ty : ty := TStruct
  [("PhaseSpec", PhaseSpec_ty); ("Secrets", TSlice EnvVarWithSecret_ty)].
(* Go: api/v1alpha1/zz_generated.deepcopy.go FetchPhaseSpec.DeepCopyInto @472-481 *)
Definition FetchPhaseSpec_DeepCopyInto : copier := fields
  [("PhaseSpec", PhaseSpec_DeepCopyInto); ("Secrets", slice_into EnvVarWithSecret_ty assign)].
(* Go: api/v1alpha1/zz_generated.deepcopy.go FetchPhaseSpec.DeepCopy @483-491 *)
Definition FetchPhaseSpec_DeepCopy : copier := deep_copy_ptr FetchPhaseSpec_ty FetchPhaseSpec_DeepCopyInto.

(* Go: api/v1alpha1/app_types.go SetupPhaseSpec @287-294 *)
Definition SetupPhaseSpec_ty : ty := TStruct [("PhaseSpec", PhaseSpec_ty); ("Skip", TBool)].
(* Go: api/v1alpha1/zz_generated.deepcopy.go SetupPhaseSpec.DeepCopyInto @732-736 *)
Definition SetupPhaseSpec_DeepCopyInto : copier := fields [("PhaseSpec", PhaseSpec_DeepCopyInto)].
(* Go: api/v1alpha1/zz_generated.deepcopy.go SetupPhaseSpec.DeepCopy @738-746 *)
Definition SetupPhaseSpec_DeepCopy : copier := deep_copy_ptr SetupPhaseSpec_ty SetupPhaseSpec_DeepCopyInto.

(* Go: api/v1alpha1/app_types.go PhasesSpec @300-311 *)
Definition PhasesSpec_ty : ty := TStruct
  [("Setup", SetupPhaseSpec_ty); ("Fetch", FetchPhaseSpec_ty); ("Build", BuildPhaseSpec_ty)].
(* Go: api/v1alpha1/zz_generated.deepcopy.go PhasesSpec.DeepCopyInto @613-619 *)
Definition PhasesSpec_DeepCopyInto : copier := fields
  [("Setup", SetupPhaseSpec_DeepCopyInto); ("Fetch", FetchPhaseSpec_DeepCopyInto);
   ("Build", BuildPhaseSpec_DeepCopyInto)].
(* Go: api/v1alpha1/zz_generated.deepcopy.go PhasesSpec.DeepCopy @621-629 *)
Definition PhasesSpec_DeepCopy : copier := deep_copy_ptr PhasesSpec_ty PhasesSpec_DeepCopyInto.

(* Go: api/v1alpha1/app_types.go PipelineSpec @321-351 *)
Definition PipelineSpec_ty : ty := TStruct
  [("NodeVersion", TInt); ("PackageManager", TStr); ("Submodules", TBool); ("Timeout", TPtr Duration_ty);
   ("Phases", PhasesSpec_ty)].
(* Go: api/v1alpha1/zz_generated.deepcopy.go PipelineSpec.DeepCopyInto @631-640 *)
Definition PipelineSpec_DeepCopyInto : copier := fields
  [("Timeout", new_into Duration_ty assign); ("Phases", PhasesSpec_DeepCopyInto)].
(* Go: api/v1alpha1/zz_generated.deepcopy.go PipelineSpec.DeepCopy @642-650 *)
Definition PipelineSpec_DeepCopy : copier := deep_copy_ptr PipelineSpec_ty PipelineSpec_DeepCopyInto.

(* Go: api/v1alpha1/app_types.go TLSConfig @363-366 *)
Definition TLSConfig_ty : ty := TStruct [("SecretName", TStr)].
(* Go: api/v1alpha1/zz_generated.deepcopy.go TLSConfig.DeepCopyInto @806-809 *)
Definition TLSConfig_DeepCopyInto : copier := assign.
(* Go: api/v1alpha1/zz_generated.deepcopy.go TLSConfig.DeepCopy @811-819 *)
Definition TLSConfig_DeepCopy : copier := deep_copy_ptr TLSConfig_ty TLSConfig_DeepCopyInto.

(* Go: api/v1alpha1/app_types.go IngressConfig @369-388 *)
Definition IngressConfig_ty : ty := TStruct
  [("ClassName", TPtr TStr); ("Host", TStr); ("TLS", TPtr TLSConfig_ty); ("Annotations", TMap TStr)].
(* Go: api/v1alpha1/zz_generated.deepcopy.go IngressConfig.DeepCopyInto @508-528 *)
Definition IngressConfig_DeepCopyInto : copier := fields
  [("ClassName", new_into TStr assign); ("TLS", new_into TLSConfig_ty assign); ("Annotations", map_copy)].
(* Go: api/v1alpha1/zz_generated.deepcopy.go IngressConfig.DeepCopy @530-538 *)
Definition IngressConfig_DeepCopy : copier := deep_copy_ptr IngressConfig_ty IngressConfig_DeepCopyInto.

(* Go: api/v1alpha1/app_types.go AuthSecretRef @391-396 *)
Definition AuthSecretRef_ty : ty := TStruct [("Name", TStr); ("Key", TStr)].
(* Go: api/v1alpha1/zz_generated.deepcopy.go AuthSecretRef.DeepCopyInto @192-195 *)
Definition AuthSecretRef_DeepCopyInto : copier := assign.
(* Go: api/v1alpha1/zz_generated.deepcopy.go AuthSecretRef.DeepCopy @197-205 *)
Definition AuthSecretRef_DeepCopy : copier := deep_copy_ptr AuthSecretRef_ty AuthSecretRef_DeepCopyInto.

(* Go: api/v1alpha1/app_types.go AuthConfig @401-406 *)
Definition AuthConfig_ty : ty := TStruct [("PasswordHash", TPtr TStr); ("SecretRef", TPtr AuthSecretRef_ty)].
(* Go: api/v1alpha1/zz_generated.deepcopy.go AuthConfig.DeepCopyInto @167-180 *)
Definition AuthConfig_DeepCopyInto : copier := fields
  [("PasswordHash", new_into TStr assign); ("SecretRef", new_into AuthSecretRef_ty assign)].
(* Go: api/v1alpha1/zz_generated.deepcopy.go AuthConfig.DeepCopy @182-190 *)
Definition AuthConfig_DeepCopy : copier := deep_copy_ptr AuthConfig_ty AuthConfig_DeepCopyInto.

(* Go: api/v1alpha1/app_types.go RepoAuthSecretRef @413-422 *)
Definition RepoAuthSecretRef_ty : ty := TStruct [("Name", TStr)].
(* Go: api/v1alpha1/zz_generated.deepcopy.go RepoAuthSecretRef.DeepCopyInto @687-690 *)
Definition RepoAuthSecretRef_DeepCopyInto : copier := assign.
(* Go: api/v1alpha1/zz_generated.deepcopy.go RepoAuthSecretRef.DeepCopy @692-700 *)
Definition RepoAuthSecretRef_DeepCopy : copier := deep_copy_ptr RepoAuthSecretRef_ty RepoAuthSecretRef_DeepCopyInto.

(* Go: api/v1alpha1/app_types.go RepoAuthConfig @429-432 *)
Definition RepoAuthConfig_ty : ty := TStruct [("SecretRef", RepoAuthSecretRef_ty)].
(* Go: api/v1alpha1/zz_generated.deepcopy.go RepoAuthConfig.DeepCopyInto @671-675 *)
Definition RepoAuthConfig_DeepCopyInto : copier := fields [("SecretRef", assign)].
(* Go: api/v1alpha1/zz_generated.deepcopy.go RepoAuthConfig.DeepCopy @677-685 *)
Definition RepoAuthConfig_DeepCopy : copier := deep_copy_ptr RepoAuthConfig_ty RepoAuthConfig_DeepCopyInto.

(* Go: api/v1alpha1/app_types.go CacheThresholds @436-443 *)
Definition CacheThresholds_ty : ty := TStruct [("CleanupBytes", TInt); ("AlertBytes", TInt)].
(* Go: api/v1alpha1/zz_generated.deepcopy.go CacheThresholds.DeepCopyInto @307-310 *)
Definition CacheThresholds_DeepCopyInto : copier := assign.
(* Go: api/v1alpha1/zz_generated.deepcopy.go CacheThresholds.DeepCopy @312-320 *)
Definition CacheThresholds_DeepCopy : copier := deep_copy_ptr CacheThresholds_ty CacheThresholds_DeepCopyInto.

(* Go: api/v1alpha1/app_types.go DataCacheThresholds @447-457 *)
Definition DataCacheThresholds_ty : ty := TStruct
  [("CleanupBytes", TInt); ("AlertBytes", TInt); ("RunDeltaBytes", TInt)].
(* Go: api/v1alpha1/zz_generated.deepcopy.go DataCacheThresholds.DeepCopyInto @385-388 *)
Definition DataCacheThresholds_DeepCopyInto : copier := assign.
(* Go: api/v1alpha1/zz_generated.deepcopy.go DataCacheThresholds.DeepCopy @390-398 *)
Definition DataCacheThresholds_DeepCopy : copier := deep_copy_ptr DataCacheThresholds_ty DataCacheThresholds_DeepCopyInto.

(* Go: api/v1alpha1/app_types.go OutputThresholds @461-468 *)
Definition OutputThresholds_ty : ty := TStruct [("AlertBytes", TInt); ("CapBytes", TInt)].
(* Go: api/v1alpha1/zz_generated.deepcopy.go OutputThresholds.DeepCopyInto @559-562 *)
Definition OutputThresholds_DeepCopyInto : copier := assign.
(* Go: api/v1alpha1/zz_generated.deepcopy.go OutputThresholds.DeepCopy @564-572 *)
Definition OutputThresholds_DeepCopy : copier := deep_copy_ptr OutputThresholds_ty OutputThresholds_DeepCopyInto.

(* Go: api/v1alpha1/app_types.go StorageConfig @475-482 *)
Definition StorageConfig_ty : ty := TStruct
  [("Cache", CacheThresholds_ty); ("DataCache", DataCacheThresholds_ty); ("Output", OutputThresholds_ty)].
(* Go: api/v1alpha1/zz_generated.deepcopy.go StorageConfig.DeepCopyInto @748-754 *)
Definition StorageConfig_DeepCopyInto : copier := fields
  [("Cache", assign); ("DataCache", assign); ("Output", assign)].
(* Go: api/v1alpha1/zz_generated.deepcopy.go StorageConfig.DeepCopy @756-764 *)
Definition StorageConfig_DeepCopy : copier := deep_copy_ptr StorageConfig_ty StorageConfig_DeepCopyInto.

(* Go: api/v1alpha1/app_types.go ScheduledBuildsSpec @485-505 *)
Definition ScheduledBuildsSpec_ty : ty := TStruct
  [("Enabled", TBool); ("Schedule", TStr); ("AlertThreshold", TInt)].
(* Go: api/v1alpha1/zz_generated.deepcopy.go ScheduledBuildsSpec.DeepCopyInto @702-705 *)
Definition ScheduledBuildsSpec_DeepCopyInto : copier := assign.
(* Go: api/v1alpha1/zz_generated.deepcopy.go ScheduledBuildsSpec.DeepCopy @707-715 *)
Definition ScheduledBuildsSpec_DeepCopy : copier := deep_copy_ptr ScheduledBuildsSpec_ty ScheduledBuildsSpec_DeepCopyInto.

(* Go: api/v1alpha1/app_types.go WatchCommitsSpec @508-522 *)
Definition WatchCommitsSpec_ty : ty := TStruct [("Enabled", TBool); ("Interval", TStr)].
(* Go: api/v1alpha1/zz_generated.deepcopy.go WatchCommitsSpec.DeepCopyInto @821-824 *)
Definition WatchCommitsSpec_DeepCopyInto : copier := assign.
(* Go: api/v1alpha1/zz_generated.deepcopy.go WatchCommitsSpec.DeepCopy @826-834 *)
Definition WatchCommitsSpec_DeepCopy : copier := deep_copy_ptr WatchCommitsSpec_ty WatchCommitsSpec_DeepCopyInto.

(* Go: api/v1alpha1/app_types.go HistorySpec @529-545 *)
Definition HistorySpec_ty : ty := TStruct [("KeepRecent", TInt); ("KeepFailed", TInt)].
(* Go: api/v1alpha1/zz_generated.deepcopy.go HistorySpec.DeepCopyInto @493-496 *)
Definition HistorySpec_DeepCopyInto : copier := assign.
(* Go: api/v1alpha1/zz_generated.deepcopy.go HistorySpec.DeepCopy @498-506 *)
Definition HistorySpec_DeepCopy : copier := deep_copy_ptr HistorySpec_ty HistorySpec_DeepCopyInto.

(* Go: api/v1alpha1/app_types.go AppSpec @548-620 *)
Definition AppSpec_ty : ty := TStruct
  [("Repo", TStr); ("Ref", TStr); ("Group", TStr); ("ScheduledBuilds", TPtr ScheduledBuildsSpec_ty);
   ("WatchCommits", TPtr WatchCommitsSpec_ty); ("Pipeline", PipelineSpec_ty); ("KeepReleases", TInt);
   ("RepoAuth", TPtr RepoAuthConfig_ty); ("Ingress", IngressConfig_ty); ("Auth", TPtr AuthConfig_ty);
   ("Storage", StorageConfig_ty); ("History", TPtr HistorySpec_ty)].
(* Go: api/v1alpha1/zz_generated.deepcopy.go AppSpec.DeepCopyInto @71-102 *)
Definition AppSpec_DeepCopyInto : copier := fields
  [("ScheduledBuilds", new_into ScheduledBuildsSpec_ty assign);
   ("WatchCommits", new_into WatchCommitsSpec_ty assign); ("Pipeline", PipelineSpec_DeepCopyInto);
   ("RepoAuth", new_into RepoAuthConfig_ty assign); ("Ingress", IngressConfig_DeepCopyInto);
   ("Auth", new_into AuthConfig_ty AuthConfig_DeepCopyInto); ("Storage", assign);
   ("History", new_into HistorySpec_ty assign)].
(* Go: api/v1alpha1/zz_generated.deepcopy.go AppSpec.DeepCopy @104-112 *)
Definition AppSpec_DeepCopy : copier := deep_copy_ptr AppSpec_ty AppSpec_DeepCopyInto.

(* Go: api/v1alpha1/app_types.go BuildStep @659-693 *)
Definition BuildStep_ty : ty := TStruct
  [("Name", TStr); ("Status", TStr); ("Message", TStr); ("PeakMemoryBytes", TInt);
   ("StartedAt", TPtr TTime); ("FinishedAt", TPtr TTime); ("MemoryLimit", TStr)].
(* Go: api/v1alpha1/zz_generated.deepcopy.go BuildStep.DeepCopyInto @265-276 *)
Definition BuildStep_DeepCopyInto : copier := fields
  [("StartedAt", Time_DeepCopy); ("FinishedAt", Time_DeepCopy)].
(* Go: api/v1alpha1/zz_generated.deepcopy.go BuildStep.DeepCopy @278-286 *)
Definition BuildStep_DeepCopy : copier := deep_copy_ptr BuildStep_ty BuildStep_DeepCopyInto.

(* Go: api/v1alpha1/app_types.go BuildTermination @782-800 *)
Definition BuildTermination_ty : ty := TStruct
  [("Reason", TStr); ("Container", TStr); ("ExitCode", TInt); ("MemoryLimit", TStr);
   ("FinishedAt", TPtr TTime)].
(* Go: api/v1alpha1/zz_generated.deepcopy.go BuildTermination.DeepCopyInto @288-295 *)
Definition BuildTermination_DeepCopyInto : copier := fields [("FinishedAt", Time_DeepCopy)].
(* Go: api/v1alpha1/zz_generated.deepcopy.go BuildTermination.DeepCopy @297-305 *)
Definition BuildTermination_DeepCopy : copier := deep_copy_ptr BuildTermination_ty BuildTermination_DeepCopyInto.

(* Go: api/v1alpha1/app_types.go BuildStatus @720-776 *)
Definition BuildStatus_ty : ty := TStruct
  [("Phase", TStr); ("Result", TStr); ("JobName", TStr); ("PodName", TStr); ("StartTime", TPtr TTime);
   ("CompletionTime", TPtr TTime); ("Attempts", TInt); ("Trigger", TStr); ("TriggeredBy", TStr);
   ("Commit", TStr); ("Steps", TSlice BuildStep_ty); ("ResolvedImages", TMap TStr); ("FailedStep", TStr);
   ("Message", TStr); ("LogsRef", TStr); ("Termination", TPtr BuildTermination_ty)].
(* Go: api/v1alpha1/zz_generated.deepcopy.go BuildStatus.DeepCopyInto @223-253 *)
Definition BuildStatus_DeepCopyInto : copier := fields
  [("StartTime", Time_DeepCopy); ("CompletionTime", Time_DeepCopy);
   ("Steps", slice_into BuildStep_ty BuildStep_DeepCopyInto); ("ResolvedImages", map_copy);
   ("Termination", new_into BuildTermination_ty BuildTermination_DeepCopyInto)].
(* Go: api/v1alpha1/zz_generated.deepcopy.go BuildStatus.DeepCopy @255-263 *)
Definition BuildStatus_DeepCopy : copier := deep_copy_ptr BuildStatus_ty BuildStatus_DeepCopyInto.

(* Go: api/v1alpha1/app_types.go ReleaseStatus @803-810 *)
Definition ReleaseStatus_ty : ty := TStruct
  [("Current", TStr); ("Previous", TStr); ("ServingSince", TPtr TTime)].
(* Go: api/v1alpha1/zz_generated.deepcopy.go ReleaseStatus.DeepCopyInto @652-659 *)
Definition ReleaseStatus_DeepCopyInto : copier := fields [("ServingSince", Time_DeepCopy)].
(* Go: api/v1alpha1/zz_generated.deepcopy.go ReleaseStatus.DeepCopy @661-669 *)
Definition ReleaseStatus_DeepCopy : copier := deep_copy_ptr ReleaseStatus_ty ReleaseStatus_DeepCopyInto.

(* Go: api/v1alpha1/app_types.go StorageStatus @813-837 *)
Definition StorageStatus_ty : ty := TStruct
  [("MeasuredAt", TPtr TTime); ("Sizes", TMap TInt); ("LastRunDeltas", TMap TInt);
   ("ThresholdState", TStr); ("ReleaseCount", TInt); ("Capacities", TMap TInt)].
(* Go: api/v1alpha1/zz_generated.deepcopy.go StorageStatus.DeepCopyInto @766-794 *)
Definition StorageStatus_DeepCopyInto : copier := fields
  [("MeasuredAt", Time_DeepCopy); ("Sizes", map_copy); ("LastRunDeltas", map_copy);
   ("Capacities", map_copy)].
(* Go: api/v1alpha1/zz_generated.deepcopy.go StorageStatus.DeepCopy @796-804 *)
Definition StorageStatus_DeepCopy : copier := deep_copy_ptr StorageStatus_ty StorageStatus_DeepCopyInto.

(* Go: api/v1alpha1/app_types.go CleanupActionStatus @842-865 *)
Definition CleanupActionStatus_ty : ty := TStruct
  [("RequestedAt", TStr); ("RequestedBy", TStr); ("Phase", TStr); ("StartedAt", TPtr TTime);
   ("CompletedAt", TPtr TTime); ("ReclaimedBytes", TInt); ("Message", TStr)].
(* Go: api/v1alpha1/zz_generated.deepcopy.go CleanupActionStatus.DeepCopyInto @322-333 *)
Definition CleanupActionStatus_DeepCopyInto : copier := fields
  [("StartedAt", Time_DeepCopy); ("CompletedAt", Time_DeepCopy)].
(* Go: api/v1alpha1/zz_generated.deepcopy.go CleanupActionStatus.DeepCopy @335-343 *)
Definition CleanupActionStatus_DeepCopy : copier := deep_copy_ptr CleanupActionStatus_ty CleanupActionStatus_DeepCopyInto.

(* Go: api/v1alpha1/app_types.go CleanupStatus @869-874 *)
Definition CleanupStatus_ty : ty := TStruct
  [("Cache", TPtr CleanupActionStatus_ty); ("Releases", TPtr CleanupActionStatus_ty)].
(* Go: api/v1alpha1/zz_generated.deepcopy.go CleanupStatus.DeepCopyInto @345-358 *)
Definition CleanupStatus_DeepCopyInto : copier := fields
  [("Cache", new_into CleanupActionStatus_ty CleanupActionStatus_DeepCopyInto);
   ("Releases", new_into CleanupActionStatus_ty CleanupActionStatus_DeepCopyInto)].
(* Go: api/v1alpha1/zz_generated.deepcopy.go CleanupStatus.DeepCopy @360-368 *)
Definition CleanupStatus_DeepCopy : copier := deep_copy_ptr CleanupStatus_ty CleanupStatus_DeepCopyInto.

(* Go: api/v1alpha1/app_types.go ManualTrigger @877-882 *)
Definition ManualTrigger_ty : ty := TStruct [("TriggeredBy", TStr); ("Time", TPtr TTime)].
(* Go: api/v1alpha1/zz_generated.deepcopy.go ManualTrigger.DeepCopyInto @540-547 *)
Definition ManualTrigger_DeepCopyInto : copier := fields [("Time", Time_DeepCopy)].
(* Go: api/v1alpha1/zz_generated.deepcopy.go ManualTrigger.DeepCopy @549-557 *)
Definition ManualTrigger_DeepCopy : copier := deep_copy_ptr ManualTrigger_ty ManualTrigger_DeepCopyInto.

(* Go: api/v1alpha1/app_types.go AppStatus @885-955 *)
Definition AppStatus_ty : ty := TStruct
  [("ObservedGeneration", TInt); ("Phase", TStr); ("NodeName", TStr); ("URL", TStr); ("SpecStale", TBool);
   ("Conditions", TSlice Condition_ty); ("Build", BuildStatus_ty);
   ("ConsecutiveScheduledFailures", TInt); ("BuildHistory", TSlice BuildStatus_ty);
   ("FailedBuildHistory", TSlice BuildStatus_ty); ("LastProcessedRebuild", TStr);
   ("LastBuiltSpecHash", TStr); ("LastBuildTime", TPtr TTime); ("LastSuccessfulBuildTime", TPtr TTime);
   ("Release", ReleaseStatus_ty); ("Storage", StorageStatus_ty); ("LastManualTrigger", ManualTrigger_ty);
   ("Cleanup", TPtr CleanupStatus_ty)].
(* Go: api/v1alpha1/zz_generated.deepcopy.go AppStatus.DeepCopyInto @114-155 *)
Definition AppStatus_DeepCopyInto : copier := fields
  [("Conditions", slice_into Condition_ty Condition_DeepCopyInto); ("Build", BuildStatus_DeepCopyInto);
   ("BuildHistory", slice_into BuildStatus_ty BuildStatus_DeepCopyInto);
   ("FailedBuildHistory", slice_into BuildStatus_ty BuildStatus_DeepCopyInto);
   ("LastBuildTime", Time_DeepCopy); ("LastSuccessfulBuildTime", Time_DeepCopy);
   ("Release", ReleaseStatus_DeepCopyInto); ("Storage", StorageStatus_DeepCopyInto);
   ("LastManualTrigger", ManualTrigger_DeepCopyInto);
   ("Cleanup", new_into CleanupStatus_ty CleanupStatus_DeepCopyInto)].
(* Go: api/v1alpha1/zz_generated.deepcopy.go AppStatus.DeepCopy @157-165 *)
Definition AppStatus_DeepCopy : copier := deep_copy_ptr AppStatus_ty AppStatus_DeepCopyInto.

(* Go: api/v1alpha1/app_types.go App @969-975 *)
Definition App_ty : ty := TStruct
  [("TypeMeta", TypeMeta_ty); ("ObjectMeta", ObjectMeta_ty); ("Spec", AppSpec_ty); ("Status", AppStatus_ty)].
(* Go: api/v1alpha1/zz_generated.deepcopy.go App.DeepCopyInto @12-19 *)
Definition App_DeepCopyInto : copier := fields
  [("TypeMeta", assign); ("ObjectMeta", ObjectMeta_DeepCopyInto); ("Spec", AppSpec_DeepCopyInto);
   ("Status", AppStatus_DeepCopyInto)].
(* Go: api/v1alpha1/zz_generated.deepcopy.go App.DeepCopy @21-29 *)
Definition App_DeepCopy : copier := deep_copy_ptr App_ty App_DeepCopyInto.
(* Go: api/v1alpha1/zz_generated.deepcopy.go App.DeepCopyObject @31-37 *)
Definition App_DeepCopyObject (v : gval) (h : heap) : option gval * heap := as_object (App_DeepCopy v h).

(* Go: api/v1alpha1/app_types.go AppList @980-984 *)
Definition AppList_ty : ty := TStruct
  [("TypeMeta", TypeMeta_ty); ("ListMeta", ListMeta_ty); ("Items", TSlice App_ty)].
(* Go: api/v1alpha1/zz_generated.deepcopy.go AppList.DeepCopyInto @39-51 *)
Definition AppList_DeepCopyInto : copier := fields
  [("TypeMeta", assign); ("ListMeta", ListMeta_DeepCopyInto); ("Items", slice_into App_ty App_DeepCopyInto)].
(* Go: api/v1alpha1/zz_generated.deepcopy.go AppList.DeepCopy @53-61 *)
Definition AppList_DeepCopy : copier := deep_copy_ptr AppList_ty AppList_DeepCopyInto.
(* Go: api/v1alpha1/zz_generated.deepcopy.go AppList.DeepCopyObject @63-69 *)
Definition AppList_DeepCopyObject (v : gval) (h : heap) : option gval * heap := as_object (AppList_DeepCopy v h).
(** ** Every one of them is deep *)
Create HintDb deepcopy.
#[local] Hint Resolve new_into_deep slice_into_deep map_copy_deep ObjectMeta_deep ListMeta_deep Condition_deep
  Time_deep : deepcopy.
#[local] Hint Extern 2 (deep_copier _ assign) => (apply assign_deep; reflexivity) : deepcopy.

(** A struct: no field twice, and each field is flat or has a deep statement. *)
Ltac field_copy :=
  split; cbn [fst snd];
  [ intros Hn; first [reflexivity | exfalso; apply Hn; cbn; repeat (first [by left | right])]
  | let c := fresh "c" in let Hc := fresh "Hc" in intros c Hc;
    repeat (apply elem_of_cons in Hc as [Hc|Hc]; [first [discriminate Hc | injection Hc as ->; eauto 3 with deepcopy]|]);
    by apply not_elem_of_nil in Hc ].
Ltac struct_copy :=
  first [ apply assign_deep; reflexivity
        | apply fields_deep; [apply (bool_decide_unpack _); vm_compute; exact I | repeat (apply List.Forall_cons; [field_copy|]); apply List.Forall_nil] ].

Lemma ConfigMapKeySelector_deep : deep_copier ConfigMapKeySelector_ty ConfigMapKeySelector_DeepCopyInto.
Proof. struct_copy. Qed.
#[local] Hint Resolve ConfigMapKeySelector_deep : deepcopy.
Lemma SecretKeySelector_deep : deep_copier SecretKeySelector_ty SecretKeySelector_DeepCopyInto.
Proof. struct_copy. Qed.
#[local] Hint Resolve SecretKeySelector_deep : deepcopy.
Lemma EnvVarSource_deep : deep_copier EnvVarSource_ty EnvVarSource_DeepCopyInto.
Proof. struct_copy. Qed.
#[local] Hint Resolve EnvVarSource_deep : deepcopy.
Lemma EnvVar_deep : deep_copier EnvVar_ty EnvVar_DeepCopyInto.
Proof. struct_copy. Qed.
#[local] Hint Resolve EnvVar_deep : deepcopy.
Lemma EnvVarWithSecretSource_deep : deep_copier EnvVarWithSecretSource_ty EnvVarWithSecretSource_DeepCopyInto.
Proof. struct_copy. Qed.
#[local] Hint Resolve EnvVarWithSecretSource_deep : deepcopy.
Lemma EnvVarWithSecret_deep : deep_copier EnvVarWithSecret_ty EnvVarWithSecret_DeepCopyInto.
Proof. struct_copy. Qed.
#[local] Hint Resolve EnvVarWithSecret_deep : deepcopy.
Lemma PhaseSpec_deep : deep_copier PhaseSpec_ty PhaseSpec_DeepCopyInto.
Proof. struct_copy. Qed.
#[local] Hint Resolve PhaseSpec_deep : deepcopy.
Lemma BuildPhaseSpec_deep : deep_copier BuildPhaseSpec_ty BuildPhaseSpec_DeepCopyInto.
Proof. struct_copy. Qed.
#[local] Hint Resolve BuildPhaseSpec_deep : deepcopy.
Lemma FetchPhaseSpec_deep : deep_copier FetchPhaseSpec_ty FetchPhaseSpec_DeepCopyInto.
Proof. struct_copy. Qed.
#[local] Hint Resolve FetchPhaseSpec_deep : deepcopy.
Lemma SetupPhaseSpec_deep : deep_copier SetupPhaseSpec_ty SetupPhaseSpec_DeepCopyInto.
Proof. struct_copy. Qed.
#[local] Hint Resolve SetupPhaseSpec_deep : deepcopy.
Lemma PhasesSpec_deep : deep_copier PhasesSpec_ty PhasesSpec_DeepCopyInto.
Proof. struct_copy. Qed.
#[local] Hint Resolve PhasesSpec_deep : deepcopy.
Lemma PipelineSpec_deep : deep_copier PipelineSpec_ty PipelineSpec_DeepCopyInto.
Proof. struct_copy. Qed.
#[local] Hint Resolve PipelineSpec_deep : deepcopy.
Lemma TLSConfig_deep : deep_copier TLSConfig_ty TLSConfig_DeepCopyInto.
Proof. struct_copy. Qed.
#[local] Hint Resolve TLSConfig_deep : deepcopy.
Lemma IngressConfig_deep : deep_copier IngressConfig_ty IngressConfig_DeepCopyInto.
Proof. struct_copy. Qed.
#[local] Hint Resolve IngressConfig_deep : deepcopy.
Lemma AuthSecretRef_deep : deep_copier AuthSecretRef_ty AuthSecretRef_DeepCopyInto.
Proof. struct_copy. Qed.
#[local] Hint Resolve AuthSecretRef_deep : deepcopy.
Lemma AuthConfig_deep : deep_copier AuthConfig_ty AuthConfig_DeepCopyInto.
Proof. struct_copy. Qed.
#[local] Hint Resolve AuthConfig_deep : deepcopy.
Lemma RepoAuthSecretRef_deep : deep_copier RepoAuthSecretRef_ty RepoAuthSecretRef_DeepCopyInto.
Proof. struct_copy. Qed.
#[local] Hint Resolve RepoAuthSecretRef_deep : deepcopy.
Lemma RepoAuthConfig_deep : deep_copier RepoAuthConfig_ty RepoAuthConfig_DeepCopyInto.
Proof. struct_copy. Qed.
#[local] Hint Resolve RepoAuthConfig_deep : deepcopy.
Lemma CacheThresholds_deep : deep_copier CacheThresholds_ty CacheThresholds_DeepCopyInto.
Proof. struct_copy. Qed.
#[local] Hint Resolve CacheThresholds_deep : deepcopy.
Lemma DataCacheThresholds_deep : deep_copier DataCacheThresholds_ty DataCacheThresholds_DeepCopyInto.
Proof. struct_copy. Qed.
#[local] Hint Resolve DataCacheThresholds_deep : deepcopy.
Lemma OutputThresholds_deep : deep_copier OutputThresholds_ty OutputThresholds_DeepCopyInto.
Proof. struct_copy. Qed.
#[local] Hint Resolve OutputThresholds_deep : deepcopy.
Lemma StorageConfig_deep : deep_copier StorageConfig_ty StorageConfig_DeepCopyInto.
Proof. struct_copy. Qed.
#[local] Hint Resolve StorageConfig_deep : deepcopy.
Lemma ScheduledBuildsSpec_deep : deep_copier ScheduledBuildsSpec_ty ScheduledBuildsSpec_DeepCopyInto.
Proof. struct_copy. Qed.
#[local] Hint Resolve ScheduledBuildsSpec_deep : deepcopy.
Lemma WatchCommitsSpec_deep : deep_copier WatchCommitsSpec_ty WatchCommitsSpec_DeepCopyInto.
Proof. struct_copy. Qed.
#[local] Hint Resolve WatchCommitsSpec_deep : deepcopy.
Lemma HistorySpec_deep : deep_copier HistorySpec_ty HistorySpec_DeepCopyInto.
Proof. struct_copy. Qed.
#[local] Hint Resolve HistorySpec_deep : deepcopy.
Lemma AppSpec_deep : deep_copier AppSpec_ty AppSpec_DeepCopyInto.
Proof. struct_copy. Qed.
#[local] Hint Resolve AppSpec_deep : deepcopy.
Lemma BuildStep_deep : deep_copier BuildStep_ty BuildStep_DeepCopyInto.
Proof. struct_copy. Qed.
#[local] Hint Resolve BuildStep_deep : deepcopy.
Lemma BuildTermination_deep : deep_copier BuildTermination_ty BuildTermination_DeepCopyInto.
Proof. struct_copy. Qed.
#[local] Hint Resolve BuildTermination_deep : deepcopy.
Lemma BuildStatus_deep : deep_copier BuildStatus_ty BuildStatus_DeepCopyInto.
Proof. struct_copy. Qed.
#[local] Hint Resolve BuildStatus_deep : deepcopy.
Lemma ReleaseStatus_deep : deep_copier ReleaseStatus_ty ReleaseStatus_DeepCopyInto.
Proof. struct_copy. Qed.
#[local] Hint Resolve ReleaseStatus_deep : deepcopy.
Lemma StorageStatus_deep : deep_copier StorageStatus_ty StorageStatus_DeepCopyInto.
Proof. struct_copy. Qed.
#[local] Hint Resolve StorageStatus_deep : deepcopy.
Lemma CleanupActionStatus_deep : deep_copier CleanupActionStatus_ty CleanupActionStatus_DeepCopyInto.
Proof. struct_copy. Qed.
#[local] Hint Resolve CleanupActionStatus_deep : deepcopy.
Lemma CleanupStatus_deep : deep_copier CleanupStatus_ty CleanupStatus_DeepCopyInto.
Proof. struct_copy. Qed.
#[local] Hint Resolve CleanupStatus_deep : deepcopy.
Lemma ManualTrigger_deep : deep_copier ManualTrigger_ty ManualTrigger_DeepCopyInto.
Proof. struct_copy. Qed.
#[local] Hint Resolve ManualTrigger_deep : deepcopy.
Lemma AppStatus_deep : deep_copier AppStatus_ty AppStatus_DeepCopyInto.
Proof. struct_copy. Qed.
#[local] Hint Resolve AppStatus_deep : deepcopy.
Lemma App_deep : deep_copier App_ty App_DeepCopyInto.
Proof. struct_copy. Qed.
#[local] Hint Resolve App_deep : deepcopy.
Lemma AppList_deep : deep_copier AppList_ty AppList_DeepCopyInto.
Proof. struct_copy. Qed.
#[local] Hint Resolve AppList_deep : deepcopy.

(** A pointer copy is independent of the original, nil included. *)
Lemma DeepCopy_independent t into h v x : deep_copier t into → tree_of (TPtr t) h v = Some x →
  let '(v', h') := deep_copy_ptr t into v h in independent (TPtr t) h v v' h' x.
Proof. intros Hd. apply deep_copier_independent, new_into_deep, Hd. Qed.

(** C38: the generated copies are copies: for an App, a list of Apps or a build record
    behind a pointer (or nil), the copy is of the same type and says the same; whatever is
    later written to the cells of the original (its annotations before a patch, the steps
    of a build already in a history) the copy still says it, and whatever is written to
    the copy, so does the original. *)
Theorem deepcopy_independent h v x :
  (tree_of (TPtr App_ty) h v = Some x →
   let '(v', h') := App_DeepCopy v h in independent (TPtr App_ty) h v v' h' x) ∧
  (tree_of (TPtr AppList_ty) h v = Some x →
   let '(v', h') := AppList_DeepCopy v h in independent (TPtr AppList_ty) h v v' h' x) ∧
  (tree_of (TPtr BuildStatus_ty) h v = Some x →
   let '(v', h') := BuildStatus_DeepCopy v h in independent (TPtr BuildStatus_ty) h v v' h' x).
Proof.
  split_and!; intros Hx.
  - exact (DeepCopy_independent _ _ h v x App_deep Hx).
  - exact (DeepCopy_independent _ _ h v x AppList_deep Hx).
  - exact (DeepCopy_independent _ _ h v x BuildStatus_deep Hx).
Qed.
End deepcopy.

(** ** A concrete heap *)
(** The library copies by the reference, for metadata with a map and a list. *)
Definition meta_ty : ty :=
  TStruct [("Name", TStr); ("Annotations", TMap TStr); ("Finalizers", TSlice TStr); ("DeletionTimestamp", TPtr TTime)].
Definition condition_ty : ty := TStruct [("Type", TStr); ("Status", TStr); ("LastTransitionTime", TTime)].
Definition structural_copies `{MapOrder} : MetaCopies := {|
  ObjectMeta_ty := meta_ty; ObjectMeta_DeepCopyInto := deep meta_ty; ObjectMeta_deep := deep_deep meta_ty eq_refl;
  ListMeta_ty := meta_ty; ListMeta_DeepCopyInto := deep meta_ty; ListMeta_deep := deep_deep meta_ty eq_refl;
  Condition_ty := condition_ty; Condition_DeepCopyInto := deep condition_ty; Condition_deep := deep_deep condition_ty eq_refl;
  Time_DeepCopy := deep (TPtr TTime); Time_deep := deep_deep (TPtr TTime) eq_refl |}.
#[local] Existing Instance some_order.
#[local] Existing Instance structural_copies.

Definition set_in (v : gval) (f : string) (y : gval) : gval :=
  match v with VStruct vs => VStruct (set_field_of f y vs) | _ => v end.
(** A build with one step, behind a pointer: cells for the step's array, its start time
    and the record. *)
Definition step_value (msg : string) : gval :=
  set_in (set_in (zero_value BuildStep_ty) "Message" (VScalar (SStr msg))) "StartedAt" (VPtr (Some 1%nat)).
Definition build_heap : heap :=
  [CArr [step_value ""]; CVal (VScalar (STime 5));
   CVal (set_in (zero_value BuildStatus_ty) "Steps" (VSlice (Some (0%nat, 0%nat, 1%nat))))].
Definition build_ptr : gval := VPtr (Some 2%nat).
Definition message_of (r : gval * heap) : option tree := tree_of (TPtr BuildStatus_ty) r.2 r.1.
Definition copied : gval * heap := BuildStatus_DeepCopy build_ptr build_heap.
(** The step of the original stamped in place. *)
Definition stamped (h : heap) : heap := store 0 (CArr [step_value "OOMKilled"]) h.

(** With a struct assignment instead, the stamp shows through. *)
Example assignment_aliases :
  let r := deep_copy_ptr BuildStatus_ty assign build_ptr build_heap in
  message_of r = message_of (build_ptr, build_heap) ∧ message_of (r.1, stamped r.2) ≠ message_of (build_ptr, build_heap).
Proof. split; [vm_compute; reflexivity|vm_compute; discriminate]. Qed.

Lemma deepcopy_independent_witness :
  message_of (build_ptr, stamped copied.2) ≠ message_of (build_ptr, build_heap) ∧
  message_of (copied.1, stamped copied.2) = message_of (build_ptr, build_heap).
Proof.
  split; [vm_compute; discriminate|].
  destruct (message_of (build_ptr, build_heap)) as [x|] eqn:Ex; [|vm_compute in Ex; discriminate Ex].
  destruct (deepcopy_independent build_heap build_ptr x) as (_ & _ & Hb). specialize (Hb Ex).
  change (let '(v', h') := copied in independent (TPtr BuildStatus_ty) build_heap build_ptr v' h' x) in Hb.
  destruct copied as [v' h']. destruct Hb as (_ & _ & Hc & _). apply Hc.
  apply kept_store. cbn. lia.
Defined.
