(* ===== verification/Kube.v ===== *)
(** The Kubernetes objects the operator builds and reads (k8s.io/api), with the
    fields it touches; the others keep their zero value.  Functions of the
    Kubernetes libraries whose code is not part of this repository are the class
    [KubeLib]. *)
From Stdlib Require Import ZArith Ascii String.
From stdpp Require Import base gmap strings list numbers sorting.
From S2P Require Import Prelude GoStd GoNum BuildSpec AppTypes.

Open Scope string_scope.
Open Scope list_scope.
Open Scope Z_scope.

(** [resource.Quantity], represented by its canonical text ([q.String()]). *)
Record Quantity := MkQuantity { q_String : string }.
#[global] Instance Quantity_eq_dec : EqDecision Quantity.
Proof. solve_decision. Defined.

(** Library functions the operator calls: [resource.ParseQuantity],
    [Quantity.Value] and [cron.ParseStandard] (the schedule is only checked). *)
Class KubeLib := {
  ParseQuantity : string → result Quantity;
  q_Value : Quantity → Z;
  cron_ParseStandard : string → result unit;
}.

(** ** Core objects *)

(** [corev1.EnvVarSource]: a ConfigMap key or a Secret key. *)
Inductive KEnvVarSource :=
| FromConfigMap (name key : string)
| FromSecret (name key : string).
#[global] Instance KEnvVarSource_eq_dec : EqDecision KEnvVarSource.
Proof. solve_decision. Defined.

Record KEnvVar := MkKEnvVar {
  ke_Name : string;
  ke_Value : string;
  ke_ValueFrom : option KEnvVarSource;
}.
#[export] Instance eta_KEnvVar : Eta KEnvVar := λ x,
  MkKEnvVar (ke_Name x) (ke_Value x) (ke_ValueFrom x).
#[global] Instance KEnvVar_eq_dec : EqDecision KEnvVar.
Proof. solve_decision. Defined.

Record VolumeMount := MkVolumeMount {
  vm_Name : string;
  vm_MountPath : string;
  vm_ReadOnly : bool;
}.
#[export] Instance eta_VolumeMount : Eta VolumeMount := λ x,
  MkVolumeMount (vm_Name x) (vm_MountPath x) (vm_ReadOnly x).
#[global] Instance VolumeMount_eq_dec : EqDecision VolumeMount.
Proof. solve_decision. Defined.

(** [corev1.VolumeSource]. *)
Inductive VolumeSource :=
| EmptyDir (sizeLimit : option Quantity)
| PVCSource (claimName : string) (readOnly : bool)
| ConfigMapSource (name : string)
| SecretSource (secretName : string) (items : list (string * string)).
#[global] Instance VolumeSource_eq_dec : EqDecision VolumeSource.
Proof. solve_decision. Defined.

Record Volume := MkVolume {
  v_Name : string;
  v_Source : VolumeSource;
}.
#[export] Instance eta_Volume : Eta Volume := λ x,
  MkVolume (v_Name x) (v_Source x).
#[global] Instance Volume_eq_dec : EqDecision Volume.
Proof. solve_decision. Defined.

Record SecurityContext := MkSecurityContext {
  sc_RunAsUser : option Z;
  sc_RunAsGroup : option Z;
  sc_RunAsNonRoot : option bool;
  sc_ReadOnlyRootFilesystem : option bool;
  sc_AllowPrivilegeEscalation : option bool;
  sc_CapDrop : list string;
  sc_CapAdd : list string;
  sc_Seccomp : option string;
}.
#[export] Instance eta_SecurityContext : Eta SecurityContext := λ x,
  MkSecurityContext (sc_RunAsUser x) (sc_RunAsGroup x) (sc_RunAsNonRoot x)
  (sc_ReadOnlyRootFilesystem x) (sc_AllowPrivilegeEscalation x) (sc_CapDrop x) (sc_CapAdd x)
  (sc_Seccomp x).
#[global] Instance SecurityContext_eq_dec : EqDecision SecurityContext.
Proof. solve_decision. Defined.

Record ResourceRequirements := MkResourceRequirements {
  rr_Requests : gmap string Quantity;
  rr_Limits : gmap string Quantity;
}.
#[export] Instance eta_ResourceRequirements : Eta ResourceRequirements := λ x,
  MkResourceRequirements (rr_Requests x) (rr_Limits x).
#[global] Instance ResourceRequirements_eq_dec : EqDecision ResourceRequirements.
Proof. solve_decision. Defined.

Record Container := MkContainer {
  k_Name : string;
  k_Image : string;
  k_Command : list string;
  k_WorkingDir : string;
  k_Env : list KEnvVar;
  k_VolumeMounts : list VolumeMount;
  k_Resources : ResourceRequirements;
  k_SecurityContext : option SecurityContext;
  k_TerminationMessagePolicy : string;
  k_Ports : list Z;
}.
#[export] Instance eta_Container : Eta Container := λ x,
  MkContainer (k_Name x) (k_Image x) (k_Command x) (k_WorkingDir x) (k_Env x) (k_VolumeMounts
  x) (k_Resources x) (k_SecurityContext x) (k_TerminationMessagePolicy x) (k_Ports x).
#[global] Instance Container_eq_dec : EqDecision Container.
Proof. solve_decision. Defined.

Record PodSecurityContext := MkPodSecurityContext {
  psc_RunAsNonRoot : option bool;
  psc_Seccomp : option string;
}.
#[export] Instance eta_PodSecurityContext : Eta PodSecurityContext := λ x,
  MkPodSecurityContext (psc_RunAsNonRoot x) (psc_Seccomp x).
#[global] Instance PodSecurityContext_eq_dec : EqDecision PodSecurityContext.
Proof. solve_decision. Defined.

Record PodSpec := MkPodSpec {
  p_RestartPolicy : string;
  p_ServiceAccountName : string;
  p_AutomountServiceAccountToken : option bool;
  p_SecurityContext : option PodSecurityContext;
  p_InitContainers : list Container;
  p_Containers : list Container;
  p_Volumes : list Volume;
  p_ImagePullSecrets : list string;
  p_NodeName : string;
}.
#[export] Instance eta_PodSpec : Eta PodSpec := λ x,
  MkPodSpec (p_RestartPolicy x) (p_ServiceAccountName x) (p_AutomountServiceAccountToken x)
  (p_SecurityContext x) (p_InitContainers x) (p_Containers x) (p_Volumes x)
  (p_ImagePullSecrets x) (p_NodeName x).
#[global] Instance PodSpec_eq_dec : EqDecision PodSpec.
Proof. solve_decision. Defined.

(** [corev1.ContainerStateTerminated] and the container state, at most one of
    whose members the kubelet sets; [Terminated] is looked at first. *)
Record Terminated := MkTerminated {
  t_ExitCode : Z;
  t_Reason : string;
  t_Message : string;
  t_StartedAt : Z;
  t_FinishedAt : Z;
}.
#[export] Instance eta_Terminated : Eta Terminated := λ x,
  MkTerminated (t_ExitCode x) (t_Reason x) (t_Message x) (t_StartedAt x) (t_FinishedAt x).
#[global] Instance Terminated_eq_dec : EqDecision Terminated.
Proof. solve_decision. Defined.

Record ContainerStatus := MkContainerStatus {
  cst_Name : string;
  cst_Running : option Z;
  cst_Terminated : option Terminated;
}.
#[export] Instance eta_ContainerStatus : Eta ContainerStatus := λ x,
  MkContainerStatus (cst_Name x) (cst_Running x) (cst_Terminated x).
#[global] Instance ContainerStatus_eq_dec : EqDecision ContainerStatus.
Proof. solve_decision. Defined.

Record Pod := MkPod {
  pod_Meta : ObjectMeta;
  pod_Spec : PodSpec;
  pod_InitContainerStatuses : list ContainerStatus;
  pod_ContainerStatuses : list ContainerStatus;
}.
#[export] Instance eta_Pod : Eta Pod := λ x,
  MkPod (pod_Meta x) (pod_Spec x) (pod_InitContainerStatuses x) (pod_ContainerStatuses x).
#[global] Instance Pod_eq_dec : EqDecision Pod.
Proof. solve_decision. Defined.

(** ** Jobs *)
Record JobCondition := MkJobCondition {
  jc_Type : string;
  jc_Status : string;
  jc_Message : string;
}.
#[export] Instance eta_JobCondition : Eta JobCondition := λ x,
  MkJobCondition (jc_Type x) (jc_Status x) (jc_Message x).
#[global] Instance JobCondition_eq_dec : EqDecision JobCondition.
Proof. solve_decision. Defined.

Record JobSpec := MkJobSpec {
  js_BackoffLimit : option Z;
  js_ActiveDeadlineSeconds : option Z;
  js_TTLSecondsAfterFinished : option Z;
  js_TemplateLabels : gmap string string;
  js_Template : PodSpec;
}.
#[export] Instance eta_JobSpec : Eta JobSpec := λ x,
  MkJobSpec (js_BackoffLimit x) (js_ActiveDeadlineSeconds x) (js_TTLSecondsAfterFinished x)
  (js_TemplateLabels x) (js_Template x).
#[global] Instance JobSpec_eq_dec : EqDecision JobSpec.
Proof. solve_decision. Defined.

Record Job := MkJob {
  j_Meta : ObjectMeta;
  j_Spec : JobSpec;
  j_Conditions : list JobCondition;
}.
#[export] Instance eta_Job : Eta Job := λ x,
  MkJob (j_Meta x) (j_Spec x) (j_Conditions x).
#[global] Instance Job_eq_dec : EqDecision Job.
Proof. solve_decision. Defined.

Record CronJobSpec := MkCronJobSpec {
  cj_Schedule : string;
  cj_ConcurrencyPolicy : string;
  cj_SuccessfulJobsHistoryLimit : option Z;
  cj_FailedJobsHistoryLimit : option Z;
  cj_JobTemplate : JobSpec;
}.
#[export] Instance eta_CronJobSpec : Eta CronJobSpec := λ x,
  MkCronJobSpec (cj_Schedule x) (cj_ConcurrencyPolicy x) (cj_SuccessfulJobsHistoryLimit x)
  (cj_FailedJobsHistoryLimit x) (cj_JobTemplate x).
#[global] Instance CronJobSpec_eq_dec : EqDecision CronJobSpec.
Proof. solve_decision. Defined.

(** ** The other children *)
Record PolicyRule := MkPolicyRule {
  pr_APIGroups : list string;
  pr_Resources : list string;
  pr_Verbs : list string;
  pr_ResourceNames : list string;
}.
#[export] Instance eta_PolicyRule : Eta PolicyRule := λ x,
  MkPolicyRule (pr_APIGroups x) (pr_Resources x) (pr_Verbs x) (pr_ResourceNames x).
#[global] Instance PolicyRule_eq_dec : EqDecision PolicyRule.
Proof. solve_decision. Defined.

(** [networkingv1.NetworkPolicyPeer]: a selector pair or an IP block. *)
Inductive Peer :=
| SelectorPeer (namespaceLabels podLabels : option (gmap string string))
| IPBlock (cidr : string) (except : list string).
#[global] Instance Peer_eq_dec : EqDecision Peer.
Proof. solve_decision. Defined.

Record NetRule := MkNetRule {
  nr_Peers : list Peer;
  nr_Ports : list (string * Z);
}.
#[export] Instance eta_NetRule : Eta NetRule := λ x,
  MkNetRule (nr_Peers x) (nr_Ports x).
#[global] Instance NetRule_eq_dec : EqDecision NetRule.
Proof. solve_decision. Defined.

Record NetworkPolicySpec := MkNetworkPolicySpec {
  np_PodSelector : gmap string string;
  np_PolicyTypes : list string;
  np_Ingress : list NetRule;
  np_Egress : list NetRule;
}.
#[export] Instance eta_NetworkPolicySpec : Eta NetworkPolicySpec := λ x,
  MkNetworkPolicySpec (np_PodSelector x) (np_PolicyTypes x) (np_Ingress x) (np_Egress x).
#[global] Instance NetworkPolicySpec_eq_dec : EqDecision NetworkPolicySpec.
Proof. solve_decision. Defined.

Record DeploymentSpec := MkDeploymentSpec {
  d_Replicas : option Z;
  d_Strategy : string;
  d_Selector : gmap string string;
  d_TemplateLabels : gmap string string;
  d_Template : PodSpec;
}.
#[export] Instance eta_DeploymentSpec : Eta DeploymentSpec := λ x,
  MkDeploymentSpec (d_Replicas x) (d_Strategy x) (d_Selector x) (d_TemplateLabels x)
  (d_Template x).
#[global] Instance DeploymentSpec_eq_dec : EqDecision DeploymentSpec.
Proof. solve_decision. Defined.

Record IngressSpec := MkIngressSpec {
  is_ClassName : option string;
  is_Host : string;
  is_Path : string;
  is_PathType : string;
  is_ServiceName : string;
  is_ServicePort : Z;
  is_TLS : list (list string * string);
}.
#[export] Instance eta_IngressSpec : Eta IngressSpec := λ x,
  MkIngressSpec (is_ClassName x) (is_Host x) (is_Path x) (is_PathType x) (is_ServiceName x)
  (is_ServicePort x) (is_TLS x).
#[global] Instance IngressSpec_eq_dec : EqDecision IngressSpec.
Proof. solve_decision. Defined.

(** What the operator applies, creates or deletes as an owned child. *)
Inductive kspec :=
| PersistentVolumeClaim (accessModes : list string) (storageClass : option string)
    (requests : gmap string Quantity)
| ServiceAccount
| Role (rules : list PolicyRule)
| RoleBinding (subjects : list (string * string * string)) (roleRef : string * string * string)
| CronJob (spec : CronJobSpec)
| NetworkPolicy (spec : NetworkPolicySpec)
| ConfigMap (data : gmap string string)
| Deployment (spec : DeploymentSpec)
| Service (selector : gmap string string) (ports : list (Z * Z))
| Ingress (spec : IngressSpec)
| Middleware (group : string) (secret : string)
| Secret (type : string) (data : gmap string string).
#[global] Instance kspec_eq_dec : EqDecision kspec.
Proof. solve_decision. Defined.

Record kobject := MkKobject {
  o_Meta : ObjectMeta;
  o_Spec : kspec;
}.
#[export] Instance eta_kobject : Eta kobject := λ x,
  MkKobject (o_Meta x) (o_Spec x).
#[global] Instance kobject_eq_dec : EqDecision kobject.
Proof. solve_decision. Defined.


(** The kind, which with namespace and name addresses an object. *)
Definition kind (s : kspec) : string :=
  match s with
  | PersistentVolumeClaim _ _ _ => "PersistentVolumeClaim" | ServiceAccount => "ServiceAccount"
  | Role _ => "Role" | RoleBinding _ _ => "RoleBinding" | CronJob _ => "CronJob"
  | NetworkPolicy _ => "NetworkPolicy" | ConfigMap _ => "ConfigMap"
  | Deployment _ => "Deployment" | Service _ _ => "Service" | Ingress _ => "Ingress"
  | Middleware _ _ => "Middleware" | Secret _ _ => "Secret"
  end.

Definition object_meta (name namespace : string) (labels : gmap string string) : ObjectMeta :=
  zero_meta <| om_Name := name |> <| om_Namespace := namespace |> <| om_Labels := labels |>.
Definition zero_resources : ResourceRequirements := MkResourceRequirements ∅ ∅.
Definition zero_container : Container := MkContainer "" "" [] "" [] [] zero_resources None "" [].
Definition env (name value : string) : KEnvVar := MkKEnvVar name value None.
Definition mount (name path : string) : VolumeMount := MkVolumeMount name path false.

(** ** Owner references (controller-runtime's controllerutil) *)
Definition GetControllerOf (m : ObjectMeta) : option OwnerReference :=
  List.find or_Controller (om_OwnerReferences m).

Definition app_owner (app : App) : OwnerReference :=
  MkOwnerReference "App" (app_Name app) (app_UID app) true.

(** Same owner object, as [upsertOwnerRef] compares (group, kind, name). *)
Definition same_owner (a b : OwnerReference) : bool :=
  String.eqb (or_Kind a) (or_Kind b) && String.eqb (or_Name a) (or_Name b).

Fixpoint upsert_owner (r : OwnerReference) (l : list OwnerReference) : list OwnerReference :=
  match l with
  | [] => [r]
  | x :: l' => if same_owner x r then r :: l' else x :: upsert_owner r l'
  end.

(** [SetControllerReference]: refuses an object another owner controls, and an
    owner of another namespace. *)
Definition SetControllerReference (app : App) (m : ObjectMeta) : result ObjectMeta :=
  if negb (String.eqb (om_Namespace m) (app_Namespace app)) then
    Err (errorf "cross-namespace owner references are disallowed")
  else match GetControllerOf m with
       | Some r =>
           if negb (same_owner r (app_owner app))
           then Err (errorf ("Object is already owned by another controller " +:+ or_Name r))
           else Ok (m <| om_OwnerReferences ::= upsert_owner (app_owner app) |>)
       | None => Ok (m <| om_OwnerReferences ::= upsert_owner (app_owner app) |>)
       end.

(** [client.IgnoreNotFound]. *)
Definition is_not_found (e : error) : bool := bool_decide (err_reason e = Some NotFound).
Definition is_already_exists (e : error) : bool := bool_decide (err_reason e = Some AlreadyExists).

(** [client.MatchingLabels]. *)
Definition matches (sel labels : gmap string string) : bool := bool_decide (sel ⊆ labels).
