(* ===== verification/GoNet.v ===== *)
(** The Go standard library's [net.ParseCIDR], as a check: which texts are
    accepted.  The address parser follows [net/netip]. *)
From Stdlib Require Import ZArith Ascii String.
From stdpp Require Import base gmap strings list numbers sorting.
From S2P Require Import Prelude GoStd GoNum RepoHost.

Open Scope string_scope.
Open Scope list_scope.
Open Scope Z_scope.

(** ** IPv4: four fields of one to three digits, without leading zeros *)
Fixpoint dec_value (s : string) (acc : Z) : Z :=
  match s with "" => acc | String c s' => dec_value s' (acc * 10 + (bv c - 48)) end.
Definition ipv4_field (f : string) : bool :=
  negb (String.eqb f "") && string_forallb is_digit f &&
  implb (HasPrefix f "0") (String.length f =? 1)%nat && (dec_value f 0 <=? 255).
Definition ipv4_ok (s : string) : bool :=
  let fs := SplitByte s "." in (length fs =? 4)%nat && forallb ipv4_field fs.

(** ** IPv6 *)
(** The leading hex digits and the rest. *)
Fixpoint hex_prefix (s : string) : string * string :=
  match s with
  | String c s' =>
      match hex_val c with
      | Some _ => let '(a, b) := hex_prefix s' in (String c a, b)
      | None => ("", s)
      end
  | "" => ("", "")
  end.

(** One turn of the loop per 16-bit group: [i] bytes are filled, [ell] says that
    an ellipsis was seen.  The fuel is the number of groups left. *)
Fixpoint ipv6_loop (fuel : nat) (i : Z) (ell : bool) (s : string) : bool :=
  match fuel with
  | O => String.eqb s "" && negb ell
  | S fuel' =>
      let '(group, rest) := hex_prefix s in
      if String.eqb group "" || (4 <? String.length group)%nat then false
      else if HasPrefix rest "." then
        (ell || (i =? 12)) && (i + 4 <=? 16) && ipv4_ok s && xorb (i + 4 =? 16) ell
      else
        let i' := i + 2 in
        match rest with
        | "" => xorb (i' =? 16) ell
        | String ":" rest1 =>
            match rest1 with
            | "" => false
            | String ":" rest2 =>
                if ell then false
                else if String.eqb rest2 "" then i' <? 16
                else ipv6_loop fuel' i' true rest2
            | _ => ipv6_loop fuel' i' ell rest1
            end
        | _ => false
        end
  end.
Definition ipv6_ok (s : string) : bool :=
  if HasPrefix s "::" then
    let s' := drop 2 s in String.eqb s' "" || ipv6_loop 8 0 true s'
  else ipv6_loop 8 0 false s.

(** [netip.ParseAddr] without a zone: the first separator decides; the result is
    the bit length. *)
Fixpoint addr_bits (s : string) (whole : string) : option Z :=
  match s with
  | "" => None
  | String "." _ => if ipv4_ok whole then Some 32 else None
  | String ":" _ => if ipv6_ok whole then Some 128 else None
  | String "%" _ => None
  | String _ s' => addr_bits s' whole
  end.

(** [dtoi] reads decimal digits and gives up at 0xFFFFFF. *)
Definition mask_ok (mask : string) (bits : Z) : bool :=
  negb (String.eqb mask "") && string_forallb is_digit mask && (dec_value mask 0 <=? bits).

Definition cidr_ok (s : string) : bool :=
  match cut s "/" with
  | None => false
  | Some (addr, mask) =>
      negb (one_of addr "%") &&
      match addr_bits addr addr with Some bits => mask_ok mask bits | None => false end
  end.

Definition ParseCIDR (s : string) : result unit :=
  if cidr_ok s then Ok tt else Err (errorf ("invalid CIDR address: " +:+ s)).

Example cidr_examples :
  map cidr_ok ["10.42.0.0/16"; "169.254.169.254/32"; "fd00::/8"; "::/0"; "1::2:3/64";
               "::ffff:10.0.0.1/96"; "1:2:3:4:5:6:7:8/128"]
  = [true; true; true; true; true; true; true] ∧
  map cidr_ok ["10.42.0.0"; "10.42.0/16"; "10.042.0.0/16"; "256.1.1.1/8"; "1.2.3.4/33";
               "1:2:3:4:5:6:7/64"; "1::2::3/64"; "1:2:3:4:5:6:7:8::/64"; "fe80::1%eth0/64";
               "12345::/16"; "/8"; "1.2.3.4/"]
  = [false; false; false; false; false; false; false; false; false; false; false; false].
Proof. vm_compute. split; reflexivity. Qed.
