(* ===== verification/Config.v ===== *)
(** internal/controller/config.go: the operator configuration, its defaults and
    its start-up validation.  Reading the file and decoding its YAML are
    parameters of [LoadConfig]; everything after the decode is modelled. *)
From Stdlib Require Import ZArith Ascii String.
From stdpp Require Import base gmap strings list numbers sorting.
From S2P Require Import Prelude GoStd GoNum Images WatchSchedule BuildSpec RepoHost GoNet AppTypes Kube.

Open Scope string_scope.
Open Scope list_scope.
Open Scope Z_scope.

(* Go: internal/controller/config.go DefaultHistoryKeepRecent @19-31 *)
Definition DefaultHistoryKeepRecent : Z := 5.
Definition DefaultHistoryKeepFailed : Z := 10.
Definition DefaultScheduledAlertThreshold : Z := 3.

(* Go: internal/controller/config.go PlatformImages *)
Record PlatformImages := MkPlatformImages {
  img_Clone : string;
  img_Copier : string;
  img_Du : string;
  img_Cleanup : string;
  img_Clock : string;
  img_Shim : string;
  img_Nginx : string;
}.
#[export] Instance eta_PlatformImages : Eta PlatformImages := λ x,
  MkPlatformImages (img_Clone x) (img_Copier x) (img_Du x) (img_Cleanup x) (img_Clock x)
  (img_Shim x) (img_Nginx x).
#[global] Instance PlatformImages_eq_dec : EqDecision PlatformImages.
Proof. solve_decision. Defined.

(* Go: internal/controller/config.go GitAuth *)
Record GitAuth := MkGitAuth {
  ga_SecretName : string;
  ga_Hosts : list string;
}.
#[export] Instance eta_GitAuth : Eta GitAuth := λ x,
  MkGitAuth (ga_SecretName x) (ga_Hosts x).
#[global] Instance GitAuth_eq_dec : EqDecision GitAuth.
Proof. solve_decision. Defined.

(* Go: internal/controller/config.go PhaseResourceDefaults *)
Record PhaseResourceDefaults := MkPhaseResourceDefaults {
  prd_CPURequest : Quantity;
  prd_CPULimit : Quantity;
  prd_MemorySetup : Quantity;
  prd_MemoryFetch : Quantity;
  prd_MemoryBuild : Quantity;
}.
#[export] Instance eta_PhaseResourceDefaults : Eta PhaseResourceDefaults := λ x,
  MkPhaseResourceDefaults (prd_CPURequest x) (prd_CPULimit x) (prd_MemorySetup x)
  (prd_MemoryFetch x) (prd_MemoryBuild x).
#[global] Instance PhaseResourceDefaults_eq_dec : EqDecision PhaseResourceDefaults.
Proof. solve_decision. Defined.

(* Go: internal/controller/config.go OperatorConfig *)
Record OperatorConfig := MkOperatorConfig {
  cfg_RegistryAllowlist : list string;
  cfg_ClusterCIDRs : list string;
  cfg_TraefikGroup : string;
  cfg_ImagePullSecret : string;
  cfg_MeasureInterval : Z;
  cfg_DefaultSchedule : string;
  cfg_DefaultWatchInterval : string;
  cfg_Images : PlatformImages;
  cfg_NodeImages : gmap string NodeImage;
  cfg_DefaultSetupCommands : gmap string (list string);
  cfg_PhaseResourceDefaults : PhaseResourceDefaults;
  cfg_ActiveDeadlineSeconds : Z;
  cfg_GitAuth : GitAuth;
  cfg_CloneRetries : Z;
  cfg_CloneRetryBaseDelay : Z;
  cfg_HistoryKeepRecent : Z;
  cfg_HistoryKeepFailed : Z;
  cfg_ScheduledAlertThreshold : Z;
}.
#[export] Instance eta_OperatorConfig : Eta OperatorConfig := λ x,
  MkOperatorConfig (cfg_RegistryAllowlist x) (cfg_ClusterCIDRs x) (cfg_TraefikGroup x)
  (cfg_ImagePullSecret x) (cfg_MeasureInterval x) (cfg_DefaultSchedule x)
  (cfg_DefaultWatchInterval x) (cfg_Images x) (cfg_NodeImages x) (cfg_DefaultSetupCommands x)
  (cfg_PhaseResourceDefaults x) (cfg_ActiveDeadlineSeconds x) (cfg_GitAuth x)
  (cfg_CloneRetries x) (cfg_CloneRetryBaseDelay x) (cfg_HistoryKeepRecent x)
  (cfg_HistoryKeepFailed x) (cfg_ScheduledAlertThreshold x).

(* Go: internal/controller/config.go ManagerOptions *)
Record ManagerOptions := MkManagerOptions {
  mo_MetricsBindAddress : string;
  mo_HealthProbeBindAddress : string;
  mo_LeaderElect : bool;
  mo_StorageClass : string;
  mo_TraefikNamespace : string;
}.
#[export] Instance eta_ManagerOptions : Eta ManagerOptions := λ x,
  MkManagerOptions (mo_MetricsBindAddress x) (mo_HealthProbeBindAddress x) (mo_LeaderElect x)
  (mo_StorageClass x) (mo_TraefikNamespace x).
#[global] Instance ManagerOptions_eq_dec : EqDecision ManagerOptions.
Proof. solve_decision. Defined.

(* Go: internal/controller/config.go fileGitAuth *)
Record fileGitAuth := MkFileGitAuth {
  fga_SecretName : string;
  fga_Hosts : list string;
}.
#[global] Instance fileGitAuth_eq_dec : EqDecision fileGitAuth.
Proof. solve_decision. Defined.

(* Go: internal/controller/config.go fileImages *)
Record fileImages := MkFileImages {
  fi_Clone : string;
  fi_Copier : string;
  fi_Du : string;
  fi_Cleanup : string;
  fi_Clock : string;
  fi_Shim : string;
  fi_Nginx : string;
}.
#[global] Instance fileImages_eq_dec : EqDecision fileImages.
Proof. solve_decision. Defined.

(* Go: internal/controller/config.go filePhaseCPU *)
Record filePhaseCPU := MkFilePhaseCPU {
  fpc_Request : string;
  fpc_Limit : string;
}.
#[global] Instance filePhaseCPU_eq_dec : EqDecision filePhaseCPU.
Proof. solve_decision. Defined.

(* Go: internal/controller/config.go filePhaseMemory *)
Record filePhaseMemory := MkFilePhaseMemory {
  fpm_Setup : string;
  fpm_Fetch : string;
  fpm_Build : string;
}.
#[global] Instance filePhaseMemory_eq_dec : EqDecision filePhaseMemory.
Proof. solve_decision. Defined.

(* Go: internal/controller/config.go filePhaseResources *)
Record filePhaseResources := MkFilePhaseResources {
  fpr_CPU : filePhaseCPU;
  fpr_Memory : filePhaseMemory;
}.
#[global] Instance filePhaseResources_eq_dec : EqDecision filePhaseResources.
Proof. solve_decision. Defined.

(* Go: internal/controller/config.go FileConfig *)
Record FileConfig := MkFileConfig {
  fc_MetricsBindAddress : string;
  fc_HealthProbeBindAddress : string;
  fc_LeaderElect : option bool;
  fc_RegistryAllowlist : list string;
  fc_ClusterCIDRs : list string;
  fc_TraefikGroup : string;
  fc_TraefikNamespace : string;
  fc_ImagePullSecret : string;
  fc_StorageClass : string;
  fc_MeasureInterval : string;
  fc_DefaultSchedule : string;
  fc_DefaultWatchInterval : string;
  fc_Images : fileImages;
  fc_NodeImages : gmap string NodeImage;
  fc_DefaultSetupCommands : gmap string (list string);
  fc_PhaseResources : filePhaseResources;
  fc_ActiveDeadlineSeconds : Z;
  fc_CloneRetries : option Z;
  fc_CloneRetryBaseDelay : option Z;
  fc_HistoryKeepRecent : option Z;
  fc_HistoryKeepFailed : option Z;
  fc_ScheduledAlertThreshold : option Z;
  fc_GitAuth : fileGitAuth;
}.
#[export] Instance eta_FileConfig : Eta FileConfig := λ x,
  MkFileConfig (fc_MetricsBindAddress x) (fc_HealthProbeBindAddress x) (fc_LeaderElect x)
  (fc_RegistryAllowlist x) (fc_ClusterCIDRs x) (fc_TraefikGroup x) (fc_TraefikNamespace x)
  (fc_ImagePullSecret x) (fc_StorageClass x) (fc_MeasureInterval x) (fc_DefaultSchedule x)
  (fc_DefaultWatchInterval x) (fc_Images x) (fc_NodeImages x) (fc_DefaultSetupCommands x)
  (fc_PhaseResources x) (fc_ActiveDeadlineSeconds x) (fc_CloneRetries x)
  (fc_CloneRetryBaseDelay x) (fc_HistoryKeepRecent x) (fc_HistoryKeepFailed x)
  (fc_ScheduledAlertThreshold x) (fc_GitAuth x).

(* Go: internal/controller/config.go Enabled *)
Definition Enabled (g : GitAuth) : bool := negb (String.eqb (ga_SecretName g) "").

(* Go: internal/controller/config.go MemoryForPhase *)
Definition MemoryForPhase (d : PhaseResourceDefaults) (phase : string) : Quantity :=
  if String.eqb phase "setup" then prd_MemorySetup d
  else if String.eqb phase "fetch" then prd_MemoryFetch d
  else prd_MemoryBuild d.

(* Go: internal/controller/config.go defaultStr *)
Definition defaultStr (v def : string) : string := if String.eqb v "" then def else v.
(* Go: internal/controller/config.go defaultInt *)
Definition defaultInt (v : option Z) (def : Z) : Z := default def v.

(* Go: internal/controller/config.go defaultSetupCommandFallbacks @500-511 *)
Definition defaultSetupCommandFallbacks : gmap string (list string) :=
  {[ PackageManagerYarn := ["yarn"; "install"; "--frozen-lockfile"];
     PackageManagerPnpm := ["pnpm"; "install"; "--frozen-lockfile"] ]}.

(* Go: internal/controller/config.go mergeSetupCommands *)
Definition mergeSetupCommands (file : gmap string (list string)) : gmap string (list string) :=
  map_imap (λ pm fallback, Some (default fallback (file !! pm))) defaultSetupCommandFallbacks.

(* Go: internal/controller/config.go DefaultSetupCommand *)
Definition DefaultSetupCommand (c : OperatorConfig) (pm : string) : nilable (list string) :=
  cfg_DefaultSetupCommands c !! pm.

(* Go: internal/controller/config.go MetadataIP @557-559 *)
Definition MetadataIP : string := "169.254.169.254/32".

Section config.
Context `{GoRuntime} `{MapOrder} `{KubeLib}.

(** [for k, v := range m] of a check that returns its first error. *)
Fixpoint check_all {A} (f : A → result unit) (l : list A) : result unit :=
  match l with [] => Ok tt | x :: l' => f x ≫= λ _, check_all f l' end.

(* Go: internal/controller/config.go validateNodeImages @482-498 *)
Definition check_node_image (e : string * NodeImage) : result unit :=
  let '(major, ni) := e in
  match parse_int_ok major with
  | None => Err (errorf ("node-images: key " +:+ Quote major +:+ " is not a numeric node major"))
  | Some _ =>
      if String.eqb (ni_Image ni) "" then
        Err (errorf ("node-images: entry " +:+ Quote major +:+ " has an empty image"))
      else match ni_RunAsUser ni with
           | None => Err (errorf ("node-images: entry " +:+ Quote major +:+
               " must set runAsUser (the image's numeric non-root UID)"))
           | Some uid =>
               if uid <? 1 then
                 Err (errorf ("node-images: entry " +:+ Quote major +:+
                   " runAsUser must be >= 1 (non-root), got " +:+ Itoa uid))
               else Ok tt
           end
  end.
(* Go: internal/controller/config.go validateNodeImages *)
Definition validateNodeImages (m : gmap string NodeImage) : result unit :=
  check_all check_node_image (range_map m).

(* Go: internal/controller/config.go validateDefaultSetupCommands @534-547 *)
Definition check_setup_command (e : string * list string) : result unit :=
  let '(pm, argv) := e in
  if negb (bool_decide (is_Some (defaultSetupCommandFallbacks !! pm))) then
    Err (errorf ("defaultSetupCommands: key " +:+ Quote pm +:+
      " is not a known package manager (want one of yarn/pnpm)"))
  else match argv with
       | [] => Err (errorf ("defaultSetupCommands: entry " +:+ Quote pm +:+ " has an empty command"))
       | arg0 :: _ =>
           if String.eqb arg0 "" then
             Err (errorf ("defaultSetupCommands: entry " +:+ Quote pm +:+ " has an empty argv[0]"))
           else Ok tt
       end.
(* Go: internal/controller/config.go validateDefaultSetupCommands *)
Definition validateDefaultSetupCommands (m : gmap string (list string)) : result unit :=
  check_all check_setup_command (range_map m).

(* Go: internal/controller/config.go Validate *)
Definition Validate (c : OperatorConfig) : result unit :=
  match cfg_ClusterCIDRs c with
  | [] => Err (errorf ("cluster pod/service CIDRs are mandatory (build-pod egress cannot be" +:+
                       " locked down without them)"))
  | cidrs =>
      check_all (λ cidr,
        match ParseCIDR cidr with
        | Ok _ => Ok tt
        | Err e => Err (wrapf ("cluster CIDR " +:+ Quote cidr +:+ " is not valid CIDR notation: ") e)
        end) cidrs ;;
      match ParseCIDR MetadataIP with
      | Ok _ => Ok tt
      | Err e => Err (wrapf ("metadata CIDR " +:+ Quote MetadataIP +:+
                             " is not valid CIDR notation: ") e)
      end ;;
      if String.eqb (cfg_TraefikGroup c) "" then Err (errorf "traefik group must not be empty")
      else Ok tt
  end.

Definition zero_digest : string :=
  "@sha256:0000000000000000000000000000000000000000000000000000000000000000".
(* Go: internal/controller/config.go Defaults @608-635 *)
Definition default_images (i : PlatformImages) : PlatformImages :=
  let img n := "ghcr.io/toggle-corp/toggle-web-baker-" +:+ n +:+ zero_digest in
  MkPlatformImages (defaultStr (img_Clone i) (img "clone")) (defaultStr (img_Copier i) (img "copier"))
    (defaultStr (img_Du i) (img "du")) (defaultStr (img_Cleanup i) (img "cleanup"))
    (defaultStr (img_Clock i) (img "clock")) (defaultStr (img_Shim i) (img "shim"))
    (defaultStr (img_Nginx i) "docker.io/nginxinc/nginx-unprivileged:1.27-alpine").

(* Go: internal/controller/config.go Defaults *)
Definition default_zero (v def : Z) : Z := if v =? 0 then def else v.
(* Go: internal/controller/config.go Defaults *)
Definition Defaults (c : OperatorConfig) : OperatorConfig :=
  c <| cfg_TraefikGroup ::= λ g, defaultStr g "traefik.io" |>
    <| cfg_MeasureInterval ::= λ i, if i <=? 0 then Hour else i |>
    <| cfg_DefaultSchedule ::= λ s, defaultStr s "0 */12 * * *" |>
    <| cfg_DefaultWatchInterval ::= λ s, defaultStr s "10m" |>
    <| cfg_CloneRetries ::= λ n, default_zero n 3 |>
    <| cfg_HistoryKeepRecent ::= λ n, default_zero n 5 |>
    <| cfg_HistoryKeepFailed ::= λ n, default_zero n 10 |>
    <| cfg_ScheduledAlertThreshold ::= λ n, default_zero n 3 |>
    <| cfg_Images ::= default_images |>.

(** ** LoadConfig *)
Definition guard_err (bad : bool) (msg : string) : result unit :=
  if bad then Err (errorf msg) else Ok tt.

(* Go: internal/controller/config.go LoadConfig @318-338 *)
Definition parse_quantity (name raw : string) : result Quantity :=
  match ParseQuantity raw with
  | Ok q => Ok q
  | Err e => Err (wrapf (name +:+ " " +:+ Quote raw +:+ " is not a valid resource quantity: ") e)
  end.

(* Go: internal/controller/config.go LoadConfig @318-338 *)
Definition load_quantities (f : filePhaseResources) : result PhaseResourceDefaults :=
  cpuReq ← parse_quantity "phaseResources.cpu.request" (fpc_Request (fpr_CPU f));
  cpuLim ← parse_quantity "phaseResources.cpu.limit" (fpc_Limit (fpr_CPU f));
  mSetup ← parse_quantity "phaseResources.memory.setup" (fpm_Setup (fpr_Memory f));
  mFetch ← parse_quantity "phaseResources.memory.fetch" (fpm_Fetch (fpr_Memory f));
  mBuild ← parse_quantity "phaseResources.memory.build" (fpm_Build (fpr_Memory f));
  mret (MkPhaseResourceDefaults cpuReq cpuLim mSetup mFetch mBuild).

(* Go: internal/controller/config.go LoadConfig @298-316 *)
Definition load_intervals (fc : FileConfig) : result (Z * string * string) :=
  interval ← (if String.eqb (fc_MeasureInterval fc) "" then Ok Hour
              else match ParseDuration (fc_MeasureInterval fc) with
                   | Some d => Ok d
                   | None => Err (errorf ("measureInterval " +:+ Quote (fc_MeasureInterval fc) +:+
                       " is not a valid duration: " +:+ duration_error_text (fc_MeasureInterval fc)))
                   end);
  let defaultSchedule := defaultStr (fc_DefaultSchedule fc) "0 */12 * * *" in
  match cron_ParseStandard defaultSchedule with
  | Ok _ => Ok tt
  | Err e => Err (wrapf ("defaultSchedule " +:+ Quote (fc_DefaultSchedule fc) +:+
                         " is not a valid cron expression: ") e)
  end ;;
  let defaultWatch := defaultStr (fc_DefaultWatchInterval fc) "10m" in
  match WatchCron defaultWatch with
  | Ok _ => Ok tt
  | Err e => Err (wrapf "defaultWatchInterval: " e)
  end ;;
  mret (interval, defaultSchedule, defaultWatch).

(* Go: internal/controller/config.go LoadConfig @372-381 *)
Definition check_git_auth (g : fileGitAuth) : result unit :=
  let has_name := negb (String.eqb (fga_SecretName g) "") in
  let has_hosts := match fga_Hosts g with [] => false | _ => true end in
  guard_err (has_name && negb has_hosts)
    ("gitAuth.secretName is set but gitAuth.hosts is empty (host allowlist is mandatory to" +:+
     " avoid credential forwarding)") ;;
  guard_err (negb has_name && has_hosts)
    "gitAuth.hosts is set but gitAuth.secretName is empty (no credential to forward)".

(* Go: internal/controller/config.go LoadConfig @340-443 *)
Definition platform_images (f : fileImages) : PlatformImages :=
  MkPlatformImages (fi_Clone f) (fi_Copier f) (fi_Du f) (fi_Cleanup f) (fi_Clock f)
    (fi_Shim f) (fi_Nginx f).

(* Go: internal/controller/config.go LoadConfig @340-443 *)
Definition load_decoded (fc : FileConfig) : result (OperatorConfig * ManagerOptions) :=
  '(interval, defaultSchedule, defaultWatch) ← load_intervals fc;
  prd ← load_quantities (fc_PhaseResources fc);
  guard_err (fc_ActiveDeadlineSeconds fc <=? 0)
    ("activeDeadlineSeconds must be > 0, got " +:+ Itoa (fc_ActiveDeadlineSeconds fc)) ;;
  let cloneRetries := defaultInt (fc_CloneRetries fc) 3 in
  guard_err (cloneRetries <? 1) ("cloneRetries must be >= 1, got " +:+ Itoa cloneRetries) ;;
  let cloneRetryBaseDelay := defaultInt (fc_CloneRetryBaseDelay fc) 2 in
  guard_err (cloneRetryBaseDelay <? 0)
    ("cloneRetryBaseDelay must be >= 0, got " +:+ Itoa cloneRetryBaseDelay) ;;
  let historyKeepRecent := defaultInt (fc_HistoryKeepRecent fc) DefaultHistoryKeepRecent in
  guard_err ((historyKeepRecent <? 1) || (50 <? historyKeepRecent))
    ("historyKeepRecent must be in 1..50, got " +:+ Itoa historyKeepRecent) ;;
  let historyKeepFailed := defaultInt (fc_HistoryKeepFailed fc) DefaultHistoryKeepFailed in
  guard_err ((historyKeepFailed <? 1) || (50 <? historyKeepFailed))
    ("historyKeepFailed must be in 1..50, got " +:+ Itoa historyKeepFailed) ;;
  let threshold := defaultInt (fc_ScheduledAlertThreshold fc) DefaultScheduledAlertThreshold in
  guard_err (threshold <? 1) ("scheduledAlertThreshold must be >= 1, got " +:+ Itoa threshold) ;;
  check_git_auth (fc_GitAuth fc) ;;
  validateDefaultSetupCommands (fc_DefaultSetupCommands fc) ;;
  let cfg := Defaults
    (MkOperatorConfig (fc_RegistryAllowlist fc) (fc_ClusterCIDRs fc) (fc_TraefikGroup fc)
       (fc_ImagePullSecret fc) interval defaultSchedule defaultWatch
       (platform_images (fc_Images fc)) (fc_NodeImages fc)
       (mergeSetupCommands (fc_DefaultSetupCommands fc)) prd (fc_ActiveDeadlineSeconds fc)
       (MkGitAuth (fga_SecretName (fc_GitAuth fc)) (fga_Hosts (fc_GitAuth fc)))
       cloneRetries cloneRetryBaseDelay historyKeepRecent historyKeepFailed threshold) in
  Validate cfg ;;
  validateNodeImages (cfg_NodeImages cfg) ;;
  mret (cfg, MkManagerOptions (defaultStr (fc_MetricsBindAddress fc) ":8080")
               (defaultStr (fc_HealthProbeBindAddress fc) ":8081")
               (match fc_LeaderElect fc with None => true | Some b => b end)
               (fc_StorageClass fc) (defaultStr (fc_TraefikNamespace fc) "traefik")).

(** [readFile] is [os.ReadFile], [unmarshal] is sigs.k8s.io/yaml's decoder. *)
(* Go: internal/controller/config.go LoadConfig @283-297 *)
Definition LoadConfig (readFile : string → result string)
    (unmarshal : string → result FileConfig) (path : string)
    : result (OperatorConfig * ManagerOptions) :=
  match readFile path with
  | Err e => Err (wrapf ("read operator config " +:+ Quote path +:+ ": ") e)
  | Ok raw =>
      match unmarshal raw with
      | Err e => Err (wrapf ("parse operator config " +:+ Quote path +:+ ": ") e)
      | Ok fc => load_decoded fc
      end
  end.
End config.

(** ** What the start-up checks decide *)
Section facts.
Context `{GoRuntime} `{MapOrder} `{KubeLib}.

Lemma check_all_ok {A} (f : A → result unit) l :
  check_all f l = Ok tt ↔ ∀ x, x ∈ l → f x = Ok tt.
Proof.
  induction l as [|x l IH]; cbn; [split; [intros _ ? []%not_elem_of_nil | done]|].
  rewrite bind_ok. split.
  - intros ([] & Hx & Hl) y [->|?]%elem_of_cons; [done|]. by apply (proj1 IH).
  - intros Hall. exists tt. split; [apply Hall; by left | apply IH; intros; apply Hall; by right].
Qed.

Lemma guard_err_ok b msg : guard_err b msg = Ok tt ↔ b = false.
Proof. by destruct b. Qed.

Lemma unit_bind_ok {A} (m : result unit) (k : result A) y :
  (m ;; k) = Ok y ↔ m = Ok tt ∧ k = Ok y.
Proof. rewrite bind_ok. split; [intros ([] & ? & ?); done | intros []; by exists tt]. Qed.

Lemma is_ok_unit_bind {A} (m : result unit) (k : result A) :
  is_ok (m ;; k) = true ↔ m = Ok tt ∧ is_ok k = true.
Proof. destruct m as [[]|]; cbn; naive_solver. Qed.

Lemma wrap_ok {A} (m : result A) (f : error → error) :
  (match m with Ok _ => Ok tt | Err e => Err (f e) end = Ok tt) ↔ is_ok m = true.
Proof. by destruct m. Qed.

(** An entry of the managed node-image table that passes. *)
Definition node_entry_ok (major : string) (ni : NodeImage) : Prop :=
  is_Some (parse_int_ok major) ∧ node_image_ok ni.

Lemma validateNodeImages_ok m :
  validateNodeImages m = Ok tt ↔ map_Forall node_entry_ok m.
Proof.
  unfold validateNodeImages. rewrite check_all_ok. unfold map_Forall.
  assert (Hone : ∀ k ni, check_node_image (k, ni) = Ok tt ↔ node_entry_ok k ni).
  { intros k ni. unfold check_node_image, node_entry_ok, node_image_ok.
    destruct (parse_int_ok k); [|naive_solver].
    destruct (String.eqb_spec (ni_Image ni) ""); [naive_solver|].
    destruct (ni_RunAsUser ni) as [uid|]; [|naive_solver].
    destruct (uid <? 1) eqn:E; breflect.
    - split; [done|]. intros (_ & _ & u & [= <-] & ?). lia.
    - split; [|done]. intros _. split; [by eexists|]. split; [done|]. eauto with lia. }
  split; [intros Hall k ni Hk | intros Hall [k ni] Hk].
  - apply Hone, Hall. by apply range_map_elem.
  - apply Hone, Hall. by apply range_map_elem.
Qed.

(** A default install command that passes. *)
Definition setup_entry_ok (pm : string) (argv : list string) : Prop :=
  (pm = PackageManagerYarn ∨ pm = PackageManagerPnpm) ∧ ∃ a rest, argv = a :: rest ∧ a ≠ "".

Lemma known_package_manager pm :
  is_Some (defaultSetupCommandFallbacks !! pm) ↔ pm = PackageManagerYarn ∨ pm = PackageManagerPnpm.
Proof.
  unfold defaultSetupCommandFallbacks. rewrite lookup_insert_is_Some, lookup_singleton_is_Some.
  destruct (decide (pm = PackageManagerYarn)); naive_solver.
Qed.

Lemma validateDefaultSetupCommands_ok m :
  validateDefaultSetupCommands m = Ok tt ↔ map_Forall setup_entry_ok m.
Proof.
  unfold validateDefaultSetupCommands. rewrite check_all_ok. unfold map_Forall.
  assert (Hone : ∀ k a, check_setup_command (k, a) = Ok tt ↔ setup_entry_ok k a).
  { intros k a. unfold check_setup_command, setup_entry_ok. rewrite <- known_package_manager.
    case_bool_decide as Hk; cbn [negb]; [|naive_solver].
    destruct a as [|a rest]; [naive_solver|].
    destruct (String.eqb_spec a ""); naive_solver. }
  split; [intros Hall k ni Hk | intros Hall [k ni] Hk]; apply Hone, Hall; by apply range_map_elem.
Qed.

Lemma Validate_ok c : Validate c = Ok tt ↔
  cfg_ClusterCIDRs c ≠ [] ∧ Forall (λ s, cidr_ok s = true) (cfg_ClusterCIDRs c) ∧
  cfg_TraefikGroup c ≠ "".
Proof.
  unfold Validate. destruct (cfg_ClusterCIDRs c) as [|x l] eqn:El; [naive_solver|].
  rewrite !unit_bind_ok, check_all_ok, Forall_forall.
  assert (Hc : ∀ s, is_ok (ParseCIDR s) = cidr_ok s).
  { intros s. unfold ParseCIDR. by destruct (cidr_ok s). }
  setoid_rewrite wrap_ok. setoid_rewrite Hc.
  assert (cidr_ok MetadataIP = true) by (vm_compute; reflexivity).
  destruct (String.eqb_spec (cfg_TraefikGroup c) ""); naive_solver.
Qed.

(** ** The start-up contract *)
Definition quantities_ok (f : filePhaseResources) : Prop :=
  Forall (λ raw, is_ok (ParseQuantity raw) = true)
    [fpc_Request (fpr_CPU f); fpc_Limit (fpr_CPU f); fpm_Setup (fpr_Memory f);
     fpm_Fetch (fpr_Memory f); fpm_Build (fpr_Memory f)].

(** The decoded files the operator starts with. *)
Definition file_ok (fc : FileConfig) : Prop :=
  (fc_MeasureInterval fc = "" ∨ is_Some (ParseDuration (fc_MeasureInterval fc))) ∧
  is_ok (cron_ParseStandard (defaultStr (fc_DefaultSchedule fc) "0 */12 * * *")) = true ∧
  is_ok (WatchCron (defaultStr (fc_DefaultWatchInterval fc) "10m")) = true ∧
  quantities_ok (fc_PhaseResources fc) ∧
  0 < fc_ActiveDeadlineSeconds fc ∧
  1 ≤ default 3 (fc_CloneRetries fc) ∧ 0 ≤ default 2 (fc_CloneRetryBaseDelay fc) ∧
  1 ≤ default 5 (fc_HistoryKeepRecent fc) ≤ 50 ∧
  1 ≤ default 10 (fc_HistoryKeepFailed fc) ≤ 50 ∧
  1 ≤ default 3 (fc_ScheduledAlertThreshold fc) ∧
  (fga_SecretName (fc_GitAuth fc) = "" ↔ fga_Hosts (fc_GitAuth fc) = []) ∧
  map_Forall setup_entry_ok (fc_DefaultSetupCommands fc) ∧
  fc_ClusterCIDRs fc ≠ [] ∧ Forall (λ c, cidr_ok c = true) (fc_ClusterCIDRs fc) ∧
  map_Forall node_entry_ok (fc_NodeImages fc).

Lemma parse_quantity_ok name raw q : parse_quantity name raw = Ok q ↔ ParseQuantity raw = Ok q.
Proof. unfold parse_quantity. destruct (ParseQuantity raw); naive_solver. Qed.

Lemma load_quantities_ok f p : load_quantities f = Ok p ↔
  ParseQuantity (fpc_Request (fpr_CPU f)) = Ok (prd_CPURequest p) ∧
  ParseQuantity (fpc_Limit (fpr_CPU f)) = Ok (prd_CPULimit p) ∧
  ParseQuantity (fpm_Setup (fpr_Memory f)) = Ok (prd_MemorySetup p) ∧
  ParseQuantity (fpm_Fetch (fpr_Memory f)) = Ok (prd_MemoryFetch p) ∧
  ParseQuantity (fpm_Build (fpr_Memory f)) = Ok (prd_MemoryBuild p).
Proof.
  unfold load_quantities. repeat setoid_rewrite bind_ok. repeat setoid_rewrite parse_quantity_ok.
  split.
  - intros (a & ? & b & ? & c & ? & d & ? & e & ? & [= <-]). done.
  - intros (? & ? & ? & ? & ?). repeat (eexists; split; [eassumption|]). by destruct p.
Qed.

Lemma quantities_ok_iff f : quantities_ok f ↔ ∃ p, load_quantities f = Ok p.
Proof.
  unfold quantities_ok. repeat rewrite Forall_cons. setoid_rewrite load_quantities_ok. split.
  - intros (I1 & I2 & I3 & I4 & I5 & _).
    destruct (ParseQuantity (fpc_Request _)) as [q1|], (ParseQuantity (fpc_Limit _)) as [q2|],
      (ParseQuantity (fpm_Setup _)) as [q3|], (ParseQuantity (fpm_Fetch _)) as [q4|],
      (ParseQuantity (fpm_Build _)) as [q5|]; try done.
    by exists (MkPhaseResourceDefaults q1 q2 q3 q4 q5).
  - intros (p & -> & -> & -> & -> & ->). done.
Qed.

Lemma load_intervals_ok fc r : load_intervals fc = Ok r ↔
  (fc_MeasureInterval fc = "" ∧ r.1.1 = Hour ∨
   fc_MeasureInterval fc ≠ "" ∧ ParseDuration (fc_MeasureInterval fc) = Some r.1.1) ∧
  is_ok (cron_ParseStandard (defaultStr (fc_DefaultSchedule fc) "0 */12 * * *")) = true ∧
  is_ok (WatchCron (defaultStr (fc_DefaultWatchInterval fc) "10m")) = true ∧
  r.1.2 = defaultStr (fc_DefaultSchedule fc) "0 */12 * * *" ∧
  r.2 = defaultStr (fc_DefaultWatchInterval fc) "10m".
Proof.
  unfold load_intervals. destruct r as [[i s] w]. cbn [fst snd]. rewrite bind_ok.
  setoid_rewrite unit_bind_ok. setoid_rewrite wrap_ok.
  setoid_rewrite unit_bind_ok. setoid_rewrite wrap_ok.
  destruct (String.eqb_spec (fc_MeasureInterval fc) "") as [Ee|Ee];
    [|destruct (ParseDuration (fc_MeasureInterval fc)) as [d|]].
  - split; [intros (x & [= <-] & ? & ? & [= <- <- <-]); auto 10|].
    intros ([[_ ->]|[? _]] & ? & ? & -> & ->); [|done]. by exists Hour.
  - split; [intros (x & [= <-] & ? & ? & [= <- <- <-]); auto 10|].
    intros ([[? _]|[_ [= ->]]] & ? & ? & -> & ->); [done|]. by exists i.
  - split; [intros (x & [=] & _)|]. intros ([[? _]|[_ [=]]] & _). done.
Qed.

Lemma check_git_auth_ok g :
  check_git_auth g = Ok tt ↔ (fga_SecretName g = "" ↔ fga_Hosts g = []).
Proof.
  unfold check_git_auth. rewrite unit_bind_ok, !guard_err_ok.
  destruct (String.eqb_spec (fga_SecretName g) ""), (fga_Hosts g); naive_solver.
Qed.

Lemma defaultStr_nonempty v d : d ≠ "" → defaultStr v d ≠ "".
Proof. unfold defaultStr. by destruct (String.eqb_spec v ""). Qed.
Lemma Defaults_group c : cfg_TraefikGroup (Defaults c) ≠ "".
Proof. by apply defaultStr_nonempty. Qed.

(** What [load_decoded] returns, field by field where the theorems need it. *)
Lemma load_decoded_ok fc r : load_decoded fc = Ok r →
  ∃ interval prd, load_intervals fc = Ok (interval, defaultStr (fc_DefaultSchedule fc) "0 */12 * * *",
      defaultStr (fc_DefaultWatchInterval fc) "10m") ∧
    load_quantities (fc_PhaseResources fc) = Ok prd ∧ file_ok fc ∧
    r.1 = Defaults
      (MkOperatorConfig (fc_RegistryAllowlist fc) (fc_ClusterCIDRs fc) (fc_TraefikGroup fc)
         (fc_ImagePullSecret fc) interval (defaultStr (fc_DefaultSchedule fc) "0 */12 * * *")
         (defaultStr (fc_DefaultWatchInterval fc) "10m")
         (platform_images (fc_Images fc)) (fc_NodeImages fc)
         (mergeSetupCommands (fc_DefaultSetupCommands fc)) prd (fc_ActiveDeadlineSeconds fc)
         (MkGitAuth (fga_SecretName (fc_GitAuth fc)) (fga_Hosts (fc_GitAuth fc)))
         (default 3 (fc_CloneRetries fc)) (default 2 (fc_CloneRetryBaseDelay fc))
         (default 5 (fc_HistoryKeepRecent fc)) (default 10 (fc_HistoryKeepFailed fc))
         (default 3 (fc_ScheduledAlertThreshold fc))).
Proof.
  unfold load_decoded. rewrite bind_ok. intros ([[i s] w] & Hi & E).
  rewrite bind_ok in E. destruct E as (prd & Hq & E).
  rewrite !unit_bind_ok, !guard_err_ok, check_git_auth_ok, validateDefaultSetupCommands_ok,
    Validate_ok, validateNodeImages_ok in E.
  destruct E as (E1 & E2 & E3 & E4 & E5 & E6 & E7 & E8 & (E9 & E10 & _) & E11 & E12).
  pose proof Hi as Hi'. rewrite load_intervals_ok in Hi'. cbn [fst snd] in Hi'.
  destruct Hi' as (Hint & Hcron & Hwatch & -> & ->).
  exists i, prd. split; [done|]. split; [done|].
  assert (quantities_ok (fc_PhaseResources fc)) by (apply quantities_ok_iff; eauto).
  split; [|by injection E12 as <-]. unfold defaultInt in *.
  breflect. unfold file_ok. split_and!; try done; naive_solver.
Qed.

(** The operator starts with exactly the files that meet every start-up
    condition: parseable intervals, cron schedule, watch interval and resource
    quantities, a positive deadline, retry and history bounds, a gitAuth block
    with both fields or none, well-formed install commands, at least one cluster
    CIDR with all of them valid, and non-root node images with numeric keys. *)
Theorem load_decoded_accepts fc : is_ok (load_decoded fc) = true ↔ file_ok fc.
Proof.
  split.
  - destruct (load_decoded fc) as [r|e] eqn:E; [|done]. intros _.
    by apply load_decoded_ok in E as (? & ? & ? & ? & ? & _).
  - intros (I1 & I2 & I3 & I4 & I5 & I6 & I7 & I8 & I9 & I10 & I11 & I12 & I13 & I14 & I15).
    assert (∃ i, load_intervals fc = Ok (i, defaultStr (fc_DefaultSchedule fc) "0 */12 * * *",
      defaultStr (fc_DefaultWatchInterval fc) "10m")) as [i Hi].
    { setoid_rewrite load_intervals_ok. cbn [fst snd].
      destruct (decide (fc_MeasureInterval fc = "")); [by exists Hour; naive_solver|].
      destruct I1 as [?|[d Hd]]; [done|]. exists d. naive_solver. }
    apply quantities_ok_iff in I4 as [prd Hq].
    unfold load_decoded. rewrite Hi. cbn [mbind result_bind]. rewrite Hq. cbn [mbind result_bind].
    unfold defaultInt, DefaultHistoryKeepRecent, DefaultHistoryKeepFailed,
      DefaultScheduledAlertThreshold.
    rewrite !is_ok_unit_bind, !guard_err_ok, check_git_auth_ok, validateDefaultSetupCommands_ok,
      Validate_ok, validateNodeImages_ok, !orb_false_iff, !Z.ltb_ge, Z.leb_gt.
    split_and!; try lia; try done. apply Defaults_group.
Qed.

(** What the reconciler may rely on in a loaded configuration. *)
Definition config_ok (c : OperatorConfig) : Prop :=
  Validate c = Ok tt ∧
  map_Forall (λ _ ni, node_image_ok ni) (cfg_NodeImages c) ∧
  (∀ pm, pm = PackageManagerYarn ∨ pm = PackageManagerPnpm →
    ∃ a rest, DefaultSetupCommand c pm = Some (a :: rest) ∧ a ≠ "") ∧
  0 < cfg_ActiveDeadlineSeconds c ∧ 1 ≤ cfg_CloneRetries c ∧ 0 < cfg_MeasureInterval c ∧
  1 ≤ cfg_HistoryKeepRecent c ≤ 50 ∧ 1 ≤ cfg_HistoryKeepFailed c ≤ 50 ∧
  1 ≤ cfg_ScheduledAlertThreshold c ∧
  is_ok (WatchCron (cfg_DefaultWatchInterval c)) = true ∧
  (Enabled (cfg_GitAuth c) = true → ga_Hosts (cfg_GitAuth c) ≠ []).

Lemma mergeSetupCommands_known m pm :
  map_Forall setup_entry_ok m → pm = PackageManagerYarn ∨ pm = PackageManagerPnpm →
  ∃ a rest, mergeSetupCommands m !! pm = Some (a :: rest) ∧ a ≠ "".
Proof.
  intros Hm Hpm. unfold mergeSetupCommands. rewrite map_lookup_imap.
  assert (∃ b rest, defaultSetupCommandFallbacks !! pm = Some (b :: rest) ∧ b ≠ "")
    as (b & rest & -> & Hb).
  { destruct Hpm as [-> | ->]; eexists _, _; (split; [vm_compute; reflexivity | done]). }
  cbn [mbind option_bind]. destruct (m !! pm) as [argv|] eqn:E; cbn [default id].
  - destruct (Hm _ _ E) as (_ & a & r & -> & Ha). eauto.
  - eauto.
Qed.

Lemma defaultStr_defaultStr v d : defaultStr (defaultStr v d) d = defaultStr v d.
Proof. unfold defaultStr. destruct (String.eqb_spec v "") as [->|]; [by destruct (d =? "")%string|].
  by destruct (String.eqb_spec v ""). Qed.

Lemma load_decoded_invariant fc cfg mgr : load_decoded fc = Ok (cfg, mgr) → config_ok cfg.
Proof.
  intros E. apply load_decoded_ok in E as (i & prd & Hi & _ & Hf & Hc). cbn [fst] in Hc. subst cfg.
  destruct Hf as (_ & _ & Hw & _ & Hd & Hr & _ & Hk & Hkf & Hs & Hg & Hsc & Hne & Hcidr & Hni).
  unfold config_ok. rewrite Validate_ok. cbn. unfold default_zero.
  repeat match goal with |- context [?x =? 0] => rewrite (proj2 (Z.eqb_neq x 0)) by lia end.
  split_and!; try done; try lia.
  - by apply defaultStr_nonempty.
  - eapply map_Forall_impl; [exact Hni|]. by intros k ni [_ ?].
  - intros pm Hpm. by apply mergeSetupCommands_known.
  - destruct (i <=? 0) eqn:Ei; breflect; [unfold Hour, Minute, Second; lia | lia].
  - by rewrite defaultStr_defaultStr.
  - unfold Enabled. cbn. intros Hn%negb_true_iff. breflect. naive_solver.
Qed.

(** Every configuration the operator starts with satisfies what the
    reconciler relies on: the per-reconcile validation cannot fail, managed node
    images are non-root, both package managers have a non-empty install command,
    the deadline, retries, measure interval, history bounds and alert threshold
    are in range, the default watch interval has a cron form, and an enabled git
    credential comes with a host allowlist. *)
Theorem load_decoded_config_ok fc cfg mgr : load_decoded fc = Ok (cfg, mgr) → config_ok cfg.
Proof. apply load_decoded_invariant. Qed.
End facts.

(** A parser that accepts every text, for the witnesses. *)
Definition any_quantity : KubeLib :=
  {| ParseQuantity s := Ok (MkQuantity s); q_Value _ := 1; cron_ParseStandard _ := Ok tt |}.

Definition sample_file : FileConfig :=
  MkFileConfig "" "" None ["ghcr.io/org/"] ["10.42.0.0/16"; "10.43.0.0/16"] "" "" "" "local-path"
    "" "" "" (MkFileImages "" "" "" "" "" "" "")
    {["24" := MkNodeImage "node@sha256:00" (Some 1000) ""]} ∅
    (MkFilePhaseResources (MkFilePhaseCPU "100m" "2") (MkFilePhaseMemory "2Gi" "1Gi" "4Gi"))
    3600 None None None None None (MkFileGitAuth "git-credential" ["github.com"]).

Definition sample_config : OperatorConfig :=
  match load_decoded (H := ascii_only_tables) (H0 := some_order) (H1 := any_quantity) sample_file with
  | Ok (c, _) => c
  | Err _ => MkOperatorConfig [] [] "" "" 0 "" "" (MkPlatformImages "" "" "" "" "" "" "") ∅ ∅
      (MkPhaseResourceDefaults (MkQuantity "") (MkQuantity "") (MkQuantity "") (MkQuantity "")
         (MkQuantity "")) 0 (MkGitAuth "" []) 0 0 0 0 0
  end.

Lemma sample_config_ok : config_ok (H := ascii_only_tables) sample_config.
Proof.
  apply (load_decoded_invariant (H := ascii_only_tables) (H0 := some_order) (H1 := any_quantity)
    sample_file _ (MkManagerOptions ":8080" ":8081" true "local-path" "traefik")).
  vm_compute. reflexivity.
Qed.

Lemma load_decoded_config_ok_witness :
  cfg_ActiveDeadlineSeconds sample_config = 3600 ∧
  config_ok (H := ascii_only_tables) sample_config.
Proof.
  split; [vm_compute; reflexivity|].
  apply (load_decoded_config_ok (H := ascii_only_tables) (H0 := some_order) (H1 := any_quantity)
    sample_file sample_config (MkManagerOptions ":8080" ":8081" true "local-path" "traefik")).
  vm_compute. reflexivity.
Defined.
