(* ===== verification/BuildSteps.v ===== *)
(** internal/controller/buildsteps.go, termination.go and platformfault.go: the
    per-step timeline of a build, its history, and how a failure is attributed. *)
From Stdlib Require Import ZArith Ascii String.
From stdpp Require Import base gmap strings list numbers sorting.
From S2P Require Import Prelude GoStd GoNum WatchSchedule BuildSpec RepoHost AppTypes Kube Config.

Open Scope string_scope.
Open Scope list_scope.
Open Scope Z_scope.

(** ** buildsteps.go: which steps apply *)
(** [len(x)] of a nilable slice. *)
Definition nlen {A} (l : nilable (list A)) : Z := Z.of_nat (length (default [] l)).

(* Go: internal/controller/buildsteps.go phaseConfigured *)
Definition phaseConfigured (p : ApiPhaseSpec) : bool :=
  negb (String.eqb (aps_Image p) "") || (0 <? nlen (aps_Command p)).

(* Go: internal/controller/buildsteps.go setupRuns *)
Definition setupRuns (app : App) : bool :=
  let setup := app_Setup app in
  if sps_Skip setup then false
  else phaseConfigured (sps_PhaseSpec setup) || negb (pl_NodeVersion (app_Pipeline app) =? 0).

(* Go: internal/controller/buildsteps.go effectiveSetup *)
Definition effectiveSetup (app : App) (cfg : OperatorConfig) : ApiPhaseSpec * bool :=
  if negb (setupRuns app) then (zero_phase, false)
  else
    let setup := sps_PhaseSpec (app_Setup app) in
    if phaseConfigured setup then (setup, true)
    else (setup <| aps_Command :=
            DefaultSetupCommand cfg (pl_PackageManager (app_Pipeline app)) |>, true).

(* Go: internal/controller/buildsteps.go applicableSteps *)
Definition applicableSteps (app : App) : list string :=
  [StepClone]
  ++ (if setupRuns app then [StepSetup] else [])
  ++ (if phaseConfigured (fps_PhaseSpec (app_Fetch app)) then [StepFetch] else [])
  ++ [StepBuild; StepCopier; StepRelease].

(** ** The timeline *)
(* Go: internal/controller/buildsteps.go containerStepStatus *)
Definition containerStepStatus (cs : option ContainerStatus) : string :=
  match cs with
  | None => StepStatusPending
  | Some cs =>
      match cst_Terminated cs with
      | Some t => if t_ExitCode t =? 0 then StepStatusSucceeded else StepStatusFailed
      | None => match cst_Running cs with
                | Some _ => StepStatusRunning
                | None => StepStatusPending
                end
      end
  end.

(* Go: internal/controller/buildsteps.go deriveBuildSteps *)
Definition new_step (name status : string) : BuildStep := MkBuildStep name status "" 0 None None "".

(* Go: internal/controller/buildsteps.go allSucceeded *)
Definition allSucceeded (applicable : list string) : list BuildStep :=
  map (λ name, new_step name StepStatusSucceeded) applicable.

(* Go: internal/controller/buildsteps.go findContainerStatus *)
Definition findContainerStatus (statuses : list ContainerStatus) (name : string)
    : option ContainerStatus :=
  List.find (λ cs, String.eqb (cst_Name cs) name) statuses.

(* Go: internal/controller/buildsteps.go containerRan *)
Definition containerRan (cs : option ContainerStatus) : bool :=
  match cs with
  | None => false
  | Some cs => bool_decide (is_Some (cst_Running cs)) || bool_decide (is_Some (cst_Terminated cs))
  end.

(** [if !t.IsZero() { p = t.DeepCopy() }] *)
(* Go: internal/controller/buildsteps.go stampStepTimes *)
Definition stamp (t : Time) (p : option Time) : option Time := if IsZero t then p else Some t.

(* Go: internal/controller/buildsteps.go stampStepTimes *)
Definition stampStepTimes (step : BuildStep) (cs : option ContainerStatus) : BuildStep :=
  match cs with
  | None => step
  | Some cs =>
      match cst_Terminated cs with
      | Some t => step <| st_StartedAt ::= stamp (t_StartedAt t) |>
                       <| st_FinishedAt ::= stamp (t_FinishedAt t) |>
      | None => match cst_Running cs with
                | Some started => step <| st_StartedAt ::= stamp started |>
                | None => step
                end
      end
  end.

(* Go: internal/controller/buildsteps.go peakMemoryKey @334-336 *)
Definition peakMemoryKey : string := "peakMemoryBytes=".
Definition newline : ascii := chr 10.

(* Go: internal/controller/buildsteps.go parsePeakMemory *)
Fixpoint peak_lines (lines : list string) : Z :=
  match lines with
  | [] => 0
  | line :: rest =>
      let '(val, found) := CutPrefix (TrimSpace line) peakMemoryKey in
      if negb found then peak_lines rest
      else match ParseInt (TrimSpace val) with
           | (n, None) => if n <? 0 then 0 else n
           | (_, Some _) => 0
           end
  end.
(* Go: internal/controller/buildsteps.go parsePeakMemory *)
Definition parsePeakMemory (msg : string) : Z := peak_lines (SplitByte msg newline).

(** ** termination.go *)
(** The first container of that name decides, with or without a limit. *)
(* Go: internal/controller/termination.go containerMemoryLimit *)
Fixpoint limit_in (l : list Container) (name : string) : option string :=
  match l with
  | [] => None
  | c :: l' =>
      if negb (String.eqb (k_Name c) name) then limit_in l' name
      else Some (match rr_Limits (k_Resources c) !! "memory" with
                 | Some q => q_String q
                 | None => ""
                 end)
  end.
(* Go: internal/controller/termination.go containerMemoryLimit *)
Definition containerMemoryLimit (pod : Pod) (name : string) : string :=
  match limit_in (p_InitContainers (pod_Spec pod)) name with
  | Some s => s
  | None => default "" (limit_in (p_Containers (pod_Spec pod)) name)
  end.

(** What a step reads off its container. *)
(* Go: internal/controller/buildsteps.go deriveBuildSteps *)
Definition step_from (step : BuildStep) (pod : Pod) (cs : option ContainerStatus) : BuildStep :=
  let step1 := stampStepTimes (step <| st_Status := containerStepStatus cs |>) cs in
  if containerRan cs
  then step1 <| st_MemoryLimit := containerMemoryLimit pod (st_Name step) |> else step1.

(* Go: internal/controller/buildsteps.go deriveBuildSteps *)
Definition deriveBuildSteps (applicable : list string) (pod : option Pod) (releaseDone : bool)
    : list BuildStep :=
  map (λ name,
    let step := new_step name StepStatusPending in
    if String.eqb name StepRelease then
      if releaseDone then step <| st_Status := StepStatusSucceeded |> else step
    else if String.eqb name StepCopier then
      match pod with
      | None => step
      | Some pod => step_from step pod (findContainerStatus (pod_ContainerStatuses pod) name)
      end
    else match pod with
         | None => step
         | Some pod =>
             let cs := findContainerStatus (pod_InitContainerStatuses pod) name in
             let step1 := step_from step pod cs in
             match cs ≫= cst_Terminated with
             | Some t => step1 <| st_PeakMemoryBytes := parsePeakMemory (t_Message t) |>
             | None => step1
             end
         end) applicable.

(* Go: internal/controller/buildsteps.go failedStep *)
Definition failedStep (steps : list BuildStep) : string :=
  match List.find (λ s, String.eqb (st_Status s) StepStatusFailed ||
                        String.eqb (st_Status s) StepStatusAborted) steps with
  | Some s => st_Name s
  | None => ""
  end.

(* Go: internal/controller/termination.go detectTermination *)
Definition detectTermination (pod : option Pod) (failedStepName : string)
    : option BuildTermination :=
  match pod with
  | None => None
  | Some pod =>
      if String.eqb failedStepName "" || String.eqb failedStepName StepRelease then None
      else
        let statuses := if String.eqb failedStepName StepCopier
                        then pod_ContainerStatuses pod else pod_InitContainerStatuses pod in
        match findContainerStatus statuses failedStepName ≫= cst_Terminated with
        | None => None
        | Some t =>
            Some (MkBuildTermination (t_Reason t) failedStepName (t_ExitCode t)
                    (containerMemoryLimit pod failedStepName) (stamp (t_FinishedAt t) None))
        end
  end.

(* Go: internal/controller/termination.go stampStepMessage *)
Fixpoint stampStepMessage (steps : list BuildStep) (name msg : string) : list BuildStep :=
  match steps with
  | [] => []
  | s :: rest => if String.eqb (st_Name s) name then s <| st_Message := msg |> :: rest
                 else s :: stampStepMessage rest name msg
  end.

(* Go: internal/controller/termination.go terminationStepMessage *)
Definition terminationStepMessage (t : option BuildTermination) : string :=
  match t with
  | None => ""
  | Some t =>
      if String.eqb (bt_Reason t) "" then ""
      else if negb (String.eqb (bt_MemoryLimit t) "")
      then bt_Reason t +:+ " (limit " +:+ bt_MemoryLimit t +:+ ")"
      else bt_Reason t
  end.

(* Go: internal/controller/termination.go oomConditionMessage *)
Definition oomConditionMessage (t : BuildTermination) : string :=
  if negb (String.eqb (bt_MemoryLimit t) "")
  then "the " +:+ bt_Container t +:+ " step exceeded its " +:+ bt_MemoryLimit t +:+ " memory limit"
  else "the " +:+ bt_Container t +:+ " step was OOMKilled".

(** ** platformfault.go *)
(* Go: internal/controller/platformfault.go isPlatformFault *)
Definition isPlatformFault (reason failedStep : string) : bool :=
  if String.eqb reason ReasonConfigError then true
  else if String.eqb reason ReasonOOMKilled then String.eqb failedStep StepCopier
  else if negb (String.eqb reason ReasonBuildFailed) then false
  else negb (existsb (String.eqb failedStep) [StepClone; StepSetup; StepFetch; StepBuild]).

(** ** Validation and classification *)
(* Go: internal/controller/buildsteps.go shaRefPattern @120-122 *)
Definition sha_ref (ref : string) : bool :=
  (String.length ref =? 40)%nat &&
  string_forallb (λ c, is_digit c || between 97 (bv c) 102) ref.

(* Go: internal/controller/buildsteps.go validateWatchCommits *)
Definition validateWatchCommits `{GoRuntime} (app : App) : result unit :=
  match as_WatchCommits (app_Spec app) with
  | None => Ok tt
  | Some wc =>
      if negb (wc_Enabled wc) then Ok tt
      else
        (if negb (String.eqb (wc_Interval wc) "") then
           match WatchCron (wc_Interval wc) with
           | Err e => Err (wrapf "watchCommits: " e)
           | Ok _ => Ok tt
           end
         else Ok tt) ;;
        let ref := as_Ref (app_Spec app) in
        if sha_ref ref then
          Err (errorf ("watchCommits: ref " +:+ Quote ref +:+
            " is a pinned commit SHA — an immutable ref cannot be watched for new commits"))
        else Ok tt
  end.

(* Go: internal/controller/buildsteps.go classifyTrigger *)
Definition classifyTrigger (app : App) : string :=
  if negb (String.eqb (annotation app RebuildByAnnotation) "") then BuildTriggerManual
  else if negb (String.eqb (annotation app RebuildCommitAnnotation) "") then BuildTriggerCommit
  else BuildTriggerScheduled.

(** ** History *)
(* Go: internal/controller/buildsteps.go appendBuildHistory *)
Fixpoint replace_job (history : list BuildStatus) (rec : BuildStatus)
    : option (list BuildStatus) :=
  match history with
  | [] => None
  | h :: rest =>
      if String.eqb (b_JobName h) (b_JobName rec) then Some (rec :: rest)
      else cons h <$> replace_job rest rec
  end.
(* Go: internal/controller/buildsteps.go appendBuildHistory *)
Definition appendBuildHistory (history : list BuildStatus) (rec : BuildStatus) (max : Z)
    : list BuildStatus :=
  match replace_job history rec with
  | Some out => out
  | None =>
      let out := rec :: history in
      if (0 <=? max) && (max <? Z.of_nat (length out)) then List.firstn (Z.to_nat max) out
      else out
  end.

(* Go: internal/controller/buildsteps.go updateConsecutiveScheduledFailures *)
Definition updateConsecutiveScheduledFailures (current : Z) (trigger result : string) : Z :=
  if String.eqb result BuildResultSucceeded then 0
  else if String.eqb result BuildResultFailed then
    if String.eqb trigger BuildTriggerScheduled || String.eqb trigger "" then i64 (current + 1)
    else current
  else current.

(* Go: internal/controller/buildsteps.go trimToFailedStep *)
Definition trimToFailedStep (rec : BuildStatus) : BuildStatus :=
  let want := if String.eqb (b_FailedStep rec) "" then failedStep (b_Steps rec)
              else b_FailedStep rec in
  rec <| b_Steps := match List.find (λ s, String.eqb (st_Name s) want) (b_Steps rec) with
                    | Some s => [s]
                    | None => []
                    end |>.

(* Go: internal/controller/buildsteps.go appendFailedBuildHistory *)
Definition appendFailedBuildHistory (history : list BuildStatus) (rec : BuildStatus) (max : Z)
    : list BuildStatus :=
  if negb (String.eqb (b_Result rec) BuildResultFailed) then history
  else appendBuildHistory history (trimToFailedStep rec) max.

(** ** Which steps a build has *)
Lemma applicableSteps_setup app : StepSetup ∈ applicableSteps app ↔ setupRuns app = true.
Proof.
  unfold applicableSteps. destruct (setupRuns app), (phaseConfigured _);
    rewrite ?elem_of_app, ?elem_of_cons, ?elem_of_nil; split; try done; naive_solver.
Qed.
Lemma applicableSteps_NoDup app : NoDup (applicableSteps app).
Proof.
  unfold applicableSteps. destruct (setupRuns app), (phaseConfigured _);
    apply (bool_decide_unpack _); vm_compute; exact I.
Qed.

(** The pipeline and its timeline agree on setup: the step timeline lists a
    setup step exactly when the build pod gets a setup container, and then the
    container has a command to run whenever the loaded configuration knows the
    package manager: the app's own phase as written, or the operator's non-empty
    default install command. *)
Theorem effectiveSetup_correct `{GoRuntime} cfg app :
  config_ok cfg →
  pl_PackageManager (app_Pipeline app) = PackageManagerYarn ∨
    pl_PackageManager (app_Pipeline app) = PackageManagerPnpm →
  (snd (effectiveSetup app cfg) = true ↔ StepSetup ∈ applicableSteps app) ∧
  (snd (effectiveSetup app cfg) = true →
   let p := fst (effectiveSetup app cfg) in
   phaseConfigured p = true ∧ aps_Image p = aps_Image (sps_PhaseSpec (app_Setup app)) ∧
   (phaseConfigured (sps_PhaseSpec (app_Setup app)) = true →
     p = sps_PhaseSpec (app_Setup app))).
Proof.
  intros Hcfg Hpm. rewrite applicableSteps_setup. unfold effectiveSetup.
  destruct (setupRuns app) eqn:Hr; cbn [negb]; [|done].
  destruct (phaseConfigured (sps_PhaseSpec (app_Setup app))) eqn:Hc; cbn [fst snd]; [done|].
  split; [done|]. intros _. split; [|done].
  destruct Hcfg as (_ & _ & Hcmd & _). destruct (Hcmd _ Hpm) as (a & rest & -> & _).
  unfold phaseConfigured. cbn. apply orb_true_iff. right. apply Z.ltb_lt. unfold nlen. cbn. lia.
Qed.

(** ** The timeline *)
Lemma st_Name_step_from s pod cs : st_Name (step_from s pod cs) = st_Name s.
Proof.
  unfold step_from, stampStepTimes. destruct cs as [[n r t]|]; cbn; [|done].
  destruct t, r; done.
Qed.
Lemma st_Status_step_from s pod cs : st_Status (step_from s pod cs) = containerStepStatus cs.
Proof.
  unfold step_from, stampStepTimes. destruct cs as [[n r t]|]; cbn; [|done].
  destruct t as [t|], r; cbn; try destruct (t_ExitCode t =? 0); done.
Qed.

Lemma deriveBuildSteps_names applicable pod done_ :
  map st_Name (deriveBuildSteps applicable pod done_) = applicable.
Proof.
  unfold deriveBuildSteps. rewrite map_map. rewrite <- (map_id applicable) at 2.
  apply map_ext. intros name. repeat case_match; cbn; rewrite ?st_Name_step_from; done.
Qed.

(** The container a step's outcome is read from. *)
Definition step_container (pod : Pod) (name : string) : option ContainerStatus :=
  findContainerStatus (if String.eqb name StepCopier then pod_ContainerStatuses pod
                       else pod_InitContainerStatuses pod) name.

Lemma derived_status applicable pod done_ s :
  s ∈ deriveBuildSteps applicable (Some pod) done_ → st_Name s ≠ StepRelease →
  st_Status s = containerStepStatus (step_container pod (st_Name s)).
Proof.
  unfold deriveBuildSteps. intros (name & -> & Hn)%list_elem_of_fmap.
  destruct (String.eqb_spec name StepRelease) as [->|Hr].
  { intros []. by destruct done_. }
  intros _. unfold step_container.
  destruct (String.eqb_spec name StepCopier) as [->|Hc].
  { rewrite st_Status_step_from, st_Name_step_from. done. }
  destruct (_ ≫= cst_Terminated); cbn; rewrite ?st_Status_step_from, ?st_Name_step_from;
    cbn; by rewrite (proj2 (String.eqb_neq _ _) Hc).
Qed.

Lemma failedStep_spec steps n : failedStep steps = n → n ≠ "" →
  ∃ s, s ∈ steps ∧ st_Name s = n ∧
    (st_Status s = StepStatusFailed ∨ st_Status s = StepStatusAborted).
Proof.
  unfold failedStep. destruct (List.find _ steps) as [s|] eqn:E; [|by intros <-].
  apply find_some_elem in E as [Hs Hst]. intros <- _. exists s. split; [done|]. split; [done|].
  breflect. destruct Hst as [Hst|Hst]; breflect; auto.
Qed.

(** C39: a failed build's termination record is about the step it names as
    failed: whenever the timeline derived from the pod has a failed step, that
    step's container terminated with a non-zero exit code, and the termination
    record carries that container's name, exit code and reason. *)
Theorem failure_attribution applicable pod done_ n :
  failedStep (deriveBuildSteps applicable (Some pod) done_) = n → n ≠ "" →
  ∃ cs t term, step_container pod n = Some cs ∧ cst_Terminated cs = Some t ∧
    t_ExitCode t ≠ 0 ∧ detectTermination (Some pod) n = Some term ∧
    bt_Container term = n ∧ bt_ExitCode term = t_ExitCode t ∧ bt_Reason term = t_Reason t.
Proof.
  intros Hf Hn. destruct (failedStep_spec _ _ Hf Hn) as (s & Hs & <- & Hst).
  assert (Hrel : st_Name s ≠ StepRelease).
  { intros E. unfold deriveBuildSteps in Hs. apply list_elem_of_fmap in Hs as (name & Es & _).
    destruct (String.eqb_spec name StepRelease) as [Er|Hne].
    - rewrite Es in Hst. destruct done_; cbn in Hst; naive_solver.
    - rewrite Es in E. revert E. repeat case_match; cbn; rewrite ?st_Name_step_from; done. }
  pose proof (derived_status _ _ _ _ Hs Hrel) as Hd. rewrite Hd in Hst.
  unfold containerStepStatus in Hst.
  destruct (step_container pod (st_Name s)) as [cs|] eqn:Ec; [|by destruct Hst].
  destruct (cst_Terminated cs) as [t|] eqn:Et;
    [|destruct (cst_Running cs); by destruct Hst].
  destruct (t_ExitCode t =? 0) eqn:Ex; [by destruct Hst|]. breflect.
  unfold detectTermination. unfold step_container in Ec.
  rewrite (proj2 (String.eqb_neq _ _) Hn), (proj2 (String.eqb_neq _ _) Hrel). cbn [orb].
  rewrite Ec. cbn [mbind option_bind]. rewrite Et.
  eexists cs, t, _. by split_and!.
Qed.

(** A sample app, pod and failure for the witnesses. *)
Definition sample_app : App :=
  MkApp ((object_meta "site" "web" ∅) <| om_UID := "uid-1" |> <| om_Generation := 2 |>)
    (MkAppSpec "https://github.com/org/site" "main" "" None None
       (MkPipelineSpec 24 PackageManagerYarn false None
          (MkPhasesSpec (MkSetupPhaseSpec zero_phase false) (MkFetchPhaseSpec zero_phase [])
             (MkBuildPhaseSpec (zero_phase <| aps_Command := Some ["yarn"; "build"] |>) "dist")))
       0 None (MkIngressConfig None "site.example.org" None ∅) None zero_storage None)
    zero_status.

Definition oom_pod : Pod :=
  MkPod zero_meta (MkPodSpec "Never" "" None None
      [zero_container <| k_Name := "build" |>
         <| k_Resources := MkResourceRequirements ∅ {["memory" := MkQuantity "256Mi"]} |>]
      [zero_container <| k_Name := "copier" |>] [] [] "node-1")
    [MkContainerStatus "clone" None (Some (MkTerminated 0 "Completed" "" 5 6));
     MkContainerStatus "build" None (Some (MkTerminated 137 "OOMKilled" "peakMemoryBytes=268435456" 6 9))]
    [].

Lemma effectiveSetup_correct_witness :
  fst (effectiveSetup sample_app sample_config) =
    zero_phase <| aps_Command := Some ["yarn"; "install"; "--frozen-lockfile"] |> ∧
  StepSetup ∈ applicableSteps sample_app.
Proof.
  split; [vm_compute; reflexivity|].
  apply (effectiveSetup_correct (H := ascii_only_tables) sample_config sample_app);
    [exact sample_config_ok|by left|vm_compute; reflexivity].
Defined.

Lemma failure_attribution_witness :
  failedStep (deriveBuildSteps (applicableSteps sample_app) (Some oom_pod) false) = "build" ∧
  ∃ cs t term, step_container oom_pod "build" = Some cs ∧ cst_Terminated cs = Some t ∧
    t_ExitCode t ≠ 0 ∧ detectTermination (Some oom_pod) "build" = Some term ∧
    bt_Container term = "build" ∧ bt_ExitCode term = t_ExitCode t ∧ bt_Reason term = t_Reason t.
Proof.
  split; [vm_compute; reflexivity|].
  apply (failure_attribution (applicableSteps sample_app) oom_pod false "build");
    [vm_compute; reflexivity | done].
Defined.

(** ** History *)
Definition job_names (h : list BuildStatus) : list string := map b_JobName h.

Lemma replace_job_spec h rec :
  match replace_job h rec with
  | Some out => b_JobName rec ∈ job_names h ∧ job_names out = job_names h ∧ rec ∈ out ∧
      ∀ x, x ∈ out → x = rec ∨ x ∈ h
  | None => b_JobName rec ∉ job_names h
  end.
Proof.
  induction h as [|x h IH]; cbn [replace_job job_names map]; [apply not_elem_of_nil|].
  destruct (String.eqb_spec (b_JobName x) (b_JobName rec)) as [E|E].
  - split_and!; [rewrite E; left|cbn; by rewrite E|left|]. intros y [->|?]%elem_of_cons; [by left|right; by right].
  - destruct (replace_job h rec) as [out|]; cbn.
    + destruct IH as (I1 & I2 & I3 & I4). split_and!; [by right|by f_equal|by right|].
      intros y [->|[->|?]%I4]%elem_of_cons; [right; by left|by left|right; by right].
    + rewrite not_elem_of_cons. done.
Qed.

(** Distinct job names, at most [max] records. *)
Definition history_ok (max : Z) (h : list BuildStatus) : Prop :=
  NoDup (job_names h) ∧ Z.of_nat (length h) ≤ max.

Lemma firstn_job_names n h : job_names (List.firstn n h) = List.firstn n (job_names h).
Proof. unfold job_names. by rewrite firstn_map. Qed.

Lemma append_facts max h rec :
  history_ok max h → 1 ≤ max →
  let h' := appendBuildHistory h rec max in
  history_ok max h' ∧ rec ∈ h' ∧ (∀ x, x ∈ h' → x = rec ∨ x ∈ h) ∧
  (b_JobName rec ∈ job_names h → job_names h' = job_names h) ∧
  (b_JobName rec ∉ job_names h → h' = List.firstn (Z.to_nat max) (rec :: h)).
Proof.
  intros [Hnd Hlen] Hmax. cbv zeta. unfold appendBuildHistory.
  pose proof (replace_job_spec h rec) as Hs. destruct (replace_job h rec) as [out|].
  - destruct Hs as (I1 & I2 & I3 & I4). split_and!; [split|done..].
    + by rewrite I2.
    + apply (f_equal length) in I2. unfold job_names in I2. rewrite !length_map in I2. lia.
  - assert (Ht : (if (0 <=? max) && (max <? Z.of_nat (length (rec :: h)))
             then List.firstn (Z.to_nat max) (rec :: h) else rec :: h) =
            List.firstn (Z.to_nat max) (rec :: h)).
    { destruct (_ && _) eqn:E; [done|]. rewrite firstn_all2; [done|].
      breflect. destruct E as [E|E]; breflect; cbn [length] in *; lia. }
    rewrite Ht. clear Ht.
    assert (NoDup (job_names (rec :: h))) as Hnd' by (cbn; by constructor).
    assert (Hin : ∀ x, x ∈ List.firstn (Z.to_nat max) (rec :: h) → x ∈ rec :: h).
    { intros x Hx. rewrite <- (firstn_skipn (Z.to_nat max)). apply elem_of_app. by left. }
    split_and!; [split| | |done..].
    + rewrite firstn_job_names. rewrite <- (firstn_skipn (Z.to_nat max) (job_names _)) in Hnd'.
      by apply NoDup_app in Hnd' as (? & _).
    + rewrite length_firstn. lia.
    + destruct (Z.to_nat max) as [|n] eqn:E; [lia|]. left.
    + intros x [->|?]%Hin%elem_of_cons; auto.
Qed.

(** Recording a finished build keeps the history ring well formed: one record
    per Job and at most [max] records; the new record is in it, every other
    record was there before, a Job already recorded keeps its slot, and a new Job
    comes first with only the oldest record dropped. *)
Theorem appendBuildHistory_correct max h rec :
  history_ok max h → 1 ≤ max →
  let h' := appendBuildHistory h rec max in
  history_ok max h' ∧ rec ∈ h' ∧ (∀ x, x ∈ h' → x = rec ∨ x ∈ h) ∧
  (b_JobName rec ∈ job_names h → job_names h' = job_names h) ∧
  (b_JobName rec ∉ job_names h → h' = List.firstn (Z.to_nat max) (rec :: h)).
Proof. apply append_facts. Qed.

Lemma appendBuildHistory_correct_witness :
  let h := [zero_build <| b_JobName := "b" |>; zero_build <| b_JobName := "a" |>] in
  history_ok 2 (appendBuildHistory h (zero_build <| b_JobName := "c" |>) 2) ∧
  job_names (appendBuildHistory h (zero_build <| b_JobName := "c" |>) 2) = ["c"; "b"].
Proof.
  cbv zeta. split; [|reflexivity].
  apply (appendBuildHistory_correct 2 [zero_build <| b_JobName := "b" |>; zero_build <| b_JobName := "a" |>]);
    [|lia]. split; [apply (bool_decide_unpack _); vm_compute; exact I | cbn; lia].
Defined.

(** Only failures, each cut down to at most its failed step. *)
Definition failed_history_ok (max : Z) (h : list BuildStatus) : Prop :=
  history_ok max h ∧
  Forall (λ b, b_Result b = BuildResultFailed ∧ (length (b_Steps b) ≤ 1)%nat) h.

Lemma trimToFailedStep_spec rec :
  b_Result (trimToFailedStep rec) = b_Result rec ∧
  b_JobName (trimToFailedStep rec) = b_JobName rec ∧
  b_Termination (trimToFailedStep rec) = b_Termination rec ∧
  (length (b_Steps (trimToFailedStep rec)) ≤ 1)%nat ∧
  ∀ s, s ∈ b_Steps (trimToFailedStep rec) → s ∈ b_Steps rec.
Proof.
  unfold trimToFailedStep. cbn. split_and!; try done.
  - destruct (List.find _ _); cbn; lia.
  - intros s. destruct (List.find _ _) as [s'|] eqn:E; [|intros []%not_elem_of_nil].
    intros ->%list_elem_of_singleton. by apply find_some_elem in E as [? _].
Qed.

(** The failed-build ring is independent of successes: any other outcome
    leaves it untouched, and a failure is added to it trimmed to its failed step,
    keeping one record per Job, at most [max] of them, failures only. *)
Theorem appendFailedBuildHistory_correct max h rec :
  failed_history_ok max h → 1 ≤ max →
  failed_history_ok max (appendFailedBuildHistory h rec max) ∧
  (b_Result rec ≠ BuildResultFailed → appendFailedBuildHistory h rec max = h) ∧
  (b_Result rec = BuildResultFailed →
    trimToFailedStep rec ∈ appendFailedBuildHistory h rec max).
Proof.
  intros [Hok Hf] Hmax. unfold appendFailedBuildHistory.
  destruct (String.eqb_spec (b_Result rec) BuildResultFailed) as [E|E]; cbn [negb]; [|done].
  destruct (trimToFailedStep_spec rec) as (T1 & _ & _ & T2 & _).
  assert (Happ : history_ok max (appendBuildHistory h (trimToFailedStep rec) max) ∧
    trimToFailedStep rec ∈ appendBuildHistory h (trimToFailedStep rec) max ∧
    ∀ x, x ∈ appendBuildHistory h (trimToFailedStep rec) max → x = trimToFailedStep rec ∨ x ∈ h).
  { destruct (append_facts max h (trimToFailedStep rec) Hok Hmax) as (? & ? & ? & _). done. }
  destruct Happ as (A1 & A2 & A3). split_and!; [|done..].
  split; [done|]. apply Forall_forall. intros x [->|Hx]%A3; [by rewrite T1|].
  rewrite Forall_forall in Hf. by apply Hf.
Qed.

Lemma appendFailedBuildHistory_correct_witness :
  failed_history_ok 1 (appendFailedBuildHistory []
    (zero_build <| b_JobName := "j" |> <| b_Result := BuildResultFailed |>) 1).
Proof.
  apply (appendFailedBuildHistory_correct 1 []); [|lia].
  split; [split; [constructor | cbn; lia] | constructor].
Defined.

Definition scheduled_failure (b : string * string) : bool :=
  (String.eqb b.1 BuildTriggerScheduled || String.eqb b.1 "") && String.eqb b.2 BuildResultFailed.

(** Outcomes as (trigger, result), oldest first; the part after the last success. *)
Fixpoint since_success (l : list (string * string)) : list (string * string) :=
  match l with
  | [] => []
  | b :: l' => if existsb (λ c, String.eqb c.2 BuildResultSucceeded) l then since_success l' else l
  end.
Definition run_counter (l : list (string * string)) : Z :=
  foldl (λ n b, updateConsecutiveScheduledFailures n b.1 b.2) 0 l.

Lemma count_snoc l b :
  length (List.filter scheduled_failure (since_success (l ++ [b]))) =
  if String.eqb b.2 BuildResultSucceeded then 0%nat
  else (length (List.filter scheduled_failure (since_success l)) +
        (if scheduled_failure b then 1 else 0))%nat.
Proof.
  destruct (String.eqb b.2 BuildResultSucceeded) eqn:Eb.
  - assert (since_success (l ++ [b]) = []) as ->; [|done].
    induction l as [|c l IH]; cbn [app since_success].
    + cbn. by rewrite Eb.
    + change (c :: l ++ [b]) with ((c :: l) ++ [b]). rewrite existsb_app, orb_comm.
      cbn [existsb]. by rewrite Eb.
  - assert (since_success (l ++ [b]) = since_success l ++ [b]) as ->.
    + induction l as [|c l IH]; cbn [app since_success].
      * cbn. by rewrite Eb.
      * replace (existsb _ (c :: l ++ [b])) with
          (existsb (λ c, String.eqb c.2 BuildResultSucceeded) (c :: l)).
        { destruct (existsb _ (c :: l)); [done|reflexivity]. }
        change (c :: l ++ [b]) with ((c :: l) ++ [b]). rewrite (existsb_app _ (c :: l)).
        cbn [existsb]. by rewrite Eb, !orb_false_r.
    + rewrite List.filter_app, length_app. f_equal. cbn. by destruct (scheduled_failure b).
Qed.

(** The consecutive-failure counter behind the scheduled-build alert counts
    exactly the failures of scheduled (or unlabelled) builds since the last
    success: after any sequence of outcomes it equals the number of such failures
    in the part of the sequence that follows the last success. *)
Theorem consecutive_failures_count l :
  Z.of_nat (length l) ≤ i64_max →
  run_counter l = Z.of_nat (length (List.filter scheduled_failure (since_success l))).
Proof.
  unfold run_counter. induction l as [|b l IH] using rev_ind; intros Hl; [done|].
  rewrite length_app in Hl. cbn [length] in Hl. rewrite foldl_app. cbn [foldl].
  rewrite IH by lia. rewrite count_snoc. unfold updateConsecutiveScheduledFailures, scheduled_failure.
  destruct (String.eqb b.2 BuildResultSucceeded); [done|].
  destruct (String.eqb b.2 BuildResultFailed); cbn [andb];
    rewrite ?andb_true_r, ?andb_false_r; [|lia].
  fold scheduled_failure. set (f := List.filter _ (since_success l)).
  assert (length f ≤ length (since_success l))%nat as Hle by apply List.filter_length_le.
  assert (length (since_success l) ≤ length l)%nat as Hle2.
  { clear. induction l as [|c l IH]; cbn [since_success]; [done|]. destruct (existsb _ _); cbn; lia. }
  destruct (_ || _); [|lia]. rewrite i64_id; unfold in_i64, i64_min, i64_max in *; lia.
Qed.

Lemma consecutive_failures_count_witness :
  run_counter [("Scheduled", "Failed"); ("Manual", "Succeeded"); ("Scheduled", "Failed");
               ("Manual", "Failed"); ("", "Failed"); ("Scheduled", "Aborted")] = 2.
Proof. rewrite consecutive_failures_count; [reflexivity | vm_compute; discriminate]. Defined.

(** The failures reported as the platform's fault are exactly those the user
    cannot cause: a configuration error, an out-of-memory kill of the copier
    (which has no user-set limit), or a failure attributed to no user step
    (clone, setup, fetch and build are the user's). *)
Theorem isPlatformFault_correct reason step :
  isPlatformFault reason step = true ↔
  reason = ReasonConfigError ∨ (reason = ReasonOOMKilled ∧ step = StepCopier) ∨
  (reason = ReasonBuildFailed ∧ step ∉ [StepClone; StepSetup; StepFetch; StepBuild]).
Proof.
  unfold isPlatformFault.
  destruct (String.eqb_spec reason ReasonConfigError) as [->|H1]; [naive_solver|].
  destruct (String.eqb_spec reason ReasonOOMKilled) as [->|H2].
  { rewrite String.eqb_eq. split; [naive_solver|]. intros [?|[[_ ?]|[? _]]]; done. }
  destruct (String.eqb_spec reason ReasonBuildFailed) as [->|H3]; cbn [negb]; [|naive_solver].
  rewrite negb_true_iff, <- not_true_iff_false, existsb_elem.
  split.
  - intros Hn. right. right. split; [done|]. intros Hin. apply Hn. exists step.
    by rewrite String.eqb_eq.
  - intros [?|[[? _]|[_ Hn]]]; [done..|]. intros (x & Hx & ->%String.eqb_eq). done.
Qed.
