(* ===== verification/Naming.v ===== *)
(** internal/controller/naming.go and util.go: names and labels of the children,
    and the reconciler's own configuration. *)
From Stdlib Require Import ZArith Ascii String.
From stdpp Require Import base gmap strings list numbers sorting.
From S2P Require Import Prelude GoStd GoNum Sha256 BuildSpec AppTypes Kube Config.

Open Scope string_scope.
Open Scope list_scope.
Open Scope Z_scope.

(** The configuration members of the reconciler; its clients, clock, recorder and
    reporter are the effects of [Prog]. *)
(* Go: internal/controller/app_controller.go AppReconciler @52-100 *)
Record AppReconciler := MkAppReconciler {
  r_Config : OperatorConfig;
  r_StorageClassName : string;
  r_TraefikNamespace : string;
  r_OperatorNamespace : string;
}.

(* Go: internal/controller/naming.go cacheePVCName @9-9 *)
Definition cacheePVCName (app : App) : string := app_Name app +:+ "-cache".
(* Go: internal/controller/naming.go dataCachePVCName @10-10 *)
Definition dataCachePVCName (app : App) : string := app_Name app +:+ "-data-cache".
(* Go: internal/controller/naming.go outputPVCName @11-11 *)
Definition outputPVCName (app : App) : string := app_Name app +:+ "-output".
(* Go: internal/controller/naming.go clockCronJobName @12-12 *)
Definition clockCronJobName (app : App) : string := app_Name app +:+ "-clock".
(* Go: internal/controller/naming.go watchCronJobName @13-13 *)
Definition watchCronJobName (app : App) : string := app_Name app +:+ "-watch".
(* Go: internal/controller/naming.go clockSAName @14-14 *)
Definition clockSAName (app : App) : string := app_Name app +:+ "-clock".
(* Go: internal/controller/naming.go clockRoleName @15-15 *)
Definition clockRoleName (app : App) : string := app_Name app +:+ "-clock".
(* Go: internal/controller/naming.go clockBindingName @16-16 *)
Definition clockBindingName (app : App) : string := app_Name app +:+ "-clock".
(* Go: internal/controller/naming.go nginxDeployName @17-17 *)
Definition nginxDeployName (app : App) : string := app_Name app +:+ "-nginx".
(* Go: internal/controller/naming.go nginxConfigName @18-18 *)
Definition nginxConfigName (app : App) : string := app_Name app +:+ "-nginx-conf".
(* Go: internal/controller/naming.go serviceName @19-19 *)
Definition serviceName (app : App) : string := app_Name app.
(* Go: internal/controller/naming.go ingressName @20-20 *)
Definition ingressName (app : App) : string := app_Name app.
(* Go: internal/controller/naming.go middlewareName @21-21 *)
Definition middlewareName (app : App) : string := app_Name app +:+ "-auth".
(* Go: internal/controller/naming.go buildNetPolName @22-22 *)
Definition buildNetPolName (app : App) : string := app_Name app +:+ "-build".
(* Go: internal/controller/naming.go nginxNetPolName @23-23 *)
Definition nginxNetPolName (app : App) : string := app_Name app +:+ "-nginx".
(* Go: internal/controller/naming.go triggerNetPolName @24-24 *)
Definition triggerNetPolName (app : App) : string := app_Name app +:+ "-trigger".
(* Go: internal/controller/naming.go gitCredentialSecretName *)
Definition gitCredentialSecretName (app : App) : string := app_Name app +:+ "-git-credential".

(* Go: internal/controller/naming.go managedBy @33-34 *)
Definition managedBy : string := "toggle-web-baker".
Definition roleLabel : string := "baker.toggle-corp.com/role".
Definition instanceLabel : string := "app.kubernetes.io/instance".

(* Go: internal/controller/naming.go labelsFor *)
Definition labelsFor (app : App) : gmap string string :=
  {[ "app.kubernetes.io/name" := "app"; instanceLabel := app_Name app;
     "app.kubernetes.io/managed-by" := managedBy ]}.
(* Go: internal/controller/naming.go buildLabelsFor *)
Definition buildLabelsFor (app : App) : gmap string string := <[roleLabel := "build"]> (labelsFor app).
(* Go: internal/controller/naming.go nginxLabelsFor *)
Definition nginxLabelsFor (app : App) : gmap string string := <[roleLabel := "nginx"]> (labelsFor app).
(* Go: internal/controller/naming.go triggerLabelsFor *)
Definition triggerLabelsFor (app : App) : gmap string string :=
  <[roleLabel := "trigger"]> (labelsFor app).

(* Go: internal/controller/children.go shortToken *)
Definition shortToken (token : string) : string := take 10 (sha256_hex token).

(* Go: internal/controller/buildpod.go buildJobName *)
Definition buildJobName (app : App) (token : string) : string :=
  app_Name app +:+ "-build-" +:+ shortToken token.

(* Go: internal/controller/util.go mustQuantity *)
Definition mustQuantity (s : string) : Quantity := MkQuantity s.

(* Go: internal/controller/util.go traefikMiddlewareGVK *)
Definition traefikGroup (r : AppReconciler) : string :=
  if String.eqb (cfg_TraefikGroup (r_Config r)) "" then "traefik.io"
  else cfg_TraefikGroup (r_Config r).

(* Go: internal/controller/util.go authMiddleware *)
Definition authMiddleware (r : AppReconciler) (app : App) (secretName : string) : kobject :=
  MkKobject (object_meta (middlewareName app) (app_Namespace app) (labelsFor app))
    (Middleware (traefikGroup r) secretName).
