(* ===== verification/AppView.v ===== *)
(** The pure helpers of internal/controller/app_controller.go: what the
    reconciler reads off an App (images, thresholds, the hashed build spec, the
    phase), and how it writes conditions. *)
From Stdlib Require Import ZArith Ascii String SpecFloat.
From stdpp Require Import base gmap strings list numbers sorting.
From S2P Require Import Prelude GoStd GoNum Images Storage BuildSpec AppTypes Kube Config BuildSteps Naming.

Open Scope string_scope.
Open Scope list_scope.
Open Scope Z_scope.

(** ** Inputs of the validations *)
(* Go: internal/controller/app_controller.go phaseImages *)
Definition phaseImages (app : App) : list PhaseImage :=
  let one phase image := if String.eqb image "" then [] else [MkPhaseImage phase image] in
  one "setup" (aps_Image (sps_PhaseSpec (app_Setup app)))
  ++ one "fetch" (aps_Image (fps_PhaseSpec (app_Fetch app)))
  ++ one "build" (aps_Image (bps_PhaseSpec (app_BuildPhase app))).

(* Go: internal/controller/app_controller.go validateNodeVersion *)
Definition validateNodeVersion (r : AppReconciler) (app : App) : result unit :=
  let v := pl_NodeVersion (app_Pipeline app) in
  if v =? 0 then Ok tt
  else match LookupNodeImage (cfg_NodeImages (r_Config r)) v with
       | Some _ => Ok tt
       | None =>
           let known := merge_sort string_le (map fst (map_to_list (cfg_NodeImages (r_Config r)))) in
           Err (errorf ("nodeVersion " +:+ Itoa v +:+ " is not available; known versions: [" +:+
             Join known " " +:+ "]. Ask a cluster admin to add it to the operator's node-image map" +:+
             " (Helm values operator.nodeImages)"))
       end.

(* Go: internal/controller/app_controller.go storageConfigFrom *)
Definition storageConfigFrom (app : App) : StorageConfig :=
  let s := as_Storage (app_Spec app) in
  MkStorageConfig
    (MkVolumeThresholds (ct_CleanupBytes (asc_Cache s)) (ct_AlertBytes (asc_Cache s)) 0)
    (MkVolumeThresholds (dct_CleanupBytes (asc_DataCache s)) (dct_AlertBytes (asc_DataCache s)) 0)
    (MkVolumeThresholds 0 (ot_AlertBytes (asc_Output s)) (ot_CapBytes (asc_Output s))).

(* Go: internal/controller/app_controller.go alertThresholdsFrom *)
Definition alertThresholdsFrom (app : App) : gmap string Z :=
  list_to_map (map (λ v, (nv_Name v, AlertBytes (nv_Thresholds v)))
    (Volumes (storageConfigFrom app))).

(** ** The hashed build spec *)
(** Later entries win, as successive map assignments do. *)
(* Go: internal/controller/app_controller.go mergeEnv *)
Definition assign_all (l : list (string * string)) (m : gmap string string) : gmap string string :=
  foldl (λ m kv, <[kv.1 := kv.2]> m) m l.

(* Go: internal/controller/app_controller.go mergeEnv *)
Definition mergeEnv (env : list EnvVar) (envMap : gmap string string)
    : nilable (gmap string string) :=
  if bool_decide (env = []) && bool_decide (envMap = ∅) then None
  else Some (envMap ∪ assign_all (map (λ e, (ev_Name e, ev_Value e)) env) ∅).

(* Go: internal/controller/app_controller.go buildSpecFrom *)
Definition domain_phase (p : ApiPhaseSpec) (skip : bool) : PhaseSpec :=
  MkPhaseSpec (aps_Image p) (aps_Command p) (aps_RunAsUser p) (mergeEnv (aps_Env p) (aps_EnvMap p))
    skip.

(* Go: internal/controller/app_controller.go buildSpecFrom *)
Definition buildSpecFrom (app : App) : BuildSpec :=
  let fetch := app_Fetch app in
  let secretRefs := map (λ s, let k := evss_SecretKeyRef (evw_ValueFrom s) in
                              sks_Name k +:+ "/" +:+ sks_Key k) (fps_Secrets fetch) in
  MkBuildSpec (as_Repo (app_Spec app)) (as_Ref (app_Spec app))
    (pl_PackageManager (app_Pipeline app)) (pl_NodeVersion (app_Pipeline app))
    (domain_phase (sps_PhaseSpec (app_Setup app)) (sps_Skip (app_Setup app)))
    (domain_phase (fps_PhaseSpec fetch) false)
    (domain_phase (bps_PhaseSpec (app_BuildPhase app)) false)
    (bps_OutputDir (app_BuildPhase app))
    (match secretRefs with [] => None | _ => Some secretRefs end).

(** ** Conditions and phase *)
(* Go: internal/controller/app_controller.go hasSucceededOnce *)
Definition hasSucceededOnce (app : App) : bool :=
  bool_decide (is_Some (s_LastSuccessfulBuildTime (app_Status app))) ||
  negb (String.eqb (s_LastBuiltSpecHash (app_Status app)) "").

(* Go: internal/controller/app_controller.go findCondition *)
Definition findCondition (app : App) (t : string) : option Condition :=
  List.find (λ c, String.eqb (c_Type c) t) (s_Conditions (app_Status app)).

(* Go: internal/controller/app_controller.go phaseOf *)
Definition condition_true (app : App) (t : string) : bool :=
  match findCondition app t with
  | Some c => String.eqb (c_Status c) "True"
  | None => false
  end.

(* Go: internal/controller/app_controller.go phaseOf *)
Definition phaseOf (app : App) : string :=
  let bp := b_Phase (build_of app) in
  if negb (hasSucceededOnce app) && negb (String.eqb bp BuildPhaseComplete) then
    if String.eqb bp BuildPhaseRunning || String.eqb bp BuildPhasePending
    then PhaseBuilding else PhaseAwaitingFirstBuild
  else if condition_true app ConditionDegraded then PhaseDegraded
  else if String.eqb bp BuildPhaseRunning then PhaseBuilding
  else PhaseReady.

(** The assignment through the pointer [findCondition] returned, or the append. *)
(* Go: internal/controller/app_controller.go setCondition *)
Fixpoint put_condition (cond : Condition) (l : list Condition) : list Condition :=
  match l with
  | [] => [cond]
  | c :: l' =>
      if String.eqb (c_Type c) (c_Type cond) then
        (if String.eqb (c_Status c) (c_Status cond) && String.eqb (c_Reason c) (c_Reason cond)
         then cond <| c_LastTransitionTime := c_LastTransitionTime c |> else cond) :: l'
      else c :: put_condition cond l'
  end.
(* Go: internal/controller/app_controller.go setCondition *)
Definition setCondition (now : Time) (app : App) (t status reason msg : string) : App :=
  on_status (λ s, s <| s_Conditions ::= put_condition
    (MkCondition t status reason msg now (om_Generation (app_Meta app))) |>) app.

(* Go: internal/controller/app_controller.go refreshPhase *)
Definition refreshPhase (now : Time) (app : App) : App :=
  let phase := phaseOf app in
  let app := on_status (λ s, s <| s_Phase := phase |>) app in
  if String.eqb phase PhaseReady then
    setCondition now app ConditionReady "True" ReasonReady "serving current release"
  else if String.eqb phase PhaseBuilding then
    setCondition now app ConditionReady "False" ReasonBuilding "build in progress"
  else if String.eqb phase PhaseAwaitingFirstBuild then
    setCondition now app ConditionReady "False" ReasonAwaitingFirstBuild "awaiting first build"
  else app.

(** ** Effective settings *)
(** [time.Duration.Seconds] and the conversion of a float64 to int64. *)
Definition f64_add : f64 → f64 → f64 := SFadd 53 1024.
Definition Seconds (d : Z) : f64 :=
  f64_add (f64_of_Z (Z.quot d Second)) (f64_div (f64_of_Z (Z.rem d Second)) (f64_of_Z Second)).
Definition i64_of_f64 (x : f64) : Z :=
  match x with
  | S754_finite neg m e =>
      let a := if 0 <=? e then Z.pos m * 2 ^ e else Z.pos m / 2 ^ (- e) in
      if neg then - a else a
  | _ => 0
  end.

(* Go: internal/controller/buildpod.go buildDeadlineSeconds *)
Definition buildDeadlineSeconds (r : AppReconciler) (app : App) : Z :=
  let deadline := match pl_Timeout (app_Pipeline app) with
                  | Some t => i64_of_f64 (Seconds t)
                  | None => 0
                  end in
  if deadline <=? 0 then cfg_ActiveDeadlineSeconds (r_Config r) else deadline.

(* Go: internal/controller/app_controller.go effectiveScheduledThreshold *)
Definition effectiveScheduledThreshold (r : AppReconciler) (app : App) : Z :=
  match as_ScheduledBuilds (app_Spec app) with
  | Some sb => if 0 <? sb_AlertThreshold sb then sb_AlertThreshold sb
               else cfg_ScheduledAlertThreshold (r_Config r)
  | None => cfg_ScheduledAlertThreshold (r_Config r)
  end.

(* Go: internal/controller/app_controller.go effectiveHistoryLimits *)
Definition effectiveHistoryLimits (r : AppReconciler) (app : App) : Z * Z :=
  let keepRecent := cfg_HistoryKeepRecent (r_Config r) in
  let keepFailed := cfg_HistoryKeepFailed (r_Config r) in
  match as_History (app_Spec app) with
  | Some h => (if 0 <? hs_KeepRecent h then hs_KeepRecent h else keepRecent,
               if 0 <? hs_KeepFailed h then hs_KeepFailed h else keepFailed)
  | None => (keepRecent, keepFailed)
  end.

(** ** Jobs and their pods *)
(* Go: internal/controller/app_controller.go jobFinished *)
Definition jobFinished (j : Job) : option JobCondition :=
  List.find (λ c, (String.eqb (jc_Type c) "Complete" || String.eqb (jc_Type c) "Failed") &&
                  String.eqb (jc_Status c) "True") (j_Conditions j).

(* Go: internal/controller/app_controller.go ownedByJob *)
Definition ownedByJob (p : Pod) (job : Job) : bool :=
  existsb (λ ref, or_Controller ref && String.eqb (or_UID ref) (om_UID (j_Meta job)))
    (om_OwnerReferences (pod_Meta p)).

(* Go: internal/controller/app_controller.go containerImages *)
Definition containerImages (pod : PodSpec) : gmap string string :=
  assign_all (map (λ c, (k_Name c, k_Image c)) (p_InitContainers pod ++ p_Containers pod)) ∅.

(* Go: internal/controller/app_controller.go isBuildPod *)
Definition isBuildPod (m : ObjectMeta) : bool :=
  String.eqb (default "" (om_Labels m !! roleLabel)) "build".

(** The map function of the pod watch, from an object's kind and metadata. *)
(* Go: internal/controller/app_controller.go mapBuildPodToApp *)
Definition mapBuildPodToApp (kind : string) (m : ObjectMeta) : list (string * string) :=
  if negb (String.eqb kind "Pod") then []
  else if negb (isBuildPod m) then []
  else let name := default "" (om_Labels m !! instanceLabel) in
       if String.eqb name "" then [] else [(om_Namespace m, name)].
