(* ===== verification/GitCred.v ===== *)
(** The pure part of internal/controller/gitcred.go: which git credential an App
    gets, the validity check of a credential Secret, and its mount into a pod. *)
From Stdlib Require Import ZArith Ascii String.
From stdpp Require Import base gmap strings list numbers sorting.
From S2P Require Import Prelude GoStd GoNum Sha256 BuildSpec RepoHost AppTypes Kube Config BuildSteps Naming.

Open Scope string_scope.
Open Scope list_scope.
Open Scope Z_scope.

(* Go: internal/controller/gitcred.go gitCredMountPath @19-26 *)
Definition gitCredMountPath : string := "/run/git-credential".
Definition volGitCred : string := "git-credential".
(* Go: internal/controller/gitcred.go gitCredHostEnv @28-35 *)
Definition gitCredHostEnv : string := "GIT_CREDENTIAL_HOST".
(* Go: internal/controller/gitcred.go gitCredHashAnnotation @37-42 *)
Definition gitCredHashAnnotation : string := "baker.toggle-corp.com/git-credential-hash".

(* Go: internal/controller/gitauth_secret.go gitAuthUsernameKey @12-18 *)
Definition gitAuthUsernameKey : string := "username".
Definition gitAuthPasswordKey : string := "password".

(* Go: internal/controller/gitcred.go gitCredentialDecision *)
Record gitCredentialDecision := MkGitCred { gc_syncCopy : bool; gc_secretName : string }.
Definition anonymous : gitCredentialDecision := MkGitCred false "".

(* Go: internal/controller/gitcred.go mounts *)
Definition mounts (d : gitCredentialDecision) : bool := negb (String.eqb (gc_secretName d) "").

(* Go: internal/controller/gitcred.go decideGitCredential *)
Definition decideGitCredential `{GoRuntime} (app : App) (cfg : GitAuth) : gitCredentialDecision :=
  match as_RepoAuth (app_Spec app) with
  | Some ra => MkGitCred false (ras_Name (rac_SecretRef ra))
  | None =>
      if Enabled cfg && RepoHostAllowed (as_Repo (app_Spec app)) (ga_Hosts cfg)
      then MkGitCred true (gitCredentialSecretName app)
      else anonymous
  end.

(** [data[k]] of a Secret: empty when absent. *)
(* Go: internal/controller/gitcred.go checkGitCredentialData *)
Definition secret_value (data : gmap string string) (k : string) : string := default "" (data !! k).

(* Go: internal/controller/gitcred.go checkGitCredentialData *)
Definition checkGitCredentialData `{GoRuntime} (data : gmap string string) : result unit :=
  check_all (λ k, if String.eqb (secret_value data k) ""
                  then Err (errorf ("missing a non-empty " +:+ Quote k +:+ " key"))
                  else Ok tt)
    [gitAuthUsernameKey; gitAuthPasswordKey].

(* Go: internal/controller/gitcred.go gitCredentialHash *)
Definition gitCredentialHash (data : gmap string string) : string :=
  sha256_hex (secret_value data gitAuthUsernameKey +:+ s1 (chr 0) +:+
              secret_value data gitAuthPasswordKey).

(* Go: internal/controller/gitcred.go gitCredentialVolume *)
Definition gitCredentialVolume (secretName : string) : Volume :=
  MkVolume volGitCred (SecretSource secretName
    [(gitAuthUsernameKey, gitAuthUsernameKey); (gitAuthPasswordKey, gitAuthPasswordKey)]).

(** The env and the mount added to the selected container. *)
(* Go: internal/controller/gitcred.go addGitCredential *)
Definition with_credential (containerName host : string) (c : Container) : Container :=
  if negb (String.eqb containerName "") && negb (String.eqb (k_Name c) containerName) then c
  else c <| k_Env ::= λ e, e ++ [env "GIT_CREDENTIAL_DIR" gitCredMountPath; env gitCredHostEnv host] |>
         <| k_VolumeMounts ::= λ m, m ++ [MkVolumeMount volGitCred gitCredMountPath true] |>.

(* Go: internal/controller/gitcred.go addGitCredential *)
Definition addGitCredential (pod : PodSpec) (containerName secretName host : string) : PodSpec :=
  if String.eqb host "" then pod
  else pod <| p_Volumes ::= λ vs, vs ++ [gitCredentialVolume secretName] |>
           <| p_Containers ::= map (with_credential containerName host) |>
           <| p_InitContainers ::= map (with_credential containerName host) |>.

(** [host, _ := domain.RepoHost(repo)]: the empty string on an error. *)
Definition repo_host_or_empty `{GoRuntime} (repo : string) : string :=
  match RepoHost repo with Ok h => h | Err _ => "" end.

(** [if gitCred.mounts() { ...; addGitCredential(...) }], as both pods do it. *)
(* Go: internal/controller/gitcred.go addGitCredential *)
Definition mount_credential `{GoRuntime} (pod : PodSpec) (containerName : string) (app : App)
    (d : gitCredentialDecision) : PodSpec :=
  if mounts d
  then addGitCredential pod containerName (gc_secretName d) (repo_host_or_empty (as_Repo (app_Spec app)))
  else pod.

(* Go: internal/controller/gitcred.go syncedGitCredential *)
Definition syncedGitCredential (app : App) (data : gmap string string) : kobject :=
  MkKobject ((object_meta (gitCredentialSecretName app) (app_Namespace app) (labelsFor app))
               <| om_Annotations := {[gitCredHashAnnotation := gitCredentialHash data]} |>)
    (Secret "kubernetes.io/basic-auth"
       {[gitAuthUsernameKey := secret_value data gitAuthUsernameKey;
         gitAuthPasswordKey := secret_value data gitAuthPasswordKey]}).

(** ** Facts *)
(** The operator-global credential is used (a copy synced and mounted) only
    for an App without its own repoAuth, with the feature enabled, and with a
    repository whose parsed host matches an allowlist entry; repoAuth always wins,
    never copies, and every other App clones anonymously. *)
Theorem decideGitCredential_correct `{GoRuntime} app cfg :
  let d := decideGitCredential app cfg in
  (gc_syncCopy d = true ↔
     as_RepoAuth (app_Spec app) = None ∧ Enabled cfg = true ∧
     ∃ host h, RepoHost (as_Repo (app_Spec app)) = Ok host ∧ h ∈ ga_Hosts cfg ∧
       EqualFold host (TrimSpace h) = true) ∧
  (gc_syncCopy d = true → gc_secretName d = gitCredentialSecretName app) ∧
  (∀ ra, as_RepoAuth (app_Spec app) = Some ra → d = MkGitCred false (ras_Name (rac_SecretRef ra))) ∧
  (as_RepoAuth (app_Spec app) = None → gc_syncCopy d = false → d = anonymous).
Proof.
  cbv zeta. unfold decideGitCredential.
  destruct (as_RepoAuth (app_Spec app)) as [ra|].
  { split_and!; [split; [done|naive_solver]|done| |done]. by intros ? [= <-]. }
  assert (Ha : RepoHostAllowed (as_Repo (app_Spec app)) (ga_Hosts cfg) = true ↔
    ∃ host h, RepoHost (as_Repo (app_Spec app)) = Ok host ∧ h ∈ ga_Hosts cfg ∧
      EqualFold host (TrimSpace h) = true).
  { unfold RepoHostAllowed. destruct (RepoHost _); [rewrite existsb_elem|]; naive_solver. }
  destruct (Enabled cfg && RepoHostAllowed _ _) eqn:E; cbn [gc_syncCopy gc_secretName].
  - breflect. naive_solver.
  - split_and!; [|done..]. split; [done|]. intros (_ & He & Hh). rewrite He in E.
    apply Ha in Hh. by rewrite Hh in E.
Qed.

Lemma checkGitCredentialData_ok `{GoRuntime} data : checkGitCredentialData data = Ok tt ↔
  secret_value data gitAuthUsernameKey ≠ "" ∧ secret_value data gitAuthPasswordKey ≠ "".
Proof.
  unfold checkGitCredentialData. rewrite check_all_ok. split.
  - intros Hall. split.
    + specialize (Hall gitAuthUsernameKey ltac:(by left)).
      by destruct (String.eqb_spec (secret_value data gitAuthUsernameKey) "").
    + specialize (Hall gitAuthPasswordKey ltac:(right; by left)).
      by destruct (String.eqb_spec (secret_value data gitAuthPasswordKey) "").
  - intros [H1 H2] k [->|[->|[]%not_elem_of_nil]%elem_of_cons]%elem_of_cons.
    + by destruct (String.eqb_spec (secret_value data gitAuthUsernameKey) "").
    + by destruct (String.eqb_spec (secret_value data gitAuthPasswordKey) "").
Qed.

(** ** Containers and volumes of a pod *)
Definition all_containers (p : PodSpec) : list Container := p_InitContainers p ++ p_Containers p.

Lemma addGitCredential_containers pod n s h :
  all_containers (addGitCredential pod n s h) =
  if String.eqb h "" then all_containers pod
  else map (with_credential n h) (all_containers pod).
Proof.
  unfold addGitCredential, all_containers. destruct (String.eqb h ""); [done|]. cbn.
  by rewrite map_app.
Qed.

Lemma mount_credential_containers `{GoRuntime} pod n app d :
  ∃ f, all_containers (mount_credential pod n app d) = map f (all_containers pod) ∧
    ∀ c, f c = c ∨ f c = with_credential n (repo_host_or_empty (as_Repo (app_Spec app))) c.
Proof.
  unfold mount_credential. destruct (mounts d).
  - rewrite addGitCredential_containers. destruct (String.eqb _ "").
    + exists id. rewrite map_id. auto.
    + eexists. split; [done|]. auto.
  - exists id. rewrite map_id. auto.
Qed.

Lemma with_credential_name n h c : k_Name (with_credential n h c) = k_Name c.
Proof. unfold with_credential. by destruct (_ && _). Qed.
Lemma with_credential_other n h c : n ≠ "" → k_Name c ≠ n → with_credential n h c = c.
Proof.
  intros Hn Hc. unfold with_credential.
  by rewrite (proj2 (String.eqb_neq _ _) Hn), (proj2 (String.eqb_neq _ _) Hc).
Qed.
