(* ===== verification/BuildPod.v ===== *)
(** internal/controller/buildpod.go: the build pod. *)
From Stdlib Require Import ZArith Ascii String.
From stdpp Require Import base gmap strings list numbers sorting.
From S2P Require Import Prelude GoStd GoNum Images BuildSpec RepoHost AppTypes Kube Config BuildSteps Naming AppView GitCred.

Open Scope string_scope.
Open Scope list_scope.
Open Scope Z_scope.

(* Go: internal/controller/buildpod.go workMountPath @18-38 *)
Definition workMountPath : string := "/work".
Definition cacheMountPath : string := "/cache".
Definition dataMountPath : string := "/data".
Definition outputMountPath : string := "/output".
Definition volWork : string := "work".
Definition volCache : string := "cache".
Definition volData : string := "data".
Definition volOutput : string := "output".
Definition volTmp : string := "tmp".
Definition volShim : string := "shim".
Definition shimMountPath : string := "/baker".
Definition shimBinary : string := "/baker/shim".

(** ** Security contexts *)
(* Go: internal/controller/buildpod.go hardenedSecurityContext *)
Definition hardenedSecurityContext : SecurityContext :=
  MkSecurityContext None None (Some true) (Some true) (Some false) ["ALL"] [] (Some "RuntimeDefault").

(* Go: internal/controller/buildpod.go resolvedSecurityContext *)
Definition resolvedSecurityContext (rp : ResolvedPhase) : SecurityContext :=
  match rp_RunAsUser rp with
  | Some uid => hardenedSecurityContext <| sc_RunAsUser := Some uid |>
  | None => hardenedSecurityContext
  end.

(* Go: internal/controller/buildpod.go withHome *)
Definition withHome (rp : ResolvedPhase) (l : list KEnvVar) : list KEnvVar :=
  if String.eqb (rp_Home rp) "" then l else l ++ [env "HOME" (rp_Home rp)].

(* Go: internal/controller/buildpod.go nginxUID @78-79 *)
Definition nginxUID : Z := 101.
(* Go: internal/controller/buildpod.go nginxSecurityContext *)
Definition nginxSecurityContext : SecurityContext :=
  hardenedSecurityContext <| sc_RunAsUser := Some nginxUID |> <| sc_RunAsGroup := Some nginxUID |>.

(* Go: internal/controller/buildpod.go clockUID @97-103 *)
Definition clockUID : Z := 65532.
(* Go: internal/controller/buildpod.go clockSecurityContext *)
Definition clockSecurityContext : SecurityContext :=
  hardenedSecurityContext <| sc_RunAsUser := Some clockUID |>.

(** ** Commands and environment *)
(* Go: internal/controller/buildpod.go commandOrNoop *)
Definition commandOrNoop (cmd : nilable (list string)) : list string :=
  match default [] cmd with [] => ["true"] | l => l end.

(* Go: internal/controller/buildpod.go shimWrap *)
Definition shimWrap (cmd : list string) : list string := [shimBinary; "--"] ++ cmd.

(* Go: internal/controller/buildpod.go toEnvVars *)
Definition toEnvVars (l : list EnvVar) : list KEnvVar :=
  map (λ e, MkKEnvVar (ev_Name e) (ev_Value e)
              (match ev_ValueFrom e ≫= evs_ConfigMapKeyRef with
               | Some r => Some (FromConfigMap (cmk_Name r) (cmk_Key r))
               | None => None
               end)) l.

(* Go: internal/controller/buildpod.go envMapVars *)
Definition envMapVars (m : gmap string string) : list KEnvVar :=
  let keys := merge_sort string_le (map fst (map_to_list m)) in
  map (λ k, env k (default "" (m !! k))) keys.

(* Go: internal/controller/buildpod.go toSecretEnvVars *)
Definition toSecretEnvVars (l : list EnvVarWithSecret) : list KEnvVar :=
  map (λ e, let k := evss_SecretKeyRef (evw_ValueFrom e) in
            MkKEnvVar (evw_Name e) "" (Some (FromSecret (sks_Name k) (sks_Key k)))) l.

(* Go: internal/controller/buildpod.go resolvePhase *)
Definition resolvePhase (r : AppReconciler) (app : App) (phase : ApiPhaseSpec) : ResolvedPhase :=
  ResolvePhase (aps_Image phase) (aps_RunAsUser phase) (pl_NodeVersion (app_Pipeline app))
    (cfg_NodeImages (r_Config r)) (img_Clone (cfg_Images (r_Config r))).

(** ** Volumes *)
(* Go: internal/controller/buildpod.go buildVolumesAndMounts *)
Definition buildVolumesAndMounts (app : App) : list Volume * VolumeMount :=
  ([MkVolume volWork (EmptyDir None);
    MkVolume volTmp (EmptyDir None);
    MkVolume volCache (PVCSource (cacheePVCName app) false);
    MkVolume volData (PVCSource (dataCachePVCName app) false)],
   mount volCache cacheMountPath).

(* Go: internal/controller/buildpod.go commonMounts *)
Definition commonMounts : list VolumeMount := [mount volWork workMountPath; mount volTmp "/tmp"].

(* Go: internal/controller/buildpod.go pkgManagerEnv *)
Definition pkgManagerEnv (app : App) : list KEnvVar :=
  if String.eqb (pl_PackageManager (app_Pipeline app)) PackageManagerPnpm
  then [env "npm_config_store_dir" (cacheMountPath +:+ "/pnpm-store")]
  else [env "YARN_CACHE_FOLDER" (cacheMountPath +:+ "/yarn")].

Section build_pod.
Context `{GoRuntime} `{KubeLib}.

(* Go: internal/controller/buildpod.go phaseResourceRequirements *)
Definition phaseResourceRequirements (cfg : OperatorConfig) (phaseName userMemLimit : string)
    : ResourceRequirements :=
  let d := cfg_PhaseResourceDefaults cfg in
  let memCeiling :=
    if negb (String.eqb userMemLimit "") then
      match ParseQuantity userMemLimit with
      | Ok q => q
      | Err _ => MemoryForPhase d phaseName
      end
    else MemoryForPhase d phaseName in
  MkResourceRequirements {["memory" := memCeiling; "cpu" := prd_CPURequest d]}
    {["memory" := memCeiling; "cpu" := prd_CPULimit d]}.

(** ** The containers of the build pod *)
(* Go: internal/controller/buildpod.go BuildJob @263-275 *)
Definition shimInstall (r : AppReconciler) : Container :=
  zero_container <| k_Name := "shim-install" |>
    <| k_Image := img_Shim (cfg_Images (r_Config r)) |>
    <| k_Command := ["/shim"; "install"; shimBinary] |>
    <| k_VolumeMounts := [mount volShim shimMountPath] |>
    <| k_SecurityContext := Some hardenedSecurityContext |>.

(* Go: internal/controller/buildpod.go BuildJob @276-277 *)
Definition shimMount : VolumeMount := MkVolumeMount volShim shimMountPath true.

(* Go: internal/controller/buildpod.go BuildJob @292-328 *)
Definition cloneContainer (r : AppReconciler) (app : App) : Container :=
  let cloneEnv :=
    [env "REPO" (as_Repo (app_Spec app)); env "REF" (as_Ref (app_Spec app));
     env "SRC_DIR" workMountPath; env "CLONE_RETRIES" (Itoa (cfg_CloneRetries (r_Config r)));
     env "CLONE_RETRY_BASE_DELAY" (Itoa (cfg_CloneRetryBaseDelay (r_Config r)))]
    ++ (if pl_Submodules (app_Pipeline app) then [env "SUBMODULES" "1"] else []) in
  let buildR := resolvePhase r app (bps_PhaseSpec (app_BuildPhase app)) in
  zero_container <| k_Name := "clone" |> <| k_Image := img_Clone (cfg_Images (r_Config r)) |>
    <| k_Env := cloneEnv |> <| k_VolumeMounts := commonMounts |>
    <| k_SecurityContext := Some (resolvedSecurityContext buildR) |>.

(** The shape the three wrapped user phases share. *)
(* Go: internal/controller/buildpod.go BuildJob @330-387 *)
Definition phase_container (name : string) (rp : ResolvedPhase) (cmd : list string)
    (envs : list KEnvVar) (ms : list VolumeMount) (res : ResourceRequirements) : Container :=
  zero_container <| k_Name := name |> <| k_Image := rp_Image rp |> <| k_Command := shimWrap cmd |>
    <| k_WorkingDir := workMountPath |> <| k_Env := withHome rp envs |>
    <| k_VolumeMounts := ms |> <| k_Resources := res |>
    <| k_SecurityContext := Some (resolvedSecurityContext rp) |>.

(* Go: internal/controller/buildpod.go BuildJob @330-341 *)
Definition setupContainer (r : AppReconciler) (app : App) : Container :=
  let setupSpec := fst (effectiveSetup app (r_Config r)) in
  phase_container "setup" (resolvePhase r app setupSpec) (commandOrNoop (aps_Command setupSpec))
    (pkgManagerEnv app ++ toEnvVars (aps_Env setupSpec) ++ envMapVars (aps_EnvMap setupSpec))
    (commonMounts ++ [snd (buildVolumesAndMounts app); shimMount])
    (phaseResourceRequirements (r_Config r) "setup" (aps_MemoryLimit setupSpec)).

(* Go: internal/controller/buildpod.go BuildJob @343-362 *)
Definition fetchContainer (r : AppReconciler) (app : App) : Container :=
  let p := fps_PhaseSpec (app_Fetch app) in
  phase_container "fetch" (resolvePhase r app p) (commandOrNoop (aps_Command p))
    (toEnvVars (aps_Env p) ++ envMapVars (aps_EnvMap p) ++ toSecretEnvVars (fps_Secrets (app_Fetch app)))
    (commonMounts ++ [mount volData dataMountPath; shimMount])
    (phaseResourceRequirements (r_Config r) "fetch" (aps_MemoryLimit p)).

(* Go: internal/controller/buildpod.go BuildJob @364-387 *)
Definition buildContainer (r : AppReconciler) (app : App) : Container :=
  let p := bps_PhaseSpec (app_BuildPhase app) in
  phase_container "build" (resolvePhase r app p) (default [] (aps_Command p))
    (pkgManagerEnv app ++ toEnvVars (aps_Env p) ++ envMapVars (aps_EnvMap p))
    (commonMounts ++ [snd (buildVolumesAndMounts app); mount volData dataMountPath; shimMount])
    (phaseResourceRequirements (r_Config r) "build" (aps_MemoryLimit p)).

(* Go: internal/controller/buildpod.go BuildJob @389-414 *)
Definition copierContainer (r : AppReconciler) (app : App) (token : string) : Container :=
  let outputDir := bps_OutputDir (app_BuildPhase app) in
  zero_container <| k_Name := "copier" |> <| k_Image := img_Copier (cfg_Images (r_Config r)) |>
    <| k_Env := [env "BUILD_TOKEN" token; env "WORKSPACE" workMountPath;
                 env "OUTPUT_ROOT" outputMountPath;
                 env "OUTPUT_DIR" (if String.eqb outputDir "" then "dist" else outputDir);
                 env "KEEP_RELEASES" (Itoa (as_KeepReleases (app_Spec app)))] |>
    <| k_VolumeMounts := commonMounts ++ [mount volOutput outputMountPath;
                                          MkVolumeMount volData dataMountPath true] |>
    <| k_TerminationMessagePolicy := "FallbackToLogsOnError" |>
    <| k_SecurityContext := Some hardenedSecurityContext |>.

Definition pull_secrets (cfg : OperatorConfig) : list string :=
  if String.eqb (cfg_ImagePullSecret cfg) "" then [] else [cfg_ImagePullSecret cfg].

Definition pod_security : option PodSecurityContext :=
  Some (MkPodSecurityContext (Some true) (Some "RuntimeDefault")).

(* Go: internal/controller/buildpod.go BuildJob @416-453 *)
Definition buildPodSpec (r : AppReconciler) (app : App) (token : string)
    (gitCred : gitCredentialDecision) : PodSpec :=
  let setupOn := snd (effectiveSetup app (r_Config r)) in
  let inits := [shimInstall r; cloneContainer r app]
               ++ (if setupOn then [setupContainer r app] else [])
               ++ [fetchContainer r app; buildContainer r app] in
  let volumes := fst (buildVolumesAndMounts app)
                 ++ [MkVolume volShim (EmptyDir (Some (MkQuantity "16Mi")))]
                 ++ [MkVolume volOutput (PVCSource (outputPVCName app) false)] in
  mount_credential
    (MkPodSpec "Never" "" (Some false) pod_security inits [copierContainer r app token] volumes
       (pull_secrets (r_Config r)) "")
    "clone" app gitCred.

(* Go: internal/controller/buildpod.go BuildJob *)
Definition BuildJob (r : AppReconciler) (app : App) (token : string)
    (gitCred : gitCredentialDecision) : Job :=
  MkJob ((object_meta (buildJobName app token) (app_Namespace app) (buildLabelsFor app))
           <| om_Annotations := {[RebuildAnnotation := token;
                                  SpecHashAnnotation := Hash (buildSpecFrom app)]} |>)
    (MkJobSpec (Some 0) (Some (buildDeadlineSeconds r app)) None (buildLabelsFor app)
       (buildPodSpec r app token gitCred)) [].
End build_pod.

(** ** What the build pod lets each container see *)
Section pod_facts.
Context `{GoRuntime} `{KubeLib} (r : AppReconciler) (app : App) (token : string)
  (d : gitCredentialDecision).

Definition base_containers : list Container :=
  [shimInstall r; cloneContainer r app]
  ++ (if snd (effectiveSetup app (r_Config r)) then [setupContainer r app] else [])
  ++ [fetchContainer r app; buildContainer r app; copierContainer r app token].

(** The host the credential is scoped to. *)
Definition cred_host : string := repo_host_or_empty (as_Repo (app_Spec app)).
Definition credential_mounted : Prop := mounts d = true ∧ cred_host ≠ "".

Lemma build_pod_container c :
  c ∈ all_containers (buildPodSpec r app token d) →
  c ∈ base_containers ∨
  (c = with_credential "clone" cred_host (cloneContainer r app) ∧ credential_mounted).
Proof.
  unfold buildPodSpec, mount_credential, credential_mounted, cred_host.
  assert (Hb : ∀ c, c ∈ [shimInstall r; cloneContainer r app]
      ++ (if snd (effectiveSetup app (r_Config r)) then [setupContainer r app] else [])
      ++ [fetchContainer r app; buildContainer r app] ++ [copierContainer r app token] →
      c ∈ base_containers).
  { intros c' Hc. exact Hc. }
  destruct (mounts d); [rewrite addGitCredential_containers|].
  1: destruct (String.eqb_spec (repo_host_or_empty (as_Repo (app_Spec app))) "") as [|Hh].
  2: { unfold all_containers. cbn [p_InitContainers p_Containers]. rewrite <- !app_assoc.
       intros (c0 & -> & Hc)%list_elem_of_fmap. apply Hb in Hc.
       destruct (decide (k_Name c0 = "clone")) as [En|En].
       - right. split; [|done]. f_equal. revert En. unfold base_containers in Hc.
         repeat rewrite ?elem_of_app, ?elem_of_cons, ?elem_of_nil in Hc.
         destruct (snd _); repeat rewrite ?elem_of_cons, ?elem_of_nil in Hc;
           naive_solver.
       - left. by rewrite with_credential_other. }
  all: unfold all_containers; cbn [p_InitContainers p_Containers]; rewrite <- !app_assoc;
    intros Hc; left; by apply Hb.
Qed.

(** Case analysis over the containers of the pod. *)
Lemma build_pod_ind (P : Container → Prop) :
  P (shimInstall r) → P (cloneContainer r app) →
  (credential_mounted → P (with_credential "clone" cred_host (cloneContainer r app))) →
  P (setupContainer r app) → P (fetchContainer r app) → P (buildContainer r app) →
  P (copierContainer r app token) →
  ∀ c, c ∈ all_containers (buildPodSpec r app token d) → P c.
Proof.
  intros P1 P2 P3 P4 P5 P6 P7 c [Hc|[-> ?]]%build_pod_container; [|auto].
  unfold base_containers in Hc. repeat rewrite ?elem_of_app, ?elem_of_cons, ?elem_of_nil in Hc.
  destruct (snd _); repeat rewrite ?elem_of_cons, ?elem_of_nil in Hc; naive_solver.
Qed.

Definition reads_secret_env (c : Container) : Prop :=
  Exists (λ e, ∃ n k, ke_ValueFrom e = Some (FromSecret n k)) (k_Env c).

Lemma no_secret_withHome rp l :
  Exists (λ e, ∃ n k, ke_ValueFrom e = Some (FromSecret n k)) (withHome rp l) →
  Exists (λ e, ∃ n k, ke_ValueFrom e = Some (FromSecret n k)) l.
Proof.
  unfold withHome. destruct (String.eqb _ _); [done|]. rewrite Exists_app, Exists_cons, Exists_nil.
  cbn. naive_solver.
Qed.
Lemma no_secret_public l m :
  ¬ Exists (λ e, ∃ n k, ke_ValueFrom e = Some (FromSecret n k)) (toEnvVars l ++ envMapVars m).
Proof.
  rewrite Exists_app, !Exists_exists. unfold toEnvVars, envMapVars.
  intros [(e & (x & -> & _)%list_elem_of_fmap & n & k & E)|(e & (x & -> & _)%list_elem_of_fmap & n & k & E)].
  - cbn in E. by destruct (_ ≫= _).
  - done.
Qed.
Lemma no_secret_pkg l m :
  ¬ Exists (λ e, ∃ n k, ke_ValueFrom e = Some (FromSecret n k))
      (pkgManagerEnv app ++ toEnvVars l ++ envMapVars m).
Proof.
  rewrite Exists_app. intros [E|E%no_secret_public]; [|done].
  unfold pkgManagerEnv in E. destruct (String.eqb _ _); apply Exists_cons in E;
    rewrite Exists_nil in E; cbn in E; naive_solver.
Qed.
Lemma no_secret_literal c :
  Forall (λ e, ke_ValueFrom e = None) (k_Env c) → ¬ reads_secret_env c.
Proof.
  intros Hf He. apply Exists_exists in He as (e & Hin & n & k & E).
  rewrite Forall_forall in Hf. rewrite (Hf e Hin) in E. done.
Qed.

(** Secret-sourced environment reaches the fetch container only: no other
    container of the build pod has an env entry that reads a Secret, whatever the
    spec says. *)
Lemma secrets_only_in_fetch c :
  c ∈ all_containers (buildPodSpec r app token d) → reads_secret_env c → k_Name c = "fetch".
Proof.
  revert c. apply (build_pod_ind (λ c, reads_secret_env c → k_Name c = "fetch")).
  - intros He. exfalso. revert He. apply no_secret_literal. cbn. by constructor.
  - intros He. exfalso. revert He. apply no_secret_literal. cbn.
    destruct (pl_Submodules _); repeat constructor.
  - intros _ He. exfalso. revert He. apply no_secret_literal. cbn.
    destruct (pl_Submodules _); repeat constructor.
  - intros He%no_secret_withHome. by apply no_secret_pkg in He.
  - done.
  - intros He%no_secret_withHome. by apply no_secret_pkg in He.
  - intros He. exfalso. revert He. apply no_secret_literal. cbn. repeat constructor.
Qed.

Definition mounts_volume (c : Container) (v : string) : Prop :=
  Exists (λ m, vm_Name m = v) (k_VolumeMounts c).
#[global] Instance mounts_volume_dec c v : Decision (mounts_volume c v).
Proof. unfold mounts_volume. apply _. Defined.

Lemma mount_names_not c v :
  bool_decide (v ∈ map vm_Name (k_VolumeMounts c)) = false → ¬ mounts_volume c v.
Proof.
  intros Hb He. apply bool_decide_eq_false in Hb. apply Hb.
  apply Exists_exists in He as (m & Hm & <-). by apply list_elem_of_fmap_2.
Qed.

Lemma suffix_neq a p q : p ≠ q → a +:+ p ≠ a +:+ q.
Proof. intros Hn E. by apply str_app_inj in E. Qed.

(** The volume of the pod whose source is the output claim is the one named
    "output". *)
Lemma output_volume v ro :
  v ∈ p_Volumes (buildPodSpec r app token d) →
  v_Source v = PVCSource (outputPVCName app) ro → v_Name v = volOutput.
Proof.
  assert (Hbase : ∀ v, v ∈ fst (buildVolumesAndMounts app)
      ++ [MkVolume volShim (EmptyDir (Some (MkQuantity "16Mi")))]
      ++ [MkVolume volOutput (PVCSource (outputPVCName app) false)] →
      v_Source v = PVCSource (outputPVCName app) ro → v_Name v = volOutput).
  { intros v'. unfold buildVolumesAndMounts. cbn [fst Datatypes.app].
    repeat rewrite ?elem_of_cons, ?elem_of_nil.
    assert (cacheePVCName app ≠ outputPVCName app) by (by apply suffix_neq).
    assert (dataCachePVCName app ≠ outputPVCName app) by (by apply suffix_neq).
    intros [->|[->|[->|[->|[->|[->|[]]]]]]]; cbn; congruence. }
  unfold buildPodSpec, mount_credential. destruct (mounts d); [|apply Hbase].
  unfold addGitCredential. destruct (String.eqb _ ""); [apply Hbase|].
  intros [Hv|Hv]%elem_of_app; [by apply Hbase|]. by apply list_elem_of_singleton in Hv as ->.
Qed.

(** The published output is out of reach of user code: the only container of
    the build pod that mounts the output claim is the copier, under whatever
    volume name the claim appears. *)
Lemma output_only_in_copier c v ro :
  c ∈ all_containers (buildPodSpec r app token d) →
  v ∈ p_Volumes (buildPodSpec r app token d) →
  v_Source v = PVCSource (outputPVCName app) ro →
  mounts_volume c (v_Name v) → k_Name c = "copier".
Proof.
  intros Hc Hv Hs. rewrite (output_volume _ _ Hv Hs). clear Hv Hs. revert c Hc.
  apply (build_pod_ind (λ c, mounts_volume c volOutput → k_Name c = "copier")); try done;
    try (intros Hm; exfalso; revert Hm; apply mount_names_not; reflexivity).
  intros _ Hm. exfalso. revert Hm. apply mount_names_not. reflexivity.
Qed.

(** Non-root, read-only root, no privilege escalation, no capabilities, the
    runtime's seccomp profile. *)
Definition hardened (sc : SecurityContext) : Prop :=
  sc_RunAsNonRoot sc = Some true ∧ sc_ReadOnlyRootFilesystem sc = Some true ∧
  sc_AllowPrivilegeEscalation sc = Some false ∧ sc_CapDrop sc = ["ALL"] ∧ sc_CapAdd sc = [] ∧
  sc_Seccomp sc = Some "RuntimeDefault".

Lemma resolved_hardened rp : hardened (resolvedSecurityContext rp).
Proof. unfold resolvedSecurityContext. by destruct (rp_RunAsUser rp). Qed.

(** C18: every container of the build pod is hardened, whatever the spec says, and
    the pod carries no service-account token. *)
Theorem build_pod_hardened c :
  c ∈ all_containers (buildPodSpec r app token d) →
  (∃ sc, k_SecurityContext c = Some sc ∧ hardened sc) ∧
  p_AutomountServiceAccountToken (buildPodSpec r app token d) = Some false.
Proof.
  intros Hc. split.
  - revert c Hc. apply build_pod_ind; intros; eexists; (split; [reflexivity|]);
      first [by apply resolved_hardened | done].
  - unfold buildPodSpec, mount_credential, addGitCredential.
    destruct (mounts d); [|done].
    by destruct (String.eqb (repo_host_or_empty (as_Repo (app_Spec app))) "").
Qed.

(** The user id a phase may ask for is non-root (the schema's minimum is 1). *)
Definition non_root_uid (u : option Z) : Prop := ∀ uid, u = Some uid → 1 ≤ uid.
Definition admitted_uids : Prop :=
  non_root_uid (aps_RunAsUser (sps_PhaseSpec (app_Setup app))) ∧
  non_root_uid (aps_RunAsUser (fps_PhaseSpec (app_Fetch app))) ∧
  non_root_uid (aps_RunAsUser (bps_PhaseSpec (app_BuildPhase app))).

Lemma resolved_uid p :
  map_Forall (λ _ ni, node_image_ok ni) (cfg_NodeImages (r_Config r)) →
  non_root_uid (aps_RunAsUser p) →
  non_root_uid (sc_RunAsUser (resolvedSecurityContext (resolvePhase r app p))).
Proof.
  intros Hni Hp uid. unfold resolvedSecurityContext.
  destruct (rp_RunAsUser _) as [u|] eqn:E; cbn; [|done]. intros [= <-].
  unfold resolvePhase, ResolvePhase in E. destruct (negb _); [by apply Hp|].
  destruct (LookupNodeImage _ _) as [ni|] eqn:El; [|done]. cbn in E.
  unfold LookupNodeImage in El. destruct (_ =? 0); [done|].
  destruct (Hni _ _ El) as (_ & u' & Eu & ?). congruence.
Qed.

(** No container of the build pod is ever pinned to root: with a loaded
    configuration and an admitted spec every pinned uid is at least 1, and the
    clone container runs as the build phase's uid, so that the checkout is
    writable by the build. *)
Theorem build_pod_non_root c :
  config_ok (r_Config r) → admitted_uids →
  c ∈ all_containers (buildPodSpec r app token d) →
  (∀ sc, k_SecurityContext c = Some sc → non_root_uid (sc_RunAsUser sc)) ∧
  k_SecurityContext (cloneContainer r app) = k_SecurityContext (buildContainer r app).
Proof.
  intros (_ & Hni & _) (Hs & Hf & Hb) Hc. split; [|done]. revert c Hc.
  assert (Hes : non_root_uid (aps_RunAsUser (fst (effectiveSetup app (r_Config r))))).
  { unfold effectiveSetup. destruct (negb _); cbn; [done|]. destruct (phaseConfigured _); done. }
  apply (build_pod_ind (λ c, ∀ sc, k_SecurityContext c = Some sc → non_root_uid (sc_RunAsUser sc))).
  3: intros _.
  all: intros sc E; injection E as <-; try (by apply resolved_uid); intros ? [=].
Qed.

(** A phase container always runs under a memory limit, with the request
    pinned to it: the user's limit when it parses, else the operator's default for
    the phase; a malformed limit can never remove the ceiling. *)
Theorem memory_always_limited cfg phase user :
  ∃ q, rr_Limits (phaseResourceRequirements cfg phase user) !! "memory" = Some q ∧
    rr_Requests (phaseResourceRequirements cfg phase user) !! "memory" = Some q ∧
    (q = MemoryForPhase (cfg_PhaseResourceDefaults cfg) phase ∨
     user ≠ "" ∧ ParseQuantity user = Ok q) ∧
    (∀ q', user ≠ "" → ParseQuantity user = Ok q' → q = q').
Proof.
  unfold phaseResourceRequirements. cbn [rr_Limits rr_Requests].
  eexists. split_and!; [reflexivity | reflexivity |..].
  - destruct (String.eqb_spec user "") as [|]; cbn [negb]; [by left|].
    destruct (ParseQuantity user); auto.
  - intros q' Hn E. rewrite (proj2 (String.eqb_neq _ _) Hn). cbn [negb]. by rewrite E.
Qed.

(** The git credential is mounted into the clone container only, and only
    together with the host it is scoped to: any container that mounts the
    credential volume is clone, and its environment pins GIT_CREDENTIAL_HOST to
    the non-empty host parsed from the repository URL; without a parsed host or
    a credential decision nothing is mounted. *)
Lemma credential_only_in_clone c :
  c ∈ all_containers (buildPodSpec r app token d) → mounts_volume c volGitCred →
  k_Name c = "clone" ∧ mounts d = true ∧
  ∃ host, RepoHost (as_Repo (app_Spec app)) = Ok host ∧ host ≠ "" ∧
    env gitCredHostEnv host ∈ k_Env c.
Proof.
  revert c. apply (build_pod_ind (λ c, mounts_volume c volGitCred → k_Name c = "clone" ∧ mounts d = true ∧
    ∃ host, RepoHost (as_Repo (app_Spec app)) = Ok host ∧ host ≠ "" ∧ env gitCredHostEnv host ∈ k_Env c)).
  3: { intros [Hm Hh] _. split; [done|]. split; [done|]. unfold cred_host, repo_host_or_empty in *.
       destruct (RepoHost _) as [h|]; [|done]. exists h. split_and!; [done..|].
       cbn. repeat rewrite ?elem_of_app, ?elem_of_cons. tauto. }
  all: intros Hm; exfalso; revert Hm; apply mount_names_not; reflexivity.
Qed.

(** C17: each container of a build pod reaches only what its phase needs.  Whatever the spec
    says, an environment entry that reads a Secret occurs in fetch only; the git credential
    is mounted into clone only, with the non-empty host parsed from the repository URL pinned
    in GIT_CREDENTIAL_HOST, and only if the operator decided to mount one; and the published
    output claim, under whatever volume name it appears, is mounted by the copier only. *)
Theorem build_pod_isolation c :
  c ∈ all_containers (buildPodSpec r app token d) →
  (reads_secret_env c → k_Name c = "fetch") ∧
  (mounts_volume c volGitCred → k_Name c = "clone" ∧ mounts d = true ∧
     ∃ host, RepoHost (as_Repo (app_Spec app)) = Ok host ∧ host ≠ "" ∧ env gitCredHostEnv host ∈ k_Env c) ∧
  (∀ v ro, v ∈ p_Volumes (buildPodSpec r app token d) → v_Source v = PVCSource (outputPVCName app) ro →
     mounts_volume c (v_Name v) → k_Name c = "copier").
Proof.
  intros Hc. split; [by apply secrets_only_in_fetch|]. split; [by apply credential_only_in_clone|].
  intros v ro Hv Hs. by apply (output_only_in_copier c v ro).
Qed.
End pod_facts.

(** ** Witnesses *)
Definition sample_reconciler : AppReconciler :=
  MkAppReconciler sample_config "local-path" "traefik" "baker-system".

(** The sample app with a fetch phase that reads a Secret. *)
Definition fetch_app : App :=
  sample_app <| app_Spec ::= λ s, s <| as_Pipeline ::= λ p, p <| pl_Phases ::= λ ph,
    ph <| phs_Fetch := MkFetchPhaseSpec (zero_phase <| aps_Command := Some ["fetch.sh"] |>)
            [MkEnvVarWithSecret "TOKEN" (MkEnvVarWithSecretSource (MkSecretKeySelector "api" "token"))]
       |> |> |> |>.
Definition sample_cred : gitCredentialDecision := MkGitCred true "site-git-credential".
Definition sample_pod : PodSpec :=
  buildPodSpec (H := ascii_only_tables) (H0 := any_quantity) sample_reconciler fetch_app "t1" sample_cred.

(** In the pod of that App the fetch container reads the Secret, clone mounts the credential
    and the copier the output. *)
Lemma build_pod_isolation_witness :
  let fetch := fetchContainer (H0 := any_quantity) sample_reconciler fetch_app in
  let clone := with_credential "clone" "github.com" (cloneContainer sample_reconciler fetch_app) in
  let copier := copierContainer sample_reconciler fetch_app "t1" in
  (fetch ∈ all_containers sample_pod ∧ reads_secret_env fetch ∧ k_Name fetch = "fetch") ∧
  (clone ∈ all_containers sample_pod ∧ mounts_volume clone volGitCred ∧ k_Name clone = "clone") ∧
  (copier ∈ all_containers sample_pod ∧ mounts_volume copier volOutput ∧ k_Name copier = "copier").
Proof.
  intros fetch clone copier.
  pose proof (build_pod_isolation (H := ascii_only_tables) (H0 := any_quantity)
    sample_reconciler fetch_app "t1" sample_cred) as Hall.
  assert (Hr : reads_secret_env fetch) by (left; exists "api", "token"; reflexivity).
  assert (Hf : fetch ∈ all_containers sample_pod) by (apply (bool_decide_unpack _); vm_compute; exact I).
  assert (Hc : clone ∈ all_containers sample_pod) by (apply (bool_decide_unpack _); vm_compute; exact I).
  assert (Hp : copier ∈ all_containers sample_pod) by (apply (bool_decide_unpack _); vm_compute; exact I).
  assert (Hg : mounts_volume clone volGitCred) by (apply (bool_decide_unpack _); vm_compute; exact I).
  assert (Ho : mounts_volume copier volOutput) by (apply (bool_decide_unpack _); vm_compute; exact I).
  split; [|split]; (split; [assumption|]); (split; [assumption|]).
  - exact (proj1 (Hall fetch Hf) Hr).
  - exact (proj1 (proj1 (proj2 (Hall clone Hc)) Hg)).
  - refine (proj2 (proj2 (Hall copier Hp)) (MkVolume volOutput (PVCSource (outputPVCName fetch_app) false)) false _ eq_refl Ho).
    apply (bool_decide_unpack _). vm_compute. exact I.
Defined.

Lemma build_pod_hardened_witness :
  ∃ sc, k_SecurityContext (buildContainer (H0 := any_quantity) sample_reconciler fetch_app) = Some sc
    ∧ hardened sc.
Proof.
  apply (build_pod_hardened (H := ascii_only_tables) (H0 := any_quantity)
    sample_reconciler fetch_app "t1" sample_cred).
  apply (bool_decide_unpack _). vm_compute. exact I.
Defined.

Lemma build_pod_non_root_witness :
  k_SecurityContext (cloneContainer sample_reconciler fetch_app) =
    Some (hardenedSecurityContext <| sc_RunAsUser := Some 1000 |>) ∧
  non_root_uid (Some 1000).
Proof.
  split; [vm_compute; reflexivity|].
  refine (proj1 (build_pod_non_root (H := ascii_only_tables) (H0 := any_quantity)
    sample_reconciler fetch_app "t1" sample_cred
    (with_credential "clone" "github.com" (cloneContainer sample_reconciler fetch_app))
    sample_config_ok _ _)
    (hardenedSecurityContext <| sc_RunAsUser := Some 1000 |>) _).
  - split; [|split]; intros uid E; vm_compute in E; discriminate.
  - apply (bool_decide_unpack _). vm_compute. exact I.
  - vm_compute. reflexivity.
Defined.
