(* ===== verification/Children.v ===== *)
(** internal/controller/children.go: the owned children of an App: claims, trigger
    RBAC and CronJobs, network policies, and the serving stack. *)
From Stdlib Require Import ZArith Ascii String.
From stdpp Require Import base gmap strings list numbers sorting.
From S2P Require Import Prelude GoStd GoNum WatchSchedule BuildSpec RepoHost GoNet AppTypes Kube Config BuildSteps Naming AppView GitCred BuildPod.

Open Scope string_scope.
Open Scope list_scope.
Open Scope Z_scope.

(** [metav1.ObjectMeta{Name, Namespace: app.Namespace, Labels: labelsFor(app)}] *)
Definition child_meta (app : App) (name : string) : ObjectMeta :=
  object_meta name (app_Namespace app) (labelsFor app).

(* Go: internal/controller/children.go pvc *)
Definition pvc (app : App) (name storageClass : string) : kobject :=
  MkKobject (child_meta app name)
    (PersistentVolumeClaim ["ReadWriteOnce"] (Some storageClass) {["storage" := mustQuantity "1Gi"]}).

(** ** Triggers *)
(* Go: internal/controller/children.go clockServiceAccount *)
Definition clockServiceAccount (app : App) : kobject :=
  MkKobject (child_meta app (clockSAName app)) ServiceAccount.

(* Go: internal/controller/children.go clockRole *)
Definition clockRole (app : App) : kobject :=
  MkKobject (child_meta app (clockRoleName app))
    (Role [MkPolicyRule [GroupName] [AppResource] ["get"; "patch"] [app_Name app]]).

(* Go: internal/controller/children.go clockRoleBinding *)
Definition clockRoleBinding (app : App) : kobject :=
  MkKobject (child_meta app (clockBindingName app))
    (RoleBinding [("ServiceAccount", clockSAName app, app_Namespace app)]
       ("rbac.authorization.k8s.io", "Role", clockRoleName app)).

(* Go: internal/controller/children.go triggerCronJob *)
Definition triggerCronJob (r : AppReconciler) (app : App) (schedule : string)
    (extraEnv : list KEnvVar) : CronJobSpec :=
  let env_ :=
    [env "APP" (app_Name app); env "RESOURCE" (AppResource +:+ "." +:+ GroupName);
     env "REQUESTED_AT_ANNOTATION" RebuildAnnotation; env "BY_ANNOTATION" RebuildByAnnotation;
     env "COMMIT_ANNOTATION" RebuildCommitAnnotation; env "HOME" "/tmp"] ++ extraEnv in
  let podSpec :=
    MkPodSpec "Never" (clockSAName app) None pod_security []
      [zero_container <| k_Name := "clock" |> <| k_Image := img_Clock (cfg_Images (r_Config r)) |>
         <| k_Env := env_ |> <| k_VolumeMounts := [mount volTmp "/tmp"] |>
         <| k_SecurityContext := Some clockSecurityContext |>]
      [MkVolume volTmp (EmptyDir None)] (pull_secrets (r_Config r)) "" in
  MkCronJobSpec schedule "Forbid" (Some 1) (Some 1)
    (MkJobSpec (Some 2) None None (triggerLabelsFor app) podSpec).

(* Go: internal/controller/children.go clockCronJob *)
Definition clockCronJob (r : AppReconciler) (app : App) (sb : ScheduledBuildsSpec) : kobject :=
  let schedule := if String.eqb (sb_Schedule sb) "" then cfg_DefaultSchedule (r_Config r)
                  else sb_Schedule sb in
  MkKobject (child_meta app (clockCronJobName app)) (CronJob (triggerCronJob r app schedule [])).

(** The edit of a CronJob's pod spec. *)
Definition on_cron_pod (f : PodSpec → PodSpec) (c : CronJobSpec) : CronJobSpec :=
  c <| cj_JobTemplate ::= λ j, j <| js_Template ::= f |> |>.

(* Go: internal/controller/children.go watchCronJob *)
Definition watchCronJob `{GoRuntime} (r : AppReconciler) (app : App) (wc : WatchCommitsSpec)
    (gitCred : gitCredentialDecision) : result kobject :=
  let interval := if String.eqb (wc_Interval wc) "" then cfg_DefaultWatchInterval (r_Config r)
                  else wc_Interval wc in
  schedule ← WatchCron interval;
  let ref := if String.eqb (as_Ref (app_Spec app)) "" then "HEAD" else as_Ref (app_Spec app) in
  let watchEnv := [env "MODE" "watch"; env "REPO" (as_Repo (app_Spec app)); env "REF" ref;
                   env "LAST_SEEN_ANNOTATION" WatchLastSeenAnnotation] in
  let cj := triggerCronJob r app schedule watchEnv in
  mret (MkKobject (child_meta app (watchCronJobName app))
          (CronJob (on_cron_pod (λ pod, mount_credential pod "clock" app gitCred) cj))).

(** ** Network policies *)
Definition dns_ports : list (string * Z) := [("UDP", 53); ("TCP", 53)].

(** The egress of the pods that run git or user code: DNS to the cluster resolver,
    and everything outside the cluster ranges and the metadata address. *)
Definition fenced_egress (cfg : OperatorConfig) : list NetRule :=
  [MkNetRule [SelectorPeer (Some {["kubernetes.io/metadata.name" := "kube-system"]})
                (Some {["k8s-app" := "kube-dns"]})] dns_ports;
   MkNetRule [IPBlock "0.0.0.0/0" (cfg_ClusterCIDRs cfg ++ [MetadataIP])] []].

Definition role_selector (role : string) (app : App) : gmap string string :=
  {[roleLabel := role; instanceLabel := app_Name app]}.

(* Go: internal/controller/children.go triggerNetworkPolicy *)
Definition triggerNetworkPolicy (r : AppReconciler) (app : App) : kobject :=
  MkKobject (child_meta app (triggerNetPolName app))
    (NetworkPolicy (MkNetworkPolicySpec (role_selector "trigger" app) ["Ingress"; "Egress"] []
       (fenced_egress (r_Config r)))).

(* Go: internal/controller/children.go buildNetworkPolicy *)
Definition buildNetworkPolicy (r : AppReconciler) (app : App) : kobject :=
  MkKobject (child_meta app (buildNetPolName app))
    (NetworkPolicy (MkNetworkPolicySpec (role_selector "build" app) ["Ingress"; "Egress"] []
       (fenced_egress (r_Config r)))).

(* Go: internal/controller/children.go nginxNetworkPolicy *)
Definition nginxNetworkPolicy (app : App) (traefikNamespace : string) : kobject :=
  MkKobject (child_meta app (nginxNetPolName app))
    (NetworkPolicy (MkNetworkPolicySpec (role_selector "nginx" app) ["Ingress"; "Egress"]
       [MkNetRule [SelectorPeer (Some {["kubernetes.io/metadata.name" := traefikNamespace]}) None]
          [("TCP", 8080)]]
       [MkNetRule [] dns_ports])).

(** ** Serving *)
Definition nl : string := s1 newline.
(* Go: internal/controller/children.go nginxConfTemplate @227-235 *)
Definition nginxConfTemplate : string :=
  concat_strings (map (λ l, l +:+ nl)
    ["server {"; "    listen 8080;"; "    root /output/current;"; "    disable_symlinks if_not_owner;";
     "    location / {"; "        try_files $uri $uri/ /index.html;"; "    }"; "}"]).

(* Go: internal/controller/children.go nginxConfigMap *)
Definition nginxConfigMap (app : App) : kobject :=
  MkKobject (child_meta app (nginxConfigName app))
    (ConfigMap {["default.conf" := nginxConfTemplate]}).

(* Go: internal/controller/children.go nginxDeployment *)
Definition nginxDeployment (r : AppReconciler) (app : App) : kobject :=
  let labels := nginxLabelsFor app in
  let podSpec :=
    MkPodSpec "" "" (Some false) pod_security []
      [zero_container <| k_Name := "nginx" |> <| k_Image := img_Nginx (cfg_Images (r_Config r)) |>
         <| k_Ports := [8080] |>
         <| k_VolumeMounts := [MkVolumeMount volOutput outputMountPath true;
              mount "nginx-conf" "/etc/nginx/conf.d"; mount volTmp "/tmp";
              mount "nginx-cache" "/var/cache/nginx"; mount "nginx-run" "/var/run"] |>
         <| k_SecurityContext := Some nginxSecurityContext |>]
      [MkVolume volOutput (PVCSource (outputPVCName app) true);
       MkVolume "nginx-conf" (ConfigMapSource (nginxConfigName app));
       MkVolume volTmp (EmptyDir None); MkVolume "nginx-cache" (EmptyDir None);
       MkVolume "nginx-run" (EmptyDir None)]
      (pull_secrets (r_Config r)) "" in
  MkKobject (object_meta (nginxDeployName app) (app_Namespace app) labels)
    (Deployment (MkDeploymentSpec (Some 1) "Recreate" labels labels podSpec)).

(* Go: internal/controller/children.go service *)
Definition service (app : App) : kobject :=
  MkKobject (child_meta app (serviceName app)) (Service (nginxLabelsFor app) [(80, 8080)]).

Definition middlewaresKey : string := "traefik.ingress.kubernetes.io/router.middlewares".
Definition middlewareRef (app : App) : string :=
  app_Namespace app +:+ "-" +:+ middlewareName app +:+ "@kubernetescrd".

(* Go: internal/controller/children.go ingress *)
Definition ingress (app : App) : kobject :=
  let ic := as_Ingress (app_Spec app) in
  let annotations := match as_Auth (app_Spec app) with
                     | Some _ => <[middlewaresKey := middlewareRef app]> (ic_Annotations ic)
                     | None => ic_Annotations ic
                     end in
  MkKobject ((child_meta app (ingressName app)) <| om_Annotations := annotations |>)
    (Ingress (MkIngressSpec (ic_ClassName ic) (ic_Host ic) "/" "Prefix" (serviceName app) 80
       (match ic_TLS ic with Some t => [([ic_Host ic], tls_SecretName t)] | None => [] end))).

(** ** What the fence and the serving stack guarantee *)
(** One end of a connection, as the NetworkPolicy API sees it: an address and, for a pod,
    its namespace with that namespace's labels, and its own labels. *)
Record Endpoint := MkEndpoint {
  ep_IP : string;
  ep_Pod : option (string * gmap string string * gmap string string);
}.
(** Which traffic a policy lets through, as the networking.k8s.io/v1 API documents it: a
    policy isolates the pods it selects in the directions of its policyTypes and then
    allows what one of its rules allows; a rule without peers stands for everyone, one
    without ports for every port; a selector without a namespace selector means pods of
    the policy's own namespace; an IP block means its addresses without the excepted ones. *)
Section policy.
Context (in_block : string → string → Prop).

Definition peer_admits (ns : string) (p : Peer) (d : Endpoint) : Prop :=
  match p with
  | IPBlock cidr except => in_block cidr (ep_IP d) ∧ Forall (λ c, ¬ in_block c (ep_IP d)) except
  | SelectorPeer nsSel podSel => ∃ dns nsLabels labels, ep_Pod d = Some (dns, nsLabels, labels) ∧
      match nsSel with Some sel => matches sel nsLabels = true | None => dns = ns end ∧
      match podSel with Some sel => matches sel labels = true | None => True end
  end.
Definition rule_admits (ns : string) (rule : NetRule) (d : Endpoint) (proto : string) (port : Z) : Prop :=
  (nr_Peers rule = [] ∨ Exists (λ p, peer_admits ns p d) (nr_Peers rule)) ∧
  (nr_Ports rule = [] ∨ (proto, port) ∈ nr_Ports rule).
Definition allows_egress (o : kobject) (d : Endpoint) (proto : string) (port : Z) : Prop :=
  match o_Spec o with
  | NetworkPolicy np => "Egress" ∈ np_PolicyTypes np →
      Exists (λ rule, rule_admits (om_Namespace (o_Meta o)) rule d proto port) (np_Egress np)
  | _ => True
  end.
Definition allows_ingress (o : kobject) (d : Endpoint) (proto : string) (port : Z) : Prop :=
  match o_Spec o with
  | NetworkPolicy np => "Ingress" ∈ np_PolicyTypes np →
      Exists (λ rule, rule_admits (om_Namespace (o_Meta o)) rule d proto port) (np_Ingress np)
  | _ => True
  end.

(** The cluster resolver on the DNS port; an address outside these ranges. *)
Definition cluster_dns (d : Endpoint) (proto : string) (port : Z) : Prop :=
  (proto = "UDP" ∨ proto = "TCP") ∧ port = 53 ∧
  ∃ ns nsLabels labels, ep_Pod d = Some (ns, nsLabels, labels) ∧
    nsLabels !! "kubernetes.io/metadata.name" = Some "kube-system" ∧ labels !! "k8s-app" = Some "kube-dns".
Definition outside (ranges : list string) (d : Endpoint) : Prop :=
  in_block "0.0.0.0/0" (ep_IP d) ∧ ∀ c, c ∈ ranges → ¬ in_block c (ep_IP d).
End policy.
Lemma matches_singleton k v m : matches {[k := v]} m = true ↔ m !! k = Some v.
Proof. unfold matches. rewrite bool_decide_eq_true. apply map_singleton_subseteq_l. Qed.

(** The labels a policy selects by. *)
Definition policy_selector (o : kobject) : gmap string string :=
  match o_Spec o with NetworkPolicy np => np_PodSelector np | _ => ∅ end.

Lemma role_selector_matches role app :
  matches (role_selector role app) (<[roleLabel := role]> (labelsFor app)) = true.
Proof.
  apply bool_decide_eq_true_2. unfold role_selector.
  apply insert_subseteq_l; [by rewrite lookup_insert_eq|].
  apply map_singleton_subseteq_l. rewrite lookup_insert_ne by done.
  unfold labelsFor. rewrite lookup_insert_ne by done. by rewrite lookup_insert_eq.
Qed.

Lemma fenced_egress_allows in_block cfg ns d proto port :
  Exists (λ rule, rule_admits in_block ns rule d proto port) (fenced_egress cfg) ↔
  cluster_dns d proto port ∨ outside in_block (cfg_ClusterCIDRs cfg ++ [MetadataIP]) d.
Proof.
  unfold fenced_egress. rewrite !Exists_cons, Exists_nil. unfold rule_admits. cbn [nr_Peers nr_Ports].
  rewrite !Exists_cons, !Exists_nil. unfold peer_admits, cluster_dns, outside, dns_ports.
  setoid_rewrite matches_singleton. rewrite list.Forall_forall. split.
  - intros [[[?|[(ns' & nl & l & ? & ? & ?)|[]]] [?|Hp]]|[[[?|[?|[]]] _]|[]]]; try done; [left|by right].
    rewrite !elem_of_cons, elem_of_nil in Hp. destruct Hp as [[= -> ->]|[[= -> ->]|[]]]; split_and!; eauto 6.
  - intros [(Hpr & -> & ns' & nl & l & ? & ? & ?)|Hout]; [left|right; left].
    + split; [right; left; by exists ns', nl, l|]. right. destruct Hpr as [->| ->]; [by left|right; by left].
    + split; [right; by left|by left].
Qed.

(** C21: build pods and trigger pods, the ones that run user code or talk to the user's
    repository host, are selected by a policy in their namespace that allows no connection
    in, and out exactly these: to the pods of the cluster resolver (kube-dns in
    kube-system) on the DNS port, and to addresses outside every configured cluster range
    and other than the cloud metadata address, whatever block an address is in. *)
Theorem pods_are_fenced `{GoRuntime} `{KubeLib} (in_block : string → string → Prop) r app token d :
  let build := buildNetworkPolicy r app in
  let trigger := triggerNetworkPolicy r app in
  matches (policy_selector build) (js_TemplateLabels (j_Spec (BuildJob r app token d))) = true ∧
  om_Namespace (o_Meta build) = om_Namespace (j_Meta (BuildJob r app token d)) ∧
  (∀ schedule extra, matches (policy_selector trigger)
     (js_TemplateLabels (cj_JobTemplate (triggerCronJob r app schedule extra))) = true) ∧
  (∀ sb, om_Namespace (o_Meta trigger) = om_Namespace (o_Meta (clockCronJob r app sb))) ∧
  (∀ o, o = build ∨ o = trigger →
     (∀ src proto port, ¬ allows_ingress in_block o src proto port) ∧
     (∀ dst proto port, allows_egress in_block o dst proto port ↔
        cluster_dns dst proto port ∨ outside in_block (cfg_ClusterCIDRs (r_Config r) ++ [MetadataIP]) dst)).
Proof.
  cbv zeta. split_and!.
  - apply role_selector_matches.
  - done.
  - intros. apply role_selector_matches.
  - done.
  - intros o [-> | ->]; (split; [intros src proto port Hx; cbn in Hx; rewrite Exists_nil in Hx; apply Hx; by left|]);
      intros dst proto port; rewrite <- (fenced_egress_allows in_block (r_Config r) (app_Namespace app)); cbn;
      (split; [intros Hx; apply Hx; right; by left|done]).
Qed.

(** With basic auth configured the served ingress always routes through the
    operator's own middleware, whatever annotations the user supplies; every other
    user annotation is kept. *)
Theorem ingress_auth_wins app :
  let ann := om_Annotations (o_Meta (ingress app)) in
  (is_Some (as_Auth (app_Spec app)) → ann !! middlewaresKey = Some (middlewareRef app)) ∧
  ∀ k, k ≠ middlewaresKey → ann !! k = ic_Annotations (as_Ingress (app_Spec app)) !! k.
Proof.
  cbn. destruct (as_Auth (app_Spec app)); split; intros; try done.
  - apply lookup_insert_eq.
  - by apply lookup_insert_ne.
Qed.

(** Nginx serves the output claim read-only, at the volume and at the mount,
    in a hardened non-root container without a service-account token. *)
Theorem nginx_reads_only r app :
  match o_Spec (nginxDeployment r app) with
  | Deployment d =>
      let pod := d_Template d in
      Forall (λ v, ∀ claim ro, v_Source v = PVCSource claim ro → ro = true) (p_Volumes pod) ∧
      Forall (λ c, (∃ sc, k_SecurityContext c = Some sc ∧ hardened sc ∧ sc_RunAsUser sc = Some nginxUID) ∧
        Forall (λ m, vm_Name m = volOutput → vm_ReadOnly m = true) (k_VolumeMounts c)) (all_containers pod) ∧
      p_AutomountServiceAccountToken pod = Some false
  | _ => False
  end.
Proof.
  cbn. split_and!; [|repeat constructor; try done|done].
  - repeat constructor; cbn; intros; congruence.
  - eexists. split; [reflexivity|]. done.
Qed.

(** RBAC: an empty list of resource names stands for all of them. *)
Definition rbac_allows (o : kobject) (verb group resource name : string) : Prop :=
  match o_Spec o with
  | Role rules => Exists (λ p, verb ∈ pr_Verbs p ∧ group ∈ pr_APIGroups p ∧ resource ∈ pr_Resources p ∧
      (pr_ResourceNames p = [] ∨ name ∈ pr_ResourceNames p)) rules
  | _ => False
  end.

(** The trigger CronJobs' credential can do nothing but read and patch this
    very App, and only the watcher, never the clock, mounts a git credential. *)
Theorem trigger_rights `{GoRuntime} r app sb wc d o :
  (∀ verb group resource name, rbac_allows (clockRole app) verb group resource name →
    (verb = "get" ∨ verb = "patch") ∧ group = GroupName ∧ resource = AppResource ∧
    name = app_Name app) ∧
  (∀ spec, o_Spec (clockCronJob r app sb) = CronJob spec →
    Forall (λ c, ¬ mounts_volume c volGitCred) (all_containers (js_Template (cj_JobTemplate spec)))) ∧
  (watchCronJob r app wc d = Ok o → ∀ spec, o_Spec o = CronJob spec →
    Exists (λ c, mounts_volume c volGitCred) (all_containers (js_Template (cj_JobTemplate spec))) →
    mounts d = true ∧ ∃ host, RepoHost (as_Repo (app_Spec app)) = Ok host ∧ host ≠ "" ∧
      Exists (λ c, env gitCredHostEnv host ∈ k_Env c) (all_containers (js_Template (cj_JobTemplate spec)))).
Proof.
  split; [|split].
  - unfold rbac_allows. cbn. intros verb group resource name.
    rewrite Exists_cons, Exists_nil. cbn. rewrite !elem_of_cons, !elem_of_nil. naive_solver.
  - intros spec [= <-]. cbn. constructor; [|constructor]. apply mount_names_not. reflexivity.
  - unfold watchCronJob. rewrite bind_ok. intros (sched & _ & [= <-]) spec [= <-].
    cbn [js_Template cj_JobTemplate on_cron_pod]. unfold on_cron_pod.
    cbn [cj_JobTemplate set_field js_Template]. unfold mount_credential.
    destruct (mounts d); [|cbn; intros Hx; exfalso; apply Exists_cons in Hx as [Hx|Hx%Exists_nil]; [|done];
      revert Hx; apply mount_names_not; reflexivity].
    rewrite addGitCredential_containers. unfold repo_host_or_empty.
    destruct (RepoHost (as_Repo (app_Spec app))) as [h|]; cbn.
    + destruct (String.eqb_spec h "") as [->|Hh].
      * intros Hx; exfalso. apply Exists_cons in Hx as [Hx|Hx%Exists_nil]; [|done].
        revert Hx. apply mount_names_not. reflexivity.
      * intros _. split; [done|]. exists h. split_and!; [done..|].
        left. cbn. repeat rewrite ?elem_of_app, ?elem_of_cons. tauto.
    + intros Hx; exfalso. apply Exists_cons in Hx as [Hx|Hx%Exists_nil]; [|done].
      revert Hx. apply mount_names_not. reflexivity.
Qed.
