(* ===== verification/Free.v ===== *)
(** Effectful code as programs over calls.

    [call R] is the type of requests with an answer in [R]; a program is a tree of
    calls whose continuations take the answer, so a statement about all runs of a
    program is a statement about every behaviour of what it talks to.  [Prog]
    instantiates it with the requests of the operator, [ConsoleCalls] with those of
    the web console, [Startup] with those of the operator's entry point. *)
From Stdlib Require Import ZArith Ascii String.
From stdpp Require Import base gmap strings list numbers sorting.
From S2P Require Import Prelude.

Open Scope list_scope.

Section free.
Context {call : Type → Type}.

Inductive free (A : Type) : Type :=
| Ret (a : A)
| Call {R : Type} (c : call R) (k : R → free A).
Arguments Ret {A} a.
Arguments Call {A R} c k.

Fixpoint free_bind_ {A B} (f : A → free B) (p : free A) : free B :=
  match p with
  | Ret a => f a
  | Call c k => Call c (λ r, free_bind_ f (k r))
  end.
#[global] Instance free_ret : MRet free := @Ret.
#[global] Instance free_bind : MBind free := λ A B f p, free_bind_ f p.

Definition do {R} (c : call R) : free R := Call c Ret.

(** The early return of a non-nil error. *)
Definition try {A B} (p : free (result A)) (k : A → free (result B)) : free (result B) :=
  p ≫= λ r, match r with Ok x => k x | Err e => mret (Err e) end.
Notation "x ←? p ; k" := (try p (λ x, k))
  (at level 20, p at level 100, k at level 200, only parsing) : stdpp_scope.
Notation "' x ←? p ; k" := (try p (λ x', match x' with x => k end))
  (at level 20, x pattern, p at level 100, k at level 200, only parsing) : stdpp_scope.
Notation "p ;? k" := (try p (λ _ : unit, k)) (at level 100, k at level 200,
  right associativity, only parsing) : stdpp_scope.
(** A pure check whose error is returned. *)
Definition lift {A} (r : result A) : free (result A) := mret r.

(** ** Runs *)
Inductive event := | Ev {R : Type} (c : call R) (r : R).
Notation trace := (list event).

Inductive run {A} : free A → trace → A → Prop :=
| run_ret a : run (Ret a) [] a
| run_call {R} (c : call R) k r tr a : run (k r) tr a → run (Call c k) (Ev c r :: tr) a.

Lemma run_call_inv {A R} (c : call R) (k : R → free A) tr a :
  run (Call c k) tr a → ∃ r tr', tr = Ev c r :: tr' ∧ run (k r) tr' a.
Proof.
  intros Hr. remember (Call c k) as p eqn:E.
  destruct Hr as [|R' c' k' r tr a Hr]; [done|].
  exact (match E in _ = q return match q with
    | Call c k => ∃ r0 tr', Ev c' r :: tr = Ev c r0 :: tr' ∧ run (k r0) tr' a | Ret _ => True end
    with eq_refl => ex_intro _ r (ex_intro _ tr (conj eq_refl Hr)) end).
Qed.
Lemma run_bind {A B} (p : free A) (f : A → free B) tr b :
  run (p ≫= f) tr b → ∃ tr1 a tr2, tr = tr1 ++ tr2 ∧ run p tr1 a ∧ run (f a) tr2 b.
Proof.
  revert tr. induction p as [a|R c k IH]; intros tr Hr.
  - exists [], a, tr. split_and!; [done|constructor|done].
  - apply run_call_inv in Hr as (r & tr' & -> & Hr). apply IH in Hr as (tr1 & a & tr2 & -> & H1 & H2).
    exists (Ev c r :: tr1), a, tr2. split_and!; [done|by constructor|done].
Qed.
Lemma run_do {R} (c : call R) tr r : run (do c) tr r → tr = [Ev c r].
Proof.
  intros Hr. apply run_call_inv in Hr as (r' & tr' & -> & Hr). by inversion Hr; subst.
Qed.
Lemma run_mret {A} (a b : A) tr : run (mret a) tr b → tr = [] ∧ a = b.
Proof. by inversion 1. Qed.
Lemma run_try {A B} (p : free (result A)) (k : A → free (result B)) tr b :
  run (try p k) tr (Ok b) → ∃ tr1 a tr2, tr = tr1 ++ tr2 ∧ run p tr1 (Ok a) ∧ run (k a) tr2 (Ok b).
Proof.
  intros Hr. apply run_bind in Hr as (tr1 & [a|e] & tr2 & -> & Hp & Hk); [by exists tr1, a, tr2|].
  inversion Hk.
Qed.

(** ** Monitors

    A monitor reads a trace call by call; [None] is a violation.  [wp M p s Q]
    holds when no run of [p] from monitor state [s] is a violation and every run
    ends with [Q]. *)
Definition monitor (S : Type) := S → ∀ R, call R → R → option S.

Fixpoint feed {S} (M : monitor S) (s : S) (tr : trace) : option S :=
  match tr with
  | [] => Some s
  | Ev c r :: tr' => match M s _ c r with Some s' => feed M s' tr' | None => None end
  end.

Fixpoint wp {S A} (M : monitor S) (p : free A) (s : S) (Q : S → A → Prop) : Prop :=
  match p with
  | Ret a => Q s a
  | Call c k => ∀ r, match M s _ c r with Some s' => wp M (k r) s' Q | None => False end
  end.

Section wp.
Context {S : Type} (M : monitor S).

Lemma wp_sound {A} (p : free A) s Q tr a :
  wp M p s Q → run p tr a → ∃ s', feed M s tr = Some s' ∧ Q s' a.
Proof.
  intros Hw Hr. revert s Hw. induction Hr as [a|R c k r tr a Hr IH]; intros s Hw; cbn in *.
  - eauto.
  - specialize (Hw r). destruct (M s R c r) as [s'|]; [|done]. by apply IH.
Qed.

Lemma wp_mono {A} (p : free A) s (Q Q' : S → A → Prop) :
  (∀ s a, Q s a → Q' s a) → wp M p s Q → wp M p s Q'.
Proof.
  intros HQ. revert s. induction p as [a|R c k IH]; intros s; cbn; [apply HQ|].
  intros Hw r. specialize (Hw r). destruct (M s R c r); [by apply IH|done].
Qed.

Lemma wp_bind {A B} (p : free A) (f : A → free B) s Q :
  wp M (p ≫= f) s Q ↔ wp M p s (λ s' a, wp M (f a) s' Q).
Proof.
  revert s. induction p as [a|R c k IH]; intros s; [done|]. cbn.
  split; intros Hw r; specialize (Hw r); destruct (M s R c r); try done; by apply IH.
Qed.

Lemma wp_ret {A} (a : A) s Q : wp M (mret a) s Q ↔ Q s a.
Proof. done. Qed.

Lemma wp_do {R} (c : call R) s Q :
  wp M (do c) s Q ↔ ∀ r, match M s _ c r with Some s' => Q s' r | None => False end.
Proof. done. Qed.

Lemma wp_try {A B} (p : free (result A)) (k : A → free (result B)) s Q :
  wp M (try p k) s Q ↔
  wp M p s (λ s' r, match r with Ok x => wp M (k x) s' Q | Err e => Q s' (Err e) end).
Proof.
  unfold try. rewrite wp_bind. split; apply wp_mono; by intros s' [].
Qed.

(** A program the monitor does not notice in the states of [P]. *)
Definition quiet {A} (P : S → Prop) (p : free A) : Prop := ∀ s, P s → wp M p s (λ s' _, s' = s).

Lemma quiet_ret {A} P (a : A) : quiet P (mret a).
Proof. by intros s. Qed.
Lemma quiet_bind {A B} P (p : free A) (f : A → free B) :
  quiet P p → (∀ a, quiet P (f a)) → quiet P (p ≫= f).
Proof.
  intros Hp Hf s Hs. apply wp_bind. eapply wp_mono, Hp, Hs. intros s' a ->. by apply Hf.
Qed.
Lemma quiet_try {A B} P (p : free (result A)) (k : A → free (result B)) :
  quiet P p → (∀ a, quiet P (k a)) → quiet P (try p k).
Proof. intros Hp Hk. apply quiet_bind; [done|]. intros []; [apply Hk|apply quiet_ret]. Qed.
Lemma quiet_do {R} P (c : call R) : (∀ s r, P s → M s _ c r = Some s) → quiet P (do c).
Proof. intros Hc s Hs r. by rewrite Hc. Qed.

Lemma wp_quiet {A B} (P : S → Prop) (p : free A) (f : A → free B) s Q :
  quiet P p → P s → (∀ a, wp M (f a) s Q) → wp M (p ≫= f) s Q.
Proof. intros Hp Hs Hf. apply wp_bind. eapply wp_mono, Hp, Hs. intros s' a ->. apply Hf. Qed.
Lemma wp_quiet_try {A B} (P : S → Prop) (p : free (result A)) (k : A → free (result B)) s Q :
  quiet P p → P s → (∀ e, Q s (Err e)) → (∀ a, wp M (k a) s Q) → wp M (try p k) s Q.
Proof. intros Hp Hs He Hf. eapply wp_quiet; [done..|]. intros []; [apply Hf|apply He]. Qed.
End wp.

(** ** The calls a program can make *)
Fixpoint calls {A} (P : ∀ R, call R → Prop) (p : free A) : Prop :=
  match p with
  | Ret _ => True
  | Call c k => P _ c ∧ ∀ r, calls P (k r)
  end.

Section calls.
Context (P : ∀ R, call R → Prop).
Lemma calls_ret {A} (a : A) : calls P (mret a).
Proof. done. Qed.
Lemma calls_do {R} (c : call R) : P _ c → calls P (do c).
Proof. by split. Qed.
Lemma calls_bind {A B} (p : free A) (f : A → free B) :
  calls P p → (∀ a, calls P (f a)) → calls P (p ≫= f).
Proof.
  induction p as [a|R c k IH]; intros Hp Hf; [apply Hf|]. destruct Hp as [Hc Hk].
  split; [done|]. intros r. by apply IH.
Qed.
Lemma calls_try {A B} (p : free (result A)) (k : A → free (result B)) :
  calls P p → (∀ a, calls P (k a)) → calls P (try p k).
Proof. intros Hp Hk. apply calls_bind; [done|]. intros []; [apply Hk|apply calls_ret]. Qed.
Lemma calls_mono {A} (P' : ∀ R, call R → Prop) (p : free A) :
  (∀ R (c : call R), P _ c → P' _ c) → calls P p → calls P' p.
Proof. intros HP. induction p as [a|R c k IH]; [done|]. intros [Hc Hk]. split; auto. Qed.

(** Every call of every run. *)
Lemma calls_run {A} (p : free A) tr a : calls P p → run p tr a →
  Forall (λ e, match e with Ev c _ => P _ c end) tr.
Proof. intros Hp Hr. induction Hr as [|R c k r tr a Hr IH]; constructor; destruct Hp; auto. Qed.

(** An event of another kind comes from the rest of the program. *)
Lemma run_past {A B R} (p : free A) (f : A → free B) tr b (c : call R) x :
  calls P p → run (p ≫= f) tr b → Ev c x ∈ tr → ¬ P _ c →
  ∃ t1 a t2, tr = t1 ++ t2 ∧ run p t1 a ∧ run (f a) t2 b ∧ Ev c x ∈ t2.
Proof.
  intros Hp Hr Hin Hc. apply run_bind in Hr as (t1 & a & t2 & -> & H1 & H2). exists t1, a, t2. split_and!; [done..|].
  apply elem_of_app in Hin as [Hin|Hin]; [|done]. apply (calls_run p) in H1; [|done].
  by apply (proj1 (list.Forall_forall _ _) H1) in Hin.
Qed.
Lemma try_past {A B R} (p : free (result A)) (k : A → free (result B)) tr b (c : call R) x :
  calls P p → run (try p k) tr b → Ev c x ∈ tr → ¬ P _ c →
  ∃ t1 a t2, tr = t1 ++ t2 ∧ run p t1 (Ok a) ∧ run (k a) t2 b ∧ Ev c x ∈ t2.
Proof.
  intros Hp Hr Hin Hc. destruct (run_past _ _ _ _ _ _ Hp Hr Hin Hc) as (t1 & [a|e] & t2 & -> & H1 & H2 & Hin').
  - by exists t1, a, t2.
  - apply run_mret in H2 as [-> _]. by apply not_elem_of_nil in Hin'.
Qed.

(** A monitor that ignores these calls does not notice the program. *)
Lemma calls_quiet {S} (M : monitor S) (I : S → Prop) {A} (p : free A) :
  calls P p → (∀ s R (c : call R) r, P _ c → M s _ c r = Some s) → quiet M I p.
Proof.
  intros Hp HM s _. induction p as [a|R c k IH]; [done|]. destruct Hp as [Hc Hk].
  intros r. rewrite HM; auto.
Qed.
(** A monitor that admits these calls in any state. *)
Lemma calls_wp {S} (M : monitor S) {A} (p : free A) s :
  calls P p → (∀ s R (c : call R) r, P _ c → is_Some (M s _ c r)) → wp M p s (λ _ _, True).
Proof.
  intros Hp HM. revert s. induction p as [a|R c k IH]; intros s; [done|]. destruct Hp as [Hc Hk].
  intros r. destruct (HM s R c r Hc) as [s' ->]. auto.
Qed.
End calls.

(** ** The values a program can return *)
Fixpoint returns {A} (p : free A) (Q : A → Prop) : Prop :=
  match p with
  | Ret a => Q a
  | Call c k => ∀ r, returns (k r) Q
  end.
Lemma returns_ret {A} (a : A) Q : returns (mret a) Q ↔ Q a.
Proof. done. Qed.
Lemma returns_do {R} (c : call R) (Q : R → Prop) : (∀ r, Q r) → returns (do c) Q.
Proof. done. Qed.
Lemma returns_mono {A} (p : free A) (Q Q' : A → Prop) :
  (∀ a, Q a → Q' a) → returns p Q → returns p Q'.
Proof. intros HQ. induction p as [a|R c k IH]; cbn; [apply HQ|]. auto. Qed.
Lemma returns_bind {A B} (p : free A) (f : A → free B) Q :
  returns (p ≫= f) Q ↔ returns p (λ a, returns (f a) Q).
Proof. induction p as [a|R c k IH]; [done|]. cbn. split; intros Hr r; by apply IH. Qed.
Lemma returns_any {A} (p : free A) : returns p (λ _, True).
Proof. by induction p. Qed.
(** The calls of the rest, for the values the first part can return. *)
Lemma calls_then (P : ∀ R, call R → Prop) {A B} (p : free A) (f : A → free B) Q :
  calls P p → returns p Q → (∀ a, Q a → calls P (f a)) → calls P (p ≫= f).
Proof.
  intros Hp Hr Hf. induction p as [a|R c k IH]; cbn; [by apply Hf|]. destruct Hp as [Hc Hk]. split; [done|auto].
Qed.
Lemma returns_try {A B} (p : free (result A)) (k : A → free (result B)) Q :
  returns p (λ r, match r with Ok x => returns (k x) Q | Err e => Q (Err e) end) →
  returns (try p k) Q.
Proof. intros Hp. apply returns_bind. eapply returns_mono, Hp. by intros []. Qed.
Lemma returns_run {A} (p : free A) Q tr a : returns p Q → run p tr a → Q a.
Proof. intros Hp Hr. induction Hr as [|R c k r tr a Hr IH]; auto. Qed.
Lemma wp_returns {S} (M : monitor S) {A} (p : free A) s Q Q' :
  wp M p s Q → returns p Q' → wp M p s (λ s' a, Q s' a ∧ Q' a).
Proof.
  revert s. induction p as [a|R c k IH]; intros s Hw Hr; [done|]. intros r. specialize (Hw r).
  destruct (M s R c r); [|done]. by apply IH.
Qed.
(** The values it can return when the answers are as [ok] says. *)
Section given.
Context (ok : ∀ R, call R → R → Prop).
Fixpoint returns_given {A} (p : free A) (Q : A → Prop) : Prop :=
  match p with
  | Ret a => Q a
  | Call c k => ∀ r, ok _ c r → returns_given (k r) Q
  end.
Lemma given_bind {A B} (p : free A) (f : A → free B) Q :
  returns_given (p ≫= f) Q ↔ returns_given p (λ a, returns_given (f a) Q).
Proof. induction p as [a|R c k IH]; [done|]. cbn. split; intros Hr r Hok; apply IH; auto. Qed.
Lemma given_mono {A} (p : free A) (Q Q' : A → Prop) :
  (∀ a, Q a → Q' a) → returns_given p Q → returns_given p Q'.
Proof. intros HQ. induction p as [a|R c k IH]; cbn; [apply HQ|]. auto. Qed.
Lemma given_returns {A} (p : free A) Q : returns p Q → returns_given p Q.
Proof. induction p as [a|R c k IH]; cbn; auto. Qed.
Lemma given_run {A} (p : free A) Q tr a : returns_given p Q → run p tr a →
  Forall (λ e, match e with Ev c r => ok _ c r end) tr → Q a.
Proof.
  intros Hp Hr. induction Hr as [|R c k r tr a Hr IH]; [done|]. intros [Hok Hall]%Forall_cons. auto.
Qed.
Lemma given_try {A B} (p : free (result A)) (k : A → free (result B)) Q :
  returns_given p (λ r, match r with Ok x => returns_given (k x) Q | Err e => Q (Err e) end) →
  returns_given (try p k) Q.
Proof. intros Hp. apply given_bind. eapply given_mono, Hp. by intros []. Qed.
Lemma given_and {A} (p : free A) (Q Q' : A → Prop) :
  returns_given p Q → returns p Q' → returns_given p (λ a, Q a ∧ Q' a).
Proof. induction p as [a|R c k IH]; cbn; auto. Qed.

(** A call of [C] is inevitable: it is made on every path with such answers. *)
Fixpoint inevitable {A} (C : ∀ R, call R → Prop) (p : free A) : Prop :=
  match p with
  | Ret _ => False
  | Call c k => C _ c ∨ ∀ r, ok _ c r → inevitable C (k r)
  end.
Lemma inevitable_now {A B} C (p : free A) (f : A → free B) : inevitable C p → inevitable C (p ≫= f).
Proof. induction p as [a|R c k IH]; cbn; [done|]. intros [Hc|Hk]; [by left|right; auto]. Qed.
Lemma inevitable_then {A B} C (p : free A) (f : A → free B) :
  returns_given p (λ a, inevitable C (f a)) → inevitable C (p ≫= f).
Proof. induction p as [a|R c k IH]; cbn; [done|]. intros Hk. right. auto. Qed.
Lemma inevitable_mono {A} (C C' : ∀ R, call R → Prop) (p : free A) :
  (∀ R (c : call R), C _ c → C' _ c) → inevitable C p → inevitable C' p.
Proof. intros HC. induction p as [a|R c k IH]; cbn; [done|]. intros [Hc|Hk]; [left|right]; auto. Qed.
Lemma inevitable_run {A} C (p : free A) tr a : inevitable C p → run p tr a →
  Forall (λ e, match e with Ev c r => ok _ c r end) tr → ∃ R (c : call R) r, Ev c r ∈ tr ∧ C _ c.
Proof.
  intros Hp Hr. induction Hr as [|R c k r tr a Hr IH]; [done|]. intros [Hok Hall]%Forall_cons.
  destruct Hp as [Hc|Hk]; [by exists R, c, r; split; [left|]|].
  destruct (IH (Hk r Hok) Hall) as (R' & c' & r' & Hin & HC). exists R', c', r'. split; [by right|done].
Qed.
End given.
Lemma given_weaken (ok ok' : ∀ R, call R → R → Prop) {A} (p : free A) Q :
  (∀ R (c : call R) r, ok' _ c r → ok _ c r) → returns_given ok p Q → returns_given ok' p Q.
Proof. intros Hok. induction p as [a|R c k IH]; cbn; auto. Qed.

(** ** Loops over a list *)
(** [for _, x := range l { if err := f(x); err != nil { return err } }] *)
Fixpoint for_each {A} (l : list A) (f : A → free (result unit)) : free (result unit) :=
  match l with
  | [] => mret (Ok tt)
  | x :: l' => f x ;? for_each l' f
  end.
(** The same threading a value. *)
Fixpoint fold_prog {A St} (l : list A) (f : St → A → free (result St)) (st : St) : free (result St) :=
  match l with
  | [] => mret (Ok st)
  | x :: l' => st' ←? f st x; fold_prog l' f st'
  end.
Lemma quiet_for_each {S} (M : monitor S) P {A} (l : list A) f :
  (∀ x, quiet M P (f x)) → quiet M P (for_each l f).
Proof. intros Hf. induction l; cbn; [apply quiet_ret|]. by apply quiet_try. Qed.
Lemma quiet_fold_prog {S} (M : monitor S) P {A St} (l : list A) (f : St → A → free (result St)) st :
  (∀ st x, quiet M P (f st x)) → quiet M P (fold_prog l f st).
Proof. intros Hf. revert st. induction l; intros; cbn; [apply quiet_ret|]. by apply quiet_try. Qed.
Lemma calls_for_each P {A} (l : list A) f : (∀ x, x ∈ l → calls P (f x)) → calls P (for_each l f).
Proof.
  induction l as [|x l IH]; intros Hf; cbn; [done|]. apply calls_try; [apply Hf; by left|].
  intros _. apply IH. intros y Hy. apply Hf. by right.
Qed.
Lemma calls_fold_prog P {A St} (l : list A) (f : St → A → free (result St)) st :
  (∀ st x, x ∈ l → calls P (f st x)) → calls P (fold_prog l f st).
Proof.
  revert st. induction l as [|x l IH]; intros st Hf; cbn; [done|].
  apply calls_try; [apply Hf; by left|]. intros st'. apply IH. intros ? y Hy. apply Hf. by right.
Qed.
(** A loop with an invariant. *)
Lemma wp_fold_prog {S} (M : monitor S) {A St} (I : S → St → Prop) (l : list A)
    (f : St → A → free (result St)) st s (Q : S → result St → Prop) :
  I s st →
  (∀ s st x, x ∈ l → I s st →
    wp M (f st x) s (λ s' r, match r with Ok st' => I s' st' | Err e => Q s' (Err e) end)) →
  (∀ s st, I s st → Q s (Ok st)) →
  wp M (fold_prog l f st) s Q.
Proof.
  revert st s. induction l as [|x l IH]; intros st s Hi Hf Hq; cbn; [by apply Hq|].
  apply wp_try. eapply wp_mono, Hf; [|by left|done]. intros s' [st'|e] Hs; [|done].
  apply IH; [done| |done]. intros s0 st0 y Hy. apply Hf. by right.
Qed.
Lemma returns_fold_prog {A St} (I : St → Prop) (l : list A) (f : St → A → free (result St)) st
    (Q : result St → Prop) :
  I st → (∀ st x, x ∈ l → I st → returns (f st x) (λ r, match r with Ok st' => I st' | Err e => Q (Err e) end)) →
  (∀ st, I st → Q (Ok st)) → returns (fold_prog l f st) Q.
Proof.
  revert st. induction l as [|x l IH]; intros st Hi Hf Hq; cbn; [by apply Hq|].
  apply returns_try. eapply returns_mono, Hf; [|by left|done]. intros [st'|e] Hs; [|done].
  apply IH; [done| |done]. intros st0 y Hy. apply Hf. by right.
Qed.

Lemma given_fold_prog ok {A St} (I : St → Prop) (l : list A) (f : St → A → free (result St)) st
    (Q : result St → Prop) :
  I st → (∀ st x, x ∈ l → I st →
    returns_given ok (f st x) (λ r, match r with Ok st' => I st' | Err e => Q (Err e) end)) →
  (∀ st, I st → Q (Ok st)) → returns_given ok (fold_prog l f st) Q.
Proof.
  revert st. induction l as [|x l IH]; intros st Hi Hf Hq; cbn; [by apply Hq|].
  apply given_try. eapply given_mono, Hf; [|by left|done]. intros [st'|e] Hs; [|done].
  apply IH; [done| |done]. intros st0 y Hy. apply Hf. by right.
Qed.
Lemma given_for_each ok {A} (l : list A) f (Q : result unit → Prop) :
  Q (Ok tt) → (∀ x, x ∈ l →
    returns_given ok (f x) (λ r, match r with Ok _ => True | Err e => Q (Err e) end)) →
  returns_given ok (for_each l f) Q.
Proof.
  intros HQ. induction l as [|x l IH]; intros Hf; cbn; [done|]. apply given_try.
  eapply given_mono, Hf; [|by left]. intros [[]|e] Hs; [|done]. apply IH. intros y Hy. apply Hf. by right.
Qed.

(** ** Running against a handler *)
Section handler.
Context {W : Type} (h : ∀ R, call R → W → R * W).
Fixpoint execute {A} (p : free A) (w : W) : trace * A * W :=
  match p with
  | Ret a => ([], a, w)
  | Call c k =>
      let '(r, w') := h _ c w in
      let '(tr, a, w'') := execute (k r) w' in (Ev c r :: tr, a, w'')
  end.
Lemma execute_run {A} (p : free A) w :
  let '(tr, a, _) := execute p w in run p tr a.
Proof.
  revert w. induction p as [a|R c k IH]; intros w; cbn; [constructor|].
  destruct (h R c w) as [r w']. specialize (IH r w').
  destruct (execute (k r) w') as [[tr a] w'']. by constructor.
Qed.
Definition trace_of {A} (p : free A) (w : W) : trace := (execute p w).1.1.
Definition value_of {A} (p : free A) (w : W) : A := (execute p w).1.2.
Lemma executes {A} (p : free A) w : run p (trace_of p w) (value_of p w).
Proof.
  unfold trace_of, value_of. pose proof (execute_run p w) as Hr.
  by destruct (execute p w) as [[tr a] w'].
Qed.
Lemma executes_given (ok : ∀ R, call R → R → Prop) {A} (p : free A) w :
  (∀ R (c : call R) w, ok _ c (h _ c w).1) → Forall (λ e, match e with Ev c r => ok _ c r end) (trace_of p w).
Proof.
  intros Hok. unfold trace_of. revert w. induction p as [a|R c k IH]; intros w; cbn; [constructor|].
  specialize (Hok R c w). destruct (h R c w) as [r w']. specialize (IH r w').
  destruct (execute (k r) w') as [[tr a] w'']. by constructor.
Qed.
End handler.

(** ** All runs of a small program, as one proposition *)
Fixpoint all_runs {A} (p : free A) (P : trace → A → Prop) : Prop :=
  match p with
  | Ret a => P [] a
  | Call c k => ∀ r, all_runs (k r) (λ tr a, P (Ev c r :: tr) a)
  end.
Lemma all_runs_run {A} (p : free A) P tr a : all_runs p P → run p tr a → P tr a.
Proof.
  intros Hp Hr. revert P Hp. induction Hr as [a|R c k r tr a Hr IH]; intros P Hp; [exact Hp|].
  exact (IH (λ tr a, P (Ev c r :: tr) a) (Hp r)).
Qed.

End free.

Arguments free call A : clear implicits.
Arguments event call : clear implicits.
#[export] Hint Resolve quiet_for_each quiet_fold_prog : baker.

(** The early return of a non-nil error, in the place of Go's [if err != nil]. *)
Notation "x ←? p ; k" := (try p (λ x, k))
  (at level 20, p at level 100, k at level 200, only parsing) : stdpp_scope.
Notation "' x ←? p ; k" := (try p (λ x', match x' with x => k end))
  (at level 20, x pattern, p at level 100, k at level 200, only parsing) : stdpp_scope.
Notation "p ;? k" := (try p (λ _ : unit, k)) (at level 100, k at level 200,
  right associativity, only parsing) : stdpp_scope.

(** Closes [quiet] and [calls] goals by walking through the program. *)
Ltac prog_step :=
  lazymatch goal with
  | |- quiet _ _ (mret _) => apply quiet_ret
  | |- quiet _ _ (Ret _) => apply quiet_ret
  | |- quiet _ _ (lift _) => apply quiet_ret
  | |- quiet _ _ (do _) => apply quiet_do; intros; reflexivity
  | |- quiet _ _ (try _ _) => apply quiet_try; [|intros ?]
  | |- quiet _ _ (mbind _ _) => apply quiet_bind; [|intros ?]
  | |- quiet _ _ (let '(_, _) := ?x in _) => destruct x
  | |- quiet _ _ (match ?x with _ => _ end) => destruct x
  | |- calls _ (mret _) => apply calls_ret
  | |- calls _ (Ret _) => apply calls_ret
  | |- calls _ (lift _) => apply calls_ret
  | |- calls _ (do _) => apply calls_do; first [exact I | reflexivity | done]
  | |- calls _ (try _ _) => apply calls_try; [|intros ?]
  | |- calls _ (mbind _ _) => apply calls_bind; [|intros ?]
  | |- calls _ (let '(_, _) := ?x in _) => destruct x
  | |- calls _ (match ?x with _ => _ end) => destruct x
  end.
Ltac prog_walk := repeat first [progress eauto 3 with baker | prog_step].

