(* ===== verification/Prog.v ===== *)
(** Effectful reconciler code as programs over calls.

    A call is one request to the API server (or its informer cache), the clock,
    the metrics recorder, the error reporter or the event recorder.  A program is
    a tree of calls whose continuations take the answer, so a statement about all
    runs of a program is a statement about every behaviour of the cluster: stale
    caches, conflicts, failures and concurrent writers are answers. *)
From Stdlib Require Import ZArith Ascii String.
From stdpp Require Import base gmap strings list numbers sorting.
From S2P Require Import Prelude GoStd GoNum BuildSpec AppTypes Kube Free.

Open Scope string_scope.
Open Scope list_scope.
Open Scope Z_scope.

(** observability.TerminalFailure *)
(* Go: internal/observability/reporter.go TerminalFailure *)
Record TerminalFailure := MkTerminalFailure {
  tf_App : string; tf_Namespace : string; tf_Step : string; tf_Reason : string; tf_Message : string;
}.

Inductive call : Type → Type :=
(* the App *)
| GetApp (namespace name : string) : call (result App)
| UpdateApp (app : App) : call (result App)
| PatchApp (base app : App) : call (result unit)
| UpdateStatus (app : App) : call (result unit)
| ListApps (namespace : option string) : call (result (list App))
(* Jobs and pods *)
| ListJobs (namespace : string) (sel : gmap string string) : call (result (list Job))
| GetJob (namespace name : string) : call (result Job)
| CreateJob (job : Job) : call (result Job)
| PatchJob (base job : Job) : call (result unit)
| DeleteJob (job : Job) : call (result unit)
| ListPods (namespace : string) (sel : gmap string string) : call (result (list Pod))
(* other children *)
| GetObj (kind namespace name : string) : call (result kobject)
| CreateObj (o : kobject) : call (result unit)
| UpdateObj (o : kobject) : call (result unit)
| ApplyObj (o : kobject) : call (result unit)
| DeleteObj (kind namespace name : string) : call (result unit)
(* Secrets: metadata from the cache, data from the uncached reader, and the typed
   read of the TLS secret *)
| GetSecretMeta (namespace name : string) : call (result ObjectMeta)
| ReadSecret (namespace name : string) : call (result (gmap string string))
| GetSecret (namespace name : string) : call (result (gmap string string))
(* storage *)
| GetStorageClass (name : string) : call (result (option string))
| GetPVCCapacity (namespace name : string) : call (result (gmap string Quantity))
(* the process: clock, metrics, error reports, events, the outage flag *)
| Now : call Time
| RecordApp (app : App) (deadline : Z) (alerts : gmap string Z) (threshold : Z) : call unit
| RecordTerminalBuild (app : App) : call unit
| ForgetApp (namespace name : string) : call unit
| CaptureTerminalFailure (f : TerminalFailure) : call unit
| CompareAndSwapMissing (old new : bool) : call bool
| Eventf (app : App) (type reason message : string) : call unit.

(** ** Programs of the operator *)
Notation prog := (free call).
Notation event := (event call).
Notation trace := (list event).

(** ** Observations on a trace *)
Definition applied_obj (e : event) : option (kobject * result unit) :=
  match e with Ev c r => match c in call R return R → _ with
    | ApplyObj o => λ r, Some (o, r) | _ => λ _, None end r end.
Definition deleted_obj (e : event) : option (string * string * string) :=
  match e with Ev c r => match c in call R return R → _ with
    | DeleteObj k ns n => λ _, Some (k, ns, n) | _ => λ _, None end r end.
Definition secret_meta (e : event) : option (string * string * result ObjectMeta) :=
  match e with Ev c r => match c in call R return R → _ with
    | GetSecretMeta ns n => λ r, Some (ns, n, r) | _ => λ _, None end r end.
Definition read_secret (e : event) : option (string * string * result (gmap string string)) :=
  match e with Ev c r => match c in call R return R → _ with
    | ReadSecret ns n => λ r, Some (ns, n, r) | _ => λ _, None end r end.
Definition reported (e : event) : option (string * string) :=
  match e with Ev c r => match c in call R return R → _ with
    | CaptureTerminalFailure f => λ _, Some (tf_Reason f, tf_Message f) | _ => λ _, None end r end.
Definition created_job (e : event) : option (Job * result Job) :=
  match e with Ev c r => match c in call R return R → _ with
    | CreateJob j => λ r, Some (j, r) | _ => λ _, None end r end.
Definition updated_app (e : event) : option (App * result App) :=
  match e with Ev c r => match c in call R return R → _ with
    | UpdateApp a => λ r, Some (a, r) | _ => λ _, None end r end.
Definition loaded_app (e : event) : option App :=
  match e with Ev c r => match c in call R return R → _ with
    | GetApp _ _ => λ r, match r with Ok a => Some a | Err _ => None end
    | UpdateApp _ => λ r, match r with Ok a => Some a | Err _ => None end
    | _ => λ _, None end r end.
Definition listed_jobs (e : event) : option (gmap string string * result (list Job)) :=
  match e with Ev c r => match c in call R return R → _ with
    | ListJobs _ sel => λ r, Some (sel, r) | _ => λ _, None end r end.
Definition got_job (e : event) : option (string * string * result Job) :=
  match e with Ev c r => match c in call R return R → _ with
    | GetJob ns n => λ r, Some (ns, n, r) | _ => λ _, None end r end.
Definition got_class (e : event) : option (string * result (option string)) :=
  match e with Ev c r => match c in call R return R → _ with
    | GetStorageClass n => λ r, Some (n, r) | _ => λ _, None end r end.
Definition deleted_job (e : event) : option Job :=
  match e with Ev c r => match c in call R return R → _ with
    | DeleteJob j => λ _, Some j | _ => λ _, None end r end.
Definition status_update (e : event) : option (App * result unit) :=
  match e with Ev c r => match c in call R return R → _ with
    | UpdateStatus a => λ r, Some (a, r) | _ => λ _, None end r end.

(** ** Answers for evaluation: nothing exists, nothing fails otherwise *)
Definition not_found : error := MkError (Some NotFound) "not found".
Definition default_answer {R} (c : call R) : R :=
  match c in call R return R with
  | GetApp _ _ => Err not_found | UpdateApp a => Ok a | PatchApp _ _ => Ok tt
  | UpdateStatus _ => Ok tt | ListApps _ => Ok []
  | ListJobs _ _ => Ok [] | GetJob _ _ => Err not_found | CreateJob j => Ok j
  | PatchJob _ _ => Ok tt | DeleteJob _ => Ok tt | ListPods _ _ => Ok []
  | GetObj _ _ _ => Err not_found | CreateObj _ => Ok tt | UpdateObj _ => Ok tt
  | ApplyObj _ => Ok tt | DeleteObj _ _ _ => Ok tt
  | GetSecretMeta _ _ => Err not_found | ReadSecret _ _ => Err not_found
  | GetSecret _ _ => Err not_found
  | GetStorageClass _ => Ok (Some "WaitForFirstConsumer")
  | GetPVCCapacity _ _ => Err not_found
  | Now => 1700000000000000000
  | RecordApp _ _ _ _ => tt | RecordTerminalBuild _ => tt | ForgetApp _ _ => tt
  | CaptureTerminalFailure _ => tt | CompareAndSwapMissing _ _ => false | Eventf _ _ _ _ => tt
  end.
