(* ===== verification/JsonDecode.v ===== *)
(** The part of [encoding/json.Unmarshal] the operator uses: the JSON grammar of
    the scanner, and decoding into structs with string, int64 and
    map[string]int64 fields.  An error discards the value at both call sites, so
    decoding gives an [option]. *)
From Stdlib Require Import ZArith Ascii String.
From stdpp Require Import base gmap strings list numbers sorting.
From S2P Require Import Prelude GoStd GoNum Images RepoHost.

Open Scope string_scope.
Open Scope list_scope.
Open Scope Z_scope.

(** ** Values; a number keeps its literal *)
Inductive jval :=
| VNull
| VBool (b : bool)
| VNum (lit : string)
| VStr (s : string)
| VArr (l : list jval)
| VObj (l : list (string * jval)).

Definition is_ws (c : ascii) : bool := (bv c =? 32) || (bv c =? 9) || (bv c =? 10) || (bv c =? 13).
Fixpoint skip_ws (s : string) : string :=
  match s with String c s' => if is_ws c then skip_ws s' else s | "" => "" end.

(** ** Numbers *)
Fixpoint span_digits (s : string) : string * string :=
  match s with
  | String c s' => if is_digit c then let '(a, b) := span_digits s' in (String c a, b) else ("", s)
  | "" => ("", "")
  end.
(** At least one digit. *)
Definition digits1 (s : string) : option (string * string) :=
  let '(a, b) := span_digits s in if String.eqb a "" then None else Some (a, b).
Definition num_int (s : string) : option (string * string) :=
  match s with
  | String "0" s' => Some ("0", s')
  | _ => digits1 s
  end.
Definition num_frac (s : string) : option (string * string) :=
  match s with
  | String "." s' => '(a, b) ← digits1 s'; Some (String "." a, b)
  | _ => Some ("", s)
  end.
Definition num_exp (s : string) : option (string * string) :=
  match s with
  | String c s' =>
      if Ascii.eqb c "e" || Ascii.eqb c "E" then
        let '(sign, s'') := match s' with
          | String d t => if Ascii.eqb d "+" || Ascii.eqb d "-" then (s1 d, t) else ("", s')
          | "" => ("", "") end in
        '(a, b) ← digits1 s''; Some (String c (sign +:+ a), b)
      else Some ("", s)
  | "" => Some ("", "")
  end.
Definition parse_num (s : string) : option (string * string) :=
  let '(sign, s0) := match s with String "-" t => ("-", t) | _ => ("", s) end in
  '(i, s1') ← num_int s0; '(f, s2') ← num_frac s1'; '(e, s3') ← num_exp s2';
  Some (sign +:+ i +:+ f +:+ e, s3').

(** ** Strings *)
Definition hex4_val (s : string) : option (Z * string) :=
  match s with
  | String a (String b (String c (String d t))) =>
      x ← hex_val a; y ← hex_val b; z ← hex_val c; w ← hex_val d;
      Some (((x * 16 + y) * 16 + z) * 16 + w, t)
  | _ => None
  end.
Definition simple_escape (c : ascii) : option ascii :=
  if bv c =? 34 then Some c else if bv c =? 92 then Some c else if bv c =? 47 then Some c
  else if Ascii.eqb c "b" then Some (chr 8) else if Ascii.eqb c "f" then Some (chr 12)
  else if Ascii.eqb c "n" then Some (chr 10) else if Ascii.eqb c "r" then Some (chr 13)
  else if Ascii.eqb c "t" then Some (chr 9) else None.

(** A \u escape, with the surrogate half that may follow it. *)
Definition unicode_escape (r : Z) (rest : string) : Z * string :=
  if between 0xD800 r 0xDBFF then
    match rest with
    | String a (String "u" t) =>
        if bv a =? 92 then
          match hex4_val t with
          | Some (r2, t') =>
              if between 0xDC00 r2 0xDFFF
              then ((r - 0xD800) * 1024 + (r2 - 0xDC00) + 0x10000, t')
              else (RuneError, rest)
          | None => (RuneError, rest)
          end
        else (RuneError, rest)
    | _ => (RuneError, rest)
    end
  else if between 0xDC00 r 0xDFFF then (RuneError, rest)
  else (r, rest).

(** The text after the opening quote, up to the closing one. *)
Fixpoint string_body (fuel : nat) (s : string) : option (string * string) :=
  match fuel with
  | O => None
  | S f =>
      match s with
      | "" => None
      | String c t =>
          if bv c =? 34 then Some ("", t)
          else if bv c <? 32 then None
          else if bv c =? 92 then
            match t with
            | String "u" t' =>
                '(r, t'') ← hex4_val t';
                let '(rune, rest) := unicode_escape r t'' in
                '(a, b) ← string_body f rest; Some (encode_rune rune +:+ a, b)
            | String e t' => x ← simple_escape e; '(a, b) ← string_body f t'; Some (String x a, b)
            | "" => None
            end
          else '(a, b) ← string_body f t; Some (String c a, b)
      end
  end.
(** Ill-formed UTF-8 reads as U+FFFD. *)
Definition to_valid (s : string) : string :=
  concat_strings (map (λ '(r, _), encode_rune r) (decode s)).
Definition parse_str (s : string) : option (string * string) :=
  '(a, b) ← string_body (String.length s) s; Some (to_valid a, b).

(** ** Values *)
Definition keyword (s word : string) : option string :=
  if HasPrefix s word then Some (drop (String.length word) s) else None.

Definition max_depth : Z := 10000.

(** [value], then the tails of an array and of an object; [depth] is the number
    of open brackets.  Each call consumes a byte, except the one that opens an
    object, so two calls per byte are fuel enough ([parse_json_fuel]). *)
Inductive jstate := InValue | InArray (acc : list jval) | InObject (acc : list (string * jval)).

Fixpoint parse_json (fuel : nat) (depth : Z) (st : jstate) (s0 : string) : option (jval * string) :=
  match fuel with
  | O => None
  | S f =>
      let s := skip_ws s0 in
      match st with
      | InValue =>
          match s with
          | "" => None
          | String c t =>
              if bv c =? 34 then '(x, r) ← parse_str t; Some (VStr x, r)
              else if Ascii.eqb c "[" then
                if max_depth <=? depth then None else
                match after "]" (skip_ws t) with
                | Some r => Some (VArr [], r)
                | None => '(v, r) ← parse_json f (depth + 1) InValue t;
                          parse_json f (depth + 1) (InArray [v]) r
                end
              else if Ascii.eqb c "{" then
                if max_depth <=? depth then None else
                match after "}" (skip_ws t) with
                | Some r => Some (VObj [], r)
                | None => parse_json f (depth + 1) (InObject []) (String "," t)
                end
              else if Ascii.eqb c "t" then r ← keyword s "true"; Some (VBool true, r)
              else if Ascii.eqb c "f" then r ← keyword s "false"; Some (VBool false, r)
              else if Ascii.eqb c "n" then r ← keyword s "null"; Some (VNull, r)
              else '(n, r) ← parse_num s; Some (VNum n, r)
          end
      | InArray acc =>
          match after "]" s with
          | Some r => Some (VArr (rev acc), r)
          | None => t ← after "," s;
                    '(v, r) ← parse_json f depth InValue t;
                    parse_json f depth (InArray (v :: acc)) r
          end
      | InObject acc =>
          match after "}" s with
          | Some r => Some (VObj (rev acc), r)
          | None => t ← after "," s;
                    t' ← after (chr 34) (skip_ws t);
                    '(k, r) ← parse_str t';
                    r' ← after ":" (skip_ws r);
                    '(v, r'') ← parse_json f depth InValue r';
                    parse_json f depth (InObject ((k, v) :: acc)) r''
          end
      end
  end.

(** A whole document. *)
Definition json_parse (s : string) : option jval :=
  '(v, r) ← parse_json (2 * String.length s + 1) 0 InValue s;
  if String.eqb (skip_ws r) "" then Some v else None.

(** ** Fuel: every reader consumes, so more fuel than its input is no more fuel *)
Lemma skip_ws_length s : (String.length (skip_ws s) <= String.length s)%nat.
Proof. induction s as [|c s IH]; cbn; [lia|]. destruct (is_ws c); cbn; lia. Qed.

Lemma hex4_val_length s x t : hex4_val s = Some (x, t) → String.length s = (4 + String.length t)%nat.
Proof.
  destruct s as [|a [|b [|c [|d s]]]]; cbn; try done.
  intros; simplify_option_eq. done.
Qed.
Lemma unicode_escape_length r s : (String.length (unicode_escape r s).2 <= String.length s)%nat.
Proof.
  unfold unicode_escape.
  repeat (split_match; cbn; try lia).
  all: match goal with E : hex4_val _ = _ |- _ => apply hex4_val_length in E; lia end.
Qed.

(** The escape branch of [string_body] with its test for [u] as a boolean. *)
Lemma string_body_step f c t :
  string_body (S f) (String c t) =
  if bv c =? 34 then Some ("", t)
  else if bv c <? 32 then None
  else if bv c =? 92 then
    match t with
    | "" => None
    | String e t' =>
        if Ascii.eqb e "u" then
          x ← hex4_val t';
          let '(rune, rest) := unicode_escape x.1 x.2 in
          '(a, b) ← string_body f rest; Some (encode_rune rune +:+ a, b)
        else x ← simple_escape e; '(a, b) ← string_body f t'; Some (String x a, b)
    end
  else '(a, b) ← string_body f t; Some (String c a, b).
Proof.
  cbn [string_body]. split_match; [done|]. split_match; [done|]. split_match; [|done].
  destruct t as [|e t']; [done|]. destruct (Ascii.eqb_spec e "u") as [->|He].
  - cbv beta iota. by destruct (hex4_val t') as [[]|].
  - destruct e as [[] [] [] [] [] [] [] []]; done.
Qed.

Lemma string_body_length f s a b :
  string_body f s = Some (a, b) → (String.length b < String.length s)%nat.
Proof.
  revert s a b. induction f as [|f IH]; intros s a b; [done|]. destruct s as [|c t]; [done|].
  rewrite string_body_step. cbn [String.length].
  split_match; [intros [= _ <-]; lia|]. split_match; [done|]. split_match.
  - destruct t as [|e t']; [done|]. cbn [String.length]. split_match.
    + destruct (hex4_val t') as [[r u]|] eqn:Eh; [|done]. apply hex4_val_length in Eh.
      pose proof (unicode_escape_length r u). cbn [mbind option_bind fst snd].
      destruct (unicode_escape r u) as [rune rest]. cbn [snd] in *.
      destruct (string_body f rest) as [[x y]|] eqn:Eb; [|done].
      apply IH in Eb. intros [= _ <-]. lia.
    + destruct (simple_escape e); [|done]. cbn [mbind option_bind].
      destruct (string_body f t') as [[x y]|] eqn:Eb; [|done].
      apply IH in Eb. intros [= _ <-]. lia.
  - destruct (string_body f t) as [[x y]|] eqn:Eb; [|done].
    apply IH in Eb. intros [= _ <-]. lia.
Qed.

Lemma string_body_fuel f g s :
  (String.length s <= f)%nat → (String.length s <= g)%nat → string_body f s = string_body g s.
Proof.
  revert g s. induction f as [|f IH]; intros [|g] [|c t]; cbn [String.length]; try lia; try done.
  intros Hf Hg. rewrite !string_body_step.
  split_match; [done|]. split_match; [done|]. split_match; [|by rewrite (IH g t) by lia].
  destruct t as [|e t']; [done|]. cbn [String.length] in *. split_match.
  - destruct (hex4_val t') as [[r u]|] eqn:Eh; [|done]. apply hex4_val_length in Eh.
    pose proof (unicode_escape_length r u). cbn.
    destruct (unicode_escape r u) as [rune rest]. cbn in *. by rewrite (IH g rest) by lia.
  - by rewrite (IH g t') by lia.
Qed.

Lemma after_length c s r : after c s = Some r → String.length s = S (String.length r).
Proof. destruct s as [|d s]; cbn; [done|]. destruct (Ascii.eqb c d); [|done]. by intros [= ->]. Qed.
Lemma parse_str_length s a b : parse_str s = Some (a, b) → (String.length b < String.length s)%nat.
Proof.
  unfold parse_str. destruct (string_body _ s) as [[x y]|] eqn:E; [|done].
  apply string_body_length in E. by intros [= _ <-].
Qed.
Lemma keyword_length s w r : keyword s w = Some r → w ≠ "" → (String.length r < String.length s)%nat.
Proof.
  unfold keyword. destruct (HasPrefix s w) eqn:E; [|done]. intros [= <-] Hw.
  apply HasPrefix_spec in E as [t ->]. rewrite drop_app, str_length_app. destruct w; [done|cbn; lia].
Qed.
Lemma span_digits_length s :
  (String.length (span_digits s).1 + String.length (span_digits s).2 = String.length s)%nat.
Proof.
  induction s as [|c s IH]; [done|]. cbn. destruct (is_digit c); [|done].
  destruct (span_digits s). cbn in *. lia.
Qed.
Lemma digits1_length s a b : digits1 s = Some (a, b) → (String.length b < String.length s)%nat.
Proof.
  unfold digits1. pose proof (span_digits_length s). destruct (span_digits s) as [x y]. cbn in *.
  destruct x; [done|]. intros [= _ <-]. cbn in *. lia.
Qed.

(** A literal byte pattern either meets its byte or falls through. *)
Ltac split_byte c := destruct c as [[] [] [] [] [] [] [] []].

Lemma num_int_length s a b : num_int s = Some (a, b) → (String.length b < String.length s)%nat.
Proof.
  destruct s as [|c s]; [done|]. unfold num_int.
  split_byte c; try apply digits1_length. intros [= _ <-]. cbn. lia.
Qed.
Lemma num_frac_length s a b : num_frac s = Some (a, b) → (String.length b <= String.length s)%nat.
Proof.
  destruct s as [|c s]; [by intros [= _ <-]|]. unfold num_frac.
  split_byte c; try (intros [= _ <-]; cbn; lia).
  destruct (digits1 s) as [[x y]|] eqn:E; [|done]. apply digits1_length in E.
  intros [= _ <-]. cbn. lia.
Qed.
Lemma num_exp_length s a b : num_exp s = Some (a, b) → (String.length b <= String.length s)%nat.
Proof.
  destruct s as [|c s]; [by intros [= _ <-]|]. cbn [num_exp String.length].
  split_match; [|intros [= _ <-]; cbn; lia].
  destruct (match s with "" => _ | String d t => _ end) as [sign t] eqn:Es.
  assert (String.length t <= String.length s)%nat.
  { destruct s as [|d s']; [by simplify_eq/=|].
    destruct (Ascii.eqb d "+" || _); simplify_eq/=; lia. }
  destruct (digits1 t) as [[x y]|] eqn:E'; [|done]. apply digits1_length in E'.
  intros [= _ <-]. lia.
Qed.
Lemma parse_num_length s a b : parse_num s = Some (a, b) → (String.length b < String.length s)%nat.
Proof.
  unfold parse_num. destruct (match s with "" => _ | String _ _ => _ end) as [sign t] eqn:Es.
  assert (String.length t <= String.length s)%nat.
  { destruct s as [|c s]; [by simplify_eq/=|]. split_byte c; simplify_eq/=; lia. }
  destruct (num_int t) as [[i t1]|] eqn:E1; [|done]. apply num_int_length in E1. cbn.
  destruct (num_frac t1) as [[f t2]|] eqn:E2; [|done]. apply num_frac_length in E2. cbn.
  destruct (num_exp t2) as [[e t3]|] eqn:E3; [|done]. apply num_exp_length in E3. cbn.
  intros [= _ <-]. lia.
Qed.

(** Case analysis on the reads of the goal, each with the length it leaves. *)
Ltac read_step :=
  match goal with
  | |- context [after ?c ?x] => let E := fresh "E" in
      destruct (after c x) eqn:E; [apply after_length in E|]; cbn [mbind option_bind]
  | |- context [parse_str ?x] => let E := fresh "E" in
      destruct (parse_str x) as [[? ?]|] eqn:E; [apply parse_str_length in E|]; cbn [mbind option_bind]
  | |- context [parse_num ?x] => let E := fresh "E" in
      destruct (parse_num x) as [[? ?]|] eqn:E; [apply parse_num_length in E|]; cbn [mbind option_bind]
  | |- context [keyword ?x ?w] => let E := fresh "E" in
      destruct (keyword x w) eqn:E; [apply keyword_length in E; [|done]|]; cbn [mbind option_bind]
  | |- context [if ?b then _ else _] => destruct b
  end.
Ltac ws_lengths := repeat match goal with
  | H : context [String.length (skip_ws ?x)] |- _ =>
      lazymatch goal with
      | _ : (String.length (skip_ws x) <= String.length x)%nat |- _ => fail
      | _ => pose proof (skip_ws_length x)
      end
  end.

Lemma parse_json_consumes f d st s v r :
  parse_json f d st s = Some (v, r) → (String.length r < String.length s)%nat.
Proof.
  revert d st s v r. induction f as [|f IH]; intros d st s v r; [done|]. cbn [parse_json].
  pose proof (skip_ws_length s) as Hs.
  destruct st as [|acc|acc]; [destruct (skip_ws s) as [|c t] eqn:Et; [done|]|..].
  all: repeat (read_step; try done).
  all: repeat match goal with |- context [parse_json ?g ?d ?st ?x] =>
    let E := fresh "E" in destruct (parse_json g d st x) as [[? ?]|] eqn:E; [apply IH in E|done];
    cbn [mbind option_bind] end.
  all: intros; simplify_eq; ws_lengths; cbn [String.length] in *; lia.
Qed.

(** The calls [parse_json] can nest on a text of length [n]. *)
Definition json_need (st : jstate) (n : nat) : nat :=
  match st with InValue => 2 * n + 1 | _ => 2 * n end.

Lemma parse_json_fuel f g d st s :
  (json_need st (String.length s) <= f)%nat → (json_need st (String.length s) <= g)%nat →
  parse_json f d st s = parse_json g d st s.
Proof.
  revert g d st s. induction f as [|f IH]; intros g d st s Hf Hg.
  { destruct st; cbn in Hf; [lia|..]; destruct s; cbn in Hf; try lia; by destruct g. }
  destruct g as [|g].
  { destruct st; cbn in Hg; [lia|..]; destruct s; cbn in Hg; try lia; done. }
  cbn [parse_json]. pose proof (skip_ws_length s) as Hs.
  assert (Hnext : ∀ d x v r, (String.length x < String.length s)%nat →
    parse_json g d InValue x = Some (v, r) → ∀ st', st' ≠ InValue →
    parse_json f d st' r = parse_json g d st' r).
  { intros d' x v r Hx E%parse_json_consumes st' Hst. apply IH; destruct st', st; cbn in *; done || lia. }
  assert (Hval : ∀ d x, (String.length x < String.length s)%nat →
    parse_json f d InValue x = parse_json g d InValue x).
  { intros d' x Hx. apply IH; destruct st; cbn in *; lia. }
  destruct st as [|acc|acc]; [destruct (skip_ws s) as [|c t] eqn:Et; [done|]|..].
  all: cbn [String.length] in *; repeat (read_step; try done).
  all: let solve_len := (ws_lengths; cbn [String.length] in *; lia) in
    first
    [ rewrite Hval by solve_len;
      match goal with |- context [parse_json ?g ?d InValue ?x] =>
        destruct (parse_json g d InValue x) as [[? ?]|] eqn:Ev; [cbn [mbind option_bind]|done] end;
      eapply Hnext; [|exact Ev|done]; solve_len
    | apply IH; cbn in *; lia ].
Qed.

(** ** Decoding into Go values *)
Section decode.
Context `{GoRuntime}.

(** A key selects the field of that name, else the field it equals under case
    folding; [fields] lists the names of the struct. *)
Definition field_of (fields : list string) (key : string) : option string :=
  if bool_decide (key ∈ fields) then Some key
  else List.find (λ f, EqualFold f key) fields.

(** null leaves an integer or a string unchanged. *)
Definition into_int (old : Z) (v : jval) : option Z :=
  match v with VNull => Some old | VNum lit => parse_int_ok lit | _ => None end.
Definition into_string (old : string) (v : jval) : option string :=
  match v with VNull => Some old | VStr s => Some s | _ => None end.
Fixpoint into_entries (m : gmap string Z) (l : list (string * jval)) : option (gmap string Z) :=
  match l with
  | [] => Some m
  | (k, v) :: l' => n ← into_int 0 v; into_entries (<[k := n]> m) l'
  end.
(** null makes a map nil. *)
Definition into_map (old : gmap string Z) (v : jval) : option (gmap string Z) :=
  match v with VNull => Some ∅ | VObj l => into_entries old l | _ => None end.

(** The members of an object, in order, each applied to the struct. *)
Fixpoint into_fields {T} (fields : list string) (set : string → jval → T → option T)
    (l : list (string * jval)) (x : T) : option T :=
  match l with
  | [] => Some x
  | (k, v) :: l' =>
      match field_of fields k with
      | Some f => x' ← set f v x; into_fields fields set l' x'
      | None => into_fields fields set l' x
      end
  end.
Definition into_struct {T} (fields : list string) (set : string → jval → T → option T)
    (v : jval) (x : T) : option T :=
  match v with VNull => Some x | VObj l => into_fields fields set l x | _ => None end.
End decode.

(** A slice that is decoded into: the backing array and the length.  An element is
    decoded into what the backing array already holds, so a repeated member name
    merges; null and [[]] start afresh. *)
Notation gslice T := (list T * nat)%type.
Definition elems {T} (s : gslice T) : list T := list.take s.2 s.1.
Fixpoint into_elems {T} (zero : T) (dec : jval → T → option T) (l : list jval) (backing : list T)
    : option (list T) :=
  match l with
  | [] => Some backing
  | v :: l' =>
      y ← dec v (default zero (head backing));
      ys ← into_elems zero dec l' (tail backing);
      Some (y :: ys)
  end.
Definition into_slice {T} (zero : T) (dec : jval → T → option T) (v : jval) (old : gslice T) : option (gslice T) :=
  match v with
  | VNull | VArr [] => Some ([], 0%nat)
  | VArr l => b ← into_elems zero dec l old.1; Some (b, length l)
  | _ => None
  end.
(** A [*uint64]. *)
Definition into_uint_ptr (v : jval) : option (option Z) :=
  match v with
  | VNull => Some None
  | VNum lit => match ParseUint lit with (n, None) => Some (Some n) | _ => None end
  | _ => None
  end.
(** A [[2]string]: missing elements are zeroed, further ones skipped. *)
Definition into_pair (v : jval) (old : string * string) : option (string * string) :=
  match v with
  | VNull => Some old
  | VArr [] => Some (EmptyString, EmptyString)
  | VArr [a] => x ← into_string old.1 a; Some (x, EmptyString)
  | VArr (a :: b :: _) => x ← into_string old.1 a; y ← into_string old.2 b; Some (x, y)
  | _ => None
  end.

Definition quoted (s : string) : string := string_map (λ c, if bv c =? 39 then chr 34 else c) s.
Example json_parse_examples :
  json_parse (quoted " {'release':{'current':'r\u0031'}, 'sizes':{'output': 12,'x':[1,-2.5e3,true]} }")
    = Some (VObj [("release", VObj [("current", VStr "r1")]);
                  ("sizes", VObj [("output", VNum "12");
                                  ("x", VArr [VNum "1"; VNum "-2.5e3"; VBool true])])]) ∧
  map json_parse [""; "{"; "[1,]"; "01"; quoted "{'a':1,}"; "1 2"; "nul"; quoted "'a"]
    = [None; None; None; None; None; None; None; None].
Proof. vm_compute. split; reflexivity. Qed.
