(* ===== verification/NodeImages.v ===== *)
(** config.go's ParseNodeImages: the managed node images as a JSON text, decoded and
    validated. *)
From Stdlib Require Import ZArith Ascii String.
From stdpp Require Import base gmap strings list numbers sorting.
From S2P Require Import Prelude GoStd GoNum Images RepoHost AppTypes Kube Config JsonDecode.

Open Scope string_scope.
Open Scope list_scope.
Open Scope Z_scope.

Section parse.
Context `{GoRuntime} `{MapOrder}.

(** A [*int64]. *)
Definition into_int_ptr (v : jval) : option (option Z) :=
  match v with VNull => Some None | VNum lit => Some <$> parse_int_ok lit | _ => None end.
(* Go: internal/domain/nodeimage.go NodeImage *)
Definition into_NodeImage (v : jval) (x : NodeImage) : option NodeImage :=
  into_struct ["image"; "runAsUser"; "home"] (λ f v x,
    if String.eqb f "image" then y ← into_string (ni_Image x) v; Some (MkNodeImage y (ni_RunAsUser x) (ni_Home x))
    else if String.eqb f "runAsUser" then y ← into_int_ptr v; Some (MkNodeImage (ni_Image x) y (ni_Home x))
    else y ← into_string (ni_Home x) v; Some (MkNodeImage (ni_Image x) (ni_RunAsUser x) y)) v x.
(** The entries of a map, each decoded into a zero value; a later one replaces an earlier. *)
Fixpoint into_node_entries (l : list (string * jval)) (m : gmap string NodeImage) : option (gmap string NodeImage) :=
  match l with
  | [] => Some m
  | (k, v) :: l' => ni ← into_NodeImage v (MkNodeImage "" None ""); into_node_entries l' (<[k := ni]> m)
  end.
Definition into_node_images (v : jval) : option (gmap string NodeImage) :=
  match v with VNull => Some ∅ | VObj l => into_node_entries l ∅ | _ => None end.

(** [syntax] is the text of the error of [json.Unmarshal]. *)
(* Go: internal/controller/config.go ParseNodeImages *)
Definition ParseNodeImages (syntax : string → error) (s : string) : result (gmap string NodeImage) :=
  if String.eqb s "" then Ok ∅
  else match json_parse s ≫= into_node_images with
       | None => Err (wrapf "parse node-images JSON: " (syntax s))
       | Some m => validateNodeImages m ;; Ok m
       end.

(** What it accepts decodes to a table in which every major is a number with a non-root
    image, and everything else is rejected. *)
Lemma ParseNodeImages_ok syntax s m : ParseNodeImages syntax s = Ok m ↔
  (s = "" ∧ m = ∅) ∨ (s ≠ "" ∧ json_parse s ≫= into_node_images = Some m ∧ map_Forall node_entry_ok m).
Proof.
  unfold ParseNodeImages. destruct (String.eqb_spec s "") as [->|Hs]; [naive_solver|].
  destruct (json_parse s ≫= into_node_images) as [m'|]; [|naive_solver].
  rewrite <-validateNodeImages_ok. destruct (validateNodeImages m') as [[]|e] eqn:E; cbn.
  - split; [intros [= <-]; by right|]. by intros [[? _]|(_ & [= <-] & _)].
  - split; [done|]. intros [[? _]|(_ & [= <-] & E')]; congruence.
Qed.
End parse.

#[local] Existing Instance ascii_only_tables.
#[local] Existing Instance some_order.
Example two_majors :
  ParseNodeImages (λ _, errorf "") (quoted "{'18': {'image': 'n18', 'runAsUser': 1000}, '24': {'Image': 'n24', 'runAsUser': 7, 'home': '/h'}}") =
  Ok {["18" := MkNodeImage "n18" (Some 1000) ""; "24" := MkNodeImage "n24" (Some 7) "/h"]}.
Proof. vm_compute. reflexivity. Qed.
Example root_rejected :
  is_ok (ParseNodeImages (λ _, errorf "") (quoted "{'18': {'image': 'n18', 'runAsUser': 0}}")) = false.
Proof. vm_compute. reflexivity. Qed.
