(* ===== verification/Ensure.v ===== *)
(** internal/controller/ensure.go: convergence of the owned children, and the
    copier's termination message. *)
From Stdlib Require Import ZArith Ascii String.
From stdpp Require Import base gmap strings list numbers sorting.
From S2P Require Import Prelude GoStd GoNum BuildSpec AppTypes Kube Config BuildSteps Naming AppView GitCred BuildPod Children Free Prog JsonDecode.

Open Scope string_scope.
Open Scope list_scope.
Open Scope Z_scope.

(** ** The copier's message *)
(* Go: internal/controller/ensure.go CopierMessage *)
Record CopierMessage := MkCopierMessage {
  cm_Current : string;
  cm_Sizes : gmap string Z;
  cm_ReleaseCount : Z;
}.
#[export] Instance eta_CopierMessage : Eta CopierMessage := λ x,
  MkCopierMessage (cm_Current x) (cm_Sizes x) (cm_ReleaseCount x).

(* Go: internal/controller/ensure.go parseCopierMessage *)
Definition parseCopierMessage `{GoRuntime} (s : string) : option CopierMessage :=
  if String.eqb s "" then None
  else
    v ← json_parse s;
    into_struct ["release"; "sizes"; "releaseCount"] (λ f v m,
      if String.eqb f "release" then
        into_struct ["current"] (λ _ v m,
          c ← into_string (cm_Current m) v; Some (m <| cm_Current := c |>)) v m
      else if String.eqb f "sizes" then
        x ← into_map (cm_Sizes m) v; Some (m <| cm_Sizes := x |>)
      else n ← into_int (cm_ReleaseCount m) v; Some (m <| cm_ReleaseCount := n |>))
      v (MkCopierMessage "" ∅ 0).

Example parseCopierMessage_example :
  let _ := ascii_only_tables in
  parseCopierMessage (quoted "{'release':{'current':'r-7'},'sizes':{'output':12,'outputTotal':40},'releaseCount':3}")
  = Some (MkCopierMessage "r-7" {["output" := 12; "outputTotal" := 40]} 3) ∧
  parseCopierMessage (quoted "{'releaseCount':1.5}") = None ∧ parseCopierMessage "" = None.
Proof. vm_compute. split_and!; reflexivity. Qed.

(** ** Converging one child *)
(* Go: internal/controller/ensure.go upsert *)
Definition upsert (app : App) (o : kobject) : prog (result unit) :=
  m ←? lift (SetControllerReference app (o_Meta o));
  do (ApplyObj (o <| o_Meta := m <| om_ResourceVersion := "" |> |>)).

(** The object's controller is this App. *)
(* Go: internal/controller/ensure.go deleteOwnedChild *)
Definition controlled_by (app : App) (m : ObjectMeta) : bool :=
  match GetControllerOf m with
  | Some ref => String.eqb (or_UID ref) (app_UID app)
  | None => false
  end.

(* Go: internal/controller/ensure.go ensureExists *)
Definition ensureExists (app : App) (o : kobject) : prog (result unit) :=
  res ← do (GetObj (kind (o_Spec o)) (om_Namespace (o_Meta o)) (om_Name (o_Meta o)));
  match res with
  | Err e =>
      if negb (is_not_found e) then mret (Err e)
      else m ←? lift (SetControllerReference app (o_Meta o));
           do (CreateObj (o <| o_Meta := m |>))
  | Ok existing =>
      if controlled_by app (o_Meta existing) then mret (Ok tt)
      else m ←? lift (SetControllerReference app (o_Meta existing));
           do (UpdateObj (existing <| o_Meta := m |>))
  end.

(** [client.IgnoreNotFound] of a call's error. *)
Definition ignore_not_found (r : result unit) : result unit :=
  match r with
  | Err e => if is_not_found e then Ok tt else Err e
  | Ok _ => Ok tt
  end.

(* Go: internal/controller/ensure.go deleteOwnedChild *)
Definition deleteOwnedChild (app : App) (kind_ name : string) : prog (result unit) :=
  res ← do (GetObj kind_ (app_Namespace app) name);
  match res with
  | Err e => mret (ignore_not_found (Err e))
  | Ok existing =>
      if negb (controlled_by app (o_Meta existing)) then mret (Ok tt)
      else r ← do (DeleteObj kind_ (app_Namespace app) name); mret (ignore_not_found r)
  end.

(** ** The trigger children *)
(* Go: internal/controller/ensure.go ensureTriggers *)
Definition scheduled_on (app : App) : option ScheduledBuildsSpec :=
  match as_ScheduledBuilds (app_Spec app) with
  | Some sb => if sb_Enabled sb then Some sb else None
  | None => None
  end.
(* Go: internal/controller/ensure.go ensureTriggers *)
Definition watch_on (app : App) : option WatchCommitsSpec :=
  match as_WatchCommits (app_Spec app) with
  | Some wc => if wc_Enabled wc then Some wc else None
  | None => None
  end.

(* Go: internal/controller/ensure.go ensureTriggers *)
Definition ensureTriggers `{GoRuntime} (r : AppReconciler) (app : App)
    (gitCred : gitCredentialDecision) : prog (result unit) :=
  let any := bool_decide (is_Some (scheduled_on app)) || bool_decide (is_Some (watch_on app)) in
  for_each [clockServiceAccount app; clockRole app; clockRoleBinding app; triggerNetworkPolicy r app]
    (λ o, if any then upsert app o
          else deleteOwnedChild app (kind (o_Spec o)) (om_Name (o_Meta o))) ;?
  (match scheduled_on app with
   | Some sb => upsert app (clockCronJob r app sb)
   | None => deleteOwnedChild app "CronJob" (clockCronJobName app)
   end) ;?
  match watch_on app with
  | Some wc =>
      match watchCronJob r app wc gitCred with
      | Err e => mret (Err (wrapf "watchCommits: " e))
      | Ok cj => upsert app cj
      end
  | None => deleteOwnedChild app "CronJob" (watchCronJobName app)
  end.

(* Go: internal/controller/ensure.go ensureInfra *)
Definition ensureInfra `{GoRuntime} (r : AppReconciler) (app : App)
    (gitCred : gitCredentialDecision) : prog (result unit) :=
  for_each [cacheePVCName app; dataCachePVCName app; outputPVCName app]
    (λ name, ensureExists app (pvc app name (r_StorageClassName r))) ;?
  ensureTriggers r app gitCred ;?
  upsert app (buildNetworkPolicy r app).

(** ** The serving stack *)
(* Go: internal/controller/ensure.go ingressURL *)
Definition ingressURL (app : App) : string :=
  let ic := as_Ingress (app_Spec app) in
  (match ic_TLS ic with Some _ => "https" | None => "http" end) +:+ "://" +:+ ic_Host ic.

(* Go: internal/controller/ensure.go validateIngress *)
Definition validateIngress (app : App) : prog App :=
  let ic := as_Ingress (app_Spec app) in
  missing ← match ic_TLS ic with
            | Some t =>
                res ← do (GetSecret (app_Namespace app) (tls_SecretName t));
                mret (match res with Err _ => Some (tls_SecretName t) | Ok _ => None end)
            | None => mret None
            end;
  now ← do Now;
  match missing with
  | Some name =>
      mret (setCondition now app ConditionIngressReady "False" ReasonMissingTLSSecret
              ("TLS secret " +:+ name +:+ " not found"))
  | None =>
      let msg := match ic_TLS ic, as_Auth (app_Spec app) with
                 | None, None => "WARNING: serving plaintext with no auth"
                 | _, _ => "ingress ready"
                 end in
      mret (setCondition now app ConditionIngressReady "True" ReasonReady msg)
  end.

(* Go: internal/controller/ensure.go ensureServing *)
Definition ensureServing (r : AppReconciler) (app : App) : prog (result App) :=
  upsert app (nginxConfigMap app) ;?
  upsert app (nginxDeployment r app) ;?
  ensureExists app (service app) ;?
  (match as_Auth (app_Spec app) with
   | Some _ => upsert app (authMiddleware r app (middlewareName app +:+ "-secret"))
   | None => mret (Ok tt)
   end) ;?
  upsert app (ingress app) ;?
  upsert app (nginxNetworkPolicy app (r_TraefikNamespace r)) ;?
  app ← validateIngress app;
  mret (Ok (on_status (λ s, s <| s_URL := ingressURL app |>) app)).
