(* ===== verification/GitSync.v ===== *)
(** The effectful part of internal/controller/gitcred.go and gitauth_secret.go:
    validating credential Secrets, keeping the per-app copy of the global one in
    step with its source, and mapping Secret changes back to Apps. *)
From Stdlib Require Import ZArith Ascii String.
From stdpp Require Import base gmap strings list numbers sorting.
From S2P Require Import Prelude GoStd GoNum Sha256 BuildSpec RepoHost AppTypes Kube Config BuildSteps Naming AppView GitCred BuildPod Children Free Prog Ensure.

Open Scope string_scope.
Open Scope list_scope.
Open Scope Z_scope.

Section sync.
Context `{GoRuntime} (r : AppReconciler).

(* Go: internal/controller/gitauth_secret.go ValidateGitAuthSecret *)
Definition ValidateGitAuthSecret (namespace : string) (ga : GitAuth) : prog (result unit) :=
  if negb (Enabled ga) then mret (Ok tt)
  else if String.eqb namespace "" then
    mret (Err (errorf ("gitAuth is enabled but the operator namespace is empty (POD_NAMESPACE must" +:+
      " be set via the downward API)")))
  else
    res ← do (ReadSecret namespace (ga_SecretName ga));
    let who := "gitAuth secret " +:+ Quote (ga_SecretName ga) +:+ " in namespace " +:+ Quote namespace in
    mret (match res with
          | Err e => Err (wrapf (who +:+ ": ") e)
          | Ok data => match checkGitCredentialData data with
                       | Err e => Err (wrapf (who +:+ " is ") e)
                       | Ok _ => Ok tt
                       end
          end).

(* Go: internal/controller/gitcred.go validateRepoAuthSecret *)
Definition validateRepoAuthSecret (app : App) : prog (result unit) :=
  match as_RepoAuth (app_Spec app) with
  | None => mret (Ok tt)
  | Some ra =>
      let name := ras_Name (rac_SecretRef ra) in
      res ← do (ReadSecret (app_Namespace app) name);
      mret (match res with
            | Err e =>
                if is_not_found e
                then Err (errorf ("repoAuth secret " +:+ Quote name +:+ " not found in namespace " +:+
                                  Quote (app_Namespace app)))
                else Err e
            | Ok data => match checkGitCredentialData data with
                         | Err e => Err (wrapf ("repoAuth secret " +:+ Quote name +:+ " is ") e)
                         | Ok _ => Ok tt
                         end
            end)
  end.

(* Go: internal/controller/gitcred.go deleteOwnedSyncedCopy *)
Definition deleteOwnedSyncedCopy (app : App) : prog (result unit) :=
  res ← do (GetSecretMeta (app_Namespace app) (gitCredentialSecretName app));
  match res with
  | Err e => mret (ignore_not_found (Err e))
  | Ok m =>
      if negb (controlled_by app m) then mret (Ok tt)
      else d ← do (DeleteObj "Secret" (app_Namespace app) (gitCredentialSecretName app));
           mret (ignore_not_found d)
  end.

(* Go: internal/controller/gitcred.go existingSyncedCopy *)
Definition existingSyncedCopy (app : App) : prog bool :=
  res ← do (GetSecretMeta (app_Namespace app) (gitCredentialSecretName app));
  mret (is_ok res).

(* Go: internal/controller/gitcred.go existingSyncedCopyHash *)
Definition existingSyncedCopyHash (app : App) : prog (option string) :=
  res ← do (GetSecretMeta (app_Namespace app) (gitCredentialSecretName app));
  mret (match res with
        | Ok m => Some (default "" (om_Annotations m !! gitCredHashAnnotation))
        | Err _ => None
        end).

(* Go: internal/controller/gitcred.go getSourceGitCredential *)
Definition getSourceGitCredential : prog (result (option (gmap string string))) :=
  res ← do (ReadSecret (r_OperatorNamespace r) (ga_SecretName (cfg_GitAuth (r_Config r))));
  mret (match res with
        | Err e => if is_not_found e then Ok None else Err e
        | Ok data => match checkGitCredentialData data with
                     | Err _ => Ok None
                     | Ok _ => Ok (Some data)
                     end
        end).

(* Go: internal/controller/gitcred.go reconcileGitCredential *)
Definition reconcileGitCredential (app : App) : prog (result gitCredentialDecision) :=
  let d := decideGitCredential app (cfg_GitAuth (r_Config r)) in
  if negb (gc_syncCopy d) then
    deleteOwnedSyncedCopy app ;? mret (Ok d)
  else
    source ←? getSourceGitCredential;
    match source with
    | None =>
        swapped ← do (CompareAndSwapMissing false true);
        (if (swapped : bool) then
           do (Eventf app "Warning" "GitAuthSourceMissing"
             ("operator-global git credential Secret " +:+
              Quote (ga_SecretName (cfg_GitAuth (r_Config r))) +:+
              " is absent or invalid; using last-synced copy (fail-static)"))
         else mret tt) ;;
        exists_ ← existingSyncedCopy app;
        mret (Ok (if (exists_ : bool) then d else anonymous))
    | Some data =>
        _ ← do (CompareAndSwapMissing true false);
        have ← existingSyncedCopyHash app;
        if bool_decide (have = Some (gitCredentialHash data)) then mret (Ok d)
        else upsert app (syncedGitCredential app data) ;? mret (Ok d)
    end.

(* Go: internal/controller/gitcred.go mapSecretToApps *)
Definition mapSecretToApps (secretNamespace secretName : string) : prog (list (string * string)) :=
  let request a := (app_Namespace a, app_Name a) in
  let ga := cfg_GitAuth (r_Config r) in
  if Enabled ga && String.eqb secretNamespace (r_OperatorNamespace r) &&
     String.eqb secretName (ga_SecretName ga)
  then
    res ← do (ListApps None);
    mret (match res with Err _ => [] | Ok apps => map request apps end)
  else
    res ← do (ListApps (Some secretNamespace));
    mret (match res with
          | Err _ => []
          | Ok apps =>
              map request (List.filter (λ a,
                match as_RepoAuth (app_Spec a) with
                | Some ra => String.eqb (ras_Name (rac_SecretRef ra)) secretName
                | None => false
                end || String.eqb secretName (gitCredentialSecretName a)) apps)
          end).
End sync.

(** ** Every run of the credential sync *)
(** Unfolds the program one answer further. *)
Ltac walk := cbn [all_runs mbind free_bind free_bind_ do mret free_ret try lift omap list_omap
  deleted_obj applied_obj secret_meta read_secret is_ok mounts gc_secretName] in *.

Section sync_facts.
Context `{GoRuntime} (r : AppReconciler) (app : App).

(** The copy carries valid data read from the source in this very run. *)
Definition copies_source (tr : trace) (o : kobject) : Prop :=
  ∃ data, (r_OperatorNamespace r, ga_SecretName (cfg_GitAuth (r_Config r)), Ok data) ∈ omap read_secret tr ∧
    checkGitCredentialData data = Ok tt ∧ o_Spec o = o_Spec (syncedGitCredential app data) ∧
    om_Name (o_Meta o) = gitCredentialSecretName app ∧ om_Namespace (o_Meta o) = app_Namespace app.

Lemma SetControllerReference_meta m m' : SetControllerReference app m = Ok m' →
  om_Name m' = om_Name m ∧ om_Namespace m' = om_Namespace m.
Proof.
  unfold SetControllerReference. destruct (negb _); [done|].
  destruct (GetControllerOf m) as [ref|]; [destruct (negb _); [done|]|]; by intros [= <-].
Qed.

(** The branch without a usable source. *)
Local Ltac outage :=
  let sw := fresh "sw" in intros sw; destruct sw; walk;
    [intros ?|]; (let m := fresh "m" in intros [m|]; walk;
      (split_and!; [done|by intros ?? []%not_elem_of_nil|]);
      [intros; left; exists m; by left | by intros ? [= <-]]).

(** C20: syncing the operator-global credential is fail-static in every run,
    whatever the API server answers: nothing is ever deleted on the sync path;
    only the App's own copy is written, from valid source data read in the same
    run; and the credential is reported as mountable only if the copy was seen to
    exist or was applied successfully, so a build never mounts a missing Secret. *)
Theorem credential_sync_fail_static tr res :
  gc_syncCopy (decideGitCredential app (cfg_GitAuth (r_Config r))) = true →
  run (reconcileGitCredential r app) tr res →
  omap deleted_obj tr = [] ∧
  (∀ o a, (o, a) ∈ omap applied_obj tr → copies_source tr o) ∧
  (∀ d, res = Ok d → mounts d = true →
    (∃ m, (app_Namespace app, gitCredentialSecretName app, Ok m) ∈ omap secret_meta tr) ∨
    (∃ o, (o, Ok tt) ∈ omap applied_obj tr)).
Proof.
  intros Hs Hr. pattern tr, res. eapply all_runs_run; [|exact Hr]. clear tr res Hr.
  unfold reconcileGitCredential. rewrite Hs. cbn [negb].
  unfold getSourceGitCredential, existingSyncedCopy, existingSyncedCopyHash. walk.
  intros [data|e].
  - destruct (checkGitCredentialData data) as [[]|] eqn:Ec; walk.
    + intros sw have. case_bool_decide as Eh; walk.
      * destruct have as [m|]; [|done]. split_and!; [done|by intros ?? []%not_elem_of_nil|].
        intros. left. exists m. by left.
      * unfold upsert. destruct (SetControllerReference _ _) as [m'|] eqn:Er; walk.
        -- apply SetControllerReference_meta in Er as [E1 E2].
           assert (Hc : ∀ o (a b : result unit) tr,
             (o, a) ∈ [((syncedGitCredential app data) <| o_Meta := m' <| om_ResourceVersion := "" |> |>, b)] →
             copies_source (Ev (ReadSecret (r_OperatorNamespace r) (ga_SecretName (cfg_GitAuth (r_Config r))))
               (Ok data) :: tr) o).
           { intros o a b tr [= -> _]%list_elem_of_singleton. exists data. split_and!; [by left|done..]. }
           intros [[]|e]; walk.
           ++ split_and!; [done|intros ??; apply Hc|]. intros. right. eexists. by left.
           ++ split_and!; [done|intros ??; apply Hc|done].
        -- split_and!; [done|by intros ?? []%not_elem_of_nil|done].
    + outage.
  - destruct (is_not_found e); walk; [outage|].
    split_and!; [done|by intros ?? []%not_elem_of_nil|done].
Qed.

(** Off the sync path (an override or an anonymous App) a run writes nothing
    and deletes at most the App's own copy of the credential, and that only after
    its metadata named this App as the controller: a same-named Secret of somebody
    else is left alone. *)
Theorem credential_reclaim_owned tr res :
  gc_syncCopy (decideGitCredential app (cfg_GitAuth (r_Config r))) = false →
  run (reconcileGitCredential r app) tr res →
  omap applied_obj tr = [] ∧
  (∀ x, x ∈ omap deleted_obj tr → x = ("Secret", app_Namespace app, gitCredentialSecretName app) ∧
     ∃ m, (app_Namespace app, gitCredentialSecretName app, Ok m) ∈ omap secret_meta tr ∧
       controlled_by app m = true).
Proof.
  intros Hs Hr. pattern tr, res. eapply all_runs_run; [|exact Hr]. clear tr res Hr.
  unfold reconcileGitCredential. rewrite Hs. cbn [negb]. unfold deleteOwnedSyncedCopy. walk.
  intros [m|e]; walk.
  - destruct (controlled_by app m) eqn:Ec; cbn [negb]; walk.
    + assert (Hx : ∀ x tr, x ∈ [("Secret", app_Namespace app, gitCredentialSecretName app)] →
        x = ("Secret", app_Namespace app, gitCredentialSecretName app) ∧
        ∃ m', (app_Namespace app, gitCredentialSecretName app, Ok m') ∈
          (app_Namespace app, gitCredentialSecretName app, Ok m) :: tr ∧ controlled_by app m' = true).
      { intros x tr ->%list_elem_of_singleton. split; [done|]. exists m. split; [by left|done]. }
      intros [[]|e]; walk; [|destruct (ignore_not_found (Err e)); walk]; (split; [done|]); eauto.
    + split; [done|]. by intros ? []%not_elem_of_nil.
  - unfold ignore_not_found. destruct (is_not_found e); walk; (split; [done|]); by intros ? []%not_elem_of_nil.
Qed.
End sync_facts.

(** ** Witnesses *)
Definition valid_data : gmap string string := {[gitAuthUsernameKey := "bot"; gitAuthPasswordKey := "s3cret"]}.

(** The source is there, the copy is not, the apply succeeds. *)
Definition fresh_source : ∀ R, call R → unit → R * unit := λ R c w,
  (match c in call R return R with
   | ReadSecret _ _ => Ok valid_data
   | ApplyObj _ => Ok tt
   | c => default_answer c
   end, w).
(** A stale copy this App controls. *)
Definition stale_copy : ∀ R, call R → unit → R * unit := λ R c w,
  (match c in call R return R with
   | GetSecretMeta _ _ => Ok (zero_meta <| om_OwnerReferences := [app_owner sample_app] |>)
   | DeleteObj _ _ _ => Ok tt
   | c => default_answer c
   end, w).
Definition sync_run := execute fresh_source
  (reconcileGitCredential (H := ascii_only_tables) sample_reconciler sample_app) tt.
Definition anonymous_app : App :=
  sample_app <| app_Spec ::= λ s, s <| as_Repo := "https://example.org/x" |> |>.
Definition reclaim_run := execute stale_copy
  (reconcileGitCredential (H := ascii_only_tables) sample_reconciler anonymous_app) tt.

Lemma credential_sync_fail_static_witness :
  sync_run.1.2 = Ok (MkGitCred true "site-git-credential") ∧
  omap deleted_obj sync_run.1.1 = [].
Proof.
  split; [vm_compute; reflexivity|].
  apply (credential_sync_fail_static (H := ascii_only_tables) sample_reconciler sample_app _ sync_run.1.2);
    [vm_compute; reflexivity|].
  pose proof (execute_run fresh_source
    (reconcileGitCredential (H := ascii_only_tables) sample_reconciler sample_app) tt) as Hr.
  fold sync_run in Hr. destruct sync_run as [[tr a] w]. exact Hr.
Defined.

Lemma credential_reclaim_owned_witness :
  omap deleted_obj reclaim_run.1.1 = [("Secret", "web", "site-git-credential")] ∧
  omap applied_obj reclaim_run.1.1 = [].
Proof.
  split; [vm_compute; reflexivity|].
  apply (credential_reclaim_owned (H := ascii_only_tables) sample_reconciler anonymous_app _ reclaim_run.1.2);
    [vm_compute; reflexivity|].
  pose proof (execute_run stale_copy
    (reconcileGitCredential (H := ascii_only_tables) sample_reconciler anonymous_app) tt) as Hr.
  fold reclaim_run in Hr. destruct reclaim_run as [[tr a] w]. exact Hr.
Defined.
