(* ===== verification/Measure.v ===== *)
(** internal/controller/measure.go: storage measurement Jobs and the recorded
    sizes; and buildActive of app_controller.go, which guards them. *)
From Stdlib Require Import ZArith Ascii String.
From stdpp Require Import base gmap strings list numbers sorting.
From S2P Require Import Prelude GoStd GoNum BuildSpec AppTypes Kube Config BuildSteps Naming AppView GitCred BuildPod Children Free Prog Ensure.

Open Scope string_scope.
Open Scope list_scope.
Open Scope Z_scope.

(** ** Shared by builds, measurements and cleanups *)
(* Go: internal/controller/app_controller.go buildActive *)
Definition buildActive (app : App) : prog (result (bool * string)) :=
  jobs ←? do (ListJobs (app_Namespace app) (buildLabelsFor app));
  mret (Ok (match List.find (λ j, bool_decide (jobFinished j = None)) jobs with
            | Some j => (true, om_Name (j_Meta j))
            | None => (false, "")
            end)).

(** The terminated container of that name, of a pod of that Job, that finished
    last; the first one of equals. *)
(* Go: internal/controller/app_controller.go applyCopierTermination *)
Definition candidates (cname : string) (job : Job) (pods : list Pod) : list (Pod * Terminated) :=
  concat (map (λ p, omap (λ cs,
      if String.eqb (cst_Name cs) cname then pair p <$> cst_Terminated cs else None)
    (pod_ContainerStatuses p)) (List.filter (λ p, ownedByJob p job) pods)).
(* Go: internal/controller/app_controller.go applyCopierTermination *)
Definition later (best : option (Pod * Terminated)) (x : Pod * Terminated) : option (Pod * Terminated) :=
  match best with
  | None => Some x
  | Some b => if t_FinishedAt b.2 <? t_FinishedAt x.2 then Some x else best
  end.
(* Go: internal/controller/app_controller.go applyCopierTermination *)
Definition latest_terminated (cname : string) (job : Job) (pods : list Pod) : option (Pod * Terminated) :=
  foldl later None (candidates cname job pods).

(** ** measure.go *)
Definition measureVolumeLabel : string := "baker.toggle-corp.com/measure-volume".
Definition measureContainerName : string := "du".
(* Go: internal/controller/measure.go measureRole @21-30 *)
Definition measureTargetPath : string := "/target".

(* Go: internal/controller/measure.go measureTarget *)
Record measureTarget := MkMeasureTarget {
  m_key : string; m_suffix : string; m_pvcName : string; m_volName : string }.

(* Go: internal/controller/measure.go measureTargets *)
Definition measureTargets (app : App) : list measureTarget :=
  [MkMeasureTarget "cache" "cache" (cacheePVCName app) volCache;
   MkMeasureTarget "dataCache" "data" (dataCachePVCName app) volData].

(* Go: internal/controller/measure.go measureJobName *)
Definition measureJobName (app : App) (suffix : string) : string :=
  app_Name app +:+ "-measure-" +:+ suffix.
(* Go: internal/controller/measure.go measureLabelsFor *)
Definition measureLabelsFor (app : App) : gmap string string := <[roleLabel := "measure"]> (labelsFor app).

(* Go: internal/controller/measure.go MeasureJob *)
Definition MeasureJob (r : AppReconciler) (app : App) (m : measureTarget) : Job :=
  let labels := <[measureVolumeLabel := m_key m]> (measureLabelsFor app) in
  let podSpec :=
    MkPodSpec "Never" "" (Some false) pod_security []
      [zero_container <| k_Name := measureContainerName |> <| k_Image := img_Du (cfg_Images (r_Config r)) |>
         <| k_Env := [env "TARGET" measureTargetPath] |>
         <| k_VolumeMounts := [MkVolumeMount (m_volName m) measureTargetPath true] |>
         <| k_SecurityContext := Some hardenedSecurityContext |>]
      [MkVolume (m_volName m) (PVCSource (m_pvcName m) true)]
      (pull_secrets (r_Config r)) "" in
  MkJob (object_meta (measureJobName app (m_suffix m)) (app_Namespace app) labels)
    (MkJobSpec (Some 0) (Some 600) (Some 300) labels podSpec) [].

(* Go: internal/controller/measure.go measureInterval *)
Definition measureInterval (r : AppReconciler) : Z :=
  if 0 <? cfg_MeasureInterval (r_Config r) then cfg_MeasureInterval (r_Config r) else Hour.

(** [SetControllerReference] on a Job, then [Create] with AlreadyExists ignored;
    the Job that stands afterwards. *)
(* Go: internal/controller/measure.go maybeStartMeasurement *)
Definition create_job (app : App) (job : Job) : prog (result Job) :=
  m ←? lift (SetControllerReference app (j_Meta job));
  let job := job <| j_Meta := m |> in
  res ← do (CreateJob job);
  mret (match res with
        | Ok j => Ok j
        | Err e => if is_already_exists e then Ok job else Err e
        end).

(* Go: internal/controller/measure.go maybeStartMeasurement *)
Definition maybeStartMeasurement (r : AppReconciler) (app : App) (prevMeasuredAt : option Time)
    : prog (result unit) :=
  recent ← match prevMeasuredAt with
           | None => mret false
           | Some t => now ← do Now; mret (now - t <? measureInterval r)
           end;
  if (recent : bool) then mret (Ok tt)
  else
    '(active, _) ←? buildActive app;
    if (active : bool) then mret (Ok tt)
    else for_each (measureTargets app) (λ m, _ ←? create_job app (MeasureJob r app m); mret (Ok tt)).

(* Go: internal/controller/measure.go recordSize *)
Definition recordSize (now : Time) (app : App) (key : string) (bytes : Z) : App :=
  let st := s_Storage (app_Status app) in
  match ss_Sizes st !! key with
  | Some prev =>
      if prev =? bytes then app
      else on_status (λ s, s <| s_Storage ::= λ st, st
             <| ss_LastRunDeltas ::= <[key := i64 (bytes - prev)]> |>
             <| ss_Sizes ::= <[key := bytes]> |> <| ss_MeasuredAt := Some now |> |>) app
  | None => on_status (λ s, s <| s_Storage ::= λ st, st
             <| ss_Sizes ::= <[key := bytes]> |> <| ss_MeasuredAt := Some now |> |>) app
  end.

(* Go: internal/controller/measure.go readMeasurement *)
Definition readMeasurement (app : App) (job : Job) : prog (option Z) :=
  res ← do (ListPods (app_Namespace app) (measureLabelsFor app));
  mret (match res with
        | Err _ => None
        | Ok pods =>
            match latest_terminated measureContainerName job pods with
            | None => None
            | Some (_, t) =>
                match ParseInt (TrimSpace (t_Message t)) with
                | (n, None) => if n <? 0 then None else Some n
                | (_, Some _) => None
                end
            end
        end).

(* Go: internal/controller/measure.go observeMeasurement *)
Definition observeMeasurement (app : App) : prog (result (App * list Job)) :=
  jobs ←? do (ListJobs (app_Namespace app) (measureLabelsFor app));
  fold_prog jobs (λ st job,
    let '(app, harvested) := st in
    let key := default "" (om_Labels (j_Meta job) !! measureVolumeLabel) in
    match jobFinished job with
    | Some cond =>
        if negb (String.eqb (jc_Type cond) "Complete") || String.eqb key "" then mret (Ok st)
        else
          n ← readMeasurement app job;
          match n with
          | None => mret (Ok st)
          | Some bytes =>
              now ← do Now;
              mret (Ok (recordSize now app key bytes, harvested ++ [job]))
          end
    | None => mret (Ok st)
    end) (app, []).

(* Go: internal/controller/measure.go recordPVCCapacities *)
Definition recordPVCCapacities `{MapOrder} `{KubeLib} (app : App) : prog App :=
  let targets : gmap string string :=
    {["cache" := cacheePVCName app; "dataCache" := dataCachePVCName app; "output" := outputPVCName app]} in
  caps ← foldr (λ t rest, λ caps,
      res ← do (GetPVCCapacity (app_Namespace app) t.2);
      rest (match res with
            | Ok c => match c !! "storage" with
                      | Some q => if 0 <? q_Value q then <[t.1 := q_Value q]> caps else caps
                      | None => caps
                      end
            | Err _ => caps
            end)) mret (range_map targets) (∅ : gmap string Z);
  mret (if bool_decide (caps = ∅) then app
        else on_status (λ s, s <| s_Storage ::= λ st, st <| ss_Capacities := caps |> |>) app).

(** ** Facts *)
Lemma foldl_later_some l b : ∃ x, foldl later (Some b) l = Some x ∧ (x = b ∨ x ∈ l) ∧
  t_FinishedAt b.2 ≤ t_FinishedAt x.2 ∧ ∀ y, y ∈ l → t_FinishedAt y.2 ≤ t_FinishedAt x.2.
Proof.
  revert b. induction l as [|y l IH]; intros b; cbn [foldl later].
  { exists b. split_and!; [done|by left|lia|by intros ? []%not_elem_of_nil]. }
  destruct (t_FinishedAt b.2 <? t_FinishedAt y.2) eqn:E; breflect.
  - destruct (IH y) as (x & Hx & Hin & H1 & H2). exists x. split_and!; [done| |lia|].
    + right. destruct Hin as [->|?]; [by left|by right].
    + intros z [->|?]%elem_of_cons; [done|auto].
  - destruct (IH b) as (x & Hx & Hin & H1 & H2). exists x. split_and!; [done| |lia|].
    + destruct Hin as [->|?]; [by left|right; by right].
    + intros z [->|?]%elem_of_cons; [lia|auto].
Qed.

Lemma latest_terminated_spec cname job pods p t :
  latest_terminated cname job pods = Some (p, t) →
  (p, t) ∈ candidates cname job pods ∧
  ∀ x, x ∈ candidates cname job pods → t_FinishedAt x.2 ≤ t_FinishedAt t.
Proof.
  unfold latest_terminated. destruct (candidates cname job pods) as [|x l]; [done|]. cbn [foldl later].
  destruct (foldl_later_some l x) as (y & -> & Hin & H1 & H2). intros [= ->]. cbn in *. split.
  - destruct Hin as [<-|?]; [by left|by right].
  - intros z [->|?]%elem_of_cons; auto.
Qed.

Lemma candidates_owned cname job pods p t :
  (p, t) ∈ candidates cname job pods → ownedByJob p job = true ∧ p ∈ pods ∧
  ∃ cs, cs ∈ pod_ContainerStatuses p ∧ cst_Name cs = cname ∧ cst_Terminated cs = Some t.
Proof.
  unfold candidates. intros Hx. apply list_elem_of_In, in_concat in Hx as (l & Hl & Hin).
  apply list_elem_of_In in Hin. apply list_elem_of_In in Hl.
  apply list_elem_of_fmap in Hl as (p' & -> & Hp).
  apply list_elem_of_In, filter_In in Hp as [Hp Ho]. apply list_elem_of_In in Hp.
  apply list_elem_of_omap in Hin as (cs & Hcs & E).
  destruct (String.eqb_spec (cst_Name cs) cname) as [En|]; [|done].
  apply fmap_Some in E as (t' & Et & [= -> ->]). split_and!; [done..|]. eauto.
Qed.

(** Recording a measured size touches only its own key, and is idempotent: a
    Job that is read again before it is deleted changes nothing, so the recorded
    growth and the measuring time survive. *)
Theorem recordSize_correct now app key bytes :
  let app' := recordSize now app key bytes in
  let sizes a := ss_Sizes (s_Storage (app_Status a)) in
  let deltas a := ss_LastRunDeltas (s_Storage (app_Status a)) in
  sizes app' = <[key := bytes]> (sizes app) ∧
  (∀ k, k ≠ key → deltas app' !! k = deltas app !! k) ∧
  (∀ prev, sizes app !! key = Some prev → prev ≠ bytes →
     deltas app' !! key = Some (i64 (bytes - prev))) ∧
  (∀ now', recordSize now' app' key bytes = app').
Proof.
  cbv zeta. unfold recordSize at 1 2 3.
  destruct (ss_Sizes (s_Storage (app_Status app)) !! key) as [prev|] eqn:E.
  - destruct (Z.eqb_spec prev bytes) as [->|Hne].
    + split_and!; [by rewrite insert_id|done|naive_solver|].
      intros now'. unfold recordSize. rewrite E, Z.eqb_refl. rewrite E, Z.eqb_refl. done.
    + split_and!; cbn.
      * done.
      * intros. by rewrite lookup_insert_ne.
      * intros ? [= <-] _. by rewrite lookup_insert_eq.
      * intros now'. unfold recordSize. rewrite E, (proj2 (Z.eqb_neq _ _) Hne). cbn.
        by rewrite lookup_insert_eq, Z.eqb_refl.
  - split_and!; cbn; [done|done|done|].
    intros now'. unfold recordSize. rewrite E. cbn. by rewrite lookup_insert_eq, Z.eqb_refl.
Qed.
