(* ===== verification/Cleanup.v ===== *)
(** internal/controller/cleanup.go: on-demand cache and release pruning. *)
From Stdlib Require Import ZArith Ascii String.
From stdpp Require Import base gmap strings list numbers sorting.
From S2P Require Import Prelude GoStd GoNum Images Decisions BuildSpec AppTypes Kube Config BuildSteps Naming AppView GitCred BuildPod Children Free Prog JsonDecode Ensure Measure.

Open Scope string_scope.
Open Scope list_scope.
Open Scope Z_scope.

(* Go: internal/controller/cleanup.go cleanupRole @23-35 *)
Definition cleanupModeLabel : string := "baker.toggle-corp.com/cleanup-mode".
Definition cleanupContainerName : string := "cleanup".
Definition cleanupModeCache : string := "cache".
Definition cleanupModeReleases : string := "releases".
(* Go: internal/controller/cleanup.go platformUID @37-40 *)
Definition platformUID : Z := 65532.

(** ** Security contexts *)
(* Go: internal/controller/cleanup.go unprivilegedCleanupSC *)
Definition unprivilegedCleanupSC (uid : Z) : SecurityContext :=
  MkSecurityContext (Some uid) None (Some true) None (Some false) ["ALL"] [] (Some "RuntimeDefault").
(* Go: internal/controller/cleanup.go rootCleanupSC *)
Definition rootCleanupSC : SecurityContext :=
  MkSecurityContext (Some 0) None (Some false) None (Some false) ["ALL"] ["DAC_OVERRIDE"; "FOWNER"]
    (Some "RuntimeDefault").

(* Go: internal/controller/cleanup.go cacheWriterUID *)
Definition cacheWriterUID (app : App) : option Z :=
  match aps_RunAsUser (sps_PhaseSpec (app_Setup app)),
        aps_RunAsUser (bps_PhaseSpec (app_BuildPhase app)) with
  | Some su, Some bu => if negb (su =? bu) || (su =? 0) then None else Some su
  | _, _ => None
  end.

(* Go: internal/controller/cleanup.go cleanupSecurityContext *)
Definition cleanupSecurityContext (app : App) (mode : string) : SecurityContext :=
  if String.eqb mode cleanupModeReleases then unprivilegedCleanupSC platformUID
  else match cacheWriterUID app with
       | Some uid => unprivilegedCleanupSC uid
       | None => rootCleanupSC
       end.

(* Go: internal/controller/cleanup.go cleanupJobName *)
Definition cleanupJobName (app : App) (mode : string) : string :=
  app_Name app +:+ "-cleanup-" +:+ mode.
(* Go: internal/controller/cleanup.go cleanupLabelsFor *)
Definition cleanupLabelsFor (app : App) : gmap string string := <[roleLabel := "cleanup"]> (labelsFor app).

(** ** The Job *)
(* Go: internal/controller/cleanup.go protectedReleases *)
Definition protectedReleases (app : App) : string :=
  let rel := s_Release (app_Status app) in
  Join ((if String.eqb (rs_Current rel) "" then [] else [rs_Current rel])
        ++ (if String.eqb (rs_Previous rel) "" then [] else [rs_Previous rel])) ",".

(* Go: internal/controller/cleanup.go CleanupJob *)
Definition CleanupJob (r : AppReconciler) (app : App) (mode : string) : Job :=
  let labels := <[cleanupModeLabel := mode]> (cleanupLabelsFor app) in
  let '(env_, mounts_, volumes) :=
    if String.eqb mode cleanupModeReleases then
      ([env "MODE" cleanupModeReleases; env "RELEASES_DIR" (outputMountPath +:+ "/releases");
        env "KEEP_RELEASES" (Itoa (as_KeepReleases (app_Spec app)));
        env "PROTECTED_RELEASES" (protectedReleases app)],
       [mount volOutput outputMountPath],
       [MkVolume volOutput (PVCSource (outputPVCName app) false)])
    else
      ([env "MODE" cleanupModeCache; env "PACKAGE_MANAGER" (pl_PackageManager (app_Pipeline app));
        env "CLEANUP_THRESHOLD_BYTES" "0"],
       [mount volCache cacheMountPath],
       [MkVolume volCache (PVCSource (cacheePVCName app) false)]) in
  let podSpec :=
    MkPodSpec "Never" "" (Some false) (Some (MkPodSecurityContext None (Some "RuntimeDefault"))) []
      [zero_container <| k_Name := cleanupContainerName |>
         <| k_Image := img_Cleanup (cfg_Images (r_Config r)) |>
         <| k_Env := env_ |> <| k_VolumeMounts := mounts_ |>
         <| k_TerminationMessagePolicy := "FallbackToLogsOnError" |>
         <| k_SecurityContext := Some (cleanupSecurityContext app mode) |>]
      volumes (pull_secrets (r_Config r)) "" in
  MkJob (object_meta (cleanupJobName app mode) (app_Namespace app) labels)
    (MkJobSpec (Some 0) (Some 600) None labels podSpec) [].

(** ** The result message *)
(* Go: internal/controller/cleanup.go CleanupResult *)
Record CleanupResult := MkCleanupResult {
  cr_Action : string; cr_Reason : string; cr_Before : Z; cr_After : Z; cr_Reclaimed : Z;
  cr_Threshold : Z; cr_Kept : Z; cr_Deleted : Z;
}.
#[export] Instance eta_CleanupResult : Eta CleanupResult := λ x,
  MkCleanupResult (cr_Action x) (cr_Reason x) (cr_Before x) (cr_After x) (cr_Reclaimed x)
    (cr_Threshold x) (cr_Kept x) (cr_Deleted x).
Definition zero_cleanup : CleanupResult := MkCleanupResult "" "" 0 0 0 0 0 0.

(* Go: internal/controller/cleanup.go CleanupResult @100-109 *)
Definition parseCleanupResult `{GoRuntime} (s : string) : option CleanupResult :=
  v ← json_parse s;
  into_struct ["action"; "reason"; "before"; "after"; "reclaimed"; "threshold"; "kept"; "deleted"]
    (λ f v x,
      if String.eqb f "action" then y ← into_string (cr_Action x) v; Some (x <| cr_Action := y |>)
      else if String.eqb f "reason" then y ← into_string (cr_Reason x) v; Some (x <| cr_Reason := y |>)
      else if String.eqb f "before" then y ← into_int (cr_Before x) v; Some (x <| cr_Before := y |>)
      else if String.eqb f "after" then y ← into_int (cr_After x) v; Some (x <| cr_After := y |>)
      else if String.eqb f "reclaimed" then y ← into_int (cr_Reclaimed x) v; Some (x <| cr_Reclaimed := y |>)
      else if String.eqb f "threshold" then y ← into_int (cr_Threshold x) v; Some (x <| cr_Threshold := y |>)
      else if String.eqb f "kept" then y ← into_int (cr_Kept x) v; Some (x <| cr_Kept := y |>)
      else y ← into_int (cr_Deleted x) v; Some (x <| cr_Deleted := y |>))
    v zero_cleanup.

(** [for x := n / unit; x >= unit; x /= unit { div *= unit; exp++ }]; seven turns
    empty any int64. *)
(* Go: internal/controller/cleanup.go humanBytes *)
Fixpoint human_loop (fuel : nat) (x div : Z) (exp : Z) : Z * Z :=
  match fuel with
  | O => (div, exp)
  | S f => if 1024 <=? x then human_loop f (x / 1024) (i64 (div * 1024)) (exp + 1) else (div, exp)
  end.
(* Go: internal/controller/cleanup.go humanBytes *)
Definition humanBytes (n : Z) : outcome string :=
  if n <? 1024 then Val (Itoa n +:+ "B")
  else
    let '(div, exp) := human_loop 7 (n / 1024) 1024 0 in
    match byte_at "KMGT" exp with
    | Val c => Val (one_decimal n div +:+ s1 c +:+ "iB")
    | Panic => Panic
    end.

Definition outcome_map {A B} (f : A → B) (o : outcome A) : outcome B :=
  match o with Val x => Val (f x) | Panic => Panic end.
(* Go: internal/controller/cleanup.go summarizeCleanup *)
Definition summarizeCleanup (res : CleanupResult) : outcome string :=
  if String.eqb (cr_Action res) "skip" then
    Val (if String.eqb (cr_Reason res) "" then "skip" else "skip: " +:+ cr_Reason res)
  else if String.eqb (cr_Action res) "release-prune" then
    outcome_map (λ h, "release-prune: kept " +:+ Itoa (cr_Kept res) +:+ ", deleted " +:+
                      Itoa (cr_Deleted res) +:+ ", reclaimed " +:+ h) (humanBytes (cr_Reclaimed res))
  else outcome_map (λ h, "cache prune: reclaimed " +:+ h) (humanBytes (cr_Reclaimed res)).

(** ** The action records *)
(* Go: internal/controller/cleanup.go cleanupAction *)
Record cleanupAction := MkCleanupAction {
  a_mode : string; a_requestedAt : string; a_requestedBy : string }.
(* Go: internal/controller/cleanup.go cleanupActionsFor *)
Definition cleanupActionsFor (app : App) : list cleanupAction :=
  [MkCleanupAction cleanupModeCache (annotation app CleanupCacheRequestedAtAnnotation)
     (annotation app CleanupCacheByAnnotation);
   MkCleanupAction cleanupModeReleases (annotation app CleanupReleasesRequestedAtAnnotation)
     (annotation app CleanupReleasesByAnnotation)].

(** The record of a mode, and a write through the pointer [actionStatus] returns;
    the missing containers are created on the way. *)
(* Go: internal/controller/cleanup.go actionStatus *)
Definition action_of (app : App) (mode : string) : CleanupActionStatus :=
  let c := default (MkCleanupStatus None None) (s_Cleanup (app_Status app)) in
  default zero_action (if String.eqb mode cleanupModeReleases then cs_Releases c else cs_Cache c).
(* Go: internal/controller/cleanup.go actionStatus *)
Definition actionStatus (app : App) (mode : string) (f : CleanupActionStatus → CleanupActionStatus)
    : App :=
  on_status (λ s, s <| s_Cleanup ::= λ oc,
    let c := default (MkCleanupStatus None None) oc in
    Some (if String.eqb mode cleanupModeReleases
          then c <| cs_Releases ::= λ o, Some (f (default zero_action o)) |>
          else c <| cs_Cache ::= λ o, Some (f (default zero_action o)) |>) |>) app.

(* Go: internal/controller/cleanup.go sizeKeyForCleanupMode *)
Definition sizeKeyForCleanupMode (mode : string) : string :=
  if String.eqb mode cleanupModeReleases then "outputTotal" else "cache".

(** ** The loop *)
(* Go: internal/controller/cleanup.go cleanupActive *)
Definition cleanupActive (app : App) : prog (result bool) :=
  jobs ←? do (ListJobs (app_Namespace app) (cleanupLabelsFor app));
  mret (Ok (existsb (λ j, bool_decide (jobFinished j = None)) jobs)).

(** The recovered panic of a reconcile, which the manager reports as an error. *)
Definition panic_error : error := errorf "panic: runtime error: index out of range [recovered]".

Section cleanup.
Context `{GoRuntime} (r : AppReconciler).

(* Go: internal/controller/cleanup.go readCleanupResult *)
Definition readCleanupResult (app : App) (job : Job) : prog (result (CleanupResult * string)) :=
  res ← do (ListPods (app_Namespace app) (cleanupLabelsFor app));
  mret (match res with
        | Err _ => Ok (zero_cleanup, "")
        | Ok pods =>
            match latest_terminated cleanupContainerName job pods with
            | None => Ok (zero_cleanup, "cleanup completed")
            | Some (_, t) =>
                match parseCleanupResult (TrimSpace (t_Message t)) with
                | None => Ok (zero_cleanup, "cleanup completed")
                | Some res => match summarizeCleanup res with
                              | Val msg => Ok (res, msg)
                              | Panic => Err panic_error
                              end
                end
            end
        end).

(** The writeback of a finished prune. *)
(* Go: internal/controller/cleanup.go observeCleanup @399-432 *)
Definition apply_cleanup (now : Time) (app : App) (mode : string) (res : CleanupResult) (msg : string)
    : App :=
  let app := actionStatus app mode (λ st, st <| ca_Phase := "Succeeded" |>
               <| ca_ReclaimedBytes := cr_Reclaimed res |> <| ca_Message := msg |>) in
  let app := if negb (String.eqb (cr_Action res) "skip") && (0 <? cr_Before res)
             then recordSize now app (sizeKeyForCleanupMode mode) (cr_After res) else app in
  if String.eqb mode cleanupModeReleases && String.eqb (cr_Action res) "release-prune" &&
     ((0 <? cr_Kept res) || (0 <? cr_Deleted res) || (cr_Before res =? 0))
  then on_status (λ s, s <| s_Storage ::= λ st, st <| ss_ReleaseCount := cr_Kept res |> |>) app
  else app.

(* Go: internal/controller/cleanup.go observeCleanup *)
Definition observeCleanup (app : App) : prog (result (App * list Job)) :=
  jobs ←? do (ListJobs (app_Namespace app) (cleanupLabelsFor app));
  fold_prog jobs (λ st job,
    let '(app, harvested) := st in
    match jobFinished job with
    | None => mret (Ok st)
    | Some cond =>
        let mode := default "" (om_Labels (j_Meta job) !! cleanupModeLabel) in
        if String.eqb mode "" then mret (Ok st)
        else
          let app := actionStatus app mode id in
          let phase := ca_Phase (action_of app mode) in
          if String.eqb phase "Succeeded" || String.eqb phase "Failed"
          then mret (Ok (app, harvested ++ [job]))
          else
            now ← do Now;
            let app := actionStatus app mode (λ st, st <| ca_CompletedAt := Some now |>) in
            if String.eqb (jc_Type cond) "Complete" then
              '(res, msg) ←? readCleanupResult app job;
              now ← do Now;
              mret (Ok (apply_cleanup now app mode res msg, harvested ++ [job]))
            else
              mret (Ok (actionStatus app mode (λ st, st <| ca_Phase := "Failed" |>
                <| ca_ReclaimedBytes := 0 |> <| ca_Message := "cleanup failed: " +:+ jc_Message cond |>),
                harvested ++ [job]))
    end) (app, []).

(* Go: internal/controller/cleanup.go startCleanup *)
Definition startCleanup (app : App) (a : cleanupAction) : prog (result App) :=
  _ ←? create_job app (CleanupJob r app (a_mode a));
  now ← do Now;
  mret (Ok (actionStatus app (a_mode a) (λ st, st <| ca_RequestedAt := a_requestedAt a |>
    <| ca_RequestedBy := a_requestedBy a |> <| ca_Phase := "Running" |>
    <| ca_StartedAt := Some now |> <| ca_CompletedAt := None |>))).

(** One action of the loop: the app and whether a cleanup was started. *)
(* Go: internal/controller/cleanup.go reconcileCleanup *)
Definition cleanup_step (buildActive_ : bool) (harvested : list Job) (st : App * bool)
    (a : cleanupAction) : prog (result (App * bool)) :=
  let '(app, startedThisPass) := st in
  let app := actionStatus app (a_mode a) id in
  active ←? cleanupActive app;
  let held := existsb (λ j, String.eqb (default "" (om_Labels (j_Meta j) !! cleanupModeLabel)) (a_mode a))
                harvested in
  match DecideCleanup (a_requestedAt a) (ca_RequestedAt (action_of app (a_mode a))) buildActive_
          (active || startedThisPass || held) with
  | StartCleanup => app ←? startCleanup app a; mret (Ok (app, true))
  | WaitCleanup =>
      mret (Ok (actionStatus app (a_mode a) (λ st, st <| ca_Phase := "Pending" |>
                  <| ca_RequestedBy ::= λ by_, if String.eqb (a_requestedBy a) "" then by_ else a_requestedBy a |>),
                startedThisPass))
  | NoCleanup => mret (Ok (app, startedThisPass))
  end.

(* Go: internal/controller/cleanup.go reconcileCleanup *)
Definition reconcileCleanup (app : App) (buildActive_ : bool) : prog (result (App * list Job)) :=
  '(app, harvested) ←? observeCleanup app;
  '(app, _) ←? fold_prog (cleanupActionsFor app) (cleanup_step buildActive_ harvested) (app, false);
  mret (Ok (app, harvested)).
End cleanup.

(** ** Facts *)
Lemma human_loop_exp fuel x div e :
  0 ≤ x < 1024 ^ Z.of_nat (S fuel) → e ≤ (human_loop fuel x div e).2 ∧
  ∀ k, (k < fuel)%nat → e + Z.of_nat k < (human_loop fuel x div e).2 ↔ 1024 ^ (Z.of_nat k + 1) ≤ x.
Proof.
  revert x div e. induction fuel as [|f IH]; intros x div e Hx; [cbn; split; [lia|intros; lia]|].
  cbn [human_loop]. destruct (Z.leb_spec 1024 x) as [Hl|Hl]; cbn [snd].
  - rewrite Nat2Z.inj_succ, Z.pow_succ_r in Hx by lia.
    assert (Hq : 0 ≤ x / 1024 < 1024 ^ Z.of_nat (S f)) by (Z.div_mod_to_equations; lia).
    destruct (IH (x / 1024) (i64 (div * 1024)) (e + 1) Hq) as [H1 H2]. split; [lia|].
    intros [|k] Hk; [split; [cbn; lia|lia]|].
    specialize (H2 k ltac:(lia)). replace (e + Z.of_nat (S k)) with (e + 1 + Z.of_nat k) by lia.
    rewrite H2. replace (Z.of_nat (S k) + 1) with (Z.succ (Z.of_nat k + 1)) by lia.
    rewrite Z.pow_succ_r by lia. pose proof (Z.pow_pos_nonneg 1024 (Z.of_nat k + 1)).
    Z.div_mod_to_equations. nia.
  - split; [lia|]. intros k Hk. split; [lia|]. intros Hp.
    assert (1024 ^ 1 ≤ 1024 ^ (Z.of_nat k + 1)) by (apply Z.pow_le_mono_r; lia). lia.
Qed.

(** HumanBytes renders every amount below 2^50 bytes and panics from 1 PiB on:
    its unit table ends at T, and the index runs past it. *)
Theorem humanBytes_panics n : in_i64 n → humanBytes n = Panic ↔ 2 ^ 50 ≤ n.
Proof.
  unfold in_i64, i64_min, i64_max. intros Hn. unfold humanBytes.
  destruct (Z.ltb_spec n 1024) as [Hl|Hl]; [split; [done|lia]|].
  assert (Hq : 0 ≤ n / 1024 < 1024 ^ Z.of_nat 8) by (Z.div_mod_to_equations; lia).
  destruct (human_loop_exp 7 (n / 1024) 1024 0 Hq) as [H0 He].
  destruct (human_loop 7 (n / 1024) 1024 0) as [div e]. cbn [snd] in *.
  specialize (He 3%nat ltac:(lia)). assert (E4 : 2 ^ 50 ≤ n ↔ 3 < e).
  { change (0 + Z.of_nat 3) with 3 in He. rewrite He. change (1024 ^ (Z.of_nat 3 + 1)) with (2 ^ 40).
    Z.div_mod_to_equations. lia. }
  rewrite E4. destruct (Z.le_gt_cases e 3) as [Hs|Hs].
  - assert (Hc : e = 0 ∨ e = 1 ∨ e = 2 ∨ e = 3) by lia.
    destruct Hc as [->|[->|[->| ->]]]; cbn; split; done || lia.
  - assert (E : byte_at "KMGT" e = Panic).
    { unfold byte_at. destruct (Z.ltb_spec e 0); [done|].
      replace (Z.to_nat e) with (S (S (S (S (Z.to_nat (e - 4)))))) by lia. done. }
    by rewrite E.
Qed.
Lemma humanBytes_panics_witness : in_i64 (2 ^ 50) ∧ humanBytes (2 ^ 50) = Panic.
Proof.
  assert (Hi : in_i64 (2 ^ 50)) by (unfold in_i64, i64_min, i64_max; lia).
  split; [exact Hi|]. apply (humanBytes_panics (2 ^ 50) Hi). lia.
Defined.

(** A cleanup runs with the least it needs.  Its pod has one container, mounts
    exactly the one volume it prunes (the output volume for releases, else the
    cache), gets no service-account token, no privilege escalation and no
    capability but, for a cache of mixed or root-owned files, DAC_OVERRIDE and
    FOWNER as root; pruning releases never runs as root and is told to spare the
    served and the previous release. *)
Theorem cleanup_job_confined r app mode :
  let spec := js_Template (j_Spec (CleanupJob r app mode)) in
  let rel := s_Release (app_Status app) in
  p_AutomountServiceAccountToken spec = Some false ∧
  ∃ c sc, p_Containers spec = [c] ∧ p_InitContainers spec = [] ∧ k_SecurityContext c = Some sc ∧
    (if String.eqb mode cleanupModeReleases
     then p_Volumes spec = [MkVolume volOutput (PVCSource (outputPVCName app) false)] ∧
          map vm_Name (k_VolumeMounts c) = [volOutput] ∧
          env "PROTECTED_RELEASES" (Join (List.filter (λ x, negb (String.eqb x "")) [rs_Current rel; rs_Previous rel]) ",")
            ∈ k_Env c
     else p_Volumes spec = [MkVolume volCache (PVCSource (cacheePVCName app) false)] ∧
          map vm_Name (k_VolumeMounts c) = [volCache]) ∧
    sc_AllowPrivilegeEscalation sc = Some false ∧ sc_CapDrop sc = ["ALL"] ∧
    (sc_RunAsUser sc = Some 0 ∨ sc_CapAdd sc ≠ [] →
       mode ≠ cleanupModeReleases ∧ cacheWriterUID app = None ∧ sc_CapAdd sc = ["DAC_OVERRIDE"; "FOWNER"]).
Proof.
  cbv zeta. unfold CleanupJob, cleanupSecurityContext.
  assert (Hp : protectedReleases app = Join (List.filter (λ x, negb (String.eqb x ""))
    [rs_Current (s_Release (app_Status app)); rs_Previous (s_Release (app_Status app))]) ",").
  { unfold protectedReleases. cbv zeta. cbn [List.filter].
    by destruct (String.eqb _ ""), (String.eqb (rs_Previous _) ""). }
  rewrite <- Hp. clear Hp.
  destruct (String.eqb_spec mode cleanupModeReleases) as [->|Hm].
  - cbn. split; [done|]. do 2 eexists. repeat (split; [done|]). split; [|naive_solver].
    split; [done|]. split; [done|]. set_solver.
  - cbn. split; [done|]. do 2 eexists. repeat (split; [done|]).
    destruct (cacheWriterUID app) as [uid|] eqn:Eu; cbn; (split; [done|]); split; try done.
    intros [[= E]|]; [|done]. exfalso. subst uid. revert Eu.
    unfold cacheWriterUID. repeat case_match; simplify_eq; try done.
    intros [= ->]. breflect. done.
Qed.
