(* ===== verification/Metrics.v ===== *)
(** internal/controller/metrics.go: the App metric set and the Recorder that keeps
    its series exact.  Every operation holds the Recorder's mutex, so it is one
    atomic step; the Prometheus vectors are maps from a metric name and its label
    values to a value. *)
From Stdlib Require Import ZArith Ascii String.
From stdpp Require Import base gmap strings list numbers sorting.
From S2P Require Import Prelude GoStd GoNum BuildSpec AppTypes Kube Config BuildSteps Naming AppView.

Open Scope string_scope.
Open Scope list_scope.
Open Scope Z_scope.

(** ** The vectors *)
(* Go: internal/controller/metrics.go metricDegraded @15-57 *)
Inductive metric :=
| metricDegraded | metricPhase | metricBuildsTotal | metricBuildOOMTotal | metricBuildRunningSince
| metricBuildDeadline | metricStorageUsed | metricStorageAlert | metricConsecutiveScheduledFailures
| metricScheduledFailureThreshold.
#[global] Instance metric_eq_dec : EqDecision metric.
Proof. solve_decision. Defined.
#[global] Instance metric_countable : Countable metric.
Proof.
  refine (inj_countable' (λ m, match m with
    | metricDegraded => 0%nat | metricPhase => 1%nat | metricBuildsTotal => 2%nat
    | metricBuildOOMTotal => 3%nat | metricBuildRunningSince => 4%nat | metricBuildDeadline => 5%nat
    | metricStorageUsed => 6%nat | metricStorageAlert => 7%nat
    | metricConsecutiveScheduledFailures => 8%nat | metricScheduledFailureThreshold => 9%nat end)
    (λ n, match n with
    | 0%nat => metricDegraded | 1%nat => metricPhase | 2%nat => metricBuildsTotal
    | 3%nat => metricBuildOOMTotal | 4%nat => metricBuildRunningSince | 5%nat => metricBuildDeadline
    | 6%nat => metricStorageUsed | 7%nat => metricStorageAlert
    | 8%nat => metricConsecutiveScheduledFailures | _ => metricScheduledFailureThreshold end) _).
  by intros [].
Defined.

(** A series: its metric, the App's namespace and name, and the further labels. *)
Notation series := (metric * (string * string) * list string)%type.

(* Go: internal/controller/metrics.go appMetricsState *)
Record appMetricsState := MkAppMetricsState {
  am_lastCountedJob : string; am_lastDegradedReason : string; am_frozenDeadline : Z }.
#[export] Instance eta_appMetricsState : Eta appMetricsState := λ x,
  MkAppMetricsState (am_lastCountedJob x) (am_lastDegradedReason x) (am_frozenDeadline x).
Definition zero_metrics_state : appMetricsState := MkAppMetricsState "" "" 0.

(** The registry's gauges (float64) and counters (increments), and the Recorder. *)
(* Go: internal/controller/metrics.go Recorder *)
Record Recorder := MkRecorder {
  rec_gauges : gmap series f64;
  rec_counters : gmap series Z;
  rec_apps : gmap (string * string) appMetricsState;
}.
#[export] Instance eta_Recorder : Eta Recorder := λ x,
  MkRecorder (rec_gauges x) (rec_counters x) (rec_apps x).
Definition new_recorder : Recorder := MkRecorder ∅ ∅ ∅.

Section recorder.
Context (who : string * string).

(** [WithLabelValues(...).Set], [DeleteLabelValues], [Add(0)] and [Inc]. *)
Definition Set_ (v : metric) (labels : list string) (x : f64) (m : Recorder) : Recorder :=
  m <| rec_gauges ::= <[(v, who, labels) := x]> |>.
Definition DeleteLabelValues (v : metric) (labels : list string) (m : Recorder) : Recorder :=
  m <| rec_gauges ::= delete (v, who, labels) |>.
Definition Add0 (v : metric) (labels : list string) (m : Recorder) : Recorder :=
  m <| rec_counters ::= partial_alter (λ o, Some (default 0 o)) (v, who, labels) |>.
Definition Inc (v : metric) (labels : list string) (m : Recorder) : Recorder :=
  m <| rec_counters ::= partial_alter (λ o, Some (default 0 o + 1)) (v, who, labels) |>.
(** [DeletePartialMatch] with the labels namespace and name. *)
Definition DeletePartialMatch (v : metric) (m : Recorder) : Recorder :=
  m <| rec_gauges ::= filter (λ kv, ¬ (kv.1.1.1 = v ∧ kv.1.1.2 = who)) |>
    <| rec_counters ::= filter (λ kv, ¬ (kv.1.1.1 = v ∧ kv.1.1.2 = who)) |>.

(* Go: internal/controller/metrics.go seedCounters *)
Definition seedCounters (m : Recorder) : Recorder :=
  let m := foldl (λ m result, foldl (λ m trigger, Add0 metricBuildsTotal [result; trigger] m) m
      [BuildTriggerScheduled; BuildTriggerManual; BuildTriggerCommit; BuildTriggerSpecChange]) m
    [BuildResultSucceeded; BuildResultFailed] in
  foldl (λ m step, Add0 metricBuildOOMTotal [step] m) m
    [StepClone; StepSetup; StepFetch; StepBuild; StepCopier].

(** The entry of the App, created (with its counters) when it is new. *)
(* Go: internal/controller/metrics.go state *)
Definition state (m : Recorder) : Recorder * appMetricsState :=
  match rec_apps m !! who with
  | Some s => (m, s)
  | None => (seedCounters (m <| rec_apps ::= <[who := zero_metrics_state]> |>), zero_metrics_state)
  end.
(** A write through the pointer [state] returned. *)
Definition store (s : appMetricsState) (m : Recorder) : Recorder := m <| rec_apps ::= <[who := s]> |>.

(* Go: internal/controller/metrics.go syncUsedSeries *)
Definition syncUsedSeries (volume : string) (sizes : gmap string Z) (m : Recorder) : Recorder :=
  match sizes !! volume with
  | Some size => Set_ metricStorageUsed [volume] (f64_of_Z size) m
  | None => DeleteLabelValues metricStorageUsed [volume] m
  end.
End recorder.

Definition app_key (app : App) : string * string := (app_Namespace app, app_Name app).
(* Go: internal/controller/metrics.go volumeOutputTotal @154-156 *)
Definition volumeOutputTotal : string := "outputTotal".

(** The phase a record exports: a status that was never refreshed awaits its first
    build. *)
(* Go: internal/controller/metrics.go RecordApp *)
Definition exported_phase (app : App) : string :=
  let phase := s_Phase (app_Status app) in
  if String.eqb phase "" then PhaseAwaitingFirstBuild else phase.
(* Go: internal/controller/metrics.go RecordApp *)
Definition degraded_reason (app : App) : string * f64 :=
  match findCondition app ConditionDegraded with
  | Some c => if String.eqb (c_Status c) "True" then (c_Reason c, f64_of_Z 1) else ("", f64_of_Z 0)
  | None => ("", f64_of_Z 0)
  end.
(* Go: internal/controller/metrics.go RecordApp *)
Definition build_running (app : App) : bool :=
  let bp := b_Phase (build_of app) in
  String.eqb bp BuildPhasePending || String.eqb bp BuildPhaseRunning.

(* Go: internal/controller/metrics.go RecordApp *)
Definition RecordApp `{MapOrder} (app : App) (deadlineSeconds : Z) (alertThresholds : gmap string Z)
    (scheduledThreshold : Z) (m : Recorder) : Recorder :=
  let who := app_key app in
  let '(m, s) := state who m in
  let m := Set_ who metricConsecutiveScheduledFailures []
             (f64_of_Z (s_ConsecutiveScheduledFailures (app_Status app))) m in
  let m := Set_ who metricScheduledFailureThreshold [] (f64_of_Z scheduledThreshold) m in
  let m := foldl (λ m p, Set_ who metricPhase [p]
             (if String.eqb (exported_phase app) p then f64_of_Z 1 else f64_of_Z 0) m) m AllPhases in
  let '(reason, degraded) := degraded_reason app in
  let m := if String.eqb reason (am_lastDegradedReason s) then m
           else DeleteLabelValues who metricDegraded [am_lastDegradedReason s] m in
  let s := s <| am_lastDegradedReason := reason |> in
  let m := Set_ who metricDegraded [reason] degraded m in
  let since := match b_StartTime (build_of app) with
               | Some t => if build_running app then f64_of_Z (t / Second) else f64_of_Z 0
               | None => f64_of_Z 0
               end in
  let m := Set_ who metricBuildRunningSince [] since m in
  let s := s <| am_frozenDeadline ::= λ f,
             if build_running app then (if f =? 0 then deadlineSeconds else f) else 0 |> in
  let deadline := if build_running app then am_frozenDeadline s else deadlineSeconds in
  let m := Set_ who metricBuildDeadline [] (f64_of_Z deadline) m in
  let sizes := ss_Sizes (s_Storage (app_Status app)) in
  let m := foldl (λ m vt,
      let m := syncUsedSeries who vt.1 sizes m in
      if 0 <? vt.2 then Set_ who metricStorageAlert [vt.1] (f64_of_Z vt.2) m
      else DeleteLabelValues who metricStorageAlert [vt.1] m) m (range_map alertThresholds) in
  store who s (syncUsedSeries who volumeOutputTotal sizes m).

(** [DeletePartialMatch] on every vector. *)
(** The vectors that are registered, and dropped with an App. *)
(* Go: internal/controller/metrics.go allAppMetricVecs *)
Definition allAppMetricVecs : list metric :=
  [metricDegraded; metricPhase; metricBuildsTotal; metricBuildOOMTotal; metricBuildRunningSince; metricBuildDeadline;
   metricStorageUsed; metricStorageAlert; metricConsecutiveScheduledFailures; metricScheduledFailureThreshold].

(* Go: internal/controller/metrics.go ForgetApp *)
Definition ForgetApp (namespace name : string) (m : Recorder) : Recorder :=
  let key := (namespace, name) in
  match rec_apps m !! key with
  | None => m
  | Some _ =>
      (foldl (λ m v, DeletePartialMatch key v m) m allAppMetricVecs) <| rec_apps ::= delete key |>
  end.

(* Go: internal/controller/metrics.go RecordTerminalBuild *)
Definition RecordTerminalBuild (app : App) (m : Recorder) : Recorder :=
  let b := build_of app in
  if negb (String.eqb (b_Result b) BuildResultSucceeded) && negb (String.eqb (b_Result b) BuildResultFailed)
  then m
  else
    let who := app_key app in
    let '(m, s) := state who m in
    if String.eqb (b_JobName b) "" || String.eqb (b_JobName b) (am_lastCountedJob s) then m
    else
      let trigger := if String.eqb (b_Trigger b) "" then BuildTriggerScheduled else b_Trigger b in
      let m := Inc who metricBuildsTotal [b_Result b; trigger] m in
      let m := match b_Termination b with
               | Some t => if String.eqb (bt_Reason t) TerminationReasonOOMKilled
                           then Inc who metricBuildOOMTotal [bt_Container t] m else m
               | None => m
               end in
      store who (s <| am_lastCountedJob := b_JobName b |>) m.

(** ** Isolation: an operation touches only its own App *)
Definition only (who : string * string) (m m' : Recorder) : Prop :=
  (∀ v w l, w ≠ who → rec_gauges m' !! (v, w, l) = rec_gauges m !! (v, w, l)) ∧
  (∀ v w l, w ≠ who → rec_counters m' !! (v, w, l) = rec_counters m !! (v, w, l)) ∧
  (∀ w, w ≠ who → rec_apps m' !! w = rec_apps m !! w).
#[global] Instance only_po who : PreOrder (only who).
Proof.
  split; [by intros m|]. intros x y z (A1&A2&A3) (B1&B2&B3). split_and!; intros.
  - by rewrite B1, A1. - by rewrite B2, A2. - by rewrite B3, A3.
Qed.

Section only.
Context (who : string * string).
Lemma Set_only v l x m : only who m (Set_ who v l x m).
Proof. split_and!; intros; cbn; [apply lookup_insert_ne; congruence|done..]. Qed.
Lemma Delete_only v l m : only who m (DeleteLabelValues who v l m).
Proof. split_and!; intros; cbn; [apply lookup_delete_ne; congruence|done..]. Qed.
Lemma Add0_only v l m : only who m (Add0 who v l m).
Proof. split_and!; intros; cbn; [done|apply lookup_partial_alter_ne; congruence|done]. Qed.
Lemma Inc_only v l m : only who m (Inc who v l m).
Proof. split_and!; intros; cbn; [done|apply lookup_partial_alter_ne; congruence|done]. Qed.
Lemma store_only s m : only who m (store who s m).
Proof. split_and!; intros; cbn; [done..|apply lookup_insert_ne; congruence]. Qed.
Lemma foldl_only {A} (f : Recorder → A → Recorder) l m :
  (∀ m x, only who m (f m x)) → only who m (foldl f m l).
Proof. intros Hf. revert m. induction l as [|x l IH]; intros m; cbn; [done|]. by rewrite (Hf m x) at 1. Qed.
Lemma seed_only m : only who m (seedCounters who m).
Proof.
  unfold seedCounters. cbv zeta. etrans; [|apply foldl_only; intros; apply Add0_only].
  apply foldl_only. intros m' res. apply foldl_only. intros. apply Add0_only.
Qed.
Lemma state_only m : only who m (state who m).1.
Proof.
  unfold state. destruct (rec_apps m !! who); [done|]. cbn [fst].
  etrans; [apply store_only|apply seed_only].
Qed.
Lemma used_only v sizes m : only who m (syncUsedSeries who v sizes m).
Proof. unfold syncUsedSeries. destruct (sizes !! v); [apply Set_only|apply Delete_only]. Qed.
End only.
#[export] Hint Resolve Set_only Delete_only Add0_only Inc_only store_only used_only : baker.

Section facts.
Context `{MapOrder}.

Lemma RecordApp_only app d al th m : only (app_key app) m (RecordApp app d al th m).
Proof.
  unfold RecordApp. pose proof (state_only (app_key app) m) as Hs.
  destruct (state (app_key app) m) as [m1 s]. cbn [fst] in Hs.
  destruct (degraded_reason app) as [reason degraded]. cbv zeta.
  do 2 (etrans; [|eauto with baker]; []). etrans; [|apply foldl_only; intros m' [v t]; cbn [fst snd]].
  2: { etrans; [apply used_only|]. destruct (0 <? t); eauto with baker. }
  do 3 (etrans; [|apply Set_only]; []).
  assert (Hd : ∀ x, only (app_key app) x (if String.eqb reason (am_lastDegradedReason s) then x
    else DeleteLabelValues (app_key app) metricDegraded [am_lastDegradedReason s] x))
    by (intros; destruct (String.eqb _ _); eauto with baker; done).
  etrans; [|apply Hd]. etrans; [|apply foldl_only; intros; apply Set_only].
  do 2 (etrans; [|apply Set_only]). done.
Qed.

(** ** The App's own series *)
Definition volume_metric (v : metric) : bool :=
  match v with metricStorageUsed | metricStorageAlert => true | _ => false end.
Lemma used_frame who vol sizes m v w l : volume_metric v = false →
  rec_gauges (syncUsedSeries who vol sizes m) !! (v, w, l) = rec_gauges m !! (v, w, l).
Proof.
  intros Hv. unfold syncUsedSeries. destruct (sizes !! vol); cbn;
    [apply lookup_insert_ne|apply lookup_delete_ne]; intros [= <- _ _]; done.
Qed.
Lemma volumes_frame who sizes vols m v w l : volume_metric v = false →
  rec_gauges (foldl (λ m (vt : string * Z),
      let m := syncUsedSeries who vt.1 sizes m in
      if 0 <? vt.2 then Set_ who metricStorageAlert [vt.1] (f64_of_Z vt.2) m
      else DeleteLabelValues who metricStorageAlert [vt.1] m) m vols) !! (v, w, l) =
  rec_gauges m !! (v, w, l).
Proof.
  intros Hv. revert m. induction vols as [|[vol t] vols IH]; intros m; cbn [foldl]; [done|].
  rewrite IH. cbn [fst snd]. destruct (0 <? t); cbn;
    [rewrite lookup_insert_ne|rewrite lookup_delete_ne]; try (intros [= <- _ _]; done);
    by apply used_frame.
Qed.
Lemma state_gauges who m : rec_gauges (state who m).1 = rec_gauges m.
Proof. unfold state. by destruct (rec_apps m !! who). Qed.

(** Reduces a lookup in a chain of updates to other metrics. *)
Local Ltac gauge :=
  repeat first
    [ rewrite lookup_insert_ne by (intros [=]; done)
    | rewrite lookup_delete_ne by (intros [=]; done)
    | rewrite lookup_insert_eq ].

Lemma own_deadline app d al th m :
  rec_gauges (RecordApp app d al th m) !! (metricBuildDeadline, app_key app, []) =
  Some (f64_of_Z (if build_running app
    then (if am_frozenDeadline (state (app_key app) m).2 =? 0 then d
          else am_frozenDeadline (state (app_key app) m).2) else d)).
Proof.
  unfold RecordApp. destruct (state (app_key app) m) as [m1 s]. destruct (degraded_reason app) as [re dg].
  cbn [rec_gauges store set_field snd]. rewrite used_frame, volumes_frame by done.
  cbn [rec_gauges Set_ set_field]. rewrite lookup_insert_eq. cbn. by destruct (build_running app).
Qed.
Lemma own_state app d al th m :
  rec_apps (RecordApp app d al th m) !! app_key app =
  Some ((state (app_key app) m).2 <| am_lastDegradedReason := (degraded_reason app).1 |>
    <| am_frozenDeadline ::= λ f, if build_running app then (if f =? 0 then d else f) else 0 |>).
Proof.
  unfold RecordApp. destruct (state (app_key app) m) as [m1 s]. destruct (degraded_reason app) as [re dg].
  cbn [rec_apps store set_field fst snd]. by rewrite lookup_insert_eq.
Qed.
Lemma own_degraded app d al th m l :
  rec_gauges (RecordApp app d al th m) !! (metricDegraded, app_key app, l) =
  if decide (l = [(degraded_reason app).1]) then Some (degraded_reason app).2
  else if decide (l = [am_lastDegradedReason (state (app_key app) m).2]) then None
  else rec_gauges m !! (metricDegraded, app_key app, l).
Proof.
  unfold RecordApp. pose proof (state_gauges (app_key app) m) as Hg.
  destruct (state (app_key app) m) as [m1 s]. destruct (degraded_reason app) as [re dg].
  cbn [rec_gauges store set_field fst snd]. rewrite used_frame, volumes_frame by done.
  cbn [rec_gauges Set_ set_field]. rewrite 2 lookup_insert_ne by done.
  case_decide as E1; [subst; by rewrite lookup_insert_eq|].
  rewrite lookup_insert_ne by congruence. cbn [fst] in Hg.
  destruct (String.eqb_spec re (am_lastDegradedReason s)) as [<-|Hn].
  - rewrite decide_False by done. cbn. gauge. by rewrite Hg.
  - cbn [DeleteLabelValues rec_gauges set_field]. case_decide as E2; [subst; by rewrite lookup_delete_eq|].
    rewrite lookup_delete_ne by congruence. cbn. gauge. by rewrite Hg.
Qed.
Lemma own_phase app d al th m p : p ∈ AllPhases →
  rec_gauges (RecordApp app d al th m) !! (metricPhase, app_key app, [p]) =
  Some (if String.eqb (exported_phase app) p then f64_of_Z 1 else f64_of_Z 0).
Proof.
  intros Hp. unfold RecordApp. destruct (state (app_key app) m) as [m1 s].
  destruct (degraded_reason app) as [re dg].
  cbn [rec_gauges store set_field fst snd]. rewrite used_frame, volumes_frame by done.
  cbn [rec_gauges Set_ set_field]. rewrite 3 lookup_insert_ne by done.
  set (m2 := foldl _ _ AllPhases).
  assert (E : rec_gauges m2 !! (metricPhase, app_key app, [p]) =
    Some (if String.eqb (exported_phase app) p then f64_of_Z 1 else f64_of_Z 0)).
  { subst m2. revert Hp. unfold AllPhases. intros Hp.
    repeat (apply elem_of_cons in Hp as [->|Hp]); [..|by apply not_elem_of_nil in Hp];
      cbn [foldl rec_gauges Set_ set_field]; gauge; done. }
  destruct (String.eqb re _); [exact E|]. cbn [DeleteLabelValues rec_gauges set_field].
  by rewrite lookup_delete_ne.
Qed.

Lemma own_streak app d al th m :
  rec_gauges (RecordApp app d al th m) !! (metricConsecutiveScheduledFailures, app_key app, []) =
  Some (f64_of_Z (s_ConsecutiveScheduledFailures (app_Status app))).
Proof.
  unfold RecordApp. destruct (state (app_key app) m) as [m1 s]. destruct (degraded_reason app) as [re dg].
  cbn [rec_gauges store set_field fst snd]. rewrite used_frame, volumes_frame by done.
  cbn [rec_gauges Set_ set_field]. rewrite 3 lookup_insert_ne by done.
  set (m2 := foldl _ _ AllPhases).
  assert (E : rec_gauges m2 !! (metricConsecutiveScheduledFailures, app_key app, []) =
    Some (f64_of_Z (s_ConsecutiveScheduledFailures (app_Status app)))).
  { subst m2. unfold AllPhases. cbn [foldl rec_gauges Set_ set_field]. gauge. done. }
  destruct (String.eqb re _); [exact E|]. cbn [DeleteLabelValues rec_gauges set_field].
  by rewrite lookup_delete_ne.
Qed.

(** ** Reachable recorders *)
Inductive metrics_step : Recorder → Recorder → Prop :=
| step_record app d al th m : metrics_step m (RecordApp app d al th m)
| step_terminal app m : metrics_step m (RecordTerminalBuild app m)
| step_forget ns n m : metrics_step m (ForgetApp ns n m).
Definition reachable (m : Recorder) : Prop := rtc metrics_step new_recorder m.

(** Series exist only for Apps with an entry, and the one degraded series an App
    may have is that of the reason its entry remembers. *)
Definition metrics_wf (m : Recorder) : Prop :=
  (∀ v w l, is_Some (rec_gauges m !! (v, w, l)) → is_Some (rec_apps m !! w)) ∧
  (∀ v w l, is_Some (rec_counters m !! (v, w, l)) → is_Some (rec_apps m !! w)) ∧
  (∀ w l, is_Some (rec_gauges m !! (metricDegraded, w, l)) →
     ∃ s, rec_apps m !! w = Some s ∧ l = [am_lastDegradedReason s]).

(** Enough to look at the App an operation is about. *)
Lemma metrics_wf_only who m m' :
  metrics_wf m → only who m m' → is_Some (rec_apps m' !! who) →
  (∀ l, is_Some (rec_gauges m' !! (metricDegraded, who, l)) →
     ∃ s, rec_apps m' !! who = Some s ∧ l = [am_lastDegradedReason s]) →
  metrics_wf m'.
Proof.
  intros (W1 & W2 & W3) (O1 & O2 & O3) Hs Hd. split_and!.
  - intros v w l. destruct (decide (w = who)) as [->|Hw]; [done|]. rewrite O1, O3 by done. apply W1.
  - intros v w l. destruct (decide (w = who)) as [->|Hw]; [done|]. rewrite O2, O3 by done. apply W2.
  - intros w l. destruct (decide (w = who)) as [->|Hw]; [apply Hd|]. rewrite O1, O3 by done. apply W3.
Qed.

Lemma seed_rest who m : rec_gauges (seedCounters who m) = rec_gauges m ∧
  rec_apps (seedCounters who m) = rec_apps m.
Proof. done. Qed.
Lemma state_entry who m : rec_apps (state who m).1 !! who = Some (state who m).2.
Proof.
  unfold state. destruct (rec_apps m !! who) eqn:E; [done|]. cbn [fst snd].
  rewrite (proj2 (seed_rest _ _)). cbn. by rewrite lookup_insert_eq.
Qed.
(** A new entry's reason is the empty one, and it has no series yet. *)
Lemma state_degraded who m l : metrics_wf m →
  is_Some (rec_gauges m !! (metricDegraded, who, l)) → l = [am_lastDegradedReason (state who m).2].
Proof.
  intros (_ & _ & W3) Hl. destruct (W3 _ _ Hl) as (s & Hs & ->). unfold state. by rewrite Hs.
Qed.

Lemma RecordApp_wf app d al th m : metrics_wf m → metrics_wf (RecordApp app d al th m).
Proof.
  intros Hm. eapply metrics_wf_only; [done|apply RecordApp_only|by rewrite own_state|].
  intros l. rewrite own_state, own_degraded. case_decide as E1; [intros _; eexists; split; [done|exact E1]|].
  case_decide as E2; [by intros []|]. intros Hl. by apply (state_degraded _ _ _ Hm) in Hl.
Qed.

(** The counters' half of a terminal record leaves gauges and entries alone. *)
Lemma terminal_rest app m : ∃ s,
  rec_gauges (RecordTerminalBuild app m) = rec_gauges m ∧
  (RecordTerminalBuild app m = m ∨ rec_apps (RecordTerminalBuild app m) !! app_key app = Some s ∧
     am_lastDegradedReason s = am_lastDegradedReason (state (app_key app) m).2) ∧
  only (app_key app) m (RecordTerminalBuild app m).
Proof.
  unfold RecordTerminalBuild. destruct (_ && _).
  { exists zero_metrics_state. split; [done|]. split; [by left|done]. }
  pose proof (state_only (app_key app) m) as Ho. pose proof (state_gauges (app_key app) m) as Hg.
  pose proof (state_entry (app_key app) m) as He.
  destruct (state (app_key app) m) as [m1 s]. cbn [fst snd] in *.
  destruct (_ || _). { exists s. split; [done|]. split; [by right|done]. }
  eexists. cbv zeta. set (m2 := match b_Termination _ with Some t => _ | None => _ end).
  assert (H2 : rec_gauges m2 = rec_gauges m1 ∧ only (app_key app) m1 m2).
  { subst m2. assert (Hi : ∀ l, only (app_key app) m1 (Inc (app_key app) metricBuildsTotal l m1)) by eauto with baker.
    destruct (b_Termination _) as [t|]; [destruct (String.eqb _ _)|]; (split; [done|]); try apply Hi.
    etrans; [apply Hi|apply Inc_only]. }
  destruct H2 as [G2 O2]. cbn. split; [by rewrite G2|].
  split; [right; rewrite lookup_insert_eq; done|].
  etrans; [exact Ho|]. etrans; [exact O2|]. apply store_only.
Qed.
Lemma RecordTerminalBuild_wf app m : metrics_wf m → metrics_wf (RecordTerminalBuild app m).
Proof.
  intros Hm. destruct (terminal_rest app m) as (s & Hg & [->|[Hs Hl]] & Ho); [done|].
  eapply metrics_wf_only; [done..|by rewrite Hs|]. intros l. rewrite Hg. intros Hd.
  exists s. split; [done|]. rewrite Hl. by apply state_degraded.
Qed.

Lemma filter_match {A} (M : gmap series A) k v w l :
  filter (λ kv : series * A, ¬ (kv.1.1.1 = v ∧ kv.1.1.2 = k)) M !! (v, w, l) = (if decide (w = k) then None else M !! (v, w, l)) ∧
  (∀ v', v' ≠ v → filter (λ kv : series * A, ¬ (kv.1.1.1 = v ∧ kv.1.1.2 = k)) M !! (v', w, l) = M !! (v', w, l)).
Proof.
  split; [case_decide as Hw|intros v' Hv]; [apply map_lookup_filter_None_2; cbn; naive_solver|..];
    (destruct (M !! _) eqn:E; [apply map_lookup_filter_Some_2; [done|cbn; naive_solver]|apply map_lookup_filter_None_2; by left]).
Qed.
Lemma DeletePartialMatch_lookup k vs m v w l :
  let m' := foldl (λ m v, DeletePartialMatch k v m) m vs in
  rec_gauges m' !! (v, w, l) = (if decide (v ∈ vs ∧ w = k) then None else rec_gauges m !! (v, w, l)) ∧
  rec_counters m' !! (v, w, l) = (if decide (v ∈ vs ∧ w = k) then None else rec_counters m !! (v, w, l)) ∧
  rec_apps m' = rec_apps m.
Proof.
  cbv zeta. revert m. induction vs as [|v' vs IH]; intros m; cbn [foldl].
  { rewrite !decide_False; [done|..]; by intros [?%not_elem_of_nil _]. }
  destruct (IH (DeletePartialMatch k v' m)) as (-> & -> & ->). unfold DeletePartialMatch. cbn.
  destruct (filter_match (rec_gauges m) k v' w l) as [Eg Ng], (filter_match (rec_counters m) k v' w l) as [Ec Nc].
  destruct (decide (v = v')) as [->|Hv].
  - rewrite Eg, Ec. split_and!; [| |done]; repeat case_decide; set_solver.
  - rewrite Ng, Nc by done. split_and!; [| |done]; repeat case_decide; set_solver.
Qed.
Lemma all_vecs v : v ∈ allAppMetricVecs.
Proof. apply (bool_decide_unpack _). by destruct v. Qed.
Lemma ForgetApp_lookup ns n m : metrics_wf m → ∀ v w l,
  rec_gauges (ForgetApp ns n m) !! (v, w, l) = (if decide (w = (ns, n)) then None else rec_gauges m !! (v, w, l)) ∧
  rec_counters (ForgetApp ns n m) !! (v, w, l) = (if decide (w = (ns, n)) then None else rec_counters m !! (v, w, l)) ∧
  rec_apps (ForgetApp ns n m) !! w = (if decide (w = (ns, n)) then None else rec_apps m !! w).
Proof.
  intros (W1 & W2 & _) v w l. unfold ForgetApp. cbv zeta. destruct (rec_apps m !! (ns, n)) as [s|] eqn:E.
  - destruct (DeletePartialMatch_lookup (ns, n) allAppMetricVecs m v w l) as (Hg & Hc & Ha).
    revert Hg Hc Ha. generalize (foldl (λ m v, DeletePartialMatch (ns, n) v m) m allAppMetricVecs).
    intros m' Hg Hc Ha. cbn -[allAppMetricVecs]. rewrite Hg, Hc, Ha. pose proof (all_vecs v).
    split_and!; [by repeat case_decide; try tauto..|].
    destruct (decide (w = (ns, n))) as [->|Hw]; [apply lookup_delete_eq|by apply lookup_delete_ne].
  - case_decide as Hw; [subst w|done]. split_and!; [| |done]; apply eq_None_not_Some; intros Hs.
    + apply W1 in Hs. rewrite E in Hs. by destruct Hs.
    + apply W2 in Hs. rewrite E in Hs. by destruct Hs.
Qed.
Lemma ForgetApp_wf ns n m : metrics_wf m → metrics_wf (ForgetApp ns n m).
Proof.
  intros Hm. pose proof (ForgetApp_lookup ns n m Hm) as Hf. destruct Hm as (W1 & W2 & W3). split_and!.
  - intros v w l. destruct (Hf v w l) as (-> & _ & ->). case_decide; [by intros []|apply W1].
  - intros v w l. destruct (Hf v w l) as (_ & -> & ->). case_decide; [by intros []|apply W2].
  - intros w l. destruct (Hf metricDegraded w l) as (-> & _ & ->). case_decide; [by intros []|apply W3].
Qed.

Lemma reachable_wf m : reachable m → metrics_wf m.
Proof.
  apply (rtc_ind_r metrics_wf).
  - split_and!; intros *; cbn; rewrite lookup_empty; by intros [].
  - intros y z _ [] Hy; [by apply RecordApp_wf|by apply RecordTerminalBuild_wf|by apply ForgetApp_wf].
Qed.

(** Exactly one lifecycle phase is exported as 1: after a record of an App
    whose phase is one of the four (or was never set), all four phase series
    exist, the App's phase has value 1 and the others 0. *)
Theorem phase_series_exact app d al th m :
  s_Phase (app_Status app) ∈ "" :: AllPhases →
  ∃ p, p ∈ AllPhases ∧ ∀ q, q ∈ AllPhases →
    rec_gauges (RecordApp app d al th m) !! (metricPhase, app_key app, [q]) =
    Some (f64_of_Z (if decide (q = p) then 1 else 0)).
Proof.
  intros Hp. exists (exported_phase app). split.
  - unfold exported_phase. destruct (String.eqb_spec (s_Phase (app_Status app)) "") as [|Hn]; [by left|].
    apply elem_of_cons in Hp as [|Hp]; done.
  - intros q Hq. rewrite own_phase by done.
    destruct (String.eqb_spec (exported_phase app) q); case_decide; congruence.
Qed.

(** In every recorder state that records and forgets can reach, an App has at
    most one degraded series, and after a record it has exactly the one of its
    current Degraded condition: 1 under the condition's reason, or 0 under the
    empty reason; an outdated reason never keeps an alert firing. *)
Theorem degraded_series_exact app d al th m l x :
  reachable m →
  rec_gauges (RecordApp app d al th m) !! (metricDegraded, app_key app, l) = Some x ↔
  l = [(degraded_reason app).1] ∧ x = (degraded_reason app).2.
Proof.
  intros Hm%reachable_wf. rewrite own_degraded. case_decide as E1; [naive_solver|].
  case_decide as E2; [naive_solver|]. split; [|naive_solver]. intros Hl.
  apply mk_is_Some in Hl. by apply (state_degraded _ _ _ Hm) in Hl.
Qed.

(** C32: forgetting an App leaves none of its series behind, gauge or counter, and
    takes nothing from another App, in every reachable recorder state; in
    particular the early return for an App without an entry is safe. *)
Theorem forget_drops_all_series ns n m :
  reachable m → ∀ v w l,
  rec_gauges (ForgetApp ns n m) !! (v, w, l) = (if decide (w = (ns, n)) then None else rec_gauges m !! (v, w, l)) ∧
  rec_counters (ForgetApp ns n m) !! (v, w, l) = (if decide (w = (ns, n)) then None else rec_counters m !! (v, w, l)).
Proof.
  intros Hm%reachable_wf v w l. destruct (ForgetApp_lookup ns n m Hm v w l) as (? & ? & _). done.
Qed.

Lemma state_state who m : state who (state who m).1 = state who m.
Proof.
  pose proof (state_entry who m) as E. unfold state at 1. rewrite E. by destruct (state who m).
Qed.
Lemma state_store who s m : state who (store who s m) = (store who s m, s).
Proof. unfold state. cbn. by rewrite lookup_insert_eq. Qed.
Lemma store_counts who s m : rec_counters (store who s m) = rec_counters m.
Proof. done. Qed.
Lemma Add0_counts who v l m k :
  default 0 (rec_counters (Add0 who v l m) !! k) = default 0 (rec_counters m !! k).
Proof.
  cbn. destruct (decide (k = (v, who, l))) as [->|Hk];
    [by rewrite lookup_partial_alter_eq|by rewrite lookup_partial_alter_ne].
Qed.
(** Seeding does not change any count. *)
Lemma state_counts who m k :
  default 0 (rec_counters (state who m).1 !! k) = default 0 (rec_counters m !! k).
Proof.
  unfold state. destruct (rec_apps m !! who); [done|]. cbn [fst]. unfold seedCounters.
  cbn [foldl]. by rewrite !Add0_counts.
Qed.

(** A build is counted once: recording the same terminal build again, as a
    retry after a status conflict does, changes nothing; the first record of a new
    Job raises exactly one series of the builds counter, by one. *)
Theorem terminal_build_counted_once app m :
  RecordTerminalBuild app (RecordTerminalBuild app m) = RecordTerminalBuild app m ∧
  (b_Result (build_of app) ∈ [BuildResultSucceeded; BuildResultFailed] → b_JobName (build_of app) ≠ "" →
   b_JobName (build_of app) ≠ am_lastCountedJob (state (app_key app) m).2 →
   ∀ l, let count m := default 0 (rec_counters m !! (metricBuildsTotal, app_key app, l)) in
     count (RecordTerminalBuild app m) = count m +
       (if decide (l = [b_Result (build_of app);
                        if String.eqb (b_Trigger (build_of app)) "" then BuildTriggerScheduled
                        else b_Trigger (build_of app)]) then 1 else 0)).
Proof.
  split.
  - unfold RecordTerminalBuild. destruct (_ && _); [done|].
    pose proof (state_state (app_key app) m) as Hss.
    destruct (state (app_key app) m) as [m1 s]. cbn [fst] in Hss.
    destruct (_ || _) eqn:Eb; [by rewrite Hss, Eb|]. cbv zeta. rewrite state_store.
    cbn [am_lastCountedJob set_field]. by rewrite String.eqb_refl, orb_true_r.
  - intros Hr Hj Hn l. cbv beta zeta. rewrite <- (state_counts (app_key app) m).
    unfold RecordTerminalBuild.
    assert (Er : (negb (String.eqb (b_Result (build_of app)) BuildResultSucceeded) &&
      negb (String.eqb (b_Result (build_of app)) BuildResultFailed)) = false).
    { set_unfold in Hr. destruct Hr as [->|[->|[]]]; done. }
    rewrite Er. destruct (state (app_key app) m) as [m1 s]. cbn [fst snd] in *.
    apply String.eqb_neq in Hj, Hn. rewrite Hj, Hn. cbv zeta. cbn [orb].
    set (key := [b_Result _; _]). rewrite store_counts.
    transitivity (default 0 (rec_counters (Inc (app_key app) metricBuildsTotal key m1)
      !! (metricBuildsTotal, app_key app, l))).
    { destruct (b_Termination _) as [t|]; [destruct (String.eqb (bt_Reason t) _)|]; [|done..].
      cbn. by rewrite lookup_partial_alter_ne by (intros [=]). }
    cbn. case_decide as El; [subst l; by rewrite lookup_partial_alter_eq|].
    rewrite lookup_partial_alter_ne by congruence. lia.
Qed.

(** The exported build deadline is frozen while a build runs: through any
    sequence of records of an App with a build in flight, whatever deadlines the
    edited spec gives, the deadline series keeps the value of the first of them. *)
Theorem deadline_frozen app0 d0 al0 th0 m0 rest :
  build_running app0 = true → d0 ≠ 0 →
  am_frozenDeadline (state (app_key app0) m0).2 = 0 →
  Forall (λ x, app_key x.1.1.1 = app_key app0 ∧ build_running x.1.1.1 = true) rest →
  let final := foldl (λ m x, RecordApp x.1.1.1 x.1.1.2 x.1.2 x.2 m) (RecordApp app0 d0 al0 th0 m0) rest in
  rec_gauges final !! (metricBuildDeadline, app_key app0, []) = Some (f64_of_Z d0).
Proof.
  intros Hb Hd Hf Hall. cbv zeta.
  assert (Hinv : ∀ m, am_frozenDeadline (state (app_key app0) m).2 = d0 →
    rec_gauges m !! (metricBuildDeadline, app_key app0, []) = Some (f64_of_Z d0) →
    rec_gauges (foldl (λ m x, RecordApp x.1.1.1 x.1.1.2 x.1.2 x.2 m) m rest)
      !! (metricBuildDeadline, app_key app0, []) = Some (f64_of_Z d0)).
  { induction Hall as [|[[[app d] al] th] rest [Hk Hr] Hall IH]; intros m Hm Hg; [done|].
    cbn [foldl fst snd] in *. apply IH.
    - unfold state at 1. rewrite <- Hk, own_state, Hk. cbn. rewrite Hr, Hm. by destruct (Z.eqb_spec d0 0).
    - rewrite <- Hk, own_deadline, Hr, Hk, Hm. by destruct (Z.eqb_spec d0 0). }
  apply Hinv.
  - unfold state at 1. rewrite own_state. cbn. by rewrite Hb, Hf.
  - by rewrite own_deadline, Hb, Hf.
Qed.
End facts.

(** ** Witnesses *)
Definition building_site : App :=
  sample_app <| app_Status ::= λ s, s <| s_Phase := PhaseBuilding |>
    <| s_Build ::= λ b, b <| b_Phase := BuildPhaseRunning |> <| b_StartTime := Some (1700000000 * Second) |> |>
    <| s_Conditions := [MkCondition ConditionDegraded "True" ReasonBuildFailed "exit 1" 0 1] |> |>.
Definition one_record : Recorder :=
  RecordApp (H := some_order) building_site 3600 ∅ 3 new_recorder.
Lemma one_record_reachable : reachable (H := some_order) one_record.
Proof. eapply rtc_once. constructor. Qed.

Lemma phase_series_exact_witness :
  ∃ p, p ∈ AllPhases ∧ ∀ q, q ∈ AllPhases →
    rec_gauges one_record !! (metricPhase, ("web", "site"), [q]) = Some (f64_of_Z (if decide (q = p) then 1 else 0)).
Proof.
  apply (phase_series_exact (H := some_order) building_site 3600 ∅ 3 new_recorder).
  right. right. by left.
Defined.

Lemma degraded_series_exact_witness :
  rec_gauges (RecordApp (H := some_order) sample_app 3600 ∅ 3 one_record)
    !! (metricDegraded, ("web", "site"), [""]) = Some (f64_of_Z 0).
Proof.
  apply (degraded_series_exact (H := some_order) sample_app 3600 ∅ 3 one_record [""] (f64_of_Z 0)
    one_record_reachable). split; reflexivity.
Defined.

Lemma forget_drops_all_series_witness :
  is_Some (rec_gauges one_record !! (metricPhase, ("web", "site"), [PhaseReady])) ∧
  rec_gauges (ForgetApp "web" "site" one_record) !! (metricPhase, ("web", "site"), [PhaseReady]) = None.
Proof.
  split; [vm_compute; by eexists|].
  apply (forget_drops_all_series (H := some_order) "web" "site" one_record one_record_reachable
    metricPhase ("web", "site") [PhaseReady]).
Defined.

Lemma deadline_frozen_witness :
  rec_gauges (RecordApp (H := some_order) building_site 60 ∅ 3 one_record)
    !! (metricBuildDeadline, ("web", "site"), []) = Some (f64_of_Z 3600).
Proof.
  apply (deadline_frozen (H := some_order) building_site 3600 ∅ 3 new_recorder
    [(building_site, 60, ∅, 3)]); [reflexivity|lia|reflexivity|].
  constructor; [split; reflexivity|constructor].
Defined.
