(* ===== verification/Controller.v ===== *)
(** internal/controller/app_controller.go: the build lifecycle and the whole
    reconcile handler, from the fetched App to the harvested Jobs. *)
From Stdlib Require Import ZArith Ascii String.
From stdpp Require Import base gmap strings list numbers sorting.
From S2P Require Import Prelude GoStd GoNum Images Storage Decisions BuildSpec AppTypes Kube Config BuildSteps Naming AppView GitCred BuildPod Children Free Prog JsonDecode Ensure GitSync Measure Cleanup.

Open Scope string_scope.
Open Scope list_scope.
Open Scope Z_scope.

(** [ctrl.Result]. *)
Record Result := MkResult { rq_Requeue : bool; rq_RequeueAfter : Z }.
Definition no_requeue : Result := MkResult false 0.

(** ** Finalizers (controller-runtime's controllerutil) *)
Definition ContainsFinalizer (app : App) (f : string) : bool :=
  existsb (String.eqb f) (om_Finalizers (app_Meta app)).
Definition AddFinalizer (app : App) (f : string) : App :=
  if ContainsFinalizer app f then app
  else app <| app_Meta ::= λ m, m <| om_Finalizers ::= λ l, l ++ [f] |> |>.
Definition RemoveFinalizer (app : App) (f : string) : App :=
  app <| app_Meta ::= λ m, m <| om_Finalizers ::= List.filter (λ x, negb (String.eqb x f)) |> |>.
(** [!app.DeletionTimestamp.IsZero()] *)
(* Go: internal/controller/app_controller.go Reconcile @121-123 *)
Definition being_deleted (app : App) : bool :=
  match om_DeletionTimestamp (app_Meta app) with
  | Some t => negb (IsZero t)
  | None => false
  end.

(** [r.setCondition], which reads the clock. *)
(* Go: internal/controller/app_controller.go setCondition *)
Definition set_condition (app : App) (t status reason msg : string) : prog App :=
  now ← do Now; mret (setCondition now app t status reason msg).

(** ** The pod of a build *)
(* Go: internal/controller/app_controller.go findBuildPod *)
Definition findBuildPod (app : App) (job : Job) : prog (option Pod) :=
  res ← do (ListPods (app_Namespace app) (buildLabelsFor app));
  mret (match res with
        | Err _ => None
        | Ok pods => List.find (λ p, ownedByJob p job) pods
        end).

(** The merge of a copier's sizes, and the drop of the retired key. *)
(* Go: internal/controller/app_controller.go applyCopierTermination *)
Definition merge_sizes (now : Time) (sizes : gmap string Z) (app : App) : App :=
  on_status (λ s, s <| s_Storage ::= λ st, st
    <| ss_Sizes ::= λ old, delete "source" (sizes ∪ old) |> <| ss_MeasuredAt := Some now |> |>) app.

(* Go: internal/controller/app_controller.go applyCopierTermination *)
Definition applyCopierTermination `{GoRuntime} (app : App) (job : Job) : prog App :=
  res ← do (ListPods (app_Namespace app) (buildLabelsFor app));
  match res with
  | Err _ => mret app
  | Ok pods =>
      match latest_terminated "copier" job pods with
      | None => mret app
      | Some (pod, t) =>
          let app := on_status (λ s, s <| s_NodeName := p_NodeName (pod_Spec pod) |>) app in
          match parseCopierMessage (t_Message t) with
          | None => mret app
          | Some blob =>
              app ← (if String.eqb (cm_Current blob) "" then mret app
                     else
                       now ← do Now;
                       mret (on_status (λ s, s <| s_Release ::= λ rel,
                         MkReleaseStatus (cm_Current blob) (rs_Current rel) (Some now) |>) app));
              let app := if 0 <? cm_ReleaseCount blob
                         then on_status (λ s, s <| s_Storage ::= λ st, st
                                <| ss_ReleaseCount := cm_ReleaseCount blob |> |>) app
                         else app in
              if bool_decide (cm_Sizes blob = ∅) then mret app
              else now ← do Now; mret (merge_sizes now (cm_Sizes blob) app)
          end
      end
  end.

Section controller.
Context `{GoRuntime} `{MapOrder} `{KubeLib} (r : AppReconciler).

(** [r.Metrics.RecordApp] with the inputs every caller derives. *)
(* Go: internal/controller/app_controller.go Reconcile @131-135 *)
Definition record_app (app : App) : prog unit :=
  do (RecordApp app (buildDeadlineSeconds r app) (alertThresholdsFrom app)
        (effectiveScheduledThreshold r app)).

(** ** Rejections *)
(* Go: internal/controller/app_controller.go fail *)
Definition fail (app : App) (reason msg : string) : prog (result Result) :=
  app ← set_condition app ConditionReady "False" reason msg;
  app ← set_condition app ConditionDegraded "True" reason msg;
  let app := on_status (λ s, s <| s_Phase := PhaseDegraded |>) app in
  record_app app ;;
  (if isPlatformFault reason ""
   then do (CaptureTerminalFailure (MkTerminalFailure (app_Name app) (app_Namespace app) "" reason msg))
   else mret tt) ;;
  do (UpdateStatus app) ;?
  mret (Ok (MkResult false Minute)).

(* Go: internal/controller/app_controller.go validateStorageClass *)
Definition validateStorageClass : prog (result unit) :=
  let name := r_StorageClassName r in
  if String.eqb name "" then mret (Err (errorf "operator StorageClassName is not configured"))
  else
    res ← do (GetStorageClass name);
    mret (match res with
          | Err e => Err (wrapf ("storageclass " +:+ Quote name +:+ ": ") e)
          | Ok mode =>
              if bool_decide (mode = Some "WaitForFirstConsumer") then Ok tt
              else Err (errorf ("storageclass " +:+ Quote name +:+
                                " must have volumeBindingMode=WaitForFirstConsumer"))
          end).

(** ** The build lifecycle *)
(* Go: internal/controller/app_controller.go seedRebuild *)
Definition seedRebuild (app : App) : prog (result unit) :=
  now ← do Now;
  let token := Itoa (now / Second) in
  let app' := app <| app_Meta ::= λ m, m <| om_Annotations ::= λ a,
    delete RebuildCommitAnnotation (delete RebuildByAnnotation (<[RebuildAnnotation := token]> a)) |> |> in
  do (PatchApp app app').

(* Go: internal/controller/app_controller.go startBuild *)
Definition startBuild (app : App) (token : string) (gitCred : gitCredentialDecision)
    : prog (result App) :=
  job ←? create_job app (BuildJob r app token gitCred);
  let by_ := annotation app RebuildByAnnotation in
  let trigger := classifyTrigger app in
  let commit := if String.eqb trigger BuildTriggerCommit
                then annotation app RebuildCommitAnnotation else "" in
  started ← do Now;
  let app := on_status (λ s, s <| s_LastProcessedRebuild := token |>
    <| s_Build ::= λ b, MkBuildStatus BuildPhasePending "" (om_Name (j_Meta job)) "" (Some started) None
         (i64 (b_Attempts b + 1)) trigger by_ commit
         (deriveBuildSteps (applicableSteps app) None false)
         (containerImages (js_Template (j_Spec job))) "" "" "" None |>) app in
  app ← (if String.eqb trigger BuildTriggerManual then
           now ← do Now;
           mret (on_status (λ s, s <| s_LastManualTrigger := MkManualTrigger by_ (Some now) |>) app)
         else mret app);
  now ← do Now;
  mret (Ok (on_status (λ s, s <| s_LastBuildTime := Some now |>) app)).

(** A build observed to succeed. *)
(* Go: internal/controller/app_controller.go observeBuild @640-673 *)
Definition observe_success (app : App) (job : Job) : prog App :=
  let app := on_build (λ b, b <| b_Result := BuildResultSucceeded |>) app in
  now ← do Now;
  let stamped := default "" (om_Annotations (j_Meta job) !! SpecHashAnnotation) in
  let hash := if String.eqb stamped "" then Hash (buildSpecFrom app) else stamped in
  let app := on_status (λ s, s <| s_LastSuccessfulBuildTime := Some now |>
    <| s_LastBuiltSpecHash := hash |> <| s_SpecStale := IsStale (buildSpecFrom app) hash |>) app in
  let prevMeasuredAt := ss_MeasuredAt (s_Storage (app_Status app)) in
  app ← applyCopierTermination app job;
  _ ← maybeStartMeasurement r app prevMeasuredAt;
  app ← set_condition app ConditionBuildSucceeded "True" ReasonReady "build succeeded";
  app ← set_condition app ConditionDegraded "False" ReasonReady "build succeeded";
  match js_TTLSecondsAfterFinished (j_Spec job) with
  | None =>
      _ ← do (PatchJob job (job <| j_Spec ::= λ s, s <| js_TTLSecondsAfterFinished := Some 600 |> |>));
      mret app
  | Some _ => mret app
  end.

(** The failure conditions and the report, from the pod that failed. *)
(* Go: internal/controller/app_controller.go observeBuild @703-732 *)
Definition observe_failure (app : App) (cond : JobCondition) (pod : option Pod) : prog App :=
  let term := detectTermination pod (b_FailedStep (build_of app)) in
  let app := match term with
             | Some t =>
                 on_build (λ b, b <| b_Termination := Some t |>
                   <| b_Steps ::= λ steps,
                        let msg := terminationStepMessage (Some t) in
                        if String.eqb msg "" then steps
                        else stampStepMessage steps (bt_Container t) msg |>) app
             | None => app
             end in
  let '(reason, message) :=
    match term with
    | Some t => if String.eqb (bt_Reason t) TerminationReasonOOMKilled
                then (ReasonOOMKilled, oomConditionMessage t) else (ReasonBuildFailed, jc_Message cond)
    | None => (ReasonBuildFailed, jc_Message cond)
    end in
  app ← set_condition app ConditionBuildSucceeded "False" reason message;
  app ← set_condition app ConditionDegraded "True" reason message;
  (if isPlatformFault reason (b_FailedStep (build_of app))
   then do (CaptureTerminalFailure (MkTerminalFailure (app_Name app) (app_Namespace app)
              (b_FailedStep (build_of app)) reason message))
   else mret tt) ;;
  mret app.

(** The records of a finished build: both histories and the failure streak. *)
(* Go: internal/controller/app_controller.go observeBuild @736-751 *)
Definition record_history (app : App) : App :=
  let '(keepRecent, keepFailed) := effectiveHistoryLimits r app in
  let rec := build_of app in
  on_status (λ s, s <| s_BuildHistory ::= λ h, appendBuildHistory h rec keepRecent |>
    <| s_FailedBuildHistory ::= λ h, appendFailedBuildHistory h rec keepFailed |>
    <| s_ConsecutiveScheduledFailures ::= λ n,
         updateConsecutiveScheduledFailures n (b_Trigger rec) (b_Result rec) |>) app.

Definition succeeded (app : App) : bool := String.eqb (b_Result (build_of app)) BuildResultSucceeded.
(* Go: internal/controller/app_controller.go observeBuild @617-625 *)
Definition terminal (b : BuildStatus) : bool :=
  String.eqb (b_Phase b) BuildPhaseComplete &&
  (String.eqb (b_Result b) BuildResultSucceeded || String.eqb (b_Result b) BuildResultFailed).

(** The final timeline and the failed step. *)
(* Go: internal/controller/app_controller.go observeBuild @683-701 *)
Definition finalize_steps (app : App) (pod : option Pod) : App :=
  let steps := if bool_decide (pod = None) && succeeded app then allSucceeded (applicableSteps app)
               else deriveBuildSteps (applicableSteps app) pod (succeeded app) in
  on_build (λ b, b <| b_PodName ::= λ n, match pod with Some p => om_Name (pod_Meta p) | None => n end |>
    <| b_Steps := steps |> <| b_FailedStep := failedStep steps |>) app.

(** From the terminal condition of the Job to the recorded result. *)
(* Go: internal/controller/app_controller.go observeBuild @637-751 *)
Definition observe_terminal (app : App) (job : Job) (cond : JobCondition) : prog App :=
  now ← do Now;
  let app := on_build (λ b, b <| b_Phase := BuildPhaseComplete |>
               <| b_CompletionTime := Some now |>) app in
  app ← (if String.eqb (jc_Type cond) "Complete" then observe_success app job
         else mret (on_build (λ b, b <| b_Result := BuildResultFailed |>
                <| b_Message := jc_Message cond |> <| b_LogsRef := om_Name (j_Meta job) |>) app));
  pod ← findBuildPod app job;
  let app := finalize_steps app pod in
  app ← (if String.eqb (b_Result (build_of app)) BuildResultFailed
         then observe_failure app cond pod else mret app);
  do (RecordTerminalBuild app) ;;
  mret (record_history app).

(* Go: internal/controller/app_controller.go observeBuild *)
Definition observeBuild (app : App) : prog (result App) :=
  if String.eqb (b_JobName (build_of app)) "" then mret (Ok app)
  else
    res ← do (GetJob (app_Namespace app) (b_JobName (build_of app)));
    match res with
    | Err e => mret (if is_not_found e then Ok app else Err e)
    | Ok job =>
        if String.eqb (b_JobName (build_of app)) (om_Name (j_Meta job)) && terminal (build_of app)
        then mret (Ok app)
        else match jobFinished job with
             | None =>
                 let app := on_build (λ b, b <| b_Phase := BuildPhaseRunning |>) app in
                 pod ← findBuildPod app job;
                 mret (Ok (match pod with
                           | Some p => on_build (λ b, b <| b_PodName := om_Name (pod_Meta p) |>
                               <| b_Steps := deriveBuildSteps (applicableSteps app) (Some p) false |>) app
                           | None => app
                           end))
             | Some cond => app ← observe_terminal app job cond; mret (Ok app)
             end
    end.

(** ** Deletion *)
(* Go: internal/controller/app_controller.go deleteJobs *)
Fixpoint deleteJobs (jobs : list Job) : prog unit :=
  match jobs with
  | [] => mret tt
  | j :: jobs' => _ ← do (DeleteJob j); deleteJobs jobs'
  end.

(* Go: internal/controller/app_controller.go reconcileDelete *)
Definition reconcileDelete (app : App) : prog (result Result) :=
  if negb (ContainsFinalizer app FinalizerName) then mret (Ok no_requeue)
  else
    res ← do (ListJobs (app_Namespace app) (buildLabelsFor app));
    (match res with
     | Ok jobs => deleteJobs (List.filter (λ j, bool_decide (jobFinished j = None)) jobs)
     | Err _ => mret tt
     end) ;;
    app ←? do (UpdateApp (RemoveFinalizer app FinalizerName));
    do (ForgetApp (app_Namespace app) (app_Name app)) ;;
    mret (Ok no_requeue).

(** ** The handler *)
(** The panic [CheckImagesAllowed] could end in; it never does
    ([Images.CheckImagesAllowed_val]). *)
Definition recovered (o : outcome (result unit)) : result unit :=
  match o with Val x => x | Panic => Err panic_error end.
(** A rejection by [fail] when the check has an error. *)
Definition check (p : prog (result unit)) (app : App) (reason : string) (k : prog (result Result))
    : prog (result Result) :=
  res ← p;
  match res with
  | Ok _ => k
  | Err e => fail app reason (err_text e)
  end.

(** Steps 9 to 12: observe, clean up, serve, persist, collect. *)
(* Go: internal/controller/app_controller.go Reconcile @241-295 *)
Definition reconcile_observe (app : App) (active : bool) : prog (result Result) :=
  app ←? observeBuild app;
  '(app, measured) ←? observeMeasurement app;
  app ← recordPVCCapacities app;
  '(app, cleaned) ←? reconcileCleanup r app active;
  let app := on_status (λ s, s <| s_Storage ::= λ st, st <| ss_ThresholdState :=
    EvaluateThresholdState (ss_Sizes st) (storageConfigFrom app) |> |>) app in
  app ←? (if hasSucceededOnce app then ensureServing r app else mret (Ok app));
  now ← do Now;
  let app := refreshPhase now app in
  record_app app ;;
  do (UpdateStatus app) ;?
  deleteJobs (measured ++ cleaned) ;;
  mret (Ok (MkResult false (10 * Minute))).

(** Step 8: decide. *)
(* Go: internal/controller/app_controller.go Reconcile @220-240 *)
Definition reconcile_build (app : App) (gitCred : gitCredentialDecision) : prog (result Result) :=
  let requested := annotation app RebuildAnnotation in
  '(active, _) ←? buildActive app;
  match DecideBuild requested (s_LastProcessedRebuild (app_Status app)) active with
  | StartBuild => app ←? startBuild app requested gitCred; reconcile_observe app true
  | DeferBuild | NoBuild => reconcile_observe app active
  end.

(** Steps 5 to 7: staleness, infrastructure, the first build's seed. *)
(* Go: internal/controller/app_controller.go Reconcile @198-218 *)
Definition reconcile_infra (app : App) (gitCred : gitCredentialDecision) : prog (result Result) :=
  let app := on_status (λ s, s <| s_SpecStale :=
    IsStale (buildSpecFrom app) (s_LastBuiltSpecHash s) |>) app in
  ensureInfra r app gitCred ;?
  if String.eqb (phaseOf app) PhaseAwaitingFirstBuild &&
     String.eqb (annotation app RebuildAnnotation) ""
  then seedRebuild app ;? mret (Ok (MkResult true 0))
  else reconcile_build app gitCred.

(** Steps 1 to 4: the validations around the credential sync. *)
(* Go: internal/controller/app_controller.go Reconcile @139-196 *)
Definition reconcile_validated (app : App) : prog (result Result) :=
  check (lift (Validate (r_Config r))) app ReasonConfigError (
  check (lift (recovered (CheckImagesAllowed (cfg_RegistryAllowlist (r_Config r)) (phaseImages app)))) app
    ReasonImageNotAllowed (
  check (lift (validateNodeVersion r app)) app ReasonUnknownNodeVersion (
  check (lift (validateWatchCommits app)) app ReasonInvalidSpec (
  gitCred ←? reconcileGitCredential r app;
  check (validateRepoAuthSecret app) app ReasonInvalidRepoAuth (
  check (lift (ValidateStorage (storageConfigFrom app))) app ReasonInvalidStorage (
  check validateStorageClass app ReasonInvalidStorageClass (
  reconcile_infra app gitCred))))))).

(* Go: internal/controller/app_controller.go Reconcile *)
Definition Reconcile (namespace name : string) : prog (result Result) :=
  res ← do (GetApp namespace name);
  match res with
  | Err e =>
      if is_not_found e then do (ForgetApp namespace name) ;; mret (Ok no_requeue)
      else mret (Err e)
  | Ok app =>
      if being_deleted app then reconcileDelete app
      else
        app ←? (if ContainsFinalizer app FinalizerName then mret (Ok app)
                else do (UpdateApp (AddFinalizer app FinalizerName)));
        record_app app ;;
        reconcile_validated (on_status (λ s, s <| s_ObservedGeneration := om_Generation (app_Meta app) |>) app)
  end.
End controller.
