(* ===== verification/Footprint.v ===== *)
(** Which calls each part of the reconciler can make, whatever it is answered.
    A monitor that ignores these calls does not notice the part. *)
From Stdlib Require Import ZArith Ascii String.
From stdpp Require Import base gmap strings list numbers sorting.
From S2P Require Import Prelude GoStd GoNum BuildSpec AppTypes Kube Config BuildSteps Naming AppView GitCred BuildPod Children Free Prog JsonDecode Ensure GitSync Measure Cleanup Controller.

Open Scope string_scope.
Open Scope list_scope.
Open Scope Z_scope.

(** The objects that put a site on the network. *)
Definition serving_kind (s : kspec) : bool :=
  match s with
  | Deployment _ | Service _ _ | Ingress _ | ConfigMap _ | Middleware _ _ => true
  | _ => false
  end.
Definition role_of (labels : gmap string string) : string := default "" (labels !! roleLabel).
Definition job_role (j : Job) : string := role_of (om_Labels (j_Meta j)).

(** ** Classes of calls *)
(** Children, Secrets, the clock and reports: no App, Job, status or metrics traffic. *)
Definition side_call (serving : bool) R (c : call R) : Prop :=
  match c with
  | GetApp _ _ | UpdateApp _ | PatchApp _ _ | UpdateStatus _ | ListJobs _ _ | GetJob _ _
  | CreateJob _ | PatchJob _ _ | DeleteJob _
  | RecordApp _ _ _ _ | RecordTerminalBuild _ | ForgetApp _ _ => False
  | ApplyObj o | CreateObj o => serving = true ∨ serving_kind (o_Spec o) = false
  | _ => True
  end.
(** What recording a finished build does: measurement Jobs are the only ones it
    creates; and what observing a build does, which reads its Job first. *)
Definition terminal_call R (c : call R) : Prop :=
  match c with
  | ListPods _ _ | Now | PatchJob _ _ | RecordTerminalBuild _ | CaptureTerminalFailure _ => True
  | ListJobs _ sel => role_of sel = "build"
  | CreateJob j => job_role j = "measure"
  | _ => False
  end.
Definition observe_call R (c : call R) : Prop :=
  match c with GetJob _ _ => True | _ => terminal_call R c end.
(** What reading the measurements does. *)
Definition measure_call R (c : call R) : Prop :=
  match c with
  | ListPods _ _ | Now | GetPVCCapacity _ _ => True
  | ListJobs _ sel => role_of sel = "measure"
  | _ => False
  end.
(** What the cleanup loop does. *)
Definition cleanup_call R (c : call R) : Prop :=
  match c with
  | ListPods _ _ | Now => True
  | ListJobs _ sel => role_of sel = "cleanup"
  | CreateJob j => job_role j = "cleanup"
  | _ => False
  end.

(** ** Labels *)
Lemma role_build app : role_of (buildLabelsFor app) = "build".
Proof. unfold role_of, buildLabelsFor. by rewrite lookup_insert_eq. Qed.
Lemma role_measure app : role_of (measureLabelsFor app) = "measure".
Proof. unfold role_of, measureLabelsFor. by rewrite lookup_insert_eq. Qed.
Lemma role_cleanup app : role_of (cleanupLabelsFor app) = "cleanup".
Proof. unfold role_of, cleanupLabelsFor. by rewrite lookup_insert_eq. Qed.
Lemma job_role_build `{GoRuntime} `{KubeLib} r app token d : job_role (BuildJob r app token d) = "build".
Proof. apply role_build. Qed.
Lemma job_role_measure r app m : job_role (MeasureJob r app m) = "measure".
Proof.
  unfold job_role, role_of. cbn. rewrite lookup_insert_ne by done. exact (role_measure app).
Qed.
Lemma job_role_cleanup r app mode : job_role (CleanupJob r app mode) = "cleanup".
Proof.
  unfold job_role, role_of, CleanupJob. destruct (String.eqb mode _); cbn;
    rewrite lookup_insert_ne by done; exact (role_cleanup app).
Qed.

(** A controller reference changes nothing but the owners. *)
Lemma SetControllerReference_labels app m m' : SetControllerReference app m = Ok m' →
  om_Labels m' = om_Labels m ∧ om_Name m' = om_Name m ∧ om_Namespace m' = om_Namespace m ∧
  om_Annotations m' = om_Annotations m.
Proof.
  unfold SetControllerReference. destruct (negb _); [done|].
  destruct (GetControllerOf m) as [ref|]; [destruct (negb _); [done|]|]; by intros [= <-].
Qed.

(** ** The parts *)
Section footprint.
Context (P : ∀ R, call R → Prop).

Lemma calls_create_job app job :
  (∀ m, SetControllerReference app (j_Meta job) = Ok m → P _ (CreateJob (job <| j_Meta := m |>))) →
  calls P (create_job app job).
Proof.
  intros Hc. unfold create_job, lift. destruct (SetControllerReference _ _) as [m|] eqn:E; [|done].
  apply (calls_bind P (do _)); [by apply calls_do, Hc|]. intros; apply calls_ret.
Qed.
Lemma calls_upsert app o :
  (∀ m, P _ (ApplyObj (o <| o_Meta := m |>))) → calls P (upsert app o).
Proof.
  intros Hc. unfold upsert. apply calls_try; [apply calls_ret|]. intros m. apply calls_do, Hc.
Qed.
Lemma calls_ensureExists app o :
  (∀ k ns n, P _ (GetObj k ns n)) → (∀ m, P _ (CreateObj (o <| o_Meta := m |>))) →
  (∀ o, P _ (UpdateObj o)) → calls P (ensureExists app o).
Proof.
  intros Hg Hc Hu. unfold ensureExists. apply calls_bind; [by apply calls_do|].
  intros [existing|e]; [destruct (controlled_by _ _)|destruct (negb _)]; try apply calls_ret;
    (apply calls_try; [apply calls_ret|]); intros m; by apply calls_do.
Qed.
Lemma calls_deleteOwnedChild app k n :
  (∀ k ns n, P _ (GetObj k ns n)) → (∀ k ns n, P _ (DeleteObj k ns n)) →
  calls P (deleteOwnedChild app k n).
Proof.
  intros Hg Hd. unfold deleteOwnedChild. apply calls_bind; [by apply calls_do|].
  intros [existing|e]; [destruct (negb _)|]; try apply calls_ret.
  apply calls_bind; [by apply calls_do|]. intros; apply calls_ret.
Qed.
End footprint.

Lemma deleteOwnedChild_side b app k n : calls (side_call b) (deleteOwnedChild app k n).
Proof. by apply calls_deleteOwnedChild. Qed.
Lemma upsert_side b app o : b = true ∨ serving_kind (o_Spec o) = false →
  calls (side_call b) (upsert app o).
Proof. intros Ho. by apply calls_upsert. Qed.
Lemma ensureExists_side b app o : b = true ∨ serving_kind (o_Spec o) = false →
  calls (side_call b) (ensureExists app o).
Proof. intros Ho. by apply calls_ensureExists. Qed.
#[export] Hint Resolve deleteOwnedChild_side upsert_side ensureExists_side : baker.

Section parts.
Context `{GoRuntime} `{MapOrder} `{KubeLib} (r : AppReconciler).

Lemma watchCronJob_kind app wc d o : watchCronJob r app wc d = Ok o → serving_kind (o_Spec o) = false.
Proof. unfold watchCronJob. destruct (WatchSchedule.WatchCron _); [|done]. by intros [= <-]. Qed.

Lemma ensureInfra_side app d : calls (side_call false) (ensureInfra r app d).
Proof.
  unfold ensureInfra, ensureTriggers.
  apply calls_try; [apply calls_for_each; intros; apply ensureExists_side; by right|intros _].
  apply calls_try; [|intros _; apply upsert_side; by right].
  apply calls_try.
  { apply calls_for_each. intros o Ho. destruct (_ || _); [|apply deleteOwnedChild_side].
    apply upsert_side. right. revert o Ho. by apply (proj1 (list.Forall_forall _ _)); repeat constructor. }
  intros _. apply calls_try.
  { destruct (scheduled_on app); [apply upsert_side; by right|apply deleteOwnedChild_side]. }
  intros _. destruct (watch_on app) as [wc|]; [|apply deleteOwnedChild_side].
  destruct (watchCronJob r app wc d) as [o|] eqn:E; [|apply calls_ret].
  apply upsert_side. right. by eapply watchCronJob_kind.
Qed.

Lemma reconcileGitCredential_side app : calls (side_call false) (reconcileGitCredential r app).
Proof.
  unfold reconcileGitCredential, deleteOwnedSyncedCopy, getSourceGitCredential, existingSyncedCopy,
    existingSyncedCopyHash. prog_walk.
Qed.

Lemma validateRepoAuthSecret_side app : calls (side_call false) (validateRepoAuthSecret app).
Proof. unfold validateRepoAuthSecret. prog_walk. Qed.
Lemma validateStorageClass_side : calls (side_call false) (validateStorageClass r).
Proof. unfold validateStorageClass. prog_walk. Qed.

Lemma ensureServing_side app : calls (side_call true) (ensureServing r app).
Proof. unfold ensureServing, validateIngress. prog_walk. Qed.

Lemma set_condition_calls (P : ∀ R, call R → Prop) app t st re msg : P _ Now → calls P (set_condition app t st re msg).
Proof. intros HN. unfold set_condition. apply calls_bind; [by apply calls_do|]. intros; apply calls_ret. Qed.

Lemma buildActive_terminal app : calls terminal_call (buildActive app).
Proof. unfold buildActive. apply calls_try; [apply calls_do, role_build|]. intros; apply calls_ret. Qed.
Lemma maybeStartMeasurement_terminal app prev : calls terminal_call (maybeStartMeasurement r app prev).
Proof.
  unfold maybeStartMeasurement. prog_walk.
  - apply buildActive_terminal.
  - apply calls_for_each. intros m Hm. apply calls_try; [|intros; apply calls_ret].
    apply calls_create_job. intros mt E. apply SetControllerReference_labels in E as [E _].
    unfold terminal_call, job_role. cbn [j_Meta set_field]. rewrite E. exact (job_role_measure r app m).
Qed.
Lemma applyCopierTermination_terminal app job : calls terminal_call (applyCopierTermination app job).
Proof. unfold applyCopierTermination. prog_walk. Qed.
Lemma findBuildPod_terminal app job : calls terminal_call (findBuildPod app job).
Proof. unfold findBuildPod. prog_walk. Qed.
Hint Resolve set_condition_calls maybeStartMeasurement_terminal applyCopierTermination_terminal
  findBuildPod_terminal : baker.
Lemma observe_terminal_calls app job cond : calls terminal_call (observe_terminal r app job cond).
Proof. unfold observe_terminal, observe_success, observe_failure, set_condition. prog_walk. Qed.

Lemma observe_of_terminal {A} (p : prog A) : calls terminal_call p → calls observe_call p.
Proof. apply calls_mono. by intros R []. Qed.
Lemma buildActive_observe app : calls observe_call (buildActive app).
Proof. apply observe_of_terminal, buildActive_terminal. Qed.
Lemma observeBuild_observe app : calls observe_call (observeBuild r app).
Proof.
  pose proof observe_terminal_calls as Ht. pose proof findBuildPod_terminal as Hf.
  unfold observeBuild. prog_walk; by apply observe_of_terminal.
Qed.

Lemma observeMeasurement_measure app : calls measure_call (observeMeasurement app).
Proof.
  unfold observeMeasurement. apply calls_try; [apply calls_do, role_measure|]. intros jobs.
  apply calls_fold_prog. intros st job _. unfold readMeasurement. prog_walk.
Qed.
Lemma recordPVCCapacities_measure app : calls measure_call (recordPVCCapacities app).
Proof.
  unfold recordPVCCapacities. apply calls_bind; [|intros; apply calls_ret].
  generalize (∅ : gmap string Z). induction (range_map _) as [|t l IH]; intros caps; cbn [foldr];
    [apply calls_ret|].
  apply calls_bind; [by apply calls_do|]. intros. apply IH.
Qed.

Lemma cleanup_loop_calls b harvested l st :
  calls cleanup_call (fold_prog l (cleanup_step r b harvested) st).
Proof.
  apply calls_fold_prog. intros [app0 started] a _. unfold cleanup_step, cleanupActive, startCleanup.
  prog_walk.
  apply calls_create_job. intros mt E. apply SetControllerReference_labels in E as [E _].
  unfold cleanup_call, job_role. cbn [j_Meta set_field]. rewrite E. apply job_role_cleanup.
Qed.
Lemma reconcileCleanup_cleanup app b : calls cleanup_call (reconcileCleanup r app b).
Proof.
  unfold reconcileCleanup, observeCleanup. apply calls_try.
  { apply calls_try; [apply calls_do, role_cleanup|]. intros jobs.
    apply calls_fold_prog. intros st job _. unfold readCleanupResult. prog_walk. }
  intros [app' harvested]. apply calls_try; [|intros []; apply calls_ret]. by apply cleanup_loop_calls.
Qed.

(** Starting a build creates the one Job of [BuildJob]. *)
Definition start_call app token d R (c : call R) : Prop :=
  match c with
  | Now => True
  | CreateJob j => ∃ m, SetControllerReference app (j_Meta (BuildJob r app token d)) = Ok m ∧
      j = (BuildJob r app token d) <| j_Meta := m |>
  | _ => False
  end.
Lemma startBuild_calls app token d : calls (start_call app token d) (startBuild r app token d).
Proof. unfold startBuild. prog_walk. apply calls_create_job. intros m E. by exists m. Qed.

(** Collecting Jobs. *)
Definition delete_call R (c : call R) : Prop :=
  match c with DeleteJob _ => True | _ => False end.
(** Deleting an App: no child is created, applied or deleted but running builds. *)
Definition finalize_call R (c : call R) : Prop :=
  match c with
  | ListJobs _ sel => role_of sel = "build"
  | DeleteJob j => jobFinished j = None
  | UpdateApp app => ContainsFinalizer app FinalizerName = false
  | ForgetApp _ _ => True
  | _ => False
  end.
Lemma RemoveFinalizer_removes app f : ContainsFinalizer (RemoveFinalizer app f) f = false.
Proof.
  apply not_true_is_false. intros (x & Hx & Ef)%existsb_exists. cbn in Hx.
  apply filter_In in Hx as [_ Hx]. apply String.eqb_eq in Ef as <-. by rewrite String.eqb_refl in Hx.
Qed.
Lemma deleteJobs_calls (P : ∀ R, call R → Prop) l : (∀ j, j ∈ l → P _ (DeleteJob j)) → calls P (deleteJobs l).
Proof.
  induction l as [|j l IH]; intros Hl; cbn; [done|]. split; [apply Hl; by left|].
  intros _. apply IH. intros y Hy. apply Hl. by right.
Qed.
Lemma reconcileDelete_calls app : calls finalize_call (reconcileDelete app).
Proof.
  unfold reconcileDelete. destruct (negb _); [done|].
  apply calls_bind; [apply calls_do, role_build|]. intros res. apply calls_bind.
  { destruct res as [jobs|]; [|done]. apply deleteJobs_calls.
    intros j [_ Hj]%list_elem_of_In%filter_In. by apply bool_decide_eq_true in Hj. }
  intros []. apply calls_try; [apply calls_do, RemoveFinalizer_removes|]. intros app'.
  apply calls_bind; [by apply calls_do|]. by intros.
Qed.

(** A rejection touches nothing but the status. *)
Definition fail_call R (c : call R) : Prop :=
  match c with
  | UpdateStatus _ | Now | RecordApp _ _ _ _ | CaptureTerminalFailure _ => True
  | _ => False
  end.
Lemma fail_calls app reason msg : calls fail_call (fail r app reason msg).
Proof. unfold fail, set_condition, record_app. prog_walk. Qed.

(** ** A whole pass *)
(** What a pass does before the validations, or instead of them: it loads the App, adds the
    finalizer, exports and forgets series, and finalizes. *)
Definition entry_call R (c : call R) : Prop :=
  match c with
  | GetApp _ _ | UpdateApp _ | RecordApp _ _ _ _ | ForgetApp _ _ | ListJobs _ _ | DeleteJob _ => True
  | _ => False
  end.
Definition observed (app : App) : App :=
  on_status (λ s, s <| s_ObservedGeneration := om_Generation (app_Meta app) |>) app.
(** The App the validated part works on: as it was read, or as the API server returned it
    from adding the finalizer. *)
Definition entered (ns n : string) (app : App) (tr : trace) : Prop :=
  ∃ a0, Ev (GetApp ns n) (Ok a0) ∈ tr ∧
    (app = a0 ∨ (ContainsFinalizer a0 FinalizerName = false ∧ Ev (UpdateApp (AddFinalizer a0 FinalizerName)) (Ok app) ∈ tr)).
(** Everything else happens in the validated part, for an App that was loaded. *)
Lemma Reconcile_split ns n tr res : run (Reconcile r ns n) tr res → ∃ t1 t2, tr = t1 ++ t2 ∧
  Forall (λ e, match e with Ev c _ => entry_call _ c end) t1 ∧
  (t2 = [] ∨ ∃ app, app ∈ omap loaded_app t1 ∧ entered ns n app t1 ∧ run (reconcile_validated r (observed app)) t2 res).
Proof.
  intros Hr. unfold Reconcile in Hr. apply run_bind in Hr as (t0 & got & t & -> & Hx & Hr). apply run_do in Hx as ->.
  destruct got as [app|e]; cbn in Hr.
  2: { exists (Ev (GetApp ns n) (Err e) :: t), []. rewrite app_nil_r. split; [done|]. split; [|by left]. constructor; [done|].
       destruct (is_not_found e); [by apply (calls_run entry_call) in Hr|by inversion Hr; subst; constructor]. }
  destruct (being_deleted app).
  { exists (Ev (GetApp ns n) (Ok app) :: t), []. rewrite app_nil_r. split; [done|]. split; [|by left]. constructor; [done|].
    eapply calls_run, Hr. eapply calls_mono, reconcileDelete_calls. by intros R []. }
  destruct (ContainsFinalizer _ _) eqn:Ef; [|apply run_bind in Hr as (t3 & [a|e] & t4 & -> & Hx & Hr); apply run_do in Hx as ->].
  - change (run (record_app r app ;; reconcile_validated r (observed app)) t res) in Hr.
    apply run_bind in Hr as (t1 & [] & t2 & -> & Hx & Hr). apply run_do in Hx as ->.
    eexists [_; _], t2. split; [done|]. split; [by repeat constructor|]. right. exists app. split_and!; [by left| |done].
    exists app. split; [by left|by left].
  - change (run (record_app r a ;; reconcile_validated r (observed a)) t4 res) in Hr.
    apply run_bind in Hr as (t1 & [] & t2 & -> & Hx & Hr). apply run_do in Hx as ->.
    eexists [_; _; _], t2. split; [done|]. split; [by repeat constructor|]. right. exists a. split_and!; [right; by left| |done].
    exists app. split; [by left|]. right. split; [done|right; by left].
  - inversion Hr; subst. eexists [_; _], []. split; [done|]. split; [by repeat constructor|by left].
Qed.
End parts.
