(* ===== verification/Serial.v ===== *)
(** Ordering of one reconcile pass, over every run: builds and cleanups are
    serialized, Jobs are collected only after their results are persisted, and a
    site is served only after a build succeeded.  Each ordering is an automaton
    over the calls of the pass. *)
From Stdlib Require Import ZArith Ascii String.
From stdpp Require Import base gmap strings list numbers sorting.
From S2P Require Import Prelude GoStd GoNum Images Storage Decisions BuildSpec AppTypes Kube Config BuildSteps Naming AppView GitCred BuildPod Children Free Prog JsonDecode Ensure GitSync Measure Cleanup Controller Footprint.

Open Scope string_scope.
Open Scope list_scope.
Open Scope Z_scope.

(** ** Builds and cleanups exclude each other *)
Definition unfinished (jobs : list Job) : bool :=
  existsb (λ j, bool_decide (jobFinished j = None)) jobs.

(** What the pass has seen of the build Jobs, and whether its latest list of the
    cleanup Jobs had none running. *)
Inductive builds_seen := Unseen | Idle | Busy.
#[global] Instance builds_seen_eq_dec : EqDecision builds_seen.
Proof. solve_decision. Defined.
Record turn := MkTurn { t_builds : builds_seen; t_cleanup_idle : bool }.

(** The first list of the build Jobs decides whether the pass may start anything;
    a build or cleanup Job is created at most once, in an idle turn, and a cleanup
    Job only with no other cleanup running. *)
Definition serial : monitor turn := λ s R c,
  match c in call R return R → option turn with
  | ListJobs _ sel => λ res,
      match res with
      | Err _ => Some s
      | Ok jobs =>
          if String.eqb (role_of sel) "build" then
            Some (MkTurn (match t_builds s with
                          | Unseen => if unfinished jobs then Busy else Idle
                          | b => b
                          end) (t_cleanup_idle s))
          else if String.eqb (role_of sel) "cleanup" then
            Some (MkTurn (t_builds s) (negb (unfinished jobs)))
          else Some s
      end
  | CreateJob j => λ _,
      if String.eqb (job_role j) "build" then
        if bool_decide (t_builds s = Idle) then Some (MkTurn Busy (t_cleanup_idle s)) else None
      else if String.eqb (job_role j) "cleanup" then
        if bool_decide (t_builds s = Idle) && t_cleanup_idle s
        then Some (MkTurn Busy (t_cleanup_idle s)) else None
      else Some s
  | _ => λ _, Some s
  end.
Definition new_pass : turn := MkTurn Unseen false.

Section serial.
Context `{GoRuntime} `{MapOrder} `{KubeLib} (r : AppReconciler).

Lemma serial_side b {A} P (p : prog A) : calls (side_call b) p → quiet serial P p.
Proof. intros Hp. eapply calls_quiet; [done|]. by intros s R [] ? []. Qed.
Lemma serial_fail app reason msg P : quiet serial P (fail r app reason msg).
Proof. eapply calls_quiet; [apply fail_calls|]. by intros s R [] ?. Qed.
Lemma serial_measure {A} P (p : prog A) : calls measure_call p → quiet serial P p.
Proof.
  intros Hp. eapply calls_quiet; [done|]. intros s R [] res Hc; try done.
  cbn in Hc. cbn. rewrite Hc. by destruct res.
Qed.

(** Once the builds have been seen, observing one changes nothing. *)
Definition seen (s : turn) : Prop := t_builds s ≠ Unseen.
Lemma serial_observe {A} (p : prog A) : calls observe_call p → quiet serial seen p.
Proof.
  intros Hp s Hs. induction p as [a|R c k IH]; [done|]. destruct Hp as [Hc Hk]. intros res.
  assert (E : serial s R c res = Some s).
  { destruct c; try done; cbn in Hc; cbn; rewrite Hc; [|done]. destruct res; [|done]. cbn.
    destruct s as [[] idle]; [by destruct Hs|done..]. }
  rewrite E. apply IH, Hk.
Qed.

Lemma wp_buildActive app s (Q : turn → result (bool * string) → Prop) :
  t_builds s = Unseen → (∀ e, Q s (Err e)) →
  (∀ (b : bool) n, Q (MkTurn (if b then Busy else Idle) (t_cleanup_idle s)) (Ok (b, n))) →
  wp serial (buildActive app) s Q.
Proof.
  intros Hs He Hq. unfold buildActive. apply wp_try, wp_do. intros res. cbn [serial]. rewrite role_build. cbn [String.eqb Ascii.eqb Bool.eqb].
  destruct res as [jobs|e]; [|apply He]. rewrite Hs. apply wp_ret. unfold unfinished.
  destruct (List.find _ jobs) as [j|] eqn:E.
  - apply find_some in E as [Hin Hj]. rewrite (proj2 (existsb_exists _ _)); [apply (Hq true)|eauto].
  - replace (existsb _ jobs) with false; [apply (Hq false)|]. symmetry.
    apply not_true_is_false. intros (j & Hin & Hj)%existsb_exists.
    eapply find_none in E; [|done]. congruence.
Qed.

(** A Job that the automaton admits in state [s]. *)
Lemma wp_create_job app job s s' (Q : turn → result Job → Prop) :
  (∀ m res, om_Labels m = om_Labels (j_Meta job) →
     serial s _ (CreateJob (job <| j_Meta := m |>)) res = Some s') →
  (∀ e, Q s (Err e)) → (∀ res, Q s' res) → wp serial (create_job app job) s Q.
Proof.
  intros Hc He Hq. unfold create_job. apply wp_try, wp_ret.
  destruct (SetControllerReference _ _) as [m|e] eqn:E; [|apply He].
  apply SetControllerReference_labels in E as [E _].
  apply wp_bind, wp_do. intros res. rewrite Hc by done. apply wp_ret, Hq.
Qed.

Lemma wp_startBuild app token d s :
  t_builds s = Idle →
  wp serial (startBuild r app token d) s (λ s' res, is_ok res = true → s' = MkTurn Busy (t_cleanup_idle s)).
Proof.
  intros Hs. unfold startBuild. apply wp_try.
  apply (wp_create_job _ _ _ (MkTurn Busy (t_cleanup_idle s))).
  - intros m res Hm. cbn. unfold job_role. cbn. rewrite Hm.
    change (role_of _) with (job_role (BuildJob r app token d)). rewrite job_role_build, Hs. done.
  - done.
  - intros [job|e]; [|done]. destruct (String.eqb (classifyTrigger app) BuildTriggerManual);
      by intros.
Qed.

(** The cleanup loop: as long as nothing was started the turn is still idle. *)
Definition may_start (active : bool) (s : turn) (st : App * bool) : Prop :=
  seen s ∧ (active = false → st.2 = false → t_builds s = Idle).
Lemma wp_cleanup_step active held st a s :
  may_start active s st →
  wp serial (cleanup_step r active held st a) s
    (λ s' res, match res with Ok st' => may_start active s' st' | Err _ => True end).
Proof.
  destruct st as [app started]. intros [Hs Hi]. unfold cleanup_step, cleanupActive.
  apply wp_try, wp_try, wp_do. intros res. cbn [serial]. rewrite role_cleanup. cbn [String.eqb Ascii.eqb Bool.eqb].
  destruct res as [jobs|e]; [|done]. apply wp_ret. fold (unfinished jobs).
  set (s1 := MkTurn (t_builds s) (negb (unfinished jobs))).
  assert (Hs1 : may_start active s1 (app, started)) by done.
  destruct (DecideCleanup _ _ _ _) eqn:ED; [done| |done].
  apply DecideCleanup_start in ED as (_ & _ & -> & Hb). breflect.
  apply wp_try. unfold startCleanup. apply wp_try, (wp_create_job _ _ _ (MkTurn Busy true)).
  - intros m res Hm. cbn. unfold job_role. cbn. rewrite Hm.
    change (role_of _) with
      (job_role (CleanupJob r (actionStatus app (a_mode a) id) (a_mode a))).
    rewrite job_role_cleanup. cbn. rewrite (Hi eq_refl) by done.
    replace (unfinished jobs) with false by (symmetry; assumption). done.
  - done.
  - intros [job|e]; [|done]. intros now. cbn. split; [done|]. done.
Qed.

Lemma wp_reconcileCleanup app active s :
  seen s → (active = false → t_builds s = Idle) →
  wp serial (reconcileCleanup r app active) s (λ _ _, True).
Proof.
  intros Hs Hi. unfold reconcileCleanup, observeCleanup. apply wp_try, wp_try, wp_do.
  intros res. cbn [serial]. rewrite role_cleanup. cbn [String.eqb Ascii.eqb Bool.eqb]. destruct res as [jobs|e]; [|done].
  set (s1 := MkTurn (t_builds s) (negb (unfinished jobs))).
  eapply wp_mono; [|apply (serial_measure seen); [|exact Hs]].
  2: { apply calls_fold_prog. intros st job _. unfold readCleanupResult. prog_walk. }
  intros s' [[app' harvested]|e] ->; [|done].
  apply wp_try, (wp_fold_prog serial (may_start active)); [split; [exact Hs|intros ? _; by apply Hi]| |].
  { intros s' st a _ Hst. eapply wp_mono, wp_cleanup_step, Hst. by intros ? []. }
  by intros ? [].
Qed.

Lemma wp_check {A} (M : monitor A) P p app reason k s :
  P s → quiet M P p → (∀ msg, quiet M P (fail r app reason msg)) →
  wp M k s (λ _ _, True) → wp M (check r p app reason k) s (λ _ _, True).
Proof.
  intros Hs Hp Hf Hk. unfold check. eapply wp_quiet; [done..|]. intros [?|e]; [done|].
  eapply wp_mono, Hf, Hs. done.
Qed.

Lemma serial_reconcile_observe app active s :
  seen s → (active = false → t_builds s = Idle) →
  wp serial (reconcile_observe r app active) s (λ _ _, True).
Proof.
  intros Hs Hi. unfold reconcile_observe.
  eapply wp_quiet_try; [apply serial_observe, observeBuild_observe|done..|]. intros app1.
  eapply wp_quiet_try; [apply (serial_measure seen), observeMeasurement_measure|done..|].
  intros [app2 measured].
  eapply wp_quiet; [apply (serial_measure seen), recordPVCCapacities_measure|done|]. intros app3.
  apply wp_try. eapply wp_mono, wp_reconcileCleanup; [|done..].
  intros s' [[app4 cleaned]|e] _; [|done]. cbv zeta.
  eapply (wp_quiet_try _ (λ _, True)); [|done..|].
  { destruct (hasSucceededOnce _); [|apply quiet_ret]. eapply serial_side, ensureServing_side. }
  intros app5. apply wp_bind, wp_do. intros now. apply wp_bind, wp_do. intros [].
  apply wp_try, wp_do. intros [[]|e]; [|done]. cbn [serial].
  eapply (wp_quiet _ (λ _, True)); [|done..].
  eapply calls_quiet; [apply (deleteJobs_calls delete_call); done|]. by intros ? ? [].
Qed.

Lemma serial_reconcile_build app d s :
  t_builds s = Unseen → wp serial (reconcile_build r app d) s (λ _ _, True).
Proof.
  intros Hs. unfold reconcile_build. apply wp_try, wp_buildActive; [done..|]. intros active n.
  destruct (DecideBuild _ _ _) eqn:ED.
  - destruct active; by apply serial_reconcile_observe.
  - apply DecideBuild_start in ED as [_ ->]. apply wp_try.
    eapply wp_mono, wp_startBuild; [|done]. intros s' [app'|e] Hs'; [|done].
    rewrite (Hs' eq_refl). by apply serial_reconcile_observe.
  - destruct active; by apply serial_reconcile_observe.
Qed.

Lemma serial_reconcile ns n : wp serial (Reconcile r ns n) new_pass (λ _ _, True).
Proof.
  unfold Reconcile. apply wp_bind, wp_do. intros [app|e]; cbn [serial];
    [|by destruct (is_not_found e)].
  destruct (being_deleted app).
  { unfold reconcileDelete. destruct (negb _); [done|]. apply wp_bind, wp_do. intros res.
    cbn [serial]. rewrite role_build. cbn [String.eqb Ascii.eqb Bool.eqb].
    destruct res as [jobs|e]; [|by intros [?|?] ].
    eapply (wp_quiet _ (λ _, True)); [|done|by intros ? [?|?] ].
    eapply calls_quiet; [apply (deleteJobs_calls delete_call); done|]. by intros ? ? []. }
  eapply (wp_quiet_try _ (λ _, True)); [|done..|].
  { destruct (ContainsFinalizer _ _); [apply quiet_ret|by apply quiet_do]. }
  clear app. intros app. apply wp_bind, wp_do. intros []. cbn [serial]. set (app1 := on_status _ app). clearbody app1.
  unfold reconcile_validated.
  assert (Hl : ∀ (x : result unit) (P : turn → Prop), quiet serial P (lift x))
    by (intros; apply quiet_ret).
  do 4 (apply (wp_check _ (λ _, True)); [done|apply Hl|intros; apply serial_fail|]).
  eapply (wp_quiet_try _ (λ _, True)); [eapply serial_side, reconcileGitCredential_side|done..|].
  intros d. apply (wp_check _ (λ _, True));
    [done|eapply serial_side, validateRepoAuthSecret_side|intros; apply serial_fail|].
  apply (wp_check _ (λ _, True)); [done|apply Hl|intros; apply serial_fail|].
  apply (wp_check _ (λ _, True));
    [done|eapply serial_side, validateStorageClass_side|intros; apply serial_fail|].
  unfold reconcile_infra. eapply (wp_quiet_try _ (λ _, True));
    [eapply serial_side, ensureInfra_side|done..|].
  intros _. destruct (_ && _); [by intros now [?|?]|]. by apply serial_reconcile_build.
Qed.

(** C1: builds and cleanups of an App exclude each other in every reconcile pass,
    whatever the cluster answers: a pass creates at most one build or cleanup Job
    in total; it creates one only after its list of the build Jobs showed none
    unfinished; and a cleanup Job only after the latest list of the cleanup Jobs
    showed none running either. *)
Theorem pass_serializes_builds_and_cleanups ns n tr res :
  run (Reconcile r ns n) tr res → is_Some (feed serial new_pass tr).
Proof.
  intros Hr. destruct (wp_sound _ _ _ _ _ _ (serial_reconcile ns n) Hr) as (s & -> & _). by eexists.
Qed.
End serial.

(** ** Results are persisted before their Jobs are collected *)
Record ledger := MkLedger { g_deleting : bool; g_saved : bool; g_listed : list Job }.

(** A finished Job is deleted only when the pass listed it and has written the
    status since; an unfinished one only while the App is being deleted. *)
Definition collect : monitor ledger := λ s R c,
  match c in call R return R → option ledger with
  | GetApp _ _ => λ res,
      match res with
      | Ok app => Some (MkLedger (being_deleted app) (g_saved s) (g_listed s))
      | Err _ => Some s
      end
  | ListJobs _ _ => λ res,
      match res with
      | Ok jobs => Some (MkLedger (g_deleting s) (g_saved s) (g_listed s ++ jobs))
      | Err _ => Some s
      end
  | UpdateStatus _ => λ res,
      match res with
      | Ok _ => Some (MkLedger (g_deleting s) true (g_listed s))
      | Err _ => Some s
      end
  | DeleteJob j => λ _,
      if bool_decide (j ∈ g_listed s) &&
         (if bool_decide (jobFinished j = None) then g_deleting s else g_saved s)
      then Some s else None
  | _ => λ _, Some s
  end.
Definition new_ledger : ledger := MkLedger false false [].

Section collect.
Context `{GoRuntime} `{MapOrder} `{KubeLib} (r : AppReconciler).

(** Calls that only add to the list of seen Jobs. *)
Definition seeing_call R (c : call R) : Prop :=
  match c with GetApp _ _ | UpdateStatus _ | DeleteJob _ => False | _ => True end.
Definition grows (s s' : ledger) : Prop :=
  g_deleting s' = g_deleting s ∧ g_saved s' = g_saved s ∧ g_listed s ⊆ g_listed s'.
#[local] Instance grows_po : PreOrder grows.
Proof. split; [by intros ?|]. intros x y z (?&?&?) (?&?&?). repeat split; [congruence..|set_solver]. Qed.

Lemma collect_grows {A} (p : prog A) s : calls seeing_call p → wp collect p s (λ s' _, grows s s').
Proof.
  revert s. induction p as [a|R c k IH]; intros s Hp; [by cbn|]. destruct Hp as [Hc Hk]. intros res.
  assert (Hs : ∃ s', collect s R c res = Some s' ∧ grows s s').
  { destruct c; try done; cbn; try (by exists s). destruct res as [jobs|]; [|by exists s].
    eexists. split; [done|]. repeat split; cbn; set_solver. }
  destruct Hs as (s' & -> & Hs). eapply wp_mono, IH, Hk. intros s'' ? ?. by transitivity s'.
Qed.
Lemma wp_grows {A B} (p : prog (result A)) (k : A → prog (result B)) s Q :
  calls seeing_call p → (∀ s' e, grows s s' → Q s' (Err e)) →
  (∀ s' a, grows s s' → wp collect (k a) s' Q) → wp collect (try p k) s Q.
Proof.
  intros Hp He Hk. apply wp_try. eapply wp_mono, collect_grows, Hp. intros s' []; auto.
Qed.
Lemma wp_grows_bind {A B} (p : prog A) (k : A → prog B) s Q :
  calls seeing_call p → (∀ s' a, grows s s' → wp collect (k a) s' Q) → wp collect (p ≫= k) s Q.
Proof. intros Hp Hk. apply wp_bind. eapply wp_mono, collect_grows, Hp. auto. Qed.

Lemma seeing_side b {A} (p : prog A) : calls (side_call b) p → calls seeing_call p.
Proof. apply calls_mono. by intros R []. Qed.
Lemma seeing_observe {A} (p : prog A) : calls observe_call p → calls seeing_call p.
Proof. apply calls_mono. by intros R []. Qed.
Lemma seeing_measure {A} (p : prog A) : calls measure_call p → calls seeing_call p.
Proof. apply calls_mono. by intros R []. Qed.
Lemma seeing_cleanup {A} (p : prog A) : calls cleanup_call p → calls seeing_call p.
Proof. apply calls_mono. by intros R []. Qed.

(** Harvested: listed in this pass and finished. *)
Definition harvest (s : ledger) (l : list Job) : Prop :=
  Forall (λ j, j ∈ g_listed s ∧ jobFinished j ≠ None) l.
Lemma harvest_grows s s' l : grows s s' → harvest s l → harvest s' l.
Proof. intros (_ & _ & Hg) Hl. eapply Forall_impl; [done|]. set_solver. Qed.
Lemma harvest_snoc s l j : harvest s l → j ∈ g_listed s → jobFinished j ≠ None → harvest s (l ++ [j]).
Proof. intros. apply Forall_app. split; [done|]. by repeat constructor. Qed.

(** Both observation loops: they visit the listed Jobs without further lists. *)
Lemma wp_observation (f : App * list Job → Job → prog (result (App * list Job))) ns sel app s :
  (∀ st j P, quiet collect P (f st j)) →
  (∀ st j, returns (f st j) (λ res, match res with
     | Ok st' => st'.2 = st.2 ∨ (st'.2 = st.2 ++ [j] ∧ jobFinished j ≠ None)
     | Err _ => True end)) →
  wp collect (jobs ←? do (ListJobs ns sel); fold_prog jobs f (app, [])) s
    (λ s' res, grows s s' ∧ match res with Ok (_, h) => harvest s' h | Err _ => True end).
Proof.
  intros Hq Hf. apply wp_try, wp_do. intros [jobs|e]; cbn [collect]; [|done].
  set (s1 := MkLedger _ _ _).
  assert (Hg : grows s s1) by (repeat split; cbn; set_solver).
  apply (wp_fold_prog _ (λ s' st, s' = s1 ∧ harvest s1 st.2)).
  - split; [done|constructor].
  - intros s' st j Hj [-> Hst].
    eapply wp_mono, (wp_returns _ _ _ _ _ (Hq st j (λ _, True) s1 I) (Hf st j)).
    intros s' [st'|e] [-> Hr]; [|done]. split; [done|].
    destruct Hr as [->|[-> Hfin]]; [done|]. apply harvest_snoc; [done| |done]. cbn. set_solver.
  - intros s' [app' h] [-> Hh]. done.
Qed.

Lemma wp_observeMeasurement app s : wp collect (observeMeasurement app) s
  (λ s' res, grows s s' ∧ match res with Ok (_, h) => harvest s' h | Err _ => True end).
Proof.
  unfold observeMeasurement. apply wp_observation.
  - intros [app' h] j P. unfold readMeasurement. prog_walk.
  - intros [app' h] j. destruct (jobFinished j) as [cond|]; [|by left].
    destruct (_ || _); [by left|]. apply returns_bind. eapply returns_mono, returns_any.
    intros [bytes|] _; [|by left]. intros now. by right.
Qed.
Lemma wp_observeCleanup app s : wp collect (observeCleanup app) s
  (λ s' res, grows s s' ∧ match res with Ok (_, h) => harvest s' h | Err _ => True end).
Proof.
  unfold observeCleanup. apply wp_observation.
  - intros [app' h] j P. unfold readCleanupResult. prog_walk.
  - intros [app' h] j. destruct (jobFinished j) as [cond|]; [|by left]. cbv zeta.
    destruct (String.eqb _ ""); [by left|]. destruct (_ || _); [by right|].
    intros now. cbn [free_bind_]. destruct (String.eqb (jc_Type cond) "Complete"); [|by right].
    apply returns_try. eapply returns_mono, returns_any. intros [[res msg]|e] _; [|done].
    intros now'. by right.
Qed.
Lemma wp_reconcileCleanup_collect app b s : wp collect (reconcileCleanup r app b) s
  (λ s' res, grows s s' ∧ match res with Ok (_, h) => harvest s' h | Err _ => True end).
Proof.
  unfold reconcileCleanup. apply wp_try. eapply wp_mono, wp_observeCleanup.
  intros s1 [[app' h]|e] [Hg Hh]; [|done].
  apply wp_try. eapply wp_mono, collect_grows; [|apply seeing_cleanup, cleanup_loop_calls].
  intros s2 [[app2 started]|e] Hg2; [|split; [by transitivity s1|done]]. apply wp_ret.
  split; [by transitivity s1|by eapply harvest_grows].
Qed.

Lemma wp_deleteJobs l s : harvest s l → g_saved s = true →
  wp collect (deleteJobs l) s (λ _ _, True).
Proof.
  intros Hl Hs. induction Hl as [|j l [Hj Hf] Hl IH]; [done|]. cbn [deleteJobs].
  apply wp_bind, wp_do. intros res. cbn [collect].
  rewrite bool_decide_true, bool_decide_false, Hs by done. done.
Qed.

Lemma collect_reconcile_observe app active s :
  wp collect (reconcile_observe r app active) s (λ _ _, True).
Proof.
  unfold reconcile_observe. apply wp_grows; [apply seeing_observe, observeBuild_observe|done|].
  intros s1 app1 _. apply wp_try. eapply wp_mono, wp_observeMeasurement.
  intros s2 [[app2 measured]|e] [_ Hm]; [|done].
  apply wp_grows_bind; [apply seeing_measure, recordPVCCapacities_measure|]. intros s3 app3 G3.
  apply wp_try. eapply wp_mono, wp_reconcileCleanup_collect.
  intros s4 [[app4 cleaned]|e] [G4 Hc]; [|done]. cbv zeta.
  apply wp_grows; [|done|].
  { destruct (hasSucceededOnce _); [eapply seeing_side, ensureServing_side|apply calls_ret]. }
  intros s5 app5 G5. apply wp_bind, wp_do. intros now. apply wp_bind, wp_do. intros [].
  apply wp_try, wp_do. intros [[]|e]; [|done]. cbn [collect].
  apply wp_bind. eapply wp_mono, wp_deleteJobs; [done| |done].
  change (harvest s5 (measured ++ cleaned)). apply Forall_app. split.
  - eapply harvest_grows, Hm. transitivity s3; [done|]. by transitivity s4.
  - by eapply harvest_grows.
Qed.

Lemma collect_fail app reason msg s : wp collect (fail r app reason msg) s (λ _ _, True).
Proof.
  unfold fail, set_condition, record_app. intros now now' []. cbn [collect].
  destruct (isPlatformFault _ _); cbn; [intros _|]; by intros [?|?].
Qed.
Lemma collect_check p app reason k s :
  calls seeing_call p → (∀ s', wp collect k s' (λ _ _, True)) →
  wp collect (check r p app reason k) s (λ _ _, True).
Proof.
  intros Hp Hk. apply wp_grows_bind; [done|]. intros s' [?|e] _; [apply Hk|apply collect_fail].
Qed.

Lemma collect_reconcile_build app d s : wp collect (reconcile_build r app d) s (λ _ _, True).
Proof.
  unfold reconcile_build. apply wp_grows; [apply seeing_observe, buildActive_observe|done|].
  intros s1 [active n] _. destruct (DecideBuild _ _ _); try apply collect_reconcile_observe.
  apply wp_grows; [|done|intros; apply collect_reconcile_observe].
  eapply calls_mono; [|apply startBuild_calls]. by intros R [].
Qed.

Lemma collect_reconcile_validated app s : wp collect (reconcile_validated r app) s (λ _ _, True).
Proof.
  unfold reconcile_validated. revert s.
  assert (Hl : ∀ x : result unit, calls seeing_call (lift x)) by done.
  do 4 (intros ?; apply collect_check; [apply Hl|]). intros ?.
  apply wp_grows; [eapply seeing_side, reconcileGitCredential_side|done|]. intros s1 d _. revert s1.
  intros ?; apply collect_check; [eapply seeing_side, validateRepoAuthSecret_side|].
  intros ?; apply collect_check; [apply Hl|].
  intros ?; apply collect_check; [eapply seeing_side, validateStorageClass_side|].
  intros ?. unfold reconcile_infra. apply wp_grows; [eapply seeing_side, ensureInfra_side|done|].
  intros ? _ _. destruct (_ && _); [|apply collect_reconcile_build].
  intros now. by intros [?|?].
Qed.

Lemma collect_reconcileDelete app s :
  g_deleting s = true → wp collect (reconcileDelete app) s (λ _ _, True).
Proof.
  intros Hd. unfold reconcileDelete. destruct (negb _); [done|]. apply wp_bind, wp_do.
  intros [jobs|e]; cbn [collect]; [|by intros [?|?] ]. set (s1 := MkLedger _ _ _).
  apply wp_bind, (wp_mono _ _ _ (λ _ _, True)); [by intros ? [] _ [?|?]|].
  assert (Hl : ∀ j, j ∈ List.filter (λ j, bool_decide (jobFinished j = None)) jobs →
    j ∈ g_listed s1 ∧ jobFinished j = None).
  { intros j Hj. apply list_elem_of_In, filter_In in Hj as [Hj Hf]. apply list_elem_of_In in Hj.
    apply bool_decide_eq_true in Hf. cbn. set_solver. }
  revert Hl. generalize (List.filter (λ j, bool_decide (jobFinished j = None)) jobs) as l.
  induction l as [|j l IH]; intros Hl; [done|]. cbn [deleteJobs]. apply wp_bind, wp_do. intros res.
  cbn [collect]. destruct (Hl j) as [Hj Hf]; [by left|]. rewrite !bool_decide_true by done.
  cbn [g_deleting s1]. rewrite Hd. apply IH. intros ??. apply Hl. by right.
Qed.

Lemma collect_reconcile ns n : wp collect (Reconcile r ns n) new_ledger (λ _ _, True).
Proof.
  unfold Reconcile. apply wp_bind, wp_do. intros [app|e]; cbn [collect];
    [|by destruct (is_not_found e)].
  destruct (being_deleted app) eqn:Ed; [by apply collect_reconcileDelete|].
  apply wp_grows; [|done|].
  { destruct (ContainsFinalizer _ _); [apply calls_ret|by apply calls_do]. }
  intros s1 app1 _. apply wp_bind, wp_do. intros []. apply collect_reconcile_validated.
Qed.

(** C15: no result is lost to garbage collection, in any run of a reconcile pass: a
    finished measurement or cleanup Job is deleted only if the pass itself listed
    it and the status write that carries its result has already succeeded; a Job
    that is still running is deleted only on behalf of an App being deleted. *)
Theorem collect_after_persist ns n tr res :
  run (Reconcile r ns n) tr res → is_Some (feed collect new_ledger tr).
Proof.
  intros Hr. destruct (wp_sound _ _ _ _ _ _ (collect_reconcile ns n) Hr) as (s & -> & _). by eexists.
Qed.
End collect.
