(* ===== verification/Lifecycle.v ===== *)
(** What a reconcile pass does to the App: which fields each part may change, the
    outcome of observing a build, and the gate in front of the serving stack. *)
From Stdlib Require Import ZArith Ascii String.
From stdpp Require Import base gmap strings list numbers sorting.
From S2P Require Import Prelude GoStd GoNum Sha256 Images Storage Decisions BuildSpec AppTypes Kube Config BuildSteps Naming AppView GitCred BuildPod Children Free Prog JsonDecode Ensure GitSync Measure Cleanup Controller Footprint Serial.

Open Scope string_scope.
Open Scope list_scope.
Open Scope Z_scope.

(** ** Fields outside the reach of the observation parts *)
Definition core (app : App) :=
  let s := app_Status app in
  (app_Meta app, app_Spec app, s_Build s, s_LastProcessedRebuild s, s_LastBuiltSpecHash s,
   s_LastSuccessfulBuildTime s, s_BuildHistory s, s_FailedBuildHistory s,
   s_ConsecutiveScheduledFailures s).
(** The evidence of a successful build. *)
Definition successes (app : App) : option Time * string :=
  (s_LastSuccessfulBuildTime (app_Status app), s_LastBuiltSpecHash (app_Status app)).
(** The records of finished builds. *)
Definition histories (app : App) : list BuildStatus * list BuildStatus :=
  (s_BuildHistory (app_Status app), s_FailedBuildHistory (app_Status app)).
(** What the build decision is made from, besides the builds. *)
Definition request (app : App) : ObjectMeta * string :=
  (app_Meta app, s_LastProcessedRebuild (app_Status app)).
Lemma hasSucceededOnce_ext a b : successes a = successes b → hasSucceededOnce a = hasSucceededOnce b.
Proof. unfold successes, hasSucceededOnce. by intros [= -> ->]. Qed.
Lemma core_successes a b : core a = core b → successes a = successes b.
Proof. unfold core, successes. congruence. Qed.

(** The App of an answer, unless it is an error. *)
Definition then_app {B} (Q : App → Prop) (res : result (App * B)) : Prop :=
  match res with Ok (app, _) => Q app | Err _ => True end.
Definition then_ {A} (Q : A → Prop) (res : result A) : Prop :=
  match res with Ok x => Q x | Err _ => True end.

(** ** Conditions *)
Lemma find_put_same cond l : ∃ c,
  List.find (λ c, String.eqb (c_Type c) (c_Type cond)) (put_condition cond l) = Some c ∧
  c_Status c = c_Status cond ∧ c_Reason c = c_Reason cond ∧ c_Message c = c_Message cond.
Proof.
  induction l as [|x l IH]; cbn [put_condition].
  { exists cond. cbn. by rewrite String.eqb_refl. }
  destruct (String.eqb (c_Type x) (c_Type cond)) eqn:E; cbn [List.find].
  - destruct (_ && _); cbn; rewrite String.eqb_refl; by eexists.
  - by rewrite E.
Qed.
Lemma find_put_other cond l t : t ≠ c_Type cond →
  List.find (λ c, String.eqb (c_Type c) t) (put_condition cond l) =
  List.find (λ c, String.eqb (c_Type c) t) l.
Proof.
  intros Ht. apply not_eq_sym in Ht.
  induction l as [|x l IH]; cbn [put_condition].
  { cbn. apply String.eqb_neq in Ht. by rewrite Ht. }
  destruct (String.eqb_spec (c_Type x) (c_Type cond)) as [E|E]; cbn [List.find].
  - rewrite E. apply String.eqb_neq in Ht. rewrite Ht. destruct (_ && _); cbn; by rewrite Ht.
  - by rewrite IH.
Qed.
Lemma condition_set_same now app t st re msg :
  condition_true (setCondition now app t st re msg) t = String.eqb st "True".
Proof.
  unfold condition_true, findCondition, setCondition. cbn.
  destruct (find_put_same (MkCondition t st re msg now (om_Generation (app_Meta app)))
    (s_Conditions (app_Status app))) as (c & E & Es & _). cbn in E, Es. by rewrite E, Es.
Qed.
Lemma condition_set_other now app t t' st re msg : t' ≠ t →
  condition_true (setCondition now app t st re msg) t' = condition_true app t'.
Proof.
  intros Ht. unfold condition_true, findCondition, setCondition. cbn. by rewrite find_put_other.
Qed.

(** ** The evolution of an App *)
(** The core, and whether the App is degraded: what only builds and rejections change. *)
Definition settled (app : App) := (core app, condition_true app ConditionDegraded).
Lemma settled_core a b : settled a = settled b → core a = core b.
Proof. intros E. exact (f_equal fst E). Qed.
Lemma recordSize_settled now app k n : settled (recordSize now app k n) = settled app.
Proof. unfold recordSize. destruct (_ !! k); [destruct (_ =? _)|]; done. Qed.
Lemma actionStatus_settled app mode f : settled (actionStatus app mode f) = settled app.
Proof. done. Qed.
Lemma apply_cleanup_settled now app mode res msg : settled (apply_cleanup now app mode res msg) = settled app.
Proof.
  unfold apply_cleanup. destruct (_ && _ && _); [change (settled (on_status _ ?x)) with (settled x)|];
    (destruct (_ && _); [rewrite recordSize_settled|]; apply actionStatus_settled).
Qed.
Lemma setCondition_settled now app t st re msg : t ≠ ConditionDegraded →
  settled (setCondition now app t st re msg) = settled app.
Proof. intros Ht. unfold settled. by rewrite condition_set_other. Qed.
Lemma refreshPhase_settled now app : settled (refreshPhase now app) = settled app.
Proof. unfold refreshPhase. repeat (destruct (String.eqb _ _); [by rewrite setCondition_settled|]). done. Qed.
Lemma refreshPhase_core now app : core (refreshPhase now app) = core app.
Proof. apply settled_core, refreshPhase_settled. Qed.

Section evolution.
Context `{GoRuntime} `{MapOrder} `{KubeLib} (r : AppReconciler).

Lemma observeMeasurement_settled app :
  returns (observeMeasurement app) (then_app (λ app', settled app' = settled app)).
Proof.
  unfold observeMeasurement. apply returns_try, returns_do. intros [jobs|e]; [|done]. cbv beta iota.
  apply (returns_fold_prog (λ st, settled st.1 = settled app)); [done| |by intros []].
  intros [app' h] j _ Hc. destruct (jobFinished j) as [cond|]; [|done].
  destruct (_ || _); [done|]. apply returns_bind. eapply returns_mono, returns_any.
  intros [bytes|] _; [|done]. intros now. cbn. by rewrite recordSize_settled.
Qed.
Lemma recordPVCCapacities_settled app : returns (recordPVCCapacities app) (λ app', settled app' = settled app).
Proof.
  unfold recordPVCCapacities. apply returns_bind. eapply returns_mono, returns_any.
  intros caps _. apply returns_ret. by case_bool_decide.
Qed.
Lemma observeCleanup_settled app : returns (observeCleanup app) (then_app (λ app', settled app' = settled app)).
Proof.
  unfold observeCleanup. apply returns_try, returns_do. intros [jobs|e]; [|done]. cbv beta iota.
  apply (returns_fold_prog (λ st, settled st.1 = settled app)); [done| |by intros []].
  intros [app' h] j _ Hc. destruct (jobFinished j) as [cond|]; [|done]. cbv zeta.
  destruct (String.eqb _ ""); [done|]. destruct (_ || _); [done|].
  intros now. cbn [free_bind_]. destruct (String.eqb (jc_Type cond) "Complete"); [|done].
  apply returns_try. eapply returns_mono, returns_any. intros [[res msg]|e] _; [|done].
  apply returns_bind, returns_do. intros now'. apply returns_ret. cbn [fst].
  by rewrite apply_cleanup_settled.
Qed.
Lemma reconcileCleanup_settled app b :
  returns (reconcileCleanup r app b) (then_app (λ app', settled app' = settled app)).
Proof.
  unfold reconcileCleanup. apply returns_try. eapply returns_mono, observeCleanup_settled.
  intros [[app1 h]|e] Hc1; [|done]. apply returns_try.
  apply (returns_fold_prog (λ st, settled st.1 = settled app)); [done| |by intros []].
  intros [app2 started] a _ Hc2. unfold cleanup_step. apply returns_try.
  eapply returns_mono, returns_any. intros [active|e] _; [|done].
  destruct (DecideCleanup _ _ _ _); [done| |done]. apply returns_try. unfold startCleanup.
  apply returns_try. eapply returns_mono, returns_any. intros [job|e] _; [|done]. by intros now.
Qed.
Lemma ensureServing_settled app : returns (ensureServing r app) (then_ (λ app', settled app' = settled app)).
Proof.
  unfold ensureServing. do 6 (apply returns_try; eapply returns_mono, returns_any; intros [?|?] _; [|done]).
  apply returns_bind. unfold validateIngress. apply returns_bind.
  eapply returns_mono, returns_any. intros [name|] _ now; by apply setCondition_settled.
Qed.
Lemma observeMeasurement_core app :
  returns (observeMeasurement app) (then_app (λ app', core app' = core app)).
Proof. eapply returns_mono, observeMeasurement_settled. intros [[]|] ?; [by apply settled_core|done]. Qed.
Lemma recordPVCCapacities_core app : returns (recordPVCCapacities app) (λ app', core app' = core app).
Proof. eapply returns_mono, recordPVCCapacities_settled. intros ? ?. by apply settled_core. Qed.
Lemma reconcileCleanup_core app b :
  returns (reconcileCleanup r app b) (then_app (λ app', core app' = core app)).
Proof. eapply returns_mono, reconcileCleanup_settled. intros [[]|] ?; [by apply settled_core|done]. Qed.
Lemma ensureServing_core app : returns (ensureServing r app) (then_ (λ app', core app' = core app)).
Proof. eapply returns_mono, ensureServing_settled. intros [|] ?; [by apply settled_core|done]. Qed.
Lemma startBuild_successes app token d :
  returns (startBuild r app token d) (then_ (λ app', successes app' = successes app)).
Proof.
  unfold startBuild. apply returns_try. eapply returns_mono, returns_any. intros [job|e] _; [|done].
  intros now. cbn [free_bind_]. destruct (String.eqb _ _); by intros.
Qed.
End evolution.

(** ** Observing a build *)
Section observe.
Context `{GoRuntime} `{MapOrder} `{KubeLib} (r : AppReconciler).

Lemma applyCopierTermination_stale app job :
  returns (applyCopierTermination app job) (λ app', core app' = core app ∧
    s_SpecStale (app_Status app') = s_SpecStale (app_Status app)).
Proof.
  unfold applyCopierTermination. apply returns_bind, returns_do. intros [pods|e]; [|done].
  destruct (latest_terminated _ _ _) as [[pod t]|]; [|done]. cbv zeta.
  destruct (parseCopierMessage _) as [blob|]; [|done]. apply returns_bind.
  destruct (String.eqb (cm_Current blob) ""); [|intros now];
    (cbn [returns free_bind_]; destruct (0 <? _); case_bool_decide; [done|by intros..]).
Qed.

Lemma returns_set_condition app t st re msg (Q : App → Prop) :
  (∀ now, Q (setCondition now app t st re msg)) → returns (set_condition app t st re msg) Q.
Proof. intros Hq now. apply Hq. Qed.

(** The recorded outcome of a terminal observation, success and failure. *)
Definition observed_success (app : App) (job : Job) (app' : App) : Prop :=
  let stamp := default "" (om_Annotations (j_Meta job) !! SpecHashAnnotation) in
  app_Spec app' = app_Spec app ∧ request app' = request app ∧
  b_Result (build_of app') = BuildResultSucceeded ∧
  b_Phase (build_of app') = BuildPhaseComplete ∧
  b_JobName (build_of app') = b_JobName (build_of app) ∧
  hasSucceededOnce app' = true ∧
  (stamp ≠ "" → s_LastBuiltSpecHash (app_Status app') = stamp) ∧
  s_SpecStale (app_Status app') = IsStale (buildSpecFrom app) (s_LastBuiltSpecHash (app_Status app')) ∧
  s_ConsecutiveScheduledFailures (app_Status app') = 0 ∧
  condition_true app' ConditionDegraded = false.
Definition observed_failure (app : App) (job : Job) (app' : App) : Prop :=
  app_Spec app' = app_Spec app ∧ request app' = request app ∧
  b_Result (build_of app') = BuildResultFailed ∧
  b_Phase (build_of app') = BuildPhaseComplete ∧
  b_JobName (build_of app') = b_JobName (build_of app) ∧
  successes app' = successes app ∧
  s_Release (app_Status app') = s_Release (app_Status app) ∧
  b_LogsRef (build_of app') = om_Name (j_Meta job) ∧
  condition_true app' ConditionDegraded = true.

Lemma observe_success_spec app job : returns (observe_success r app job) (λ app',
  let stamp := default "" (om_Annotations (j_Meta job) !! SpecHashAnnotation) in
  let s := app_Status app in let s' := app_Status app' in
  app_Spec app' = app_Spec app ∧ request app' = request app ∧
  s_Build s' = (s_Build s) <| b_Result := BuildResultSucceeded |> ∧
  is_Some (s_LastSuccessfulBuildTime s') ∧
  (stamp ≠ "" → s_LastBuiltSpecHash s' = stamp) ∧
  s_SpecStale s' = IsStale (buildSpecFrom app) (s_LastBuiltSpecHash s') ∧
  condition_true app' ConditionDegraded = false ∧
  s_LastBuiltSpecHash s' ≠ "" ∧ histories app' = histories app).
Proof.
  unfold observe_success. apply returns_bind, returns_do. intros now. cbv zeta.
  change (buildSpecFrom (on_build _ app)) with (buildSpecFrom app).
  set (stamp := default "" (_ !! SpecHashAnnotation)).
  set (hash := if String.eqb stamp "" then _ else _).
  assert (Hh : stamp ≠ "" → hash = stamp) by (intros Hst; subst hash; by destruct (String.eqb_spec stamp "")).
  assert (Hne : hash ≠ "") by (subst hash; destruct (String.eqb_spec stamp ""); [apply sha256_hex_nonempty|done]).
  clearbody hash stamp. set (stale := IsStale _ hash). 
  assert (Hs : stale = IsStale (buildSpecFrom app) hash) by done. clearbody stale.
  set (app1 := on_status _ _).
  apply returns_bind. eapply returns_mono, applyCopierTermination_stale. intros app2 [E2 Es].
  apply returns_bind. eapply returns_mono, returns_any. intros _ _.
  apply returns_bind, returns_set_condition. intros t1. apply returns_bind, returns_set_condition. intros t2.
  assert (Hend : ∀ x : App, x = setCondition t2 (setCondition t1 app2 ConditionBuildSucceeded "True"
      ReasonReady "build succeeded") ConditionDegraded "False" ReasonReady "build succeeded" →
    core x = core app1 ∧ s_SpecStale (app_Status x) = s_SpecStale (app_Status app1) ∧
    condition_true x ConditionDegraded = false).
  { intros x ->. rewrite condition_set_same. split; [exact E2|]. split; [exact Es|done]. }
  apply (returns_mono _ (λ x, core x = core app1 ∧
    s_SpecStale (app_Status x) = s_SpecStale (app_Status app1) ∧ condition_true x ConditionDegraded = false)).
  2: { destruct (js_TTLSecondsAfterFinished _); [by apply Hend|]. intros res. by apply Hend. }
  intros x (Ec & Est & Ed).
  unfold core in Ec. injection Ec as Em Esp Eb Etok Eh Et Ehist Efail _.
  assert (Er : request x = request app1) by (unfold request; by rewrite Em, Etok).
  unfold histories. rewrite Er, Esp, Eb, Et, Est, Eh, Ed, Ehist, Efail. by split_and!.
Qed.

Lemma record_history_rest app :
  let app' := record_history r app in
  app_Spec app' = app_Spec app ∧ request app' = request app ∧ build_of app' = build_of app ∧
  successes app' = successes app ∧ s_SpecStale (app_Status app') = s_SpecStale (app_Status app) ∧
  s_Release (app_Status app') = s_Release (app_Status app) ∧
  s_Conditions (app_Status app') = s_Conditions (app_Status app) ∧
  s_ConsecutiveScheduledFailures (app_Status app') =
    updateConsecutiveScheduledFailures (s_ConsecutiveScheduledFailures (app_Status app))
      (b_Trigger (build_of app)) (b_Result (build_of app)).
Proof. unfold record_history. destruct (effectiveHistoryLimits r app). done. Qed.


Lemma observe_terminal_success app job cond : jc_Type cond = "Complete" →
  returns (observe_terminal r app job cond) (observed_success app job).
Proof.
  intros Hc. unfold observe_terminal. apply returns_bind, returns_do. intros now. cbv zeta.
  rewrite Hc, String.eqb_refl. apply returns_bind. eapply returns_mono, observe_success_spec.
  intros app2 (Es & Em & Eb & Et & Eh & Est & Ed & _).
  apply returns_bind. eapply returns_mono, returns_any. intros pod _. cbv zeta.
  set (app3 := finalize_steps app2 pod).
  assert (Hr : b_Result (build_of app3) = BuildResultSucceeded) by (unfold build_of; cbn; by rewrite Eb).
  assert (Hp : b_Phase (build_of app3) = BuildPhaseComplete) by (unfold build_of; cbn; by rewrite Eb).
  assert (Hj : b_JobName (build_of app3) = b_JobName (build_of app)) by (unfold build_of; cbn; by rewrite Eb).
  rewrite Hr. change (String.eqb BuildResultSucceeded BuildResultFailed) with false. cbv iota.
  apply returns_bind, returns_ret, returns_bind, returns_do. intros []. apply returns_ret.
  destruct (record_history_rest app3) as (Rs & Rm & Rb & Ru & Rst & _ & Rc & Rn).
  unfold observed_success. rewrite Rs, Rm, Rb, Rst, Rn, Hr.
  assert (Hh : s_LastBuiltSpecHash (app_Status (record_history r app3)) = s_LastBuiltSpecHash (app_Status app2))
    by (unfold successes in Ru; injection Ru; done).
  split_and!; try done.
  - rewrite (hasSucceededOnce_ext _ _ Ru). unfold hasSucceededOnce. cbn. by rewrite bool_decide_true.
  - intros Hst. rewrite Hh. by apply Eh.
  - rewrite Hh. exact Est.
  - unfold condition_true, findCondition in *. by rewrite Rc.
Qed.

Lemma observe_failure_spec app cond pod : returns (observe_failure app cond pod) (λ app',
  app_Spec app' = app_Spec app ∧ request app' = request app ∧ successes app' = successes app ∧
  s_Release (app_Status app') = s_Release (app_Status app) ∧
  (b_Result (build_of app'), b_Phase (build_of app'), b_JobName (build_of app'),
   b_LogsRef (build_of app')) =
  (b_Result (build_of app), b_Phase (build_of app), b_JobName (build_of app), b_LogsRef (build_of app)) ∧
  condition_true app' ConditionDegraded = true ∧ histories app' = histories app).
Proof.
  unfold observe_failure. cbv zeta. 
  set (app1 := match detectTermination _ _ with Some t => on_build _ app | None => app end).
  assert (H1' : app_Spec app1 = app_Spec app ∧ request app1 = request app ∧ successes app1 = successes app ∧
    s_Release (app_Status app1) = s_Release (app_Status app) ∧
    (b_Result (build_of app1), b_Phase (build_of app1), b_JobName (build_of app1), b_LogsRef (build_of app1)) =
    (b_Result (build_of app), b_Phase (build_of app), b_JobName (build_of app), b_LogsRef (build_of app)) ∧
    histories app1 = histories app)
    by (subst app1; by destruct (detectTermination _ _)).
  clearbody app1. match goal with |- context [let '(_, _) := ?x in _] => destruct x as [reason message] end. destruct H1' as (? & ? & ? & ? & ? & ?).
  apply returns_bind, returns_set_condition. intros t1. apply returns_bind, returns_set_condition. intros t2.
  apply returns_bind. eapply returns_mono, returns_any. intros [] _. apply returns_ret.
  rewrite condition_set_same. done.
Qed.

Lemma observe_terminal_failure app job cond : jc_Type cond ≠ "Complete" →
  returns (observe_terminal r app job cond) (observed_failure app job).
Proof.
  intros Hc. unfold observe_terminal. apply returns_bind, returns_do. intros now. cbv zeta.
  apply String.eqb_neq in Hc. rewrite Hc. apply returns_bind, returns_ret.
  apply returns_bind. eapply returns_mono, returns_any. intros pod _. cbv zeta.
  set (app2 := on_build _ _). set (app3 := finalize_steps app2 pod).
  change (b_Result (build_of app3)) with BuildResultFailed. rewrite String.eqb_refl.
  apply returns_bind. eapply returns_mono, observe_failure_spec.
  intros app4 (Es & Em & Eu & Er & Eb & Ed & _).
  apply returns_bind, returns_do. intros []. apply returns_ret.
  destruct (record_history_rest app4) as (Rs & Rm & Rb & Ru & _ & Rr & Rc & _).
  unfold observed_failure. rewrite Rs, Rm, Rb, Ru, Rr. injection Eb as -> -> -> ->.
  split_and!; try done. unfold condition_true, findCondition in *. by rewrite Rc.
Qed.

(** The build is still running: only its phase, pod and timeline move. *)
Definition observed_running (app app' : App) : Prop :=
  b_Phase (build_of app') = BuildPhaseRunning ∧ b_JobName (build_of app') = b_JobName (build_of app) ∧
  on_build (λ _, build_of app) app' = app.

(** C3: what observing a build writes, on every branch and for every answer.  The
    App is left as it is, or else the Job that the status names was read and was
    not recorded yet: if it still runs, only the live build record moves; if it
    completed, the build is recorded as succeeded with the spec hash stamped on
    the Job (not the hash of the live spec), staleness is measured against it, the
    failure streak is reset and Degraded is cleared; if it failed, the build is
    recorded as failed with its logs, Degraded is set, and the last good build,
    its hash and the served release are untouched. *)
Theorem observeBuild_outcome app tr app' :
  run (observeBuild r app) tr (Ok app') →
  app' = app ∨
  ∃ job, (app_Namespace app, b_JobName (build_of app), Ok job) ∈ omap got_job tr ∧
    (String.eqb (b_JobName (build_of app)) (om_Name (j_Meta job)) && terminal (build_of app)) = false ∧
    match jobFinished job with
    | None => observed_running app app'
    | Some cond => if String.eqb (jc_Type cond) "Complete" then observed_success app job app'
                   else observed_failure app job app'
    end.
Proof.
  unfold observeBuild. destruct (String.eqb _ ""); [inversion 1; by left|]. intros Hr.
  apply run_bind in Hr as (tr1 & res & tr2 & -> & Hg & Hr). apply run_do in Hg as ->.
  rewrite omap_app. destruct res as [job|e].
  2: { destruct (is_not_found e); [inversion Hr; by left|inversion Hr]. }
  destruct (_ && terminal _) eqn:Ht; [inversion Hr; by left|].
  right. exists job. split; [by left|]. split; [done|].
  destruct (jobFinished job) as [cond|] eqn:Ej.
  - destruct (String.eqb_spec (jc_Type cond) "Complete") as [Ec|Ec].
    + apply (returns_run _ (then_ (observed_success app job)) _ _) in Hr; [done|].
      apply returns_bind. eapply returns_mono; [|by apply observe_terminal_success]. done.
    + apply (returns_run _ (then_ (observed_failure app job)) _ _) in Hr; [done|].
      apply returns_bind. eapply returns_mono; [|by apply observe_terminal_failure]. done.
  - apply (returns_run _ (then_ (observed_running app)) _ _) in Hr; [done|].
    apply returns_bind. eapply returns_mono, returns_any. intros pod _. apply returns_ret.
    destruct app as [? ? []], pod; done.
Qed.

(** A terminal build is processed once: observing an App whose build already
    has its result reads the Job at most, and changes and records nothing, so
    histories, counters and conditions are not touched again. *)
Theorem observeBuild_once app tr res :
  terminal (build_of app) = true →
  (∀ ns n job, (ns, n, Ok job) ∈ omap got_job tr → om_Name (j_Meta job) = n) →
  run (observeBuild r app) tr res →
  (res = Ok app ∨ ∃ e, res = Err e) ∧
  (tr = [] ∨ ∃ a, tr = [Ev (GetJob (app_Namespace app) (b_JobName (build_of app))) a]).
Proof.
  intros Ht Hn. unfold observeBuild. destruct (String.eqb _ ""); [inversion 1; subst; by eauto|]. intros Hr.
  apply run_bind in Hr as (tr1 & a & tr2 & -> & Hg & Hr). apply run_do in Hg as ->.
  destruct a as [job|e].
  - rewrite (Hn _ _ job) in Hr by by left. rewrite String.eqb_refl, Ht in Hr. inversion Hr; subst. eauto.
  - destruct (is_not_found e); inversion Hr; subst; split; eauto.
Qed.
End observe.

(** ** The serving gate *)
Definition completed (job : Job) : bool :=
  match jobFinished job with Some c => String.eqb (jc_Type c) "Complete" | None => false end.

(** Whether the pass knows of a successful build: from the status it loaded, or
    from a build Job it read as complete.  Serving objects need it. *)
Definition serve : monitor bool := λ s R c,
  match c in call R return R → option bool with
  | GetApp _ _ => λ res, Some (match res with Ok app => hasSucceededOnce app | Err _ => s end)
  | UpdateApp _ => λ res, Some (match res with Ok app => hasSucceededOnce app | Err _ => s end)
  | GetJob _ _ => λ res, Some (match res with Ok job => s || completed job | Err _ => s end)
  | ApplyObj o => λ _, if serving_kind (o_Spec o) && negb s then None else Some s
  | CreateObj o => λ _, if serving_kind (o_Spec o) && negb s then None else Some s
  | _ => λ _, Some s
  end.

Section serve.
Context `{GoRuntime} `{MapOrder} `{KubeLib} (r : AppReconciler).

Definition backed (s : bool) (app : App) : Prop := hasSucceededOnce app = true → s = true.
Lemma backed_ext s a b : successes a = successes b → backed s a → backed s b.
Proof. intros E. unfold backed. by rewrite (hasSucceededOnce_ext _ _ E). Qed.

Lemma serve_side {A} P (p : prog A) : calls (side_call false) p → quiet serve P p.
Proof.
  intros Hp. eapply calls_quiet; [done|]. intros s R [] a Hc; try done; cbn in Hc; cbn;
    destruct Hc as [|Hc]; [done| |done|]; by rewrite Hc.
Qed.
Lemma serve_open {A} (p : prog A) : calls (side_call true) p → quiet serve (λ s, s = true) p.
Proof.
  intros Hp s ->. induction p as [a|R c k IH]; [done|]. destruct Hp as [Hc Hk]. intros res.
  replace (serve true R c res) with (Some true); [by apply IH|].
  destruct c; try done; cbn; by rewrite andb_false_r.
Qed.
Lemma serve_measure {A} P (p : prog A) : calls measure_call p → quiet serve P p.
Proof. intros Hp. eapply calls_quiet; [done|]. by intros s R [] ? []. Qed.
Lemma serve_cleanup {A} P (p : prog A) : calls cleanup_call p → quiet serve P p.
Proof. intros Hp. eapply calls_quiet; [done|]. by intros s R []. Qed.
Lemma serve_fail P app reason msg : quiet serve P (fail r app reason msg).
Proof. eapply calls_quiet; [apply fail_calls|]. by intros s R []. Qed.
Lemma serve_terminal {A} P (p : prog A) : calls terminal_call p → quiet serve P p.
Proof. intros Hp. eapply calls_quiet; [done|]. by intros s R []. Qed.
Lemma quiet_observe_terminal P app job cond : quiet serve P (observe_terminal r app job cond).
Proof. apply serve_terminal, observe_terminal_calls. Qed.

Lemma serve_observeBuild app s : backed s app →
  wp serve (observeBuild r app) s (λ s' res, then_ (backed s') res).
Proof.
  intros Hb. unfold observeBuild. destruct (String.eqb _ ""); [done|].
  apply wp_bind, wp_do. intros [job|e]; cbn [serve].
  2: { by destruct (is_not_found e). }
  assert (Hb' : backed (s || completed job) app) by (intros E; by rewrite (Hb E)).
  destruct (_ && terminal _); [done|]. unfold completed in *.
  destruct (jobFinished job) as [cond|].
  - apply wp_bind. destruct (String.eqb_spec (jc_Type cond) "Complete") as [Ec|Ec].
    + rewrite orb_true_r. eapply wp_mono, (quiet_observe_terminal (λ _, True)); [|done].
      intros s' app' ->. by intros _.
    + rewrite orb_false_r in *.
      eapply wp_mono, (wp_returns _ _ _ _ _ (quiet_observe_terminal (λ _, True) app job cond s I)
        (observe_terminal_failure r app job cond Ec)).
      intros s' app' [-> (_ & _ & _ & _ & _ & Hs & _)]. by eapply backed_ext.
  - rewrite orb_false_r in *. apply wp_bind.
    eapply wp_mono, (serve_terminal (λ _, True)); [|apply findBuildPod_terminal|done].
    intros s' pod ->. apply wp_ret. by destruct pod.
Qed.

(** A part that the gate ignores and that keeps the evidence. *)
Lemma serve_part {A B} (p : prog A) (k : A → prog B) s Q (Q' : A → Prop) :
  quiet serve (λ _, True) p → returns p Q' → (∀ a, Q' a → wp serve (k a) s Q) →
  wp serve (p ≫= k) s Q.
Proof.
  intros Hq Hr Hk. apply wp_bind. eapply wp_mono, (wp_returns _ _ _ _ _ (Hq s I) Hr).
  intros s' a [-> Ha]. by apply Hk.
Qed.

Lemma serve_reconcile_observe app active s : backed s app →
  wp serve (reconcile_observe r app active) s (λ _ _, True).
Proof.
  intros Hb. unfold reconcile_observe. apply wp_try. eapply wp_mono, serve_observeBuild, Hb.
  intros s1 [app1|e] Hb1; [|done].
  eapply serve_part; [apply serve_measure, observeMeasurement_measure|apply observeMeasurement_core|].
  intros [[app2 measured]|e] H2; [|done].
  eapply serve_part; [apply serve_measure, recordPVCCapacities_measure|apply recordPVCCapacities_core|].
  intros app3 H3.
  eapply serve_part; [eapply serve_cleanup, reconcileCleanup_cleanup|apply reconcileCleanup_core|].
  intros [[app4 cleaned]|e] H4; [|done]. cbv zeta. set (app5 := on_status _ app4).
  assert (Hb5 : backed s1 app5).
  { eapply backed_ext, Hb1. change (successes app5) with (successes app4). symmetry. apply core_successes.
    cbn in H2, H4. congruence. }
  assert (Hend : ∀ app', wp serve (now ← do Now; let app := refreshPhase now app' in record_app r app ;;
      do (UpdateStatus app) ;? deleteJobs (measured ++ cleaned) ;;
      mret (Ok (MkResult false (10 * Minute)))) s1 (λ _ _, True)).
  { intros app'. apply wp_bind, wp_do. intros now. apply wp_bind, wp_do. intros [].
    apply wp_try, wp_do. intros [[]|e]; [|done]. cbn [serve]. eapply (wp_quiet _ (λ _, True)); [|done..].
    eapply calls_quiet; [apply (deleteJobs_calls delete_call); done|]. by intros ? ? []. }
  destruct (hasSucceededOnce app5) eqn:E5; [|apply Hend].
  eapply wp_quiet_try; [apply serve_open, ensureServing_side|by apply Hb5|done|]. intros app6. apply Hend.
Qed.

Lemma serve_reconcile_build app d s : backed s app →
  wp serve (reconcile_build r app d) s (λ _ _, True).
Proof.
  intros Hb. unfold reconcile_build.
  eapply (wp_quiet_try _ (λ _, True)); [apply serve_terminal, buildActive_terminal|done..|].
  intros [active n]. destruct (DecideBuild _ _ _); try by apply serve_reconcile_observe.
  eapply serve_part; [|apply startBuild_successes|].
  - eapply calls_quiet; [apply startBuild_calls|]. by intros ? ? [].
  - intros [app'|e] Ha; [|done]. apply serve_reconcile_observe. by eapply backed_ext.
Qed.

Lemma serve_reconcile_validated app s : backed s app →
  wp serve (reconcile_validated r app) s (λ _ _, True).
Proof.
  intros Hb. unfold reconcile_validated.
  assert (Hl : ∀ x : result unit, quiet serve (λ _, True) (lift x)) by (intros; apply quiet_ret).
  do 4 (apply (wp_check r _ (λ _, True)); [done|apply Hl|intros; apply serve_fail|]).
  eapply (wp_quiet_try _ (λ _, True)); [apply serve_side, reconcileGitCredential_side|done..|].
  intros d. apply (wp_check r _ (λ _, True));
    [done|apply serve_side, validateRepoAuthSecret_side|intros; apply serve_fail|].
  apply (wp_check r _ (λ _, True)); [done|apply Hl|intros; apply serve_fail|].
  apply (wp_check r _ (λ _, True));
    [done|apply serve_side, validateStorageClass_side|intros; apply serve_fail|].
  unfold reconcile_infra. eapply (wp_quiet_try _ (λ _, True)); [apply serve_side, ensureInfra_side|done..|].
  intros _. destruct (_ && _); [by intros now [?|?]|]. by apply serve_reconcile_build.
Qed.

Lemma serve_reconcile ns n : wp serve (Reconcile r ns n) false (λ _ _, True).
Proof.
  unfold Reconcile. apply wp_bind, wp_do. intros [app|e]; cbn [serve];
    [|by destruct (is_not_found e)].
  destruct (being_deleted app).
  { eapply calls_wp; [apply reconcileDelete_calls|]. by intros s R []. }
  assert (Hrest : ∀ s app, backed s app → wp serve (record_app r app ;; reconcile_validated r
    (on_status (λ s, s <| s_ObservedGeneration := om_Generation (app_Meta app) |>) app)) s (λ _ _, True)).
  { clear. intros s app Hb. apply wp_bind, wp_do. intros []. by apply serve_reconcile_validated. }
  destruct (ContainsFinalizer _ _); apply wp_try; [apply wp_ret, Hrest; by intros ?|].
  apply wp_do. intros [app'|e]; [|done]. apply Hrest; by intros ?.
Qed.

(** C5: a site is put on the network only on evidence of a successful build, in
    every run of a reconcile pass: the Deployment, Service, Ingress, nginx
    ConfigMap and auth Middleware are applied or created only if the loaded status
    records a past success or the pass itself read the build Job as complete. *)
Theorem serving_needs_a_success ns n tr res :
  run (Reconcile r ns n) tr res → is_Some (feed serve false tr).
Proof.
  intros Hr. destruct (wp_sound _ _ _ _ _ _ (serve_reconcile ns n) Hr) as (s & -> & _). by eexists.
Qed.
End serve.

(** ** What a pass persists *)
Lemma phaseOf_set_condition now app t st re msg : t ≠ ConditionDegraded →
  phaseOf (setCondition now app t st re msg) = phaseOf app.
Proof.
  intros Ht. unfold phaseOf. rewrite condition_set_other by done. done.
Qed.
Lemma refreshPhase_phase now app :
  s_Phase (app_Status (refreshPhase now app)) = phaseOf (refreshPhase now app).
Proof.
  unfold refreshPhase. set (app1 := on_status _ app). change (phaseOf app) with (phaseOf app1).
  assert (E1 : s_Phase (app_Status app1) = phaseOf app1) by done. clearbody app1.
  repeat (destruct (String.eqb _ _); [by rewrite phaseOf_set_condition|]). done.
Qed.

Section persist.
Context `{GoRuntime} `{MapOrder} `{KubeLib} (r : AppReconciler).

Lemma observeBuild_request app :
  returns (observeBuild r app) (then_ (λ app', request app' = request app)).
Proof.
  unfold observeBuild. destruct (String.eqb _ ""); [done|]. apply returns_bind, returns_do.
  intros [job|e]; [|by destruct (is_not_found e)]. destruct (_ && terminal _); [done|].
  destruct (jobFinished job) as [cond|]; apply returns_bind.
  - destruct (decide (jc_Type cond = "Complete")) as [Ec|Ec].
    + eapply returns_mono, observe_terminal_success, Ec. by intros app' (_ & ? & _).
    + eapply returns_mono, observe_terminal_failure, Ec. by intros app' (_ & ? & _).
  - eapply returns_mono, returns_any. intros [pod|] _; done.
Qed.
Lemma startBuild_request app token d :
  returns (startBuild r app token d) (then_ (λ app', request app' = (app_Meta app, token))).
Proof.
  unfold startBuild. apply returns_try. eapply returns_mono, returns_any. intros [job|e] _; [|done].
  intros now. cbn [free_bind_]. destruct (String.eqb _ _); by intros.
Qed.

(** The status write of a pass: one, of an App with the derived phase. *)
Lemma calls_no_status (P : ∀ R, call R → Prop) {A} (p : prog A) tr x :
  calls P p → (∀ R (c : call R) a, P _ c → status_update (Ev c a) = None) → run p tr x →
  omap status_update tr = [].
Proof.
  intros Hp HP Hr. pose proof (calls_run _ _ _ _ Hp Hr) as Hall. clear Hr.
  induction Hall as [|[R c a] tr Hc _ IH]; [done|]. cbn [omap list_omap]. by rewrite HP.
Qed.

Lemma reconcile_observe_persists app active tr res :
  run (reconcile_observe r app active) tr (Ok res) →
  ∃ app', omap status_update tr = [(app', Ok tt)] ∧ request app' = request app ∧
    s_Phase (app_Status app') = phaseOf app'.
Proof.
  unfold reconcile_observe. intros Hr.
  apply run_try in Hr as (tr1 & app1 & tr2 & -> & H1' & Hr).
  pose proof (calls_no_status _ _ _ _ (observeBuild_observe r app) ltac:(by intros R []) H1') as N1.
  apply (returns_run _ _ _ _ (observeBuild_request app)) in H1'.
  apply run_try in Hr as (tr3 & [app2 measured] & tr4 & -> & H2' & Hr).
  pose proof (calls_no_status _ _ _ _ (observeMeasurement_measure app1) ltac:(by intros R []) H2') as N2.
  apply (returns_run _ _ _ _ (observeMeasurement_core app1)) in H2'.
  apply run_bind in Hr as (tr5 & app3 & tr6 & -> & H3' & Hr).
  pose proof (calls_no_status _ _ _ _ (recordPVCCapacities_measure app2) ltac:(by intros R []) H3') as N3.
  apply (returns_run _ _ _ _ (recordPVCCapacities_core app2)) in H3'.
  apply run_try in Hr as (tr7 & [app4 cleaned] & tr8 & -> & H4' & Hr).
  pose proof (calls_no_status _ _ _ _ (reconcileCleanup_cleanup r app3 active) ltac:(by intros R []) H4') as N4.
  apply (returns_run _ _ _ _ (reconcileCleanup_core r app3 active)) in H4'.
  cbv zeta in Hr. set (app5 := on_status _ app4) in Hr.
  apply run_try in Hr as (tr9 & app6 & tr10 & -> & H6' & Hr).
  assert (N6 : omap status_update tr9 = [] ∧ core app6 = core app5).
  { destruct (hasSucceededOnce app5); [|by inversion H6'; subst].
    split; [|by apply (returns_run _ _ _ _ (ensureServing_core r app5)) in H6'].
    by eapply calls_no_status in H6'; [|apply ensureServing_side|by intros R []]. }
  destruct N6 as [N6 C6].
  apply run_bind in Hr as (t1 & now & tr11 & -> & Hx & Hr). apply run_do in Hx as ->.
  apply run_bind in Hr as (t2 & [] & tr12 & -> & Hx & Hr). apply run_do in Hx as ->.
  apply run_try in Hr as (t3 & [] & tr13 & -> & Hx & Hr). apply run_do in Hx as ->.
  apply run_bind in Hr as (tr14 & [] & tr15 & -> & Hx & Hr).
  eapply (calls_no_status delete_call) in Hx; [|by apply deleteJobs_calls|by intros R []].
  inversion Hr; subst. exists (refreshPhase now app6).
  rewrite !omap_app, N1, N2, N3, N4, N6, Hx. split; [done|]. split; [|apply refreshPhase_phase].
  pose proof (refreshPhase_core now app6) as C7. cbn in H1', H2', H4'.
  change (core app5) with (core app4) in C6. rewrite <- H1'. unfold request.
  assert (C : core (refreshPhase now app6) = core app1) by congruence.
  unfold core in C. congruence.
Qed.

(** C16: each rebuild request is processed: when the build part of a pass returns
    without an error it has written the status once, with the phase derived from
    that same status, and the requested token recorded as processed, unless the
    list of build Jobs showed one unfinished (the request is deferred) or the token
    was already processed.  The recorded token makes the next decision NoBuild. *)
Theorem rebuild_token_processed app d tr res :
  run (reconcile_build r app d) tr (Ok res) →
  ∃ app', omap status_update tr = [(app', Ok tt)] ∧
    s_Phase (app_Status app') = phaseOf app' ∧ app_Meta app' = app_Meta app ∧
    ((s_LastProcessedRebuild (app_Status app') = annotation app RebuildAnnotation ∧
      ∀ active, DecideBuild (annotation app' RebuildAnnotation)
        (s_LastProcessedRebuild (app_Status app')) active = NoBuild)
     ∨ ∃ jobs, (buildLabelsFor app, Ok jobs) ∈ omap listed_jobs tr ∧ unfinished jobs = true ∧
        s_LastProcessedRebuild (app_Status app') = s_LastProcessedRebuild (app_Status app)).
Proof.
  intros Hr. unfold reconcile_build in Hr.
  apply run_try in Hr as (tr1 & [active n] & tr2 & -> & Hb & Hr).
  pose proof (calls_no_status _ _ _ _ (buildActive_observe app) ltac:(by intros R []) Hb) as N1.
  assert (Hact : active = true → ∃ jobs, (buildLabelsFor app, Ok jobs) ∈ omap listed_jobs tr1 ∧ unfinished jobs = true).
  { intros ->. unfold buildActive in Hb. apply run_try in Hb as (t1 & jobs & t2 & -> & Hx & Hb).
    apply run_do in Hx as ->. inversion Hb as [a Ha|]; subst. exists jobs. split; [by left|].
    destruct (List.find _ jobs) as [j|] eqn:E; [|done]. apply find_some in E.
    unfold unfinished. apply existsb_exists. eauto. }
  assert (Hno : ∀ app', request app' = (app_Meta app, annotation app RebuildAnnotation) →
    app_Meta app' = app_Meta app ∧ s_LastProcessedRebuild (app_Status app') = annotation app RebuildAnnotation ∧
    ∀ active, DecideBuild (annotation app' RebuildAnnotation)
        (s_LastProcessedRebuild (app_Status app')) active = NoBuild).
  { unfold request, annotation. intros app' [= Em ->]. rewrite Em. split; [done|]. split; [done|].
    intros a. unfold DecideBuild. by rewrite decide_True. }
  destruct (DecideBuild _ _ _) eqn:ED.
  - apply reconcile_observe_persists in Hr as (app' & Hu & Hq & Hp). exists app'.
    rewrite omap_app, N1. split; [done|]. split; [done|].
    destruct (Hno app') as (? & ? & ?); [|by auto].
    rewrite Hq. unfold request. f_equal. symmetry. revert ED. unfold DecideBuild.
    case_decide; [done|]. by destruct active.
  - apply run_try in Hr as (t1 & app1 & t2 & -> & Hs & Hr).
    pose proof (calls_no_status _ _ _ _ (startBuild_calls r app _ d) ltac:(by intros R []) Hs) as N2.
    apply (returns_run _ _ _ _ (startBuild_request app _ d)) in Hs. cbn in Hs.
    apply reconcile_observe_persists in Hr as (app' & Hu & Hq & Hp). exists app'.
    rewrite !omap_app, N1, N2. split; [done|]. split; [done|].
    destruct (Hno app') as (? & ? & ?); [congruence|by auto].
  - apply reconcile_observe_persists in Hr as (app' & Hu & Hq & Hp). exists app'.
    unfold request in Hq. injection Hq as Em Et. rewrite omap_app, N1. split_and!; [done..|]. right.
    destruct Hact as (jobs & Hj & Hun).
    { revert ED. unfold DecideBuild. case_decide; [done|]. by destruct active. }
    exists jobs. split; [|done]. rewrite omap_app, elem_of_app. by left.
Qed.
End persist.

(** ** Deletion *)
Lemma deleteJobs_run l tr x : run (deleteJobs l) tr x →
  omap deleted_job tr = l ∧ omap updated_app tr = [] ∧ omap listed_jobs tr = [].
Proof.
  revert tr. induction l as [|j l IH]; intros tr Hd; [by inversion Hd|].
  apply run_bind in Hd as (t1 & y & t2 & -> & Hx & Hd). apply run_do in Hx as ->.
  destruct (IH _ Hd) as (E1 & E2 & E3). rewrite !omap_app, E1, E2, E3. done.
Qed.

(** The Jobs deletion cancels, given the answer to the list of builds. *)
Definition cancelled (ls : result (list Job)) : list Job :=
  match ls with
  | Ok jobs => List.filter (λ j, bool_decide (jobFinished j = None)) jobs
  | Err _ => []
  end.

(** C31: deleting an App is a bounded best effort: whatever the cluster answers, the
    finalizer is taken off in exactly one update, the pass fails only if that
    update fails, the builds of the App are listed once and exactly the unfinished
    ones are deleted, each once (none if the list fails); nothing is created or
    applied. *)
Theorem deletion_best_effort app tr res :
  ContainsFinalizer app FinalizerName = true → run (reconcileDelete app) tr res →
  (∃ a, omap updated_app tr = [(RemoveFinalizer app FinalizerName, a)] ∧ is_ok res = is_ok a) ∧
  ContainsFinalizer (RemoveFinalizer app FinalizerName) FinalizerName = false ∧
  Forall (λ e, match e with Ev c _ => finalize_call _ c end) tr ∧
  ∃ ls, omap listed_jobs tr = [(buildLabelsFor app, ls)] ∧ omap deleted_job tr = cancelled ls.
Proof.
  intros Hf Hr. pose proof (calls_run _ _ _ _ (reconcileDelete_calls app) Hr) as Hc.
  unfold reconcileDelete in Hr. rewrite Hf in Hr. cbn [negb] in Hr.
  apply run_bind in Hr as (tr1 & ls & tr2 & -> & Hl & Hr). apply run_do in Hl as ->.
  apply run_bind in Hr as (tr2' & [] & tr3 & -> & Hd & Hr).
  apply run_bind in Hr as (tr3' & a & tr4 & -> & Hu & Hr). apply run_do in Hu as ->.
  assert (E4 : omap deleted_job tr4 = [] ∧ omap updated_app tr4 = [] ∧ omap listed_jobs tr4 = [] ∧
    is_ok res = is_ok a).
  { destruct a as [app'|e]; [|by inversion Hr; subst].
    apply run_bind in Hr as (t1 & x & t2 & -> & Hx & Hr). apply run_do in Hx as ->. by inversion Hr; subst. }
  assert (E2 : omap deleted_job tr2' = cancelled ls ∧ omap updated_app tr2' = [] ∧ omap listed_jobs tr2' = []).
  { destruct ls as [jobs|]; [by eapply deleteJobs_run|by inversion Hd]. }
  destruct E4 as (E4 & E5 & E5' & E6), E2 as (E7 & E8 & E9).
  split_and!; [exists a|apply RemoveFinalizer_removes|done|exists ls];
    rewrite !omap_app, ?E4, ?E5, ?E5', ?E7, ?E8, ?E9; [done|]. cbn. by rewrite !app_nil_r.
Qed.
