(* ===== verification/StatusInv.v ===== *)
(** The status over the life of an App: what every status the operator ever writes says is
    consistent, whatever passes, edits and failing calls came before.

    [lived] is the reachability relation of an App object: it is created with an empty
    status, edited by users, and written by passes of any operator version that loaded an
    earlier state of it (a cache may be stale).  [books] is the invariant. *)
From Stdlib Require Import ZArith Ascii String.
From stdpp Require Import base gmap strings list numbers sorting.
From S2P Require Import Prelude GoStd GoNum Sha256 Images Storage Decisions BuildSpec AppTypes Kube Config BuildSteps Naming AppView GitCred BuildPod Children Free Prog JsonDecode Ensure GitSync Measure Cleanup Metrics Controller Footprint Serial Lifecycle.

Open Scope string_scope.
Open Scope list_scope.
Open Scope Z_scope.

(** ** The invariant *)
Definition finished_record (b : BuildStatus) : Prop := terminal b = true ∧ b_JobName b ≠ "".
Definition build_phases : list string := [""; BuildPhasePending; BuildPhaseRunning; BuildPhaseComplete].

(** [B] bounds the history limits that were ever in force. *)
Record books (B : Z) (app : App) : Prop := MkBooks {
  bk_recent : history_ok B (s_BuildHistory (app_Status app));
  bk_failed : failed_history_ok B (s_FailedBuildHistory (app_Status app));
  bk_finished : ∀ b, b ∈ s_BuildHistory (app_Status app) ∨ b ∈ s_FailedBuildHistory (app_Status app) → finished_record b;
  bk_evidence : is_Some (s_LastSuccessfulBuildTime (app_Status app)) ↔ s_LastBuiltSpecHash (app_Status app) ≠ "";
  bk_success : ∀ b, b = build_of app ∨ b ∈ s_BuildHistory (app_Status app) → b_Result b = BuildResultSucceeded →
    hasSucceededOnce app = true;
  bk_phase : b_Phase (build_of app) ∈ build_phases;
  bk_complete : b_Phase (build_of app) = BuildPhaseComplete →
    b_Result (build_of app) = BuildResultSucceeded ∨
    b_Result (build_of app) = BuildResultFailed ∧ condition_true app ConditionDegraded = true;
}.
(** The limits of an App under an operator. *)
Definition limits (B : Z) (r : AppReconciler) (app : App) : Prop :=
  1 ≤ (effectiveHistoryLimits r app).1 ≤ B ∧ 1 ≤ (effectiveHistoryLimits r app).2 ≤ B.
Lemma limits_spec B r a b : app_Spec b = app_Spec a → limits B r a → limits B r b.
Proof. unfold limits, effectiveHistoryLimits. by intros ->. Qed.

Section books.
Context (B : Z).

Lemma books_zero app : 0 ≤ B → app_Status app = zero_status → books B app.
Proof.
  intros HB E. split; unfold hasSucceededOnce, build_of; rewrite E; cbn.
  - split; [constructor|cbn; lia].
  - split; [split; [constructor|cbn; lia]|constructor].
  - by intros b [[]%not_elem_of_nil|[]%not_elem_of_nil].
  - split; [by intros []|done].
  - by intros b [->|[]%not_elem_of_nil].
  - by left.
  - done.
Qed.
(** They depend on the build state only, and Degraded may be set at any time. *)
Lemma books_core a b : core a = core b →
  (condition_true a ConditionDegraded = true → condition_true b ConditionDegraded = true) → books B a → books B b.
Proof.
  intros E Hd Hb. pose proof (hasSucceededOnce_ext _ _ (core_successes _ _ E)) as Hs.
  unfold core in E. injection E as _ _ Eb _ Eh Et Er Ef _. destruct Hb. unfold build_of in *.
  split; unfold build_of; rewrite <-?Eb, <-?Eh, <-?Et, <-?Er, <-?Ef, <-?Hs; try done. naive_solver.
Qed.
Lemma books_settled a b : settled a = settled b → books B a → books B b.
Proof. intros E. apply books_core; [by apply settled_core|]. pose proof (f_equal snd E : condition_true _ _ = condition_true _ _) as ->. done. Qed.
Lemma books_status a b : app_Status b = app_Status a → books B a → books B b.
Proof.
  intros E []. split; unfold build_of, hasSucceededOnce, condition_true, findCondition in *; by rewrite E.
Qed.

Lemma append_bounded max h rec : history_ok B h → 1 ≤ max ≤ B →
  history_ok B (appendBuildHistory h rec max) ∧ ∀ x, x ∈ appendBuildHistory h rec max → x = rec ∨ x ∈ h.
Proof.
  intros [Hnd Hl] Hm. unfold appendBuildHistory. pose proof (replace_job_spec h rec) as Hs.
  destruct (replace_job h rec) as [out|].
  - destruct Hs as (_ & Hn & _ & Hin). split; [|done]. split; [by rewrite Hn|].
    apply (f_equal length) in Hn. unfold job_names in Hn. rewrite !length_map in Hn. lia.
  - assert (Hnd' : NoDup (job_names (rec :: h))) by (cbn; by constructor).
    destruct (_ && _) eqn:E; breflect.
    + split; [split|].
      * rewrite firstn_job_names. rewrite <-(firstn_skipn (Z.to_nat max) (job_names _)) in Hnd'.
        by apply NoDup_app in Hnd' as (? & _).
      * rewrite length_firstn. lia.
      * intros x Hx. apply elem_of_cons. rewrite <-(firstn_skipn (Z.to_nat max)). apply elem_of_app. by left.
    + split; [split; [done|]|by intros x Hx%elem_of_cons]. destruct E as [E|E]; breflect; lia.
Qed.
Lemma append_failed_bounded max h rec : failed_history_ok B h → 1 ≤ max ≤ B →
  failed_history_ok B (appendFailedBuildHistory h rec max) ∧
  ∀ x, x ∈ appendFailedBuildHistory h rec max → x = trimToFailedStep rec ∨ x ∈ h.
Proof.
  intros [Hh Hf] Hm. unfold appendFailedBuildHistory.
  destruct (String.eqb_spec (b_Result rec) BuildResultFailed) as [E|E]; cbn [negb]; [|by split; [|right]].
  destruct (append_bounded max h (trimToFailedStep rec) Hh Hm) as [Ho Hin]. split; [|done]. split; [done|].
  apply list.Forall_forall. intros x [->|Hx]%Hin; [|by rewrite list.Forall_forall in Hf; apply Hf].
  destruct (trimToFailedStep_spec rec) as (-> & _ & _ & ? & _). done.
Qed.

Context `{GoRuntime} `{MapOrder} `{KubeLib} (r : AppReconciler).

(** ** A finished build *)
(** A build closed as a success, with its evidence, or as a failure, with Degraded. *)
Definition closed (app app' : App) : Prop :=
  app_Spec app' = app_Spec app ∧ histories app' = histories app ∧
  b_JobName (build_of app') = b_JobName (build_of app) ∧ b_Phase (build_of app') = BuildPhaseComplete ∧
  (b_Result (build_of app') = BuildResultSucceeded ∧
     is_Some (s_LastSuccessfulBuildTime (app_Status app')) ∧ s_LastBuiltSpecHash (app_Status app') ≠ "" ∨
   b_Result (build_of app') = BuildResultFailed ∧ successes app' = successes app ∧
     condition_true app' ConditionDegraded = true).
Lemma observe_terminal_closed app job cond :
  returns (observe_terminal r app job cond) (λ app', ∃ app1, closed app app1 ∧ app' = record_history r app1).
Proof.
  unfold observe_terminal. apply returns_bind, returns_do. intros now. cbv zeta.
  destruct (String.eqb_spec (jc_Type cond) "Complete") as [Ec|Ec]; apply returns_bind.
  - eapply returns_mono, observe_success_spec. intros app2 (Es & _ & Eb & Et & _ & _ & _ & Eh & Ei).
    apply returns_bind. eapply returns_mono, returns_any. intros pod _. cbv zeta.
    assert (Hb : build_of app2 = (build_of app) <| b_Phase := BuildPhaseComplete |>
      <| b_CompletionTime := Some now |> <| b_Result := BuildResultSucceeded |>) by exact Eb.
    replace (b_Result (build_of (finalize_steps app2 pod))) with BuildResultSucceeded
      by (change (BuildResultSucceeded = b_Result (build_of app2)); by rewrite Hb).
    change (String.eqb BuildResultSucceeded BuildResultFailed) with false. cbv iota.
    apply returns_bind, returns_ret, returns_bind, returns_do. intros []. apply returns_ret. eexists. split; [|done].
    split_and!; [exact Es|exact Ei|change (b_JobName (build_of app2) = b_JobName (build_of app)); by rewrite Hb
      |change (b_Phase (build_of app2) = BuildPhaseComplete); by rewrite Hb|].
    left. split_and!; [change (b_Result (build_of app2) = BuildResultSucceeded); by rewrite Hb|exact Et|exact Eh].
  - apply returns_ret, returns_bind. eapply returns_mono, returns_any. intros pod _. cbv zeta.
    set (app2 := on_build _ _). set (app3 := finalize_steps app2 pod).
    change (b_Result (build_of app3)) with BuildResultFailed. rewrite String.eqb_refl.
    apply returns_bind. eapply returns_mono, observe_failure_spec.
    intros app4 (Es & _ & Eu & _ & Eb & Ed & Ei). injection Eb as Er Ep Ej _.
    apply returns_bind, returns_do. intros []. apply returns_ret. exists app4. split; [|done].
    split_and!; [exact Es|exact Ei|exact Ej|exact Ep|]. right. split_and!; [exact Er|exact Eu|exact Ed].
Qed.
Lemma record_history_books app app' : books B app → limits B r app → b_JobName (build_of app) ≠ "" →
  closed app app' → books B (record_history r app').
Proof.
  intros Hb Hl Hj (Es & Ei & Ej & Ep & Hr). apply (limits_spec _ _ _ app') in Hl; [|done].
  unfold histories in Ei. injection Ei as Er Ef. destruct Hb as [B1 B2 B3 B4 B5 _ _]. rewrite <-Er in B1, B3, B5. rewrite <-Ef in B2, B3.
  assert (Hfin : finished_record (build_of app')).
  { split; [|congruence]. unfold terminal. rewrite Ep, String.eqb_refl.
    destruct Hr as [(-> & _)|(-> & _)]; by rewrite String.eqb_refl, ?orb_true_r. }
  assert (Hs : hasSucceededOnce app = true → hasSucceededOnce app' = true).
  { destruct Hr as [(_ & Ht & _)|(_ & E & _)]; [|by rewrite (hasSucceededOnce_ext _ _ E)].
    intros _. unfold hasSucceededOnce. by rewrite bool_decide_eq_true_2. }
  unfold limits in Hl. destruct (effectiveHistoryLimits r app') as [k kf] eqn:El. cbn in Hl. destruct Hl as [Hk Hkf].
  destruct (append_bounded k _ (build_of app') B1 Hk) as [A1 I1].
  destruct (append_failed_bounded kf _ (build_of app') B2 Hkf) as [A2 I2].
  destruct (record_history_rest r app') as (_ & _ & Rb & Ru & _ & _ & Rc & _).
  assert (Rh : s_BuildHistory (app_Status (record_history r app')) = appendBuildHistory (s_BuildHistory (app_Status app')) (build_of app') k ∧
    s_FailedBuildHistory (app_Status (record_history r app')) = appendFailedBuildHistory (s_FailedBuildHistory (app_Status app')) (build_of app') kf)
    by (unfold record_history; by rewrite El).
  destruct Rh as [Rh Rf]. pose proof (hasSucceededOnce_ext _ _ Ru) as Rs.
  unfold successes in Ru. injection Ru as Rt Rhash.
  split; rewrite ?Rb, ?Rh, ?Rf, ?Rs, ?Rt, ?Rhash; [done|done|..].
  - intros b [[->|Hb]%I1|[->|Hb]%I2]; [done|apply B3; by left| |apply B3; by right]. exact Hfin.
  - destruct Hr as [(_ & Ht & Hh)|(_ & E & _)]; [done|]. unfold successes in E. injection E as -> ->. exact B4.
  - destruct Hr as [(_ & Ht & _)|(Hfail & _)].
    + intros _ _ _. unfold hasSucceededOnce. by rewrite bool_decide_eq_true_2.
    + intros b [->|[->|Hb]%I1] Hres; [by rewrite Hfail in Hres..|]. apply Hs, (B5 b); [by right|done].
  - rewrite Ep. unfold build_phases. set_solver.
  - intros _. destruct Hr as [(? & _)|(? & _ & Hd)]; [by left|right; split; [done|]].
    unfold condition_true, findCondition in *. by rewrite Rc.
Qed.
End books.

(** ** What a pass writes *)
(** The books, and a phase that follows from them; Ready comes with its condition. *)
Definition written (B : Z) (app : App) : Prop :=
  books B app ∧ (s_Phase (app_Status app) = phaseOf app ∨ s_Phase (app_Status app) = PhaseDegraded) ∧
  (s_Phase (app_Status app) = PhaseReady → condition_true app ConditionReady = true).
Definition sound_write (B : Z) (R : Type) (c : call R) : Prop :=
  match c with UpdateStatus a => written B a | _ => True end.

Section pass.
Context `{GoRuntime} `{MapOrder} `{KubeLib} (B : Z) (r : AppReconciler).

(** A build that runs: its result is still open or untouched. *)
Lemma books_live a b : histories b = histories a → successes b = successes a →
  b_Result (build_of b) = "" ∨ b_Result (build_of b) = b_Result (build_of a) →
  b_Phase (build_of b) ∈ [BuildPhasePending; BuildPhaseRunning] → books B a → books B b.
Proof.
  intros Eh Es Hr Hp []. pose proof (hasSucceededOnce_ext _ _ Es) as Hs. unfold histories in Eh. injection Eh as Er Ef.
  unfold successes in Es. injection Es as Et Ehash. split; rewrite ?Er, ?Ef, ?Hs, ?Et, ?Ehash; try done.
  - intros x [->|Hx] Hres; [|by apply (bk_success0 x); [right|]].
    destruct Hr as [E|E]; rewrite E in Hres; [done|]. apply (bk_success0 (build_of a)); [by left|done].
  - unfold build_phases. set_solver.
  - intros E. rewrite E in Hp. apply (bool_decide_pack _) in Hp. by vm_compute in Hp.
Qed.
Lemma observeBuild_books app : books B app → limits B r app →
  returns (observeBuild r app) (then_ (λ app', books B app' ∧ app_Spec app' = app_Spec app)).
Proof.
  intros Hb Hl. unfold observeBuild. destruct (String.eqb_spec (b_JobName (build_of app)) "") as [|Hj]; [done|].
  apply returns_bind, returns_do. intros [job|e]; [|by destruct (is_not_found e)].
  destruct (_ && terminal _); [done|]. destruct (jobFinished job) as [cond|]; apply returns_bind.
  - eapply returns_mono, observe_terminal_closed. intros app' (app1 & Hc & ->). apply returns_ret. split.
    + by eapply record_history_books.
    + destruct (record_history_rest r app1) as (-> & _). by destruct Hc.
  - eapply returns_mono, returns_any. intros pod _. apply returns_ret.
    destruct pod as [p|]; (split; [|done]); apply (books_live app); try done; try (by right); set_solver.
Qed.
Lemma startBuild_books app token d : books B app →
  returns (startBuild r app token d) (then_ (λ app', books B app' ∧ app_Spec app' = app_Spec app)).
Proof.
  intros Hb. unfold startBuild. apply returns_try. eapply returns_mono, returns_any. intros [job|e] _; [|done].
  intros now. cbn [free_bind_]. destruct (String.eqb _ _); intros; (split; [|done]);
    apply (books_live app); try done; try (by left); set_solver.
Qed.
Lemma refreshPhase_written now app : books B app → written B (refreshPhase now app).
Proof.
  intros Hb. split; [by eapply books_settled, Hb; rewrite refreshPhase_settled|].
  split; [left; apply refreshPhase_phase|].
  unfold refreshPhase. destruct (String.eqb_spec (phaseOf app) PhaseReady) as [_|Hn].
  { intros _. by rewrite condition_set_same. }
  repeat (destruct (String.eqb _ _); [done|]). done.
Qed.
Lemma fail_written app reason msg : books B app → calls (sound_write B) (fail r app reason msg).
Proof.
  intros Hb. unfold fail.
  eapply (calls_then _ _ _ (λ a, core a = core app)); [by apply set_condition_calls|by apply returns_set_condition|].
  intros a1 E1. eapply (calls_then _ _ _ (λ a, core a = core app ∧ condition_true a ConditionDegraded = true)).
  { by apply set_condition_calls. }
  { apply returns_set_condition. intros t. by rewrite condition_set_same. }
  intros a2 [E2 Hd]. cbv zeta. apply calls_bind; [by apply calls_do|]. intros [].
  apply calls_bind; [destruct (isPlatformFault _ _); [by apply calls_do|done]|]. intros [].
  apply calls_try; [|done]. split; [|done]. split; [|by split; [right|]].
  apply (books_core B app); [by rewrite <-E2|by intros _|done].
Qed.
Lemma unwritten (P : ∀ R, call R → Prop) {A} (p : prog A) : calls P p →
  (∀ R (c : call R), P R c → match c with UpdateStatus _ => False | _ => True end) → calls (sound_write B) p.
Proof. intros Hp HP. eapply calls_mono, Hp. intros R c Hc. apply HP in Hc. by destruct c. Qed.

Lemma reconcile_observe_written app active : books B app → limits B r app →
  calls (sound_write B) (reconcile_observe r app active).
Proof.
  intros Hb Hl. unfold reconcile_observe.
  eapply calls_then; [eapply unwritten; [apply observeBuild_observe|by intros R []]|by apply observeBuild_books|].
  intros [a1|e] Ha1; [|done]. destruct Ha1 as [Hb1 _].
  eapply calls_then; [eapply unwritten; [apply observeMeasurement_measure|by intros R []]|apply observeMeasurement_settled|].
  intros [[a2 measured]|e] E2; [|done]. cbn in E2.
  eapply calls_then; [eapply unwritten; [apply recordPVCCapacities_measure|by intros R []]|apply recordPVCCapacities_settled|].
  intros a3 E3.
  eapply calls_then; [eapply unwritten; [apply reconcileCleanup_cleanup|by intros R []]|apply reconcileCleanup_settled|].
  intros [[a4 cleaned]|e] E4; [|done]. cbn in E4. cbv zeta. set (a5 := on_status _ a4).
  assert (Hb5 : books B a5).
  { eapply books_settled, Hb1. change (settled a5) with (settled a4). by rewrite E4, E3, E2. }
  clearbody a5. eapply (calls_then _ _ _ (then_ (λ a, settled a = settled a5))).
  { destruct (hasSucceededOnce a5); [|done]. eapply unwritten; [apply ensureServing_side|by intros R []]. }
  { destruct (hasSucceededOnce a5); [apply ensureServing_settled|done]. }
  intros [a6|e] E6; [|done]. cbn in E6. apply calls_bind; [by apply calls_do|]. intros now. cbv zeta.
  apply calls_bind; [by apply calls_do|]. intros []. apply calls_try.
  { split; [|done]. apply refreshPhase_written. by eapply books_settled, Hb5. }
  intros []. apply calls_bind; [by apply deleteJobs_calls|done].
Qed.
Lemma reconcile_build_written app d : books B app → limits B r app → calls (sound_write B) (reconcile_build r app d).
Proof.
  intros Hb Hl. unfold reconcile_build. apply calls_try; [eapply unwritten; [apply buildActive_terminal|by intros R []]|].
  intros [active n]. destruct (DecideBuild _ _ _); try by apply reconcile_observe_written.
  eapply calls_then; [eapply unwritten; [apply startBuild_calls|by intros R []]|by apply startBuild_books|].
  intros [a|e] Ha; [|done]. destruct Ha as [Hb1 Es]. apply reconcile_observe_written; [done|]. by eapply limits_spec, Hl.
Qed.
Lemma check_written p app reason k : books B app → calls (sound_write B) p → calls (sound_write B) k →
  calls (sound_write B) (check r p app reason k).
Proof. intros Hb Hp Hk. unfold check. apply calls_bind; [done|]. intros [[]|e]; [done|by apply fail_written]. Qed.
Lemma reconcile_validated_written app : books B app → limits B r app → calls (sound_write B) (reconcile_validated r app).
Proof.
  intros Hb Hl. unfold reconcile_validated. do 4 (apply check_written; [done|done|]).
  apply calls_try; [eapply unwritten; [apply reconcileGitCredential_side|by intros R []]|]. intros d.
  apply check_written; [done|eapply unwritten; [apply validateRepoAuthSecret_side|by intros R []]|].
  apply check_written; [done|done|].
  apply check_written; [done|eapply unwritten; [apply validateStorageClass_side|by intros R []]|].
  unfold reconcile_infra. cbv zeta. set (a := on_status _ app).
  assert (Hb' : books B a) by by apply (books_core B app). assert (Hl' : limits B r a) by done. clearbody a.
  apply calls_try; [eapply unwritten; [apply ensureInfra_side|by intros R []]|]. intros _.
  destruct (_ && _); [unfold seedRebuild; prog_walk|]. by apply reconcile_build_written.
Qed.
Lemma Reconcile_written ns n tr res : run (Reconcile r ns n) tr res →
  (∀ a, a ∈ omap loaded_app tr → books B a ∧ limits B r a) →
  Forall (λ e, match e with Ev c _ => sound_write B _ c end) tr.
Proof.
  intros (t1 & t2 & -> & H1' & H2')%Reconcile_split Hin. apply Forall_app. split.
  - eapply Forall_impl; [exact H1'|]. by intros [R []].
  - destruct H2' as [->|(app & Ha & _ & Hr)]; [constructor|]. destruct (Hin app) as [Hb Hl]; [rewrite omap_app, elem_of_app; by left|].
    eapply calls_run, Hr. apply reconcile_validated_written; [by apply (books_core B app)|done].
Qed.
End pass.

(** ** The life of an App *)
Section life.
Context `{GoRuntime} `{MapOrder} `{KubeLib} (B : Z).

(** A new App has an empty status; an edit of its spec or metadata leaves the status alone;
    a pass writes a status (the write may even fail) for an App it loaded, as it is or as it
    was at an earlier time.
    The history limits are at most [B]. *)
Inductive lived : App → Prop :=
| lived_new app : app_Status app = zero_status → lived app
| lived_edit app app' : lived app → app_Status app' = app_Status app → lived app'
| lived_pass r ns n tr res app ans : run (Reconcile r ns n) tr res →
    (∀ a, a ∈ omap loaded_app tr → lived a) → (∀ a, a ∈ omap loaded_app tr → limits B r a) →
    (app, ans) ∈ omap status_update tr → lived app.

(** The phases of a status, none before the first write. *)
Definition phase_ok (app : App) : Prop :=
  s_Phase (app_Status app) = "" ∨ written B app.
Lemma written_status a b : app_Status b = app_Status a → written B a → written B b.
Proof.
  intros E (Hb & Hp & Hr). split; [by eapply books_status|].
  unfold phaseOf, hasSucceededOnce, build_of, condition_true, findCondition in *. by rewrite E.
Qed.
Lemma lived_inv app : 0 ≤ B → lived app → books B app ∧ phase_ok app.
Proof.
  intros HB. induction 1 as [app E|app app' _ [IH Hp] E|r ns n tr res app ans Hr _ IH Hl Hin].
  - split; [by apply books_zero|]. left. by rewrite E.
  - split; [by eapply books_status|]. destruct Hp as [Hp|Hp]; [left; by rewrite E|right; by eapply written_status].
  - assert (Hw : written B app); [|by split; [destruct Hw|right]].
    pose proof (Reconcile_written B r ns n tr res Hr (λ a Ha, conj (proj1 (IH a Ha)) (Hl a Ha))) as Hall.
    apply list_elem_of_omap in Hin as ([R c x] & He & Hs). rewrite list.Forall_forall in Hall. specialize (Hall _ He).
    destruct c; try done. cbn in Hs. by injection Hs as -> _.
Qed.
(** Ready needs a success. *)
Lemma phaseOf_ready app : books B app → phaseOf app = PhaseReady →
  hasSucceededOnce app = true ∧ condition_true app ConditionDegraded = false.
Proof.
  intros Hb. unfold phaseOf. destruct (hasSucceededOnce app) eqn:Es; cbn [negb andb].
  { destruct (condition_true _ _); [done|]. by destruct (String.eqb _ _). }
  destruct (String.eqb_spec (b_Phase (build_of app)) BuildPhaseComplete) as [Ec|Ec]; cbn [negb].
  - destruct (bk_complete _ _ Hb Ec) as [Er|[_ Hd]]; [|by rewrite Hd].
    assert (hasSucceededOnce app = true) by (apply (bk_success _ _ Hb (build_of app)); [by left|done]). congruence.
  - by destruct (_ || _).
Qed.

(** C4: the status tells the truth for as long as the App lives, whatever passes failed, ran on
    a stale cache or were interrupted before.  An App is Ready only if a build of it has
    succeeded, with the Ready condition set and Degraded not; a build recorded as succeeded,
    current or past, is backed by the time and the spec hash of a success, which are set
    together; a current build that failed shows as Degraded; and both histories stay within
    the largest limit in force, name each Job once, and hold finished builds only, the
    failed one failures only. *)
Theorem status_tells_truth app : 0 ≤ B → lived app →
  (s_Phase (app_Status app) = PhaseReady →
     hasSucceededOnce app = true ∧ condition_true app ConditionReady = true ∧ condition_true app ConditionDegraded = false) ∧
  (∀ b, b = build_of app ∨ b ∈ s_BuildHistory (app_Status app) → b_Result b = BuildResultSucceeded →
     is_Some (s_LastSuccessfulBuildTime (app_Status app)) ∧ s_LastBuiltSpecHash (app_Status app) ≠ "") ∧
  (terminal (build_of app) = true → b_Result (build_of app) = BuildResultFailed →
     condition_true app ConditionDegraded = true) ∧
  history_ok B (s_BuildHistory (app_Status app)) ∧ failed_history_ok B (s_FailedBuildHistory (app_Status app)) ∧
  (∀ b, b ∈ s_BuildHistory (app_Status app) ∨ b ∈ s_FailedBuildHistory (app_Status app) → terminal b = true).
Proof.
  intros HB [Hb Hp]%lived_inv; [|done]. split_and!; try apply Hb.
  - intros Er. destruct Hp as [E|(_ & [E|E] & Hc)]; [by rewrite E in Er| |by rewrite E in Er].
    destruct (phaseOf_ready app Hb) as [Hs Hd]; [congruence|]. by auto.
  - intros b Hin Hres. pose proof (bk_success _ _ Hb b Hin Hres) as Hs. pose proof (bk_evidence _ _ Hb) as He.
    unfold hasSucceededOnce in Hs. apply orb_true_iff in Hs as [Hs|Hs].
    + apply bool_decide_eq_true in Hs. tauto.
    + apply negb_true_iff, String.eqb_neq in Hs. tauto.
  - intros Ht Hf. unfold terminal in Ht. apply andb_true_iff in Ht as [Ht _]. apply String.eqb_eq in Ht.
    destruct (bk_complete _ _ Hb Ht) as [E|[_ Hd]]; [by rewrite Hf in E|done].
Qed.
End life.
