(* ===== verification/MetricsTrace.v ===== *)
(** The reconciler and the metrics recorder together: what the series say after a pass.

    [recorded] replays the metric calls of a run in the Recorder of [Metrics]; the
    monitor [exports] checks that the status written is the one last recorded. *)
From Stdlib Require Import ZArith Ascii String.
From stdpp Require Import base gmap strings list numbers sorting relations.
From S2P Require Import Prelude GoStd GoNum Images Storage Decisions BuildSpec AppTypes Kube Config BuildSteps Naming AppView GitCred BuildPod Children Free Prog JsonDecode Ensure GitSync Measure Cleanup Metrics Controller Footprint Serial Lifecycle.

Open Scope string_scope.
Open Scope list_scope.
Open Scope Z_scope.

(** ** Replaying a run *)
Definition record_event `{MapOrder} (m : Recorder) (e : event) : Recorder :=
  match e with
  | Ev c _ =>
      match c with
      | Prog.RecordApp app d al th => Metrics.RecordApp app d al th m
      | Prog.RecordTerminalBuild app => Metrics.RecordTerminalBuild app m
      | Prog.ForgetApp ns n => Metrics.ForgetApp ns n m
      | _ => m
      end
  end.
Definition recorded `{MapOrder} (tr : list event) (m : Recorder) : Recorder := foldl record_event m tr.

(** ** The monitor *)
Record exporting := MkExporting {
  x_last : option App;     (* the App last recorded *)
  x_written : bool;        (* the status has been written *)
  x_excused : bool;        (* the API server answered with another App *)
}.
#[export] Instance eta_exporting : Eta exporting := λ x, MkExporting (x_last x) (x_written x) (x_excused x).
Definition not_yet : exporting := MkExporting None false false.

Section exports.
Context (k : string * string).
Definition mine (s : exporting) (w : string * string) : bool := x_excused s || bool_decide (w = k).
Definition allow (b : bool) (s : exporting) : option exporting := if b && negb (x_written s) then Some s else None.
Definition expect (same : bool) (s : exporting) : exporting := if same then s else s <| x_excused := true |>.
Definition exports : monitor exporting := λ s R c,
  match c in call R return R → option exporting with
  | GetApp ns n => λ res, Some (match res with Ok app => expect (bool_decide (app_key app = (ns, n))) s | Err _ => s end)
  | UpdateApp app => λ res, Some (match res with Ok app' => expect (bool_decide (app_key app' = app_key app)) s | Err _ => s end)
  | Prog.RecordApp app _ _ _ => λ _, (λ s, s <| x_last := Some app |>) <$> allow (mine s (app_key app)) s
  | Prog.RecordTerminalBuild app => λ _, allow (mine s (app_key app)) s
  | Prog.ForgetApp ns n => λ _, (λ s, s <| x_last := None |>) <$> allow (mine s (ns, n)) s
  | UpdateStatus app => λ _, (λ s, s <| x_written := true |>) <$> allow (bool_decide (x_last s = Some app)) s
  | _ => λ _, Some s
  end.
Definition untracked R (c : call R) : Prop :=
  match c with
  | GetApp _ _ | UpdateApp _ | Prog.RecordApp _ _ _ _ | Prog.RecordTerminalBuild _ | Prog.ForgetApp _ _ | UpdateStatus _ => False
  | _ => True
  end.
Lemma exports_untracked {A} (p : prog A) : calls untracked p → quiet exports (λ _, True) p.
Proof. intros Hp. eapply calls_quiet; [exact Hp|]. by intros ? ? []. Qed.
Lemma exports_class (P : ∀ R, call R → Prop) {A} (p : prog A) :
  calls P p → (∀ R c, P R c → untracked R c) → quiet exports (λ _, True) p.
Proof. intros Hp HP. apply exports_untracked. by eapply calls_mono. Qed.
(** A part that the monitor ignores, of which the App's key is known. *)
Lemma exports_part {A B} (p : prog A) (f : A → prog B) s Q (Q' : A → Prop) :
  quiet exports (λ _, True) p → returns p Q' → (∀ a, Q' a → wp exports (f a) s Q) →
  wp exports (p ≫= f) s Q.
Proof.
  intros Hq Hr Hf. apply wp_bind. eapply wp_mono, (wp_returns _ _ _ _ _ (Hq s I) Hr).
  intros s' a [-> Ha]. by apply Hf.
Qed.

Section passes.
Context `{GoRuntime} `{MapOrder} `{KubeLib} (r : AppReconciler).

(** The status has not been written, and the App is the one of the pass. *)
Definition tracked (s : exporting) (app : App) : Prop := x_written s = false ∧ mine s (app_key app) = true.
Lemma tracked_meta s app app' : app_Meta app' = app_Meta app → tracked s app → tracked s app'.
Proof. unfold tracked, app_key, app_Namespace, app_Name. by intros ->. Qed.
Lemma request_meta app app' : request app' = request app → app_Meta app' = app_Meta app.
Proof. unfold request. congruence. Qed.
Lemma core_meta app app' : core app' = core app → app_Meta app' = app_Meta app.
Proof. unfold core. congruence. Qed.

Lemma allow_tracked s app : tracked s app → allow (mine s (app_key app)) s = Some s.
Proof. unfold allow. by intros [-> ->]. Qed.
Lemma wp_record s app (Q : exporting → unit → Prop) : tracked s app →
  Q (s <| x_last := Some app |>) tt → wp exports (record_app r app) s Q.
Proof. intros Ht HQ []. cbn [exports]. by rewrite allow_tracked. Qed.
(** Recording, then writing what was recorded. *)
Lemma wp_record_write {B} s app (rest : prog unit) (f : prog (result B)) : tracked s app →
  calls untracked rest → calls untracked f →
  wp exports (record_app r app ;; rest ;; do (UpdateStatus app) ;? f) s (λ _ _, True).
Proof.
  intros Ht Hrest Hf. apply wp_bind, wp_record; [done|]. apply wp_bind.
  eapply wp_mono, (exports_untracked rest Hrest _ I). intros s' x ->. apply wp_try, wp_do. intros res.
  cbn [exports]. destruct Ht as [Hw _]. unfold allow. cbn. rewrite bool_decide_eq_true_2, Hw by done. cbn.
  destruct res as [[]|e]; [|done]. eapply wp_mono, (exports_untracked f Hf _ I). done.
Qed.

Lemma wp_fail s app reason msg : tracked s app → wp exports (fail r app reason msg) s (λ _ _, True).
Proof.
  intros Ht. unfold fail. apply wp_bind. intros t1. apply wp_bind. intros t2. cbn [exports].
  apply wp_record_write; [by eapply tracked_meta|by destruct (isPlatformFault _ _)|done].
Qed.
Lemma wp_check_ s app p reason f : tracked s app → quiet exports (λ _, True) p →
  wp exports f s (λ _ _, True) → wp exports (check r p app reason f) s (λ _ _, True).
Proof.
  intros Ht Hp Hf. unfold check. apply wp_bind. eapply wp_mono, (Hp s I). intros s' [[]|e] ->; [done|by apply wp_fail].
Qed.
(** The parts of observing a finished build but the record itself. *)
Lemma create_job_untracked app job : calls untracked (create_job app job).
Proof. by apply calls_create_job. Qed.
Lemma maybeStartMeasurement_untracked app prev : calls untracked (maybeStartMeasurement r app prev).
Proof.
  unfold maybeStartMeasurement. prog_walk; [unfold buildActive; prog_walk|].
  apply calls_for_each. intros m Hm. apply calls_try; [apply create_job_untracked|]. done.
Qed.
Lemma observe_success_untracked app job : calls untracked (observe_success r app job).
Proof.
  unfold observe_success, applyCopierTermination, findBuildPod, set_condition. prog_walk.
  apply maybeStartMeasurement_untracked.
Qed.
Lemma observe_failure_untracked app cond pod : calls untracked (observe_failure app cond pod).
Proof. unfold observe_failure, set_condition. prog_walk. Qed.
Lemma findBuildPod_untracked app job : calls untracked (findBuildPod app job).
Proof. unfold findBuildPod. prog_walk. Qed.
Lemma observe_terminal_keeps s app job cond : tracked s app →
  wp exports (observe_terminal r app job cond) s (λ s' _, s' = s).
Proof.
  intros Ht. unfold observe_terminal. apply wp_bind. intros now. cbn [exports]. cbv zeta.
  apply (exports_part _ _ _ _ (λ app', app_Meta app' = app_Meta app)).
  { destruct (String.eqb _ _); [apply exports_untracked, observe_success_untracked|apply quiet_ret]. }
  { destruct (String.eqb _ _); [|done]. eapply returns_mono, observe_success_spec. intros a (_ & Hr & _).
    by rewrite (request_meta _ _ Hr). }
  intros app2 Hm2. apply (exports_part _ _ _ _ (λ _, True)); [apply exports_untracked, findBuildPod_untracked|apply returns_any|].
  intros pod _. cbv zeta. set (app3 := finalize_steps app2 pod).
  apply (exports_part _ _ _ _ (λ app', app_Meta app' = app_Meta app)).
  { destruct (String.eqb _ _); [apply exports_untracked, observe_failure_untracked|apply quiet_ret]. }
  { destruct (String.eqb _ _); [|done]. eapply returns_mono, observe_failure_spec. intros a (_ & Hr & _).
    by rewrite (request_meta _ _ Hr). }
  intros app4 Hm4. apply wp_bind. intros []. cbn [exports]. rewrite allow_tracked; [done|]. by eapply tracked_meta.
Qed.
Lemma observeBuild_keeps s app : tracked s app → wp exports (observeBuild r app) s (λ s' _, s' = s).
Proof.
  intros Ht. unfold observeBuild. destruct (String.eqb _ ""); [done|]. apply wp_bind, wp_do. intros [job|e]; cbn [exports]; [|done].
  destruct (_ && terminal _); [done|]. destruct (jobFinished job) as [cond|].
  - apply wp_bind. eapply wp_mono, observe_terminal_keeps, Ht. by intros s' a ->.
  - apply wp_bind. eapply wp_mono, (exports_untracked _ (findBuildPod_untracked _ _) _ I). by intros s' a ->.
Qed.

Lemma exports_reconcile_observe app active s : tracked s app →
  wp exports (reconcile_observe r app active) s (λ _ _, True).
Proof.
  intros Ht. unfold reconcile_observe. apply wp_try.
  eapply wp_mono, (wp_returns _ _ _ _ _ (observeBuild_keeps s app Ht) (observeBuild_request r app)).
  intros s1 [app1|e] [-> H1']; [|done]. cbn in H1'. apply request_meta in H1'.
  eapply exports_part; [eapply exports_class; [apply observeMeasurement_measure|by intros R []]|apply observeMeasurement_core|].
  intros [[app2 measured]|e] H2'; [|done].
  eapply exports_part; [eapply exports_class; [apply recordPVCCapacities_measure|by intros R []]|apply recordPVCCapacities_core|].
  intros app3 H3'.
  eapply exports_part; [eapply exports_class; [apply reconcileCleanup_cleanup|by intros R []]|apply reconcileCleanup_core|].
  intros [[app4 cleaned]|e] H4'; [|done]. cbv zeta. set (app5 := on_status _ app4). cbn in H2', H4'.
  assert (H5' : app_Meta app5 = app_Meta app).
  { change (app_Meta app5) with (app_Meta app4). apply core_meta in H2', H3', H4'. congruence. }
  eapply (exports_part _ _ _ _ (then_ (λ app', app_Meta app' = app_Meta app))).
  { destruct (hasSucceededOnce app5); [|apply quiet_ret].
    eapply exports_class; [apply ensureServing_side|by intros R []]. }
  { destruct (hasSucceededOnce app5); [|done]. eapply returns_mono, ensureServing_core.
    intros [app6|] H6'; [|done]. cbn [then_] in *. apply core_meta in H6'. congruence. }
  intros [app6|e] H6'; [|done]. cbn in H6'. apply wp_bind, wp_do. intros now. cbn [exports].
  refine (wp_record_write s (refreshPhase now app6) (mret tt)
    (deleteJobs (measured ++ cleaned) ;; mret (Ok (MkResult false (10 * Minute)))) _ _ _); [|done|].
  - eapply tracked_meta; [|exact Ht]. rewrite <-H6'. apply core_meta, refreshPhase_core.
  - apply calls_bind; [by apply deleteJobs_calls|]. done.
Qed.
Lemma exports_reconcile_build app d s : tracked s app → wp exports (reconcile_build r app d) s (λ _ _, True).
Proof.
  intros Ht. unfold reconcile_build.
  eapply (wp_quiet_try _ (λ _, True)); [eapply exports_untracked; unfold buildActive; prog_walk|done..|].
  intros [active n]. destruct (DecideBuild _ _ _); try by apply exports_reconcile_observe.
  eapply exports_part; [eapply exports_class; [apply startBuild_calls|by intros R []]|apply startBuild_request|].
  intros [app'|e] Ha; [|done]. apply exports_reconcile_observe. eapply tracked_meta; [|exact Ht].
  cbn in Ha. unfold request in Ha. congruence.
Qed.
Lemma exports_reconcile_validated app s : tracked s app → wp exports (reconcile_validated r app) s (λ _ _, True).
Proof.
  intros Ht. unfold reconcile_validated.
  assert (Hl : ∀ x : result unit, quiet exports (λ _, True) (lift x)) by (intros; apply quiet_ret).
  assert (Hside : ∀ b {A} (p : prog A), calls (side_call b) p → quiet exports (λ _, True) p).
  { intros b A p Hp. eapply exports_class; [exact Hp|by intros R []]. }
  do 4 (apply wp_check_; [done|apply Hl|]).
  eapply (wp_quiet_try _ (λ _, True)); [eapply Hside, reconcileGitCredential_side|done..|]. intros d.
  apply wp_check_; [done|eapply Hside, validateRepoAuthSecret_side|].
  apply wp_check_; [done|apply Hl|]. apply wp_check_; [done|eapply Hside, validateStorageClass_side|].
  unfold reconcile_infra. eapply (wp_quiet_try _ (λ _, True)); [eapply Hside, ensureInfra_side|done..|].
  intros _. destruct (_ && _); [by intros now [?|?]|]. by apply exports_reconcile_build.
Qed.
End passes.
End exports.

Section reconcile.
Context `{GoRuntime} `{MapOrder} `{KubeLib} (r : AppReconciler).

Lemma expect_mine k s (b : bool) app w : (b = true → app_key app = w) → mine k s w = true →
  mine k (expect b s) (app_key app) = true.
Proof. intros Hb Hm. unfold expect. destruct b; [by rewrite Hb|done]. Qed.
Lemma expect_written b s : x_written (expect b s) = x_written s.
Proof. by destruct b. Qed.
Lemma expect_tracked k s app w : x_written s = false → mine k s w = true →
  tracked k (expect (bool_decide (app_key app = w)) s) app.
Proof.
  intros Hw Hm. split; [by rewrite expect_written|]. eapply expect_mine; [|exact Hm]. by rewrite bool_decide_eq_true.
Qed.

Lemma exports_reconcile ns n : wp (exports (ns, n)) (Reconcile r ns n) not_yet (λ _ _, True).
Proof.
  assert (Hk : mine (ns, n) not_yet (ns, n) = true) by (unfold mine; by rewrite bool_decide_eq_true_2).
  unfold Reconcile. apply wp_bind, wp_do. intros [app|e]; cbn [exports].
  2: { destruct (is_not_found e); [|done]. intros []. cbn [exports]. unfold allow. rewrite Hk. done. }
  assert (Ht : tracked (ns, n) (expect (bool_decide (app_key app = (ns, n))) not_yet) app) by by apply expect_tracked.
  revert Ht. generalize (expect (bool_decide (app_key app = (ns, n))) not_yet). intros s Ht.
  destruct (being_deleted app).
  { unfold reconcileDelete. destruct (negb _); [done|]. apply wp_bind, wp_do. intros res. cbn [exports].
    apply wp_bind. eapply wp_mono; [|eapply (exports_untracked _ (match res with Ok jobs => _ | Err _ => _ end)); [|done]].
    2: { destruct res; [by apply deleteJobs_calls|done]. }
    intros s' [] ->. apply wp_try, wp_do. intros [app'|e]; cbn [exports]; [|done]. intros []. cbn [exports].
    destruct Ht as [Hw Hm].
    destruct (expect_tracked (ns, n) s app' (app_key app) Hw Hm) as [Hw' Hm'].
    change (app_key (RemoveFinalizer app FinalizerName)) with (app_key app).
    unfold allow. change (app_Namespace app', app_Name app') with (app_key app'). rewrite Hm', Hw'. done. }
  assert (Hrest : ∀ s app, tracked (ns, n) s app → wp (exports (ns, n)) (record_app r app ;; reconcile_validated r
    (on_status (λ s, s <| s_ObservedGeneration := om_Generation (app_Meta app) |>) app)) s (λ _ _, True)).
  { clear. intros s app Ht. apply wp_bind, wp_record; [done|]. apply exports_reconcile_validated. exact Ht. }
  destruct (ContainsFinalizer _ _); apply wp_try; [by apply wp_ret, Hrest|].
  apply wp_do. intros [app'|e]; [|done]. cbn [exports]. apply Hrest.
  assert (E : app_key (AddFinalizer app FinalizerName) = app_key app)
    by (unfold AddFinalizer; by destruct (ContainsFinalizer _ _)).
  destruct Ht as [Hw Hm]. apply expect_tracked; [done|by rewrite E].
Qed.

(** ** The series after a run *)
Lemma record_event_step m e : m = record_event m e ∨ metrics_step m (record_event m e).
Proof. destruct e as [R []]; cbn; try (by left); right; constructor. Qed.
Lemma recorded_reachable tr m : reachable m → reachable (recorded tr m).
Proof.
  revert m. induction tr as [|e tr IH]; intros m Hm; [done|]. apply IH.
  destruct (record_event_step m e) as [<-|Hs]; [done|]. unfold reachable in *. by eapply rtc_r.
Qed.
(** The API server answers with the App that was asked for. *)
Definition named (e : event) : Prop :=
  match e with
  | Ev c res =>
      match c in call R return R → Prop with
      | GetApp ns n => λ res, ∀ app, res = Ok app → app_key app = (ns, n)
      | UpdateApp app => λ res, ∀ app', res = Ok app' → app_key app' = app_key app
      | _ => λ _, True
      end res
  end.
Lemma recorded_only k tr m s s' : reachable m → Forall named tr → x_excused s = false →
  feed (exports k) s tr = Some s' → only k m (recorded tr m).
Proof.
  revert m s. induction tr as [|[R c res] tr IH]; intros m s Hm Hn Hx; cbn [feed]; [done|].
  apply Forall_cons in Hn as [Hn Hnt]. destruct (exports k s R c res) as [s1|] eqn:E; [|done]. intros Hf.
  assert (Hm1 : reachable (record_event m (Ev c res))) by exact (recorded_reachable [Ev c res] m Hm).
  assert (Hstep : x_excused s1 = false ∧ only k m (record_event m (Ev c res))).
  { clear IH Hf Hm1. destruct c; cbn in E, Hn |- *; try (injection E as <-; done).
    - injection E as <-. destruct res as [app|e]; [|done]. rewrite bool_decide_eq_true_2 by auto. done.
    - injection E as <-. destruct res as [app'|e]; [|done]. rewrite bool_decide_eq_true_2 by auto. done.
    - unfold allow in E. destruct (_ && _); [|done]. by injection E as <-.
    - unfold allow, mine in E. rewrite Hx in E. cbn [orb] in E. case_bool_decide as Ek; [|done]. cbn in E.
      destruct (x_written s); [done|]. injection E as <-. split; [done|]. rewrite <-Ek. apply RecordApp_only.
    - unfold allow, mine in E. rewrite Hx in E. cbn [orb] in E. case_bool_decide as Ek; [|done]. cbn in E.
      destruct (x_written s); [done|]. injection E as <-. split; [done|]. rewrite <-Ek.
      by destruct (terminal_rest app m) as (? & _ & _ & ?).
    - unfold allow, mine in E. rewrite Hx in E. cbn [orb] in E. case_bool_decide as Ek; [|done]. cbn in E.
      destruct (x_written s); [done|]. injection E as <-. split; [done|]. rewrite <-Ek.
      pose proof (ForgetApp_lookup namespace name m (reachable_wf m Hm)) as Hf. split_and!; intros.
      + destruct (Hf v w l) as (-> & _). by rewrite decide_False.
      + destruct (Hf v w l) as (_ & -> & _). by rewrite decide_False.
      + destruct (Hf metricPhase w []) as (_ & _ & ->). by rewrite decide_False. }
  destruct Hstep as [Hx1 Ho]. etrans; [exact Ho|]. by eapply IH.
Qed.

(** The gauges say what the status says: its phase (1 for it, 0 for the others), its
    Degraded condition as the only series of that metric, and its failure streak. *)
Definition says (g : gmap series f64) (app : App) : Prop :=
  (∀ p, p ∈ AllPhases → g !! (metricPhase, app_key app, [p]) =
     Some (if String.eqb (exported_phase app) p then f64_of_Z 1 else f64_of_Z 0)) ∧
  (∀ l x, g !! (metricDegraded, app_key app, l) = Some x ↔ l = [(degraded_reason app).1] ∧ x = (degraded_reason app).2) ∧
  g !! (metricConsecutiveScheduledFailures, app_key app, []) =
    Some (f64_of_Z (s_ConsecutiveScheduledFailures (app_Status app))).
Lemma RecordApp_says app d al th m : reachable m → says (rec_gauges (RecordApp app d al th m)) app.
Proof.
  intros Hm%reachable_wf. split_and!.
  - intros p Hp. by apply own_phase.
  - intros l x. rewrite own_degraded. case_decide as E1; [naive_solver|].
    case_decide as E2; [naive_solver|]. split; [|naive_solver]. intros Hl.
    apply mk_is_Some in Hl. by apply (state_degraded _ _ _ Hm) in Hl.
  - apply own_streak.
Qed.
Definition in_step (m : Recorder) (s : exporting) : Prop := ∀ app, x_last s = Some app → says (rec_gauges m) app.
Lemma recorded_in_step k tr m s s' : reachable m → in_step m s →
  feed (exports k) s tr = Some s' → in_step (recorded tr m) s'.
Proof.
  revert m s. induction tr as [|[R c res] tr IH]; intros m s Hm Hs; cbn [feed]; [by intros [= <-]|].
  destruct (exports k s R c res) as [s1|] eqn:E; [|done]. apply IH; [exact (recorded_reachable [Ev c res] m Hm)|].
  assert (Hsame : x_last s1 = x_last s → rec_gauges (record_event m (Ev c res)) = rec_gauges m →
    in_step (record_event m (Ev c res)) s1) by (unfold in_step; by intros -> ->).
  destruct c; cbn in E |- *; try (injection E as <-; by apply Hsame); unfold allow in E;
    try (injection E as <-; apply Hsame; [|done]; destruct res; [unfold expect; by case_bool_decide|done]);
    (destruct (_ && _); [|done]); injection E as <-.
  - by apply Hsame.
  - intros app' [= <-]. by apply RecordApp_says.
  - apply Hsame; [done|]. by destruct (terminal_rest app m) as (? & ? & _).
  - done.
Qed.
(** After the status write nothing more is recorded. *)
Lemma written_last k tr s s' : x_written s = true → feed (exports k) s tr = Some s' →
  x_last s' = x_last s ∧ omap status_update tr = [].
Proof.
  revert s. induction tr as [|[R c res] tr IH]; intros s Hw; cbn [feed]; [by intros [= <-]|].
  destruct (exports k s R c res) as [s1|] eqn:E; [|done]. intros Hf.
  assert (Hs1 : x_last s1 = x_last s ∧ x_written s1 = true ∧ status_update (Ev c res) = None).
  { destruct c; cbn in E |- *; try (by injection E as <-); unfold allow in E;
      try (injection E as <-; destruct res; [unfold expect; by case_bool_decide|done]);
      rewrite Hw, andb_false_r in E; done. }
  destruct Hs1 as (<- & Hw1 & Hn). cbn [omap list_omap].
  match goal with |- context [status_update ?e] => change (status_update e) with (status_update (Ev c res)) end.
  rewrite Hn. by apply IH.
Qed.
Lemma status_is_last k tr s s' app res : feed (exports k) s tr = Some s' →
  (app, res) ∈ omap status_update tr → x_last s' = Some app.
Proof.
  revert s. induction tr as [|[R c ans] tr IH]; intros s; cbn [feed]; [by intros _ ?%not_elem_of_nil|].
  destruct (exports k s R c ans) as [s1|] eqn:E; [|done]. intros Hf. cbn [omap list_omap].
  destruct (status_update (Ev c ans)) as [[app' res']|] eqn:Es; [|by eapply IH].
  destruct c; try done. cbn in Es. injection Es as -> ->. cbn in E. unfold allow in E.
  case_bool_decide as El; [|done]. destruct (x_written s); [done|]. injection E as <-.
  apply written_last in Hf as [Hl Hn]; [|done]. rewrite Hn. intros [[= -> ->]|?%not_elem_of_nil]%elem_of_cons; [|done].
  by rewrite Hl.
Qed.

(** C10: the metrics follow the status.  After any run of a reconcile pass the recorder is
    well-formed and, the API server having answered with the App that was asked for, only
    that App's series have moved; and whatever status the pass wrote, even if the write
    failed, the exported phase, the degraded reason and the failure streak are those of that
    status: no alert fires on a state that was not the one persisted, and none is missed
    between two passes. *)
Theorem metrics_follow_status ns n tr res m :
  run (Reconcile r ns n) tr res → reachable m →
  reachable (recorded tr m) ∧
  (Forall named tr → only (ns, n) m (recorded tr m)) ∧
  (∀ app res, (app, res) ∈ omap status_update tr → says (rec_gauges (recorded tr m)) app).
Proof.
  intros Hr Hm. destruct (wp_sound _ _ _ _ _ _ (exports_reconcile ns n) Hr) as (s & Hf & _).
  split; [by apply recorded_reachable|]. split.
  - intros Hn. by apply (recorded_only (ns, n) tr m not_yet s).
  - intros app ans Hin. eapply recorded_in_step; [done| |exact Hf|by eapply status_is_last]. done.
Qed.
End reconcile.
