(* ===== verification/Watches.v ===== *)
(** app_controller.go's SetupWithManager: which objects wake the reconciler, and for which
    App.

    A watch is a kind, a predicate and a map from the object to reconcile requests (a
    program: the Secret watch lists Apps).  The theorem composes it with the reconciler:
    what a pass writes for an App wakes that App again. *)
From Stdlib Require Import ZArith Ascii String.
From stdpp Require Import base gmap strings list numbers sorting.
From S2P Require Import Prelude GoStd GoNum Images Storage Decisions WatchSchedule BuildSpec AppTypes Kube Config BuildSteps Naming AppView GitCred BuildPod Children Free Prog JsonDecode Ensure GitSync Measure Cleanup Metrics Controller Footprint Serial Lifecycle.

Open Scope string_scope.
Open Scope list_scope.
Open Scope Z_scope.

(** ** The wiring *)
Notation request := (string * string)%type (only parsing).
Record watch := MkWatch {
  w_kind : string; w_predicate : ObjectMeta → bool; w_map : ObjectMeta → prog (list request); w_metadata_only : bool;
}.
(** controller-runtime's [For] asks for the object itself, [Owns] for the App that
    controls it. *)
Definition For_ (kind : string) : watch :=
  MkWatch kind (λ _, true) (λ m, mret [(om_Namespace m, om_Name m)]) false.
Definition owner_request (m : ObjectMeta) : list request :=
  match GetControllerOf m with
  | Some ref => if String.eqb (or_Kind ref) "App" then [(om_Namespace m, or_Name ref)] else []
  | None => []
  end.
Definition Owns (kind : string) : watch := MkWatch kind (λ _, true) (λ m, mret (owner_request m)) false.

(* Go: internal/controller/app_controller.go SetupWithManager @943-943 *)
Definition with_defaults (r : AppReconciler) : AppReconciler :=
  MkAppReconciler (Defaults (r_Config r)) (r_StorageClassName r) (r_TraefikNamespace r) (r_OperatorNamespace r).
(** The reconciler with the configuration's defaults, and its watches.  The clock the code
    defaults to [time.Now] is the call [Now] of a pass. *)
(* Go: internal/controller/app_controller.go SetupWithManager *)
Definition SetupWithManager (r : AppReconciler) : AppReconciler * list watch :=
  let r := with_defaults r in
  (r, For_ "App" ::
      map Owns ["Job"; "CronJob"; "PersistentVolumeClaim"; "ConfigMap"; "Service"; "ServiceAccount";
                "Deployment"; "Ingress"; "NetworkPolicy"; "Role"; "RoleBinding"] ++
      [MkWatch "Pod" isBuildPod (λ m, mret (mapBuildPodToApp "Pod" m)) false;
       MkWatch "Secret" (λ _, true) (λ m, mapSecretToApps r (om_Namespace m) (om_Name m)) true]).

(** The requests an event on an object leads to. *)
Fixpoint requests (ws : list watch) (k : string) (m : ObjectMeta) : prog (list request) :=
  match ws with
  | [] => mret []
  | w :: ws' =>
      l ← (if String.eqb (w_kind w) k && w_predicate w m then w_map w m else mret []);
      l' ← requests ws' k m;
      mret (l ++ l')
  end.

(** ** What belongs to an App *)
(** The App controls it, in its own namespace. *)
Definition belongs (who : request) (m : ObjectMeta) : Prop :=
  om_Namespace m = who.1 ∧ ∃ ref, GetControllerOf m = Some ref ∧ or_Kind ref = "App" ∧ or_Name ref = who.2.
Definition copy_name (who : request) : string := who.2 +:+ "-git-credential".
(** A write of an object of the App; a Secret is the App's credential copy, and the pods of
    a build Job carry the labels of a build of the App. *)
Definition own_write (who : request) (R : Type) (c : call R) : Prop :=
  match c with
  | ApplyObj o | CreateObj o => belongs who (o_Meta o) ∧
      match o_Spec o with Secret _ _ => om_Name (o_Meta o) = copy_name who | _ => True end
  | UpdateObj o => belongs who (o_Meta o)
  | CreateJob j => belongs who (j_Meta j) ∧
      (job_role j = "build" → isBuildPod (zero_meta <| om_Labels := js_TemplateLabels (j_Spec j) |>) = true ∧
         js_TemplateLabels (j_Spec j) !! instanceLabel = Some who.2)
  | _ => True
  end.
Lemma same_owner_refl a : same_owner a a = true.
Proof. unfold same_owner. by rewrite !String.eqb_refl. Qed.
Lemma find_upsert_owner a l : or_Controller a = true →
  match List.find or_Controller l with None => True | Some ref => same_owner ref a = true end →
  ∃ ref, List.find or_Controller (upsert_owner a l) = Some ref ∧ same_owner ref a = true.
Proof.
  intros Ha. induction l as [|x l IH]; cbn; [exists a; by rewrite Ha, same_owner_refl|].
  destruct (or_Controller x) eqn:Ex.
  - intros Hx. rewrite Hx. cbn. rewrite Ha. exists a. by rewrite same_owner_refl.
  - intros Hl. destruct (same_owner x a); cbn; [rewrite Ha; exists a; by rewrite same_owner_refl|].
    rewrite Ex. by apply IH.
Qed.
Lemma SetControllerReference_belongs app m m' : SetControllerReference app m = Ok m' → belongs (app_key app) m'.
Proof.
  intros E. pose proof E as E'. apply SetControllerReference_labels in E' as (_ & _ & Hn & _).
  unfold SetControllerReference in E. destruct (String.eqb_spec (om_Namespace m) (app_Namespace app)) as [En|]; [|done].
  cbn [negb] in E. split; [by rewrite Hn|].
  destruct (find_upsert_owner (app_owner app) (om_OwnerReferences m)) as (ref & Hf & Hs); [done| |].
  { fold (GetControllerOf m). destruct (GetControllerOf m) as [ref|]; [|done].
    by destruct (same_owner ref (app_owner app)). }
  unfold same_owner in Hs. apply andb_true_iff in Hs as [Hk Hname]. apply String.eqb_eq in Hk, Hname.
  exists ref. split; [|done].
  destruct (GetControllerOf m) as [ref'|]; [destruct (negb _); [done|]|]; injection E as <-; exact Hf.
Qed.
Lemma belongs_version who m v : belongs who m → belongs who (m <| om_ResourceVersion := v |>).
Proof. done. Qed.

(** ** Every write of a pass belongs to its App *)
Section writes.
Context `{GoRuntime} `{MapOrder} `{KubeLib} (r : AppReconciler) (who : request).
Notation writes := (calls (own_write who)).

Lemma upsert_writes app o : app_key app = who →
  match o_Spec o with Secret _ _ => om_Name (o_Meta o) = copy_name who | _ => True end → writes (upsert app o).
Proof.
  intros <- Hs. unfold upsert, lift. destruct (SetControllerReference _ _) as [m|] eqn:E; [|done].
  split; [|done]. pose proof E as E'. apply SetControllerReference_belongs in E.
  apply SetControllerReference_labels in E' as (_ & En & _). split; [exact E|]. cbn. destruct (o_Spec o); try done. by rewrite En.
Qed.
Lemma create_job_writes app j : app_key app = who →
  (job_role j = "build" → js_TemplateLabels (j_Spec j) = buildLabelsFor app) → writes (create_job app j).
Proof.
  intros <- Hl. apply calls_create_job. intros m E. split; [by apply SetControllerReference_belongs in E|].
  apply SetControllerReference_labels in E as [El _]. cbn. unfold job_role in *. cbn. rewrite El. intros Hr.
  rewrite (Hl Hr). unfold buildLabelsFor, labelsFor, isBuildPod. cbn. by simplify_map_eq.
Qed.
Lemma ensureExists_writes app o : app_key app = who →
  match o_Spec o with Secret _ _ => om_Name (o_Meta o) = copy_name who | _ => True end → writes (ensureExists app o).
Proof.
  intros <- Hs. unfold ensureExists, lift. apply calls_bind; [by apply calls_do|]. intros [existing|e].
  - destruct (controlled_by _ _); [done|]. destruct (SetControllerReference app (o_Meta existing)) as [m|] eqn:E; [|done].
    apply SetControllerReference_belongs in E. by split.
  - destruct (negb _); [done|]. destruct (SetControllerReference app (o_Meta o)) as [m|] eqn:E; [|done].
    pose proof E as E'. apply SetControllerReference_belongs in E. apply SetControllerReference_labels in E' as (_ & En & _).
    split; [|done]. split; [exact E|]. cbn. destruct (o_Spec o); try done. by rewrite En.
Qed.
Lemma deleteOwnedChild_writes app k n : writes (deleteOwnedChild app k n).
Proof. by apply calls_deleteOwnedChild. Qed.
Hint Resolve upsert_writes ensureExists_writes deleteOwnedChild_writes : baker.

Lemma ensureInfra_writes app d : app_key app = who → writes (ensureInfra r app d).
Proof.
  intros Hk. unfold ensureInfra, ensureTriggers.
  apply calls_try; [apply calls_for_each; intros; by apply ensureExists_writes|intros _].
  apply calls_try; [|intros _; by apply upsert_writes]. apply calls_try.
  { apply calls_for_each. intros o Ho. destruct (_ || _); [|apply deleteOwnedChild_writes].
    apply upsert_writes; [done|]. revert o Ho. by apply (proj1 (list.Forall_forall _ _)); repeat constructor. }
  intros _. apply calls_try; [destruct (scheduled_on app); [by apply upsert_writes|apply deleteOwnedChild_writes]|].
  intros _. destruct (watch_on app) as [wc|]; [|apply deleteOwnedChild_writes].
  unfold watchCronJob. destruct (WatchCron _); [|done]. by apply upsert_writes.
Qed.
Lemma reconcileGitCredential_writes app : app_key app = who → writes (reconcileGitCredential r app).
Proof.
  intros Hk. unfold reconcileGitCredential, deleteOwnedSyncedCopy, getSourceGitCredential, existingSyncedCopy,
    existingSyncedCopyHash. prog_walk. apply upsert_writes; [done|]. by rewrite <-Hk.
Qed.
Lemma ensureServing_writes app : app_key app = who → writes (ensureServing r app).
Proof.
  intros Hk. unfold ensureServing, validateIngress.
  do 2 (apply calls_try; [by apply upsert_writes|intros _]).
  apply calls_try; [by apply ensureExists_writes|intros _].
  apply calls_try; [destruct (as_Auth _); [by apply upsert_writes|done]|intros _].
  do 2 (apply calls_try; [by apply upsert_writes|intros _]). prog_walk.
Qed.
Lemma maybeStartMeasurement_writes app prev : app_key app = who → writes (maybeStartMeasurement r app prev).
Proof.
  intros Hk. unfold maybeStartMeasurement. prog_walk; [unfold buildActive; prog_walk|].
  apply calls_for_each. intros m Hm. apply calls_try; [|done]. apply create_job_writes; [done|].
  by rewrite job_role_measure.
Qed.
Lemma key_meta a b : app_Meta b = app_Meta a → app_key a = who → app_key b = who.
Proof. unfold app_key, app_Namespace, app_Name. by intros ->. Qed.
Lemma observe_success_writes app job : app_key app = who → writes (observe_success r app job).
Proof.
  intros Hk. unfold observe_success. apply calls_bind; [by apply calls_do|]. intros now. cbv zeta.
  eapply calls_then; [unfold applyCopierTermination; prog_walk|apply applyCopierTermination_stale|].
  intros a2 [E2 _]. apply calls_bind; [|intros; unfold set_condition; prog_walk].
  apply maybeStartMeasurement_writes. revert Hk. apply key_meta. unfold core in E2. by injection E2.
Qed.
Lemma observeBuild_writes app : app_key app = who → writes (observeBuild r app).
Proof.
  intros Hk. unfold observeBuild, observe_terminal, observe_failure, findBuildPod, set_condition. prog_walk.
  by apply observe_success_writes.
Qed.
Lemma startBuild_writes app token d : app_key app = who → writes (startBuild r app token d).
Proof. intros Hk. unfold startBuild. apply calls_try; [by apply create_job_writes|]. intros job. prog_walk. Qed.
Lemma reconcileCleanup_writes app b : app_key app = who → writes (reconcileCleanup r app b).
Proof.
  intros Hk. unfold reconcileCleanup. eapply calls_then.
  { unfold observeCleanup, readCleanupResult. apply calls_try; [by apply calls_do|]. intros jobs.
    apply calls_fold_prog. intros [a h] j _. prog_walk. }
  { apply observeCleanup_settled. }
  intros [[a1 h]|e] Hc; [|done]. cbn in Hc. apply settled_core in Hc. unfold core in Hc. injection Hc as Hm _.
  apply calls_try; [|by intros []].
  assert (Hloop : ∀ l st, app_key st.1 = who → writes (fold_prog l (cleanup_step r b h) st)).
  { induction l as [|act l IH]; intros st Hst; [done|]. cbn [fold_prog]. destruct st as [a2 started].
    eapply (calls_then _ _ _ (then_ (λ st : App * bool, app_key st.1 = who))).
    - unfold cleanup_step, cleanupActive. apply calls_try; [prog_walk|]. intros active.
      destruct (DecideCleanup _ _ _ _); [done| |done]. apply calls_try; [|done]. unfold startCleanup.
      apply calls_try; [|intros; prog_walk]. apply create_job_writes; [done|].
      by rewrite job_role_cleanup.
    - unfold cleanup_step. apply returns_try. eapply returns_mono, returns_any. intros [active|e] _; [|done].
      destruct (DecideCleanup _ _ _ _); [done| |done]. apply returns_try. unfold startCleanup.
      apply returns_try. eapply returns_mono, returns_any. intros [job|e] _; [|done]. by intros now.
    - intros [st'|e] Hst'; [|done]. by apply IH. }
  apply Hloop. cbn. revert Hk. by apply key_meta.
Qed.
Lemma reconcile_observe_writes app active : app_key app = who → writes (reconcile_observe r app active).
Proof.
  intros Hk. unfold reconcile_observe.
  eapply calls_then; [by apply observeBuild_writes|apply observeBuild_request|]. intros [a1|e] H1'; [|done].
  cbn in H1'. assert (Hk1 : app_key a1 = who) by (revert Hk; apply key_meta; unfold Lifecycle.request in H1'; by injection H1').
  eapply calls_then; [eapply calls_mono, observeMeasurement_measure; by intros R []|apply observeMeasurement_core|].
  intros [[a2 measured]|e] H2'; [|done]. cbn in H2'.
  eapply calls_then; [eapply calls_mono, recordPVCCapacities_measure; by intros R []|apply recordPVCCapacities_core|].
  intros a3 H3'.
  assert (Hk3 : app_key a3 = who).
  { revert Hk1. apply key_meta. rewrite H2' in H3'. unfold core in H3'. by injection H3'. }
  eapply calls_then; [by apply reconcileCleanup_writes|apply reconcileCleanup_core|].
  intros [[a4 cleaned]|e] H4'; [|done]. cbn in H4'. cbv zeta.
  apply calls_try; [|intros a6; unfold record_app; apply calls_bind; [by apply calls_do|]; intros now].
  - destruct (hasSucceededOnce _); [|done]. apply ensureServing_writes. revert Hk3. apply key_meta.
    unfold core in H4'. by injection H4'.
  - apply calls_bind; [by apply calls_do|]. intros []. apply calls_try; [by apply calls_do|]. intros [].
    apply calls_bind; [by apply deleteJobs_calls|]. done.
Qed.
Lemma reconcile_build_writes app d : app_key app = who → writes (reconcile_build r app d).
Proof.
  intros Hk. unfold reconcile_build. apply calls_try; [unfold buildActive; prog_walk|]. intros [active n].
  destruct (DecideBuild _ _ _); try by apply reconcile_observe_writes.
  eapply calls_then; [by apply startBuild_writes|apply startBuild_request|]. intros [a'|e] Ha; [|done].
  apply reconcile_observe_writes. revert Hk. apply key_meta. cbn in Ha. unfold Lifecycle.request in Ha. by injection Ha.
Qed.
Lemma check_writes p app reason k : writes p → writes k → writes (check r p app reason k).
Proof.
  intros Hp Hk. unfold check. apply calls_bind; [done|]. intros [[]|e]; [done|].
  eapply calls_mono, fail_calls. by intros R [].
Qed.
Lemma reconcile_validated_writes app : app_key app = who → writes (reconcile_validated r app).
Proof.
  intros Hk. unfold reconcile_validated. do 4 (apply check_writes; [done|]).
  apply calls_try; [by apply reconcileGitCredential_writes|]. intros d.
  apply check_writes; [unfold validateRepoAuthSecret; prog_walk|]. apply check_writes; [done|].
  apply check_writes; [unfold validateStorageClass; prog_walk|]. unfold reconcile_infra.
  apply calls_try; [by apply ensureInfra_writes|]. intros _. destruct (_ && _); [unfold seedRebuild; prog_walk|].
  by apply reconcile_build_writes.
Qed.
End writes.

(** ** What wakes an App *)
(** The kind and metadata of an object a call writes. *)
Definition touched (e : event) : option (string * ObjectMeta) :=
  match e with
  | Ev c _ =>
      match c with
      | ApplyObj o | CreateObj o | UpdateObj o => Some (kind (o_Spec o), o_Meta o)
      | CreateJob j => Some ("Job", j_Meta j)
      | _ => None
      end
  end.
Lemma created_touched e j x : created_job e = Some (j, x) → touched e = Some ("Job", j_Meta j).
Proof. destruct e as [R c y]. destruct c; try done. cbn. intros E. by injection E as -> _. Qed.
(** The metadata of a pod of a Job. *)
Definition pod_of (j : Job) (m : ObjectMeta) : Prop :=
  om_Namespace m = om_Namespace (j_Meta j) ∧ js_TemplateLabels (j_Spec j) ⊆ om_Labels m.

Section wakes.
Context `{GoRuntime} `{MapOrder} `{KubeLib} (r : AppReconciler).

Lemma Reconcile_writes ns n tr res : run (Reconcile r ns n) tr res →
  Forall (λ e, match e with Ev c _ =>
    ∃ app, app ∈ omap loaded_app tr ∧ own_write (app_key app) _ c end ∨ touched e = None) tr.
Proof.
  intros (t1 & t2 & -> & H1' & H2')%Reconcile_split. apply Forall_app. split.
  - eapply Forall_impl; [exact H1'|]. intros [R []] Hc; by (right + destruct Hc).
  - destruct H2' as [->|(app & Ha & _ & Hr)]; [constructor|]. eapply calls_run in Hr; [|by apply (reconcile_validated_writes r (app_key app))].
    eapply Forall_impl; [exact Hr|]. intros [R c x] Hc. left. exists app. split; [rewrite omap_app, elem_of_app; by left|done].
Qed.

Definition watches : list watch := (SetupWithManager r).2.
Definition owned_kinds : list string := ["Job"; "CronJob"; "PersistentVolumeClaim"; "ConfigMap"; "Service"; "ServiceAccount";
  "Deployment"; "Ingress"; "NetworkPolicy"; "Role"; "RoleBinding"].
Lemma requests_owned k m tr reqs : k ∈ owned_kinds → run (requests watches k m) tr reqs → reqs = owner_request m.
Proof.
  intros Hk Hr. assert (E : requests watches k m = mret (owner_request m)); [|rewrite E in Hr; by inversion Hr].
  clear Hr. revert k Hk. apply (proj1 (list.Forall_forall _ _)).
  repeat constructor; cbn; by rewrite !app_nil_r.
Qed.
Lemma requests_pod m tr reqs : isBuildPod m = true → run (requests watches "Pod" m) tr reqs →
  reqs = mapBuildPodToApp "Pod" m.
Proof.
  intros Hb Hr. cbn -[mapBuildPodToApp] in Hr. rewrite Hb in Hr. cbn -[mapBuildPodToApp] in Hr.
  inversion Hr; subst. by rewrite !app_nil_r.
Qed.
Lemma requests_skip w ws k m tr reqs : String.eqb (w_kind w) k = false →
  run (requests (w :: ws) k m) tr reqs → run (requests ws k m) tr reqs.
Proof.
  intros Hk Hr. cbn [requests] in Hr. rewrite Hk in Hr. cbn [andb] in Hr.
  apply run_bind in Hr as (t1 & l & t2 & -> & H1' & Hr). inversion H1'; subst.
  apply run_bind in Hr as (t3 & l' & t4 & -> & H2' & Hr). inversion Hr; subst. by rewrite app_nil_r.
Qed.
Lemma requests_skips l ws k m tr reqs : Forall (λ w, String.eqb (w_kind w) k = false) l →
  run (requests (l ++ ws) k m) tr reqs → run (requests ws k m) tr reqs.
Proof. induction 1 as [|w l Hw _ IH]; [done|]. intros Hr. by apply IH, (requests_skip w). Qed.
Lemma requests_last k f b m tr reqs : run (requests [MkWatch k (λ _, true) f b] k m) tr reqs → run (f m) tr reqs.
Proof.
  intros Hr. cbn [requests w_kind w_predicate w_map] in Hr. rewrite String.eqb_refl in Hr. cbn [andb] in Hr.
  apply run_bind in Hr as (t1 & l & t2 & -> & H1' & Hr). inversion Hr; subst. by rewrite !app_nil_r.
Qed.
Lemma watches_secret : ∃ l, watches = l ++ [MkWatch "Secret" (λ _, true) (λ m, mapSecretToApps (with_defaults r) (om_Namespace m) (om_Name m)) true] ∧
  Forall (λ w, String.eqb (w_kind w) "Secret" = false) l.
Proof.
  exists (For_ "App" :: map Owns owned_kinds ++ [MkWatch "Pod" isBuildPod (λ m, mret (mapBuildPodToApp "Pod" m)) false]).
  split; [reflexivity|]. by repeat constructor.
Qed.
Lemma requests_secret m tr reqs : run (requests watches "Secret" m) tr reqs →
  run (mapSecretToApps (with_defaults r) (om_Namespace m) (om_Name m)) tr reqs.
Proof.
  destruct watches_secret as (l & -> & Hl). intros Hr. apply requests_skips in Hr; [|done].
  apply requests_last in Hr. cbv beta in Hr. exact Hr.
Qed.
Lemma belongs_owner who m : belongs who m → owner_request m = [who].
Proof.
  intros (Hn & ref & Hf & Hk & Hm). unfold owner_request. rewrite Hf, Hk, Hn, Hm. by destruct who.
Qed.
(** The listing of the Secret watch knows the App. *)
Definition lists (who : request) (e : event) : Prop :=
  match e with
  | Ev c x => match c in call R return R → Prop with
              | ListApps _ => λ x, ∃ apps a, x = Ok apps ∧ a ∈ apps ∧ app_key a = who
              | _ => λ _, True
              end x
  end.
Lemma mapSecretToApps_lists r0 who ns tr reqs : run (mapSecretToApps r0 ns (copy_name who)) tr reqs →
  Forall (lists who) tr → who ∈ reqs.
Proof.
  intros Hr Hl. unfold mapSecretToApps in Hr.
  destruct (_ && _); apply run_bind in Hr as (t1 & x & t2 & -> & Hx & Hr); apply run_do in Hx as ->;
    inversion Hr; subst; apply Forall_cons in Hl as [(apps & a & -> & Ha & Hk) _];
    apply list_elem_of_In, in_map_iff; exists a; (split; [exact Hk|]).
  - by apply list_elem_of_In.
  - apply filter_In. split; [by apply list_elem_of_In|]. apply orb_true_iff. right. apply String.eqb_eq.
    rewrite <-Hk. reflexivity.
Qed.
Lemma copy_wakes who m tr reqs : om_Name m = copy_name who → run (requests watches "Secret" m) tr reqs →
  Forall (lists who) tr → who ∈ reqs.
Proof. intros Hn Hr. apply requests_secret in Hr. rewrite Hn in Hr. exact (mapSecretToApps_lists _ _ _ _ _ Hr). Qed.
(** A listing by namespace returns Apps of that namespace. *)
Definition scoped (e : event) : Prop :=
  match e with
  | Ev c x => match c in call R return R → Prop with
              | ListApps (Some ns) => λ x, match x with Ok apps => Forall (λ a, app_Namespace a = ns) apps | Err _ => True end
              | _ => λ _, True
              end x
  end.
Definition listed_apps (e : event) : option (list App) :=
  match e with
  | Ev c x => match c in call R return R → option (list App) with
              | ListApps _ => λ x, match x with Ok apps => Some apps | Err _ => None end
              | _ => λ _, None
              end x
  end.
(** The App names the Secret as its repoAuth; the Secret is the operator's own credential. *)
Definition references (a : App) (name : string) : Prop :=
  ∃ ra, as_RepoAuth (app_Spec a) = Some ra ∧ ras_Name (rac_SecretRef ra) = name.
Definition source_secret (r0 : AppReconciler) (ns name : string) : Prop :=
  let ga := cfg_GitAuth (r_Config r0) in
  Enabled ga = true ∧ ns = r_OperatorNamespace r0 ∧ name = ga_SecretName ga.
Lemma suffix_inj (s t u : string) : s +:+ u = t +:+ u → s = t.
Proof.
  revert t. induction s as [|c s IH]; intros [|d t] E; [done|exfalso..|].
  - apply (f_equal String.length) in E. rewrite !str_length_app in E. cbn in E. lia.
  - apply (f_equal String.length) in E. rewrite !str_length_app in E. cbn in E. lia.
  - injection E as -> E. by rewrite (IH t E).
Qed.
Lemma copy_name_inj a b : copy_name a = copy_name b → a.2 = b.2.
Proof. apply suffix_inj. Qed.
(** Who else is woken by the copy: only listed Apps that use the Secret by name. *)
Lemma mapSecretToApps_only r0 who ns tr reqs key : ns = who.1 → ¬ source_secret r0 ns (copy_name who) →
  run (mapSecretToApps r0 ns (copy_name who)) tr reqs → Forall scoped tr → key ∈ reqs →
  key = who ∨ ∃ apps a, apps ∈ omap listed_apps tr ∧ a ∈ apps ∧ app_key a = key ∧ references a (copy_name who).
Proof.
  intros Hns Hsrc Hr Hsc Hkey. unfold mapSecretToApps in Hr. destruct (_ && _) eqn:Eb.
  { destruct Hsrc. apply andb_true_iff in Eb as [[Ee Ens%String.eqb_eq]%andb_true_iff Enm%String.eqb_eq]. by split_and!. }
  apply run_bind in Hr as (t1 & x & t2 & -> & Hx & Hr). apply run_do in Hx as ->. apply run_mret in Hr as [-> <-].
  destruct x as [apps|e]; [|by apply not_elem_of_nil in Hkey].
  apply Forall_cons in Hsc as [Hsc _]. cbn in Hsc.
  apply list_elem_of_In, in_map_iff in Hkey as (a & <- & Ha). apply filter_In in Ha as [Ha Hu]. apply list_elem_of_In in Ha.
  apply orb_true_iff in Hu as [Hu|Hu%String.eqb_eq].
  - right. exists apps, a. split_and!; [by left|done|done|]. unfold references. destruct (as_RepoAuth _) as [ra|]; [|done].
    apply String.eqb_eq in Hu. by exists ra.
  - left. apply (copy_name_inj who (app_key a)) in Hu.
    apply (proj1 (list.Forall_forall _ _) Hsc) in Ha. destruct who as [w1 w2]. cbn in *. congruence.
Qed.
Lemma copy_wakes_only who m tr reqs key : belongs who m → om_Name m = copy_name who →
  ¬ source_secret (with_defaults r) (om_Namespace m) (om_Name m) →
  run (requests watches "Secret" m) tr reqs → Forall scoped tr → key ∈ reqs →
  key = who ∨ ∃ apps a, apps ∈ omap listed_apps tr ∧ a ∈ apps ∧ app_key a = key ∧ references a (om_Name m).
Proof.
  intros [Hns _] Hn Hsrc Hr. apply requests_secret in Hr. rewrite Hn in *. exact (mapSecretToApps_only _ _ _ _ _ _ Hns Hsrc Hr).
Qed.
Lemma build_pod_wakes who j m tr reqs : own_write who _ (CreateJob j) → job_role j = "build" → who.2 ≠ "" → pod_of j m →
  run (requests watches "Pod" m) tr reqs → reqs = [who].
Proof.
  intros [[Hn _] Hl] Hj Hne [Hpn Hpl] Hr. destruct (Hl Hj) as [Hb Hi].
  assert (Hbm : isBuildPod m = true).
  { unfold isBuildPod in Hb |- *. cbn in Hb. destruct (js_TemplateLabels (j_Spec j) !! roleLabel) as [v|] eqn:E; [|done].
    by rewrite (lookup_weaken _ _ _ _ E Hpl). }
  rewrite (requests_pod m tr reqs Hbm Hr). unfold mapBuildPodToApp. cbn. rewrite Hbm. cbn.
  rewrite (lookup_weaken _ _ _ _ Hi Hpl). cbn. rewrite (proj2 (String.eqb_neq _ _) Hne), Hpn, Hn. by destruct who.
Qed.

(** A change of the auth Middleware wakes nobody: it is the one child without a watch, so
    a drift of it lasts until the next periodic pass. *)
Lemma middleware_unwatched m tr reqs : run (requests watches "Middleware" m) tr reqs → reqs = [].
Proof. intros Hr. cbn in Hr. by inversion Hr. Qed.

End wakes.
