(* ===== verification/Validation.v ===== *)
(** What passes the reconcile-time validations: the Job of a build is created only
    for an App that passed all seven of them, and an App that one of them rejects gets a
    Degraded status and nothing else, but for the sync of its credential copy, which
    comes before the last three. *)
From Stdlib Require Import ZArith Ascii String.
From stdpp Require Import base gmap strings list numbers sorting.
From S2P Require Import Prelude GoStd GoNum Images Storage Decisions BuildSpec AppTypes Kube Config BuildSteps Naming AppView GitCred BuildPod Children Free Prog JsonDecode Ensure GitSync Measure Cleanup Controller Footprint Lifecycle.

Open Scope string_scope.
Open Scope list_scope.
Open Scope Z_scope.

Section validation.
Context `{GoRuntime} `{MapOrder} `{KubeLib} (r : AppReconciler).

(** The validations that need no answer of the cluster. *)
Definition admissible (app : App) : Prop :=
  Validate (r_Config r) = Ok tt ∧
  CheckImagesAllowed (cfg_RegistryAllowlist (r_Config r)) (phaseImages app) = Val (Ok tt) ∧
  validateNodeVersion r app = Ok tt ∧ validateWatchCommits app = Ok tt ∧
  ValidateStorage (storageConfigFrom app) = Ok tt.

(** The Job is this App's build for the token it requests and has not processed. *)
Definition built_from (app : App) (j : Job) : Prop :=
  let token := annotation app RebuildAnnotation in
  token ≠ s_LastProcessedRebuild (app_Status app) ∧
  ∃ d m, SetControllerReference app (j_Meta (BuildJob r app token d)) = Ok m ∧
    j = (BuildJob r app token d) <| j_Meta := m |>.

Definition build_call (app : App) R (c : call R) : Prop :=
  match c with
  | CreateJob j => job_role j = "build" → admissible app ∧ built_from app j
  | _ => True
  end.

Lemma build_call_side app b {A} (p : prog A) : calls (side_call b) p → calls (build_call app) p.
Proof. apply calls_mono. by intros R []. Qed.
Lemma build_call_observe app {A} (p : prog A) : calls observe_call p → calls (build_call app) p.
Proof. apply calls_mono. intros R [] Hc; try done. cbn in *. rewrite Hc. done. Qed.
Lemma build_call_measure app {A} (p : prog A) : calls measure_call p → calls (build_call app) p.
Proof. apply calls_mono. by intros R []. Qed.
Lemma build_call_cleanup app {A} (p : prog A) : calls cleanup_call p → calls (build_call app) p.
Proof. apply calls_mono. intros R [] Hc; try done. cbn in *. rewrite Hc. done. Qed.
Lemma build_call_fail app reason app' msg : calls (build_call app) (fail r app' reason msg).
Proof. eapply calls_mono, fail_calls. by intros R []. Qed.

Lemma build_call_reconcile_observe app app' active :
  calls (build_call app) (reconcile_observe r app' active).
Proof.
  unfold reconcile_observe, record_app.
  apply calls_try; [apply build_call_observe, observeBuild_observe|intros app1].
  apply calls_try; [apply build_call_measure, observeMeasurement_measure|intros [app2 measured]].
  apply calls_bind; [apply build_call_measure, recordPVCCapacities_measure|intros app3].
  apply calls_try; [apply build_call_cleanup, reconcileCleanup_cleanup|intros [app4 cleaned]].
  apply calls_try.
  { destruct (hasSucceededOnce _); [eapply build_call_side, ensureServing_side|apply calls_ret]. }
  intros app5. prog_walk. by apply deleteJobs_calls.
Qed.

Lemma build_call_reconcile_build app d :
  admissible app → calls (build_call app) (reconcile_build r app d).
Proof.
  intros Ha. unfold reconcile_build.
  apply calls_try; [apply build_call_observe, buildActive_observe|intros [active n]].
  destruct (DecideBuild _ _ _) eqn:ED; try apply build_call_reconcile_observe.
  apply calls_try; [|intros; apply build_call_reconcile_observe].
  eapply calls_mono, startBuild_calls. intros R [] Hc; try done. cbn in *. intros _.
  apply DecideBuild_start in ED as [ED _]. destruct Hc as (m & Hm & Hj). split; [done|].
  split; [done|]. by exists d, m.
Qed.

(** ** How a pass is validated *)
(** The first validation that fails before the credential is synced, with its reason
    and error. *)
Definition rejection (app : App) : option (string * error) :=
  match Validate (r_Config r) with Err e => Some (ReasonConfigError, e) | Ok _ =>
  match CheckImagesAllowed (cfg_RegistryAllowlist (r_Config r)) (phaseImages app) with
  | Val (Err e) => Some (ReasonImageNotAllowed, e) | _ =>
  match validateNodeVersion r app with Err e => Some (ReasonUnknownNodeVersion, e) | Ok _ =>
  match validateWatchCommits app with Err e => Some (ReasonInvalidSpec, e) | Ok _ => None
  end end end end.

(** The check that rejected the App, after the calls made up to its verdict: one of the
    four above, or, once the credential sync went through, the repoAuth Secret, the
    storage thresholds or the storage class. *)
Inductive judged (app : App) : trace → string → error → Prop :=
| judged_early reason e : rejection app = Some (reason, e) → judged app [] reason e
| judged_repoAuth ts d tv e : rejection app = None →
    run (reconcileGitCredential r app) ts (Ok d) → run (validateRepoAuthSecret app) tv (Err e) →
    judged app (ts ++ tv) ReasonInvalidRepoAuth e
| judged_storage ts d tv e : rejection app = None →
    run (reconcileGitCredential r app) ts (Ok d) → run (validateRepoAuthSecret app) tv (Ok tt) →
    ValidateStorage (storageConfigFrom app) = Err e →
    judged app (ts ++ tv) ReasonInvalidStorage e
| judged_class ts d tv tc e : rejection app = None →
    run (reconcileGitCredential r app) ts (Ok d) → run (validateRepoAuthSecret app) tv (Ok tt) →
    ValidateStorage (storageConfigFrom app) = Ok tt → run (validateStorageClass r) tc (Err e) →
    judged app (ts ++ tv ++ tc) ReasonInvalidStorageClass e.

(** The calls up to there: reads, the outage notice, and the App's own copy of the git
    credential, the only object they write or delete. *)
Definition check_call (app : App) R (c : call R) : Prop :=
  match c with
  | ReadSecret _ _ | GetSecretMeta _ _ | GetStorageClass _ | CompareAndSwapMissing _ _ | Eventf _ _ _ _ => True
  | ApplyObj o => kind (o_Spec o) = "Secret" ∧ om_Namespace (o_Meta o) = app_Namespace app ∧
      om_Name (o_Meta o) = gitCredentialSecretName app
  | DeleteObj k ns n => k = "Secret" ∧ ns = app_Namespace app ∧ n = gitCredentialSecretName app
  | _ => False
  end.
Notation checking app tr := (Forall (λ ev, match ev with Ev c _ => check_call app _ c end) tr).

(** The answers the two validations that ask the cluster passed on: the repoAuth Secret
    was read and holds both keys, the storage class was read and binds late. *)
Definition cleared (app : App) (tr : trace) : Prop :=
  (∀ ra, as_RepoAuth (app_Spec app) = Some ra → ∃ data,
     (app_Namespace app, ras_Name (rac_SecretRef ra), Ok data) ∈ omap read_secret tr ∧
     checkGitCredentialData data = Ok tt) ∧
  (r_StorageClassName r, Ok (Some "WaitForFirstConsumer")) ∈ omap got_class tr.

Lemma copy_checking app data : calls (check_call app) (upsert app (syncedGitCredential app data)).
Proof.
  unfold upsert, lift. destruct (SetControllerReference _ _) as [m|] eqn:E; [|done].
  apply SetControllerReference_labels in E as (_ & En & Ens & _). by split.
Qed.
Lemma sync_checking app : calls (check_call app) (reconcileGitCredential r app).
Proof.
  unfold reconcileGitCredential, deleteOwnedSyncedCopy, getSourceGitCredential, existingSyncedCopy,
    existingSyncedCopyHash. prog_walk. apply copy_checking.
Qed.
Lemma repoAuth_checking app : calls (check_call app) (validateRepoAuthSecret app).
Proof. unfold validateRepoAuthSecret. prog_walk. Qed.
Lemma class_checking app : calls (check_call app) (validateStorageClass r).
Proof. unfold validateStorageClass. prog_walk. Qed.

Lemma repoAuth_cleared app tr ra : run (validateRepoAuthSecret app) tr (Ok tt) →
  as_RepoAuth (app_Spec app) = Some ra → ∃ data,
    (app_Namespace app, ras_Name (rac_SecretRef ra), Ok data) ∈ omap read_secret tr ∧
    checkGitCredentialData data = Ok tt.
Proof.
  intros Hr E. unfold validateRepoAuthSecret in Hr. rewrite E in Hr.
  apply run_bind in Hr as (t1 & [data|e] & t2 & -> & Hx & Hr); apply run_do in Hx as ->; inversion Hr as [? E'|]; subst.
  - exists data. split; [by left|]. by destruct (checkGitCredentialData data) as [[]|].
  - by destruct (is_not_found e).
Qed.
Lemma class_cleared tr : run (validateStorageClass r) tr (Ok tt) →
  (r_StorageClassName r, Ok (Some "WaitForFirstConsumer")) ∈ omap got_class tr.
Proof.
  intros Hr. unfold validateStorageClass in Hr. destruct (String.eqb _ ""); [inversion Hr|].
  apply run_bind in Hr as (t1 & [mode|e] & t2 & -> & Hx & Hr); apply run_do in Hx as ->; inversion Hr; subst.
  case_bool_decide; [subst; by left|done].
Qed.

Lemma rejected_run app reason e tr res :
  rejection app = Some (reason, e) → run (reconcile_validated r app) tr res →
  run (fail r app reason (err_text e)) tr res.
Proof.
  unfold rejection, reconcile_validated, check, lift.
  destruct (CheckImagesAllowed_val (cfg_RegistryAllowlist (r_Config r)) (phaseImages app)) as [x ->].
  destruct (Validate _) as [[]|?]; [|by intros [= <- <-]].
  destruct x as [[]|?]; [|by intros [= <- <-]].
  destruct (validateNodeVersion _ _) as [[]|?]; [|by intros [= <- <-]].
  destruct (validateWatchCommits _) as [[]|?]; [done|by intros [= <- <-]].
Qed.
Lemma admitted_run app : rejection app = None →
  (ValidateStorage (storageConfigFrom app) = Ok tt → admissible app) ∧
  reconcile_validated r app =
    try (reconcileGitCredential r app) (λ gitCred,
      check r (validateRepoAuthSecret app) app ReasonInvalidRepoAuth (
      check r (lift (ValidateStorage (storageConfigFrom app))) app ReasonInvalidStorage (
      check r (validateStorageClass r) app ReasonInvalidStorageClass (reconcile_infra r app gitCred)))).
Proof.
  unfold rejection, admissible. intros Hrej.
  destruct (CheckImagesAllowed_val (cfg_RegistryAllowlist (r_Config r)) (phaseImages app)) as [x Ex].
  unfold reconcile_validated. rewrite Ex in *.
  destruct (Validate _) as [[]|?]; [|done]. destruct x as [[]|?]; [|done].
  destruct (validateNodeVersion _ _) as [[]|?]; [|done]. destruct (validateWatchCommits _) as [[]|?]; [|done].
  done.
Qed.

(** Every run of the validated part: a rejection, the failure of the credential sync, or
    the infrastructure of an App that passed all seven validations. *)
Lemma validated_cases app tr res : run (reconcile_validated r app) tr res →
  ∃ t1 t2, tr = t1 ++ t2 ∧ checking app t1 ∧
  ((∃ reason e, judged app t1 reason e ∧ run (fail r app reason (err_text e)) t2 res) ∨
   (∃ e, rejection app = None ∧ run (reconcileGitCredential r app) t1 (Err e) ∧ t2 = [] ∧ res = Err e) ∨
   (∃ d, admissible app ∧ cleared app t1 ∧ run (reconcile_infra r app d) t2 res)).
Proof.
  intros Hr. destruct (rejection app) as [[reason e]|] eqn:Erej.
  { exists [], tr. split; [done|]. split; [done|]. left. exists reason, e. split; [by constructor|].
    by apply (rejected_run app). }
  destruct (admitted_run app Erej) as [Hadm Erun]. rewrite Erun in Hr. clear Erun.
  apply run_bind in Hr as (ts & [d|e] & t & -> & Hs & Hr); pose proof (calls_run _ _ _ _ (sync_checking app) Hs) as Cs.
  2: { inversion Hr; subst. exists ts, []. split; [done|]. split; [done|]. right. left. by exists e. }
  apply run_bind in Hr as (tv & [[]|e] & t' & -> & Hv & Hr);
    pose proof (calls_run _ _ _ _ (repoAuth_checking app) Hv) as Cv.
  2: { exists (ts ++ tv), t'. rewrite <- app_assoc. split; [done|]. split; [by apply Forall_app|]. left.
       exists ReasonInvalidRepoAuth, e. split; [by eapply judged_repoAuth|done]. }
  apply run_bind in Hr as (t0 & [[]|e] & t2 & -> & Hl & Hr); apply run_mret in Hl as [-> El].
  2: { exists (ts ++ tv), t2. rewrite <- app_assoc. split; [done|]. split; [by apply Forall_app|]. left.
       exists ReasonInvalidStorage, e. split; [by eapply judged_storage|done]. }
  apply run_bind in Hr as (tc & [[]|e] & t3 & -> & Hc & Hr);
    pose proof (calls_run _ _ _ _ (class_checking app) Hc) as Cc; exists (ts ++ tv ++ tc), t3;
    (split; [by rewrite <- !app_assoc|]); (split; [by rewrite !Forall_app|]).
  - right. right. exists d. split; [by apply Hadm|]. split; [|done]. split.
    + intros ra Hra. destruct (repoAuth_cleared _ _ _ Hv Hra) as (data & Hin & Hd). exists data. split; [|done].
      rewrite !omap_app, !elem_of_app. naive_solver.
    + rewrite !omap_app, !elem_of_app. pose proof (class_cleared _ Hc). naive_solver.
  - left. exists ReasonInvalidStorageClass, e. split; [by eapply judged_class|done].
Qed.

(** ** Builds *)
Lemma created_in_calls (P : ∀ R, call R → Prop) {A} (p : prog A) tr x j a :
  calls P p → run p tr x → Ev (CreateJob j) a ∈ tr → P _ (CreateJob j).
Proof.
  intros Hp Hr Hj. pose proof (proj1 (list.Forall_forall _ _) (calls_run _ _ _ _ Hp Hr)) as Hall. exact (Hall _ Hj).
Qed.
Lemma build_call_reconcile_infra app d : admissible app → calls (build_call app) (reconcile_infra r app d).
Proof.
  intros Ha. unfold reconcile_infra. apply calls_try; [eapply build_call_side, ensureInfra_side|intros _].
  destruct (_ && _); [unfold seedRebuild; prog_walk|].
  eapply calls_mono; [|by apply (build_call_reconcile_build (on_status _ app))].
  intros R []; done.
Qed.
(** An event that occurs after a prefix of other events. *)
Lemma event_after (t1 t2 u1 u2 : trace) e : t1 ++ t2 = u1 ++ e :: u2 → e ∉ t1 → ∃ k, u1 = t1 ++ k ∧ e ∈ t2.
Proof.
  intros E He. apply app_eq_inv in E as [(k & -> & E)|(k & -> & ->)].
  - destruct k as [|x k]; cbn in E; [exists []; rewrite !app_nil_r; split; [done|]; rewrite <- E; by left|].
    injection E as -> _. exfalso. apply He. rewrite elem_of_app. right. by left.
  - exists k. split; [done|]. rewrite elem_of_app. right. by left.
Qed.

(** C2: no unvalidated build runs: in every run of a reconcile pass, wherever a build
    Job is created, it is the [BuildJob] of the App as loaded earlier in that pass, for the
    rebuild token that App requests and has not yet processed, owned by it, and that App
    passed all seven validations before: the operator configuration, the registry
    allowlist for each of its images, its node version, its watch settings and its
    storage thresholds; its repoAuth Secret, if it names one, was read and holds both
    keys; and the operator's storage class was read and binds on first consumer. *)
Theorem builds_are_validated ns n tr1 j a tr2 res :
  run (Reconcile r ns n) (tr1 ++ Ev (CreateJob j) a :: tr2) res → job_role j = "build" →
  ∃ app, app ∈ omap loaded_app tr1 ∧ admissible app ∧ cleared app tr1 ∧ built_from app j.
Proof.
  intros Hr Hb. apply Reconcile_split in Hr as (t1 & t2 & E & He & Hv). symmetry in E.
  destruct (event_after _ _ _ _ _ E) as (k & -> & Hin).
  { intros Hin. apply (proj1 (list.Forall_forall _ _) He) in Hin. done. }
  destruct Hv as [->|(app & Happ & _ & Hr)]; [by apply not_elem_of_nil in Hin|].
  apply validated_cases in Hr as (u1 & u2 & -> & Hc & Hu).
  rewrite app_assoc in E. destruct (event_after _ _ _ _ _ E) as (k' & Ek & Hin').
  { rewrite elem_of_app. intros [Hx|Hx]; [by apply (proj1 (list.Forall_forall _ _) He) in Hx|].
    by apply (proj1 (list.Forall_forall _ _) Hc) in Hx. }
  destruct Hu as [(reason & e & _ & Hf)|[(e & _ & _ & -> & _)|(d & Ha & Hcl & Hr)]].
  - by apply (created_in_calls fail_call _ _ _ _ _ (fail_calls _ _ _ _) Hf) in Hin'.
  - by apply not_elem_of_nil in Hin'.
  - apply (created_in_calls _ _ _ _ _ _ (build_call_reconcile_infra _ d Ha) Hr Hin') in Hb as [_ Hb].
    exists app. split_and!; [|exact Ha| |exact Hb].
    + rewrite omap_app, elem_of_app. by left.
    + rewrite Ek. destruct Hcl as [H1' H2']. split.
      * intros ra Hra. destruct (H1' ra Hra) as (data & Hd & Hok). exists data. split; [|done].
        rewrite !omap_app, !elem_of_app. naive_solver.
      * rewrite !omap_app, !elem_of_app. naive_solver.
Qed.

(** ** Rejections *)
Lemma run_set_condition {A} app t st re msg (k : App → prog A) tr x :
  run (app ← set_condition app t st re msg; k app) tr x →
  ∃ now tr', tr = Ev Now now :: tr' ∧ run (k (setCondition now app t st re msg)) tr' x.
Proof. intros Hr. apply run_call_inv in Hr as (now & tr' & -> & Hr). by exists now, tr'. Qed.
Lemma findCondition_set_same now app t st re msg : ∃ c,
  findCondition (setCondition now app t st re msg) t = Some c ∧
  c_Status c = st ∧ c_Reason c = re ∧ c_Message c = msg.
Proof.
  apply (find_put_same (MkCondition t st re msg now (om_Generation (app_Meta app)))).
Qed.

Lemma fail_reported app reason msg tr res :
  isPlatformFault reason "" = String.eqb reason ReasonConfigError → run (fail r app reason msg) tr res →
  Forall (λ ev, match ev with Ev c _ => fail_call _ c end) tr ∧
  (omap reported tr = if String.eqb reason ReasonConfigError then [(reason, msg)] else []) ∧
  ∃ app' a, omap status_update tr = [(app', a)] ∧ is_ok res = is_ok a ∧
    s_Phase (app_Status app') = PhaseDegraded ∧
    (∃ c, findCondition app' ConditionDegraded = Some c ∧
       c_Status c = "True" ∧ c_Reason c = reason ∧ c_Message c = msg) ∧
    condition_true app' ConditionReady = false.
Proof.
  intros Hp Hf. split; [eapply calls_run, Hf; apply fail_calls|].
  unfold fail in Hf. apply run_set_condition in Hf as (t1 & tr1 & -> & Hf).
  apply run_set_condition in Hf as (t2 & tr2 & -> & Hf). cbv zeta in Hf. rewrite Hp in Hf.
  set (app' := on_status _ _) in Hf.
  apply run_bind in Hf as (tr3 & [] & tr4 & -> & Hx & Hf). apply run_do in Hx as ->.
  apply run_bind in Hf as (tr5 & [] & tr6 & -> & Hs & Hf).
  apply run_bind in Hf as (tr7 & a & tr8 & -> & Hx & Hf). apply run_do in Hx as ->.
  assert (E5 : omap reported tr5 = (if String.eqb reason ReasonConfigError then [(reason, msg)] else [])
    ∧ omap status_update tr5 = []).
  { destruct (String.eqb reason ReasonConfigError); [by apply run_do in Hs as ->|by inversion Hs]. }
  destruct E5 as [E5 E5'].
  assert (E8 : tr8 = [] ∧ is_ok res = is_ok a) by (destruct a as [[]|]; by inversion Hf; subst).
  destruct E8 as [-> E8]. split; [cbn; by rewrite omap_app, E5, app_nil_r|].
  exists app', a. split; [cbn; by rewrite omap_app, E5'|]. split; [done|]. split; [done|].
  split; [apply findCondition_set_same|].
  change (condition_true (setCondition t2 (setCondition t1 app ConditionReady "False" reason msg)
    ConditionDegraded "True" reason msg) ConditionReady = false).
  by rewrite condition_set_other, condition_set_same.
Qed.
Lemma judged_fault app t1 reason e : judged app t1 reason e →
  isPlatformFault reason "" = String.eqb reason ReasonConfigError.
Proof.
  intros [? ? Hrej|? ? ? ? Hrej|? ? ? ? Hrej|? ? ? ? ? Hrej]; [|done..].
  unfold rejection in Hrej. repeat case_match; simplify_eq; done.
Qed.

(** C22: a rejected App is reported and nothing is done for it, whichever of the seven
    validations rejects it.  Every run of the validated part first makes calls that only
    read, or write or delete the App's own copy of the git credential.  Then, if a
    validation failed, it only reads the clock, exports the metrics, reports a platform
    fault (exactly for a bad operator configuration) and writes one status, whose phase is
    Degraded and whose Degraded and Ready conditions carry the reason and the error text of
    that check: no Job and no other child is touched.  Otherwise the credential sync failed
    and its error is returned, or all seven validations passed and the pass goes on. *)
Theorem rejection_reported app tr res : run (reconcile_validated r app) tr res →
  ∃ t1 t2, tr = t1 ++ t2 ∧ checking app t1 ∧
  ((∃ reason e, judged app t1 reason e ∧
     Forall (λ ev, match ev with Ev c _ => fail_call _ c end) t2 ∧
     (omap reported t2 = if String.eqb reason ReasonConfigError then [(reason, err_text e)] else []) ∧
     ∃ app' a, omap status_update t2 = [(app', a)] ∧ is_ok res = is_ok a ∧
       s_Phase (app_Status app') = PhaseDegraded ∧
       (∃ c, findCondition app' ConditionDegraded = Some c ∧
          c_Status c = "True" ∧ c_Reason c = reason ∧ c_Message c = err_text e) ∧
       condition_true app' ConditionReady = false) ∨
   (∃ e, rejection app = None ∧ run (reconcileGitCredential r app) t1 (Err e) ∧ t2 = [] ∧ res = Err e) ∨
   (∃ d, admissible app ∧ cleared app t1 ∧ run (reconcile_infra r app d) t2 res)).
Proof.
  intros Hr. apply validated_cases in Hr as (t1 & t2 & -> & Hc & Hcases). exists t1, t2. split; [done|]. split; [done|].
  destruct Hcases as [(reason & e & Hj & Hf)|Hcases]; [left|by right].
  exists reason, e. split; [done|]. by apply (fail_reported _ _ _ _ _ (judged_fault _ _ _ _ Hj)) in Hf.
Qed.
End validation.
