(* ===== verification/Progress.v ===== *)
(** Progress of a reconcile pass on a cluster that answers: a pass over an admissible
    App completes, and starts the build the App asks for. *)
From Stdlib Require Import ZArith Ascii String.
From stdpp Require Import base gmap strings list numbers sorting.
From S2P Require Import Prelude GoStd GoNum Images Storage Decisions WatchSchedule BuildSpec AppTypes Kube Config BuildSteps Naming AppView GitCred BuildPod Children Free Prog JsonDecode Ensure GitSync Measure Cleanup Controller Footprint Serial Lifecycle Validation.

Open Scope string_scope.
Open Scope list_scope.
Open Scope Z_scope.

(** What identifies an App, and an App after a write of the API server. *)
Definition id_of (app : App) : string * string * string := (app_Namespace app, app_Name app, app_UID app).
Definition renewed (a a' : App) : Prop :=
  app_Spec a' = app_Spec a ∧ app_Status a' = app_Status a ∧ id_of a' = id_of a ∧
  om_Annotations (app_Meta a') = om_Annotations (app_Meta a).

(** The answers of a cluster that works: the App is there; reads and writes succeed, and
    what comes back of a created Job has its name, with whatever the API server adds (a
    UID, a resource version, defaults); an object of a child's name is the App's or free
    to adopt; the credential Secrets are complete and the storage class binds late.
    Pods, kubelets, clocks and everything whose failure the operator tolerates answer as
    they like. *)
Definition healthy `{GoRuntime} (app : App) (R : Type) (c : call R) : R → Prop :=
  match c in call R return R → Prop with
  | GetApp _ _ => λ r, r = Ok app
  | UpdateApp a => λ r, ∃ a', r = Ok a' ∧ renewed a a'
  | PatchApp _ _ | UpdateStatus _ | CreateObj _ | UpdateObj _ | ApplyObj _ => λ r, r = Ok tt
  | ListJobs _ _ => λ r, is_ok r = true
  | GetJob _ _ => λ r, match r with Ok _ => True | Err e => is_not_found e = true end
  | CreateJob j => λ r, ∃ j', r = Ok j' ∧ om_Name (j_Meta j') = om_Name (j_Meta j)
  | GetObj _ _ _ => λ r, match r with
      | Ok o => controlled_by app (o_Meta o) || is_ok (SetControllerReference app (o_Meta o)) = true
      | Err e => is_not_found e = true end
  | DeleteObj _ _ _ => λ r, match r with Ok _ => True | Err e => is_not_found e = true end
  | GetSecretMeta _ _ => λ r, match r with Ok _ => True | Err e => is_not_found e = true end
  | ReadSecret _ _ => λ r, ∃ data, r = Ok data ∧ checkGitCredentialData data = Ok tt
  | GetStorageClass _ => λ r, r = Ok (Some "WaitForFirstConsumer")
  | _ => λ _, True
  end.

(** Success with a value; success or the recovered panic. *)
Definition good {A} (P : A → Prop) (r : result A) : Prop := match r with Ok x => P x | Err _ => False end.
Definition fine {A} (P : A → Prop) (r : result A) : Prop := match r with Ok x => P x | Err e => e = panic_error end.
Notation any := (λ _, True).

Section good.
Context {call : Type → Type} (ok : ∀ R, call R → R → Prop).
Lemma good_try {A B} (p : free call (result A)) (k : A → free call (result B)) P Q :
  returns_given ok p (good P) → (∀ x, P x → returns_given ok (k x) Q) → returns_given ok (try p k) Q.
Proof. intros Hp Hk. apply given_try. eapply given_mono, Hp. intros [x|e]; [apply Hk|done]. Qed.
Lemma fine_try {A B} (p : free call (result A)) (k : A → free call (result B)) P Q :
  returns_given ok p (fine P) → (∀ x, P x → returns_given ok (k x) (fine Q)) → returns_given ok (try p k) (fine Q).
Proof. intros Hp Hk. apply given_try. eapply given_mono, Hp. intros [x|e]; [apply Hk|done]. Qed.
Lemma good_for_each {A} (l : list A) f :
  (∀ x, x ∈ l → returns_given ok (f x) (good any)) → returns_given ok (for_each l f) (good any).
Proof. intros Hf. apply given_for_each; [done|]. intros x Hx. eapply given_mono, Hf, Hx. by intros []. Qed.
Lemma run_try_good {A B} (p : free call (result A)) (k : A → free call (result B)) P tr b :
  returns_given ok p (good P) → run (try p k) tr b → Forall (λ e, match e with Ev c r => ok _ c r end) tr →
  ∃ tr1 x tr2, tr = tr1 ++ tr2 ∧ run p tr1 (Ok x) ∧ P x ∧ run (k x) tr2 b ∧
    Forall (λ e, match e with Ev c r => ok _ c r end) tr2.
Proof.
  intros Hg Hr Hall. apply run_bind in Hr as (tr1 & [x|e] & tr2 & -> & Hp & Hk);
    apply Forall_app in Hall as [H1 H2]; pose proof (given_run _ _ _ _ _ Hg Hp H1) as Hx; [|done].
  by exists tr1, x, tr2.
Qed.
End good.

Section progress.
Context `{GoRuntime} `{MapOrder} `{KubeLib} (r : AppReconciler) (app : App).
Notation given := (returns_given (healthy app)).
Notation healthy_trace := (Forall (λ e, match e with Ev c a => healthy app _ c a end)).

(** ** Children *)
Lemma SetControllerReference_free a m : om_Namespace m = app_Namespace a → om_OwnerReferences m = [] →
  ∃ m', SetControllerReference a m = Ok m'.
Proof. intros Hn Ho. unfold SetControllerReference, GetControllerOf. rewrite Hn, String.eqb_refl, Ho. eauto. Qed.
Lemma controlled_by_id a m : id_of a = id_of app → controlled_by a m = controlled_by app m.
Proof. unfold controlled_by. intros [= _ _ ->]. done. Qed.
Lemma SetControllerReference_id a m : id_of a = id_of app →
  is_ok (SetControllerReference a m) = is_ok (SetControllerReference app m).
Proof.
  intros [= Hn Hm Hu]. unfold SetControllerReference, app_owner. rewrite Hn, Hm, Hu.
  destruct (negb _); [done|]. destruct (GetControllerOf m); [by destruct (negb _)|done].
Qed.

(** A child as the operator builds it. *)
Definition fresh_child (a : App) (m : ObjectMeta) : Prop := om_Namespace m = app_Namespace a ∧ om_OwnerReferences m = [].
Lemma upsert_good a o : fresh_child a (o_Meta o) → given (upsert a o) (good any).
Proof.
  intros [Hn Ho]. unfold upsert. destruct (SetControllerReference_free a _ Hn Ho) as [m ->]. by intros ? ->.
Qed.
Lemma ensureExists_good a o : id_of a = id_of app → fresh_child a (o_Meta o) → given (ensureExists a o) (good any).
Proof.
  intros Hid [Hn Ho]. apply given_bind. intros [x|e] Hx; cbn in Hx.
  - cbn [returns_given]. rewrite (controlled_by_id a _ Hid). destruct (controlled_by app (o_Meta x)); [done|].
    cbn [orb] in Hx. rewrite <- (SetControllerReference_id a _ Hid) in Hx.
    destruct (SetControllerReference a (o_Meta x)); [|done]. by intros ? ->.
  - cbn [returns_given]. rewrite Hx. cbn [negb]. destruct (SetControllerReference_free a _ Hn Ho) as [m ->]. by intros ? ->.
Qed.
Lemma ignore_not_found_good (res : result unit) :
  match res with Ok _ => True | Err e => is_not_found e = true end → ignore_not_found res = Ok tt.
Proof. destruct res as [[]|e]; [done|]. cbn. by intros ->. Qed.
Lemma deleteOwnedChild_good a k name : given (deleteOwnedChild a k name) (good any).
Proof.
  apply given_bind. intros [x|e] Hx.
  - cbn [returns_given]. destruct (controlled_by a (o_Meta x)); [|done]. intros res Hres.
    cbn in Hres. cbn -[ignore_not_found]. by rewrite ignore_not_found_good.
  - cbn in Hx. cbn -[ignore_not_found]. by rewrite ignore_not_found_good.
Qed.
(** The reconciler is configured: its storage class is named and its configuration is one
    start-up lets through. *)
Definition configured : Prop :=
  r_StorageClassName r ≠ "" ∧ config_ok (r_Config r).
Lemma watchCronJob_ok a wc d : configured → validateWatchCommits a = Ok tt → watch_on a = Some wc →
  ∃ o, watchCronJob r a wc d = Ok o ∧ fresh_child a (o_Meta o).
Proof.
  intros [_ (_ & _ & _ & _ & _ & _ & _ & _ & _ & Hc & _)] Hv Hw. unfold validateWatchCommits in Hv. unfold watch_on in Hw.
  destruct (as_WatchCommits _) as [wc'|]; [|done]. destruct (wc_Enabled wc'); [|done]. injection Hw as <-.
  cbn [negb] in Hv. unfold watchCronJob. cbv zeta.
  destruct (String.eqb_spec (wc_Interval wc') "") as [E|E]; cbn [negb] in Hv.
  - destruct (WatchCron (cfg_DefaultWatchInterval _)); [|done]. eexists. split; [done|]. by split.
  - destruct (WatchCron (wc_Interval wc')); [|done]. eexists. split; [done|]. by split.
Qed.
Lemma ensureTriggers_good a d : configured → validateWatchCommits a = Ok tt →
  given (ensureTriggers r a d) (good any).
Proof.
  intros Hc Hv. unfold ensureTriggers. eapply good_try; [|intros _ _; eapply good_try; [|intros _ _]].
  - apply good_for_each. intros o Ho. destruct (_ || _); [|apply deleteOwnedChild_good]. apply upsert_good.
    repeat (apply elem_of_cons in Ho as [->|Ho]; [by split|]). by apply not_elem_of_nil in Ho.
  - destruct (scheduled_on a); [apply upsert_good; by split|apply deleteOwnedChild_good].
  - destruct (watch_on a) as [wc|] eqn:Hw; [|apply deleteOwnedChild_good].
    destruct (watchCronJob_ok a wc d Hc Hv Hw) as (o & -> & Ho). by apply upsert_good.
Qed.
Lemma ensureInfra_good a d : id_of a = id_of app → configured → validateWatchCommits a = Ok tt →
  given (ensureInfra r a d) (good any).
Proof.
  intros Hid Hc Hv. unfold ensureInfra. eapply good_try; [|intros _ _; eapply good_try; [by apply ensureTriggers_good|intros _ _]].
  - apply good_for_each. intros name _. apply ensureExists_good; [done|by split].
  - apply upsert_good. by split.
Qed.
Lemma ensureServing_good a : id_of a = id_of app → given (ensureServing r a) (good any).
Proof.
  intros Hid. unfold ensureServing. do 2 (eapply good_try; [apply upsert_good; by split|intros _ _]).
  eapply good_try; [apply ensureExists_good; [done|by split]|intros _ _].
  eapply good_try; [destruct (as_Auth _); [apply upsert_good; by split|done]|intros _ _].
  do 2 (eapply good_try; [apply upsert_good; by split|intros _ _]).
  apply given_bind, given_returns. eapply returns_mono, returns_any. done.
Qed.

(** ** The credential and the validations *)
Lemma reconcileGitCredential_good a : given (reconcileGitCredential r a) (good any).
Proof.
  unfold reconcileGitCredential. destruct (negb _).
  { apply (good_try _ _ _ any); [|done]. apply given_bind. intros [m|e] Hm.
    - cbn [returns_given]. destruct (controlled_by a m); [|done]. intros res Hres.
      cbn in Hres. cbn -[ignore_not_found]. by rewrite ignore_not_found_good.
    - cbn in Hm. cbn -[ignore_not_found]. by rewrite ignore_not_found_good. }
  apply (good_try _ _ _ is_Some).
  { unfold getSourceGitCredential. intros res (data & -> & Hd). cbn -[checkGitCredentialData]. rewrite Hd. cbn. eauto. }
  intros source [data ->]. apply given_bind. intros b _. apply given_bind. unfold existingSyncedCopyHash. apply given_bind.
  intros meta _. cbn [returns_given mret free_ret].
  case_bool_decide; [done|]. eapply good_try; [apply upsert_good; by split|done].
Qed.
Lemma validateRepoAuthSecret_good a : given (validateRepoAuthSecret a) (good any).
Proof.
  unfold validateRepoAuthSecret. destruct (as_RepoAuth _); [|done].
  intros res (data & -> & Hd). cbn -[checkGitCredentialData]. by rewrite Hd.
Qed.
Lemma validateStorageClass_good : configured → given (validateStorageClass r) (good any).
Proof.
  intros [Hn _]. unfold validateStorageClass. rewrite (proj2 (String.eqb_neq _ _) Hn). by intros res ->.
Qed.
Lemma check_good p a reason k Q : given p (good any) → given k Q → given (check r p a reason k) Q.
Proof. intros Hp Hk. apply given_bind. eapply given_mono, Hp. by intros []. Qed.

(** ** The parts of a pass *)
Lemma create_job_good a j : fresh_child a (j_Meta j) → given (create_job a j) (good any).
Proof.
  intros [Hn Ho]. unfold create_job. destruct (SetControllerReference_free a _ Hn Ho) as [m ->]. by intros ? (j' & -> & _).
Qed.
Lemma listed_good {B} ns sel (k : list Job → prog (result B)) Q :
  (∀ jobs, given (k jobs) Q) → given (jobs ←? do (ListJobs ns sel); k jobs) Q.
Proof. intros Hk. apply given_try. intros [jobs|e] Hj; [apply Hk|done]. Qed.
Lemma startBuild_good a token d : given (startBuild r a token d) (good any).
Proof.
  unfold startBuild. eapply good_try; [by apply create_job_good|]. intros job _. apply given_returns.
  intros now. cbn [free_bind_]. destruct (String.eqb _ _); by intros.
Qed.
Lemma observeBuild_good a : given (observeBuild r a) (good any).
Proof.
  unfold observeBuild. destruct (String.eqb _ ""); [done|]. apply given_bind. intros [job|e] He; cbn in He.
  - cbn [returns_given]. destruct (_ && terminal _); [done|]. destruct (jobFinished job) as [cond|];
      apply given_bind, given_returns; (eapply returns_mono, returns_any; done).
  - cbn [returns_given]. by rewrite He.
Qed.
Lemma observeMeasurement_good a : given (observeMeasurement a) (good any).
Proof.
  apply listed_good. intros jobs. apply (given_fold_prog _ any); [done| |done].
  intros [a1 h] j _ _. destruct (jobFinished j) as [cond|]; [|done]. cbv zeta. destruct (_ || _); [done|].
  apply given_bind, given_returns. eapply returns_mono, returns_any. by intros [bytes|] _.
Qed.
Lemma observeCleanup_fine a : given (observeCleanup a) (fine any).
Proof.
  apply listed_good. intros jobs. apply (given_fold_prog _ any); [done| |done].
  intros [a' h] j _ _. destruct (jobFinished j) as [cond|]; [|done]. cbv zeta.
  destruct (String.eqb _ ""); [done|]. destruct (_ || _); [done|]. apply given_bind. intros now _.
  destruct (String.eqb (jc_Type cond) "Complete"); [|done]. apply given_try.
  unfold readCleanupResult. apply given_bind. intros res _. apply given_returns. cbn [returns mret free_ret].
  destruct res as [pods|e]; [|done]. destruct (latest_terminated _ _ _) as [[? t]|]; [|done].
  destruct (parseCleanupResult _); [|done]. by destruct (summarizeCleanup _).
Qed.
Lemma reconcileCleanup_fine a b : given (reconcileCleanup r a b) (fine any).
Proof.
  unfold reconcileCleanup. eapply fine_try; [apply observeCleanup_fine|]. intros [a1 h] _.
  apply (fine_try _ _ _ any); [|by intros []]. apply (given_fold_prog _ any); [done| |done].
  intros [a2 started] act _ _. unfold cleanup_step. apply (good_try _ _ _ any); [by apply listed_good|]. intros active _.
  destruct (DecideCleanup _ _ _ _); [done| |done]. apply given_try. unfold startCleanup.
  apply (good_try _ _ _ any); [|done]. apply create_job_good. unfold CleanupJob. by destruct (String.eqb _ _).
Qed.
Lemma request_id a a' : request a' = request a → id_of a' = id_of a.
Proof. intros [= E _]. unfold id_of, app_Namespace, app_Name, app_UID. by rewrite E. Qed.
Lemma core_id a a' : core a' = core a → id_of a' = id_of a.
Proof. intros [= E _]. unfold id_of, app_Namespace, app_Name, app_UID. by rewrite E. Qed.

Lemma reconcile_observe_fine a active : id_of a = id_of app → given (reconcile_observe r a active) (fine any).
Proof.
  intros Hid. unfold reconcile_observe. apply given_try.
  eapply given_mono, (given_and _ _ _ _ (observeBuild_good a) (observeBuild_request r a)). intros [a1|e] [Hg H1']; [|destruct Hg].
  apply given_try.
  eapply given_mono, (given_and _ _ _ _ (observeMeasurement_good a1) (observeMeasurement_core a1)). intros [[a2 m]|e] [Hg' H2']; [|destruct Hg'].
  apply given_bind. eapply given_mono, given_returns, recordPVCCapacities_core. intros a3 H3'.
  apply given_try.
  eapply given_mono, (given_and _ _ _ _ (reconcileCleanup_fine a3 active) (reconcileCleanup_core r a3 active)).
  intros [[a4 c]|e] [Hf H4']; [|done]. cbv zeta. cbn in H1', H2', H4'. set (a5 := on_status _ a4).
  assert (H5 : id_of a5 = id_of app).
  { change (id_of a5) with (id_of a4). rewrite (core_id a3 a4), (core_id a2 a3), (core_id a1 a2), (request_id a a1) by done. done. }
  apply (good_try _ _ _ any).
  { destruct (hasSucceededOnce a5); [by apply ensureServing_good|done]. }
  intros a6 _. apply given_bind. intros now _. apply given_bind. intros ? _.
  apply (good_try _ _ _ any); [by intros ? ->|]. intros _ _.
  apply given_bind, given_returns. eapply returns_mono, returns_any. done.
Qed.
Lemma reconcile_build_fine a d : id_of a = id_of app → given (reconcile_build r a d) (fine any).
Proof.
  intros Hid. unfold reconcile_build. apply (good_try _ _ _ any); [by apply listed_good|]. intros [active n] _.
  destruct (DecideBuild _ _ _); [by apply reconcile_observe_fine| |by apply reconcile_observe_fine].
  apply given_try. eapply given_mono, (given_and _ _ _ _ (startBuild_good a _ d) (startBuild_request r a _ d)).
  intros [a1|e] [Hg Hr]; [|destruct Hg]. apply reconcile_observe_fine. cbn in Hr. injection Hr as Em _.
  unfold id_of, app_Namespace, app_Name, app_UID in *. by rewrite Em.
Qed.

(** ** A whole pass *)
Lemma admissible_spec a a' : app_Spec a' = app_Spec a → admissible r a → admissible r a'.
Proof. destruct a, a'. cbn. intros ->. done. Qed.
Lemma reconcile_validated_given a Q : id_of a = id_of app → configured → admissible r a →
  (∀ d, given (reconcile_infra r a d) Q) → given (reconcile_validated r a) Q.
Proof.
  intros Hid Hc (Hv & Hi & Hn & Hw & Hs) Hk. unfold reconcile_validated, lift. rewrite Hv, Hi, Hn, Hw, Hs.
  do 4 (apply check_good; [done|]). apply (good_try _ _ _ any); [apply reconcileGitCredential_good|]. intros d _.
  apply check_good; [apply validateRepoAuthSecret_good|]. apply check_good; [done|].
  apply check_good; [by apply validateStorageClass_good|]. apply Hk.
Qed.
Lemma reconcile_infra_fine a d : id_of a = id_of app → configured → admissible r a →
  given (reconcile_infra r a d) (fine any).
Proof.
  intros Hid Hc (_ & _ & _ & Hw & _). unfold reconcile_infra. cbv zeta. set (a1 := on_status _ a).
  apply (good_try _ _ _ any); [by apply (ensureInfra_good a1)|]. intros _ _. destruct (_ && _).
  - apply (good_try _ _ _ any); [|done]. intros now _. by intros ? ->.
  - by apply reconcile_build_fine.
Qed.

(** C7: a pass over an admissible App completes: when the operator is configured and the
    cluster works, every run of Reconcile returns without an error, whatever pods, Jobs
    and metrics look like and also for an App being deleted; the one exception is the
    recovered panic of formatting an absurd reclaimed size. *)
Theorem healthy_pass_completes ns n tr res : configured → admissible r app →
  run (Reconcile r ns n) tr res → healthy_trace tr → is_ok res = true ∨ res = Err panic_error.
Proof.
  intros Hc Ha Hr Hall.
  cut (fine any res); [destruct res as [x|e]; [by left|intros ->; by right]|].
  refine (given_run _ _ _ _ _ _ Hr Hall). apply given_bind. intros ? ->. cbn [returns_given].
  destruct (being_deleted app).
  { unfold reconcileDelete. destruct (negb _); [done|]. apply given_bind. intros jobs _.
    apply given_bind. eapply given_mono, given_returns, returns_any. intros [] _.
    intros ? (a' & -> & _). done. }
  apply (good_try _ _ _ (renewed app)).
  { destruct (ContainsFinalizer app _) eqn:E; [done|]. intros ? (a' & -> & Hn). unfold AddFinalizer in Hn. by rewrite E in Hn. }
  intros a (Hs & Ht & Hid & Hann). apply given_bind. intros ? _. apply reconcile_validated_given; [done..| |].
  - by apply (admissible_spec app).
  - intros d. apply reconcile_infra_fine; [done..|]. by apply (admissible_spec app).
Qed.

End progress.

(** ** Calls that every path makes *)
(** No Job listed is unfinished. *)
Definition idle (R : Type) (c : call R) : R → Prop :=
  match c in call R return R → Prop with
  | ListJobs _ _ => λ res, match res with Ok jobs => unfinished jobs = false | Err _ => True end
  | _ => λ _, True
  end.
(** An App as the build part of a pass gets it: loaded, with the bookkeeping of the pass. *)
Definition taken_up (app a : App) : Prop :=
  app_Spec a = app_Spec app ∧ id_of a = id_of app ∧ om_Annotations (app_Meta a) = om_Annotations (app_Meta app) ∧
  ∃ g stale, app_Status a = (app_Status app) <| s_ObservedGeneration := g |> <| s_SpecStale := stale |>.
Lemma taken_up_annotation app a k : taken_up app a → annotation a k = annotation app k.
Proof. intros (_ & _ & E & _). unfold annotation. by rewrite E. Qed.
Lemma taken_up_build app a : taken_up app a → build_of a = build_of app ∧
  s_LastProcessedRebuild (app_Status a) = s_LastProcessedRebuild (app_Status app) ∧
  s_Cleanup (app_Status a) = s_Cleanup (app_Status app).
Proof. intros (_ & _ & _ & g & st & E). unfold build_of. by rewrite E. Qed.

Section sure.
Context `{GoRuntime} `{MapOrder} `{KubeLib} (r : AppReconciler) (app : App).
Context (ok : ∀ R, call R → R → Prop).
Context (Hhealthy : ∀ R (c : call R) x, ok R c x → healthy app R c x).
Notation sure := (inevitable ok).
Notation likely := (returns_given ok).

Lemma likely_of {A} (p : prog A) Q : returns_given (healthy app) p Q → likely p Q.
Proof using Hhealthy. apply given_weaken, Hhealthy. Qed.
Lemma sure_try {A B} C (p : prog (result A)) (k : A → prog (result B)) P :
  returns_given (healthy app) p (good P) → (∀ x, P x → sure C (k x)) → sure C (try p k).
Proof using Hhealthy.
  intros Hp Hk. apply inevitable_then, likely_of. eapply given_mono, Hp. intros [x|e]; [apply Hk|done].
Qed.
Lemma sure_check C p a reason k : returns_given (healthy app) p (good any) → sure C k → sure C (check r p a reason k).
Proof using Hhealthy. intros Hp Hk. apply inevitable_then, likely_of. eapply given_mono, Hp. by intros [x|e]. Qed.

(** A pass over an admissible App gets to its infrastructure. *)
Lemma Reconcile_sure C ns n : configured r → admissible r app → being_deleted app = false →
  (∀ a d, renewed app a → sure C (reconcile_infra r
     (on_status (λ s, s <| s_ObservedGeneration := om_Generation (app_Meta a) |>) a) d)) →
  sure C (Reconcile r ns n).
Proof using Hhealthy.
  intros Hc Ha Hd Hk. apply inevitable_then. intros res Hres. apply Hhealthy in Hres as ->. cbn [returns_given].
  rewrite Hd. apply (sure_try _ _ _ (renewed app)).
  { destruct (ContainsFinalizer app _) eqn:E; [done|]. intros ? (a' & -> & Hn). unfold AddFinalizer in Hn. by rewrite E in Hn. }
  intros a Hren. pose proof Hren as (Hs & Hst & Hid & Hann). apply inevitable_then. intros ? _. cbn [returns_given].
  set (a1 := on_status _ a).
  destruct (admissible_spec r app a1 Hs Ha) as (Hv & Hi & Hn & Hw & Hsto).
  unfold reconcile_validated, lift. rewrite Hv, Hi, Hn, Hw, Hsto.
  do 4 (apply sure_check; [done|]).
  apply (sure_try _ _ _ any); [apply reconcileGitCredential_good|]. intros d _.
  apply sure_check; [apply validateRepoAuthSecret_good|]. apply sure_check; [done|].
  apply sure_check; [by apply validateStorageClass_good|]. by apply Hk.
Qed.
(** And, unless it seeds the first build, to the build decision. *)
Lemma Reconcile_to_build C ns n : configured r → admissible r app → being_deleted app = false →
  annotation app RebuildAnnotation ≠ "" → (∀ a d, taken_up app a → sure C (reconcile_build r a d)) →
  sure C (Reconcile r ns n).
Proof using Hhealthy.
  intros Hc Ha Hd Hne Hk. apply Reconcile_sure; [done..|]. intros a d (Hs & Hst & Hid & Hann).
  unfold reconcile_infra. cbv zeta. set (a2 := on_status _ (on_status _ a)).
  assert (Ht : taken_up app a2).
  { split_and!; [exact Hs|exact Hid|exact Hann|]. eexists _, _. cbn. by rewrite Hst. }
  clearbody a2. apply (sure_try _ _ _ any).
  { apply ensureInfra_good; [by destruct Ht as (_ & ? & _)|done|].
    by destruct (admissible_spec r app a2) as (_ & _ & _ & ? & _); [by destruct Ht|..]. }
  intros _ _. rewrite (taken_up_annotation _ _ RebuildAnnotation Ht), (proj2 (String.eqb_neq _ _) Hne), andb_false_r. by apply Hk.
Qed.
(** Where no Job is unfinished, no build is active. *)
Lemma buildActive_idle a : (∀ R (c : call R) x, ok R c x → idle R c x) → likely (buildActive a) (good (λ x, x.1 = false)).
Proof using Hhealthy.
  intros Hidle. apply given_try. intros res Hres. pose proof (Hidle _ _ _ Hres) as Hi. apply Hhealthy in Hres. cbn in Hres, Hi.
  destruct res as [jobs|e]; [|done]. cbn [returns_given mret free_ret].
  destruct (List.find _ jobs) as [j|] eqn:Ef; [|done]. exfalso. apply find_some in Ef. unfold unfinished in Hi.
  rewrite (proj2 (existsb_exists _ jobs)) in Hi; [done|eauto].
Qed.
(** A request that was not processed is then built; without one, the pass observes. *)
Lemma reconcile_build_idle C a d : (∀ R (c : call R) x, ok R c x → idle R c x) →
  sure C (if decide (annotation a RebuildAnnotation = s_LastProcessedRebuild (app_Status a))
          then reconcile_observe r a false
          else try (startBuild r a (annotation a RebuildAnnotation) d) (λ a, reconcile_observe r a true)) →
  sure C (reconcile_build r a d).
Proof using Hhealthy.
  intros Hidle Hk. unfold reconcile_build. apply inevitable_then.
  eapply given_mono, (buildActive_idle a Hidle). intros [[active k]|e]; [|done]. cbn. intros ->.
  unfold DecideBuild. destruct (decide _); done.
Qed.
End sure.

(** ** A requested build starts *)
Section requested.
Context `{GoRuntime} `{MapOrder} `{KubeLib} (r : AppReconciler) (app : App).

Definition healthy_idle (R : Type) (c : call R) (a : R) : Prop := healthy app R c a ∧ idle R c a.
(** The creation of the App's build Job. *)
Definition starts (a : App) (R : Type) (c : call R) : Prop :=
  match c with CreateJob j => built_from r a j | _ => False end.
Notation must := (inevitable healthy_idle).

(** The creation of the build Job of an App with this spec, identity and request. *)
Definition starts_for (R : Type) (c : call R) : Prop :=
  ∃ a, starts a R c ∧ app_Spec a = app_Spec app ∧ id_of a = id_of app ∧
    annotation a RebuildAnnotation = annotation app RebuildAnnotation.
Lemma requested_pass_starts ns n : configured r → admissible r app → being_deleted app = false →
  annotation app RebuildAnnotation ≠ "" →
  annotation app RebuildAnnotation ≠ s_LastProcessedRebuild (app_Status app) →
  must starts_for (Reconcile r ns n).
Proof.
  intros Hc Ha Hd Hne Ht. apply (Reconcile_to_build r app _ (λ _ _ _ Hx, proj1 Hx)); [done..|]. intros a d Htake.
  pose proof (taken_up_annotation _ _ RebuildAnnotation Htake) as Ea. destruct (taken_up_build _ _ Htake) as (_ & El & _).
  apply (reconcile_build_idle r app _ (λ _ _ _ Hx, proj1 Hx)); [by intros ? ? ? []|]. rewrite decide_False by congruence.
  apply inevitable_now. unfold startBuild. apply inevitable_now. unfold create_job.
  set (job := BuildJob r a (annotation a RebuildAnnotation) d).
  destruct (SetControllerReference_free a (j_Meta job)) as [m Hm]; [done..|]. rewrite Hm. left. exists a.
  destruct Htake as (Hs & Hid & _). split_and!; [|done..]. split; [cbn; by rewrite Ea, El|]. by exists d, m.
Qed.
Lemma starts_for_created tr : Forall (λ e, match e with Ev c a => healthy_idle _ c a end) tr →
  (∃ R (c : call R) x, Ev c x ∈ tr ∧ starts_for R c) →
  ∃ j j' a, (j, Ok j') ∈ omap created_job tr ∧ built_from r a j ∧ app_Spec a = app_Spec app ∧ id_of a = id_of app ∧
    annotation a RebuildAnnotation = annotation app RebuildAnnotation.
Proof.
  intros Hall (R & c & x & He & a & Hs & ?). destruct c; try done.
  pose proof (proj1 (list.Forall_forall _ _) Hall _ He) as [(j' & -> & _) _]. exists job, j', a. split; [|done].
  apply list_elem_of_omap. by exists (Ev (CreateJob job) (Ok j')).
Qed.

(** C6: a requested build starts: when the operator is configured and the cluster works
    and has no unfinished Job, every pass over an admissible App that asks for a rebuild it
    has not had creates the build Job of that App for that request, owned by it. *)
Theorem requested_build_starts ns n tr res : configured r → admissible r app → being_deleted app = false →
  annotation app RebuildAnnotation ≠ "" →
  annotation app RebuildAnnotation ≠ s_LastProcessedRebuild (app_Status app) →
  run (Reconcile r ns n) tr res → Forall (λ e, match e with Ev c a => healthy_idle _ c a end) tr →
  ∃ j j' a, (j, Ok j') ∈ omap created_job tr ∧ built_from r a j ∧ app_Spec a = app_Spec app ∧ id_of a = id_of app ∧
    annotation a RebuildAnnotation = annotation app RebuildAnnotation.
Proof.
  intros Hc Ha Hd Hne Ht Hr Hall. apply (starts_for_created tr Hall).
  by apply (inevitable_run _ _ _ _ _ (requested_pass_starts ns n Hc Ha Hd Hne Ht) Hr).
Qed.
End requested.
