(* ===== verification/Serving.v ===== *)
(** What it takes to call a site Ready: the pass that writes the phase Ready has applied
    the whole serving stack before. *)
From Stdlib Require Import ZArith Ascii String.
From stdpp Require Import base gmap strings list numbers sorting.
From S2P Require Import Prelude GoStd GoNum Decisions BuildSpec AppTypes Kube Config BuildSteps Naming AppView GitCred BuildPod Children Free Prog JsonDecode Ensure GitSync Measure Cleanup Controller Footprint Lifecycle Validation Progress.

Open Scope string_scope.
Open Scope list_scope.
Open Scope Z_scope.

(** ** The stack *)
(** The object was applied with this App as its controller. *)
Definition applied_for (app : App) (tr : trace) (o : kobject) : Prop :=
  ∃ m, SetControllerReference app (o_Meta o) = Ok m ∧
    (o <| o_Meta := m <| om_ResourceVersion := "" |> |>, Ok tt) ∈ omap applied_obj tr.
(** The object was seen to be this App's, created for it, or adopted. *)
Definition exists_for (app : App) (tr : trace) (o : kobject) : Prop :=
  let get := GetObj (kind (o_Spec o)) (om_Namespace (o_Meta o)) (om_Name (o_Meta o)) in
  (∃ x, Ev get (Ok x) ∈ tr ∧ controlled_by app (o_Meta x) = true) ∨
  (∃ m, SetControllerReference app (o_Meta o) = Ok m ∧ Ev (CreateObj (o <| o_Meta := m |>)) (Ok tt) ∈ tr) ∨
  (∃ x m, Ev get (Ok x) ∈ tr ∧ SetControllerReference app (o_Meta x) = Ok m ∧
     Ev (UpdateObj (x <| o_Meta := m |>)) (Ok tt) ∈ tr).

(** The site of this App is served: nginx and its configuration, the auth middleware if
    the App has basic auth, the Ingress and the network policy are applied, and the
    Service exists. *)
Definition serving_stack (r : AppReconciler) (app : App) : list kobject :=
  [nginxConfigMap app; nginxDeployment r app] ++
  match as_Auth (app_Spec app) with
  | Some _ => [authMiddleware r app (middlewareName app +:+ "-secret")]
  | None => []
  end ++ [ingress app; nginxNetworkPolicy app (r_TraefikNamespace r)].
Definition served (r : AppReconciler) (app : App) (tr : trace) : Prop :=
  Forall (applied_for app tr) (serving_stack r app) ∧ exists_for app tr (service app).

(** An App with the same identity and spec has the same children. *)
Lemma app_owner_id a b : id_of a = id_of b → app_owner a = app_owner b.
Proof. unfold app_owner. by intros [= _ -> ->]. Qed.
Lemma SetControllerReference_same a b m : id_of a = id_of b →
  SetControllerReference a m = SetControllerReference b m.
Proof. intros Hid. unfold SetControllerReference. rewrite (app_owner_id a b Hid). by injection Hid as -> _ _. Qed.
Lemma serving_stack_same r a b : id_of a = id_of b → app_Spec a = app_Spec b →
  serving_stack r a = serving_stack r b ∧ service a = service b.
Proof.
  intros [= Hns Hn _] Hs. split.
  - unfold serving_stack, nginxConfigMap, nginxDeployment, authMiddleware, ingress, nginxNetworkPolicy, child_meta,
      role_selector, middlewareRef, nginxLabelsFor, labelsFor, nginxConfigName, nginxDeployName, outputPVCName,
      ingressName, serviceName, nginxNetPolName, middlewareName. by rewrite Hns, Hn, Hs.
  - unfold service, child_meta, nginxLabelsFor, labelsFor, serviceName. by rewrite Hns, Hn.
Qed.
Lemma served_same r a b tr : id_of a = id_of b → app_Spec a = app_Spec b → served r a tr → served r b tr.
Proof.
  intros Hid Hs [Hall He]. destruct (serving_stack_same r a b Hid Hs) as [E Es]. split.
  - rewrite <- E. eapply Forall_impl; [exact Hall|]. intros o (m & Hm & Ho). exists m. by rewrite <- (SetControllerReference_same a b).
  - rewrite <- Es. unfold exists_for, controlled_by in *. injection Hid as Hns Hn Hu. rewrite <- Hu.
    destruct He as [He|[(m & Hm & Ho)|(x & m & Hx & Hm & Ho)]]; [by left|right; left|right; right].
    + exists m. by rewrite <- (SetControllerReference_same a b) by (unfold id_of; congruence).
    + exists x, m. by rewrite <- (SetControllerReference_same a b) by (unfold id_of; congruence).
Qed.
(** A trace with more events. *)
Lemma applied_for_mono app (t tr : trace) o : (∀ e, e ∈ t → e ∈ tr) → applied_for app t o → applied_for app tr o.
Proof.
  intros Ht (m & Hm & Ho). exists m. split; [done|]. apply list_elem_of_omap in Ho as (e & He & Eo).
  apply list_elem_of_omap. eauto.
Qed.
Lemma exists_for_mono app (t tr : trace) o : (∀ e, e ∈ t → e ∈ tr) → exists_for app t o → exists_for app tr o.
Proof.
  intros Ht [(x & ? & ?)|[(m & ? & ?)|(x & m & ? & ? & ?)]]; [left|right; left|right; right]; eauto 10.
Qed.
Lemma served_mono r app (t tr : trace) : (∀ e, e ∈ t → e ∈ tr) → served r app t → served r app tr.
Proof.
  intros Ht [Hall He]. split; [|by apply (exists_for_mono app t)].
  eapply Forall_impl; [exact Hall|]. intros o. by apply applied_for_mono.
Qed.

(** ** The code applies it *)
Lemma upsert_run app o tr : run (upsert app o) tr (Ok tt) → applied_for app tr o.
Proof.
  unfold upsert, lift. destruct (SetControllerReference app (o_Meta o)) as [m|] eqn:Em; intros Hr; [|inversion Hr].
  apply (run_do (ApplyObj _)) in Hr as ->. exists m. split; [done|by left].
Qed.
Lemma ensureExists_run app o tr : run (ensureExists app o) tr (Ok tt) → exists_for app tr o.
Proof.
  intros Hr. apply run_bind in Hr as (t1 & [x|e] & t2 & -> & Hx & Hr); apply run_do in Hx as ->; cbn in Hr.
  - destruct (controlled_by app (o_Meta x)) eqn:Ec; [left; exists x; split; [by left|done]|].
    destruct (SetControllerReference app (o_Meta x)) as [m|] eqn:Em; [|inversion Hr].
    apply (run_do (UpdateObj _)) in Hr as ->. right. right. exists x, m. split_and!; [by left|done|right; by left].
  - destruct (is_not_found e); cbn in Hr; [|inversion Hr].
    destruct (SetControllerReference app (o_Meta o)) as [m|] eqn:Em; [|inversion Hr].
    apply (run_do (CreateObj _)) in Hr as ->. right. left. exists m. split; [done|right; by left].
Qed.

Section serving.
Context `{GoRuntime} `{MapOrder} `{KubeLib} (r : AppReconciler).

Lemma ensureServing_run app tr app' : run (ensureServing r app) tr (Ok app') → served r app tr.
Proof.
  intros Hr. unfold ensureServing in Hr.
  apply run_try in Hr as (t1 & [] & tr1 & -> & U1%upsert_run & Hr).
  apply run_try in Hr as (t2 & [] & tr2 & -> & U2%upsert_run & Hr).
  apply run_try in Hr as (t3 & [] & tr3 & -> & U3%ensureExists_run & Hr).
  apply run_try in Hr as (t4 & [] & tr4 & -> & U4 & Hr).
  apply run_try in Hr as (t5 & [] & tr5 & -> & U5%upsert_run & Hr).
  apply run_try in Hr as (t6 & [] & tr6 & -> & U6%upsert_run & Hr). clear Hr.
  assert (Hap : ∀ t o, applied_for app t o → t ∈ [t1; t2; t4; t5; t6] →
    applied_for app (t1 ++ t2 ++ t3 ++ t4 ++ t5 ++ t6 ++ tr6) o).
  { intros t o Ho Ht. revert Ho. apply applied_for_mono. intros e He. rewrite !elem_of_app.
    rewrite !elem_of_cons, elem_of_nil in Ht. naive_solver. }
  split.
  - unfold serving_stack. rewrite !Forall_app, !Forall_cons. split_and!; try apply Forall_nil; try done.
    + apply (Hap t1); [done|by left].
    + apply (Hap t2); [done|right; by left].
    + destruct (as_Auth _); [|done]. constructor; [|done]. apply upsert_run in U4. apply (Hap t4); [done|do 2 right; by left].
    + apply (Hap t5); [done|do 3 right; by left].
    + apply (Hap t6); [done|do 4 right; by left].
  - revert U3. apply exists_for_mono. intros e He. rewrite !elem_of_app. tauto.
Qed.

(** ** From the status back to the stack *)
Lemma observeBuild_spec app : returns (observeBuild r app) (then_ (λ a, app_Spec a = app_Spec app)).
Proof.
  unfold observeBuild. destruct (String.eqb _ ""); [done|]. apply returns_bind, returns_do.
  intros [job|e]; [|by destruct (is_not_found e)]. destruct (_ && terminal _); [done|].
  destruct (jobFinished job) as [cond|]; apply returns_bind.
  - destruct (decide (jc_Type cond = "Complete")) as [Ec|Ec].
    + eapply returns_mono, observe_terminal_success, Ec. by intros a (? & _).
    + eapply returns_mono, observe_terminal_failure, Ec. by intros a (? & _).
  - eapply returns_mono, returns_any. intros [pod|] _; done.
Qed.
Lemma startBuild_spec app token d : returns (startBuild r app token d) (then_ (λ a, app_Spec a = app_Spec app)).
Proof.
  unfold startBuild. apply returns_try. eapply returns_mono, returns_any. intros [job|e] _; [|done].
  intros now. cbn [free_bind_]. destruct (String.eqb _ _); by intros.
Qed.

(** The end of a pass writes the App it got, with its phase. *)
Lemma persisted_status app jobs tr res a x :
  run (now ← do Now; let app := refreshPhase now app in
       record_app r app ;; do (UpdateStatus app) ;? deleteJobs jobs ;; mret (Ok (MkResult false (10 * Minute)))) tr res →
  Ev (UpdateStatus a) x ∈ tr → ∃ now, a = refreshPhase now app.
Proof.
  intros Hr Hin. apply run_call_inv in Hr as (now & t1 & -> & Hr). apply run_call_inv in Hr as ([] & t2 & -> & Hr).
  apply run_call_inv in Hr as (ans & t3 & -> & Hr). exists now.
  assert (N3 : omap status_update t3 = []).
  { destruct ans as [[]|e]; [|by apply run_mret in Hr as [-> _]].
    eapply calls_no_status, Hr; [apply calls_bind; [by apply (deleteJobs_calls delete_call)|intros; apply calls_ret]|by intros R []]. }
  assert (Ha : (a, x) ∈ omap status_update (Ev Now now :: Ev (RecordApp (refreshPhase now app) (buildDeadlineSeconds r (refreshPhase now app))
    (alertThresholdsFrom (refreshPhase now app)) (effectiveScheduledThreshold r (refreshPhase now app))) tt ::
    Ev (UpdateStatus (refreshPhase now app)) ans :: t3)) by (apply list_elem_of_omap; eauto).
  cbn in Ha. rewrite N3 in Ha.
  apply list_elem_of_singleton in Ha. congruence.
Qed.
Lemma observe_served app active tr res a x : run (reconcile_observe r app active) tr res →
  Ev (UpdateStatus a) x ∈ tr → hasSucceededOnce a = true → served r app tr.
Proof.
  intros Hr Hin Hs. unfold reconcile_observe in Hr.
  destruct (try_past _ _ _ _ _ _ _ (observeBuild_observe r app) Hr Hin) as (t1 & a1 & tr1 & -> & R1 & HrHin & Hin1); [by intros []|]. clear Hr. rename HrHin into Hr.
  pose proof (returns_run _ _ _ _ (observeBuild_spec app) R1) as Hspec.
  apply (returns_run _ _ _ _ (observeBuild_request r app)) in R1. cbn in R1, Hspec.
  destruct (try_past _ _ _ _ _ _ _ (observeMeasurement_measure a1) Hr Hin1) as (t2 & [a2 measured] & tr2 & -> & R2 & HrHin1 & Hin2); [by intros []|]. clear Hr. rename HrHin1 into Hr.
  apply (returns_run _ _ _ _ (observeMeasurement_core a1)) in R2. cbn in R2.
  destruct (run_past _ _ _ _ _ _ _ (recordPVCCapacities_measure a2) Hr Hin2) as (t3 & a3 & tr3 & -> & R3 & HrHin2 & Hin3); [by intros []|]. clear Hr. rename HrHin2 into Hr.
  apply (returns_run _ _ _ _ (recordPVCCapacities_core a2)) in R3.
  destruct (try_past _ _ _ _ _ _ _ (reconcileCleanup_cleanup r a3 active) Hr Hin3) as (t4 & [a4 cleaned] & tr4 & -> & R4 & HrHin3 & Hin4); [by intros []|]. clear Hr. rename HrHin3 into Hr.
  apply (returns_run _ _ _ _ (reconcileCleanup_core r a3 active)) in R4. cbn in R4. cbv zeta in Hr.
  set (a5 := on_status _ a4) in Hr.
  assert (C5 : core a5 = core a1) by (change (core a5) with (core a4); congruence).
  assert (Hside : calls (side_call true) (if hasSucceededOnce a5 then ensureServing r a5 else mret (Ok a5)))
    by (destruct (hasSucceededOnce a5); [apply ensureServing_side|done]).
  destruct (try_past _ _ _ _ _ _ _ Hside Hr Hin4) as (t5 & a6 & tr5 & -> & R5 & Hr5 & Hin5); [by intros []|]. clear Hr Hside.
  assert (Hs5 : hasSucceededOnce a5 = true).
  { destruct (hasSucceededOnce a5) eqn:E5; [done|]. apply run_mret in R5 as [_ E6]. injection E6 as <-.
    destruct (persisted_status a5 (measured ++ cleaned) _ _ _ _ Hr5 Hin5) as [now ->].
    pose proof (refreshPhase_core now a5) as C6. apply core_successes, hasSucceededOnce_ext in C6. congruence. }
  rewrite Hs5 in R5. apply ensureServing_run in R5.
  apply (served_mono _ _ t5); [intros e He; rewrite !elem_of_app; tauto|].
  unfold core in C5. injection C5 as Em Esp _. unfold request in R1. injection R1 as Em1 _.
  revert R5. apply served_same; [|exact (eq_trans Esp Hspec)]. change (id_of a5) with (id_of a4). unfold id_of, app_Namespace, app_Name, app_UID. by rewrite Em, Em1.
Qed.
Lemma build_served app d tr res a x : run (reconcile_build r app d) tr res →
  Ev (UpdateStatus a) x ∈ tr → hasSucceededOnce a = true → served r app tr.
Proof.
  intros Hr Hin Hs. unfold reconcile_build in Hr.
  destruct (try_past _ _ _ _ _ _ _ (buildActive_observe app) Hr Hin) as (t1 & [active k] & t2 & -> & _ & Hr' & Hin'); [by intros []|].
  apply (served_mono _ _ t2); [intros e He; rewrite elem_of_app; tauto|].
  destruct (DecideBuild _ _ _); [by eapply observe_served| |by eapply observe_served].
  destruct (try_past _ _ _ _ _ _ _ (startBuild_calls r app _ d) Hr' Hin') as (t3 & a1 & t4 & -> & R1 & Hr2 & Hin2); [by intros []|].
  pose proof (returns_run _ _ _ _ (startBuild_spec app _ d) R1) as Hspec.
  apply (returns_run _ _ _ _ (startBuild_request r app _ d)) in R1. cbn in R1, Hspec. injection R1 as Em _.
  apply (served_mono _ _ t4); [intros e He; rewrite elem_of_app; tauto|].
  apply (served_same _ a1); [unfold id_of, app_Namespace, app_Name, app_UID; by rewrite Em|done|by eapply observe_served].
Qed.
(** A pass that writes a status with a success behind it, other than a rejection, has put
    up the serving stack of the App it loaded. *)
Lemma pass_served ns n tr res a x : run (Reconcile r ns n) tr res → Ev (UpdateStatus a) x ∈ tr →
  hasSucceededOnce a = true → s_Phase (app_Status a) ≠ PhaseDegraded →
  ∃ app, entered ns n app tr ∧ served r app tr.
Proof.
  intros Hr Hin Hs Hph. apply Reconcile_split in Hr as (t1 & t2 & -> & He & Hv).
  apply elem_of_app in Hin as [Hin|Hin]; [by apply (proj1 (list.Forall_forall _ _) He) in Hin|].
  destruct Hv as [->|(app & Happ & Hent & Hr)]; [by apply not_elem_of_nil in Hin|].
  exists app. split.
  { destruct Hent as (a0 & Hg & Hu). exists a0. rewrite !elem_of_app. naive_solver. }
  apply validated_cases in Hr as (u1 & u2 & -> & Hc & Hu).
  apply elem_of_app in Hin as [Hin|Hin]; [by apply (proj1 (list.Forall_forall _ _) Hc) in Hin|].
  destruct Hu as [(reason & e & Hj & Hf)|[(e & _ & _ & -> & _)|(d & _ & _ & Hr)]]; [|by apply not_elem_of_nil in Hin|].
  - exfalso. apply (fail_reported _ _ _ _ _ _ (judged_fault _ _ _ _ _ Hj)) in Hf as (_ & _ & a' & y & Eu & _ & Ep & _).
    assert (Ha : (a, x) ∈ [(a', y)]) by (rewrite <- Eu; apply list_elem_of_omap; eauto).
    apply list_elem_of_singleton in Ha. congruence.
  - unfold reconcile_infra in Hr. cbv zeta in Hr.
    destruct (try_past _ _ _ _ _ _ _ (ensureInfra_side r _ d) Hr Hin) as (t3 & [] & t4 & -> & _ & Hr' & Hin'); [by intros []|].
    apply (served_mono _ _ t4); [intros e He'; rewrite !elem_of_app; tauto|].
    destruct (_ && _); [|by eapply build_served in Hr'].
    exfalso. apply (calls_run (λ R c, match c with UpdateStatus _ => False | _ => True end)) in Hr';
      [by apply (proj1 (list.Forall_forall _ _) Hr') in Hin'|]. unfold seedRebuild. prog_walk.
Qed.
End serving.
