(* ===== verification/FirstBuild.v ===== *)
(** From a fresh App to a served site: the passes that follow one another, each on what
    the API server stored of the one before. *)
From Stdlib Require Import ZArith Ascii String DecimalString.
From stdpp Require Import base gmap strings list numbers sorting.
From S2P Require Import Prelude GoStd GoNum Images Storage Decisions WatchSchedule BuildSpec AppTypes Kube Config BuildSteps Naming AppView GitCred BuildPod Children Free Prog JsonDecode Ensure GitSync Measure Cleanup Controller Footprint Serial Lifecycle Validation Progress Serving.

Open Scope string_scope.
Open Scope list_scope.
Open Scope Z_scope.

(** ** What the passes meet *)
(** There are no cleanup Jobs. *)
Definition calm (R : Type) (c : call R) : R → Prop :=
  match c in call R return R → Prop with
  | ListJobs _ sel => λ res, role_of sel = "cleanup" → res = Ok []
  | _ => λ _, True
  end.
(** The build Job is not there yet or runs; it has completed. *)
Definition job_runs (R : Type) (c : call R) : R → Prop :=
  match c in call R return R → Prop with
  | GetJob _ _ => λ res, match res with Ok job => jobFinished job = None | Err e => is_not_found e = true end
  | _ => λ _, True
  end.
Definition job_done (R : Type) (c : call R) : R → Prop :=
  match c in call R return R → Prop with
  | GetJob _ _ => λ res, ∃ job, res = Ok job ∧ completed job = true
  | _ => λ _, True
  end.

Lemma phaseOf_settled a b : settled a = settled b → phaseOf a = phaseOf b.
Proof.
  unfold settled, core, phaseOf, hasSucceededOnce, build_of. intros [= _ _ Hb _ Hh Ht _ _ _ Hd].
  by rewrite Hb, Hh, Ht, Hd.
Qed.
Lemma settled_succeeded a b : settled a = settled b → hasSucceededOnce a = hasSucceededOnce b.
Proof. unfold settled, core, hasSucceededOnce. by intros [= _ _ _ _ -> -> _ _ _ _]. Qed.
Lemma settled_spec a b : settled a = settled b → app_Spec a = app_Spec b.
Proof. by unfold settled, core; intros [= _ ? _ _ _ _ _ _ _ _]. Qed.
Lemma settled_build a b : settled a = settled b → build_of a = build_of b.
Proof. by unfold settled, core; intros [= _ _ ? _ _ _ _ _ _ _]. Qed.
Lemma settled_request a b : settled a = settled b → request a = request b.
Proof. unfold settled, core, request. by intros [= -> _ _ -> _ _ _ _ _ _]. Qed.

Section sure.
Context `{GoRuntime} `{MapOrder} `{KubeLib} (r : AppReconciler) (app : App).
Context (ok : ∀ R, call R → R → Prop).
Context (Hhealthy : ∀ R (c : call R) x, ok R c x → healthy app R c x).
Notation sure := (inevitable ok).

(** ** Observing without cleanups *)
Section calm.
Context (Hcalm : ∀ R (c : call R) x, ok R c x → calm R c x).
Notation likely := (returns_given ok).

Lemma reconcileCleanup_calm a b : likely (reconcileCleanup r a b) (good any).
Proof using Hhealthy Hcalm.
  unfold reconcileCleanup. apply (good_try _ _ _ any).
  { unfold observeCleanup. apply given_try. intros res Hres. apply Hcalm in Hres. cbn in Hres.
    rewrite Hres by apply role_cleanup. done. }
  intros [a1 h] _. apply (good_try _ _ _ any); [|by intros []].
  apply (given_fold_prog _ any); [done| |done]. intros [a2 started] act _ _.
  apply (likely_of app _ Hhealthy). unfold cleanup_step. apply (good_try _ _ _ any); [by apply listed_good|]. intros active _.
  destruct (DecideCleanup _ _ _ _); [done| |done]. apply given_try. unfold startCleanup.
  apply (good_try _ _ _ any); [|done]. apply create_job_good. unfold CleanupJob. by destruct (String.eqb _ _).
Qed.
(** The observation part up to the serving gate. *)
Lemma reconcile_observe_sure (C : ∀ R, call R → Prop) a (active : bool) (Q : App → Prop) :
  likely (observeBuild r a) (good Q) →
  (∀ a1 a5 cleaned, Q a1 → settled a5 = settled a1 →
     sure C (app ←? (if hasSucceededOnce a5 then ensureServing r a5 else mret (Ok a5));
             now ← do Now; let app := refreshPhase now app in
             record_app r app ;; do (UpdateStatus app) ;? deleteJobs cleaned ;; mret (Ok (MkResult false (10 * Minute))))) →
  sure C (reconcile_observe r a active).
Proof using Hhealthy Hcalm.
  intros Hb Hk. unfold reconcile_observe. apply inevitable_then. eapply given_mono, Hb. intros [a1|e] H1'; [|done].
  apply inevitable_then.
  eapply given_mono, (given_and _ _ _ _ (likely_of app _ Hhealthy _ _ (observeMeasurement_good app a1)) (observeMeasurement_settled a1)).
  intros [[a2 m]|e] [Hg H2']; [|done]. apply inevitable_then.
  eapply given_mono, given_returns, recordPVCCapacities_settled. intros a3 H3'. apply inevitable_then.
  eapply given_mono, (given_and _ _ _ _ (reconcileCleanup_calm a3 active) (reconcileCleanup_settled r a3 active)).
  intros [[a4 c]|e] [Hg' H4']; [|done]. cbv zeta. apply (Hk a1 _ (m ++ c)); [done|]. cbn in H2', H4'.
  rewrite <-H2', <-H3', <-H4'. done.
Qed.
(** Such a pass writes the status of the build it observed. *)
Lemma observe_writes (C : ∀ R, call R → Prop) a (active : bool) (Q : App → Prop) :
  (∀ a1, Q a1 → id_of a1 = id_of app) → likely (observeBuild r a) (good Q) →
  (∀ a1 a6, Q a1 → settled a6 = settled a1 → s_Phase (app_Status a6) = phaseOf a6 → C _ (UpdateStatus a6)) →
  sure C (reconcile_observe r a active).
Proof using Hhealthy Hcalm.
  intros Hid Hb Hk. eapply reconcile_observe_sure; [exact Hb|]. intros a1 a5 cleaned H1' H5.
  assert (Hid5 : id_of a5 = id_of app) by (rewrite (core_id a1 a5), (Hid a1); [done..|by apply settled_core]).
  apply inevitable_then. apply (given_mono _ _ (good (λ a6, settled a6 = settled a1))).
  2: { destruct (hasSucceededOnce a5); [|done].
       eapply given_mono, (given_and _ _ _ _ (likely_of app _ Hhealthy _ _ (ensureServing_good r app a5 Hid5)) (ensureServing_settled r a5)).
       intros [a6|e] [Hg H6']; [|done]. cbn in *. by rewrite H6'. }
  intros [a6|e] H6'; [|done]. cbn in H6'. apply inevitable_then. intros now _. apply inevitable_then. intros [] _.
  apply inevitable_now. left. apply (Hk a1); [done| |apply refreshPhase_phase].
  by rewrite refreshPhase_settled.
Qed.
End calm.
End sure.

(** ** The first pass asks for a build *)
Lemma itoa_loop_nonempty fuel n acc : acc ≠ "" → itoa_loop fuel n acc ≠ "".
Proof. revert n acc. induction fuel as [|f IH]; intros n acc Ha; cbn; [done|]. destruct (n <? 10); [done|by apply IH]. Qed.
Lemma Itoa_not_empty n : Itoa n ≠ "".
Proof. unfold Itoa. destruct (n <? 0); [done|]. cbn. destruct (n <? 10); [done|by apply itoa_loop_nonempty]. Qed.
Lemma annotation_insert app k v : om_Annotations (app_Meta app) !! k = Some v → annotation app k = v.
Proof. unfold annotation. by intros ->. Qed.

Section passes.
Context `{GoRuntime} `{MapOrder} `{KubeLib} (r : AppReconciler).

(** A patch that asks for a build of its own accord. *)
Definition seeds (R : Type) (c : call R) : Prop :=
  match c with
  | PatchApp _ a' => ∃ token, token ≠ "" ∧ annotation a' RebuildAnnotation = token ∧
      annotation a' RebuildByAnnotation = "" ∧ annotation a' RebuildCommitAnnotation = ""
  | _ => False
  end.
Lemma fresh_pass_seeds app ns n : configured r → admissible r app → being_deleted app = false →
  phaseOf app = PhaseAwaitingFirstBuild → annotation app RebuildAnnotation = "" →
  inevitable (healthy app) seeds (Reconcile r ns n).
Proof.
  intros Hc Ha Hd Hp Hann. apply (Reconcile_sure r app _ (λ _ _ _ Hx, Hx)); [done..|].
  intros a d (Hs & Hst & Hid & Ha'). unfold reconcile_infra. cbv zeta. set (a2 := on_status _ (on_status _ a)).
  apply (sure_try app _ (λ _ _ _ Hx, Hx) _ _ _ any).
  { apply (ensureInfra_good r app a2); [done..|]. by destruct (admissible_spec r app a2 Hs Ha) as (_ & _ & _ & ? & _). }
  intros _ _.
  assert (Ep : phaseOf a2 = phaseOf app).
  { unfold phaseOf, hasSucceededOnce, condition_true, findCondition, build_of. cbn. by rewrite Hst. }
  assert (Ea : annotation a2 RebuildAnnotation = annotation app RebuildAnnotation) by (unfold annotation; cbn; by rewrite Ha').
  rewrite Ep, Ea, Hp, Hann. cbn [String.eqb andb]. rewrite String.eqb_refl. cbn [andb].
  apply inevitable_now. unfold seedRebuild. apply inevitable_then. intros now _. left.
  exists (Itoa (now / Second)). split; [apply Itoa_not_empty|]. unfold annotation. cbn. by simplify_map_eq.
Qed.

(** ** The second pass starts it and remembers its Job *)
(** The status written names the Job and does not count it as finished. *)
Definition remembers (app : App) (R : Type) (c : call R) : Prop :=
  match c with
  | UpdateStatus a => b_JobName (build_of a) = buildJobName app (annotation app RebuildAnnotation) ∧ terminal (build_of a) = false ∧
      s_LastProcessedRebuild (app_Status a) = annotation app RebuildAnnotation
  | _ => False
  end.
Definition starting (app : App) (R : Type) (c : call R) (x : R) : Prop :=
  healthy_idle app R c x ∧ calm R c x ∧ job_runs R c x.
Lemma starting_healthy app R (c : call R) x : starting app R c x → healthy app R c x.
Proof. by intros [[? _] _]. Qed.
Lemma startBuild_names app a token d : returns_given (healthy app) (startBuild r a token d) (good (λ a',
  b_JobName (build_of a') = buildJobName a token ∧ terminal (build_of a') = false)).
Proof.
  unfold startBuild, create_job. destruct (SetControllerReference_free a (j_Meta (BuildJob r a token d))) as [m Hm]; [done..|].
  rewrite Hm. apply SetControllerReference_labels in Hm as (_ & Hn & _). intros ? (j' & -> & Hj). cbn in Hj. intros now _. cbn [free_bind_].
  destruct (String.eqb _ _); intros ? _; cbn; [intros ? _; cbn|]; by rewrite Hj, Hn.
Qed.
Lemma observeBuild_running ok a : (∀ R (c : call R) x, ok R c x → job_runs R c x) →
  returns_given ok (observeBuild r a) (good (λ a', b_JobName (build_of a') = b_JobName (build_of a) ∧
    (terminal (build_of a) = false → terminal (build_of a') = false) ∧ request a' = request a)).
Proof.
  intros Hok. unfold observeBuild. destruct (String.eqb _ ""); [done|]. apply given_bind. intros [job|e] Hj; apply Hok in Hj; cbn in Hj.
  - cbn [returns_given]. destruct (_ && terminal _); [done|]. rewrite Hj. apply given_bind, given_returns.
    eapply returns_mono, returns_any. intros [pod|] _; done.
  - cbn [returns_given]. by rewrite Hj.
Qed.
Lemma buildJobName_nonempty a token : buildJobName a token ≠ "".
Proof. unfold buildJobName. by destruct (app_Name a). Qed.
Lemma requested_pass_remembers app ns n : configured r → admissible r app → being_deleted app = false →
  annotation app RebuildAnnotation ≠ "" → annotation app RebuildAnnotation ≠ s_LastProcessedRebuild (app_Status app) →
  inevitable (starting app) (remembers app) (Reconcile r ns n).
Proof.
  intros Hc Ha Hd Hne Ht. apply (Reconcile_to_build r app _ (starting_healthy app)); [done..|]. intros a2 d Htake.
  pose proof (taken_up_annotation _ _ RebuildAnnotation Htake) as Ea. destruct (taken_up_build _ _ Htake) as (_ & El & _).
  destruct Htake as (_ & Hid & _).
  assert (En : ∀ token, buildJobName a2 token = buildJobName app token)
    by (intros token; unfold buildJobName; by injection Hid as _ -> _).
  apply (reconcile_build_idle r app _ (starting_healthy app)); [by intros ? ? ? [[_ ?] _]|].
  rewrite decide_False by congruence. rewrite Ea. apply inevitable_then.
  eapply given_mono, (given_and _ _ _ _ (given_weaken _ _ _ _ (starting_healthy app) (startBuild_names app a2 _ d))
    (startBuild_request r a2 _ d)).
  intros [a3|e] [Hg Hr]; [|done]. cbn in Hg, Hr. destruct Hg as [Hj Hterm].
  apply (observe_writes r app _ (starting_healthy app) (λ _ _ _ Hx, proj1 (proj2 Hx)) _ _ _
    (λ a', b_JobName (build_of a') = buildJobName app (annotation app RebuildAnnotation) ∧
       terminal (build_of a') = false ∧ request a' = request a3)).
  - intros a1 (_ & _ & Hq). rewrite (request_id a3 a1 Hq). unfold request in Hr. injection Hr as Em _.
    unfold id_of, app_Namespace, app_Name, app_UID in *. by rewrite Em.
  - eapply given_mono, (observeBuild_running _ a3 (λ _ _ _ Hx, proj2 (proj2 Hx))).
    intros [a4|e] Hx; [|done]. destruct Hx as (Hj4 & Ht4 & Hq). split_and!; [|by apply Ht4|done].
    by rewrite Hj4, Hj, En.
  - intros a1 a6 (Hj1 & Ht1 & Hq) H6 _. cbn. rewrite (settled_build _ _ H6). split_and!; [done..|].
    apply settled_request in H6. rewrite Hq in H6. unfold request in H6. injection H6 as _ ->.
    unfold request in Hr. by injection Hr as _ ->.
Qed.

(** ** The third pass serves it *)
Definition looks_up (ns name : string) (R : Type) (c : call R) : Prop :=
  match c with GetJob ns' n => ns' = ns ∧ n = name | _ => False end.
Definition reports_ready (R : Type) (c : call R) : Prop :=
  match c with
  | UpdateStatus a => s_Phase (app_Status a) = PhaseReady ∧ b_Result (build_of a) = BuildResultSucceeded ∧
      hasSucceededOnce a = true
  | _ => False
  end.
Definition finishing (app : App) (R : Type) (c : call R) (x : R) : Prop :=
  healthy app R c x ∧ calm R c x ∧ job_done R c x.
Lemma observeBuild_completed ok a : (∀ R (c : call R) x, ok R c x → job_done R c x) →
  b_JobName (build_of a) ≠ "" → terminal (build_of a) = false →
  returns_given ok (observeBuild r a) (good (λ a', ∃ job, observed_success a job a')).
Proof.
  intros Hok Hj Ht. unfold observeBuild. rewrite (proj2 (String.eqb_neq _ _) Hj), Ht.
  apply given_bind. intros res Hres. apply Hok in Hres as (job & -> & Hc). unfold completed in Hc.
  cbn [returns_given]. rewrite andb_false_r. destruct (jobFinished job) as [cond|]; [|done]. apply String.eqb_eq in Hc.
  apply given_bind, given_returns. eapply returns_mono, observe_terminal_success, Hc. intros a' Ha'. by exists job.
Qed.
(** A pass over an App with a remembered build that has completed. *)
Lemma completed_pass_sure (C : ∀ R, call R → Prop) app ns n : configured r → admissible r app → being_deleted app = false →
  annotation app RebuildAnnotation ≠ "" → annotation app RebuildAnnotation = s_LastProcessedRebuild (app_Status app) →
  b_JobName (build_of app) ≠ "" → terminal (build_of app) = false →
  (∀ a active, app_Spec a = app_Spec app → id_of a = id_of app → build_of a = build_of app →
     returns_given (finishing app) (observeBuild r a) (good (λ a', ∃ job, observed_success a job a')) →
     inevitable (finishing app) C (reconcile_observe r a active)) →
  inevitable (finishing app) C (Reconcile r ns n).
Proof.
  intros Hc Ha Hd Hne Hp Hj Ht Hk. apply (Reconcile_to_build r app _ (λ _ _ _ Hx, proj1 Hx)); [done..|]. intros a d Htake.
  pose proof (taken_up_annotation _ _ RebuildAnnotation Htake) as Ea. destruct (taken_up_build _ _ Htake) as (Eb & El & _).
  destruct Htake as (Hs & Hid & _). unfold reconcile_build. rewrite Ea, El, Hp.
  apply (sure_try app _ (λ _ _ _ Hx, proj1 Hx) _ _ _ any); [by apply listed_good|]. intros [active m] _.
  unfold DecideBuild. rewrite decide_True by done. apply Hk; [done..|].
  apply observeBuild_completed; [by intros ? ? ? (_ & _ & ?)|by rewrite Eb..].
Qed.

(** ** End to end *)
(** The App as the API server has it after a write: spec and identity, the annotations and
    the status that were written. *)
Definition stored (base annotated : App) (status : AppStatus) (a : App) : Prop :=
  app_Spec a = app_Spec base ∧ id_of a = id_of base ∧
  om_Annotations (app_Meta a) = om_Annotations (app_Meta annotated) ∧ app_Status a = status ∧ being_deleted a = false.
Notation trace_ok ok := (Forall (λ e, match e with Ev c x => ok _ c x end)).
Definition applied_ok (o : kobject) (tr : list event) : Prop := (o, Ok tt) ∈ omap applied_obj tr.
Definition written_ok (a : App) (tr : list event) : Prop := (a, Ok tt) ∈ omap status_update tr.

Lemma ready_status app job a1 a6 : observed_success app job a1 → settled a6 = settled a1 →
  s_Phase (app_Status a6) = phaseOf a6 → reports_ready _ (UpdateStatus a6).
Proof.
  intros (_ & _ & Hres & Hph & _ & Hsucc & _ & _ & _ & Hdeg) H6 Hp. cbn.
  rewrite Hp, (phaseOf_settled _ _ H6), (settled_build _ _ H6), (settled_succeeded _ _ H6).
  split_and!; [|done..]. unfold phaseOf. by rewrite Hsucc, Hph, Hdeg.
Qed.
Lemma in_trace_of ok {R} (c : call R) x tr : trace_ok ok tr → Ev c x ∈ tr → ok R c x.
Proof. intros Hall Hin. by apply (proj1 (list.Forall_forall _ _) Hall) in Hin. Qed.

(** The App a pass works on is the one the cluster has. *)
Lemma entered_healthy app ns n a tr : trace_ok (healthy app) tr → entered ns n a tr →
  id_of a = id_of app ∧ app_Spec a = app_Spec app.
Proof.
  intros Hall (a0 & Hg & Hu). pose proof (in_trace_of _ _ _ _ Hall Hg) as Hx. injection Hx as ->.
  destruct Hu as [->|[Ef Hu]]; [done|]. destruct (in_trace_of _ _ _ _ Hall Hu) as (a' & [= <-] & Hs & _ & Hid & _).
  unfold AddFinalizer in Hs, Hid. by rewrite Ef in Hs, Hid.
Qed.
(** The third pass, as a run. *)
Lemma completed_pass_serves app ns n tr res : configured r → admissible r app → being_deleted app = false →
  annotation app RebuildAnnotation ≠ "" → annotation app RebuildAnnotation = s_LastProcessedRebuild (app_Status app) →
  b_JobName (build_of app) ≠ "" → terminal (build_of app) = false →
  run (Reconcile r ns n) tr res → trace_ok (finishing app) tr →
  (∃ job, (app_Namespace app, b_JobName (build_of app), Ok job) ∈ omap got_job tr ∧ completed job = true) ∧
  served r app tr ∧
  (∃ a, written_ok a tr ∧ s_Phase (app_Status a) = PhaseReady ∧ b_Result (build_of a) = BuildResultSucceeded).
Proof.
  intros Hc Ha Hd Hne Hp Hj Ht Hr Hall.
  pose proof (λ C HC, inevitable_run _ _ _ _ _ (completed_pass_sure C app ns n Hc Ha Hd Hne Hp Hj Ht HC) Hr Hall) as Hrest.
  split.
  { destruct (Hrest (looks_up (app_Namespace app) (b_JobName (build_of app)))) as (R3 & c3 & x3 & Hin3 & Hc3).
    - intros a active _ Hid Eb _. unfold reconcile_observe, observeBuild. apply inevitable_now.
      rewrite Eb, (proj2 (String.eqb_neq _ _) Hj). left. split; [by injection Hid|done].
    - destruct c3; try done. destruct Hc3 as [-> ->]. destruct (in_trace_of _ _ _ _ Hall Hin3) as (_ & _ & job & -> & Hdone).
      exists job. split; [|done]. apply list_elem_of_omap. eexists. split; [exact Hin3|done]. }
  destruct (Hrest reports_ready) as (R3 & c3 & x3 & Hin3 & Hc3).
  { intros a active Hsp Hid Eb Hob. eapply (observe_writes r app _ (λ _ _ _ Hx, proj1 Hx) (λ _ _ _ Hx, proj1 (proj2 Hx))); [|exact Hob|].
    - intros a1 (job & _ & Hq & _). by rewrite (request_id a a1 Hq).
    - intros a1 a6 (job & Hsu). by eapply ready_status. }
  destruct c3; try done. destruct Hc3 as (Hph & Hres & Hsucc). split.
  - destruct (pass_served r ns n tr res _ _ Hr Hin3 Hsucc) as (a & Hent & Hserved); [by rewrite Hph|].
    apply (entered_healthy app) in Hent as [Hid Hs]; [|eapply Forall_impl; [exact Hall|]; by intros [R c x] [? _]].
    by apply (served_same r a).
  - eexists. split; [|by split]. apply list_elem_of_omap. eexists. split; [exact Hin3|].
    destruct (in_trace_of _ _ _ _ Hall Hin3) as [Hx _]. cbn in Hx. by rewrite Hx.
Qed.

(** C8: a fresh App is built and served without anyone asking.  On a cluster that works, in
    every run: a first pass over an admissible App that was never built patches a rebuild
    request onto it; the pass over the App so stored creates the build Job of its spec for
    that very request, owned by it, and writes a status that names the Job; and the pass
    that follows reads the Job of that name and, finding it complete, puts up the whole
    serving stack of the App (nginx with its configuration, the Service, the Ingress, the
    network policy, and the middleware if it has basic auth), each object owned by it, and
    writes the status Ready, with the build succeeded. *)
Theorem first_build_served app app2 app3 ns n tr1 res1 tr2 res2 tr3 res3 :
  configured r → admissible r app → being_deleted app = false →
  phaseOf app = PhaseAwaitingFirstBuild → annotation app RebuildAnnotation = "" →
  s_LastProcessedRebuild (app_Status app) = "" →
  run (Reconcile r ns n) tr1 res1 → trace_ok (healthy app) tr1 →
  (∀ a a' x, Ev (PatchApp a a') x ∈ tr1 → stored app a' (app_Status app) app2) →
  run (Reconcile r ns n) tr2 res2 → trace_ok (starting app2) tr2 →
  (∀ a x, Ev (UpdateStatus a) x ∈ tr2 → stored app2 app2 (app_Status a) app3) →
  run (Reconcile r ns n) tr3 res3 → trace_ok (finishing app3) tr3 →
  let token := annotation app2 RebuildAnnotation in
  (∃ a a' x, Ev (PatchApp a a') x ∈ tr1 ∧ annotation a' RebuildAnnotation = token ∧ token ≠ "") ∧
  (∃ j j' a, (j, Ok j') ∈ omap created_job tr2 ∧ built_from r a j ∧ app_Spec a = app_Spec app ∧ id_of a = id_of app ∧
     annotation a RebuildAnnotation = token) ∧
  (∃ job, (app_Namespace app, buildJobName app token, Ok job) ∈ omap got_job tr3 ∧ completed job = true) ∧
  served r app tr3 ∧
  (∃ a, written_ok a tr3 ∧ s_Phase (app_Status a) = PhaseReady ∧ b_Result (build_of a) = BuildResultSucceeded).
Proof.
  intros Hc Ha Hd Hp Hann Hl R1 O1 S1 R2 O2 S2 R3 O3. cbv zeta.
  destruct (inevitable_run _ _ _ _ _ (fresh_pass_seeds app ns n Hc Ha Hd Hp Hann) R1 O1) as (R & c & x & Hin & Hseed).
  destruct c; try done. destruct Hseed as (token & Hne & Htok & _).
  destruct (S1 _ _ _ Hin) as (Hs2 & Hid2 & Ha2 & Hst2 & Hd2).
  assert (Hann2 : annotation app2 RebuildAnnotation = token) by (unfold annotation in *; by rewrite Ha2).
  assert (Hadm2 : admissible r app2) by by apply (admissible_spec r app).
  assert (Hnew2 : annotation app2 RebuildAnnotation ≠ s_LastProcessedRebuild (app_Status app2)) by (rewrite Hst2, Hl; congruence).
  split; [eexists _, _, x; split_and!; [exact Hin|congruence..]|]. split.
  { destruct (starts_for_created r app2 tr2) as (j & j' & a & Hj & Hb & Hsp & Hid & Hat).
    - eapply Forall_impl; [exact O2|]. by intros [R' c' x'] [? _].
    - apply (inevitable_run _ _ _ _ _ (requested_pass_starts r app2 ns n Hc Hadm2 Hd2 ltac:(congruence) Hnew2) R2).
      eapply Forall_impl; [exact O2|]. by intros [R' c' x'] [? _].
    - exists j, j', a. split_and!; [done|done|congruence..]. }
  clear Hin x.
  destruct (inevitable_run _ _ _ _ _ (requested_pass_remembers app2 ns n Hc Hadm2 Hd2 ltac:(congruence) Hnew2) R2 O2) as (R' & c & x & Hin & Hrem).
  destruct c; try done. destruct Hrem as (Hj & Ht & Hlp). destruct (S2 _ _ Hin) as (Hs3 & Hid3 & Ha3 & Hst3 & Hd3).
  assert (Hann3 : annotation app3 RebuildAnnotation = annotation app2 RebuildAnnotation) by (unfold annotation; by rewrite Ha3).
  assert (Hadm3 : admissible r app3) by by apply (admissible_spec r app2).
  assert (Hj3 : b_JobName (build_of app3) = buildJobName app (annotation app2 RebuildAnnotation)).
  { unfold build_of in *. rewrite Hst3, Hj. unfold buildJobName. by injection Hid2 as _ -> _. }
  destruct (completed_pass_serves app3 ns n tr3 res3) as ((job & Hgot & Hdone) & Hserved & Hw); try done.
  - congruence.
  - rewrite Hann3, Hst3. congruence.
  - rewrite Hj3. apply buildJobName_nonempty.
  - unfold build_of in *. by rewrite Hst3.
  - split_and!; [|by apply (served_same r app3); congruence|exact Hw]. exists job. split; [|done].
    rewrite Hj3 in Hgot. rewrite Hid2 in Hid3. injection Hid3 as <- _ _. exact Hgot.
Qed.
End passes.
