(* ===== verification/CleanupProgress.v ===== *)
(** A requested cleanup starts: progress of the cleanup loop of a reconcile pass. *)
From Stdlib Require Import ZArith Ascii String.
From stdpp Require Import base gmap strings list numbers sorting.
From S2P Require Import Prelude GoStd GoNum Images Storage Decisions WatchSchedule BuildSpec AppTypes Kube Config BuildSteps Naming AppView GitCred BuildPod Children Free Prog JsonDecode Ensure GitSync Measure Cleanup Controller Footprint Serial Lifecycle Validation Progress Serving FirstBuild.

Open Scope string_scope.
Open Scope list_scope.
Open Scope Z_scope.

(** ** Who writes the cleanup records *)
Notation cleanups app := (s_Cleanup (app_Status app)).
Lemma action_of_ext a b mode : cleanups a = cleanups b → action_of a mode = action_of b mode.
Proof. unfold action_of. by intros ->. Qed.
Lemma actionStatus_looks a mode mode' : action_of (actionStatus a mode id) mode' = action_of a mode'.
Proof.
  unfold action_of, actionStatus. cbn. destruct (s_Cleanup (app_Status a)) as [[rel cache]|]; cbn;
    destruct (String.eqb mode cleanupModeReleases), (String.eqb mode' cleanupModeReleases); cbn; try done; by destruct rel || destruct cache.
Qed.

Section keeps.
Context `{GoRuntime} `{MapOrder} `{KubeLib} (r : AppReconciler).

Lemma set_condition_cleanups app t st re msg (Q : App → Prop) :
  (∀ a, cleanups a = cleanups app → Q a) → returns (set_condition app t st re msg) Q.
Proof. intros Hq. apply returns_set_condition. intros now. by apply Hq. Qed.
Lemma applyCopierTermination_cleanups app job : returns (applyCopierTermination app job) (λ a, cleanups a = cleanups app).
Proof.
  unfold applyCopierTermination. apply returns_bind, returns_do. intros [pods|e]; [|done].
  destruct (latest_terminated _ _ _) as [[pod t]|]; [|done]. cbv zeta.
  destruct (parseCopierMessage _) as [blob|]; [|done]. apply returns_bind.
  destruct (String.eqb (cm_Current blob) ""); [|intros now];
    (cbn [returns free_bind_]; destruct (0 <? _); case_bool_decide; [done|by intros..]).
Qed.
Lemma observe_success_cleanups app job : returns (observe_success r app job) (λ a, cleanups a = cleanups app).
Proof.
  unfold observe_success. apply returns_bind, returns_do. intros now. cbv zeta. apply returns_bind.
  eapply returns_mono, applyCopierTermination_cleanups. intros a2 E2.
  apply returns_bind. eapply returns_mono, returns_any. intros _ _.
  apply returns_bind, set_condition_cleanups. intros a3 E3. apply returns_bind, set_condition_cleanups. intros a4 E4.
  assert (cleanups a4 = cleanups app) by (rewrite E4, E3, E2; done).
  by destruct (js_TTLSecondsAfterFinished _); [|intros ?].
Qed.
Lemma observe_failure_cleanups app cond pod : returns (observe_failure app cond pod) (λ a, cleanups a = cleanups app).
Proof.
  unfold observe_failure. cbv zeta.
  set (app1 := match detectTermination _ _ with Some t => on_build _ app | None => app end).
  assert (E1 : cleanups app1 = cleanups app) by (subst app1; by destruct (detectTermination _ _)). clearbody app1.
  match goal with |- context [let '(_, _) := ?x in _] => destruct x as [reason message] end.
  apply returns_bind, set_condition_cleanups. intros a2 E2. apply returns_bind, set_condition_cleanups. intros a3 E3.
  apply returns_bind. eapply returns_mono, returns_any. intros [] _. cbn. congruence.
Qed.
Lemma observeBuild_cleanups app : returns (observeBuild r app) (then_ (λ a, cleanups a = cleanups app)).
Proof.
  unfold observeBuild. destruct (String.eqb _ ""); [done|]. apply returns_bind, returns_do.
  intros [job|e]; [|by destruct (is_not_found e)]. destruct (_ && terminal _); [done|].
  destruct (jobFinished job) as [cond|]; apply returns_bind.
  2: { eapply returns_mono, returns_any. by intros [pod|] _. }
  unfold observe_terminal. apply returns_bind, returns_do. intros now. cbv zeta. apply returns_bind.
  apply (returns_mono _ (λ a, cleanups a = cleanups app)).
  2: { destruct (String.eqb _ "Complete"); [apply (observe_success_cleanups (on_build _ app))|done]. }
  intros a1 E1. apply returns_bind. eapply returns_mono, returns_any. intros pod _. cbv zeta. apply returns_bind.
  apply (returns_mono _ (λ a, cleanups a = cleanups a1)).
  2: { destruct (String.eqb _ _); [apply (observe_failure_cleanups (finalize_steps a1 pod))|done]. }
  intros a2 E2. apply returns_bind, returns_do. intros []. apply returns_ret. cbn. unfold record_history.
  destruct (effectiveHistoryLimits r a2). cbn. congruence.
Qed.
Lemma recordSize_cleanups now app k n : cleanups (recordSize now app k n) = cleanups app.
Proof. unfold recordSize. destruct (_ !! k); [destruct (_ =? _)|]; done. Qed.
Lemma observeMeasurement_cleanups app : returns (observeMeasurement app) (then_app (λ a, cleanups a = cleanups app)).
Proof.
  unfold observeMeasurement. apply returns_try, returns_do. intros [jobs|e]; [|done]. cbv beta iota.
  apply (returns_fold_prog (λ st, cleanups st.1 = cleanups app)); [done| |by intros []].
  intros [a h] j _ Hc. destruct (jobFinished j) as [cond|]; [|done].
  destruct (_ || _); [done|]. apply returns_bind. eapply returns_mono, returns_any.
  intros [bytes|] _; [|done]. intros now. cbn. by rewrite recordSize_cleanups.
Qed.
Lemma recordPVCCapacities_cleanups app : returns (recordPVCCapacities app) (λ a, cleanups a = cleanups app).
Proof.
  unfold recordPVCCapacities. apply returns_bind. eapply returns_mono, returns_any.
  intros caps _. apply returns_ret. by case_bool_decide.
Qed.
End keeps.

(** ** The loop *)
Section cleanup.
Context `{GoRuntime} `{MapOrder} `{KubeLib} (r : AppReconciler) (app : App).

(** The App asks for this cleanup and has not had it. *)
Definition asks_cleanup (act : cleanupAction) : Prop :=
  act ∈ cleanupActionsFor app ∧ a_requestedAt act ≠ "" ∧ a_requestedAt act ≠ ca_RequestedAt (action_of app (a_mode act)).
(** The cluster works, and no Job runs, nor is a cleanup Job left over. *)
Definition tidy (R : Type) (c : call R) (x : R) : Prop := healthy app R c x ∧ idle R c x ∧ calm R c x.
(** The creation of the Job of a cleanup that was asked for. *)
Definition cleans (R : Type) (c : call R) : Prop :=
  match c with
  | CreateJob j => ∃ a act m, asks_cleanup act ∧ app_Spec a = app_Spec app ∧ id_of a = id_of app ∧
      SetControllerReference a (j_Meta (CleanupJob r a (a_mode act))) = Ok m ∧
      j = (CleanupJob r a (a_mode act)) <| j_Meta := m |>
  | _ => False
  end.
Notation must := (inevitable tidy).
Lemma tidy_healthy R (c : call R) x : tidy R c x → healthy app R c x.
Proof. by intros []. Qed.
(** The App during the pass, as far as the loop reads it. *)
Definition in_loop (a : App) : Prop :=
  app_Spec a = app_Spec app ∧ id_of a = id_of app ∧ ∀ mode, action_of a mode = action_of app mode.

Lemma cleanup_loop_must acts a : Forall (λ act, act ∈ cleanupActionsFor app) acts → Exists asks_cleanup acts → in_loop a →
  must cleans (fold_prog acts (cleanup_step r false []) (a, false)).
Proof.
  revert a. induction acts as [|act acts IH]; intros a Hall Hex (Hs & Hid & Hact); [by apply Exists_nil in Hex|].
  apply Forall_cons in Hall as [Hin Hall]. cbn [fold_prog]. unfold cleanup_step, cleanupActive.
  set (a1 := actionStatus a (a_mode act) id).
  assert (H1' : in_loop a1) by (split_and!; [done|done|]; intros mode; subst a1; by rewrite actionStatus_looks).
  assert (Ea : ca_RequestedAt (action_of a1 (a_mode act)) = ca_RequestedAt (action_of app (a_mode act))) by (by destruct H1' as (_ & _ & ->)).
  clearbody a1. right. intros res (_ & _ & Hcalm). cbn in Hcalm. rewrite Hcalm by apply role_cleanup.
  cbn [try mbind free_bind free_bind_ mret free_ret existsb orb]. rewrite Ea. unfold DecideCleanup. case_decide as Hd.
  - apply IH; [done| |done]. apply Exists_cons in Hex as [(_ & ? & ?)|Hex]; [tauto|done].
  - assert (Hask : asks_cleanup act) by (split_and!; [done|naive_solver..]). cbn [orb]. apply inevitable_now, inevitable_now. unfold startCleanup. apply inevitable_now.
    unfold create_job. destruct (SetControllerReference_free a1 (j_Meta (CleanupJob r a1 (a_mode act)))) as [m Hm];
      [unfold CleanupJob; by destruct (String.eqb _ _)..|].
    rewrite Hm. left. exists a1, act, m. destruct H1' as (? & ? & _). done.
Qed.
Lemma cleanupActionsFor_ext a b : (∀ k, annotation a k = annotation b k) → cleanupActionsFor a = cleanupActionsFor b.
Proof. intros E. unfold cleanupActionsFor. by rewrite !E. Qed.
Lemma reconcileCleanup_must a : (∀ k, annotation a k = annotation app k) → in_loop a → (∃ act, asks_cleanup act) →
  must cleans (reconcileCleanup r a false).
Proof.
  intros Hann Ha (act & Hask). unfold reconcileCleanup, observeCleanup. right. intros res (_ & _ & Hcalm). cbn in Hcalm.
  rewrite Hcalm by apply role_cleanup. cbn [try mbind free_bind free_bind_ mret free_ret fold_prog].
  apply inevitable_now. rewrite (cleanupActionsFor_ext a app) by done.
  apply cleanup_loop_must; [by apply list.Forall_forall| |done]. apply list.Exists_exists. exists act. split; [apply Hask|done].
Qed.
Lemma observeBuild_app a : returns_given tidy (observeBuild r a)
  (good (λ a', app_Spec a' = app_Spec a ∧ app_Meta a' = app_Meta a ∧ cleanups a' = cleanups a)).
Proof.
  eapply given_mono, (given_and _ _ _ _ (given_and _ _ _ _ (given_and _ _ _ _
    (given_weaken _ _ _ _ tidy_healthy (observeBuild_good r app a)) (observeBuild_spec r a)) (observeBuild_request r a)) (observeBuild_cleanups r a)).
  intros [a'|e] [[[Hg Hs] Hq] Hc]; [|done]. cbn in *. unfold request in Hq. by injection Hq.
Qed.
Lemma reconcile_observe_must a : taken_up app a → (∃ act, asks_cleanup act) → must cleans (reconcile_observe r a false).
Proof.
  intros Htake Hask. destruct (taken_up_build _ _ Htake) as (_ & _ & Ec). pose proof (λ k, taken_up_annotation _ _ k Htake) as Ea.
  destruct Htake as (Hs & Hid & _). unfold reconcile_observe. apply inevitable_then.
  eapply given_mono, observeBuild_app. intros [a1|e] Hb; [|done]. destruct Hb as (Hs1 & Hm1 & Hc1). apply inevitable_then.
  eapply given_mono, (given_and _ _ _ _ (given_and _ _ _ _ (given_weaken _ _ _ _ tidy_healthy (observeMeasurement_good app a1))
    (observeMeasurement_core a1)) (observeMeasurement_cleanups a1)).
  intros [[a2 m]|e] [[Hg H2'] Hc2]; [|done]. cbn in H2', Hc2. apply inevitable_then.
  eapply given_mono, (given_and _ _ _ _ (given_returns _ _ _ (recordPVCCapacities_core a2)) (recordPVCCapacities_cleanups a2)).
  intros a3 [H3' Hc3]. apply inevitable_now.
  assert (E3 : core a3 = core a1) by congruence. unfold core in E3. injection E3 as Hm3 Hs3 _.
  apply reconcileCleanup_must; [| |done].
  - intros k. rewrite <-(Ea k). unfold annotation. by rewrite Hm3, Hm1.
  - split_and!; [congruence| |intros mode; apply action_of_ext; congruence].
    rewrite <-Hid. unfold id_of, app_Namespace, app_Name, app_UID. by rewrite Hm3, Hm1.
Qed.

(** C9: a requested cleanup starts: when the operator is configured, the cluster works and
    no Job runs or is left to harvest, every pass over an admissible App whose rebuild
    annotation is set and was processed creates the Job of a cleanup the App asks for and
    has not had, owned by it. *)
Theorem requested_cleanup_starts ns n tr res : configured r → admissible r app → being_deleted app = false →
  annotation app RebuildAnnotation ≠ "" →
  annotation app RebuildAnnotation = s_LastProcessedRebuild (app_Status app) →
  (∃ act, asks_cleanup act) →
  run (Reconcile r ns n) tr res → Forall (λ e, match e with Ev c x => tidy _ c x end) tr →
  ∃ a act m j', asks_cleanup act ∧ app_Spec a = app_Spec app ∧ id_of a = id_of app ∧
    SetControllerReference a (j_Meta (CleanupJob r a (a_mode act))) = Ok m ∧
    ((CleanupJob r a (a_mode act)) <| j_Meta := m |>, Ok j') ∈ omap created_job tr.
Proof.
  intros Hc Ha Hd Hne Hp Hask Hr Hall.
  assert (Hmust : must cleans (Reconcile r ns n)).
  { apply (Reconcile_to_build r app _ tidy_healthy); [done..|]. intros a d Htake.
    apply (reconcile_build_idle r app _ tidy_healthy); [by intros ? ? ? (_ & ? & _)|].
    rewrite decide_True; [by apply reconcile_observe_must|].
    rewrite (taken_up_annotation _ _ _ Htake). by destruct (taken_up_build _ _ Htake) as (_ & -> & _). }
  destruct (inevitable_run _ _ _ _ _ Hmust Hr Hall) as (R & c & x & Hin & Hcl). destruct c; try done.
  destruct Hcl as (a & act & m & Hact & Hs & Hid & Hm & ->).
  pose proof (proj1 (list.Forall_forall _ _) Hall _ Hin) as [(j' & -> & _) _]. exists a, act, m, j'. split_and!; [done..|].
  apply list_elem_of_omap. by eexists.
Qed.
End cleanup.
