(* ===== verification/Worlds.v ===== *)
(** Concrete clusters: the theorems about reconcile passes, applied to runs that
    start a build, harvest one, reject an App and delete one. *)
From Stdlib Require Import ZArith Ascii String.
From stdpp Require Import base gmap strings list numbers sorting.
From S2P Require Import Prelude GoStd GoNum Images Storage Decisions BuildSpec AppTypes Kube Config BuildSteps Naming AppView GitCred BuildPod Children Free Prog JsonDecode Ensure GitSync Measure Cleanup Metrics Controller Footprint Serial Lifecycle StatusInv MetricsTrace Watches Validation Progress Serving FirstBuild CleanupProgress.

Open Scope string_scope.
Open Scope list_scope.
Open Scope Z_scope.

#[local] Existing Instance ascii_only_tables.
#[local] Existing Instance some_order.
#[local] Existing Instance any_quantity.

(** The sample App, admitted and asking for a rebuild. *)
Definition asking_app : App :=
  sample_app <| app_Meta ::= λ m, m <| om_Finalizers := [FinalizerName] |>
    <| om_Annotations := {[RebuildAnnotation := "1700000000"]} |> |>.

(** An idle cluster that has this App. *)
Definition idle_world (app : App) : ∀ R, call R → unit → R * unit := λ R c w,
  (match c in call R return R with
   | GetApp _ _ => Ok app
   | c => default_answer c
   end, w).
Definition start_pass := Reconcile sample_reconciler "web" "site".

(** A cluster in which the build finished and a measurement is ready. *)
Definition done_job : Job :=
  (BuildJob sample_reconciler asking_app "1700000000" anonymous)
    <| j_Conditions := [MkJobCondition "Complete" "True" ""] |>.
Definition measured_job : Job :=
  (MeasureJob sample_reconciler asking_app (MkMeasureTarget "cache" "cache" "site-cache" volCache))
    <| j_Meta ::= λ m, m <| om_UID := "du-1" |> |>
    <| j_Conditions := [MkJobCondition "Complete" "True" ""] |>.
Definition du_pod : Pod :=
  MkPod (zero_meta <| om_OwnerReferences := [MkOwnerReference "Job" "site-measure-cache" "du-1" true] |>)
    (MkPodSpec "Never" "" None None [] [] [] [] "node-1") []
    [MkContainerStatus "du" None (Some (MkTerminated 0 "Completed" "4096" 1 2))].
Definition building_app : App :=
  asking_app <| app_Status ::= λ s, s <| s_LastProcessedRebuild := "1700000000" |>
    <| s_Build ::= λ b, b <| b_Phase := BuildPhaseRunning |> <| b_JobName := om_Name (j_Meta done_job) |> |> |>.
Definition done_world : ∀ R, call R → unit → R * unit := λ R c w,
  (match c in call R return R with
   | GetApp _ _ => Ok building_app
   | GetJob _ _ => Ok done_job
   | ListJobs _ sel => Ok (if String.eqb (role_of sel) "measure" then [measured_job] else [])
   | ListPods _ sel => Ok (if String.eqb (role_of sel) "measure" then [du_pod] else [])
   | c => default_answer c
   end, w).

Lemma pass_serializes_builds_and_cleanups_witness :
  map (λ x, job_role x.1) (omap created_job (trace_of (idle_world asking_app) start_pass tt)) = ["build"] ∧
  is_Some (feed serial new_pass (trace_of (idle_world asking_app) start_pass tt)).
Proof.
  split; [vm_compute; reflexivity|].
  exact (pass_serializes_builds_and_cleanups sample_reconciler "web" "site" _ _ (executes _ _ _)).
Defined.

Lemma collect_after_persist_witness :
  omap deleted_job (trace_of done_world start_pass tt) = [measured_job] ∧
  is_Some (feed collect new_ledger (trace_of done_world start_pass tt)).
Proof.
  split; [vm_compute; reflexivity|].
  exact (collect_after_persist sample_reconciler "web" "site" _ _ (executes _ _ _)).
Defined.

Lemma serving_needs_a_success_witness :
  map (λ x, kind (o_Spec x.1)) (omap applied_obj (trace_of done_world start_pass tt)) =
    ["NetworkPolicy"; "ConfigMap"; "Deployment"; "Ingress"; "NetworkPolicy"] ∧
  is_Some (feed serve false (trace_of done_world start_pass tt)).
Proof.
  split; [vm_compute; reflexivity|].
  exact (serving_needs_a_success sample_reconciler "web" "site" _ _ (executes _ _ _)).
Defined.

(** The observation of that build, and of the App it leaves behind. *)
Definition observe_pass := observeBuild sample_reconciler building_app.
Definition observed_app : App :=
  match value_of done_world observe_pass tt with Ok app => app | Err _ => building_app end.

Lemma observeBuild_outcome_witness :
  value_of done_world observe_pass tt = Ok observed_app ∧
  b_Result (build_of observed_app) = BuildResultSucceeded ∧
  (observed_app = building_app ∨
   ∃ job, ("web", b_JobName (build_of building_app), Ok job) ∈ omap got_job (trace_of done_world observe_pass tt) ∧
    (String.eqb (b_JobName (build_of building_app)) (om_Name (j_Meta job)) && terminal (build_of building_app)) = false ∧
    match jobFinished job with
    | None => observed_running building_app observed_app
    | Some cond => if String.eqb (jc_Type cond) "Complete" then observed_success building_app job observed_app
                   else observed_failure building_app job observed_app
    end).
Proof.
  assert (Ev : value_of done_world observe_pass tt = Ok observed_app) by (vm_compute; reflexivity).
  split; [exact Ev|]. split; [vm_compute; reflexivity|].
  apply (observeBuild_outcome sample_reconciler building_app).
  rewrite <- Ev. exact (executes done_world observe_pass tt).
Defined.

Lemma observeBuild_once_witness :
  terminal (build_of observed_app) = true ∧
  length (trace_of done_world (observeBuild sample_reconciler observed_app) tt) = 1%nat ∧
  (value_of done_world (observeBuild sample_reconciler observed_app) tt = Ok observed_app ∨
   ∃ e, value_of done_world (observeBuild sample_reconciler observed_app) tt = Err e).
Proof.
  split; [vm_compute; reflexivity|]. split; [vm_compute; reflexivity|].
  apply (observeBuild_once sample_reconciler observed_app
    (trace_of done_world (observeBuild sample_reconciler observed_app) tt)).
  - vm_compute. reflexivity.
  - intros ns n job Hj.
    assert (Et : omap got_job (trace_of done_world (observeBuild sample_reconciler observed_app) tt) =
      [("web", om_Name (j_Meta done_job), Ok done_job)]) by (vm_compute; reflexivity).
    rewrite Et in Hj. apply list_elem_of_singleton in Hj. by injection Hj as -> -> ->.
  - exact (executes done_world (observeBuild sample_reconciler observed_app) tt).
Defined.

(** The build part of the first pass. *)
Definition build_pass := reconcile_build sample_reconciler asking_app anonymous.
Lemma rebuild_token_processed_witness :
  value_of (idle_world asking_app) build_pass tt = Ok (MkResult false (10 * Minute)) ∧
  ∃ app', omap status_update (trace_of (idle_world asking_app) build_pass tt) = [(app', Ok tt)] ∧
    s_Phase (app_Status app') = phaseOf app' ∧ app_Meta app' = app_Meta asking_app ∧
    ((s_LastProcessedRebuild (app_Status app') = annotation asking_app RebuildAnnotation ∧
      ∀ active, DecideBuild (annotation app' RebuildAnnotation)
        (s_LastProcessedRebuild (app_Status app')) active = NoBuild)
     ∨ ∃ jobs, (buildLabelsFor asking_app, Ok jobs) ∈
          omap listed_jobs (trace_of (idle_world asking_app) build_pass tt) ∧ unfinished jobs = true ∧
        s_LastProcessedRebuild (app_Status app') = s_LastProcessedRebuild (app_Status asking_app)).
Proof.
  assert (Ev : value_of (idle_world asking_app) build_pass tt = Ok (MkResult false (10 * Minute)))
    by (vm_compute; reflexivity).
  split; [exact Ev|].
  apply (rebuild_token_processed sample_reconciler asking_app anonymous _ (MkResult false (10 * Minute))).
  rewrite <- Ev. exact (executes (idle_world asking_app) build_pass tt).
Defined.

Definition started_job : Job :=
  match omap created_job (trace_of (idle_world asking_app) start_pass tt) with
  | x :: _ => x.1
  | [] => done_job
  end.
(** The same App with its own repository credential. *)
Definition secretive_app : App :=
  asking_app <| app_Spec ::= λ s, s <| as_RepoAuth := Some (MkRepoAuthConfig (MkRepoAuthSecretRef "deploy-key")) |> |>.
Definition secret_world : ∀ R, call R → unit → R * unit := λ R c w,
  (match c in call R return R with
   | ReadSecret _ _ => Ok valid_data
   | c => (idle_world secretive_app _ c w).1
   end, w).
Definition secret_pass : trace := trace_of secret_world start_pass tt.
Definition is_build (e : event) : bool :=
  match e with Ev (CreateJob j) _ => String.eqb (job_role j) "build" | _ => false end.
Lemma build_in_trace (tr : trace) : existsb is_build tr = true →
  ∃ t1 j a t2, tr = t1 ++ Ev (CreateJob j) a :: t2 ∧ job_role j = "build".
Proof.
  intros (e & He & Hb)%existsb_exists. apply in_split in He as (t1 & t2 & ->).
  destruct e as [R c a]. destruct c; try done. apply String.eqb_eq in Hb. by exists t1, job, a, t2.
Qed.
Lemma builds_are_validated_witness :
  ∃ t1 j a t2, secret_pass = t1 ++ Ev (CreateJob j) a :: t2 ∧ job_role j = "build" ∧
    ∃ app, app ∈ omap loaded_app t1 ∧ admissible sample_reconciler app ∧
      cleared sample_reconciler app t1 ∧ built_from sample_reconciler app j.
Proof.
  destruct (build_in_trace secret_pass) as (t1 & j & a & t2 & E & Hj); [vm_compute; reflexivity|].
  exists t1, j, a, t2. split; [exact E|]. split; [exact Hj|].
  refine (builds_are_validated sample_reconciler "web" "site" t1 j a t2 (value_of secret_world start_pass tt) _ Hj).
  rewrite <- E. exact (executes secret_world start_pass tt).
Defined.

(** A pod of that build. *)
Definition started_pod : ObjectMeta :=
  zero_meta <| om_Namespace := "web" |> <| om_Labels := js_TemplateLabels (j_Spec started_job) |>.

(** A cluster that works, idle, with this App and a complete credential; a created Job comes
    back with a UID and a resource version. *)
Definition working_world (app : App) : ∀ R, call R → unit → R * unit := λ R c w,
  (match c in call R return R with
   | GetApp _ _ => Ok app
   | ReadSecret _ _ => Ok valid_data
   | CreateJob j => Ok (j <| j_Meta ::= λ m, m <| om_UID := "job-1" |> <| om_ResourceVersion := "7" |> |>)
   | c => default_answer c
   end, w).
Lemma working_world_healthy app : ∀ R (c : call R) w, healthy_idle app _ c (working_world app _ c w).1.
Proof.
  intros R c w. destruct c; split; cbn; try done.
  - eexists. split; [done|]. by split.
  - eexists. split; [done|]. done.
  - exists valid_data. split; [done|]. vm_compute. reflexivity.
Qed.
Lemma sample_configured : configured sample_reconciler.
Proof. split; [done|exact sample_config_ok]. Qed.
Lemma asking_admissible : admissible sample_reconciler asking_app.
Proof. split_and!; vm_compute; reflexivity. Qed.

Lemma healthy_pass_completes_witness :
  is_ok (value_of (working_world asking_app) start_pass tt) = true ∨
  value_of (working_world asking_app) start_pass tt = Err panic_error.
Proof.
  apply (healthy_pass_completes sample_reconciler asking_app "web" "site" (trace_of (working_world asking_app) start_pass tt)).
  - exact sample_configured.
  - exact asking_admissible.
  - exact (executes (working_world asking_app) start_pass tt).
  - apply (executes_given _ (healthy asking_app)). intros R c w. apply working_world_healthy.
Defined.
Lemma requested_build_starts_witness :
  ∃ j j' a, (j, Ok j') ∈ omap created_job (trace_of (working_world asking_app) start_pass tt) ∧
    built_from sample_reconciler a j ∧ app_Spec a = app_Spec asking_app ∧ id_of a = id_of asking_app ∧
    annotation a RebuildAnnotation = annotation asking_app RebuildAnnotation.
Proof.
  apply (requested_build_starts sample_reconciler asking_app "web" "site" (trace_of (working_world asking_app) start_pass tt)
    (value_of (working_world asking_app) start_pass tt)).
  - exact sample_configured.
  - exact asking_admissible.
  - vm_compute. reflexivity.
  - vm_compute. discriminate.
  - vm_compute. discriminate.
  - exact (executes (working_world asking_app) start_pass tt).
  - apply (executes_given _ (healthy_idle asking_app)). apply working_world_healthy.
Defined.

(** An App that asks for its cache to be cleaned, its build request processed. *)
Definition untidy_app : App :=
  asking_app <| app_Meta ::= λ m, m <| om_Annotations ::= <[CleanupCacheRequestedAtAnnotation := "1700000001"]> |> |>
    <| app_Status ::= λ s, s <| s_LastProcessedRebuild := "1700000000" |> |>.
Lemma requested_cleanup_starts_witness :
  map (λ x, job_role x.1) (omap created_job (trace_of (working_world untidy_app) start_pass tt)) = ["cleanup"] ∧
  ∃ a act m j', asks_cleanup untidy_app act ∧ app_Spec a = app_Spec untidy_app ∧ id_of a = id_of untidy_app ∧
    SetControllerReference a (j_Meta (CleanupJob sample_reconciler a (a_mode act))) = Ok m ∧
    ((CleanupJob sample_reconciler a (a_mode act)) <| j_Meta := m |>, Ok j') ∈
      omap created_job (trace_of (working_world untidy_app) start_pass tt).
Proof.
  split; [vm_compute; reflexivity|].
  apply (requested_cleanup_starts sample_reconciler untidy_app "web" "site" (trace_of (working_world untidy_app) start_pass tt)
    (value_of (working_world untidy_app) start_pass tt)).
  - exact sample_configured.
  - split_and!; vm_compute; reflexivity.
  - vm_compute. reflexivity.
  - vm_compute. discriminate.
  - vm_compute. reflexivity.
  - exists (MkCleanupAction cleanupModeCache "1700000001" ""). split; [left|split; vm_compute; discriminate].
  - exact (executes (working_world untidy_app) start_pass tt).
  - apply (executes_given _ (tidy untidy_app)). intros R c w.
    destruct (working_world_healthy untidy_app R c w) as [Hh Hi]. split; [exact Hh|]. split; [exact Hi|]. by destruct c.
Defined.

(** A fresh App on its way to a served site: the cluster of each pass, and the App it
    leaves behind. *)
Definition fresh_app : App := asking_app <| app_Meta ::= λ m, m <| om_Annotations := ∅ |> |>.
Definition patched (e : event) : option App :=
  match e with Ev (PatchApp _ a') _ => Some a' | _ => None end.
Definition pass1 : list event := trace_of (working_world fresh_app) start_pass tt.
Definition seeded_app : App := fresh_app <| app_Meta ::= λ m, m <| om_Annotations :=
  match omap patched pass1 with a' :: _ => om_Annotations (app_Meta a') | [] => ∅ end |> |>.
Definition pass2 : list event := trace_of (working_world seeded_app) start_pass tt.
Definition started_app : App := seeded_app <| app_Status :=
  match omap status_update pass2 with x :: _ => app_Status x.1 | [] => app_Status seeded_app end |>.
Definition finished_world : ∀ R, call R → unit → R * unit := λ R c w,
  (match c in call R return R with
   | GetJob _ _ => Ok done_job
   | c => (working_world started_app _ c w).1
   end, w).
Definition pass3 : list event := trace_of finished_world start_pass tt.

Lemma first_build_served_witness :
  phaseOf fresh_app = PhaseAwaitingFirstBuild ∧ served sample_reconciler fresh_app pass3 ∧
  ∃ a, written_ok a pass3 ∧ s_Phase (app_Status a) = PhaseReady ∧ b_Result (build_of a) = BuildResultSucceeded.
Proof.
  assert (E1 : Forall (λ a', om_Annotations (app_Meta seeded_app) = om_Annotations (app_Meta a')) (omap patched pass1)).
  { assert (E : omap patched pass1 = [default fresh_app (head (omap patched pass1))]) by (vm_compute; reflexivity).
    rewrite E. constructor; [vm_compute; reflexivity|constructor]. }
  assert (E2 : Forall (λ x, app_Status started_app = app_Status x.1) (omap status_update pass2)).
  { assert (E : omap status_update pass2 = [(default fresh_app (head ((omap status_update pass2).*1)), Ok tt)]) by (vm_compute; reflexivity).
    rewrite E. constructor; [vm_compute; reflexivity|constructor]. }
  split; [vm_compute; reflexivity|].
  refine (proj2 (proj2 (proj2 (first_build_served sample_reconciler fresh_app seeded_app started_app "web" "site"
    pass1 (value_of (working_world fresh_app) start_pass tt) pass2 (value_of (working_world seeded_app) start_pass tt)
    pass3 (value_of finished_world start_pass tt) sample_configured _ _ _ _ _ (executes _ _ _) _ _ (executes _ _ _) _ _ (executes _ _ _) _)))).
  - split_and!; vm_compute; reflexivity.
  - vm_compute. reflexivity.
  - vm_compute. reflexivity.
  - vm_compute. reflexivity.
  - vm_compute. reflexivity.
  - apply (executes_given _ (healthy fresh_app)). intros R c w. apply working_world_healthy.
  - intros a a' x Hin. rewrite Forall_forall in E1. split_and!; [reflexivity|reflexivity| |reflexivity|reflexivity].
    apply E1, list_elem_of_omap. by exists (Ev (PatchApp a a') x).
  - apply (executes_given _ (starting seeded_app)). intros R c w. split; [apply working_world_healthy|]. by destruct c.
  - intros a x Hin. rewrite Forall_forall in E2. split_and!; [reflexivity|reflexivity|reflexivity| |reflexivity].
    apply (E2 (a, x)), list_elem_of_omap. by exists (Ev (UpdateStatus a) x).
  - apply (executes_given _ (finishing started_app)). intros R c w. split.
    + pose proof (working_world_healthy started_app R c w) as [Hh _]. by destruct c.
    + destruct c; split; cbn; try done. exists done_job. split; [done|]. vm_compute. reflexivity.
Defined.

(** The statuses of that App are reachable; the last one says Ready. *)
Definition last_write (tr : list event) (app : App) : App :=
  match omap status_update tr with x :: _ => x.1 | [] => app end.
Definition served_app : App := last_write pass3 started_app.
Lemma status_tells_truth_witness :
  s_Phase (app_Status served_app) = PhaseReady ∧ hasSucceededOnce served_app = true ∧
  history_ok 10 (s_BuildHistory (app_Status served_app)).
Proof.
  assert (Hone : ∀ a b : App, a ∈ [b] → a = b) by (intros a b; apply list_elem_of_singleton).
  assert (E2 : omap loaded_app pass2 = [seeded_app]) by (vm_compute; reflexivity).
  assert (E3 : omap loaded_app pass3 = [started_app]) by (vm_compute; reflexivity).
  assert (W2 : omap status_update pass2 = [(last_write pass2 seeded_app, Ok tt)]) by (vm_compute; reflexivity).
  assert (W3 : omap status_update pass3 = [(served_app, Ok tt)]) by (vm_compute; reflexivity).
  assert (L : ∀ a, a = seeded_app ∨ a = started_app → limits 10 sample_reconciler a)
    by (intros a [->| ->]; vm_compute; repeat split; discriminate).
  assert (H2 : lived 10 (last_write pass2 seeded_app)).
  { apply (lived_pass 10 sample_reconciler "web" "site" pass2 _ _ (Ok tt) (executes (working_world seeded_app) start_pass tt)).
    - rewrite E2. intros a ->%Hone. apply lived_new. vm_compute. reflexivity.
    - rewrite E2. intros a ->%Hone. apply L. left. reflexivity.
    - rewrite W2. left. }
  assert (H3 : lived 10 served_app).
  { apply (lived_pass 10 sample_reconciler "web" "site" pass3 _ _ (Ok tt) (executes finished_world start_pass tt)).
    - rewrite E3. intros a ->%Hone. apply (lived_edit 10 _ _ H2). vm_compute. reflexivity.
    - rewrite E3. intros a ->%Hone. apply L. right. reflexivity.
    - rewrite W3. left. }
  assert (Hr : s_Phase (app_Status served_app) = PhaseReady) by (vm_compute; reflexivity).
  destruct (status_tells_truth 10 served_app) as (Hready & _ & _ & Hh & _); [discriminate|exact H3|].
  split; [exact Hr|]. split; [exact (proj1 (Hready Hr))|exact Hh].
Defined.

(** The series after the pass that saw the build complete. *)
Definition ready_app : App := default fresh_app (head ((omap status_update pass3).*1)).
Lemma metrics_follow_status_witness :
  rec_gauges (recorded pass3 new_recorder) !! (metricPhase, ("web", "site"), [PhaseReady]) = Some (f64_of_Z 1) ∧
  rec_gauges (recorded pass3 new_recorder) !! (metricPhase, ("web", "site"), [PhaseBuilding]) = Some (f64_of_Z 0).
Proof.
  assert (Hr : PhaseReady ∈ AllPhases) by (unfold AllPhases; set_solver).
  assert (Hb : PhaseBuilding ∈ AllPhases) by (unfold AllPhases; set_solver).
  destruct (metrics_follow_status sample_reconciler "web" "site" pass3 (value_of finished_world start_pass tt) new_recorder
    (executes finished_world start_pass tt)) as (_ & _ & Hs); [apply rtc_refl|].
  assert (E : omap status_update pass3 = [(ready_app, Ok tt)]) by (vm_compute; reflexivity).
  assert (Ek : app_key ready_app = ("web", "site")) by (vm_compute; reflexivity).
  assert (Ep : exported_phase ready_app = PhaseReady) by (vm_compute; reflexivity).
  rewrite E in Hs. destruct (Hs ready_app (Ok tt)) as (Hp & _); [apply list_elem_of_singleton; reflexivity|].
  rewrite Ek, Ep in Hp. split.
  - exact (Hp PhaseReady Hr).
  - exact (Hp PhaseBuilding Hb).
Defined.

(** An App whose build image comes from a foreign registry. *)
Definition foreign_app : App :=
  asking_app <| app_Spec ::= λ s, s <| as_Pipeline ::= λ p, p <| pl_Phases ::= λ ph,
    ph <| phs_Build := MkBuildPhaseSpec (zero_phase <| aps_Image := "evil.example/x" |>) "dist" |> |> |> |>.
(** A cluster whose storage class binds at once. *)
Definition eager_world : ∀ R, call R → unit → R * unit := λ R c w,
  (match c in call R return R with
   | GetStorageClass _ => Ok (Some "Immediate")
   | c => (idle_world asking_app _ c w).1
   end, w).
Definition eager_pass := reconcile_validated sample_reconciler asking_app.
Definition degraded_for (a : App) : string :=
  match findCondition a ConditionDegraded with Some c => c_Reason c | None => "" end.
Lemma rejection_reported_witness :
  rejection sample_reconciler foreign_app =
    Some (ReasonImageNotAllowed, errorf (quoted "build image 'evil.example/x' is not on the registry allowlist")) ∧
  map (λ x, degraded_for x.1) (omap status_update (trace_of eager_world eager_pass tt)) = [ReasonInvalidStorageClass] ∧
  ∃ t1 t2 reason e, trace_of eager_world eager_pass tt = t1 ++ t2 ∧ judged sample_reconciler asking_app t1 reason e ∧
    Forall (λ ev, match ev with Ev c _ => fail_call _ c end) t2.
Proof.
  split; [vm_compute; reflexivity|]. split; [vm_compute; reflexivity|].
  destruct (rejection_reported sample_reconciler asking_app (trace_of eager_world eager_pass tt)
    (value_of eager_world eager_pass tt) (executes eager_world eager_pass tt))
    as (t1 & t2 & E & _ & [(reason & e & Hj & Hf & _)|[(e & _ & _ & _ & Ev)|(d & _ & [_ Hc] & _)]]).
  - exists t1, t2, reason, e. split; [exact E|]. split; [exact Hj|exact Hf].
  - exfalso. vm_compute in Ev. discriminate.
  - exfalso. assert (Ht : (r_StorageClassName sample_reconciler, Ok (Some "WaitForFirstConsumer")) ∈
      omap got_class (trace_of eager_world eager_pass tt)) by (rewrite E, omap_app, elem_of_app; left; exact Hc).
    vm_compute in Ht. inversion Ht as [|? ? ? Hn]; subst. inversion Hn.
Defined.

(** Deletion while a build runs. *)
Definition running_job : Job := BuildJob sample_reconciler asking_app "1700000000" anonymous.
Definition deleting_world : ∀ R, call R → unit → R * unit := λ R c w,
  (match c in call R return R with
   | ListJobs _ _ => Ok [done_job; running_job]
   | DeleteJob _ => Err not_found
   | c => default_answer c
   end, w).
Lemma deletion_best_effort_witness :
  omap deleted_job (trace_of deleting_world (reconcileDelete asking_app) tt) = [running_job] ∧
  (∃ a, omap updated_app (trace_of deleting_world (reconcileDelete asking_app) tt) =
    [(RemoveFinalizer asking_app FinalizerName, a)] ∧
    is_ok (value_of deleting_world (reconcileDelete asking_app) tt) = is_ok a) ∧
  ∃ ls, omap deleted_job (trace_of deleting_world (reconcileDelete asking_app) tt) = cancelled ls.
Proof.
  split; [vm_compute; reflexivity|].
  destruct (deletion_best_effort asking_app
    (trace_of deleting_world (reconcileDelete asking_app) tt)
    (value_of deleting_world (reconcileDelete asking_app) tt)) as (Hu & _ & _ & ls & _ & Hd);
    [vm_compute; reflexivity|exact (executes deleting_world (reconcileDelete asking_app) tt)|].
  split; [exact Hu|]. exists ls. exact Hd.
Defined.

(** ** Observations on the code *)
(** An App that was rejected for its repoAuth Secret after a good build, once the
    Secret is in order again. *)
Definition recovered_app : App :=
  asking_app <| app_Status ::= λ s, s <| s_LastProcessedRebuild := "1700000000" |>
    <| s_LastSuccessfulBuildTime := Some 1 |> <| s_LastBuiltSpecHash := "h" |>
    <| s_Phase := PhaseDegraded |>
    <| s_Conditions := [MkCondition ConditionDegraded "True" ReasonInvalidRepoAuth "missing" 0 1] |> |>.
(** A pass that rejects nothing still persists the Degraded condition and phase an
    earlier rejection left: only a later successful build clears them. *)
Example rejection_outlives_its_cause :
  value_of (idle_world recovered_app) start_pass tt = Ok (MkResult false (10 * Minute)) ∧
  map (λ x, (s_Phase (app_Status x.1), condition_true x.1 ConditionDegraded))
    (omap status_update (trace_of (idle_world recovered_app) start_pass tt)) = [(PhaseDegraded, true)].
Proof. split; vm_compute; reflexivity. Qed.

(** The middleware and the Ingress of a site with basic auth are the same whatever
    password hash or Secret reference its spec.auth gives. *)
Example auth_source_unused r app (a b : AuthConfig) :
  let with_auth x := app <| app_Spec ::= λ s, s <| as_Auth := Some x |> |> in
  authMiddleware r (with_auth a) (middlewareName (with_auth a) +:+ "-secret") =
    authMiddleware r (with_auth b) (middlewareName (with_auth b) +:+ "-secret") ∧
  ingress (with_auth a) = ingress (with_auth b).
Proof. done. Qed.

(** Replacing an entry does not re-apply a cap that was lowered since. *)
Example replacement_ignores_cap :
  let rec n := zero_build <| b_JobName := n |> in
  length (appendBuildHistory [rec "a"; rec "b"; rec "c"] (rec "b") 1) = 3%nat.
Proof. reflexivity. Qed.
