(* ===== verification/Observability.v ===== *)
(** internal/observability: the fingerprint rate limiter (ratelimit.go), the noise
    filters (filters.go), the two sources of events (reporter.go, zapcore.go) and the
    set-up (init.go).  The Sentry client itself is not part of the repository: an
    event is what is handed to it.  The limiter is shared by both sources and locked,
    so a history of the reporter is a sequence of its inputs. *)
From Stdlib Require Import ZArith Ascii String.
From stdpp Require Import base gmap strings list numbers sorting.
From S2P Require Import Prelude GoStd GoNum GoTime BuildSpec AppTypes Kube Free Prog.

Open Scope string_scope.
Open Scope list_scope.
Open Scope Z_scope.

(* Go: internal/observability/ratelimit.go limitWindow @9-12 *)
Definition limitWindow : Z := Hour.
(* Go: internal/observability/ratelimit.go pruneInterval @14-17 *)
Definition pruneInterval : Z := Minute.

(* Go: internal/observability/ratelimit.go fingerprintLimiter *)
Record fingerprintLimiter := MkLimiter { l_lastSent : gmap string Time; l_lastPrune : Time }.
(* Go: internal/observability/ratelimit.go newFingerprintLimiter *)
Definition newFingerprintLimiter : fingerprintLimiter := MkLimiter ∅ zero_time.

Definition nul : string := s1 (chr 0).
(* Go: internal/observability/ratelimit.go joinFingerprint *)
Definition joinFingerprint (fingerprint : list string) : string := Join fingerprint nul.

(* Go: internal/observability/ratelimit.go allow *)
Definition allow (l : fingerprintLimiter) (now : Time) (fingerprint : list string)
    : fingerprintLimiter * bool :=
  let key := joinFingerprint fingerprint in
  let l := if pruneInterval <=? Sub now (l_lastPrune l)
           then MkLimiter (filter (λ kv, Sub now kv.2 < limitWindow) (l_lastSent l)) now
           else l in
  match l_lastSent l !! key with
  | Some sent => if Sub now sent <? limitWindow then (l, false)
                 else (MkLimiter (<[key := now]> (l_lastSent l)) (l_lastPrune l), true)
  | None => (MkLimiter (<[key := now]> (l_lastSent l)) (l_lastPrune l), true)
  end.

(** ** The two sources *)
(** An error as the filters see it: a conflict of the API server, a (wrapped)
    cancelled context, or anything else, with its text. *)
Record log_error := MkLogError { le_conflict : bool; le_canceled : bool; le_text : string }.
(* Go: internal/observability/filters.go dropError *)
Definition dropError (err : option log_error) : bool :=
  match err with None => false | Some e => le_conflict e || le_canceled e end.
(* Go: internal/observability/filters.go dropMessage *)
Definition dropMessage (msg : string) : bool := Contains msg "leader election".

(* Go: internal/observability/zapcore.go maxErrorDepth @8-10 *)
Definition maxErrorDepth : Z := 10.
(* Go: internal/observability/zapcore.go maxFingerprintErrLen @12-14 *)
Definition maxFingerprintErrLen : nat := 200.
(* Go: internal/observability/zapcore.go truncate *)
Definition truncate (s : string) (n : nat) : string :=
  if (String.length s <=? n)%nat then s else take n s.

(** A log field as zapcore has it: its type, and the error its interface holds. *)
Record Field := MkField { f_Key : string; f_IsErrorType : bool; f_Interface : option log_error }.
(* Go: internal/observability/zapcore.go extractError *)
Definition extractError (fieldSets : list (list Field)) : option log_error :=
  foldl (λ last f, if f_IsErrorType f then match f_Interface f with Some e => Some e | None => last end else last)
    None (concat fieldSets).
Record Entry := MkEntry { en_Level : Z; en_LoggerName : string; en_Message : string }.
Definition ErrorLevel : Z := 2.

(* Go: internal/observability/reporter.go Reporter *)
Record Reporter := MkReporter { rp_limiter : fingerprintLimiter }.
Record ClientOptions := MkClientOptions { co_Dsn : string; co_Environment : string; co_Release : string; co_TracesSampleRate : Z }.
(** A nil reporter is [None]. *)
(* Go: internal/observability/init.go InitFromEnv *)
Definition InitFromEnv (Getenv : string → string) (NewClient : ClientOptions → result unit) : result (option Reporter) :=
  let dsn := Getenv "SENTRY_DSN" in
  if String.eqb dsn "" then Ok None
  else match NewClient (MkClientOptions dsn (Getenv "SENTRY_ENVIRONMENT") (Getenv "SENTRY_RELEASE") 0) with
       | Err err => Err (wrapf "init sentry: " err)
       | Ok _ => Ok (Some (MkReporter newFingerprintLimiter))
       end.

(** The timeout the hub is flushed with. *)
(* Go: internal/observability/reporter.go Flush *)
Definition Flush (r : option Reporter) (timeout : Z) : option Z := match r with None => None | Some _ => Some timeout end.

(** A core of the logger; the reporter it points to is the state of the history. *)
(* Go: internal/observability/zapcore.go sentryCore *)
Inductive Core := NopCore | sentryCore (fields : list Field).
(* Go: internal/observability/zapcore.go NewZapCore *)
Definition NewZapCore (r : option Reporter) : Core := match r with None => NopCore | Some _ => sentryCore [] end.
(* Go: internal/observability/zapcore.go Enabled *)
Definition Enabled (c : Core) (level : Z) : bool :=
  match c with NopCore => false | sentryCore _ => ErrorLevel <=? level end.
(* Go: internal/observability/zapcore.go With *)
Definition With (c : Core) (fields : list Field) : Core :=
  match c with NopCore => NopCore | sentryCore fs => sentryCore (fs ++ fields) end.
(* Go: internal/observability/zapcore.go Check *)
Definition Check_ (c : Core) (entry : Entry) (ce : list Core) : list Core :=
  if negb (Enabled c (en_Level entry)) then ce else ce ++ [c].

Section reporter.
(** How zap encodes a field into a map. *)
Context {V : Type} (AddTo : Field → gmap string V → gmap string V).

Record sentry_event := MkSentryEvent {
  se_Level : string; se_Message : string; se_Tags : gmap string string; se_Fingerprint : list string;
  se_Exception : option (log_error * Z); se_Contexts : gmap string (gmap string V) }.

(* Go: internal/observability/reporter.go CaptureTerminalFailure *)
Definition CaptureTerminalFailure (r : option Reporter) (now : Time) (f : TerminalFailure)
    : option Reporter * option sentry_event :=
  match r with
  | None => (None, None)
  | Some r =>
      let fingerprint := [tf_Namespace f; tf_App f; tf_Reason f] in
      let '(l, ok) := allow (rp_limiter r) now fingerprint in
      (Some (MkReporter l),
       if negb ok then None
       else Some (MkSentryEvent "error" (tf_Message f)
         {["app" := tf_App f; "namespace" := tf_Namespace f; "step" := tf_Step f; "reason" := tf_Reason f]}
         fingerprint None ∅))
  end.

(* Go: internal/observability/zapcore.go Write *)
Definition Write (r : Reporter) (now : Time) (coreFields : list Field) (entry : Entry) (fields : list Field)
    : Reporter * option sentry_event :=
  if dropMessage (en_Message entry) then (r, None)
  else
    let err := extractError [coreFields; fields] in
    if dropError err then (r, None)
    else
      let fingerprint := [en_LoggerName entry; en_Message entry] in
      let fingerprint := match err with
                         | Some e => fingerprint ++ [truncate (le_text e) maxFingerprintErrLen]
                         | None => fingerprint
                         end in
      let '(l, ok) := allow (rp_limiter r) now fingerprint in
      (MkReporter l,
       if negb ok then None
       else
         let enc := foldl (λ m f, AddTo f m) ∅ (coreFields ++ fields) in
         Some (MkSentryEvent "error" (en_Message entry) ∅ fingerprint ((λ e, (e, maxErrorDepth)) <$> err)
           (if bool_decide (enc = ∅) then ∅ else {["fields" := enc]}))).

(** ** Histories *)
(** What the reporter is given: a terminal failure, or a log line, which zap writes to
    the cores that checked in. *)
Inductive input := Failure (f : TerminalFailure) | Logged (c : Core) (entry : Entry) (fields : list Field).
Definition report (r : Reporter) (now : Time) (i : input) : Reporter * option sentry_event :=
  match i with
  | Failure f => let '(r', ev) := CaptureTerminalFailure (Some r) now f in (default r r', ev)
  | Logged c entry fields =>
      match Check_ c entry [] with
      | [sentryCore coreFields] => Write r now coreFields entry fields
      | _ => (r, None)
      end
  end.
(** The reporter after a history, and the events it sent. *)
Fixpoint history (r : Reporter) (ins : list (Time * input)) : Reporter * list (Time * sentry_event) :=
  match ins with
  | [] => (r, [])
  | (t, i) :: ins' =>
      let '(r1, ev) := report r t i in
      let '(r2, evs) := history r1 ins' in
      (r2, match ev with Some ev => (t, ev) :: evs | None => evs end)
  end.
Definition fresh : Reporter := MkReporter newFingerprintLimiter.

(** What deserves an event: every failure, and an error line that is not noise. *)
Definition wanted (i : input) : option (list string) :=
  match i with
  | Failure f => Some [tf_Namespace f; tf_App f; tf_Reason f]
  | Logged (sentryCore cf) entry fields =>
      let err := extractError [cf; fields] in
      if (ErrorLevel <=? en_Level entry) && negb (dropMessage (en_Message entry)) && negb (dropError err)
      then Some ([en_LoggerName entry; en_Message entry] ++
                 match err with Some e => [truncate (le_text e) maxFingerprintErrLen] | None => [] end)
      else None
  | Logged NopCore _ _ => None
  end.
Definition text_of (i : input) : string :=
  match i with Failure f => tf_Message f | Logged _ entry _ => en_Message entry end.

(** What the table knows at time [now] of the sends [hist] so far. *)
Definition knows (l : fingerprintLimiter) (hist : list (Time * string)) (now : Time) : Prop :=
  ∀ key, match l_lastSent l !! key with
         | Some t => (t, key) ∈ hist ∧ ∀ t', (t', key) ∈ hist → t' ≤ t
         | None => ∀ t', (t', key) ∈ hist → limitWindow ≤ now - t'
         end.

Lemma Sub_lt t u w : i64_min < w ≤ i64_max → Sub t u < w ↔ t - u < w.
Proof. unfold Sub, i64_min, i64_max. lia. Qed.
Lemma window_range : i64_min < limitWindow ≤ i64_max.
Proof. unfold limitWindow, i64_min, i64_max, Hour, Minute, Second. lia. Qed.

Lemma allow_step l hist now now' fp :
  knows l hist now → now ≤ now' → (∀ t k, (t, k) ∈ hist → t ≤ now') →
  let key := joinFingerprint fp in
  let '(l', ok) := allow l now' fp in
  if ok then knows l' ((now', key) :: hist) now' ∧ ∀ t, (t, key) ∈ hist → limitWindow ≤ now' - t
  else knows l' hist now' ∧ ∃ t, (t, key) ∈ hist ∧ now' - t < limitWindow.
Proof.
  intros Hk Hle Hpast. cbv zeta. set (key := joinFingerprint fp). unfold allow. fold key.
  set (l1 := if pruneInterval <=? _ then _ else l).
  assert (H1 : knows l1 hist now').
  { subst l1. destruct (pruneInterval <=? _).
    - intros k. specialize (Hk k). cbn.
      destruct (filter _ (l_lastSent l) !! k) as [t|] eqn:E.
      + apply map_lookup_filter_Some in E as [E _]. by rewrite E in Hk.
      + intros t' Ht'. apply map_lookup_filter_None in E as [E|E].
        * rewrite E in Hk. apply Hk in Ht'. lia.
        * destruct (l_lastSent l !! k) as [t|]; [|apply Hk in Ht'; lia].
          specialize (E t eq_refl). cbn in E. rewrite Sub_lt in E by apply window_range.
          apply Hk in Ht'. lia.
    - intros k. specialize (Hk k). destruct (l_lastSent l !! k); [done|]. intros t' Ht'. apply Hk in Ht'. lia. }
  clearbody l1. clear Hk.
  assert (Hadd : (∀ t, (t, key) ∈ hist → limitWindow ≤ now' - t) →
    knows (MkLimiter (<[key := now']> (l_lastSent l1)) (l_lastPrune l1)) ((now', key) :: hist) now').
  { intros Hold k. cbn. destruct (decide (k = key)) as [->|Hne].
    - rewrite lookup_insert_eq. split; [by left|]. intros t' [[= ->]|Ht']%elem_of_cons; [lia|eauto].
    - rewrite lookup_insert_ne by done. specialize (H1 k). destruct (l_lastSent l1 !! k) as [t|].
      + destruct H1 as [Hin Hmax]. split; [by right|].
        intros t' [[= _ ->]|Ht']%elem_of_cons; [done|auto].
      + intros t' [[= _ ->]|Ht']%elem_of_cons; [done|auto]. }
  pose proof (H1 key) as Hkey. destruct (l_lastSent l1 !! key) as [sent|] eqn:E.
  - destruct Hkey as [Hin Hmax]. destruct (Z.ltb_spec (Sub now' sent) limitWindow) as [Hs|Hs].
    + split; [done|]. exists sent. split; [done|]. by apply Sub_lt in Hs; [|apply window_range].
    + assert (Hw : limitWindow ≤ now' - sent).
      { apply Z.nlt_ge. intros Hlt. apply (Sub_lt _ _ _ window_range) in Hlt. lia. }
      assert (Hold : ∀ t, (t, key) ∈ hist → limitWindow ≤ now' - t) by (intros t Ht; apply Hmax in Ht; lia).
      split; [by apply Hadd|done].
  - split; [by apply Hadd|done].
Qed.
Lemma knows_later l hist now now' : knows l hist now → now ≤ now' → knows l hist now'.
Proof.
  intros Hk Hle key. specialize (Hk key). destruct (l_lastSent l !! key); [done|].
  intros t' Ht'. apply Hk in Ht'. lia.
Qed.


(** One input: filtered without a trace, or decided by the limiter. *)
Lemma report_step r t i :
  match wanted i with
  | None => report r t i = (r, None)
  | Some fp =>
      rp_limiter (report r t i).1 = (allow (rp_limiter r) t fp).1 ∧
      match (report r t i).2 with
      | Some ev => (allow (rp_limiter r) t fp).2 = true ∧ se_Fingerprint ev = fp ∧ se_Message ev = text_of i
      | None => (allow (rp_limiter r) t fp).2 = false
      end
  end.
Proof.
  destruct i as [f|[|cf] entry fields]; cbn -[allow extractError].
  - by destruct (allow _ _ _) as [l []].
  - done.
  - unfold Check_, Enabled. destruct (ErrorLevel <=? _); cbn -[allow extractError]; [|done].
    unfold Write. destruct (dropMessage _); cbn -[allow extractError]; [done|].
    destruct (dropError _); cbn -[allow extractError]; [done|].
    destruct (extractError [cf; fields]) as [e|]; cbn -[allow];
      match goal with |- context [allow ?l ?t ?fp] => by destruct (allow l t fp) as [l' []] end.
Qed.
Lemma history_snoc r ins t i :
  history r (ins ++ [(t, i)]) =
  let '(r1, evs) := history r ins in
  let '(r2, ev) := report r1 t i in
  (r2, evs ++ match ev with Some ev => [(t, ev)] | None => [] end).
Proof.
  revert r. induction ins as [|[t' i'] ins IH]; intros r; cbn.
  { by destruct (report r t i) as [? []]. }
  destruct (report r t' i') as [r1 ev']. rewrite IH. destruct (history r1 ins) as [r2 evs].
  destruct (report r2 t i) as [r3 ev]. by destruct ev'.
Qed.

Definition keys (evs : list (Time * sentry_event)) : list (Time * string) :=
  map (λ e, (e.1, joinFingerprint (se_Fingerprint e.2))) evs.
Lemma keys_past r ins t k : (t, k) ∈ keys (history r ins).2 → ∃ i, (t, i) ∈ ins.
Proof.
  revert r. induction ins as [|[t' i] ins IH]; intros r; cbn; [by intros ?%not_elem_of_nil|].
  destruct (report r t' i) as [r1 ev]. specialize (IH r1). destruct (history r1 ins) as [r2 evs]. cbn in *.
  destruct ev; cbn; [intros [[= -> _]|Hk]%elem_of_cons|intros Hk].
  - exists i. by left.
  - destruct (IH Hk) as [i' Hi]. exists i'. by right.
  - destruct (IH Hk) as [i' Hi]. exists i'. by right.
Qed.
(** The clock does not run backwards. *)
Definition clock_ok (ins : list (Time * input)) : Prop := StronglySorted (λ x y, x.1 ≤ y.1) ins.
Lemma clock_snoc ins t i : clock_ok (ins ++ [(t, i)]) → clock_ok ins ∧ ∀ x, x ∈ ins → x.1 ≤ t.
Proof.
  unfold clock_ok. induction ins as [|x ins IH]; cbn; intros Hs; [by split; [constructor|intros ? ?%not_elem_of_nil]|].
  apply StronglySorted_inv in Hs as [Hs Hall]. destruct (IH Hs) as [H1 H2]. apply Forall_app in Hall as [Ha Hb].
  split; [by constructor|]. intros y [->|Hy]%elem_of_cons; [|by apply H2]. by apply Forall_cons in Hb as [Hb _].
Qed.
Lemma history_knows ins t : clock_ok ins → (∀ x, x ∈ ins → x.1 ≤ t) →
  knows (rp_limiter (history fresh ins).1) (keys (history fresh ins).2) t.
Proof.
  revert t. induction ins as [|[t' i] ins IH] using rev_ind; intros t Hs Ht.
  { intros k. change (l_lastSent _ !! k) with (@None Time). by intros ? ?%not_elem_of_nil. }
  apply clock_snoc in Hs as [Hs Hle]. specialize (IH t' Hs Hle).
  assert (Htt : t' ≤ t) by (apply (Ht (t', i)), elem_of_app; right; by left).
  pose proof (keys_past fresh ins) as Hpast. rewrite history_snoc.
  destruct (history fresh ins) as [r evs]. cbn [fst snd] in *. pose proof (report_step r t' i) as Hstep.
  apply (knows_later _ _ t'); [|done]. destruct (report r t' i) as [r' ev]. cbn [fst snd] in *.
  destruct (wanted i) as [fp|]; [|injection Hstep as -> ->; by rewrite app_nil_r].
  destruct Hstep as [-> Hev].
  pose proof (allow_step (rp_limiter r) (keys evs) t' t' fp IH ltac:(lia)) as Ha.
  specialize (Ha ltac:(intros u k Hk; destruct (Hpast u k Hk) as [j Hj]; exact (Hle _ Hj))). cbv zeta in Ha.
  destruct (allow (rp_limiter r) t' fp) as [l ok]. cbn [fst snd] in *.
  destruct ev as [ev|]; [destruct Hev as (-> & <- & _)|subst ok; rewrite app_nil_r; apply Ha].
  destruct Ha as [Ha _]. intros k. specialize (Ha k). unfold keys. rewrite map_app. cbn [map].
  destruct (l_lastSent l !! k) as [u|].
  - destruct Ha as [Hin Hmax]. rewrite elem_of_app, elem_of_cons in *. split; [set_solver|].
    intros u' Hu. apply Hmax. rewrite elem_of_cons. rewrite elem_of_app in Hu. set_solver.
  - intros u' Hu. apply Ha. rewrite elem_of_cons. rewrite elem_of_app in Hu. set_solver.
Qed.

(** C33: one report per problem and hour: over any history of terminal failures and log
    lines with a clock that does not run backwards, an input becomes an event if and only
    if it deserves one (a failure, or an error line that is not a conflict, a cancellation
    or leader-election chatter) and no event with the same key was sent within the hour
    before; the event carries that fingerprint and message.  Pruning old entries never
    lets a repeat through and never mutes a due one. *)
Theorem reporter_exact ins t i : clock_ok (ins ++ [(t, i)]) →
  let '(r, sent) := history fresh ins in
  (is_Some (report r t i).2 ↔ ∃ fp, wanted i = Some fp ∧
     ¬ ∃ t' ev, (t', ev) ∈ sent ∧ joinFingerprint (se_Fingerprint ev) = joinFingerprint fp ∧ t - t' < limitWindow) ∧
  ∀ ev, (report r t i).2 = Some ev → wanted i = Some (se_Fingerprint ev) ∧ se_Message ev = text_of i.
Proof.
  intros [Hs Hle]%clock_snoc. pose proof (history_knows ins t Hs Hle) as Hk. pose proof (keys_past fresh ins) as Hpast.
  destruct (history fresh ins) as [r sent]. cbn [fst snd] in *. pose proof (report_step r t i) as Hstep.
  destruct (report r t i) as [r' ev]. cbn [fst snd] in *.
  destruct (wanted i) as [fp|]; [|injection Hstep as -> ->; split; [|done]; split; [by intros []|by intros (? & [=] & _)]].
  destruct Hstep as [_ Hev]. pose proof (allow_step (rp_limiter r) (keys sent) t t fp Hk ltac:(lia)) as Ha.
  specialize (Ha ltac:(intros u k Hu; destruct (Hpast u k Hu) as [j Hj]; exact (Hle _ Hj))). cbv zeta in Ha.
  destruct (allow (rp_limiter r) t fp) as [l ok]. cbn [fst snd] in *.
  assert (Hkey : ∀ u k, (u, k) ∈ keys sent ↔ ∃ e, (u, e) ∈ sent ∧ joinFingerprint (se_Fingerprint e) = k).
  { intros u k. unfold keys. rewrite list_elem_of_fmap. split; [intros ([u' e] & [= -> ->] & He); eauto|].
    intros (e & He & <-). by exists (u, e). }
  destruct ev as [ev|]; [destruct Hev as (-> & <- & Hm)|subst ok]; (split; [|naive_solver]).
  - split; [|eauto]. intros _. eexists. split; [done|]. intros (u & e & He & Hj & Hlt).
    destruct Ha as [_ Ha]. assert (limitWindow ≤ t - u) by (apply Ha, Hkey; eauto). lia.
  - split; [by intros []|]. intros (fp' & [= <-] & Hn). destruct Ha as [_ (u & (e & He & Hj)%Hkey & Hlt)].
    exfalso. apply Hn. eauto 6.
Qed.
End reporter.

(** A failure repeated within the hour, a log line below error level, a conflict, and the
    failure again after an hour. *)
Definition sample_failure : TerminalFailure := MkTerminalFailure "site" "web" "" "ConfigError" "no such class".
Definition sample_history : list (Time * input) :=
  [(0, Failure sample_failure); (Minute, Failure sample_failure);
   (2 * Minute, Logged (With (NewZapCore (Some fresh)) []) (MkEntry 1 "ctrl" "slow") []);
   (3 * Minute, Logged (sentryCore []) (MkEntry 2 "ctrl" "Reconciler error") [MkField "error" true (Some (MkLogError true false "conflict"))])].
Lemma reporter_exact_witness :
  let add (f : Field) (m : gmap string unit) := <[f_Key f := tt]> m in
  length (history add fresh sample_history).2 = 1%nat ∧
  let '(r, sent) := history add fresh sample_history in
  (is_Some (report add r Hour (Failure sample_failure)).2 ↔ ∃ fp, wanted (Failure sample_failure) = Some fp ∧
     ¬ ∃ t' ev, (t', ev) ∈ sent ∧ joinFingerprint (se_Fingerprint ev) = joinFingerprint fp ∧ Hour - t' < limitWindow) ∧
  ∀ ev, (report add r Hour (Failure sample_failure)).2 = Some ev →
    wanted (Failure sample_failure) = Some (se_Fingerprint ev) ∧ se_Message ev = text_of (Failure sample_failure).
Proof.
  intros add. split; [vm_compute; reflexivity|].
  apply (reporter_exact add sample_history Hour (Failure sample_failure)).
  unfold clock_ok, sample_history, Hour, Minute, Second. repeat constructor; cbn; lia.
Defined.

(** ** The key *)
Definition nul_free (s : string) : bool := avoids (chr 0) s.
Lemma Split_fingerprint f : f ≠ [] → forallb nul_free f = true → SplitByte (joinFingerprint f) (chr 0) = f.
Proof. exact (SplitByte_Join (chr 0) f). Qed.

(** The limiter's key separates fingerprints: fingerprints whose parts contain no
    NUL byte share a key only if they are equal, so Apps of the same name in two
    namespaces never share a bucket. *)
Lemma joinFingerprint_inj f g :
  f ≠ [] → g ≠ [] → forallb nul_free f = true → forallb nul_free g = true →
  joinFingerprint f = joinFingerprint g → f = g.
Proof.
  intros Hf Hg Nf Ng E. apply (f_equal (λ s, SplitByte s (chr 0))) in E.
  by rewrite !Split_fingerprint in E.
Qed.
