(* ===== verification/Shim.v ===== *)
(** images/shim/main.go, the texts of the phase wrapper: its command echo, read back by
    a POSIX shell, and the peak-memory line, read back by the operator. *)
From Stdlib Require Import ZArith Ascii String.
From stdpp Require Import base gmap strings list numbers sorting.
From S2P Require Import Prelude GoStd GoNum Images BuildSpec RepoHost AppTypes Kube Config BuildSteps.

Open Scope string_scope.
Open Scope list_scope.
Open Scope Z_scope.

(** ** The command echo *)
(* Go: images/shim/main.go isShellSafe *)
Definition isShellSafe (r : Z) : bool :=
  between 65 r 90 || between 97 r 122 || between 48 r 57 ||
  existsb (λ x, x.1 =? r) (decode "_@%+=:,./-").

Definition quote_char : ascii := chr 39.
(** [strings.ReplaceAll] of one byte. *)
Fixpoint replace_byte (c : ascii) (new s : string) : string :=
  match s with
  | "" => ""
  | String d s' => if Ascii.eqb d c then new +:+ replace_byte c new s' else String d (replace_byte c new s')
  end.
(** The idiom that closes the quote, adds a literal quote and reopens it. *)
Definition quote_idiom : string := s4 quote_char bs quote_char quote_char.

(* Go: images/shim/main.go quoteArg *)
Definition quoteArg (s : string) : string :=
  if negb (String.eqb s "") && forallb (λ x, isShellSafe x.1) (decode s) then s
  else s1 quote_char +:+ replace_byte quote_char quote_idiom s +:+ s1 quote_char.
(* Go: images/shim/main.go quoteArgv *)
Definition quoteArgv (argv : list string) : string := Join (map quoteArg argv) " ".

(** ** A POSIX shell's reading of a command line

    As XCU 2.2 and 2.3 have it, for lines made of blanks, safe bytes, single-quoted text and
    escaped bytes (a line with anything else a shell treats specially has no reading here):
    tokens, each with the text it was written as and the value it has once the quotes are
    removed.  As XCU 2.4, 2.9.1 and 2.10.2 have it, a first token that is written as a
    reserved word does not begin a simple command, and leading tokens written as
    assignments are not part of the command. *)
Inductive lex_mode := Blank | Word (raw acc : string) | Quoted (raw acc : string).
Definition safe_byte (c : ascii) : bool := (bv c <? 128) && isShellSafe (bv c).
Definition begun (m : lex_mode) : string * string :=
  match m with Blank => ("", "") | Word raw acc | Quoted raw acc => (raw, acc) end.
Fixpoint lex (m : lex_mode) (s : string) : option (list (string * string)) :=
  match s with
  | "" => match m with Blank => Some [] | Word raw acc => Some [(raw, acc)] | Quoted _ _ => None end
  | String c s' =>
      let '(raw, acc) := begun m in
      match m with
      | Quoted _ _ => if Ascii.eqb c quote_char then lex (Word (raw +:+ s1 c) acc) s'
                      else lex (Quoted (raw +:+ s1 c) (acc +:+ s1 c)) s'
      | _ =>
          if Ascii.eqb c " " then
            match m with Word raw acc => cons (raw, acc) <$> lex Blank s' | _ => lex Blank s' end
          else if Ascii.eqb c quote_char then lex (Quoted (raw +:+ s1 c) acc) s'
          else if Ascii.eqb c bs then
            match s' with "" => None | String d s'' => lex (Word (raw +:+ s1 c +:+ s1 d) (acc +:+ s1 d)) s'' end
          else if safe_byte c then lex (Word (raw +:+ s1 c) (acc +:+ s1 c)) s'
          else None
      end
  end.

(** A name; the text before and after the first equals sign. *)
Definition name_byte (c : ascii) : bool :=
  between 65 (bv c) 90 || between 97 (bv c) 122 || between 48 (bv c) 57 || (bv c =? 95).
Definition is_name (s : string) : bool :=
  match s with "" => false | String c _ => negb (between 48 (bv c) 57) && string_forallb name_byte s end.
Fixpoint cut_equals (s : string) : option (string * string) :=
  match s with
  | "" => None
  | String c s' => if Ascii.eqb c "=" then Some ("", s') else (λ x, (String c x.1, x.2)) <$> cut_equals s'
  end.
(** The words POSIX reserves, those it lets shells reserve, and a name with a colon. *)
Definition reserved_words : list string :=
  ["!"; "{"; "}"; "case"; "do"; "done"; "elif"; "else"; "esac"; "fi"; "for"; "if"; "in"; "then"; "until"; "while";
   "[["; "]]"; "function"; "namespace"; "select"; "time"; "coproc"].
Fixpoint label (s : string) : bool :=
  match s with
  | "" => false
  | String c "" => Ascii.eqb c ":"
  | String c s' => name_byte c && label s'
  end.
Definition reserved (raw : string) : bool :=
  existsb (String.eqb raw) reserved_words ||
  match raw with String c (String _ _) => negb (between 48 (bv c) 57) && label raw | _ => false end.
Definition assigns (raw : string) : bool :=
  match cut_equals raw with Some (n, _) => is_name n | None => false end.

(** The leading assignments, and the words of the command. *)
Fixpoint simple_command (toks : list (string * string)) : list (string * string) * list string :=
  match toks with
  | (raw, v) :: toks' =>
      if assigns raw then
        let '(l, words) := simple_command toks' in (default (v, "") (cut_equals v) :: l, words)
      else ([], map snd toks)
  | [] => ([], [])
  end.
Definition shell_command (line : string) : option (list (string * string) * list string) :=
  toks ← lex Blank line;
  match toks with
  | (raw, _) :: _ => if reserved raw then None else Some (simple_command toks)
  | [] => Some ([], [])
  end.

(** ** The echo reads back *)
Lemma decode_safe s : forallb (λ x, isShellSafe x.1) (decode s) = true →
  string_forallb safe_byte s = true.
Proof.
  assert (Hhigh : ∀ r, 128 ≤ r → isShellSafe r = false).
  { intros r Hr. unfold isShellSafe, between. apply not_true_is_false. intros Hs.
    rewrite !orb_true_iff in Hs. destruct Hs as [[[Hs|Hs]|Hs]|Hs]; [breflect; lia..|].
    apply existsb_exists in Hs as ([r' ?] & Hin & E). cbn in E. apply Z.eqb_eq in E as ->.
    assert (Hall : forallb (λ x, x.1 <? 128) (decode "_@%+=:,./-") = true) by (vm_compute; reflexivity).
    apply (proj1 (forallb_forall _ _) Hall) in Hin. cbn in Hin. lia. }
  induction s as [|a t IH]; [done|]. cbn [decode string_forallb].
  destruct (Z.ltb_spec (bv a) 128) as [Ha|Ha].
  { cbn [forallb fst]. intros [Hs Ht]%andb_true_iff. rewrite (IH Ht), andb_true_r.
    unfold safe_byte. by rewrite (proj2 (Z.ltb_lt _ _) Ha), Hs. }
  intros Hf. exfalso. revert Hf.
  assert (He : isShellSafe RuneError = false) by (apply Hhigh; unfold RuneError; lia).
  destruct t as [|b t2]; [cbn [forallb fst]; by rewrite He|].
  destruct (valid2 (bv a) (bv b)) eqn:V2.
  { cbn [forallb fst]. unfold valid2, cont, between in V2. breflect.
    rewrite Hhigh; [done|]. unfold lo6. lia. }
  destruct t2 as [|c t3]; [cbn [forallb fst]; by rewrite He|].
  destruct (valid3 (bv a) (bv b) (bv c)) eqn:V3.
  { cbn [forallb fst]. unfold valid3, cont, between in V3. rewrite Hhigh; [done|]. breflect. unfold lo6.
    destruct (bv a =? 0xE0) eqn:E0, (bv a =? 0xED) eqn:E1; breflect; lia. }
  destruct t3 as [|d t4]; [cbn [forallb fst]; by rewrite He|].
  destruct (valid4 (bv a) (bv b) (bv c) (bv d)) eqn:V4; cbn [forallb fst]; [|by rewrite He].
  unfold valid4, cont, between in V4. rewrite Hhigh; [done|]. breflect. unfold lo6.
  destruct (bv a =? 0xF0) eqn:E0, (bv a =? 0xF4) eqn:E1; breflect; lia.
Qed.

Lemma safe_not_special c : safe_byte c = true →
  Ascii.eqb c " " = false ∧ Ascii.eqb c quote_char = false ∧ Ascii.eqb c bs = false.
Proof.
  assert (Hall : ∀ d, d ∈ [" "%char; quote_char; bs] → safe_byte d = false).
  { intros d Hd. repeat (apply elem_of_cons in Hd as [->|Hd]; [vm_compute; reflexivity|]).
    by apply not_elem_of_nil in Hd. }
  intros Hc. split_and!; apply not_true_is_false; intros ->%Ascii.eqb_eq; rewrite Hall in Hc; done || set_solver.
Qed.

Lemma lex_safe s : ∀ m rest, m = Blank ∨ (∃ raw acc, m = Word raw acc) → s ≠ "" → string_forallb safe_byte s = true →
  lex m (s +:+ rest) = lex (Word ((begun m).1 +:+ s) ((begun m).2 +:+ s)) rest.
Proof.
  induction s as [|c s IH]; intros m rest Hm Hne Hs; [done|]. cbn [string_forallb] in Hs.
  apply andb_true_iff in Hs as [Hc Hs]. destruct (safe_not_special c Hc) as (E1 & E2 & E3).
  rewrite str_app_cons.
  assert (Hstep : lex m (String c (s +:+ rest)) = lex (Word ((begun m).1 +:+ s1 c) ((begun m).2 +:+ s1 c)) (s +:+ rest)).
  { destruct Hm as [->|(raw & acc & ->)]; cbn [lex begun]; by rewrite E1, E2, E3, Hc. }
  rewrite Hstep. destruct (decide (s = "")) as [->|Hn]; [done|].
  rewrite IH by eauto. cbn [begun fst snd]. by rewrite !str_app_assoc.
Qed.

Lemma lex_quoted s raw acc rest :
  lex (Quoted raw acc) (replace_byte quote_char quote_idiom s +:+ s1 quote_char +:+ rest) =
  lex (Word (raw +:+ replace_byte quote_char quote_idiom s +:+ s1 quote_char) (acc +:+ s)) rest.
Proof.
  revert raw acc. induction s as [|c s IH]; intros raw acc; cbn [replace_byte].
  { by rewrite str_app_nil_r. }
  destruct (Ascii.eqb_spec c quote_char) as [->|Hc].
  - rewrite !str_app_assoc. set (r := replace_byte _ _ s +:+ s1 quote_char +:+ rest).
    transitivity (lex (Quoted (((raw +:+ s1 quote_char) +:+ s1 bs +:+ s1 quote_char) +:+ s1 quote_char) (acc +:+ s1 quote_char)) r); [done|].
    subst r. rewrite IH. by rewrite !str_app_assoc.
  - rewrite str_app_cons. cbn [lex begun]. rewrite (proj2 (Ascii.eqb_neq _ _) Hc), IH. by rewrite !str_app_assoc.
Qed.

Lemma lex_quoteArg a rest : lex Blank (quoteArg a +:+ rest) = lex (Word (quoteArg a) a) rest.
Proof.
  unfold quoteArg. destruct (negb _ && _) eqn:E.
  - apply andb_true_iff in E as [Hn Hs]. apply negb_true_iff, String.eqb_neq in Hn.
    rewrite (lex_safe a Blank); [done|by left|done|by apply decode_safe].
  - rewrite !str_app_assoc. exact (lex_quoted a (s1 quote_char) "" rest).
Qed.
Lemma lex_quoteArgv argv : lex Blank (quoteArgv argv) = Some (map (λ a, (quoteArg a, a)) argv).
Proof.
  unfold quoteArgv. induction argv as [|a argv IH]; [done|].
  destruct argv as [|b argv]; cbn [map Join] in *.
  - rewrite <- (str_app_nil_r (quoteArg a)) at 1. rewrite lex_quoteArg. done.
  - rewrite lex_quoteArg. cbn [lex String.append begun]. rewrite str_app_cons. cbn [lex begun].
    change (Ascii.eqb " " " ") with true. rewrite str_app_nil_l. by rewrite IH.
Qed.
(** What is quoted is neither reserved nor an assignment. *)
Lemma quoted_plain t : reserved (String quote_char t) = false ∧ assigns (String quote_char t) = false.
Proof.
  split.
  - by destruct t.
  - unfold assigns. cbn. by destruct (cut_equals t).
Qed.

(** C34: the command a phase's log shows is the command that ran: a POSIX shell reads the
    echoed line back as tokens whose values are exactly the argument vector, for arguments of
    any bytes (empty ones, quotes, blanks, non-ASCII text and shell metacharacters
    included), and nothing in the line is subject to expansion; and, when the name of the
    command is neither a reserved word nor of the form of an assignment, as a simple command
    with that name and those arguments and no assignment. *)
Theorem quoteArgv_roundtrip cmd args :
  map snd <$> lex Blank (quoteArgv (cmd :: args)) = Some (cmd :: args) ∧
  (reserved cmd = false → assigns cmd = false →
   shell_command (quoteArgv (cmd :: args)) = Some ([], cmd :: args)).
Proof.
  rewrite lex_quoteArgv. split.
  - cbn. by rewrite map_map, map_id.
  - intros Hr Ha. unfold shell_command. rewrite lex_quoteArgv. cbn [mbind option_bind map simple_command].
    assert (Hp : reserved (quoteArg cmd) = false ∧ assigns (quoteArg cmd) = false).
    { unfold quoteArg. destruct (negb _ && _); [done|]. apply quoted_plain. }
    destruct Hp as [-> ->]. cbn. by rewrite map_map, map_id.
Qed.
(** The condition is needed: these names are echoed bare. *)
Example echoed_bare :
  shell_command (quoteArgv ["CI=1"; "npm"]) = Some ([("CI", "1")], ["npm"]) ∧
  shell_command (quoteArgv ["if"; "x"]) = None.
Proof. split; vm_compute; reflexivity. Qed.
Lemma quoteArgv_roundtrip_witness :
  shell_command (quoteArgv ["npm"; "run"; "it's"; ""; "A=b"; "if"]) = Some ([], ["npm"; "run"; "it's"; ""; "A=b"; "if"]).
Proof.
  apply (proj2 (quoteArgv_roundtrip "npm" ["run"; "it's"; ""; "A=b"; "if"])); vm_compute; reflexivity.
Defined.

(** ** The reported peak reaches the status *)
Lemma digit_visible d : 0 ≤ d < 10 → visible (chr (48 + d)) = true.
Proof. intros Hd. unfold visible, between. rewrite chr_digit_bv by done. apply andb_true_iff. split; lia. Qed.
Lemma itoa_loop_visible fuel n acc : 0 ≤ n → string_forallb visible acc = true →
  string_forallb visible (itoa_loop fuel n acc) = true.
Proof.
  revert n acc. induction fuel as [|f IH]; intros n acc Hn Ha; cbn [itoa_loop]; [done|].
  destruct (Z.ltb_spec n 10).
  - cbn [string_forallb]. by rewrite digit_visible, Ha by lia.
  - apply IH; [Z.div_mod_to_equations; lia|]. cbn [string_forallb].
    rewrite digit_visible, Ha; [done|]. by apply Z.mod_pos_bound.
Qed.
Lemma Itoa_visible n : 0 ≤ n → string_forallb visible (Itoa n) = true.
Proof. intros Hn. unfold Itoa. destruct (Z.ltb_spec n 0); [lia|]. by apply itoa_loop_visible. Qed.
Lemma Itoa_nonempty n : in_i64 n → Itoa n ≠ "".
Proof. intros Hn E. pose proof (ParseInt_Itoa n Hn) as H. by rewrite E in H. Qed.

(** Text of complete lines that are not a peak report. *)
Definition other_line (l : string) : bool :=
  string_forallb (λ c, negb (Ascii.eqb newline c)) l && negb (CutPrefix (TrimSpace l) peakMemoryKey).2.
Definition other_lines (ls : list string) : string := concat_strings (map (λ l, l +:+ s1 newline) ls).

Lemma visible_line s : string_forallb visible s = true →
  string_forallb (λ c, negb (Ascii.eqb newline c)) s = true.
Proof.
  induction s as [|c s IH]; [done|]. cbn [string_forallb]. intros [Hc Hs]%andb_true_iff.
  rewrite IH, andb_true_r by done. apply negb_true_iff, Ascii.eqb_neq. intros <-. done.
Qed.

Definition peak_line (peak : string) : string := "peakMemoryBytes=" +:+ peak +:+ s1 newline.
(** The operator finds the reported number behind complete lines of the phase. *)
Lemma parsePeakMemory_line n ls : in_i64 n → 0 ≤ n → forallb other_line ls = true →
  parsePeakMemory (other_lines ls +:+ peak_line (Itoa n)) = n.
Proof.
  intros Hi Hn Hls. unfold parsePeakMemory, other_lines, peak_line.
  induction ls as [|l ls IH]; cbn [map concat_strings foldr].
  - rewrite str_app_nil_l. set (key := "peakMemoryBytes=").
    assert (Hv : string_forallb visible (key +:+ Itoa n) = true)
      by (rewrite string_forallb_app, Itoa_visible by done; done).
    rewrite <- str_app_assoc. change (s1 newline) with (String newline ""). rewrite SplitByte_app by (by apply visible_line).
    cbn [SplitByte peak_lines]. rewrite TrimSpace_visible by done.
    unfold CutPrefix. rewrite HasPrefix_app, drop_app. cbn [negb].
    rewrite TrimSpace_visible by (by apply Itoa_visible). rewrite ParseInt_Itoa by done.
    by destruct (Z.ltb_spec n 0); [lia|].
  - cbn [forallb] in Hls. apply andb_true_iff in Hls as [[Hnl Hk]%andb_true_iff Hls].
    fold (concat_strings (map (λ l, l +:+ s1 newline) ls)). rewrite !str_app_assoc.
    change (s1 newline +:+ ?x) with (String newline x). rewrite SplitByte_app by done. cbn [peak_lines].
    destruct (CutPrefix (TrimSpace l) peakMemoryKey) as [val found]. cbn in Hk. rewrite Hk. by apply IH.
Qed.
