(* ===== verification/ShimProc.v ===== *)
(** images/shim/main.go as a process: [main], [install], [wrap] and [reportPeak] are
    programs over what they ask of the operating system.

    The select loop of [wrap] runs until the child ends.  Each turn consumes one wake-up,
    so the fuel is a bound on the signals that arrive meanwhile: [wrap_transparent] says
    that the loop gives up only when as many signals as its fuel have arrived. *)
From Stdlib Require Import ZArith Ascii String.
From stdpp Require Import base gmap strings list numbers sorting.
From S2P Require Import Prelude GoStd GoNum Images BuildSpec RepoHost AppTypes Kube Config BuildSteps Free Shim.

Open Scope string_scope.
Open Scope list_scope.
Open Scope Z_scope.

(** ** The operating system *)
(** The wait status of a child; what [select] wakes up with. *)
Inductive WaitStatus := Exited (code : Z) | Signaled (sig : Z) | OtherStatus.
Inductive Signal := SyscallSignal (sig : Z) | OtherSignal.
#[global] Instance Signal_eq_dec : EqDecision Signal.
Proof. solve_decision. Defined.
Inductive wakeup := Received (sig : Signal) | Waited (waitErr : result unit) (ps : option WaitStatus).
Definition SIGCHLD : Z := 17.
Definition O_WRONLY : Z := 1.
Definition O_CREATE : Z := 64.
Definition O_TRUNC : Z := 512.
Definition O_APPEND : Z := 1024.
Definition mode_0555 : Z := 5 * 64 + 5 * 8 + 5.
Definition mode_0644 : Z := 6 * 64 + 4 * 8 + 4.
Notation fd := Z.

Inductive oscall : Type → Type :=
| Stdout (s : string) : oscall unit
| Stderr (s : string) : oscall unit
| Getenv (key : string) : oscall string
| ReadFile (name : string) : oscall (result string)
| Executable : oscall (result string)
| Open (name : string) : oscall (result fd)
| OpenFile (name : string) (flag perm : Z) : oscall (result fd)
| WriteString (f : fd) (s : string) : oscall (result unit)
| Copy (dst src : fd) : oscall (result unit)
| Close (f : fd) : oscall (result unit)
| Rename (from to : string) : oscall (result unit)
| Notify : oscall unit
| StopNotify : oscall unit
| Start (argv : list string) : oscall (result unit)
| Select : oscall wakeup
| SignalChild (sig : Signal) : oscall (result unit).
Notation osprog := (free oscall).

Section shim.
Context `{GoRuntime}.

(** ** install *)
(* Go: images/shim/main.go install @63-82 *)
Definition install_from (src : fd) (dest : string) : osprog (result unit) :=
  let tmp := dest +:+ ".tmp" in
  opened ← do (OpenFile tmp (Z.lor (Z.lor O_CREATE O_TRUNC) O_WRONLY) mode_0555);
  match opened with
  | Err err => mret (Err (wrapf ("create " +:+ tmp +:+ ": ") err))
  | Ok dst =>
      copied ← do (Copy dst src);
      match copied with
      | Err err => do (Close dst);; mret (Err (wrapf "copy: " err))
      | Ok _ =>
          closed ← do (Close dst);
          match closed with
          | Err err => mret (Err (wrapf "close: " err))
          | Ok _ =>
              renamed ← do (Rename tmp dest);
              mret (match renamed with Err err => Err (wrapf "rename: " err) | Ok _ => Ok tt end)
          end
      end
  end.
(** The source is closed on every return, whatever closing it answers. *)
(* Go: images/shim/main.go install *)
Definition install (dest : string) : osprog (result unit) :=
  self ← do Executable;
  match self with
  | Err err => mret (Err (wrapf "locate self: " err))
  | Ok self =>
      opened ← do (Open self);
      match opened with
      | Err err => mret (Err (wrapf "open self: " err))
      | Ok src => res ← install_from src dest; do (Close src);; mret res
      end
  end.

(** ** wrap *)
(** [for _, f := range files]: the trimmed text of the first readable file. *)
(* Go: images/shim/main.go reportPeak @193-201 *)
Fixpoint first_readable (files : list string) : osprog string :=
  match files with
  | [] => mret ""
  | f :: files' =>
      raw ← do (ReadFile f);
      match raw with Err _ => first_readable files' | Ok raw => mret (TrimSpace raw) end
  end.
Definition getenv_or (key def : string) : osprog string :=
  v ← do (Getenv key); mret (if String.eqb v "" then def else v).
(** The report of what was read. *)
(* Go: images/shim/main.go reportPeak @201-218 *)
Definition append_peak (peak : string) : osprog unit :=
  if String.eqb peak "" then
    do (Stderr ("shim: no readable cgroup memory peak (cgroup v2 with cgroupns required); skipping report" +:+ s1 newline))
  else
    log ← getenv_or "TERMINATION_LOG" "/dev/termination-log";
    opened ← do (OpenFile log (Z.lor (Z.lor O_APPEND O_CREATE) O_WRONLY) mode_0644);
    match opened with
    | Err err => do (Stderr ("shim: open termination log: " +:+ err_text err +:+ s1 newline))
    | Ok f =>
        written ← do (WriteString f (peak_line peak));
        (match written with
         | Err err => do (Stderr ("shim: write termination log: " +:+ err_text err +:+ s1 newline))
         | Ok _ => mret tt
         end);;
        do (Close f);; mret tt
    end.
(* Go: images/shim/main.go reportPeak *)
Definition reportPeak : osprog unit :=
  root ← getenv_or "SHIM_CGROUP_ROOT" "/sys/fs/cgroup";
  peak ← first_readable [root +:+ "/memory.peak"; root +:+ "/memory/memory.max_usage_in_bytes"];
  append_peak peak.

(** [ProcessState.ExitCode] is -1 for a child that neither exited nor was signalled. *)
Definition ExitCode (ps : WaitStatus) : Z := match ps with Exited code => code | _ => -1 end.
(** The code by the child's end alone, and whether it has to be explained. *)
(* Go: images/shim/main.go exitCode @168-178 *)
Definition child_code (waitErr : result unit) (ps : option WaitStatus) : option Z :=
  match waitErr, ps with
  | Ok _, _ => Some 0
  | Err _, Some (Signaled sig) => Some (128 + sig)
  | Err _, Some st => if 0 <=? ExitCode st then Some (ExitCode st) else None
  | Err _, None => None
  end.
(* Go: images/shim/main.go exitCode *)
Definition exitCode (waitErr : result unit) (ps : option WaitStatus) : osprog Z :=
  match child_code waitErr ps with
  | Some code => mret code
  | None =>
      let text := match waitErr with Err err => err_text err | Ok _ => "<nil>" end in
      do (Stderr ("shim: wait: " +:+ text +:+ s1 newline));; mret 127
  end.

Definition forwardable (sig : Signal) : bool :=
  match sig with SyscallSignal s => negb (s =? SIGCHLD) | OtherSignal => false end.
(* Go: images/shim/main.go wrap @111-121 *)
Fixpoint wait_loop (fuel : nat) : osprog (option (result unit * option WaitStatus)) :=
  match fuel with
  | O => mret None
  | S fuel' =>
      w ← do Select;
      match w with
      | Received sig => (if forwardable sig then do (SignalChild sig);; mret tt else mret tt);; wait_loop fuel'
      | Waited waitErr ps => mret (Some (waitErr, ps))
      end
  end.

(** [main] only calls it with a command, so [argv] has a first element. *)
(* Go: images/shim/main.go wrap *)
Definition wrap (fuel : nat) (cmd : string) (args : list string) : osprog (option Z) :=
  do (Stdout ("+ " +:+ quoteArgv (cmd :: args) +:+ s1 newline));;
  do Notify;;
  started ← do (Start (cmd :: args));
  match started with
  | Err err =>
      do (Stderr ("shim: start " +:+ Quote cmd +:+ ": " +:+ err_text err +:+ s1 newline));;
      reportPeak;;
      do StopNotify;; mret (Some 127)
  | Ok _ =>
      w ← wait_loop fuel;
      match w with
      | None => mret None
      | Some (waitErr, ps) =>
          reportPeak;;
          code ← exitCode waitErr ps;
          do StopNotify;; mret (Some code)
      end
  end.

(** The exit status of the process. *)
(* Go: images/shim/main.go main *)
Definition main (fuel : nat) (args : list string) : osprog (option Z) :=
  let usage := do (Stderr ("usage: shim install <dest> | shim -- <cmd...>" +:+ s1 newline));; mret (Some 2) in
  match args with
  | a :: x :: rest =>
      if String.eqb a "install" && bool_decide (rest = []) then
        res ← install x;
        match res with
        | Err err => do (Stderr ("shim install: " +:+ err_text err +:+ s1 newline));; mret (Some 1)
        | Ok _ => mret (Some 0)
        end
      else if String.eqb a "--" then wrap fuel x rest else usage
  | _ => usage
  end.
End shim.

(** ** The wrapper is transparent *)
(** Where the phase stands: nothing done, command echoed, signals routed to the shim,
    child running with or without a signal to pass on, ended with the code to exit with
    and the peak not yet or already written. *)
Inductive phase := Fresh | Echoed | Routed | Running (pending : option Signal) | Ended (code : Z) (reported : bool).
(** A shell's status for the end of a command. *)
Definition shell_status (waitErr : result unit) (ps : option WaitStatus) : Z :=
  match waitErr with
  | Ok _ => 0
  | Err _ => match ps with
             | Some (Exited code) => if code <? 0 then 127 else code
             | Some (Signaled sig) => 128 + sig
             | Some OtherStatus | None => 127
             end
  end.
Lemma child_code_shell waitErr ps : default 127 (child_code waitErr ps) = shell_status waitErr ps.
Proof.
  destruct waitErr as [[]|e]; [done|]. destruct ps as [[code|sig|]|]; try done. cbn.
  by destruct (Z.leb_spec 0 code), (Z.ltb_spec code 0); try lia.
Qed.
(** The calls of a phase that runs [argv], in the order they may come. *)
Definition phase_monitor (argv : list string) : monitor phase := λ st R c,
  match c in oscall R return R → option phase with
  | Stdout s => λ _, match st with
      | Fresh => if String.eqb s ("+ " +:+ quoteArgv argv +:+ s1 newline) then Some Echoed else None
      | _ => None end
  | Notify => λ _, match st with Echoed => Some Routed | _ => None end
  | Start argv' => λ r, match st with
      | Routed => if bool_decide (argv' = argv)
                  then Some (if is_ok r then Running None else Ended 127 false) else None
      | _ => None end
  | Select => λ w, match st, w with
      | Running None, Received sig => Some (Running (if forwardable sig then Some sig else None))
      | Running None, Waited waitErr ps => Some (Ended (shell_status waitErr ps) false)
      | _, _ => None end
  | SignalChild sig => λ _, match st with
      | Running (Some sig') => if bool_decide (sig' = sig) then Some (Running None) else None
      | _ => None end
  | OpenFile _ flag _ => λ _, match st with
      | Ended _ _ => if flag =? Z.lor (Z.lor O_APPEND O_CREATE) O_WRONLY then Some st else None
      | _ => None end
  | WriteString _ _ => λ _, match st with Ended code false => Some (Ended code true) | _ => None end
  | Stderr _ | Getenv _ | ReadFile _ | Close _ | StopNotify =>
      λ _, match st with Ended _ _ => Some st | _ => None end
  | _ => λ _, None
  end.
Definition signals (tr : list (@event oscall)) : list Signal :=
  omap (λ e, match e with Ev c r => (match c in oscall R return R → option Signal with
    | Select => λ w, match w with Received sig => Some sig | _ => None end | _ => λ _, None end) r end) tr.

Section transparent.
Context `{GoRuntime} (argv : list string).
Notation M := (phase_monitor argv).

Lemma wp_first_readable files code :
  wp M (first_readable files) (Ended code false) (λ st _, st = Ended code false).
Proof. induction files as [|f files IH]; [done|]. intros [raw|e]; [done|apply IH]. Qed.
Lemma wp_reportPeak code :
  wp M reportPeak (Ended code false) (λ st _, ∃ reported, st = Ended code reported).
Proof.
  unfold reportPeak, append_peak. apply wp_bind. intros root. apply wp_bind. eapply wp_mono, wp_first_readable.
  intros st peak ->. destruct (String.eqb peak ""); [intros []; cbn; eauto|]. apply wp_bind. intros log [f|e]; [|intros []; cbn; eauto].
  intros [[]|e]; [intros ?; eexists; reflexivity|intros ? ?; eexists; reflexivity].
Qed.
Lemma wp_wait_loop fuel : wp M (wait_loop fuel) (Running None) (λ st w,
  match w with
  | Some (waitErr, ps) => st = Ended (shell_status waitErr ps) false
  | None => st = Running None
  end).
Proof.
  induction fuel as [|fuel IH]; [done|]. cbn [wait_loop]. apply wp_bind, wp_do.
  intros [sig|waitErr ps]; [|done]. cbn [phase_monitor]. apply wp_bind.
  destruct (forwardable sig); [|apply IH]. intros r. cbn [phase_monitor]. rewrite bool_decide_true by done. apply IH.
Qed.
Lemma wp_wrap fuel cmd args : argv = cmd :: args → wp M (wrap fuel cmd args) Fresh (λ st r,
  match r with Some code => ∃ reported, st = Ended code reported | None => st = Running None end).
Proof.
  intros Ha. unfold wrap. rewrite <- Ha. intros []. cbn [phase_monitor]. rewrite String.eqb_refl. intros [].
  intros [[]|e]; cbn [phase_monitor is_ok]; rewrite bool_decide_true by done.
  - apply wp_bind. eapply wp_mono, wp_wait_loop. intros st [[waitErr ps]|] ->; [|done].
    apply wp_bind. eapply wp_mono, wp_reportPeak. intros st _ [rep ->].
    rewrite <- child_code_shell. unfold exitCode. destruct (child_code waitErr ps) as [code|]; [intros []|intros [] []]; eexists; reflexivity.
  - intros []. apply wp_bind. eapply wp_mono, wp_reportPeak. intros st _ [rep ->] []. eexists; reflexivity.
Qed.
End transparent.

Section runs.
Context `{GoRuntime}.
Lemma wait_loop_gives_up fuel tr : run (wait_loop fuel) tr None → length (signals tr) = fuel.
Proof.
  revert tr. induction fuel as [|fuel IH]; intros tr Hr; [by inversion Hr; subst|].
  apply run_call_inv in Hr as ([sig|waitErr ps] & tr' & -> & Hr); [|by inversion Hr].
  cbn. f_equal. apply run_bind in Hr as (tr1 & [] & tr2 & -> & H1 & H2). rewrite omap_app.
  assert (signals tr1 = []) as E; [|unfold signals in E; rewrite E; by apply IH].
  destruct (forwardable sig); [|by inversion H1; subst].
  apply run_call_inv in H1 as (r & tr' & -> & H1). by inversion H1; subst.
Qed.

(** C25: the wrapper is transparent: in every run the command is echoed once, then started
    once with exactly the arguments given; every signal that can be passed on reaches the
    child before the next one is taken, and no other; nothing is read or written for the
    measurement before the child has ended, at most one line goes to the termination log,
    and the exit code is the child's (128 + signal, or 127 without one), whatever the
    cgroup files and the log answer.  The bounded loop of the model gives up only when as
    many signals as its fuel have arrived. *)
Theorem wrap_transparent fuel cmd args tr r : run (wrap fuel cmd args) tr r →
  match r with
  | Some code => ∃ reported, feed (phase_monitor (cmd :: args)) Fresh tr = Some (Ended code reported)
  | None => feed (phase_monitor (cmd :: args)) Fresh tr = Some (Running None) ∧ length (signals tr) = fuel
  end.
Proof.
  intros Hr. destruct (wp_sound _ _ _ _ _ _ (wp_wrap (cmd :: args) fuel cmd args eq_refl) Hr) as (st & Hf & Hst).
  destruct r as [code|]; [destruct Hst as [rep ->]; eauto|]. subst st. split; [done|].
  apply run_call_inv in Hr as (? & tr1 & -> & Hr). apply run_call_inv in Hr as (? & tr2 & -> & Hr).
  apply run_call_inv in Hr as ([?|e] & tr3 & -> & Hr).
  - apply run_bind in Hr as (tr4 & [[waitErr ps]|] & tr5 & -> & Hw & Hr).
    + apply run_bind in Hr as (? & ? & ? & -> & _ & Hr). apply run_bind in Hr as (? & ? & ? & -> & _ & Hr).
      apply run_call_inv in Hr as (? & ? & -> & Hr). by inversion Hr.
    + inversion Hr; subst. rewrite app_nil_r. exact (wait_loop_gives_up _ _ Hw).
  - apply run_call_inv in Hr as (? & ? & -> & Hr). apply run_bind in Hr as (? & ? & ? & -> & _ & Hr).
    apply run_call_inv in Hr as (? & ? & -> & Hr). by inversion Hr.
Qed.
End runs.

(** ** Installing is atomic *)
(** How far the copy is: the binary opened, the temporary file opened, filled, closed, and
    renamed; [Abandoned] once a step has failed. *)
Inductive copying := Unlocated | Located (self : string) | Reading (src : fd) | Filling (src dst : fd)
  | Filled (dst : fd) | Complete | Installed | Abandoned.
Definition install_monitor (dest : string) : monitor copying := λ st R c,
  match c in oscall R return R → option copying with
  | Executable => λ r, match st, r with
      | Unlocated, Ok self => Some (Located self) | Unlocated, Err _ => Some Abandoned | _, _ => None end
  | Open name => λ r, match st with
      | Located self => if String.eqb name self then Some (match r with Ok f => Reading f | Err _ => Abandoned end) else None
      | _ => None end
  | OpenFile name flag perm => λ r, match st with
      | Reading src =>
          if String.eqb name (dest +:+ ".tmp") && (perm =? mode_0555) && negb (Z.land flag O_TRUNC =? 0)
          then Some (match r with Ok dst => Filling src dst | Err _ => Abandoned end) else None
      | _ => None end
  | Copy dst src => λ r, match st with
      | Filling src' dst' => if (dst =? dst') && (src =? src') then Some (if is_ok r then Filled dst else Abandoned) else None
      | _ => None end
  | Close f => λ r, match st with
      | Filled dst => if f =? dst then Some (if is_ok r then Complete else Abandoned) else None
      | Complete | Installed | Abandoned => Some st
      | _ => None end
  | Rename from to => λ r, match st with
      | Complete => if String.eqb from (dest +:+ ".tmp") && String.eqb to dest
                    then Some (if is_ok r then Installed else Abandoned) else None
      | _ => None end
  | _ => λ _, None
  end.

(** C36: the shim binary appears whole or not at all: in every run of install the
    destination is touched by one rename at most, of the temporary file beside it, after
    that file was opened empty and executable by everyone, filled with a complete copy of
    the running binary and closed without error; install succeeds exactly when that rename
    did. *)
Theorem install_atomic dest tr r : run (install dest) tr r →
  ∃ st, feed (install_monitor dest) Unlocated tr = Some st ∧ (is_ok r = true ↔ st = Installed).
Proof.
  intros Hr. refine (wp_sound _ _ _ (λ st r, is_ok r = true ↔ st = Installed) _ _ _ Hr). clear tr r Hr.
  intros [self|e]; [|done]. intros [src|e]; cbn [install_monitor]; rewrite String.eqb_refl; [|done].
  intros [dst|e]; cbn [install_monitor]; rewrite String.eqb_refl; [|by intros ?].
  change (negb (Z.land _ O_TRUNC =? 0)) with true. cbn [andb Z.eqb mode_0555].
  intros [[]|e]; cbn [install_monitor is_ok]; rewrite !Z.eqb_refl; [|by intros ? ?].
  intros [[]|e]; cbn [install_monitor is_ok]; rewrite !Z.eqb_refl; [|by intros ?].
  intros [[]|e]; cbn [install_monitor is_ok]; rewrite !String.eqb_refl; by intros ?.
Qed.

(** ** The reported peak reaches the status *)
(** What a run reads and what it does to files, with the answers: a file that could not be
    opened and a write that failed are told apart from those that succeeded. *)
Inductive file_op := Opened (name : string) (flag : Z) (r : result fd) | Written (f : fd) (text : string) (r : result unit).
Definition file_op_of (e : event oscall) : option file_op :=
  match e with Ev c r => (match c in oscall R return R → option file_op with
    | OpenFile name flag _ => λ r, Some (Opened name flag r)
    | WriteString f s => λ r, Some (Written f s r)
    | _ => λ _, None end) r end.
Definition reading_of (e : event oscall) : option (string * result string) :=
  match e with Ev c r => (match c in oscall R return R → option (string * result string) with
    | ReadFile name => λ r, Some (name, r) | _ => λ _, None end) r end.
Definition env_of (e : event oscall) : option (string * string) :=
  match e with Ev c r => (match c in oscall R return R → option (string * string) with
    | Getenv key => λ r, Some (key, r) | _ => λ _, None end) r end.

(** The trimmed text of the first cgroup file that could be read; empty if none could. *)
Definition measured (readings : list (string * result string)) : string :=
  match omap (λ x, match x.2 with Ok raw => Some raw | Err _ => None end) readings with
  | raw :: _ => TrimSpace raw
  | [] => ""
  end.
(** The setting of a run: the variable's value, or the default for an empty one. *)
Definition setting (envs : list (string * string)) (key def : string) : string :=
  match List.filter (λ x, String.eqb x.1 key) envs with
  | (_, v) :: _ => if String.eqb v "" then def else v
  | [] => def
  end.

Section peak.
Context `{GoRuntime}.
Definition append_flags : Z := Z.lor (Z.lor O_APPEND O_CREATE) O_WRONLY.
(** The cgroup v2 file is read, and the v1 file if that fails. *)
Definition reads_cgroup (root : string) (readings : list (string * result string)) : Prop :=
  (∃ raw, readings = [(root +:+ "/memory.peak", Ok raw)]) ∨
  (∃ e x, readings = [(root +:+ "/memory.peak", Err e); (root +:+ "/memory/memory.max_usage_in_bytes", x)]).
(** Without a measurement no file is touched.  With one the log is opened to append, and
    if it opens, one line is written to it. *)
Definition reports_peak (peak log : string) (ops : list file_op) : Prop :=
  if String.eqb peak "" then ops = []
  else (∃ e, ops = [Opened log append_flags (Err e)]) ∨
       (∃ f w, ops = [Opened log append_flags (Ok f); Written f (peak_line peak) w]).

Lemma append_peak_run peak t : run (append_peak peak) t tt → omap reading_of t = [] ∧
  reports_peak peak (setting (omap env_of t) "TERMINATION_LOG" "/dev/termination-log") (omap file_op_of t).
Proof.
  intros Hr. unfold append_peak in Hr. unfold reports_peak. destruct (String.eqb peak ""); [by apply run_do in Hr as ->|].
  apply run_call_inv in Hr as (v & t1 & -> & Hr). apply run_call_inv in Hr as ([f|e] & t2 & -> & Hr).
  2: { apply run_do in Hr as ->. split; [done|]. left. by exists e. }
  apply run_call_inv in Hr as (w & t3 & -> & Hr).
  assert (Et : omap reading_of t3 = [] ∧ omap env_of t3 = [] ∧ omap file_op_of t3 = []).
  { destruct w as [[]|e]; apply run_call_inv in Hr as (? & t4 & -> & Hr); [|apply run_call_inv in Hr as (? & t5 & -> & Hr)];
      by apply run_mret in Hr as [-> _]. }
  destruct Et as (E1 & E2 & E3). cbn -[setting]. rewrite E1, E2, E3. split; [done|]. right. by exists f, w.
Qed.
Lemma reportPeak_run tr : run reportPeak tr tt →
  reads_cgroup (setting (omap env_of tr) "SHIM_CGROUP_ROOT" "/sys/fs/cgroup") (omap reading_of tr) ∧
  reports_peak (measured (omap reading_of tr)) (setting (omap env_of tr) "TERMINATION_LOG" "/dev/termination-log")
    (omap file_op_of tr).
Proof.
  intros Hr. apply run_call_inv in Hr as (root & t1 & -> & Hr). apply run_call_inv in Hr as (r1 & t2 & -> & Hr).
  destruct r1 as [raw|e]; [|apply run_call_inv in Hr as (r2 & t3 & -> & Hr)].
  - apply append_peak_run in Hr as [Er Hp]. cbn -[setting measured]. rewrite Er. split; [left; by exists raw|]. exact Hp.
  - assert (Hp : run (append_peak (measured [("", r2)])) t3 tt) by (by destruct r2).
    apply append_peak_run in Hp as [Er Hp]. cbn -[setting measured]. rewrite Er. split; [right; by exists e, r2|].
    by destruct r2.
Qed.

(** The rest of a phase reads and writes nothing. *)
Definition idle_call (R : Type) (c : oscall R) : Prop :=
  match c with Getenv _ | ReadFile _ | OpenFile _ _ _ | WriteString _ _ => False | _ => True end.
Lemma omap_idle {A B} (f : event oscall → option B) (p : osprog A) tr a :
  (∀ R (c : oscall R) r, idle_call R c → f (Ev c r) = None) → calls idle_call p → run p tr a → omap f tr = [].
Proof.
  intros Hf Hc Hr. pose proof (calls_run _ _ _ _ Hc Hr) as Hall. clear Hc Hr.
  induction Hall as [|[R c r] tr Hc _ IH]; [done|]. cbn. by rewrite Hf.
Qed.
Lemma wait_loop_idle fuel : calls idle_call (wait_loop fuel).
Proof.
  induction fuel as [|fuel IH]; [done|]. split; [done|]. intros [sig|waitErr ps]; [|done].
  apply calls_bind; [|done]. by destruct (forwardable sig).
Qed.
(** Every run that ends reports the peak once. *)
Lemma wrap_reports fuel cmd args tr code : run (wrap fuel cmd args) tr (Some code) →
  ∃ t, run reportPeak t tt ∧ ∀ B (f : event oscall → option B),
    (∀ R (c : oscall R) r, idle_call R c → f (Ev c r) = None) → omap f tr = omap f t.
Proof.
  intros Hr. apply run_call_inv in Hr as (? & tr1 & -> & Hr). apply run_call_inv in Hr as (? & tr2 & -> & Hr).
  apply run_call_inv in Hr as ([?|e] & tr3 & -> & Hr).
  - apply run_bind in Hr as (t4 & [[waitErr ps]|] & t5 & -> & Hw & Hr); [|by inversion Hr].
    apply run_bind in Hr as (t6 & [] & t7 & -> & Hp & Hr). exists t6. split; [done|]. intros B f Hf.
    apply (omap_idle f) in Hw; [|done|apply wait_loop_idle].
    apply (omap_idle f) in Hr; [|done|unfold exitCode; by destruct (child_code waitErr ps)].
    cbn. rewrite !Hf by done. by rewrite !omap_app, Hw, Hr, app_nil_r.
  - apply run_call_inv in Hr as (? & t4 & -> & Hr). apply run_bind in Hr as (t5 & [] & t6 & -> & Hp & Hr).
    exists t5. split; [done|]. intros B f Hf. apply (omap_idle f) in Hr; [|done|done].
    cbn. rewrite !Hf by done. by rewrite omap_app, Hr, app_nil_r.
Qed.

(** C35: the peak the shim measures is the peak the status shows.  Every run of the wrapper
    that ends, however the child ended, reads the cgroup v2 file and, if it cannot, the v1
    file.  If neither could be read (or what was read is blank) it touches no other file;
    otherwise it opens the termination log to append and, unless that is refused, makes one
    write to it, of the line with the measured text.  And when the file held the decimal
    number n, the operator reads n back from that line in the container's termination
    message, also behind complete lines the phase itself wrote to that log, as long as none
    of them is a peak report. *)
Theorem peak_memory_roundtrip fuel cmd args tr code : run (wrap fuel cmd args) tr (Some code) →
  let readings := omap reading_of tr in
  reads_cgroup (setting (omap env_of tr) "SHIM_CGROUP_ROOT" "/sys/fs/cgroup") readings ∧
  reports_peak (measured readings) (setting (omap env_of tr) "TERMINATION_LOG" "/dev/termination-log") (omap file_op_of tr) ∧
  ∀ n name ls, in_i64 n → 0 ≤ n → (name, Ok (Itoa n +:+ s1 newline)) ∈ readings → forallb other_line ls = true →
    measured readings ≠ "" ∧ parsePeakMemory (other_lines ls +:+ peak_line (measured readings)) = n.
Proof.
  intros Hr. apply wrap_reports in Hr as (t & Hp & Hf). cbv zeta. rewrite !Hf by (by intros R []).
  apply reportPeak_run in Hp as [Hreads Hrep]. split_and!; [done|done|].
  intros n name ls Hi Hn Hin Hls.
  assert (Em : measured (omap reading_of t) = Itoa n).
  { assert (Ht : TrimSpace (Itoa n +:+ s1 newline) = Itoa n)
      by (apply TrimSpace_newline; [by apply Itoa_visible|by apply Itoa_nonempty]).
    rewrite <- Ht. unfold reads_cgroup in Hreads. destruct Hreads as [[raw E]|(e & x & E)]; rewrite E in Hin |- *.
    - apply list_elem_of_singleton in Hin as [= _ <-]. done.
    - apply elem_of_cons in Hin as [[=]|Hin]. by apply list_elem_of_singleton in Hin as [= _ <-]. }
  rewrite Em. split; [by apply Itoa_nonempty|by apply parsePeakMemory_line].
Qed.
End peak.

(** ** A phase on a concrete machine *)
(** Two signals, one of them SIGCHLD, then the child is killed for its memory; the second
    component counts wake-ups. *)
Definition machine (R : Type) (c : oscall R) : nat → R * nat :=
  match c in oscall R return nat → R * nat with
  | Stdout _ | Stderr _ | Notify | StopNotify => λ w, (tt, w)
  | Getenv _ => λ w, ("", w)
  | ReadFile _ => λ w, (Ok (Itoa 268435456 +:+ s1 newline), w)
  | Executable => λ w, (Ok "/shim", w)
  | Open _ => λ w, (Ok 3, w)
  | OpenFile _ _ _ => λ w, (Ok 4, w)
  | WriteString _ _ | Copy _ _ | Close _ | Rename _ _ | Start _ | SignalChild _ => λ w, (Ok tt, w)
  | Select => λ w, (match w with
      | O => Received (SyscallSignal 15) | 1%nat => Received (SyscallSignal 17)
      | _ => Waited (Err (errorf "signal: killed")) (Some (Signaled 9)) end, S w)
  end.
#[local] Existing Instance ascii_only_tables.
Definition killed_phase : osprog (option Z) := wrap 5 "npm" ["run"; "build"].

Lemma killed_phase_code : value_of machine killed_phase O = Some 137.
Proof. vm_compute. reflexivity. Qed.
Lemma killed_phase_run : run killed_phase (trace_of machine killed_phase O) (Some 137).
Proof. rewrite <- killed_phase_code. apply executes. Qed.

Lemma wrap_transparent_witness : ∃ reported,
  feed (phase_monitor ["npm"; "run"; "build"]) Fresh (trace_of machine killed_phase O) = Some (Ended 137 reported).
Proof. exact (wrap_transparent 5 "npm" ["run"; "build"] _ (Some 137) killed_phase_run). Defined.
Lemma install_atomic_witness : ∃ st,
  feed (install_monitor "/baker/shim") Unlocated (trace_of machine (install "/baker/shim") O) = Some st ∧
  (is_ok (value_of machine (install "/baker/shim") O) = true ↔ st = Installed).
Proof. exact (install_atomic "/baker/shim" _ _ (executes _ _ _)). Defined.
Lemma peak_memory_roundtrip_witness :
  omap file_op_of (trace_of machine killed_phase O) =
    [Opened "/dev/termination-log" append_flags (Ok 4); Written 4 (peak_line "268435456") (Ok tt)] ∧
  parsePeakMemory (other_lines ["building"; "done"] +:+ peak_line (measured (omap reading_of (trace_of machine killed_phase O)))) = 268435456.
Proof.
  split; [vm_compute; reflexivity|].
  apply (proj2 (proj2 (peak_memory_roundtrip 5 "npm" ["run"; "build"] _ 137 killed_phase_run))) with (name := "/sys/fs/cgroup/memory.peak").
  - unfold in_i64, i64_min, i64_max. lia.
  - lia.
  - assert (E : omap reading_of (trace_of machine killed_phase O) =
      [("/sys/fs/cgroup/memory.peak", Ok (Itoa 268435456 +:+ s1 newline))]) by (vm_compute; reflexivity).
    rewrite E. left.
  - vm_compute. reflexivity.
Defined.
