(* ===== verification/Unstructured.v ===== *)
(** The generic object tree the console reads: the values of
    k8s.io/apimachinery's unstructured objects, the accessors it calls on them,
    and console/internal/view/coerce.go.

    The accessors are library code: the class [UnstructuredLib] states what their
    documentation says of them.  A deep copy is the identity on values. *)
From Stdlib Require Import ZArith Ascii String SpecFloat.
From stdpp Require Import base gmap strings list numbers sorting.
From S2P Require Import Prelude GoStd GoNum.

Open Scope string_scope.
Open Scope list_scope.
Open Scope Z_scope.

Inductive uval :=
| UNil
| UBool (b : bool)
| UInt (n : Z)
| UFloat (x : f64)
| UStr (s : string)
| UList (l : list uval)
| UMap (m : gmap string uval).
Notation umap := (gmap string uval).

(** [m[k]] as an [any]: nil for a missing key. *)
Definition at_ (m : umap) (k : string) : uval := default UNil (m !! k).
(** Reading a nil map is reading an empty one. *)
Definition of_nil (m : option umap) : umap := default ∅ m.
(** [v.(map[string]any)] and [v.([]any)] *)
Definition as_map (v : uval) : option umap := match v with UMap m => Some m | _ => None end.
Definition as_list (v : uval) : option (list uval) := match v with UList l => Some l | _ => None end.

(** The value a path of keys leads to. *)
Fixpoint nested (m : umap) (path : list string) : option uval :=
  match path with
  | [] => Some (UMap m)
  | [k] => m !! k
  | k :: path' => match m !! k with Some (UMap m') => nested m' path' | _ => None end
  end.

Definition is_str (x : uval) : bool := match x with UStr _ => true | _ => false end.
(** A string map of an object: every value a string. *)
Definition string_map_of (v : option uval) : option (gmap string string) :=
  match v with
  | Some (UMap m) =>
      if bool_decide (map_Forall (λ _ x, is_str x = true) m)
      then Some (omap (λ x, match x with UStr s => Some s | _ => None end) m) else None
  | _ => None
  end.
Class UnstructuredLib := {
  GetName : umap → string;
  GetNamespace : umap → string;
  GetAnnotations : umap → gmap string string;
  GetLabels : umap → gmap string string;
  (* the second component is Go's [found] *)
  NestedMap : umap → list string → option umap * bool;
  NestedBool : umap → list string → bool * bool;
  NestedString : umap → list string → string * bool;
  NestedSlice : umap → list string → option (list uval) * bool;
  NestedFieldNoCopy : umap → list string → option uval * bool;
  (* what their documentation says *)
  GetName_spec o s : nested o ["metadata"; "name"] = Some (UStr s) → GetName o = s;
  GetNamespace_spec o s : nested o ["metadata"; "namespace"] = Some (UStr s) → GetNamespace o = s;
  GetAnnotations_spec o m : string_map_of (nested o ["metadata"; "annotations"]) = Some m → GetAnnotations o = m;
  GetAnnotations_none o : nested o ["metadata"; "annotations"] = None → GetAnnotations o = ∅;
  GetLabels_spec o m : string_map_of (nested o ["metadata"; "labels"]) = Some m → GetLabels o = m;
  GetLabels_none o : nested o ["metadata"; "labels"] = None → GetLabels o = ∅;
  NestedMap_spec o p : NestedMap o p =
    match nested o p with Some (UMap m) => (Some m, true) | _ => (None, false) end;
  NestedBool_spec o p : NestedBool o p =
    match nested o p with Some (UBool b) => (b, true) | _ => (false, false) end;
  NestedString_spec o p : NestedString o p =
    match nested o p with Some (UStr s) => (s, true) | _ => ("", false) end;
  NestedSlice_spec o p : NestedSlice o p =
    match nested o p with Some (UList l) => (Some l, true) | _ => (None, false) end;
  NestedFieldNoCopy_found o p v : nested o p = Some v → NestedFieldNoCopy o p = (Some v, true);
  NestedFieldNoCopy_none o p : nested o p = None → (NestedFieldNoCopy o p).2 = false;
}.

Definition read_string (v : option uval) : string := match v with Some (UStr s) => s | _ => "" end.

(** Accessors that do just that, for evaluation. *)
#[refine] Definition plain_accessors : UnstructuredLib := {|
  GetName o := read_string (nested o ["metadata"; "name"]);
  GetNamespace o := read_string (nested o ["metadata"; "namespace"]);
  GetAnnotations o := default ∅ (string_map_of (nested o ["metadata"; "annotations"]));
  GetLabels o := default ∅ (string_map_of (nested o ["metadata"; "labels"]));
  NestedMap o p := match nested o p with Some (UMap m) => (Some m, true) | _ => (None, false) end;
  NestedBool o p := match nested o p with Some (UBool b) => (b, true) | _ => (false, false) end;
  NestedString o p := match nested o p with Some (UStr s) => (s, true) | _ => ("", false) end;
  NestedSlice o p := match nested o p with Some (UList l) => (Some l, true) | _ => (None, false) end;
  NestedFieldNoCopy o p := (nested o p, bool_decide (is_Some (nested o p)))
|}.
Proof.
  all: intros; try done; repeat match goal with H : _ = Some _ |- _ => rewrite H | H : _ = None |- _ => rewrite H end; done.
Defined.

(** ** coerce.go *)
(** What float64 values without a Go-defined conversion convert to, and the
    shortest decimal text of a float64. *)
Class FloatLib := {
  f64_to_i64_odd : f64 → Z;
  FormatFloat : f64 → string;
}.
Definition some_floats : FloatLib := {| f64_to_i64_odd _ := i64_min; FormatFloat _ := "0.5" |}.

Definition f64_trunc (x : f64) : option Z :=
  match x with
  | S754_zero _ => Some 0
  | S754_finite s m e =>
      let n := if 0 <=? e then Z.pos m * 2 ^ e else Z.pos m / 2 ^ (- e) in
      Some (if s then - n else n)
  | _ => None
  end.

Section coerce.
Context `{FloatLib}.

(** [int64(x)]: toward zero where the result fits. *)
Definition f64_to_i64 (x : f64) : Z :=
  match f64_trunc x with
  | Some n => if bool_decide (in_i64 n) then n else f64_to_i64_odd x
  | None => f64_to_i64_odd x
  end.

(* Go: console/internal/view/coerce.go asString *)
Definition asString (v : uval) : string :=
  match v with
  | UStr s => s
  | UBool b => if b then "true" else "false"
  | UInt n => Itoa n
  | UFloat x =>
      if SFeqb x (f64_of_Z (f64_to_i64 x)) then Itoa (f64_to_i64 x) else FormatFloat x
  | UNil | UList _ | UMap _ => ""
  end.

(* Go: console/internal/view/coerce.go asInt *)
Definition asInt (v : uval) : Z :=
  match v with
  | UInt n => n
  | UFloat x => f64_to_i64 x
  | UStr s => fst (ParseInt s)
  | _ => 0
  end.

(** [strconv.ParseBool], its error read as false. *)
Definition ParseBool (s : string) : bool :=
  bool_decide (s ∈ ["1"; "t"; "T"; "TRUE"; "true"; "True"]).
(* Go: console/internal/view/coerce.go asBool *)
Definition asBool (v : uval) : bool :=
  match v with
  | UBool b => b
  | UStr s => ParseBool s
  | _ => false
  end.
End coerce.

Example coerce_examples : let _ := some_floats in
  map asString [UInt (-5); UBool true; UFloat (f64_of_Z 1048576); UNil; UMap ∅] = ["-5"; "true"; "1048576"; ""; ""] ∧
  map asInt [UStr "12"; UStr "1x"; UFloat (f64_of_Z 7); UBool true] = [12; 0; 7; 0].
Proof. vm_compute. auto. Qed.
