(* ===== verification/Humanize.v ===== *)
(** console/internal/view/humanize.go, storagebar.go and commit.go, and the compact
    durations of model.go: the texts the console shows for numbers. *)
From Stdlib Require Import ZArith Ascii String SpecFloat.
From stdpp Require Import base gmap strings list numbers sorting.
From S2P Require Import Prelude GoStd GoNum GoTime Unstructured RepoHost.

Open Scope string_scope.
Open Scope list_scope.
Open Scope Z_scope.

(** ** Bytes *)
(** [float64(n)] for 0 <= n, as the integer it is: 53 significant bits, halves to
    even. *)
Definition f64_int (n : Z) : Z :=
  if n <? 2 ^ 53 then n
  else
    let k := Z.log2 n - 52 in
    let q := n / 2 ^ k in
    let rem := n mod 2 ^ k in
    let half := 2 ^ (k - 1) in
    (if (rem <? half) || ((rem =? half) && Z.even q) then q else q + 1) * 2 ^ k.

(** [for value >= 1024 && idx < len(units)-1 { value /= 1024; idx++ }]: dividing a
    float64 by 1024 is exact, so the value is m/div throughout. *)
(* Go: console/internal/view/humanize.go HumanizeBytes @34-40 *)
Fixpoint scale_units (units : list string) (cur : string) (m div : Z) : string * Z :=
  match units with
  | u :: us => if 1024 * div <=? m then scale_units us u m (1024 * div) else (cur, div)
  | [] => (cur, div)
  end.

(* Go: console/internal/view/humanize.go HumanizeBytes *)
Definition HumanizeBytes (n : Z) : string :=
  if n =? 0 then "0 B"
  else
    let neg := n <? 0 in
    let abs := if neg then i64 (- n) else n in
    if abs <? 1024 then (if neg then "-" else "") +:+ Itoa abs +:+ " B"
    else
      let m := f64_int abs in
      let '(u, div) := scale_units ["KiB"; "MiB"; "GiB"; "TiB"] "" m 1 in
      (if neg then "-" else "") +:+ one_decimal m div +:+ " " +:+ u.

(* Go: console/internal/view/humanize.go HumanizeDelta *)
Definition HumanizeDelta (n : Z) : string :=
  if n =? 0 then "▬ no change"
  else if 0 <? n then "▲ +" +:+ HumanizeBytes n
  else "▼ " +:+ HumanizeBytes n.

Example humanize_examples :
  map HumanizeBytes [0; 512; 1024; 1536; 1048576; -125829120; 2 ^ 50; i64_max] =
    ["0 B"; "512 B"; "1.0 KiB"; "1.5 KiB"; "1.0 MiB"; "-120.0 MiB"; "1024.0 TiB"; "8388608.0 TiB"] ∧
  map HumanizeDelta [0; 125829120; -1288490189] = ["▬ no change"; "▲ +120.0 MiB"; "▼ -1.2 GiB"] ∧
  forallb (λ n, bool_decide (f64_trunc (f64_of_Z n) = Some (f64_int n)))
    [0; 1; 2 ^ 53 - 1; 2 ^ 53 + 1; 2 ^ 53 + 3; 2 ^ 60 + 129; i64_max; 2 ^ 62 + 511] = true.
Proof. vm_compute. auto. Qed.
(** The most negative amount has no absolute value. *)
Example HumanizeBytes_min : HumanizeBytes i64_min = "--9223372036854775808 B".
Proof. vm_compute. reflexivity. Qed.

(** ** Fill bars *)
(* Go: console/internal/view/storagebar.go StorageBarNoBar @5-7 *)
Definition StorageBarNoBar : Z := -1.

(** [math.Round]: halves away from zero. *)
Definition f64_round_away (x : f64) : option Z :=
  match x with
  | S754_zero _ => Some 0
  | S754_finite s m e =>
      let n := if 0 <=? e then Z.pos m * 2 ^ e else (2 * Z.pos m + 2 ^ (- e)) / 2 ^ (1 - e) in
      Some (if s then - n else n)
  | _ => None
  end.

Section bar.
Context `{FloatLib}.
(* Go: console/internal/view/storagebar.go StorageBar *)
Definition StorageBar (usedBytes capBytes : Z) : Z * bool :=
  if capBytes <=? 0 then (StorageBarNoBar, false)
  else
    let x := f64_mul (f64_div (f64_of_Z usedBytes) (f64_of_Z capBytes)) (f64_of_Z 100) in
    let pct := match f64_round_away x with
               | Some n => if bool_decide (in_i64 n) then n else f64_to_i64_odd x
               | None => f64_to_i64_odd x
               end in
    (pct, capBytes <? usedBytes).
End bar.
Example bar_examples : let _ := some_floats in
  map (uncurry StorageBar) [(50, 200); (1, 3); (5, 1000); (201, 200); (1, 0); (-1, 200)] =
    [(25, false); (33, false); (1, false); (100, true); (-1, false); (-1, false)].
Proof. vm_compute. reflexivity. Qed.

(** ** Durations *)
Definition TrimSuffix (s suffix : string) : string :=
  if HasSuffix s suffix then take (String.length s - String.length suffix) s else s.

(* Go: console/internal/view/model.go compactDuration *)
Definition compactDuration (d : Z) : string :=
  let out := duration_string (round_second d) in
  let out := if HasSuffix out "m0s" then TrimSuffix out "0s" else out in
  if HasSuffix out "h0m" then TrimSuffix out "0m" else out.

Example compact_examples :
  map compactDuration [400 * Millisecond; 48 * Second; 2 * Minute; 150 * Second; Hour; Hour + 5 * Second; 90 * Minute] =
    ["0s"; "48s"; "2m"; "2m30s"; "1h"; "1h0m5s"; "1h30m"].
Proof. vm_compute. reflexivity. Qed.

(** ** commit.go *)
(* Go: console/internal/view/commit.go ShortSHA *)
Definition ShortSHA (sha : string) : string :=
  if (7 <? String.length sha)%nat then take 7 sha else sha.

(* Go: console/internal/view/commit.go CommitURL *)
Definition CommitURL (repo sha : string) : string :=
  if String.eqb sha "" then ""
  else
    let base :=
      if HasPrefix repo "https://" || HasPrefix repo "http://" then Some repo
      else if HasPrefix repo "git@" then
        match cut (drop 4 repo) ":" with
        | None => None
        | Some (host, path) =>
            if String.eqb host "" || String.eqb path "" then None
            else Some ("https://" +:+ host +:+ "/" +:+ path)
        end
      else None in
    match base with
    | None => ""
    | Some base =>
        let base := TrimSuffix (TrimSuffix base "/") ".git" in
        if one_of base " " || one_of base (chr 9) then "" else base +:+ "/commit/" +:+ sha
    end.

Example commit_examples :
  map (λ r, CommitURL r "cafe") ["https://github.com/o/r.git"; "git@github.com:o/r.git"; "ssh://git@h/o/r"; "git@host"; "https://h/a b"; ""] =
    ["https://github.com/o/r/commit/cafe"; "https://github.com/o/r/commit/cafe"; ""; ""; ""; ""] ∧
  ShortSHA "cafebabe1234" = "cafebab".
Proof. vm_compute. auto. Qed.
