(* ===== verification/View.v ===== *)
(** console/internal/view/model.go and step.go: the view model of an App and the
    labels, classes and totals derived from it. *)
From Stdlib Require Import ZArith Ascii String SpecFloat.
From stdpp Require Import base gmap strings list numbers sorting.
From S2P Require Import Prelude GoStd GoNum GoTime Unstructured RepoHost Humanize.

Open Scope string_scope.
Open Scope list_scope.
Open Scope Z_scope.

(** ** Annotation keys, written out as in the source *)
(* Go: console/internal/view/model.go AnnotationRebuildRequestedAt *)
Definition AnnotationRebuildRequestedAt : string := "rebuild.baker.toggle-corp.com/requested-at".
(* Go: console/internal/view/model.go AnnotationRebuildBy *)
Definition AnnotationRebuildBy : string := "rebuild.baker.toggle-corp.com/by".
(* Go: console/internal/view/model.go AnnotationRebuildCommit *)
Definition AnnotationRebuildCommit : string := "rebuild.baker.toggle-corp.com/commit".
(* Go: console/internal/view/model.go AnnotationWatchLastSeen *)
Definition AnnotationWatchLastSeen : string := "watch.baker.toggle-corp.com/last-seen-sha".
(* Go: console/internal/view/model.go AnnotationCleanupCacheRequestedAt *)
Definition AnnotationCleanupCacheRequestedAt : string := "cleanup-cache.baker.toggle-corp.com/requested-at".
(* Go: console/internal/view/model.go AnnotationCleanupCacheBy *)
Definition AnnotationCleanupCacheBy : string := "cleanup-cache.baker.toggle-corp.com/by".
(* Go: console/internal/view/model.go AnnotationCleanupReleasesRequestedAt *)
Definition AnnotationCleanupReleasesRequestedAt : string := "cleanup-releases.baker.toggle-corp.com/requested-at".
(* Go: console/internal/view/model.go AnnotationCleanupReleasesBy *)
Definition AnnotationCleanupReleasesBy : string := "cleanup-releases.baker.toggle-corp.com/by".

(** ** Data *)
(* Go: console/internal/view/model.go Condition @42-49 *)
Record Condition := MkVCondition {
  VC_Type : string; VC_Status : string; VC_Reason : string; VC_Message : string;
  VC_LastTransitionTime : string;
}.
(* Go: console/internal/view/model.go Step @71-90 *)
Record Step := MkVStep {
  VS_Name : string; VS_Status : string; VS_Message : string; VS_PeakMemory : string;
  VS_MemoryLimit : string; VS_StartedAt : string; VS_FinishedAt : string;
}.
(* Go: console/internal/view/model.go Termination @154-163 *)
Record Termination := MkVTermination {
  VT_Reason : string; VT_Container : string; VT_MemoryLimit : string; VT_FinishedAt : string;
  VT_ExitCode : Z;
}.
(* Go: console/internal/view/model.go Build @133-152 *)
Record Build := MkVBuild {
  VB_Phase : string; VB_Result : string; VB_JobName : string; VB_PodName : string;
  VB_Trigger : string; VB_TriggeredBy : string; VB_Commit : string; VB_StartTime : string;
  VB_CompletionTime : string; VB_Attempts : Z; VB_FailedStep : string; VB_Message : string;
  VB_LogsRef : string; VB_Steps : list Step; VB_Termination : option Termination;
}.
Definition zero_vbuild : Build := MkVBuild "" "" "" "" "" "" "" "" "" 0 "" "" "" [] None.
(* Go: console/internal/view/model.go Release @232-237 *)
Record Release := MkVRelease { VR_Current : string; VR_Previous : string; VR_ServingSince : string }.
(* Go: console/internal/view/model.go StorageVolume @252-270 *)
Record StorageVolume := MkStorageVolume {
  VV_Name : string; VV_Bytes : Z; VV_Human : string; VV_Delta : string; VV_Cap : Z;
  VV_CapHuman : string; VV_BarPct : Z; VV_Over : bool; VV_HasBar : bool; VV_Releases : Z;
}.
(* Go: console/internal/view/model.go Storage @239-250 *)
Record Storage := MkVStorage {
  VST_MeasuredAt : string; VST_ThresholdState : string; VST_ReleaseCount : Z;
  VST_Volumes : list StorageVolume;
}.
(* Go: console/internal/view/model.go CleanupAction @305-310 *)
Record CleanupAction := MkVCleanupAction {
  VCA_RequestedAt : string; VCA_RequestedBy : string; VCA_Phase : string;
  VCA_LastCompleted : string; VCA_Message : string; VCA_ReclaimedBytes : Z;
}.
Definition zero_vaction : CleanupAction := MkVCleanupAction "" "" "" "" "" 0.
(* Go: console/internal/view/model.go Cleanup @312-315 *)
Record Cleanup := MkVCleanup { VCL_Cache : CleanupAction; VCL_Releases : CleanupAction }.
(* Go: console/internal/view/model.go ManualTrigger @317-321 *)
Record ManualTrigger := MkVManualTrigger { VMT_TriggeredBy : string; VMT_Time : string }.
(* Go: console/internal/view/model.go ScheduledBuilds @323-329 *)
Record ScheduledBuilds := MkVScheduled { VSB_Enabled : bool; VSB_Schedule : string }.
(* Go: console/internal/view/model.go WatchCommits @331-337 *)
Record WatchCommits := MkVWatch { VW_Enabled : bool; VW_Interval : string; VW_LastSeenSHA : string }.
(* Go: console/internal/view/model.go BuildMetrics @422-436 *)
Record BuildMetrics := MkBuildMetrics {
  BM_Container : string; BM_MemoryBytes : Z; BM_MemoryHuman : string; BM_MemLimitBytes : Z;
  BM_MemLimitHuman : string; BM_MemBarPct : Z; BM_MemOver : bool; BM_HasMemBar : bool;
}.
(* Go: console/internal/view/model.go App @367-420 *)
Record App := MkVApp {
  VA_Namespace : string; VA_Name : string; VA_Group : string;
  VA_ObservedGeneration : Z; VA_Phase : string; VA_NodeName : string; VA_URL : string;
  VA_SpecStale : bool; VA_Conditions : list Condition; VA_Build : Build;
  VA_BuildHistory : list Build; VA_LastProcessedRebuild : string; VA_LastBuiltSpecHash : string;
  VA_LastBuildTime : string; VA_LastSuccessfulBuild : string; VA_NextScheduledBuildTime : string;
  VA_Release : Release; VA_Storage : Storage; VA_Cleanup : Cleanup; VA_ManualTrigger : ManualTrigger;
  VA_Repo : string; VA_ScheduledBuilds : ScheduledBuilds; VA_WatchCommits : WatchCommits;
  VA_HasStatus : bool; VA_BuildMetrics : option BuildMetrics; VA_BuildMetricsNote : string;
}.
#[export] Instance eta_VApp : Eta App := λ x,
  MkVApp (VA_Namespace x) (VA_Name x) (VA_Group x) (VA_ObservedGeneration x) (VA_Phase x)
  (VA_NodeName x) (VA_URL x) (VA_SpecStale x) (VA_Conditions x) (VA_Build x) (VA_BuildHistory x)
  (VA_LastProcessedRebuild x) (VA_LastBuiltSpecHash x) (VA_LastBuildTime x)
  (VA_LastSuccessfulBuild x) (VA_NextScheduledBuildTime x) (VA_Release x) (VA_Storage x)
  (VA_Cleanup x) (VA_ManualTrigger x) (VA_Repo x) (VA_ScheduledBuilds x) (VA_WatchCommits x)
  (VA_HasStatus x) (VA_BuildMetrics x) (VA_BuildMetricsNote x).

(** ** Conditions *)
(* Go: console/internal/view/model.go IsTrue @51-52 *)
Definition IsTrue (c : Condition) : bool := String.eqb (VC_Status c) "True".
(* Go: console/internal/view/model.go HealthClass @54-69 *)
Definition Condition_HealthClass (c : Condition) : string :=
  let healthyWhenTrue := negb (String.eqb (VC_Type c) "Degraded") in
  if String.eqb (VC_Status c) "True" || String.eqb (VC_Status c) "False"
  then if Bool.eqb (String.eqb (VC_Status c) "True") healthyWhenTrue then "true" else "false"
  else "unknown".

(** ** Steps and builds *)
(* Go: console/internal/view/model.go Duration @92-117 *)
Definition Step_Duration (now : Z) (s : Step) : string :=
  match ParseRFC3339 (VS_StartedAt s) with
  | None => ""
  | Some start =>
      let finish := if negb (String.eqb (VS_FinishedAt s) "") then ParseRFC3339 (VS_FinishedAt s)
                    else if String.eqb (VS_Status s) "Running" then Some now else None in
      match finish with
      | None => ""
      | Some t => let d := Sub t start in if d <? 0 then "" else compactDuration d
      end
  end.
(* Go: console/internal/view/step.go Icon *)
Definition Icon (s : Step) : string :=
  if String.eqb (VS_Status s) "Succeeded" then "✓"
  else if String.eqb (VS_Status s) "Running" then "●"
  else if String.eqb (VS_Status s) "Failed" then "✕"
  else if String.eqb (VS_Status s) "Aborted" then "◼" else "·".
(* Go: console/internal/view/step.go CSSClass *)
Definition CSSClass (s : Step) : string :=
  if String.eqb (VS_Status s) "Succeeded" then "step-succeeded"
  else if String.eqb (VS_Status s) "Running" then "step-running"
  else if String.eqb (VS_Status s) "Failed" then "step-failed"
  else if String.eqb (VS_Status s) "Aborted" then "step-aborted" else "step-pending".
(* Go: console/internal/view/step.go AriaLabel *)
Definition AriaLabel `{GoRuntime} (s : Step) : string := VS_Name s +:+ ": " +:+ ToLower (VS_Status s).

(* Go: console/internal/view/model.go IsOOM *)
Definition IsOOM (b : Build) : bool :=
  match VB_Termination b with Some t => String.eqb (VT_Reason t) "OOMKilled" | None => false end.
(* Go: console/internal/view/model.go TerminationSummary *)
Definition TerminationSummary (b : Build) : string :=
  match VB_Termination b with
  | None => ""
  | Some t =>
      if String.eqb (VT_Reason t) "" then ""
      else if IsOOM b then
        if negb (String.eqb (VT_MemoryLimit t) "")
        then "OOM Killed — the " +:+ VT_Container t +:+ " step exceeded its " +:+ VT_MemoryLimit t +:+ " memory limit."
        else "OOM Killed — the " +:+ VT_Container t +:+ " step exceeded its memory limit."
      else "Terminated: " +:+ VT_Reason t +:+ " (exit " +:+ Itoa (VT_ExitCode t) +:+ ")"
  end.
(* Go: console/internal/view/model.go TriggerLabel *)
Definition TriggerLabel (b : Build) : string :=
  if String.eqb (VB_Trigger b) "" then "—"
  else if negb (String.eqb (VB_TriggeredBy b) "") then VB_Trigger b +:+ " · " +:+ VB_TriggeredBy b
  else if negb (String.eqb (VB_Commit b) "") then VB_Trigger b +:+ " · " +:+ ShortSHA (VB_Commit b)
  else VB_Trigger b.
(* Go: console/internal/view/model.go Duration @211-230 *)
Definition Build_Duration (b : Build) : string :=
  match ParseRFC3339 (VB_StartTime b), ParseRFC3339 (VB_CompletionTime b) with
  | Some start, Some t => let d := Sub t start in if d <? 0 then "" else compactDuration d
  | _, _ => ""
  end.

(** ** Storage rows *)
(* Go: console/internal/view/model.go volumeLabel *)
Definition volumeLabel (key : string) : string :=
  if String.eqb key "output" then "Output (current release)"
  else if String.eqb key "outputTotal" then "Output (all releases)"
  else if String.eqb key "cache" then "Cache"
  else if String.eqb key "dataCache" then "Data cache" else key.
(* Go: console/internal/view/model.go DisplayName *)
Definition DisplayName (v : StorageVolume) : string :=
  if String.eqb (VV_Name v) "outputTotal" && (0 <? VV_Releases v)
  then if VV_Releases v =? 1 then "Output (1 release)"
       else "Output (" +:+ Itoa (VV_Releases v) +:+ " releases)"
  else volumeLabel (VV_Name v).

(** ** Triggers *)
(* Go: console/internal/view/model.go Label @339-352 *)
Definition ScheduledBuilds_Label (s : ScheduledBuilds) : string :=
  if negb (VSB_Enabled s) then "Disabled"
  else if String.eqb (VSB_Schedule s) "" then "operator default" else VSB_Schedule s.
(* Go: console/internal/view/model.go Label @354-365 *)
Definition WatchCommits_Label (w : WatchCommits) : string :=
  if negb (VW_Enabled w) then "Disabled"
  else if String.eqb (VW_Interval w) "" then "operator default" else "every " +:+ VW_Interval w.

(** ** The App at a glance *)
(* Go: console/internal/view/model.go Condition @438-448 *)
Definition App_Condition (a : App) (t : string) : option Condition :=
  List.find (λ c, String.eqb (VC_Type c) t) (VA_Conditions a).
(* Go: console/internal/view/model.go BuildActive *)
Definition BuildActive (a : App) : bool :=
  String.eqb (VA_Phase a) "Building" || String.eqb (VB_Phase (VA_Build a)) "Running" ||
  String.eqb (VB_Phase (VA_Build a)) "Pending".
(* Go: console/internal/view/model.go Active @457-458 *)
Definition Active (c : CleanupAction) : bool :=
  String.eqb (VCA_Phase c) "Pending" || String.eqb (VCA_Phase c) "Running".
(* Go: console/internal/view/model.go ReclaimedHuman @460-461 *)
Definition ReclaimedHuman (c : CleanupAction) : string := HumanizeBytes (VCA_ReclaimedBytes c).
(* Go: console/internal/view/model.go CleanupActive @463-464 *)
Definition CleanupActive (a : App) : bool :=
  Active (VCL_Cache (VA_Cleanup a)) || Active (VCL_Releases (VA_Cleanup a)).
(* Go: console/internal/view/model.go CleanupBusy @466-468 *)
Definition CleanupBusy (a : App) : bool := BuildActive a || CleanupActive a.
(* Go: console/internal/view/model.go Ready @470-470 *)
Definition Ready (a : App) : bool :=
  match App_Condition a "Ready" with Some c => IsTrue c | None => false end.
(* Go: console/internal/view/model.go Degraded @471-471 *)
Definition Degraded (a : App) : bool :=
  match App_Condition a "Degraded" with Some c => IsTrue c | None => false end.
(* Go: console/internal/view/model.go BuildFailed @472-475 *)
Definition BuildFailed (a : App) : bool :=
  match App_Condition a "BuildSucceeded" with Some c => String.eqb (VC_Status c) "False" | None => false end.

(* Go: console/internal/view/model.go HealthClass @477-491 *)
Definition HealthClass (a : App) : string :=
  if Degraded a && Ready a then "degraded-serving"
  else if Degraded a then "degraded"
  else if Ready a then "ready"
  else if String.eqb (VA_Phase a) "Building" then "building"
  else "pending".
(* Go: console/internal/view/model.go HealthLabel *)
Definition HealthLabel (a : App) : string :=
  if Degraded a && Ready a then "Serving last-good (latest build failed)"
  else if Degraded a then "Degraded"
  else if Ready a then "Ready"
  else if String.eqb (VA_Phase a) "Building" then "Building"
  else if negb (String.eqb (VA_Phase a) "") then VA_Phase a
  else "Pending".
(* Go: console/internal/view/model.go HealthShortLabel *)
Definition HealthShortLabel (a : App) : string :=
  if String.eqb (HealthClass a) "degraded-serving" then "Serving last-good" else HealthLabel a.
(* Go: console/internal/view/model.go HealthRank *)
Definition HealthRank (a : App) : Z :=
  let c := HealthClass a in
  if String.eqb c "degraded" then 0
  else if String.eqb c "degraded-serving" then 1
  else if String.eqb c "building" then 2
  else if String.eqb c "pending" then 3 else 4.

(* Go: console/internal/view/model.go URLHost *)
Definition URLHost `{GoRuntime} (a : App) : string :=
  if String.eqb (VA_URL a) "" then ""
  else match url_host (VA_URL a) with
       | Some h => if negb (String.eqb h "") then h else VA_URL a
       | None => VA_URL a
       end.
(* Go: console/internal/view/model.go StorageBadgeLabel *)
Definition StorageBadgeLabel (a : App) : string :=
  if String.eqb (VST_ThresholdState (VA_Storage a)) "Alert" then "STORAGE ALERT"
  else if String.eqb (VST_ThresholdState (VA_Storage a)) "Critical" then "STORAGE CRITICAL" else "".
(* Go: console/internal/view/model.go StorageBadgeClass *)
Definition StorageBadgeClass (a : App) : string :=
  if String.eqb (VST_ThresholdState (VA_Storage a)) "Alert" then "b-stale"
  else if String.eqb (VST_ThresholdState (VA_Storage a)) "Critical" then "b-degraded" else "".
(* Go: console/internal/view/model.go ShowFlow *)
Definition ShowFlow (a : App) : bool := BuildActive a || String.eqb (VB_Result (VA_Build a)) "Failed".
(* Go: console/internal/view/model.go ServingJobName *)
Definition ServingJobName (a : App) : string :=
  if negb (Ready a) then ""
  else match List.find (λ b, String.eqb (VB_Result b) "Succeeded") (VA_BuildHistory a) with
       | Some b => VB_JobName b
       | None => ""
       end.
(* Go: console/internal/view/commit.go CommitLink @36-38 *)
Definition CommitLink (a : App) (sha : string) : string := CommitURL (VA_Repo a) sha.

(** ** Storage totals *)
(* Go: console/internal/view/model.go StorageTotals @664-673 *)
Record StorageTotals := MkTotals {
  TT_Cache : Z; TT_DataCache : Z; TT_OutputTotal : Z; TT_OutputActive : Z; TT_Grand : Z;
}.
#[export] Instance eta_StorageTotals : Eta StorageTotals := λ x,
  MkTotals (TT_Cache x) (TT_DataCache x) (TT_OutputTotal x) (TT_OutputActive x) (TT_Grand x).
Definition zero_totals : StorageTotals := MkTotals 0 0 0 0 0.
(** [t.Grand = t.Cache + t.DataCache + t.OutputTotal] in int64. *)
Definition with_grand (t : StorageTotals) : StorageTotals :=
  t <| TT_Grand := i64 (i64 (TT_Cache t + TT_DataCache t) + TT_OutputTotal t) |>.
(* Go: console/internal/view/model.go storageTotals *)
Definition storageTotals (a : App) : StorageTotals :=
  with_grand (foldl (λ t v,
    if String.eqb (VV_Name v) "cache" then t <| TT_Cache := VV_Bytes v |>
    else if String.eqb (VV_Name v) "dataCache" then t <| TT_DataCache := VV_Bytes v |>
    else if String.eqb (VV_Name v) "outputTotal" then t <| TT_OutputTotal := VV_Bytes v |>
    else if String.eqb (VV_Name v) "output" then t <| TT_OutputActive := VV_Bytes v |>
    else t) zero_totals (VST_Volumes (VA_Storage a))).
(* Go: console/internal/view/model.go StorageCacheBytes @629-630 *)
Definition StorageCacheBytes (a : App) : Z := TT_Cache (storageTotals a).
(* Go: console/internal/view/model.go StorageDataCacheBytes @632-633 *)
Definition StorageDataCacheBytes (a : App) : Z := TT_DataCache (storageTotals a).
(* Go: console/internal/view/model.go StorageOutputTotalBytes @635-637 *)
Definition StorageOutputTotalBytes (a : App) : Z := TT_OutputTotal (storageTotals a).
(* Go: console/internal/view/model.go StorageOutputActiveBytes @639-642 *)
Definition StorageOutputActiveBytes (a : App) : Z := TT_OutputActive (storageTotals a).
(* Go: console/internal/view/model.go StorageTotalBytes @644-647 *)
Definition StorageTotalBytes (a : App) : Z := TT_Grand (storageTotals a).
(* Go: console/internal/view/model.go GrandHuman @675-677 *)
Definition GrandHuman (t : StorageTotals) : string := HumanizeBytes (TT_Grand t).
(* Go: console/internal/view/model.go CacheHuman @678-678 *)
Definition CacheHuman (t : StorageTotals) : string := HumanizeBytes (TT_Cache t).
(* Go: console/internal/view/model.go DataCacheHuman @679-679 *)
Definition DataCacheHuman (t : StorageTotals) : string := HumanizeBytes (TT_DataCache t).
(* Go: console/internal/view/model.go OutputHuman @680-680 *)
Definition OutputHuman (t : StorageTotals) : string := HumanizeBytes (TT_OutputTotal t).
(* Go: console/internal/view/model.go ActiveHuman @681-681 *)
Definition ActiveHuman (t : StorageTotals) : string := HumanizeBytes (TT_OutputActive t).
(* Go: console/internal/view/model.go StorageTotalHuman @649-651 *)
Definition StorageTotalHuman (a : App) : string := GrandHuman (storageTotals a).
(* Go: console/internal/view/model.go StorageTooltip *)
Definition StorageTooltip (a : App) : string :=
  let t := storageTotals a in
  "Cache " +:+ CacheHuman t +:+ " · Data cache " +:+ DataCacheHuman t +:+ " · Output " +:+
  OutputHuman t +:+ " (active " +:+ ActiveHuman t +:+ ")".
(* Go: console/internal/view/model.go AggregateStorage *)
Definition AggregateStorage (apps : list App) : StorageTotals :=
  with_grand (foldl (λ t a,
    let at_ := storageTotals a in
    t <| TT_Cache := i64 (TT_Cache t + TT_Cache at_) |>
      <| TT_DataCache := i64 (TT_DataCache t + TT_DataCache at_) |>
      <| TT_OutputTotal := i64 (TT_OutputTotal t + TT_OutputTotal at_) |>
      <| TT_OutputActive := i64 (TT_OutputActive t + TT_OutputActive at_) |>) zero_totals apps).
