(* ===== verification/ViewMap.v ===== *)
(** console/internal/view/model.go and schedule.go: the projection of a generic App
    object into the view model.  Every field may be absent or mistyped. *)
From Stdlib Require Import ZArith Ascii String SpecFloat.
From stdpp Require Import base gmap strings list numbers sorting.
From S2P Require Import Prelude GoStd GoNum GoTime GoSort Unstructured RepoHost Humanize View Kube.

Open Scope string_scope.
Open Scope list_scope.
Open Scope Z_scope.

(** [sched.Next(t)] of a parsed cron expression. *)
Class CronNext := { cron_Next : string → Z → Z }.
Definition next_minute : CronNext := {| cron_Next _ t := (t / Minute + 1) * Minute |}.

Section map.
Context `{GoRuntime} `{MapOrder} `{KubeLib} `{CronNext} `{FloatLib} `{UnstructuredLib}.

(* Go: console/internal/view/schedule.go nextScheduled *)
Definition nextScheduled (now : Z) (sb : ScheduledBuilds) : string :=
  if negb (VSB_Enabled sb) || String.eqb (VSB_Schedule sb) "" then ""
  else match cron_ParseStandard (VSB_Schedule sb) with
       | Err _ => ""
       | Ok _ => FormatRFC3339 (cron_Next (VSB_Schedule sb) now)
       end.

Definition field (m : umap) (k : string) : string := asString (at_ m k).

(** [for _, item := range list { m, ok := item.(map[string]any); if !ok { continue } ... }] *)
Definition each_map {A} (f : umap → A) (l : list uval) : list A := omap (λ item, f <$> as_map item) l.

(* Go: console/internal/view/model.go conditionsFrom @774-780 *)
Definition condition_of (m : umap) : Condition :=
  MkVCondition (field m "type") (field m "status") (field m "reason")
    (field m "message") (field m "lastTransitionTime").
(* Go: console/internal/view/model.go conditionsFrom *)
Definition conditionsFrom (v : uval) : list Condition :=
  match as_list v with
  | None => []
  | Some l => SliceStable (by_key str_less VC_Type) (each_map condition_of l)
  end.

(* Go: console/internal/view/model.go terminationFrom *)
Definition terminationFrom (v : uval) : option Termination :=
  m ← as_map v;
  Some (MkVTermination (field m "reason") (field m "container") (field m "memoryLimit")
          (field m "finishedAt") (asInt (at_ m "exitCode"))).

(* Go: console/internal/view/model.go stepsFrom @842-853 *)
Definition step_of (m : umap) : Step :=
  let b := asInt (at_ m "peakMemoryBytes") in
  MkVStep (field m "name") (field m "status") (field m "message")
    (if 0 <? b then HumanizeBytes b else "") (field m "memoryLimit")
    (field m "startedAt") (field m "finishedAt").
(* Go: console/internal/view/model.go stepsFrom *)
Definition stepsFrom (v : uval) : list Step :=
  match as_list v with None => [] | Some l => each_map step_of l end.

(* Go: console/internal/view/model.go buildFrom *)
Definition buildFrom (v : uval) : Build :=
  match as_map v with
  | None => zero_vbuild
  | Some m =>
      MkVBuild (field m "phase") (field m "result") (field m "jobName") (field m "podName")
        (field m "trigger") (field m "triggeredBy") (field m "commit") (field m "startTime")
        (field m "completionTime") (asInt (at_ m "attempts")) (field m "failedStep")
        (field m "message") (field m "logsRef") (stepsFrom (at_ m "steps"))
        (terminationFrom (at_ m "termination"))
  end.

(* Go: console/internal/view/model.go buildHistoryFrom *)
Definition buildHistoryFrom (v : uval) : list Build :=
  match as_list v with None => [] | Some l => map buildFrom l end.

(* Go: console/internal/view/model.go releaseFrom *)
Definition releaseFrom (v : uval) : Release :=
  match as_map v with
  | None => MkVRelease "" "" ""
  | Some m => MkVRelease (field m "current") (field m "previous") (field m "servingSince")
  end.

(* Go: console/internal/view/model.go nestedInt *)
Definition nestedInt (spec : umap) (group fld : string) : Z :=
  match as_map (at_ spec group) with None => 0 | Some g => asInt (at_ g fld) end.
(* Go: console/internal/view/model.go firstPositive *)
Definition firstPositive (vals : list Z) : Z := default 0 (List.find (λ v, 0 <? v) vals).

(** A nil spec.storage map reads as empty, so every cap is 0. *)
(* Go: console/internal/view/model.go capForKey *)
Definition capForKey (key : string) (specStorage : option umap) : Z :=
  let spec := of_nil specStorage in
  let k := ToLower key in
  if Contains k "total" then 0
  else if Contains k "output" then nestedInt spec "output" "capBytes"
  else if Contains k "data" then
    firstPositive [nestedInt spec "dataCache" "cleanupBytes"; nestedInt spec "dataCache" "alertBytes"]
  else if Contains k "cache" then
    firstPositive [nestedInt spec "cache" "cleanupBytes"; nestedInt spec "cache" "alertBytes"]
  else 0.
(* Go: console/internal/view/model.go capacityForKey *)
Definition capacityForKey (key : string) (capacityMap : umap) : Z :=
  if bool_decide (size capacityMap = 0%nat) then 0
  else
    let k := ToLower key in
    if Contains k "output" then asInt (at_ capacityMap "output")
    else if Contains k "data" then asInt (at_ capacityMap "dataCache")
    else if Contains k "cache" then asInt (at_ capacityMap "cache")
    else 0.

(** One row. *)
(* Go: console/internal/view/model.go volumesFrom @915-940 *)
Definition volume_row (deltas : umap) (specStorage : option umap) (capacities : umap)
    (releaseCount : Z) (name : string) (raw : uval) : StorageVolume :=
  let bytes := asInt raw in
  let capBytes := capForKey name specStorage in
  let capBytes := if capBytes <=? 0 then capacityForKey name capacities else capBytes in
  let '(pct, over) := StorageBar bytes capBytes in
  let bar := (0 <? capBytes) && negb (pct =? StorageBarNoBar) in
  MkStorageVolume name bytes (HumanizeBytes bytes) (HumanizeDelta (asInt (at_ deltas name))) capBytes
    (if 0 <? capBytes then HumanizeBytes capBytes else "")
    (if bar then pct else 0) (bar && over) bar
    (if String.eqb name "outputTotal" then releaseCount else 0).
(* Go: console/internal/view/model.go volumesFrom *)
Definition volumesFrom (sizes deltas : uval) (specStorage : option umap) (capacities : uval)
    (releaseCount : Z) : list StorageVolume :=
  match as_map sizes with
  | None => []
  | Some m =>
      SliceStable (by_key str_less VV_Name)
        (map (λ '(name, raw), volume_row (of_nil (as_map deltas)) specStorage
                (of_nil (as_map capacities)) releaseCount name raw) (range_map m))
  end.

(* Go: console/internal/view/model.go storageFrom *)
Definition storageFrom (v : uval) (specStorage : option umap) : Storage :=
  match as_map v with
  | None => MkVStorage "" "" 0 []
  | Some m =>
      let releaseCount := asInt (at_ m "releaseCount") in
      MkVStorage (field m "measuredAt") (field m "thresholdState") releaseCount
        (volumesFrom (at_ m "sizes") (at_ m "lastRunDeltas") specStorage (at_ m "capacities") releaseCount)
  end.

(* Go: console/internal/view/model.go cleanupActionFrom *)
Definition cleanupActionFrom (v : uval) : CleanupAction :=
  match as_map v with
  | None => zero_vaction
  | Some m =>
      let completed := field m "completedAt" in
      let completed := if String.eqb completed "" then field m "lastCompleted" else completed in
      MkVCleanupAction (field m "requestedAt") (field m "requestedBy") (field m "phase") completed
        (field m "message") (asInt (at_ m "reclaimedBytes"))
  end.
(* Go: console/internal/view/model.go cleanupFrom *)
Definition cleanupFrom (v : uval) : Cleanup :=
  match as_map v with
  | None => MkVCleanup zero_vaction zero_vaction
  | Some m => MkVCleanup (cleanupActionFrom (at_ m "cache")) (cleanupActionFrom (at_ m "releases"))
  end.
(* Go: console/internal/view/model.go manualTriggerFrom *)
Definition manualTriggerFrom (v : uval) : ManualTrigger :=
  match as_map v with
  | None => MkVManualTrigger "" ""
  | Some m => MkVManualTrigger (field m "triggeredBy") (field m "time")
  end.

(** The part of [FromUnstructured] before the status guard. *)
(* Go: console/internal/view/model.go FromUnstructured @703-732 *)
Definition from_spec (now : Z) (o : umap) : App :=
  let spec := of_nil (NestedMap o ["spec"]).1 in
  let sb := match as_map (at_ spec "scheduledBuilds") with
            | Some m => MkVScheduled (asBool (at_ m "enabled")) (field m "schedule")
            | None => MkVScheduled false ""
            end in
  let '(wce, wci) := match as_map (at_ spec "watchCommits") with
                     | Some m => (asBool (at_ m "enabled"), field m "interval")
                     | None => (false, "")
                     end in
  MkVApp (GetNamespace o) (GetName o) (field spec "group") 0 "" "" "" false [] zero_vbuild [] "" "" "" ""
    (nextScheduled now sb) (MkVRelease "" "" "") (MkVStorage "" "" 0 [])
    (MkVCleanup zero_vaction zero_vaction) (MkVManualTrigger "" "")
    (field spec "repo") sb
    (MkVWatch wce wci (default "" (GetAnnotations o !! AnnotationWatchLastSeen)))
    false None "".

(* Go: console/internal/view/model.go FromUnstructured *)
Definition FromUnstructured (now : Z) (o : umap) : App :=
  let a := from_spec now o in
  match NestedMap o ["status"] with
  | (Some status, true) =>
      let specStorage := (NestedMap o ["spec"; "storage"]).1 in
      a <| VA_HasStatus := true |>
        <| VA_ObservedGeneration := asInt (at_ status "observedGeneration") |>
        <| VA_Phase := field status "phase" |>
        <| VA_NodeName := field status "nodeName" |>
        <| VA_URL := field status "url" |>
        <| VA_SpecStale := asBool (at_ status "specStale") |>
        <| VA_LastProcessedRebuild := field status "lastProcessedRebuild" |>
        <| VA_LastBuiltSpecHash := field status "lastBuiltSpecHash" |>
        <| VA_LastBuildTime := field status "lastBuildTime" |>
        <| VA_LastSuccessfulBuild := field status "lastSuccessfulBuildTime" |>
        <| VA_Conditions := conditionsFrom (at_ status "conditions") |>
        <| VA_Build := buildFrom (at_ status "build") |>
        <| VA_BuildHistory := buildHistoryFrom (at_ status "buildHistory") |>
        <| VA_Release := releaseFrom (at_ status "release") |>
        <| VA_Storage := storageFrom (at_ status "storage") specStorage |>
        <| VA_Cleanup := cleanupFrom (at_ status "cleanup") |>
        <| VA_ManualTrigger := manualTriggerFrom (at_ status "lastManualTrigger") |>
  | _ => a
  end.
End map.
