(* ===== verification/AppJson.v ===== *)
(** The App as the API server stores it: the JSON tags of api/v1alpha1/app_types.go
    give the generic tree the console reads.  An omitempty field is left out when
    it is zero; a struct value is never empty; [metav1.Time] is an RFC 3339 text.
    Texts are UTF-8. *)
From Stdlib Require Import ZArith Ascii String SpecFloat.
From stdpp Require Import base gmap strings list numbers sorting.
From S2P Require Import Prelude GoStd GoNum GoTime BuildSpec AppTypes Unstructured.

Open Scope string_scope.
Open Scope list_scope.
Open Scope Z_scope.

(** ** Objects from lists of fields, an absent one left out *)
Notation jfields := (list (string * option uval)).
Fixpoint fields (l : jfields) : umap :=
  match l with
  | [] => ∅
  | (k, Some v) :: l' => <[k := v]> (fields l')
  | (k, None) :: l' => delete k (fields l')
  end.
Definition obj (l : jfields) : uval := UMap (fields l).
Fixpoint assoc (l : jfields) (k : string) : option uval :=
  match l with
  | [] => None
  | (k', v) :: l' => if String.eqb k' k then v else assoc l' k
  end.
Lemma fields_lookup l k : fields l !! k = assoc l k.
Proof.
  induction l as [|[k' [v|]] l IH]; cbn; [done|..]; destruct (String.eqb_spec k' k) as [->|];
    by simplify_map_eq.
Qed.

(** ** Values under their tags *)
Definition str (s : string) : option uval := Some (UStr s).
Definition int (n : Z) : option uval := Some (UInt n).
Definition bool_ (b : bool) : option uval := Some (UBool b).
Definition ostr (s : string) : option uval := if String.eqb s "" then None else Some (UStr s).
Definition oint (n : Z) : option uval := if n =? 0 then None else Some (UInt n).
Definition obool (b : bool) : option uval := if b then Some (UBool true) else None.
Definition optr {A} (f : A → uval) (x : option A) : option uval := f <$> x.
Definition olist {A} (f : A → uval) (l : list A) : option uval :=
  match l with [] => None | _ => Some (UList (map f l)) end.
Definition omapping {A} (f : A → uval) (m : gmap string A) : option uval :=
  if bool_decide (m = ∅) then None else Some (UMap (f <$> m)).
(** [metav1.Time] and [metav1.Duration] *)
Definition time_json (t : Z) : uval := if IsZero t then UNil else UStr (FormatRFC3339 t).
Definition otime : option Z → option uval := optr time_json.
Definition duration_json (d : Z) : uval :=
  UStr (if d <? 0 then "-" +:+ duration_string (- d) else duration_string d).

(** ** Spec *)
(* Go: api/v1alpha1/app_types.go EnvVar *)
Definition json_EnvVar (e : EnvVar) : uval := obj
  [("name", str (ev_Name e)); ("value", ostr (ev_Value e));
   ("valueFrom", optr (λ s, obj [("configMapKeyRef", optr (λ c,
      obj [("name", str (cmk_Name c)); ("key", str (cmk_Key c))]) (evs_ConfigMapKeyRef s))]) (ev_ValueFrom e))].
(* Go: api/v1alpha1/app_types.go EnvVarWithSecret *)
Definition json_EnvVarWithSecret (e : EnvVarWithSecret) : uval := obj
  [("name", str (evw_Name e));
   ("valueFrom", Some (obj [("secretKeyRef", Some (let s := evss_SecretKeyRef (evw_ValueFrom e) in
      obj [("name", str (sks_Name s)); ("key", str (sks_Key s))]))]))].
(** The inlined [PhaseSpec]. *)
(* Go: api/v1alpha1/app_types.go PhaseSpec *)
Definition json_PhaseSpec (p : ApiPhaseSpec) : jfields :=
  [("image", ostr (aps_Image p)); ("command", olist UStr (default [] (aps_Command p)));
   ("env", olist json_EnvVar (aps_Env p)); ("envMap", omapping UStr (aps_EnvMap p));
   ("runAsUser", optr UInt (aps_RunAsUser p)); ("memoryLimit", ostr (aps_MemoryLimit p))].
(* Go: api/v1alpha1/app_types.go SetupPhaseSpec *)
Definition json_SetupPhaseSpec (p : SetupPhaseSpec) : uval :=
  obj (json_PhaseSpec (sps_PhaseSpec p) ++ [("skip", obool (sps_Skip p))]).
(* Go: api/v1alpha1/app_types.go FetchPhaseSpec *)
Definition json_FetchPhaseSpec (p : FetchPhaseSpec) : uval :=
  obj (json_PhaseSpec (fps_PhaseSpec p) ++ [("secrets", olist json_EnvVarWithSecret (fps_Secrets p))]).
(* Go: api/v1alpha1/app_types.go BuildPhaseSpec *)
Definition json_BuildPhaseSpec (p : BuildPhaseSpec) : uval :=
  obj (json_PhaseSpec (bps_PhaseSpec p) ++ [("outputDir", ostr (bps_OutputDir p))]).
(* Go: api/v1alpha1/app_types.go PhasesSpec *)
Definition json_PhasesSpec (p : PhasesSpec) : uval := obj
  [("setup", Some (json_SetupPhaseSpec (phs_Setup p))); ("fetch", Some (json_FetchPhaseSpec (phs_Fetch p)));
   ("build", Some (json_BuildPhaseSpec (phs_Build p)))].
(* Go: api/v1alpha1/app_types.go PipelineSpec *)
Definition json_PipelineSpec (p : PipelineSpec) : uval := obj
  [("nodeVersion", oint (pl_NodeVersion p)); ("packageManager", str (pl_PackageManager p));
   ("submodules", obool (pl_Submodules p)); ("timeout", optr duration_json (pl_Timeout p));
   ("phases", Some (json_PhasesSpec (pl_Phases p)))].
(* Go: api/v1alpha1/app_types.go IngressConfig *)
Definition json_IngressConfig (i : IngressConfig) : uval := obj
  [("className", optr UStr (ic_ClassName i)); ("host", str (ic_Host i));
   ("tls", optr (λ t, obj [("secretName", str (tls_SecretName t))]) (ic_TLS i));
   ("annotations", omapping UStr (ic_Annotations i))].
(* Go: api/v1alpha1/app_types.go AuthConfig *)
Definition json_AuthConfig (a : AuthConfig) : uval := obj
  [("passwordHash", optr UStr (ac_PasswordHash a));
   ("secretRef", optr (λ s, obj [("name", str (asr_Name s)); ("key", str (asr_Key s))]) (ac_SecretRef a))].
(* Go: api/v1alpha1/app_types.go StorageConfig *)
Definition json_StorageConfig (s : ApiStorageConfig) : uval := obj
  [("cache", Some (obj [("cleanupBytes", oint (ct_CleanupBytes (asc_Cache s)));
                        ("alertBytes", oint (ct_AlertBytes (asc_Cache s)))]));
   ("dataCache", Some (obj [("cleanupBytes", oint (dct_CleanupBytes (asc_DataCache s)));
                            ("alertBytes", oint (dct_AlertBytes (asc_DataCache s)));
                            ("runDeltaBytes", oint (dct_RunDeltaBytes (asc_DataCache s)))]));
   ("output", Some (obj [("alertBytes", oint (ot_AlertBytes (asc_Output s)));
                         ("capBytes", oint (ot_CapBytes (asc_Output s)))]))].
(* Go: api/v1alpha1/app_types.go ScheduledBuildsSpec *)
Definition json_ScheduledBuildsSpec (s : ScheduledBuildsSpec) : uval := obj
  [("enabled", bool_ (sb_Enabled s)); ("schedule", ostr (sb_Schedule s));
   ("alertThreshold", oint (sb_AlertThreshold s))].
(* Go: api/v1alpha1/app_types.go WatchCommitsSpec *)
Definition json_WatchCommitsSpec (w : WatchCommitsSpec) : uval := obj
  [("enabled", bool_ (wc_Enabled w)); ("interval", ostr (wc_Interval w))].
(* Go: api/v1alpha1/app_types.go AppSpec *)
Definition json_AppSpec (s : AppSpec) : umap := fields
  [("repo", str (as_Repo s)); ("ref", ostr (as_Ref s)); ("group", ostr (as_Group s));
   ("scheduledBuilds", optr json_ScheduledBuildsSpec (as_ScheduledBuilds s));
   ("watchCommits", optr json_WatchCommitsSpec (as_WatchCommits s));
   ("pipeline", Some (json_PipelineSpec (as_Pipeline s))); ("keepReleases", oint (as_KeepReleases s));
   ("repoAuth", optr (λ r, obj [("secretRef", Some (obj [("name", str (ras_Name (rac_SecretRef r)))]))]) (as_RepoAuth s));
   ("ingress", Some (json_IngressConfig (as_Ingress s))); ("auth", optr json_AuthConfig (as_Auth s));
   ("storage", Some (json_StorageConfig (as_Storage s)));
   ("history", optr (λ h, obj [("keepRecent", oint (hs_KeepRecent h)); ("keepFailed", oint (hs_KeepFailed h))])
      (as_History s))].

(** ** Status *)
(* Go: api/v1alpha1/app_types.go BuildStep *)
Definition json_BuildStep (s : BuildStep) : uval := obj
  [("name", str (st_Name s)); ("status", str (st_Status s)); ("message", ostr (st_Message s));
   ("peakMemoryBytes", oint (st_PeakMemoryBytes s)); ("startedAt", otime (st_StartedAt s));
   ("finishedAt", otime (st_FinishedAt s)); ("memoryLimit", ostr (st_MemoryLimit s))].
(* Go: api/v1alpha1/app_types.go BuildTermination *)
Definition json_BuildTermination (t : BuildTermination) : uval := obj
  [("reason", ostr (bt_Reason t)); ("container", ostr (bt_Container t)); ("exitCode", oint (bt_ExitCode t));
   ("memoryLimit", ostr (bt_MemoryLimit t)); ("finishedAt", otime (bt_FinishedAt t))].
(* Go: api/v1alpha1/app_types.go BuildStatus *)
Definition json_BuildStatus (b : BuildStatus) : uval := obj
  [("phase", ostr (b_Phase b)); ("result", ostr (b_Result b)); ("jobName", ostr (b_JobName b));
   ("podName", ostr (b_PodName b)); ("startTime", otime (b_StartTime b));
   ("completionTime", otime (b_CompletionTime b)); ("attempts", oint (b_Attempts b));
   ("trigger", ostr (b_Trigger b)); ("triggeredBy", ostr (b_TriggeredBy b)); ("commit", ostr (b_Commit b));
   ("steps", olist json_BuildStep (b_Steps b)); ("resolvedImages", omapping UStr (b_ResolvedImages b));
   ("failedStep", ostr (b_FailedStep b)); ("message", ostr (b_Message b)); ("logsRef", ostr (b_LogsRef b));
   ("termination", optr json_BuildTermination (b_Termination b))].
(* Go: api/v1alpha1/app_types.go ReleaseStatus *)
Definition json_ReleaseStatus (r : ReleaseStatus) : uval := obj
  [("current", ostr (rs_Current r)); ("previous", ostr (rs_Previous r)); ("servingSince", otime (rs_ServingSince r))].
(* Go: api/v1alpha1/app_types.go StorageStatus *)
Definition json_StorageStatus (s : StorageStatus) : uval := obj
  [("measuredAt", otime (ss_MeasuredAt s)); ("sizes", omapping UInt (ss_Sizes s));
   ("lastRunDeltas", omapping UInt (ss_LastRunDeltas s)); ("thresholdState", ostr (ss_ThresholdState s));
   ("releaseCount", oint (ss_ReleaseCount s)); ("capacities", omapping UInt (ss_Capacities s))].
(* Go: api/v1alpha1/app_types.go CleanupActionStatus *)
Definition json_CleanupActionStatus (c : CleanupActionStatus) : uval := obj
  [("requestedAt", ostr (ca_RequestedAt c)); ("requestedBy", ostr (ca_RequestedBy c)); ("phase", ostr (ca_Phase c));
   ("startedAt", otime (ca_StartedAt c)); ("completedAt", otime (ca_CompletedAt c));
   ("reclaimedBytes", oint (ca_ReclaimedBytes c)); ("message", ostr (ca_Message c))].
(* Go: api/v1alpha1/app_types.go CleanupStatus *)
Definition json_CleanupStatus (c : CleanupStatus) : uval := obj
  [("cache", optr json_CleanupActionStatus (cs_Cache c)); ("releases", optr json_CleanupActionStatus (cs_Releases c))].
(* Go: api/v1alpha1/app_types.go ManualTrigger *)
Definition json_ManualTrigger (m : ManualTrigger) : uval := obj
  [("triggeredBy", ostr (mt_TriggeredBy m)); ("time", otime (mt_Time m))].
(** [metav1.Condition] *)
Definition json_Condition (c : Condition) : uval := obj
  [("type", str (c_Type c)); ("status", str (c_Status c)); ("observedGeneration", oint (c_ObservedGeneration c));
   ("lastTransitionTime", Some (time_json (c_LastTransitionTime c))); ("reason", str (c_Reason c));
   ("message", str (c_Message c))].
(* Go: api/v1alpha1/app_types.go AppStatus *)
Definition json_AppStatus (s : AppStatus) : umap := fields
  [("observedGeneration", oint (s_ObservedGeneration s)); ("phase", ostr (s_Phase s));
   ("nodeName", ostr (s_NodeName s)); ("url", ostr (s_URL s)); ("specStale", obool (s_SpecStale s));
   ("conditions", olist json_Condition (s_Conditions s)); ("build", Some (json_BuildStatus (s_Build s)));
   ("consecutiveScheduledFailures", oint (s_ConsecutiveScheduledFailures s));
   ("buildHistory", olist json_BuildStatus (s_BuildHistory s));
   ("failedBuildHistory", olist json_BuildStatus (s_FailedBuildHistory s));
   ("lastProcessedRebuild", ostr (s_LastProcessedRebuild s)); ("lastBuiltSpecHash", ostr (s_LastBuiltSpecHash s));
   ("lastBuildTime", otime (s_LastBuildTime s)); ("lastSuccessfulBuildTime", otime (s_LastSuccessfulBuildTime s));
   ("release", Some (json_ReleaseStatus (s_Release s))); ("storage", Some (json_StorageStatus (s_Storage s)));
   ("lastManualTrigger", Some (json_ManualTrigger (s_LastManualTrigger s)));
   ("cleanup", optr json_CleanupStatus (s_Cleanup s))].

(** ** The object *)
(** [metav1.ObjectMeta] *)
Definition json_ObjectMeta (m : ObjectMeta) : uval := obj
  [("name", ostr (om_Name m)); ("namespace", ostr (om_Namespace m)); ("uid", ostr (om_UID m));
   ("resourceVersion", ostr (om_ResourceVersion m)); ("generation", oint (om_Generation m));
   ("deletionTimestamp", otime (om_DeletionTimestamp m)); ("labels", omapping UStr (om_Labels m));
   ("annotations", omapping UStr (om_Annotations m)); ("finalizers", olist UStr (om_Finalizers m));
   ("ownerReferences", olist (λ o, obj [("kind", str (or_Kind o)); ("name", str (or_Name o));
      ("uid", str (or_UID o)); ("controller", obool (or_Controller o))]) (om_OwnerReferences m))].
(* Go: api/v1alpha1/app_types.go App *)
Definition json_App (app : App) : umap := fields
  [("apiVersion", str (GroupName +:+ "/v1alpha1")); ("kind", str "App");
   ("metadata", Some (json_ObjectMeta (app_Meta app))); ("spec", Some (UMap (json_AppSpec (app_Spec app))));
   ("status", Some (UMap (json_AppStatus (app_Status app))))].
