(* ===== verification/ViewSpec.v ===== *)
(** What the console shows of an App, stated on the operator's own types, and the
    proof that the projection of the stored object shows exactly that: the keys and
    types the console reads are the ones the operator writes. *)
From Stdlib Require Import ZArith Ascii String SpecFloat.
From stdpp Require Import base gmap strings list numbers sorting.
From S2P Require Import Prelude GoStd GoNum GoTime GoSort BuildSpec AppTypes Kube Unstructured RepoHost Humanize View ViewMap AppJson.

Open Scope string_scope.
Open Scope list_scope.
Open Scope Z_scope.

(** ** The abstract view *)
Definition time_text (t : option Z) : string :=
  match t with None => "" | Some t => if IsZero t then "" else FormatRFC3339 t end.

Section view.
Context `{GoRuntime} `{KubeLib} `{CronNext} `{FloatLib}.

Definition shows_condition (c : AppTypes.Condition) : View.Condition :=
  MkVCondition (c_Type c) (c_Status c) (c_Reason c) (c_Message c) (time_text (Some (c_LastTransitionTime c))).
Definition shows_step (s : BuildStep) : View.Step :=
  MkVStep (st_Name s) (st_Status s) (st_Message s)
    (if 0 <? st_PeakMemoryBytes s then HumanizeBytes (st_PeakMemoryBytes s) else "")
    (st_MemoryLimit s) (time_text (st_StartedAt s)) (time_text (st_FinishedAt s)).
Definition shows_termination (t : BuildTermination) : View.Termination :=
  MkVTermination (bt_Reason t) (bt_Container t) (bt_MemoryLimit t) (time_text (bt_FinishedAt t)) (bt_ExitCode t).
Definition shows_build (b : BuildStatus) : View.Build :=
  MkVBuild (b_Phase b) (b_Result b) (b_JobName b) (b_PodName b) (b_Trigger b) (b_TriggeredBy b) (b_Commit b)
    (time_text (b_StartTime b)) (time_text (b_CompletionTime b)) (b_Attempts b) (b_FailedStep b)
    (b_Message b) (b_LogsRef b) (map shows_step (b_Steps b)) (shows_termination <$> b_Termination b).
Definition shows_action (c : option CleanupActionStatus) : View.CleanupAction :=
  match c with
  | None => zero_vaction
  | Some c => MkVCleanupAction (ca_RequestedAt c) (ca_RequestedBy c) (ca_Phase c)
                (time_text (ca_CompletedAt c)) (ca_Message c) (ca_ReclaimedBytes c)
  end.
(** The cap a volume is drawn against: its threshold in the spec, else the capacity
    of its claim. *)
Definition shows_cap (s : ApiStorageConfig) (capacities : gmap string Z) (name : string) : Z :=
  let k := ToLower name in
  let capacity c := default 0 (capacities !! c) in
  let threshold a b := if 0 <? a then a else if 0 <? b then b else 0 in
  let spec :=
    if Contains k "total" then 0
    else if Contains k "output" then ot_CapBytes (asc_Output s)
    else if Contains k "data" then threshold (dct_CleanupBytes (asc_DataCache s)) (dct_AlertBytes (asc_DataCache s))
    else if Contains k "cache" then threshold (ct_CleanupBytes (asc_Cache s)) (ct_AlertBytes (asc_Cache s))
    else 0 in
  if 0 <? spec then spec
  else if Contains k "output" then capacity "output"
  else if Contains k "data" then capacity "dataCache"
  else if Contains k "cache" then capacity "cache" else 0.
Definition shows_volume (s : ApiStorageConfig) (st : StorageStatus) (name : string) (bytes : Z) : StorageVolume :=
  let c := shows_cap s (ss_Capacities st) name in
  let bar := (0 <? c) && negb (fst (StorageBar bytes c) =? StorageBarNoBar) in
  MkStorageVolume name bytes (HumanizeBytes bytes)
    (HumanizeDelta (default 0 (ss_LastRunDeltas st !! name))) c
    (if 0 <? c then HumanizeBytes c else "") (if bar then fst (StorageBar bytes c) else 0)
    (bar && snd (StorageBar bytes c)) bar (if String.eqb name "outputTotal" then ss_ReleaseCount st else 0).
Definition shows_storage (s : ApiStorageConfig) (st : StorageStatus) : View.Storage :=
  MkVStorage (time_text (ss_MeasuredAt st)) (ss_ThresholdState st) (ss_ReleaseCount st)
    (SliceStable (by_key str_less VV_Name)
       (map (λ '(name, bytes), shows_volume s st name bytes) (map_to_list (ss_Sizes st)))).
Definition shows_app (now : Z) (app : AppTypes.App) : View.App :=
  let m := app_Meta app in
  let sp := app_Spec app in
  let s := app_Status app in
  let sb := match as_ScheduledBuilds sp with
            | Some x => MkVScheduled (sb_Enabled x) (sb_Schedule x) | None => MkVScheduled false "" end in
  MkVApp (om_Namespace m) (om_Name m) (as_Group sp) (s_ObservedGeneration s) (s_Phase s) (s_NodeName s)
    (s_URL s) (s_SpecStale s)
    (SliceStable (by_key str_less VC_Type) (map shows_condition (s_Conditions s)))
    (shows_build (s_Build s)) (map shows_build (s_BuildHistory s)) (s_LastProcessedRebuild s)
    (s_LastBuiltSpecHash s) (time_text (s_LastBuildTime s)) (time_text (s_LastSuccessfulBuildTime s))
    (nextScheduled now sb)
    (MkVRelease (rs_Current (s_Release s)) (rs_Previous (s_Release s)) (time_text (rs_ServingSince (s_Release s))))
    (shows_storage (as_Storage sp) (s_Storage s))
    (match s_Cleanup s with
     | Some c => MkVCleanup (shows_action (cs_Cache c)) (shows_action (cs_Releases c))
     | None => MkVCleanup zero_vaction zero_vaction end)
    (MkVManualTrigger (mt_TriggeredBy (s_LastManualTrigger s)) (time_text (mt_Time (s_LastManualTrigger s))))
    (as_Repo sp) sb
    (MkVWatch (match as_WatchCommits sp with Some w => wc_Enabled w | None => false end)
       (match as_WatchCommits sp with Some w => wc_Interval w | None => "" end)
       (default "" (om_Annotations m !! WatchLastSeenAnnotation)))
    true None "".

(** ** Reading a tagged field back *)
Lemma at_fields l k : at_ (fields l) k = default UNil (assoc l k).
Proof. unfold at_. by rewrite fields_lookup. Qed.
Lemma asString_str s : asString (default UNil (str s)) = s.
Proof. done. Qed.
Lemma asString_ostr s : asString (default UNil (ostr s)) = s.
Proof. unfold ostr. by destruct (String.eqb_spec s "") as [->|]. Qed.
Lemma asString_otime t : asString (default UNil (otime t)) = time_text t.
Proof. destruct t as [t|]; [|done]. cbn. unfold time_json. by destruct (IsZero t). Qed.
Lemma asString_time t : asString (default UNil (Some (time_json t))) = time_text (Some t).
Proof. apply (asString_otime (Some t)). Qed.
Lemma asInt_oint n : asInt (default UNil (oint n)) = n.
Proof. unfold oint. by destruct (Z.eqb_spec n 0) as [->|]. Qed.
Lemma asBool_bool b : asBool (default UNil (bool_ b)) = b.
Proof. done. Qed.
Lemma asBool_obool b : asBool (default UNil (obool b)) = b.
Proof. by destruct b. Qed.
Lemma as_list_olist {A} (f : A → uval) l :
  as_list (default UNil (olist f l)) = match l with [] => None | _ => Some (map f l) end.
Proof. by destruct l. Qed.
Lemma of_nil_omapping {A} (f : A → uval) m : of_nil (as_map (default UNil (omapping f m))) = f <$> m.
Proof. unfold omapping. case_bool_decide as E; [|done]. subst. by rewrite fmap_empty. Qed.

Hint Rewrite @at_fields asString_str asString_ostr asString_otime asString_time asInt_oint asBool_bool
  asBool_obool @of_nil_omapping : reads.
(** The keys are literals: the association list is searched by evaluation. *)
Ltac reads := unfold field; rewrite ?at_fields; cbn [assoc String.eqb Ascii.eqb Bool.eqb andb app]; autorewrite with reads.

Lemma each_map_json {A B} (json : A → uval) (f : umap → B) (g : A → B) l :
  (∀ x, f <$> as_map (json x) = Some (g x)) → each_map f (map json l) = map g l.
Proof.
  intros Hf. unfold each_map. induction l as [|x l IH]; [done|].
  cbn [map omap list_omap]. rewrite Hf. by f_equal.
Qed.

Lemma stepsFrom_json l : stepsFrom (default UNil (olist json_BuildStep l)) = map shows_step l.
Proof.
  unfold stepsFrom. rewrite as_list_olist. destruct l as [|s l]; [done|]. apply each_map_json.
  intros x. cbn [as_map json_BuildStep obj fmap option_fmap option_map]. unfold step_of. by reads.
Qed.
Lemma conditionsFrom_json l :
  conditionsFrom (default UNil (olist json_Condition l)) =
  SliceStable (by_key str_less VC_Type) (map shows_condition l).
Proof.
  unfold conditionsFrom. rewrite as_list_olist. destruct l as [|c l]; [done|]. f_equal. apply each_map_json.
  intros x. cbn [as_map json_Condition obj fmap option_fmap option_map]. unfold condition_of. by reads.
Qed.
Lemma terminationFrom_json t :
  terminationFrom (default UNil (optr json_BuildTermination t)) = shows_termination <$> t.
Proof.
  destruct t as [t|]; [|done]. cbn [optr fmap option_fmap option_map from_option id]. unfold json_BuildTermination, obj, terminationFrom.
  cbn [as_map mbind option_bind]. by reads.
Qed.
Lemma buildFrom_json b : buildFrom (json_BuildStatus b) = shows_build b.
Proof.
  unfold buildFrom. cbn [as_map json_BuildStatus obj]. reads.
  by rewrite stepsFrom_json, terminationFrom_json.
Qed.
Lemma buildHistoryFrom_json l :
  buildHistoryFrom (default UNil (olist json_BuildStatus l)) = map shows_build l.
Proof.
  unfold buildHistoryFrom. rewrite as_list_olist. destruct l as [|b l]; [done|].
  rewrite map_map. apply map_ext. apply buildFrom_json.
Qed.
Lemma releaseFrom_json r :
  releaseFrom (json_ReleaseStatus r) = MkVRelease (rs_Current r) (rs_Previous r) (time_text (rs_ServingSince r)).
Proof. unfold releaseFrom. cbn [as_map json_ReleaseStatus obj]. by reads. Qed.
Lemma manualTriggerFrom_json m :
  manualTriggerFrom (json_ManualTrigger m) = MkVManualTrigger (mt_TriggeredBy m) (time_text (mt_Time m)).
Proof. unfold manualTriggerFrom. cbn [as_map json_ManualTrigger obj]. by reads. Qed.
Lemma cleanupActionFrom_json c :
  cleanupActionFrom (default UNil (optr json_CleanupActionStatus c)) = shows_action c.
Proof.
  destruct c as [c|]; [|done]. cbn [optr fmap option_fmap option_map from_option id]. unfold json_CleanupActionStatus, obj, cleanupActionFrom.
  cbn [as_map mbind option_bind]. reads. cbn [default shows_action].
  destruct (String.eqb_spec (time_text (ca_CompletedAt c)) "") as [->|]; done.
Qed.
Lemma cleanupFrom_json c :
  cleanupFrom (default UNil (optr json_CleanupStatus c)) =
  match c with
  | Some c => MkVCleanup (shows_action (cs_Cache c)) (shows_action (cs_Releases c))
  | None => MkVCleanup zero_vaction zero_vaction
  end.
Proof.
  destruct c as [c|]; [|done]. cbn [optr fmap option_fmap option_map from_option id]. unfold json_CleanupStatus, obj, cleanupFrom.
  cbn [as_map mbind option_bind]. reads. by rewrite !cleanupActionFrom_json.
Qed.

(** ** Storage *)
Ltac fold_cap := match goal with
  | |- context [shows_cap ?s ?m ?k] => let x := eval cbv zeta beta delta [shows_cap] in (shows_cap s m k) in change x with (shows_cap s m k)
  end.
Lemma asInt_at_ints m k : asInt (at_ (UInt <$> m) k) = default 0 (m !! k).
Proof. unfold at_. rewrite lookup_fmap. by destruct (m !! k). Qed.
Lemma nestedInt_json g fs k : nestedInt g fs k = asInt (at_ (of_nil (as_map (at_ g fs))) k).
Proof. unfold nestedInt, of_nil. destruct (as_map _); [done|]. cbn. unfold at_. by rewrite lookup_empty. Qed.
Lemma firstPositive_pair a b : firstPositive [a; b] = if 0 <? a then a else if 0 <? b then b else 0.
Proof. unfold firstPositive. cbn. by destruct (0 <? a), (0 <? b). Qed.
Lemma capacityForKey_json m k :
  capacityForKey k (UInt <$> m) =
  let c x := default 0 (m !! x) in
  if Contains (ToLower k) "output" then c "output"
  else if Contains (ToLower k) "data" then c "dataCache"
  else if Contains (ToLower k) "cache" then c "cache" else 0.
Proof.
  unfold capacityForKey. rewrite !asInt_at_ints. case_bool_decide as E; [|done].
  apply map_size_empty_iff in E. apply fmap_empty_iff in E as ->. cbv zeta. rewrite !lookup_empty.
  by repeat case_match.
Qed.
Lemma capForKey_json s k :
  capForKey k (as_map (json_StorageConfig s)) =
  if Contains (ToLower k) "total" then 0
  else if Contains (ToLower k) "output" then ot_CapBytes (asc_Output s)
  else if Contains (ToLower k) "data" then
    let a := dct_CleanupBytes (asc_DataCache s) in
    let b := dct_AlertBytes (asc_DataCache s) in if 0 <? a then a else if 0 <? b then b else 0
  else if Contains (ToLower k) "cache" then
    let a := ct_CleanupBytes (asc_Cache s) in
    let b := ct_AlertBytes (asc_Cache s) in if 0 <? a then a else if 0 <? b then b else 0
  else 0.
Proof.
  unfold capForKey, json_StorageConfig, obj. cbn [as_map of_nil from_option id].
  rewrite !firstPositive_pair, !nestedInt_json. unfold of_nil. cbn [from_option id].
  reads. cbn [from_option id as_map]. by reads.
Qed.
Lemma volume_row_json s st k n :
  volume_row (UInt <$> ss_LastRunDeltas st) (as_map (json_StorageConfig s)) (UInt <$> ss_Capacities st)
    (ss_ReleaseCount st) k (UInt n) = shows_volume s st k n.
Proof.
  unfold volume_row, shows_volume. cbn [asInt]. rewrite asInt_at_ints, capForKey_json, capacityForKey_json.
  cbv zeta. rewrite Z.leb_antisym, if_negb. fold_cap.
  by destruct (StorageBar n _).
Qed.

(** The rows do not depend on the order in which the size map is visited. *)
Lemma volumesFrom_json `{MapOrder} s st :
  volumesFrom (default UNil (omapping UInt (ss_Sizes st))) (default UNil (omapping UInt (ss_LastRunDeltas st)))
    (as_map (json_StorageConfig s)) (default UNil (omapping UInt (ss_Capacities st))) (ss_ReleaseCount st) =
  VST_Volumes (shows_storage s st).
Proof.
  unfold volumesFrom. rewrite !of_nil_omapping. cbn [shows_storage VST_Volumes].
  unfold omapping. case_bool_decide as E.
  { rewrite E, map_to_list_empty. done. }
  cbn [from_option id as_map].
  assert (Hr : map (λ '(k, raw), volume_row (UInt <$> ss_LastRunDeltas st) (as_map (json_StorageConfig s))
      (UInt <$> ss_Capacities st) (ss_ReleaseCount st) k raw) (range_map (UInt <$> ss_Sizes st)) ≡ₚ
    map (λ '(k, n), shows_volume s st k n) (map_to_list (ss_Sizes st))).
  { rewrite range_map_perm, map_to_list_fmap. apply reflexive_eq.
    unfold fmap. change @list_fmap with @map. rewrite map_map. apply map_ext. intros [k n]. apply volume_row_json. }
  apply SliceStable_canonical; [apply _|done|].
  intros x y. rewrite Hr, !list_elem_of_In, !in_map_iff.
  intros ([k n] & <- & Hk%list_elem_of_In%elem_of_map_to_list) ([k' n'] & <- & Hk'%list_elem_of_In%elem_of_map_to_list).
  unfold by_key. cbn. intros Ha Hb. assert (k = k') as <- by by apply str_less_total. naive_solver.
Qed.

Lemma storageFrom_json `{MapOrder} s st :
  storageFrom (json_StorageStatus st) (as_map (json_StorageConfig s)) = shows_storage s st.
Proof.
  unfold storageFrom. cbn [as_map json_StorageStatus obj]. reads. by rewrite volumesFrom_json.
Qed.

(** ** The whole object *)
Context `{MapOrder} `{UnstructuredLib}.

Lemma nested_key o k : nested o [k] = o !! k.
Proof. done. Qed.
Lemma nested_cons o k k' p m : o !! k = Some (UMap m) → nested o (k :: k' :: p) = nested m (k' :: p).
Proof. intros E. cbn [nested]. by rewrite E. Qed.
Lemma metadata_json app k :
  nested (json_App app) ["metadata"; k] = match json_ObjectMeta (app_Meta app) with UMap m => m !! k | _ => None end.
Proof.
  rewrite (nested_cons _ _ _ _ (of_nil (as_map (json_ObjectMeta (app_Meta app))))); [done|].
  unfold json_App. rewrite fields_lookup. done.
Qed.
Lemma string_map_json m : m ≠ ∅ → string_map_of (Some (UMap (UStr <$> m))) = Some m.
Proof.
  intros _. unfold string_map_of. rewrite bool_decide_eq_true_2.
  - f_equal. apply map_eq. intros k. rewrite lookup_omap, lookup_fmap. by destruct (m !! k).
  - intros k x. rewrite lookup_fmap. destruct (m !! k); naive_solver.
Qed.
(** A string map of the metadata, through the accessor that reads it. *)
Lemma string_map_field (get : umap → gmap string string) app key (m : gmap string string) :
  (∀ o m, string_map_of (nested o ["metadata"; key]) = Some m → get o = m) →
  (∀ o, nested o ["metadata"; key] = None → get o = ∅) →
  nested (json_App app) ["metadata"; key] = omapping UStr m → get (json_App app) = m.
Proof.
  intros Hspec Hnone Hn. unfold omapping in Hn. case_bool_decide as E.
  - rewrite E. by apply Hnone.
  - apply Hspec. rewrite Hn. by apply string_map_json.
Qed.
Lemma annotations_json app : GetAnnotations (json_App app) = om_Annotations (app_Meta app).
Proof.
  eapply string_map_field; [exact GetAnnotations_spec|exact GetAnnotations_none|].
  rewrite metadata_json. cbn [json_ObjectMeta obj]. by rewrite fields_lookup.
Qed.
Lemma labels_json app : GetLabels (json_App app) = om_Labels (app_Meta app).
Proof.
  eapply string_map_field; [exact GetLabels_spec|exact GetLabels_none|].
  rewrite metadata_json. cbn [json_ObjectMeta obj]. by rewrite fields_lookup.
Qed.
Lemma ostr_named s : s ≠ "" → ostr s = Some (UStr s).
Proof. unfold ostr. by destruct (String.eqb_spec s ""). Qed.

Lemma spec_json app : json_App app !! "spec" = Some (UMap (json_AppSpec (app_Spec app))).
Proof. unfold json_App. by rewrite fields_lookup. Qed.
Lemma status_json app : json_App app !! "status" = Some (UMap (json_AppStatus (app_Status app))).
Proof. unfold json_App. by rewrite fields_lookup. Qed.
Lemma storage_json app :
  nested (json_App app) ["spec"; "storage"] = Some (json_StorageConfig (as_Storage (app_Spec app))).
Proof.
  rewrite (nested_cons _ _ _ _ _ (spec_json app)), nested_key. unfold json_AppSpec. by rewrite fields_lookup.
Qed.

Lemma scheduled_json x :
  match as_map (default UNil (optr json_ScheduledBuildsSpec x)) with
  | Some m => MkVScheduled (asBool (at_ m "enabled")) (asString (at_ m "schedule"))
  | None => MkVScheduled false ""
  end = match x with Some x => MkVScheduled (sb_Enabled x) (sb_Schedule x) | None => MkVScheduled false "" end.
Proof. destruct x as [x|]; [|done]. cbn [optr fmap option_fmap option_map from_option id].
  unfold json_ScheduledBuildsSpec, json_WatchCommitsSpec, obj. cbn [as_map]. by reads. Qed.
Lemma watch_json x :
  match as_map (default UNil (optr json_WatchCommitsSpec x)) with
  | Some m => (asBool (at_ m "enabled"), asString (at_ m "interval"))
  | None => (false, "")
  end = (match x with Some w => wc_Enabled w | None => false end, match x with Some w => wc_Interval w | None => "" end).
Proof. destruct x as [x|]; [|done]. cbn [optr fmap option_fmap option_map from_option id].
  unfold json_ScheduledBuildsSpec, json_WatchCommitsSpec, obj. cbn [as_map]. by reads. Qed.

(** For every App the operator stores (it has a name and a namespace), the console
    shows exactly what the operator recorded: every field of the view is the field
    of the operator's own types, whatever the order of map iteration. *)
Theorem console_shows_status now app :
  om_Name (app_Meta app) ≠ "" → om_Namespace (app_Meta app) ≠ "" →
  FromUnstructured now (json_App app) = shows_app now app.
Proof.
  intros Hn Hns. unfold FromUnstructured, from_spec. rewrite !NestedMap_spec, storage_json, !nested_key.
  rewrite spec_json, status_json. cbn [fst of_nil from_option id].
  rewrite (GetName_spec _ (om_Name (app_Meta app))), (GetNamespace_spec _ (om_Namespace (app_Meta app))), annotations_json
    by (rewrite metadata_json; cbn [json_ObjectMeta obj]; rewrite fields_lookup; by apply ostr_named).
  unfold json_AppSpec, json_AppStatus. reads.
  rewrite scheduled_json, watch_json. cbn [from_option id].
  rewrite conditionsFrom_json, buildFrom_json, buildHistoryFrom_json, releaseFrom_json, manualTriggerFrom_json, cleanupFrom_json.
  change (match json_StorageConfig _ with UMap m => _ | _ => _ end.1) with (as_map (json_StorageConfig (as_Storage (app_Spec app)))).
  by rewrite storageFrom_json.
Qed.
End view.
