(* ===== verification/JsonPrint.v ===== *)
(** JSON texts that are put together with [fmt]'s %q, and the proof that the decoder
    reads them back: [parses d s v] says that the text [s], inside [d] brackets and
    before any rest, is read as the value [v]. *)
From Stdlib Require Import ZArith Ascii String.
From stdpp Require Import base gmap strings list numbers sorting.
From S2P Require Import Prelude GoStd GoNum Images RepoHost JsonDecode.

Open Scope string_scope.
Open Scope list_scope.
Open Scope Z_scope.

(** The bytes %q writes in a form that JSON has too: printable ASCII and the control
    characters with an escape in both. *)
Definition json_safe_byte (c : ascii) : bool :=
  between 32 (bv c) 126 || existsb (Z.eqb (bv c)) [8; 9; 10; 12; 13].
Definition json_safe : string → bool := string_forallb json_safe_byte.

Section print.
Context `{GoRuntime}.

Definition quote_body (s : string) : string :=
  concat_strings (map (λ '(r, raw), quote_rune r raw) (decode s)).

Lemma json_safe_ascii s : json_safe s = true → is_ascii s = true.
Proof.
  intros Hs. unfold json_safe in Hs. unfold is_ascii. by_bytes.
Qed.

Lemma quote_body_cons c s : json_safe (String c s) = true →
  quote_body (String c s) = quote_rune (bv c) (s1 c) +:+ quote_body s.
Proof.
  intros Hs. pose proof (json_safe_ascii _ Hs) as Ha. unfold quote_body.
  rewrite !is_ascii_decode by (done || cbn in Ha; by apply andb_true_iff in Ha as [_ ?]). done.
Qed.

(** One byte. *)
Lemma string_body_quoted f c s : json_safe_byte c = true →
  string_body (S f) (quote_rune (bv c) (s1 c) +:+ s) =
  '(a, b) ← string_body f s; Some (String c a, b).
Proof.
  intros Hc. destruct c as [[] [] [] [] [] [] [] []]; try discriminate Hc; reflexivity.
Qed.

Lemma string_body_quote f s rest : json_safe s = true →
  (String.length s < f)%nat →
  string_body f (quote_body s +:+ String (chr 34) rest) = Some (s, rest).
Proof.
  revert f. induction s as [|c s IH]; intros [|f] Hs Hf; cbn [String.length] in Hf; try lia; [done|].
  rewrite quote_body_cons by done. cbn in Hs. apply andb_true_iff in Hs as [Hc Hs].
  rewrite str_app_assoc, string_body_quoted by done. by rewrite IH by (done || lia).
Qed.
Lemma to_valid_ascii s : is_ascii s = true → to_valid s = s.
Proof.
  intros Hs. unfold to_valid. rewrite is_ascii_decode by done.
  unfold fmap. change @list_fmap with @map. rewrite map_map.
  induction s as [|c s IH]; [done|]. cbn in Hs. apply andb_true_iff in Hs as [Hc Hs].
  cbn [list_ascii_of_string map]. rewrite concat_strings_cons, IH by done.
  pose proof (bv_range c). breflect. unfold encode_rune, between.
  rewrite (proj2 (Z.leb_le 0 (bv c))), (proj2 (Z.leb_le (bv c) 127)) by lia.
  cbn. by rewrite chr_bv.
Qed.
Lemma quote_body_length s : json_safe s = true → (String.length s <= String.length (quote_body s))%nat.
Proof.
  induction s as [|c s IH]; [done|]. intros Hs. rewrite quote_body_cons, str_length_app by done.
  cbn in Hs. apply andb_true_iff in Hs as [Hc Hs]. specialize (IH Hs). cbn [String.length].
  assert (1 <= String.length (quote_rune (bv c) (s1 c)))%nat; [|lia].
  unfold quote_rune, s1. repeat case_match; rewrite ?str_length_app; cbn; lia.
Qed.
(** A %q text is read back as the string. *)
Lemma parse_str_quote s rest : json_safe s = true →
  parse_str (quote_body s +:+ String (chr 34) rest) = Some (s, rest).
Proof.
  intros Hs. unfold parse_str. rewrite string_body_quote by
    (done || rewrite str_length_app; pose proof (quote_body_length s Hs); cbn; lia).
  cbn. by rewrite to_valid_ascii by by apply json_safe_ascii.
Qed.

(** ** Values *)
Definition parses (d : Z) (s : string) (v : jval) : Prop :=
  ∀ rest f, (2 * String.length (s +:+ rest) + 1 <= f)%nat →
    parse_json f d InValue (s +:+ rest) = Some (v, rest).

Lemma Quote_app s rest : Quote s +:+ rest = String (chr 34) (quote_body s +:+ String (chr 34) rest).
Proof. unfold Quote, dquote, s1. fold (quote_body s). by rewrite !str_app_assoc, !str_app_cons, !str_app_nil_l. Qed.
Lemma skip_ws_quote t : skip_ws (String (chr 34) t) = String (chr 34) t.
Proof. done. Qed.
Lemma after_quote t : after (chr 34) (String (chr 34) t) = Some t.
Proof. done. Qed.
Lemma parses_quote d s : json_safe s = true → parses d (Quote s) (VStr s).
Proof.
  intros Hs rest [|f] Hf; [lia|]. rewrite Quote_app. cbn [parse_json]. rewrite skip_ws_quote.
  change (bv (chr 34) =? 34) with true. cbn iota. by rewrite parse_str_quote.
Qed.
Lemma parses_null d : parses d "null" VNull.
Proof. intros rest [|f] Hf; [lia|]. done. Qed.

(** The members of an object after its opening brace. *)
Fixpoint members (l : list (string * string)) : string :=
  match l with
  | [] => ""
  | [(k, s)] => Quote k +:+ String ":" s
  | (k, s) :: l' => Quote k +:+ String ":" (s +:+ String "," (members l'))
  end.
Definition object_text (l : list (string * string)) : string := String "{" (members l +:+ "}").

(** What follows a member: the next one, or the closing brace. *)
Definition members_tail (l : list (string * string)) (rest : string) : string :=
  match l with [] => String "}" rest | _ => String "," (members l +:+ String "}" rest) end.
Lemma members_cons k s l rest :
  members ((k, s) :: l) +:+ String "}" rest = Quote k +:+ String ":" (s +:+ members_tail l rest).
Proof.
  destruct l as [|x l]; cbn [members members_tail]; rewrite ?str_app_assoc, ?str_app_cons, ?str_app_assoc; done.
Qed.

Lemma parse_members d l acc rest f :
  Forall (λ '(k, s, v), json_safe k = true ∧ parses d s v) l →
  let text := members_tail (fst <$> l) rest in
  (2 * String.length text <= f)%nat →
  parse_json f d (InObject acc) text =
  Some (VObj (rev acc ++ map (λ '(k, s, v), (k, v)) l), rest).
Proof.
  intros Hl. revert acc f. induction Hl as [|[[k s] v] l [Hk Hs] Hl IH]; intros acc f; cbv zeta.
  { destruct f as [|f]; [cbn; lia|]. intros _. cbn. by rewrite app_nil_r. }
  cbn [fmap list_fmap fst members_tail]. rewrite members_cons, Quote_app. intros Hf.
  destruct f as [|f]; [cbn in Hf; lia|]. cbn [parse_json].
  change (skip_ws (String "," ?t)) with (String "," t). cbn [after Ascii.eqb Bool.eqb mbind option_bind].
  rewrite skip_ws_quote. rewrite after_quote. cbn [mbind option_bind].
  rewrite parse_str_quote by done. cbn [mbind option_bind].
  change (skip_ws (String ":" ?t)) with (String ":" t). cbn [after Ascii.eqb Bool.eqb mbind option_bind].
  cbn [String.length] in Hf. rewrite !str_length_app in Hf. cbn [String.length] in Hf. rewrite !str_length_app in Hf.
  rewrite Hs by (rewrite str_length_app; lia). cbn [mbind option_bind].
  rewrite IH by lia. cbn [rev map]. by rewrite <-app_assoc.
Qed.

Lemma parses_object d l :
  d + 1 ≤ max_depth → l ≠ [] →
  Forall (λ '(k, s, v), json_safe k = true ∧ parses (d + 1) s v) l →
  parses d (object_text (fst <$> l)) (VObj (map (λ '(k, s, v), (k, v)) l)).
Proof.
  intros Hd Hne Hl rest [|f] Hf; [lia|]. unfold object_text in *.
  rewrite str_app_cons, str_app_assoc in *. cbn [parse_json].
  change (skip_ws (String "{" ?t)) with (String "{" t). change (bv "{" =? 34) with false. cbn [Ascii.eqb Bool.eqb].
  rewrite (proj2 (Z.leb_gt max_depth d)) by lia.
  change ("}" +:+ rest) with (String "}" rest) in *.
  destruct l as [|[[k s] v] l]; [done|].
  replace (after "}" (skip_ws (members (fst <$> (k, s, v) :: l) +:+ String "}" rest))) with (@None string).
  2: { cbn [fmap list_fmap fst]. rewrite members_cons, Quote_app, skip_ws_quote. done. }
  apply (parse_members (d + 1) ((k, s, v) :: l) [] rest f Hl).
  cbn [String.length fmap list_fmap fst members_tail] in *. lia.
Qed.

(** A whole document. *)
Lemma json_parse_text s v : parses 0 s v → json_parse s = Some v.
Proof.
  intros Hp. unfold json_parse. specialize (Hp ""). rewrite str_app_nil_r in Hp. by rewrite Hp by lia.
Qed.
End print.
