(* ===== verification/GoUrl.v ===== *)
(** Package net/url: query escaping and [url.Values], with the round trip that makes
    a generated link mean what it says. *)
From Stdlib Require Import ZArith Ascii String.
From stdpp Require Import base gmap strings list numbers sorting.
From S2P Require Import Prelude GoStd GoNum GoSort Images RepoHost.

Open Scope string_scope.
Open Scope list_scope.
Open Scope Z_scope.

(** ** Escaping *)
Definition upper_hex (z : Z) : ascii := if z <? 10 then chr (48 + z) else chr (55 + z).
Definition unhex (c : ascii) : option Z :=
  if between 48 (bv c) 57 then Some (bv c - 48)
  else if between 97 (bv c) 102 then Some (bv c - 87)
  else if between 65 (bv c) 70 then Some (bv c - 55) else None.
(** The bytes [shouldEscape] lets through in a query component. *)
Definition query_unreserved (c : ascii) : bool :=
  between 97 (bv c) 122 || between 65 (bv c) 90 || between 48 (bv c) 57
  || Ascii.eqb c "-" || Ascii.eqb c "_" || Ascii.eqb c "." || Ascii.eqb c "~".
Definition escape_byte (c : ascii) : string :=
  if query_unreserved c then s1 c
  else if Ascii.eqb c " " then "+"
  else s3 "%" (upper_hex (bv c / 16)) (upper_hex (bv c mod 16)).
Fixpoint QueryEscape (s : string) : string :=
  match s with "" => "" | String c s' => escape_byte c +:+ QueryEscape s' end.

Fixpoint QueryUnescape (s : string) : option string :=
  match s with
  | "" => Some ""
  | String c s' =>
      if Ascii.eqb c "%" then
        match s' with
        | String a (String b t) =>
            match unhex a, unhex b with
            | Some x, Some y => String (chr (16 * x + y)) <$> QueryUnescape t
            | _, _ => None
            end
        | _ => None
        end
      else String (if Ascii.eqb c "+" then " " else c)%char <$> QueryUnescape s'
  end.

Lemma QueryUnescape_byte c t : QueryUnescape (escape_byte c +:+ t) = String c <$> QueryUnescape t.
Proof. by destruct c as [[] [] [] [] [] [] [] []]. Qed.
Lemma QueryUnescape_Escape s : QueryUnescape (QueryEscape s) = Some s.
Proof. induction s as [|c s IH]; [done|]. cbn [QueryEscape]. by rewrite QueryUnescape_byte, IH. Qed.

(** The escaped text is made of unreserved bytes, '+' and '%'. *)
Definition query_byte (c : ascii) : bool := query_unreserved c || Ascii.eqb c "+" || Ascii.eqb c "%".
Lemma escape_byte_bytes c : string_forallb query_byte (escape_byte c) = true.
Proof. by destruct c as [[] [] [] [] [] [] [] []]. Qed.
Lemma QueryEscape_bytes s : string_forallb query_byte (QueryEscape s) = true.
Proof.
  induction s as [|c s IH]; [done|]. cbn [QueryEscape].
  by rewrite string_forallb_app, escape_byte_bytes, IH.
Qed.
Lemma QueryEscape_avoids c s : query_byte c = false → avoids c (QueryEscape s) = true.
Proof.
  intros Hc. generalize (QueryEscape_bytes s). apply string_forallb_impl. intros d Hd.
  apply negb_true_iff, Ascii.eqb_neq. congruence.
Qed.

(** ** url.Values *)
Notation Values := (gmap string (list string)).
Definition Set_ (q : Values) (k v : string) : Values := <[k := [v]]> q.
Definition Get (q : Values) (k : string) : string := default "" (q !! k ≫= head).

Definition Pair (kv : string * string) : string := QueryEscape kv.1 +:+ "=" +:+ QueryEscape kv.2.
(** [Encode] walks the keys in sorted order. *)
Definition sorted_keys (q : Values) : list string := SliceStable str_less (map_to_list q).*1.
Definition value_pairs (q : Values) : list (string * string) :=
  sorted_keys q ≫= λ k, (λ v, (k, v)) <$> default [] (q !! k).
Definition Encode (q : Values) : string := Join (Pair <$> value_pairs q) "&".

(** [ParseQuery] with its error dropped, as [URL.Query] does: malformed pairs are
    left out. *)
Definition Add (q : Values) (k v : string) : Values := <[k := default [] (q !! k) ++ [v]]> q.
Definition parse_pair (seg : string) : option (string * string) :=
  if String.eqb seg "" || Contains seg ";" then None
  else let '(k, v) := default (seg, "") (cut seg "="%char) in
       k' ← QueryUnescape k; v' ← QueryUnescape v; Some (k', v').
Definition add_pair (q : Values) (seg : string) : Values :=
  match parse_pair seg with Some (k, v) => Add q k v | None => q end.
Definition ParseQuery (s : string) : Values := foldl add_pair ∅ (SplitByte s "&"%char).

(** ** Encoding and parsing back *)
Lemma Index_byte s c : Index s (s1 c) = IndexByte s c.
Proof.
  induction s as [|d s IH]; [done|]. cbn [Index IndexByte HasPrefix s1]. rewrite IH.
  destruct (Ascii.eqb c d) eqn:E; rewrite Ascii.eqb_sym in E; by rewrite ?E.
Qed.
Lemma Contains_avoids c s : avoids c s = true → Contains s (s1 c) = false.
Proof.
  intros Hs. apply bool_decide_eq_false. rewrite Index_byte, Index_cut, cut_avoids by done. by intros [? ?].
Qed.

Lemma Pair_avoids c kv : query_byte c = false → c ≠ "="%char → avoids c (Pair kv) = true.
Proof.
  intros Hc He. unfold Pair. unfold avoids. rewrite !string_forallb_app. fold (avoids c).
  rewrite !QueryEscape_avoids by done. cbn. by rewrite (proj2 (Ascii.eqb_neq _ _) He).
Qed.
Lemma parse_pair_Pair kv : parse_pair (Pair kv) = Some kv.
Proof.
  unfold parse_pair. replace (String.eqb (Pair kv) "") with false; last first.
  { symmetry. apply String.eqb_neq. unfold Pair. destruct (QueryEscape kv.1); by cbn. }
  rewrite (Contains_avoids ";"%char) by (by apply Pair_avoids). cbn [orb].
  unfold Pair. change ("=" +:+ ?x) with (String "=" x).
  rewrite cut_app by (by apply QueryEscape_avoids). cbn.
  rewrite !QueryUnescape_Escape. by destruct kv.
Qed.

Definition add_all (q : Values) (l : list (string * string)) : Values := foldl (λ q kv, Add q kv.1 kv.2) q l.
Lemma ParseQuery_pairs l : ParseQuery (Join (Pair <$> l) "&") = add_all ∅ l.
Proof.
  destruct l as [|kv l]; [done|]. unfold ParseQuery. rewrite (SplitByte_Join "&"%char); last first.
  - apply forallb_elem. intros s (p & -> & _)%list_elem_of_fmap. by apply Pair_avoids.
  - done.
  - generalize (∅ : Values). generalize (kv :: l). clear. intros l.
    induction l as [|kv l IH]; intros q; [done|]. cbn. unfold add_pair at 2.
    rewrite parse_pair_Pair. destruct kv. apply IH.
Qed.

Definition values_of (k : string) (l : list (string * string)) : list string :=
  (filter (λ kv, kv.1 = k) l).*2.
Lemma add_all_lookup l q k : add_all q l !! k =
  match values_of k l with [] => q !! k | vs => Some (default [] (q !! k) ++ vs) end.
Proof.
  revert q. induction l as [|[k' v] l IH]; intros q; [done|]. cbn [add_all foldl fst snd].
  fold (add_all (Add q k' v) l). rewrite IH. unfold values_of, Add. rewrite filter_cons. cbn [fst].
  destruct (decide (k' = k)) as [->|Hk].
  - rewrite lookup_insert_eq. cbn. destruct (_ : list string) eqn:E; [done|].
    cbn. by rewrite <-app_assoc.
  - by rewrite lookup_insert_ne.
Qed.
Lemma values_of_pairs (f : string → list string) ks k : NoDup ks →
  values_of k (ks ≫= λ k, (λ v, (k, v)) <$> f k) = if decide (k ∈ ks) then f k else [].
Proof.
  unfold values_of. induction 1 as [|k' ks Hn Hd IH]; [done|]. cbn [mbind list_bind].
  rewrite filter_app, fmap_app, IH.
  destruct (decide (k = k')) as [->|Hk].
  - rewrite (decide_False (P := k' ∈ ks)), app_nil_r, decide_True by (done || set_solver).
    clear. induction (f k') as [|v l IH]; [done|]. rewrite fmap_cons, filter_cons, decide_True by done.
    rewrite fmap_cons, IH. done.
  - rewrite (decide_ext (k ∈ k' :: ks) (k ∈ ks)) by set_solver.
    replace (filter _ _) with (@nil (string * string)); [done|]. clear -Hk.
    induction (f k') as [|v l IH]; [done|]. rewrite fmap_cons, filter_cons, decide_False; cbn; congruence.
Qed.
Lemma sorted_keys_spec (q : Values) :
  NoDup (sorted_keys q) ∧ ∀ k, k ∈ sorted_keys q ↔ is_Some (q !! k).
Proof.
  unfold sorted_keys. split.
  - rewrite SliceStable_perm. apply NoDup_fst_map_to_list.
  - intros k. rewrite SliceStable_perm. rewrite list_elem_of_fmap. split.
    + intros ([? v] & -> & Hv%elem_of_map_to_list). by exists v.
    + intros [v Hv]. exists (k, v). split; [done|]. by apply elem_of_map_to_list.
Qed.

(** Every query a page writes into a link is read back unchanged. *)
Lemma ParseQuery_Encode (q : Values) : map_Forall (λ _ vs, vs ≠ []) q → ParseQuery (Encode q) = q.
Proof.
  intros Hq. unfold Encode. rewrite ParseQuery_pairs. apply map_eq. intros k.
  rewrite add_all_lookup. destruct (sorted_keys_spec q) as [Hd Hk].
  unfold value_pairs. rewrite (values_of_pairs (λ k, default [] (q !! k))) by done.
  rewrite lookup_empty. destruct (q !! k) as [vs|] eqn:E.
  - rewrite decide_True by (apply Hk; eauto). cbn. pose proof (Hq _ _ E). by destruct vs.
  - rewrite decide_False; [done|]. rewrite Hk, E. by intros [? ?].
Qed.

(** ** Trimming twice *)
Lemma space_seqs_nonempty p : p ∈ space_seqs → (0 < String.length p)%nat.
Proof. revert p. apply Forall_forall. vm_compute. repeat constructor. Qed.
Lemma take_drop n s : (n <= String.length s)%nat → take n s +:+ drop n s = s.
Proof.
  revert n. induction s as [|c s IH]; intros [|n] Hn; cbn in Hn |- *; try done; try lia.
  rewrite str_app_cons. f_equal. apply IH. lia.
Qed.
Lemma take_length n s : (n <= String.length s)%nat → String.length (take n s) = n.
Proof.
  revert n. induction s as [|c s IH]; intros [|n] Hn; cbn in Hn |- *; try done; try lia.
  f_equal. apply IH. lia.
Qed.

Lemma trim_left_done fuel s : (String.length s <= fuel)%nat → space_prefix (trim_left fuel s) = None.
Proof.
  revert s. induction fuel as [|f IH]; intros s Hs.
  - destruct s; [done|]. cbn in Hs. lia.
  - cbn [trim_left]. destruct (space_prefix s) as [p|] eqn:E; [|done]. apply IH.
    apply find_some_elem in E as [Hp Hs']. apply HasPrefix_spec in Hs' as [t ->].
    rewrite drop_app. rewrite str_length_app in Hs. apply space_seqs_nonempty in Hp. lia.
Qed.
(** Trimming on the right leaves a prefix that ends in no space. *)
Lemma trim_right_done fuel s : (String.length s <= fuel)%nat →
  space_suffix (trim_right fuel s) = None ∧ ∃ t, s = trim_right fuel s +:+ t.
Proof.
  revert s. induction fuel as [|f IH]; intros s Hs.
  - destruct s; [|cbn in Hs; lia]. split; [done|]. by exists "".
  - cbn [trim_right]. destruct (space_suffix s) as [p|] eqn:E; [|split; [done|]; exists ""; by rewrite str_app_nil_r].
    apply find_some_elem in E as [Hp Hl]. apply space_seqs_nonempty in Hp.
    apply andb_true_iff in Hl as [Hl%Nat.leb_le _].
    destruct (IH (take (String.length s - String.length p) s)) as [H1 [t Ht]].
    { rewrite take_length; lia. }
    split; [done|]. exists (t +:+ drop (String.length s - String.length p) s).
    rewrite <-str_app_assoc, <-Ht. symmetry. apply take_drop. lia.
Qed.
Lemma TrimSpace_idem s : TrimSpace (TrimSpace s) = TrimSpace s.
Proof.
  unfold TrimSpace. set (l := trim_left _ s). set (r := trim_right _ l).
  pose proof (trim_left_done (String.length s) s (le_n _)) as Hl. fold l in Hl.
  destruct (trim_right_done (String.length l) l (le_n _)) as [Hr [t Ht]]. fold r in Hr, Ht.
  assert (Hp : space_prefix r = None).
  { destruct (space_prefix r) as [p|] eqn:E; [|done]. apply find_some_elem in E as [Hp Hr'].
    eapply find_none_elem in Hl; [|done]. rewrite Ht, HasPrefix_trans in Hl; done. }
  clearbody r. replace (trim_left (String.length r) r) with r; [|destruct (String.length r) as [|n]; [done|]; cbn [trim_left]; by rewrite Hp].
  destruct (String.length r) as [|n]; [done|]; cbn [trim_right]; by rewrite Hr.
Qed.
