(* ===== verification/ListPage.v ===== *)
(** console/internal/server/server.go, the list page: filters, facets, ordering,
    pagination and links, with render.go's data of the page.

    [list_page] is the part of [handleList] after the cache has been read; slicing out
    of range would panic and is an [outcome]. *)
From Stdlib Require Import ZArith Ascii String.
From stdpp Require Import base gmap sets strings list numbers sorting.
From S2P Require Import Prelude GoStd GoNum GoSort Images RepoHost View GoUrl.

Open Scope string_scope.
Open Scope list_scope.
Open Scope Z_scope.

(** ** Data of the page *)
(* Go: console/internal/server/render.go head *)
Record head := MkHead { H_Title : string; H_User : string; H_Anon : bool; H_Bare : bool }.
(* Go: console/internal/server/server.go statusFacet *)
Record statusFacet := MkFacet {
  SF_Value : string; SF_Label : string; SF_Count : Z; SF_Active : bool; SF_URL : string;
}.
(* Go: console/internal/server/server.go groupChip *)
Record groupChip := MkChip { GC_Value : string; GC_Label : string; GC_Active : bool; GC_URL : string }.
(* Go: console/internal/server/render.go listData *)
Record listData := MkListData {
  LD_Head : head; LD_Warming : bool; LD_Stale : bool; LD_Apps : list App;
  LD_Total : Z; LD_Matched : Z; LD_Filtered : bool;
  LD_StatusFacets : list statusFacet; LD_GroupChips : list groupChip; LD_Storage : StorageTotals;
  LD_Search : string; LD_ClearSearchURL : string; LD_Status : string; LD_Group : string;
  LD_Sort : string; LD_SortToggleURL : string;
  LD_Page : Z; LD_TotalPages : Z; LD_ShowPager : bool; LD_HasPrev : bool; LD_HasNext : bool;
  LD_PrevURL : string; LD_NextURL : string;
}.
(** [listData{Head: h, Warming: true}]: every other field is zero. *)
Definition warming_page (h : head) : listData :=
  MkListData h true false [] 0 0 false [] [] zero_totals "" "" "" "" "" "" 0 0 false false false "" "".

(** ** Sorting and paging *)
(* Go: console/internal/server/server.go sortByName *)
Definition sortByName : string := "name".
(* Go: console/internal/server/server.go toggleSort *)
Definition toggleSort (cur : string) : string := if String.eqb cur sortByName then "" else sortByName.
(* Go: console/internal/server/server.go pageSize *)
Definition pageSize : Z := 50.
(* Go: console/internal/server/server.go clampPage *)
Definition clampPage (raw : string) (match_ : Z) : Z * Z :=
  let totalPages := Z.quot (i64 (match_ + pageSize - 1)) pageSize in
  let totalPages := if totalPages <? 1 then 1 else totalPages in
  let page := match parse_int_ok raw with
              | Some p => if p <? 1 then 1 else p
              | None => 1
              end in
  (if totalPages <? page then totalPages else page, totalPages).

(** The comparison [handleList] sorts with. *)
(* Go: console/internal/server/server.go handleList @143-155 *)
Definition list_less (sortOrder : string) (x y : App) : bool :=
  if String.eqb sortOrder "" && negb (HealthRank x =? HealthRank y) then HealthRank x <? HealthRank y
  else if negb (String.eqb (VA_Namespace x) (VA_Namespace y)) then str_less (VA_Namespace x) (VA_Namespace y)
  else str_less (VA_Name x) (VA_Name y).

(** ** Links *)
(* Go: console/internal/server/server.go listURL @314-326 *)
Definition filter_values (status group search sortOrder : string) : Values :=
  let set (k v : string) (q : Values) := if negb (String.eqb v "") then Set_ q k v else q in
  set "sort" sortOrder (set "search" search (set "group" group (set "status" status ∅))).
(* Go: console/internal/server/server.go listURL *)
Definition listURL (status group search sortOrder : string) : string :=
  let q := filter_values status group search sortOrder in
  if bool_decide (size q = 0%nat) then "/" else "/?" +:+ Encode q.
(* Go: console/internal/server/server.go pageURL *)
Definition pageURL (status group search sortOrder : string) (page : Z) : string :=
  "/?" +:+ Encode (Set_ (filter_values status group search sortOrder) "page" (Itoa page)).

(** ** Filters *)
(* Go: console/internal/server/server.go healthClasses *)
Definition healthClasses : list string := ["ready"; "building"; "degraded"; "degraded-serving"; "pending"].
(* Go: console/internal/server/server.go validHealthClass *)
Definition validHealthClass (s : string) : bool := existsb (String.eqb s) healthClasses.
(* Go: console/internal/server/server.go facetLabel *)
Definition facetLabel (hc : string) : string :=
  if String.eqb hc "degraded-serving" then "serving last-good" else hc.
(* Go: console/internal/server/server.go ungroupedParam *)
Definition ungroupedParam : string := "ungrouped".

(* Go: console/internal/server/server.go statusFacets *)
Definition statusFacets (apps : list App) (activeStatus group search sortOrder : string) : list statusFacet :=
  let counts := foldl (λ (m : gmap string Z) a,
    <[HealthClass a := i64 (default 0 (m !! HealthClass a) + 1)]> m) ∅ apps in
  MkFacet "" "all" (Z.of_nat (length apps)) (String.eqb activeStatus "")
    (listURL "" group search sortOrder)
  :: map (λ hc, MkFacet hc (facetLabel hc) (default 0 (counts !! hc)) (String.eqb activeStatus hc)
                  (listURL hc group search sortOrder)) healthClasses.

(* Go: console/internal/server/server.go groupChips *)
Definition groupChips (apps : list App) (status activeGroup search sortOrder : string) : list groupChip :=
  let hasUngrouped := existsb (λ a, String.eqb (VA_Group a) "") apps in
  let set := foldl (λ (s : gset string) a,
    if String.eqb (VA_Group a) "" then s else {[VA_Group a]} ∪ s) ∅ apps in
  if bool_decide (size set = 0%nat) then []
  else
    let groups := SliceStable str_less (elements set) in
    MkChip "" "all" (String.eqb activeGroup "") (listURL status "" search sortOrder)
    :: map (λ g, MkChip g g (String.eqb activeGroup g) (listURL status g search sortOrder)) groups
    ++ (if hasUngrouped
        then [MkChip ungroupedParam "ungrouped" (String.eqb activeGroup ungroupedParam)
                (listURL status ungroupedParam search sortOrder)]
        else []).

(* Go: console/internal/server/server.go filterApps *)
Definition filterApps (apps : list App) (status group : string) : list App :=
  List.filter (λ a,
    if negb (String.eqb status "") && negb (String.eqb (HealthClass a) status) then false
    else if String.eqb group "" then true
    else if String.eqb group ungroupedParam then String.eqb (VA_Group a) ""
    else String.eqb (VA_Group a) group) apps.

Section search.
Context `{GoRuntime}.
(* Go: console/internal/server/server.go searchApps *)
Definition searchApps (apps : list App) (term : string) : list App :=
  if String.eqb term "" then apps
  else let term := ToLower term in
       List.filter (λ a, existsb (λ field, Contains (ToLower field) term)
                           [VA_Name a; VA_Namespace a; VA_Group a; URLHost a]) apps.

(** ** The page *)
(** The four filters, as [handleList] reads them off the query. *)
Record filters := MkFilters { F_status : string; F_group : string; F_search : string; F_sort : string }.
(* Go: console/internal/server/server.go handleList @123-137 *)
Definition read_filters (q : Values) : filters :=
  let status := Get q "status" in
  let sortOrder := Get q "sort" in
  MkFilters (if validHealthClass status then status else "") (Get q "group")
    (TrimSpace (Get q "search")) (if String.eqb sortOrder sortByName then sortOrder else "").

(* Go: console/internal/server/server.go handleList @141-155 *)
Definition matching (f : filters) (apps : list App) : list App :=
  SliceStable (list_less (F_sort f)) (searchApps (filterApps apps (F_status f) (F_group f)) (F_search f)).

(** The slice expression [l[lo:hi]]. *)
Definition slice {A} (l : list A) (lo hi : Z) : outcome (list A) :=
  if (0 <=? lo) && (lo <=? hi) && (hi <=? Z.of_nat (length l))
  then Val (list.take (Z.to_nat (hi - lo)) (list.drop (Z.to_nat lo) l)) else Panic.
(* Go: console/internal/server/server.go handleList @157-165 *)
Definition window (filtered : list App) (page : Z) : outcome (list App) :=
  let lo := i64 ((page - 1) * pageSize) in
  let hi := i64 (lo + pageSize) in
  let hi := if Z.of_nat (length filtered) <? hi then Z.of_nat (length filtered) else hi in
  slice filtered lo hi.

(* Go: console/internal/server/server.go handleList @123-197 *)
Definition list_page (user : string) (stale : bool) (q : Values) (apps : list App) : outcome listData :=
  let f := read_filters q in
  let facets := statusFacets apps (F_status f) (F_group f) (F_search f) (F_sort f) in
  let chips := groupChips apps (F_status f) (F_group f) (F_search f) (F_sort f) in
  let filtered := matching f apps in
  let matched := Z.of_nat (length filtered) in
  let '(page, totalPages) := clampPage (Get q "page") matched in
  match window filtered page with
  | Panic => Panic
  | Val pageApps => Val
      (MkListData (MkHead "Apps" user false false) false stale pageApps
         (Z.of_nat (length apps)) matched (negb (matched =? Z.of_nat (length apps)))
         facets chips (AggregateStorage filtered)
         (F_search f) (listURL (F_status f) (F_group f) "" (F_sort f)) (F_status f) (F_group f)
         (F_sort f) (listURL (F_status f) (F_group f) (F_search f) (toggleSort (F_sort f)))
         page totalPages (1 <? totalPages) (1 <? page) (page <? totalPages)
         (pageURL (F_status f) (F_group f) (F_search f) (F_sort f) (i64 (page - 1)))
         (pageURL (F_status f) (F_group f) (F_search f) (F_sort f) (i64 (page + 1))))
  end.
End search.

(** ** Pagination *)
(** The lists a page is computed for: far below the address space. *)
Definition fits (n : nat) : Prop := Z.of_nat n + pageSize ≤ i64_max.

(** [ceil (n / pageSize)], at least one page. *)
Definition page_count (n : nat) : Z := Z.max 1 ((Z.of_nat n + 49) / 50).

Ltac i64_small := rewrite ?i64_id by (unfold in_i64, i64_min, i64_max, pageSize in *; lia).

Lemma clampPage_spec raw n : fits n →
  clampPage raw (Z.of_nat n) =
    (Z.min (page_count n) (Z.max 1 (default 1 (parse_int_ok raw))), page_count n).
Proof.
  intros Hn. unfold clampPage, page_count, fits, pageSize in *. i64_small.
  replace (Z.of_nat n + 50 - 1) with (Z.of_nat n + 49) by lia.
  rewrite Z.quot_div_nonneg by lia.
  set (k := (Z.of_nat n + 49) / 50). replace (if k <? 1 then 1 else k) with (Z.max 1 k); last first.
  { destruct (Z.ltb_spec k 1); lia. }
  f_equal. destruct (parse_int_ok raw) as [p|]; cbn [default from_option id];
    repeat (case_match; breflect); lia.
Qed.

Definition chunk {A} (l : list A) (i : nat) : list A := list.take 50 (list.drop (50 * i) l).
Lemma window_spec filtered p : fits (length filtered) → 1 ≤ p ≤ page_count (length filtered) →
  window filtered p = Val (chunk filtered (Z.to_nat (p - 1))).
Proof.
  unfold fits, page_count, window, slice, pageSize, chunk. intros Hn Hp.
  assert ((p - 1) * 50 ≤ Z.of_nat (length filtered)).
  { destruct (decide (p = 1)) as [->|]; [lia|].
    assert (p ≤ (Z.of_nat (length filtered) + 49) / 50) as Hq by lia.
    pose proof (Z.mul_div_le (Z.of_nat (length filtered) + 49) 50). lia. }
  i64_small. replace (Z.to_nat ((p - 1) * 50)) with (50 * Z.to_nat (p - 1))%nat by lia.
  destruct (Z.ltb_spec (Z.of_nat (length filtered)) ((p - 1) * 50 + 50));
    rewrite !(proj2 (Z.leb_le _ _)) by lia; cbn [andb]; f_equal.
  - rewrite !take_ge; rewrite ?length_drop; [done|lia..].
  - f_equal. lia.
Qed.

Lemma chunks_cover {A} (l : list A) k :
  concat (chunk l <$> seq 0 k) = list.take (50 * k) l.
Proof.
  induction k as [|k IH]; [done|]. rewrite seq_S, fmap_app, concat_app, IH. cbn [fmap list_fmap concat].
  rewrite app_nil_r. unfold chunk. rewrite Nat.add_0_l.
  replace (50 * S k)%nat with (50 * k + 50)%nat by lia. apply take_take_drop.
Qed.
Lemma chunks_all {A} (l : list A) : concat (chunk l <$> seq 0 (Z.to_nat (page_count (length l)))) = l.
Proof.
  rewrite chunks_cover. apply take_ge. unfold page_count.
  pose proof (Z.div_mod (Z.of_nat (length l) + 49) 50). pose proof (Z.mod_pos_bound (Z.of_nat (length l) + 49) 50).
  lia.
Qed.

Lemma matching_length `{GoRuntime} f apps : (length (matching f apps) <= length apps)%nat.
Proof.
  unfold matching. rewrite SliceStable_perm. unfold searchApps, filterApps.
  destruct (String.eqb _ _); rewrite ?List.filter_length_le; auto using List.filter_length_le.
Qed.

(** The page in terms of its parts. *)
Definition page_at `{GoRuntime} (user : string) (stale : bool) (f : filters) (apps : list App) (p : Z) : listData :=
  let filtered := matching f apps in
  let n := page_count (length filtered) in
  MkListData (MkHead "Apps" user false false) false stale (chunk filtered (Z.to_nat (p - 1)))
    (Z.of_nat (length apps)) (Z.of_nat (length filtered))
    (negb (Z.of_nat (length filtered) =? Z.of_nat (length apps)))
    (statusFacets apps (F_status f) (F_group f) (F_search f) (F_sort f))
    (groupChips apps (F_status f) (F_group f) (F_search f) (F_sort f)) (AggregateStorage filtered)
    (F_search f) (listURL (F_status f) (F_group f) "" (F_sort f)) (F_status f) (F_group f)
    (F_sort f) (listURL (F_status f) (F_group f) (F_search f) (toggleSort (F_sort f)))
    p n (1 <? n) (1 <? p) (p <? n)
    (pageURL (F_status f) (F_group f) (F_search f) (F_sort f) (i64 (p - 1)))
    (pageURL (F_status f) (F_group f) (F_search f) (F_sort f) (i64 (p + 1))).

Definition asked_page (q : Values) (n : nat) : Z :=
  Z.min (page_count n) (Z.max 1 (default 1 (parse_int_ok (Get q "page")))).

Lemma list_page_at `{GoRuntime} user stale q apps : fits (length apps) →
  list_page user stale q apps = Val (page_at user stale (read_filters q) apps
    (asked_page q (length (matching (read_filters q) apps)))).
Proof.
  intros Hn. unfold list_page, asked_page. pose proof (matching_length (read_filters q) apps).
  assert (Hm : fits (length (matching (read_filters q) apps))) by (unfold fits in *; lia).
  rewrite clampPage_spec by done.
  rewrite window_spec; [done..|]. unfold page_count. lia.
Qed.

(** ** Links *)
(** The query of the request a browser makes when a link is followed. *)
Definition link_query (u : string) : Values :=
  match cut u "?"%char with Some (_, q) => ParseQuery q | None => ∅ end.

Definition query_ok (q : Values) : Prop := map_Forall (λ _ vs, vs ≠ []) q.
Lemma query_ok_set q k v : query_ok q → query_ok (Set_ q k v).
Proof. intros Hq. unfold Set_. by apply map_Forall_insert_2. Qed.
Lemma filter_values_ok s g t o : query_ok (filter_values s g t o).
Proof.
  unfold filter_values. repeat case_match; auto using query_ok_set; repeat apply query_ok_set;
    apply map_Forall_empty.
Qed.
Lemma link_query_listURL s g t o : link_query (listURL s g t o) = filter_values s g t o.
Proof.
  unfold listURL, link_query. case_bool_decide as Hs.
  - cbn. symmetry. by apply map_size_empty_inv.
  - cbn. apply ParseQuery_Encode, filter_values_ok.
Qed.
Lemma link_query_pageURL s g t o p :
  link_query (pageURL s g t o p) = Set_ (filter_values s g t o) "page" (Itoa p).
Proof. unfold pageURL, link_query. cbn. apply ParseQuery_Encode, query_ok_set, filter_values_ok. Qed.

Lemma Get_Set q k v k' : Get (Set_ q k v) k' = if String.eqb k k' then v else Get q k'.
Proof.
  unfold Get, Set_. destruct (String.eqb_spec k k') as [->|Hk].
  - by rewrite lookup_insert_eq.
  - by rewrite lookup_insert_ne.
Qed.
Lemma Get_filter_values s g t o k : Get (filter_values s g t o) k =
  if String.eqb "sort" k then o else if String.eqb "search" k then t
  else if String.eqb "group" k then g else if String.eqb "status" k then s else "".
Proof.
  unfold filter_values.
  assert (Hset : ∀ (q : Values) k' v, Get q k' = "" →
    Get (if negb (String.eqb v "") then Set_ q k' v else q) k = if String.eqb k' k then v else Get q k).
  { intros q k' v Hq. destruct (String.eqb_spec v "") as [->|]; cbn [negb]; [|apply Get_Set].
    by destruct (String.eqb_spec k' k) as [<-|]. }
  rewrite !Hset; [done|..]; repeat (case_match; [|rewrite ?Get_Set]); done.
Qed.

(** What the page keeps of a request: a known status, a trimmed search, a known order. *)
Definition normal (f : filters) : Prop :=
  (F_status f = "" ∨ validHealthClass (F_status f) = true) ∧ TrimSpace (F_search f) = F_search f ∧
  (F_sort f = "" ∨ F_sort f = sortByName).
Lemma read_filters_normal q : normal (read_filters q).
Proof.
  unfold normal, read_filters. cbn [F_status F_search F_sort]. split_and!.
  - destruct (validHealthClass (Get q "status")) eqn:E; auto.
  - apply TrimSpace_idem.
  - destruct (String.eqb_spec (Get q "sort") sortByName); auto.
Qed.
Lemma read_filters_link f : normal f →
  read_filters (filter_values (F_status f) (F_group f) (F_search f) (F_sort f)) = f.
Proof.
  destruct f as [s g t o]. intros (Hs & Ht & Ho). cbn [F_status F_group F_search F_sort] in *. unfold read_filters.
  rewrite !Get_filter_values. cbn [String.eqb Ascii.eqb Bool.eqb]. rewrite Ht. f_equal.
  - destruct Hs as [->| ->]; done.
  - destruct Ho as [->| ->]; done.
Qed.
Lemma read_filters_page q v : read_filters (Set_ q "page" v) = read_filters q.
Proof. unfold read_filters. by rewrite !Get_Set. Qed.

(** ** Facets *)
Definition of_class (hc : string) (a : App) : bool := String.eqb (HealthClass a) hc.
Definition class_count (hc : string) (apps : list App) : Z := Z.of_nat (length (List.filter (of_class hc) apps)).

Lemma counts_lookup hc apps (m : gmap string Z) :
  0 ≤ default 0 (m !! hc) → default 0 (m !! hc) + Z.of_nat (length apps) ≤ i64_max →
  default 0 (foldl (λ (m : gmap string Z) a,
    <[HealthClass a := i64 (default 0 (m !! HealthClass a) + 1)]> m) m apps !! hc) =
  default 0 (m !! hc) + class_count hc apps.
Proof.
  unfold class_count. revert m.
  induction apps as [|a apps IH]; intros m H0 H1; cbn [foldl List.filter length] in *; [lia|].
  destruct (String.eqb_spec (HealthClass a) hc) as [Hc|Hc]; unfold of_class in *.
  - rewrite Hc, String.eqb_refl. cbn [length]. rewrite IH; rewrite lookup_insert_eq; cbn [default from_option id]; i64_small; lia.
  - rewrite (proj2 (String.eqb_neq _ _) Hc). rewrite IH; rewrite lookup_insert_ne by done; lia.
Qed.
Lemma statusFacets_counts apps s g t o : fits (length apps) →
  statusFacets apps s g t o =
    MkFacet "" "all" (Z.of_nat (length apps)) (String.eqb s "") (listURL "" g t o)
    :: map (λ hc, MkFacet hc (facetLabel hc) (class_count hc apps) (String.eqb s hc) (listURL hc g t o)) healthClasses.
Proof.
  intros Hf. unfold statusFacets. f_equal. apply map_ext. intros hc. f_equal.
  unfold fits, pageSize in Hf. rewrite counts_lookup; rewrite lookup_empty; cbn [default from_option id]; lia.
Qed.

Lemma HealthClass_known a : HealthClass a ∈ healthClasses.
Proof. unfold HealthClass. repeat case_match; by repeat constructor. Qed.
Lemma validHealthClass_iff s : validHealthClass s = true ↔ s ∈ healthClasses.
Proof.
  unfold validHealthClass. rewrite existsb_elem. split.
  - by intros (x & ? & <-%String.eqb_eq).
  - intros. exists s. by rewrite String.eqb_refl.
Qed.
(** Every App is counted by one chip. *)
Lemma class_counts_total apps :
  foldr Z.add 0 ((λ hc, class_count hc apps) <$> healthClasses) = Z.of_nat (length apps).
Proof.
  unfold class_count. induction apps as [|a apps IH]; [done|].
  cbn [fmap list_fmap healthClasses foldr List.filter length] in *.
  assert (Ho : ∀ hc, of_class hc a = String.eqb (HealthClass a) hc) by done. rewrite !Ho.
  pose proof (HealthClass_known a) as Hk. unfold healthClasses in Hk.
  rewrite !elem_of_cons in Hk. destruct Hk as [->|[->|[->|[->|[->|[]%elem_of_nil]]]]];
    cbn [String.eqb Ascii.eqb Bool.eqb length]; rewrite Nat2Z.inj_succ; lia.
Qed.

(** ** The input order does not matter *)
Section order.
Context `{GoRuntime}.

Lemma list_less_lex o : ∀ x y, list_less o x y =
  lex (if String.eqb o "" then by_key Z.ltb HealthRank else λ _ _, false)
    (lex (by_key str_less VA_Namespace) (by_key str_less VA_Name)) x y.
Proof.
  intros x y. unfold list_less, lex, by_key.
  assert (Hs : (if negb (String.eqb (VA_Namespace x) (VA_Namespace y))
     then str_less (VA_Namespace x) (VA_Namespace y) else str_less (VA_Name x) (VA_Name y)) =
     if str_less (VA_Namespace x) (VA_Namespace y) then true
     else if str_less (VA_Namespace y) (VA_Namespace x) then false else str_less (VA_Name x) (VA_Name y)).
  { destruct (String.eqb_spec (VA_Namespace x) (VA_Namespace y)) as [->|Hne]; cbn [negb].
    - by rewrite (less_irrefl str_less).
    - destruct (str_less (VA_Namespace x) (VA_Namespace y)) eqn:E1; [done|].
      destruct (str_less (VA_Namespace y) (VA_Namespace x)) eqn:E2; [done|].
      by apply str_less_total in E1. }
  rewrite Hs. destruct (String.eqb o ""); cbn [andb]; [|done].
  destruct (Z.eqb_spec (HealthRank x) (HealthRank y)) as [->|Hne]; cbn [negb].
  - by rewrite Z.ltb_irrefl.
  - destruct (Z.ltb_spec (HealthRank x) (HealthRank y)); [done|].
    destruct (Z.ltb_spec (HealthRank y) (HealthRank x)); [done|lia].
Qed.
#[global] Instance never_less {A} : StrictWeak (λ _ _ : A, false).
Proof. by split. Qed.
#[global] Instance list_less_order o : StrictWeak (list_less o).
Proof.
  assert (StrictWeak (lex (if String.eqb o "" then by_key Z.ltb HealthRank else λ _ _ : App, false)
    (lex (by_key str_less VA_Namespace) (by_key str_less VA_Name)))) as [H1 H2 H3].
  { destruct (String.eqb o ""); apply _. }
  split; intros *; rewrite !list_less_lex; eauto.
Qed.
Lemma list_less_total o x y : list_less o x y = false → list_less o y x = false →
  VA_Namespace x = VA_Namespace y ∧ VA_Name x = VA_Name y.
Proof.
  rewrite !list_less_lex. unfold lex, by_key.
  intros Hx Hy. assert (VA_Namespace x = VA_Namespace y) as E.
  { apply str_less_total; repeat (case_match; try done). }
  split; [done|]. rewrite E, !(less_irrefl str_less) in Hx, Hy.
  apply str_less_total; repeat (case_match; try done).
Qed.
End order.

Lemma filter_perm {A} (f : A → bool) l k : l ≡ₚ k → List.filter f l ≡ₚ List.filter f k.
Proof.
  induction 1 as [|x l k ? IH|x y l|]; cbn; [done|..|by etrans].
  - destruct (f x); by rewrite IH.
  - destruct (f x), (f y); done || apply Permutation_swap.
Qed.
Lemma group_set_spec apps (s : gset string) g :
  g ∈ foldl (λ (s : gset string) a, if String.eqb (VA_Group a) "" then s else {[VA_Group a]} ∪ s) s apps ↔
  g ∈ s ∨ (g ≠ "" ∧ g ∈ VA_Group <$> apps).
Proof.
  revert s. induction apps as [|a apps IH]; intros s; [set_solver|]. cbn [foldl]. rewrite IH.
  destruct (String.eqb_spec (VA_Group a) "") as [Hg|Hg]; set_solver.
Qed.
Lemma groupChips_perm l k s g t o : l ≡ₚ k → groupChips l s g t o = groupChips k s g t o.
Proof.
  intros Hp. unfold groupChips.
  assert (Hset : foldl (λ (s : gset string) a, if String.eqb (VA_Group a) "" then s else {[VA_Group a]} ∪ s) ∅ l =
    foldl (λ (s : gset string) a, if String.eqb (VA_Group a) "" then s else {[VA_Group a]} ∪ s) ∅ k).
  { apply set_eq. intros x. rewrite !group_set_spec. by rewrite Hp. }
  assert (Hun : existsb (λ a, String.eqb (VA_Group a) "") l = existsb (λ a, String.eqb (VA_Group a) "") k).
  { apply eq_true_iff_eq. rewrite !existsb_elem. split; intros (x & Hx & ?); exists x; [by rewrite <-Hp|by rewrite Hp]. }
  by rewrite Hset, Hun.
Qed.

Section perm.
Context `{GoRuntime}.

Definition app_key (a : App) : string * string := (VA_Namespace a, VA_Name a).
Lemma matching_set_perm f l k : l ≡ₚ k →
  searchApps (filterApps l (F_status f) (F_group f)) (F_search f) ≡ₚ
  searchApps (filterApps k (F_status f) (F_group f)) (F_search f).
Proof.
  intros Hp. unfold searchApps. destruct (String.eqb (F_search f) ""); repeat apply filter_perm; done.
Qed.
Lemma matching_elem f apps a : a ∈ matching f apps → a ∈ apps.
Proof.
  unfold matching. rewrite SliceStable_perm. unfold searchApps, filterApps.
  destruct (String.eqb (F_search f) ""); rewrite !list_elem_of_In, !filter_In; tauto.
Qed.
Lemma matching_perm f l k : l ≡ₚ k → NoDup (app_key <$> l) → matching f l = matching f k.
Proof.
  intros Hp Hd. unfold matching. apply SliceStable_canonical; [apply _|by apply matching_set_perm|].
  intros x y Hx Hy E1 E2. apply (list_less_total (F_sort f)) in E1 as [En Em]; [|done].
  assert (Hin : ∀ z, z ∈ searchApps (filterApps l (F_status f) (F_group f)) (F_search f) → z ∈ l).
  { intros z Hz. apply (matching_elem f). unfold matching. by rewrite SliceStable_perm. }
  apply (NoDup_fmap_inj app_key l); auto. unfold app_key. congruence.
Qed.

Lemma page_at_perm user stale f l k p : fits (length l) → l ≡ₚ k → NoDup (app_key <$> l) →
  page_at user stale f l p = page_at user stale f k p.
Proof.
  intros Hf Hp Hd. unfold page_at. assert (Hf' : fits (length k)) by (by rewrite <-Hp).
  rewrite (matching_perm f l k), (groupChips_perm l k), !statusFacets_counts by done.
  rewrite (Permutation_length Hp). f_equal. unfold class_count. f_equal.
  apply map_ext. intros hc. by rewrite (Permutation_length (filter_perm (of_class hc) _ _ Hp)).
Qed.
End perm.

Lemma page_count_fits n m : fits n → (m <= n)%nat → page_count m ≤ i64_max.
Proof.
  unfold fits, page_count, pageSize. intros Hf Hm.
  pose proof (Z.div_le_upper_bound (Z.of_nat m + 49) 50 i64_max). unfold i64_max in *. lia.
Qed.

(** ** What the page promises *)
Section claims.
Context `{GoRuntime}.

(** C26: bounds of the list page: whatever the query says, the page is rendered
    without an out-of-range slice; the page number lies between 1 and the last page,
    at most [pageSize] Apps are shown, and none only when none matches. *)
Theorem list_page_bounds user stale q apps :
  fits (length apps) →
  ∃ d, list_page user stale q apps = Val d ∧
    1 ≤ LD_Page d ≤ LD_TotalPages d ∧
    Z.of_nat (length (LD_Apps d)) ≤ pageSize ∧
    (LD_Apps d = [] ↔ LD_Matched d = 0) ∧
    LD_Matched d ≤ LD_Total d ∧ LD_Total d = Z.of_nat (length apps).
Proof.
  intros Hf. rewrite list_page_at by done. eexists. split; [done|].
  set (f := read_filters q). set (l := matching f apps).
  pose proof (matching_length f apps) as Hl. fold l in Hl. cbn [page_at LD_Page LD_TotalPages LD_Apps LD_Matched LD_Total].
  fold l. unfold asked_page.
  assert (1 ≤ page_count (length l)) by (unfold page_count; lia).
  split_and!; [lia|lia|..|lia|done].
  - unfold chunk. rewrite length_take. unfold pageSize. lia.
  - rewrite <-length_zero_iff_nil. unfold chunk. rewrite length_take, length_drop.
    set (p := Z.min _ _). assert (Hp : 1 ≤ p ≤ page_count (length l)) by lia.
    unfold page_count in Hp. split; [|lia]. intros Hz.
    destruct (decide (p = 1)) as [->|Hp1]; [lia|].
    assert (p ≤ (Z.of_nat (length l) + 49) / 50) by lia.
    pose proof (Z.mul_div_le (Z.of_nat (length l) + 49) 50). lia.
Qed.

(** Most broken first: the matching Apps are ordered by health rank unless the plain
    order was asked for, and within it by namespace. *)
Lemma most_broken_first f apps : F_sort f = "" →
  StronglySorted (λ x y, HealthRank x ≤ HealthRank y ∧
    (HealthRank x = HealthRank y → str_less (VA_Namespace y) (VA_Namespace x) = false)) (matching f apps).
Proof.
  intros Hs. unfold matching. eapply StronglySorted_impl, SliceStable_sorted; [|apply _].
  intros x y. unfold not_after. rewrite Hs, list_less_lex. unfold lex, by_key. cbn [String.eqb].
  destruct (Z.ltb_spec (HealthRank y) (HealthRank x)); [done|].
  destruct (Z.ltb_spec (HealthRank x) (HealthRank y)); [intros _; split; lia|].
  destruct (str_less (VA_Namespace y) (VA_Namespace x)); [done|]. intros _. split; [lia|done].
Qed.

(** C27: paging loses and repeats nothing: the rows of the pages 1 … last, one after the
    other, are the matching Apps in their order. *)
Theorem pages_cover_matches user stale q apps :
  fits (length apps) →
  concat ((λ p, match list_page user stale (Set_ q "page" (Itoa p)) apps with
                | Val d => LD_Apps d | Panic => [] end)
          <$> seqZ 1 (page_count (length (matching (read_filters q) apps)))) =
  matching (read_filters q) apps.
Proof.
  intros Hf. set (l := matching (read_filters q) apps).
  rewrite <-(chunks_all l) at 2. f_equal. unfold seqZ. rewrite <-list_fmap_compose.
  apply list_fmap_ext. intros i k [-> Hk]%lookup_seq. cbn [compose].
  rewrite list_page_at, read_filters_page by done. cbn [page_at LD_Apps].
  fold l. f_equal. unfold asked_page. rewrite Get_Set. cbn [String.eqb Ascii.eqb Bool.eqb].
  pose proof (page_count_fits _ _ Hf (matching_length (read_filters q) apps)) as Hl. fold l in Hl.
  unfold parse_int_ok. rewrite ParseInt_Itoa by (unfold in_i64, i64_min in *; lia).
  cbn [default from_option id]. lia.
Qed.

(** The page does not depend on the order in which the cache lists the Apps. *)
Theorem list_page_cache_order user stale q l k :
  fits (length l) → l ≡ₚ k → NoDup (app_key <$> l) →
  list_page user stale q l = list_page user stale q k.
Proof.
  intros Hf Hp Hd. rewrite !list_page_at by (by rewrite <-?Hp).
  rewrite (matching_perm _ l k) by done. f_equal. by apply page_at_perm.
Qed.

(** ** Following a link *)
Lemma list_page_listURL user stale f apps : fits (length apps) → normal f →
  list_page user stale (link_query (listURL (F_status f) (F_group f) (F_search f) (F_sort f))) apps =
  Val (page_at user stale f apps 1).
Proof.
  intros Hf Hn. rewrite link_query_listURL, list_page_at, read_filters_link by done.
  unfold asked_page. rewrite Get_filter_values. cbn [String.eqb Ascii.eqb Bool.eqb].
  replace (Z.min _ _) with 1; [done|]. change (parse_int_ok "") with (@None Z). cbn. unfold page_count. lia.
Qed.
Lemma list_page_pageURL user stale f apps p : fits (length apps) → normal f →
  1 ≤ p ≤ page_count (length (matching f apps)) →
  list_page user stale (link_query (pageURL (F_status f) (F_group f) (F_search f) (F_sort f) (i64 p))) apps =
  Val (page_at user stale f apps p).
Proof.
  intros Hf Hn Hp. rewrite link_query_pageURL, list_page_at, read_filters_page, read_filters_link by done.
  unfold asked_page. rewrite Get_Set. cbn [String.eqb Ascii.eqb Bool.eqb].
  unfold parse_int_ok. rewrite ParseInt_Itoa by apply i64_in_range.
  pose proof (page_count_fits _ _ Hf (matching_length f apps)).
  cbn [default from_option id]. rewrite i64_id by (unfold in_i64, i64_min, i64_max in *; lia).
  by replace (Z.min _ _) with p by lia.
Qed.

Definition same_search (d d' : listData) : Prop :=
  LD_Status d' = LD_Status d ∧ LD_Group d' = LD_Group d ∧ LD_Search d' = LD_Search d ∧
  LD_Sort d' = LD_Sort d ∧ LD_Matched d' = LD_Matched d ∧ LD_TotalPages d' = LD_TotalPages d.

(** The pager's links mean what they say: following Next (Prev) where it is
    offered leads to the following (preceding) page of the same search. *)
Theorem pager_links user stale q apps d :
  fits (length apps) → list_page user stale q apps = Val d →
  (LD_HasNext d = true → ∃ d', list_page user stale (link_query (LD_NextURL d)) apps = Val d' ∧
     LD_Page d' = LD_Page d + 1 ∧ same_search d d') ∧
  (LD_HasPrev d = true → ∃ d', list_page user stale (link_query (LD_PrevURL d)) apps = Val d' ∧
     LD_Page d' = LD_Page d - 1 ∧ same_search d d').
Proof.
  intros Hf. rewrite list_page_at by done. intros [= <-].
  set (f := read_filters q). set (p := asked_page _ _). pose proof (read_filters_normal q : normal f).
  cbn [page_at LD_HasNext LD_HasPrev LD_NextURL LD_PrevURL LD_Page].
  assert (1 ≤ p ≤ page_count (length (matching f apps))) by (unfold p, asked_page, page_count; lia).
  split; intros Hp; breflect; rewrite list_page_pageURL by (done || lia); eexists; by repeat split.
Qed.

Lemma matching_class f apps : F_group f = "" → F_search f = "" →
  Z.of_nat (length (matching f apps)) =
  if String.eqb (F_status f) "" then Z.of_nat (length apps) else class_count (F_status f) apps.
Proof.
  intros Hg Hs. unfold matching. rewrite SliceStable_perm, Hg, Hs. unfold searchApps, filterApps, class_count.
  cbn [String.eqb]. destruct (String.eqb (F_status f) ""); cbn [negb andb].
  - induction apps as [|a l IH]; [done|]. cbn in *. lia.
  - do 2 f_equal. apply List.filter_ext. intros a. unfold of_class. by destruct (String.eqb (HealthClass a) (F_status f)).
Qed.

(** The status chips keep their promise: a chip's link selects its status and keeps
    group, search and order; and where no group or search is active the page it leads to
    matches as many Apps as the chip counted. *)
Theorem facet_links user stale q apps d fc :
  fits (length apps) → list_page user stale q apps = Val d → fc ∈ LD_StatusFacets d →
  ∃ d', list_page user stale (link_query (SF_URL fc)) apps = Val d' ∧
    LD_Status d' = SF_Value fc ∧ LD_Group d' = LD_Group d ∧ LD_Search d' = LD_Search d ∧
    LD_Sort d' = LD_Sort d ∧
    (LD_Group d = "" → LD_Search d = "" → LD_Matched d' = SF_Count fc).
Proof.
  intros Hf. rewrite list_page_at by done. intros [= <-].
  set (f := read_filters q). pose proof (read_filters_normal q : normal f) as Hn.
  cbn [page_at LD_StatusFacets LD_Group LD_Search LD_Sort]. rewrite statusFacets_counts by done.
  intros Hfc. assert (∃ s, (s = "" ∨ validHealthClass s = true) ∧ SF_Value fc = s ∧
    SF_URL fc = listURL s (F_group f) (F_search f) (F_sort f) ∧
    SF_Count fc = if String.eqb s "" then Z.of_nat (length apps) else class_count s apps)
    as (s & Hs & -> & -> & ->).
  { apply elem_of_cons in Hfc as [->|(hc & -> & Hc)%list_elem_of_fmap]; [exists ""; auto|].
    exists hc. split; [right; by apply validHealthClass_iff|]. split_and!; try done.
    revert Hc. unfold healthClasses. rewrite !elem_of_cons. intros [->|[->|[->|[->|[->|[]%elem_of_nil]]]]]; done. }
  set (f' := MkFilters s (F_group f) (F_search f) (F_sort f)).
  assert (Hn' : normal f') by (destruct Hn as (_ & ? & ?); done).
  rewrite (list_page_listURL user stale f') by done. eexists. split; [done|]. split_and!; try done.
  intros Hg Ht. cbn [page_at LD_Matched]. by rewrite matching_class.
Qed.
End claims.
