(* ===== verification/ConsoleCalls.v ===== *)
(** What the web console asks of the world, and the interfaces between its packages.

    [ccall] are the requests of the console process; [cprog] are programs over them.
    The Go interfaces of the console (AppPatcher, PodReader, PodMetricser, LokiTailer)
    are records of operations; the classes say what the server relies on. *)
From Stdlib Require Import ZArith Ascii String.
From stdpp Require Import base gmap strings list numbers sorting.
From S2P Require Import Prelude GoStd GoNum BuildSpec AppTypes Kube Free Unstructured View GoUrl.

Open Scope string_scope.
Open Scope list_scope.
Open Scope Z_scope.

(** The GET request sent to Loki. *)
Record http_request := MkRequest {
  rq_URL : string; rq_RawQuery : string; rq_Header : gmap string string;
}.

Inductive ccall : Type → Type :=
(* the clock, the informer and the API server *)
| CNow : ccall Z
| LastWatchErr : ccall Z
| HasSynced : ccall bool
| ListCache : ccall (result (list (option umap)))
| GetObject (namespace name : string) : ccall (result umap)
| MergePatch (namespace name body : string) : ccall (result unit)
| GetCorePod (namespace name : string) : ccall (result Pod)
| OpenLogStream (namespace pod container : string) (tail : option Z) : ccall (result unit)
| ReadLogStream : ccall (result string)
| GetNodeSummary (node : string) : ccall (result string)
(* Loki *)
| ParseRequestURL (url : string) : ccall (result Values)
| HttpDo (req : http_request) : ccall (result Z)
| ReadResponseBody : ccall (result string)
(* the error carrier of the request *)
| AttachError (msg : string) (err : error) : ccall unit.

Notation cprog := (free ccall).

(** ** The interfaces of the server *)
(* Go: console/internal/k8s/metrics.go ContainerUsage *)
Record ContainerUsage := MkUsage { CU_MemoryBytes : Z }.

(* Go: console/internal/k8s/client.go AppPatcher *)
Record AppPatcher := MkAppPatcher {
  ap_List : cprog (result (list View.App));
  ap_Get : string → string → cprog (result umap);
  ap_RequestRebuild : string → string → string → cprog (result unit);
  ap_RequestCleanupCache : string → string → string → cprog (result unit);
  ap_RequestCleanupReleases : string → string → string → cprog (result unit);
  ap_Synced : cprog bool;
  ap_Stale : cprog bool;
}.
(* Go: console/internal/server/server.go PodReader *)
Record PodReader := MkPodReader {
  pr_GetPod : string → string → cprog (result Pod);
  pr_PodLogTail : string → string → string → Z → cprog (result (list string));
}.
(* Go: console/internal/server/server.go LokiTailer *)
Record LokiTailer := MkLokiTailer {
  lt_Configured : bool;
  lt_Tail : string → string → string → Z → Z → Z → cprog (result (list string));
}.
(* Go: console/internal/k8s/metrics.go PodMetricser *)
Record PodMetricser := MkPodMetricser {
  pm_PodMetrics : string → string → string → cprog (result (gmap string ContainerUsage));
}.

(** ** Effects *)
(** A call that changes nothing in the cluster. *)
Definition reads (R : Type) (c : ccall R) : Prop :=
  match c with MergePatch _ _ _ => False | _ => True end.
(** A call that changes nothing but the object [ns/name], by a patch in [bodies]. *)
Definition patches (ns name : string) (bodies : string → Prop) (R : Type) (c : ccall R) : Prop :=
  match c with MergePatch ns' name' b => ns' = ns ∧ name' = name ∧ bodies b | _ => True end.

(** What the server relies on: reading is reading. *)
Class ReadOnlyApps (a : AppPatcher) : Prop := {
  list_reads : calls reads (ap_List a);
  get_reads ns name : calls reads (ap_Get a ns name);
  synced_reads : calls reads (ap_Synced a);
  stale_reads : calls reads (ap_Stale a);
}.
Class ReadOnlyPods (p : PodReader) : Prop := {
  getpod_reads ns name : calls reads (pr_GetPod p ns name);
  logtail_reads ns pod c n : calls reads (pr_PodLogTail p ns pod c n);
}.
Class ReadOnlyTailer (t : LokiTailer) : Prop := {
  tail_reads ns pod c s e n : calls reads (lt_Tail t ns pod c s e n);
}.
Class ReadOnlyMetrics (m : PodMetricser) : Prop := {
  metrics_reads node ns pod : calls reads (pm_PodMetrics m node ns pod);
}.
