(* ===== verification/ConsoleClient.v ===== *)
(** console/internal/k8s: client.go and metrics.go, the console's Kubernetes client.

    [k8s_client] is the Client as the server sees it: reads from the informer cache,
    single reads and the three annotation patches against the API server, pod logs
    and kubelet statistics. *)
From Stdlib Require Import ZArith Ascii String SpecFloat.
From stdpp Require Import base gmap strings list numbers sorting.
From S2P Require Import Prelude GoStd GoNum GoTime Images RepoHost BuildSpec AppTypes Kube Free JsonDecode Unstructured Humanize View ViewMap JsonPrint GoUrl ConsoleCalls.

Open Scope string_scope.
Open Scope list_scope.
Open Scope Z_scope.

(** ** Staleness of the cache *)
(* Go: console/internal/k8s/client.go staleWindow *)
Definition staleWindow : Z := 60 * Second.
(* Go: console/internal/k8s/client.go recentWatchErr *)
Definition recentWatchErr (last now : Z) : bool :=
  if IsZero last then false else Sub now last <? staleWindow.

(** ** Patch bodies *)
Section patch.
Context `{GoRuntime}.
(* Go: console/internal/k8s/client.go rebuildPatch *)
Definition rebuildPatch (user : string) (now : Z) : string :=
  quoted "{'metadata':{'annotations':{" +:+
  Quote AnnotationRebuildRequestedAt +:+ ":" +:+ Quote (FormatRFC3339 now) +:+ "," +:+
  Quote AnnotationRebuildBy +:+ ":" +:+ Quote user +:+ "," +:+
  Quote AnnotationRebuildCommit +:+ ":null}}}".
(* Go: console/internal/k8s/client.go cleanupPatch *)
Definition cleanupPatch (requestedAtKey byKey user : string) (now : Z) : string :=
  quoted "{'metadata':{'annotations':{" +:+
  Quote requestedAtKey +:+ ":" +:+ Quote (FormatRFC3339 now) +:+ "," +:+
  Quote byKey +:+ ":" +:+ Quote user +:+ "}}}".
End patch.

(** ** Kubelet statistics *)
(* Go: console/internal/k8s/metrics.go clampInt64 *)
Definition clampInt64 (v : Z) : Z := if i64_max <? v then i64_max else v.

(** statsSummary: the fields the console decodes. *)
Record stats_container := MkStatsContainer { sc_name : string; sc_working : option Z }.
Record stats_pod := MkStatsPod { sp_name : string; sp_namespace : string; sp_containers : gslice stats_container }.
#[export] Instance eta_stats_container : Eta stats_container := λ x, MkStatsContainer (sc_name x) (sc_working x).
#[export] Instance eta_stats_pod : Eta stats_pod := λ x, MkStatsPod (sp_name x) (sp_namespace x) (sp_containers x).
(* Go: console/internal/k8s/metrics.go statsSummary *)
Definition into_summary `{GoRuntime} (v : jval) : option (gslice stats_pod) :=
  into_struct ["pods"] (λ _ v s, into_slice (MkStatsPod "" "" ([], 0%nat)) (λ v p,
    into_struct ["podRef"; "containers"] (λ f v p,
      if String.eqb f "podRef" then
        into_struct ["name"; "namespace"] (λ f v p,
          if String.eqb f "name" then x ← into_string (sp_name p) v; Some (p <| sp_name := x |>)
          else x ← into_string (sp_namespace p) v; Some (p <| sp_namespace := x |>)) v p
      else cs ← into_slice (MkStatsContainer "" None) (λ v c,
          into_struct ["name"; "memory"] (λ f v c,
            if String.eqb f "name" then x ← into_string (sc_name c) v; Some (c <| sc_name := x |>)
            else into_struct ["workingSetBytes"] (λ _ v c,
                   x ← into_uint_ptr v; Some (c <| sc_working := x |>)) v c) v c) v (sp_containers p);
        Some (p <| sp_containers := cs |>)) v p) v s) v ([], 0%nat).

(** The map of one pod: later entries of a repeated name win. *)
Definition usage_of (c : stats_container) : ContainerUsage :=
  MkUsage (match sc_working c with Some w => clampInt64 w | None => 0 end).
Definition usages (cs : list stats_container) : gmap string ContainerUsage :=
  foldl (λ m c, if String.eqb (sc_name c) "" then m else <[sc_name c := usage_of c]> m) ∅ cs.
(** The text of the decoder's error is not modelled. *)
(* Go: console/internal/k8s/metrics.go projectPodUsage *)
Definition projectPodUsage `{GoRuntime} (raw namespace pod : string) : result (gmap string ContainerUsage) :=
  match json_parse raw ≫= into_summary with
  | None => Err (wrapf "decode kubelet stats summary: " (errorf "invalid JSON"))
  | Some pods =>
      match List.find (λ p, String.eqb (sp_name p) pod && String.eqb (sp_namespace p) namespace) (elems pods) with
      | Some p => Ok (usages (elems (sp_containers p)))
      | None => Err (errorf ("pod " +:+ namespace +:+ "/" +:+ pod +:+ " not in kubelet stats summary"))
      end
  end.

(** ** The client *)
(** [strings.Split(raw, "\n")] less one trailing empty line. *)
(* Go: console/internal/k8s/client.go PodLogTail @380-385 *)
Definition log_lines (raw : string) : list string :=
  let lines := SplitByte raw (chr 10) in
  match reverse lines with
  | last :: rest => if String.eqb last "" then reverse rest else lines
  | [] => lines
  end.

Definition errNoClientset : error := errorf "k8s: no typed clientset configured".
(** [fmt.Errorf("<text>: %w", err)] around a failed call. *)
Definition wrapping {A} (text : string) (p : cprog (result A)) : cprog (result A) :=
  r ← p; mret (match r with Ok x => Ok x | Err e => Err (wrapf (text +:+ ": ") e) end).

Section client.
Context `{GoRuntime} `{MapOrder} `{KubeLib} `{CronNext} `{FloatLib} `{UnstructuredLib}.

(** Mapping an object reads the clock for its next scheduled build. *)
Definition view_object (o : umap) : cprog View.App := now ← do CNow; mret (FromUnstructured now o).
Fixpoint view_objects (objs : list (option umap)) : cprog (list View.App) :=
  match objs with
  | [] => mret []
  | None :: objs' => view_objects objs'
  | Some o :: objs' => a ← view_object o; l ← view_objects objs'; mret (a :: l)
  end.
(* Go: console/internal/k8s/client.go List *)
Definition List_ : cprog (result (list View.App)) :=
  objs ←? wrapping "list apps from cache" (do ListCache);
  apps ← view_objects objs; mret (Ok apps).
(* Go: console/internal/k8s/client.go Get *)
Definition Get_ (namespace name : string) : cprog (result umap) :=
  wrapping ("get app " +:+ namespace +:+ "/" +:+ name) (do (GetObject namespace name)).
(* Go: console/internal/k8s/client.go Synced *)
Definition Synced : cprog bool := do HasSynced.
(* Go: console/internal/k8s/client.go Stale *)
Definition Stale : cprog bool :=
  last ← do LastWatchErr; now ← do CNow; mret (recentWatchErr last now).
(* Go: console/internal/k8s/client.go RequestRebuild *)
Definition RequestRebuild (namespace name user : string) : cprog (result unit) :=
  now ← do CNow;
  wrapping ("patch rebuild annotation on " +:+ namespace +:+ "/" +:+ name)
    (do (MergePatch namespace name (rebuildPatch user now))).
(* Go: console/internal/k8s/client.go RequestCleanupCache *)
Definition RequestCleanupCache (namespace name user : string) : cprog (result unit) :=
  now ← do CNow;
  wrapping ("patch cleanup-cache annotation on " +:+ namespace +:+ "/" +:+ name)
    (do (MergePatch namespace name
      (cleanupPatch AnnotationCleanupCacheRequestedAt AnnotationCleanupCacheBy user now))).
(* Go: console/internal/k8s/client.go RequestCleanupReleases *)
Definition RequestCleanupReleases (namespace name user : string) : cprog (result unit) :=
  now ← do CNow;
  wrapping ("patch cleanup-releases annotation on " +:+ namespace +:+ "/" +:+ name)
    (do (MergePatch namespace name
      (cleanupPatch AnnotationCleanupReleasesRequestedAt AnnotationCleanupReleasesBy user now))).

(** [clientset] is false for a Client built without the typed client. *)
Context (clientset : bool).
(* Go: console/internal/k8s/client.go GetPod *)
Definition GetPod (namespace name : string) : cprog (result Pod) :=
  if negb clientset then mret (Err errNoClientset)
  else wrapping ("get pod " +:+ namespace +:+ "/" +:+ name) (do (GetCorePod namespace name)).
(* Go: console/internal/k8s/client.go PodLogTail *)
Definition PodLogTail (namespace pod container : string) (tail : Z) : cprog (result (list string)) :=
  if negb clientset then mret (Err errNoClientset)
  else
    let at_ := namespace +:+ "/" +:+ pod +:+ "[" +:+ container +:+ "]" in
    wrapping ("stream logs " +:+ at_)
      (do (OpenLogStream namespace pod container (if 0 <? tail then Some tail else None))) ;?
    raw ←? wrapping ("read logs " +:+ at_) (do ReadLogStream);
    mret (Ok (log_lines raw)).
(* Go: console/internal/k8s/metrics.go PodMetrics *)
Definition PodMetrics (node namespace pod : string) : cprog (result (gmap string ContainerUsage)) :=
  if negb clientset then mret (Err errNoClientset)
  else if String.eqb node "" then
    mret (Err (errorf ("pod " +:+ namespace +:+ "/" +:+ pod +:+ " has no node yet (unscheduled)")))
  else raw ←? wrapping ("kubelet stats summary for node " +:+ node) (do (GetNodeSummary node));
       lift (projectPodUsage raw namespace pod).

(* Go: console/internal/k8s/client.go Client *)
Definition k8s_apps : AppPatcher :=
  MkAppPatcher List_ Get_ RequestRebuild RequestCleanupCache RequestCleanupReleases Synced Stale.
Definition k8s_pods : PodReader := MkPodReader GetPod PodLogTail.
Definition k8s_metrics : PodMetricser := MkPodMetricser PodMetrics.
End client.

(** ** Reads only read *)
Section effects.
Context `{GoRuntime} `{MapOrder} `{KubeLib} `{CronNext} `{FloatLib} `{UnstructuredLib}.

Lemma calls_wrapping {A} P text (p : cprog (result A)) : calls P p → calls P (wrapping text p).
Proof. intros Hp. apply calls_bind; [done|]. intros. apply calls_ret. Qed.
Lemma calls_view_objects objs : calls reads (view_objects objs).
Proof.
  induction objs as [|[o|] objs IH]; [done| |done]. cbn [view_objects].
  apply calls_bind; [by split|]. intros a. apply calls_bind; [done|]. intros. apply calls_ret.
Qed.

#[global] Instance k8s_apps_reads : ReadOnlyApps k8s_apps.
Proof.
  split; intros; cbn [k8s_apps ap_List ap_Get ap_Synced ap_Stale].
  - apply calls_try; [by apply calls_wrapping, calls_do|]. intros objs.
    apply calls_bind; [apply calls_view_objects|]. intros. apply calls_ret.
  - by apply calls_wrapping, calls_do.
  - by apply calls_do.
  - by repeat split.
Qed.
#[global] Instance k8s_pods_reads clientset : ReadOnlyPods (k8s_pods clientset).
Proof.
  split; intros; cbn [k8s_pods pr_GetPod pr_PodLogTail]; unfold GetPod, PodLogTail; (destruct clientset; cbn [negb]; [|done]).
  - by apply calls_wrapping, calls_do.
  - apply calls_try; [by apply calls_wrapping, calls_do|]. intros _.
    apply calls_try; [by apply calls_wrapping, calls_do|]. intros. apply calls_ret.
Qed.
#[global] Instance k8s_metrics_reads clientset : ReadOnlyMetrics (k8s_metrics clientset).
Proof.
  split. intros. cbn [k8s_metrics pm_PodMetrics]. unfold PodMetrics. destruct clientset; cbn [negb]; [|done].
  case_match; [done|]. apply calls_try; [by apply calls_wrapping, calls_do|]. done.
Qed.
End effects.

(** ** Staleness *)
(** The cache counts as stale for exactly a minute after the last watch error. *)
Lemma recentWatchErr_spec last now :
  recentWatchErr last now = true ↔ last ≠ zero_time ∧ now < last + 60 * Second.
Proof.
  unfold recentWatchErr, IsZero, Sub, staleWindow, Second, i64_min, i64_max.
  destruct (Z.eqb_spec last zero_time); [naive_solver|]. rewrite Z.ltb_lt. split; [|intros []]; lia.
Qed.

(** ** Log lines *)
Lemma SplitByte_nonempty c s : SplitByte s c ≠ [].
Proof. destruct s as [|d s]; cbn; [done|]. destruct (Ascii.eqb c d), (SplitByte s c); done. Qed.
Lemma Join_SplitByte c s : Join (SplitByte s c) (s1 c) = s.
Proof.
  induction s as [|d s IH]; [done|]. cbn [SplitByte]. destruct (Ascii.eqb_spec c d) as [<-|Hc].
  - destruct (SplitByte s c) as [|w ws] eqn:E; [by apply SplitByte_nonempty in E|].
    change (Join ("" :: w :: ws) (s1 c)) with (String c (Join (w :: ws) (s1 c))). by rewrite IH.
  - destruct (SplitByte s c) as [|w ws]; [by rewrite <-IH|]. rewrite <-IH.
    destruct ws; cbn [Join]; by rewrite ?str_app_cons.
Qed.
Lemma Join_snoc l x sep : l ≠ [] → Join (l ++ [x]) sep = Join l sep +:+ sep +:+ x.
Proof.
  induction l as [|a l IH]; [done|]. intros _. destruct l as [|b l]; [done|].
  change (Join ((a :: b :: l) ++ [x]) sep) with (a +:+ sep +:+ Join ((b :: l) ++ [x]) sep).
  rewrite IH by done. cbn [Join]. by rewrite !str_app_assoc.
Qed.
(** The lines of the log pane are the log: joined by newlines they give the text back,
    but for the newline that ends it. *)
Lemma log_lines_text raw :
  let text := Join (log_lines raw) (s1 (chr 10)) in
  text = raw ∨ text +:+ s1 (chr 10) = raw ∨ (raw = "" ∧ log_lines raw = []).
Proof.
  cbv zeta. pose proof (Join_SplitByte (chr 10) raw) as Hj. unfold log_lines.
  destruct (SplitByte raw (chr 10)) as [|w ws _] eqn:E using rev_ind; [by left|].
  rewrite reverse_snoc. destruct (String.eqb_spec w "") as [->|]; [|by left].
  rewrite reverse_involutive. destruct ws as [|v ws]; [right; right; done|].
  rewrite Join_snoc in Hj by done. rewrite str_app_nil_r in Hj. auto.
Qed.

(** ** Usage samples *)
Section usage.
Context `{GoRuntime}.

Lemma into_fields_inv {T} (P : T → Prop) fields set l x y :
  (∀ f v x y, P x → set f v x = Some y → P y) → P x → into_fields fields set l x = Some y → P y.
Proof.
  intros Hset. revert x. induction l as [|[k v] l IH]; intros x Hx; cbn; [congruence|].
  destruct (field_of fields k) as [f|]; [|by apply IH].
  destruct (set f v x) as [x'|] eqn:E; [|done]. cbn. apply IH. by eapply Hset.
Qed.
Lemma into_struct_inv {T} (P : T → Prop) fields set v x y :
  (∀ f v x y, P x → set f v x = Some y → P y) → P x → into_struct fields set v x = Some y → P y.
Proof. intros Hset Hx. destruct v; cbn; try congruence. by apply into_fields_inv. Qed.
Lemma into_elems_inv {T} (P : T → Prop) zero dec l b b' :
  P zero → (∀ v x y, P x → dec v x = Some y → P y) → Forall P b →
  into_elems zero dec l b = Some b' → Forall P b'.
Proof.
  intros Hz Hd. revert b b'. induction l as [|v l IH]; intros b b' Hb; cbn; [by intros [= <-]|].
  destruct (dec v _) as [y|] eqn:Ey; [|done]. cbn. destruct (into_elems _ _ l _) as [ys|] eqn:Es; [|done].
  intros [= <-]. constructor.
  - eapply Hd, Ey. by destruct Hb.
  - eapply IH, Es. by destruct Hb.
Qed.
Lemma into_slice_inv {T} (P : T → Prop) zero dec v (s s' : gslice T) :
  P zero → (∀ v x y, P x → dec v x = Some y → P y) → Forall P s.1 →
  into_slice zero dec v s = Some s' → Forall P s'.1.
Proof.
  intros Hz Hd Hs. destruct v as [| | | |[|v l]|]; cbn [into_slice]; try done; try (by intros [= <-]).
  destruct (into_elems zero dec (v :: l) s.1) as [b|] eqn:E; [|done]. intros [= <-]. cbn.
  by eapply into_elems_inv.
Qed.

Lemma parse_digits_range acc s n : 0 ≤ acc → parse_digits acc s = (n, None) → 0 ≤ n.
Proof.
  revert acc. induction s as [|c s IH]; intros acc Ha; cbn; [by intros [= <-]|].
  destruct (digit c) as [d|] eqn:Ed; [|done].
  assert (0 ≤ d). { unfold digit in Ed. case_match; [|done]. simplify_eq. unfold between in *. breflect. lia. }
  repeat case_match; try done. apply IH. lia.
Qed.
Lemma into_uint_ptr_range v x n : into_uint_ptr v = Some x → x = Some n → 0 ≤ n.
Proof.
  intros Hv ->. destruct v; try done. cbn in Hv. unfold ParseUint in Hv. repeat case_match; simplify_eq.
  eapply parse_digits_range; [|done]. lia.
Qed.

Definition sample_ok (c : stats_container) : Prop := ∀ n, sc_working c = Some n → 0 ≤ n.
Lemma into_summary_ok v pods : into_summary v = Some pods → Forall (λ p, Forall sample_ok (sp_containers p).1) pods.1.
Proof.
  apply (into_struct_inv (λ pods : gslice stats_pod, Forall (λ p, Forall sample_ok (sp_containers p).1) pods.1)); [|done].
  intros _ v1 s s' Hs. apply into_slice_inv; [done| |done]. intros v2 p p' Hp.
  apply (into_struct_inv (λ p : stats_pod, Forall sample_ok (sp_containers p).1)); [|done].
  intros f v3 q q' Hq. destruct (String.eqb f "podRef").
  - apply (into_struct_inv (λ p : stats_pod, Forall sample_ok (sp_containers p).1)); [|done].
    intros g v4 r r' Hr. destruct (String.eqb g "name"); destruct (into_string _ v4); cbn; try done; by intros [= <-].
  - destruct (into_slice _ _ v3 _) as [cs|] eqn:E; [|done]. cbn. intros [= <-]. cbn.
    eapply into_slice_inv in E; [exact E|done| |done]. clear E. intros v4 c c' Hc.
    apply (into_struct_inv sample_ok); [|done]. intros g v5 r r' Hr. destruct (String.eqb g "name").
    + destruct (into_string _ v5); cbn; [|done]. by intros [= <-].
    + apply (into_struct_inv sample_ok); [|done]. intros _ v6 t t' _.
      destruct (into_uint_ptr v6) as [x|] eqn:Ex; [|done]. cbn. intros [= <-] n. cbn. by eapply into_uint_ptr_range.
Qed.

(** Whatever the kubelet answers, a usage sample is a non-negative int64. *)
Theorem projectPodUsage_bounds raw namespace pod m name u :
  projectPodUsage raw namespace pod = Ok m → m !! name = Some u → 0 ≤ CU_MemoryBytes u ≤ i64_max.
Proof.
  unfold projectPodUsage. destruct (json_parse raw ≫= into_summary) as [pods|] eqn:E; [|done].
  destruct (List.find _ _) as [p|] eqn:Ef; [|done]. intros [= <-].
  assert (Hp : Forall sample_ok (elems (sp_containers p))).
  { apply find_some_elem in Ef as [Hp _]. destruct (json_parse raw) as [v|]; [|done]. cbn in E.
    apply into_summary_ok in E. rewrite Forall_forall in E. unfold elems in Hp.
    apply Forall_take, E. by eapply elem_of_take in Hp as (? & Hp%list_elem_of_lookup_2 & _). }
  unfold usages. assert (H0 : map_Forall (λ _ u, 0 ≤ CU_MemoryBytes u ≤ i64_max) (∅ : gmap string ContainerUsage))
    by apply map_Forall_empty. revert H0. generalize (∅ : gmap string ContainerUsage).
  induction Hp as [|c cs Hc Hcs IH]; intros m0 H0 Hl; cbn in Hl; [by apply (H0 name)|].
  eapply IH, Hl. destruct (String.eqb (sc_name c) ""); [done|]. apply map_Forall_insert_2; [|done].
  unfold usage_of, clampInt64. cbn. destruct (sc_working c) as [n|] eqn:En; [|unfold i64_max; lia].
  specialize (Hc n En). destruct (Z.ltb_spec i64_max n); unfold i64_max in *; lia.
Qed.
End usage.
