(* ===== verification/ClientProc.v ===== *)
(** console/internal/k8s/client.go: how a Client is built, warmed, marked stale and closed,
    with its goroutines.

    A goroutine is a program over [gcall]: channels, the mutex, the [sync.Once], the
    informer factory.  [perform] says what a call does to the shared state and when it
    blocks (it has no answer then), [crashes] when it panics; [step] interleaves any
    number of goroutines with what happens around them (the cache fills, an informer
    goroutine notices the closed channel, a deadline passes, the watch fails). *)
From Stdlib Require Import ZArith Ascii String Morphisms.
From stdpp Require Import base gmap strings list numbers sorting relations.
From S2P Require Import Prelude GoStd GoNum GoTime AppTypes Kube Free ConsoleClient.

Open Scope string_scope.
Open Scope list_scope.
Open Scope Z_scope.
Open Scope go_scope.

(** ** Calls *)
(** A channel that is only ever closed, by its index in the shared state; a handle on an
    object of client-go. *)
Notation chan := nat (only parsing).
Notation handle := nat (only parsing).
Record GroupVersionResource := MkGVR { Group : string; Version : string; Resource : string }.
#[global] Instance GroupVersionResource_eq_dec : EqDecision GroupVersionResource.
Proof. solve_decision. Defined.
(* Go: console/internal/k8s/client.go GVR @48-54 *)
Definition GVR : GroupVersionResource := MkGVR "baker.toggle-corp.com" "v1alpha1" "apps".
(* Go: console/internal/k8s/client.go testCacheSyncTimeout @39-39 *)
Definition testCacheSyncTimeout : Z := 5 * Second.

Inductive gcall : Type → Type :=
(* channels, contexts, the mutex and the once of a Client *)
| MakeChan : gcall chan
| CloseChan (ch : chan) : gcall unit
| Select (chs : list chan) : gcall unit
| WithTimeout (d : Z) : gcall chan
| Cancel (ch : chan) : gcall unit
| GoFanIn (stopCh stop fanDone done : chan) : gcall unit
| LockWatchMu : gcall unit
| UnlockWatchMu : gcall unit
| EnterOnce : gcall bool
| LeaveOnce : gcall unit
| ReadLastWatchErr : gcall Z
| WriteLastWatchErr (t : Z) : gcall unit
| ViewNow : gcall Z
| Printf (text : string) : gcall unit
(* the informer factory *)
| NewDynamicSharedInformerFactory (dyn : handle) (resync : Z) : gcall unit
| Informer (gvr : GroupVersionResource) : gcall unit
| SetWatchErrorHandler : gcall (result unit)
| StartFactory (stop : chan) : gcall unit
| WaitForCacheSync (done : chan) : gcall (GroupVersionResource → bool)
| Shutdown : gcall unit
(* the connection *)
| InClusterConfig : gcall (result handle)
| HomeDir : gcall string
| BuildConfigFromFlags (path : string) : gcall (result handle)
| NewDynamicForConfig (cfg : handle) : gcall (result handle)
| NewClientsetForConfig (cfg : handle) : gcall (result handle).
Notation gprog := (free gcall).

(** ** Paths *)
(** [filepath.Clean] on a Unix path, and [filepath.Join]. *)
Definition clean_element (rooted : bool) (out : list string) (e : string) : list string :=
  if String.eqb e "" || String.eqb e "." then out
  else if String.eqb e ".." then
    match out with
    | top :: out' => if String.eqb top ".." then ".." :: out else out'
    | [] => if rooted then [] else [".."]
    end
  else e :: out.
Definition filepath_Clean (p : string) : string :=
  let rooted := HasPrefix p "/" in
  let out := foldl (clean_element rooted) [] (SplitByte p "/"%char) in
  let text := (if rooted then "/" else "") +:+ Join (reverse out) "/" in
  if String.eqb text "" then "." else text.
Definition filepath_Join (l : list string) : string :=
  match filter (λ e, e ≠ "") l with [] => "" | l' => filepath_Clean (Join l' "/") end.
Example kubeconfig_paths :
  map (λ home, filepath_Join [home; ".kube"; "config"]) ["/home/dev"; ""; "/root/./x/../"; "/.."]
  = ["/home/dev/.kube/config"; ".kube/config"; "/root/.kube/config"; "/.kube/config"].
Proof. vm_compute. reflexivity. Qed.

(** ** The code *)
(** The mutex, the once and the time of the last watch error are shared state. *)
(* Go: console/internal/k8s/client.go Client *)
Record Client := MkClient { c_dyn : handle; c_clientset : option handle; c_stop : chan }.

(* Go: console/internal/k8s/client.go newWithInformer *)
Definition newWithInformer (dyn : handle) : gprog Client :=
  do (NewDynamicSharedInformerFactory dyn 0);;
  do (Informer GVR);;
  stop ← do MakeChan;
  do SetWatchErrorHandler;;
  do (StartFactory stop);;
  mret (MkClient dyn None stop).
(* Go: console/internal/k8s/client.go recordWatchErr *)
Definition recordWatchErr : gprog unit :=
  do LockWatchMu;; now ← do ViewNow; do (WriteLastWatchErr now);; do UnlockWatchMu.
(** The handler [newWithInformer] installs. *)
(* Go: console/internal/k8s/client.go newWithInformer @175-178 *)
Definition watchErrorHandler (err : string) : gprog unit :=
  recordWatchErr;; do (Printf ("k8s: app informer watch error: " +:+ err)).
(* Go: console/internal/k8s/client.go Stale *)
Definition Stale_ : gprog bool :=
  do LockWatchMu;; last ← do ReadLastWatchErr; do UnlockWatchMu;;
  now ← do ViewNow; mret (recentWatchErr last now).
(** The goroutine of [waitForSync]. *)
(* Go: console/internal/k8s/client.go waitForSync @232-239 *)
Definition fanIn (stopCh stop fanDone done : chan) : gprog unit :=
  do (Select [stopCh; stop; fanDone]);; do (CloseChan done).
(* Go: console/internal/k8s/client.go waitForSync *)
Definition waitForSync (c : Client) (stopCh : chan) : gprog bool :=
  done ← do MakeChan;
  fanDone ← do MakeChan;
  do (GoFanIn stopCh (c_stop c) fanDone done);;
  synced ← do (WaitForCacheSync done);
  do (CloseChan fanDone);;
  mret (synced GVR).
(** What [NewWithDynamic] does with the Client it has built. *)
(* Go: console/internal/k8s/client.go NewWithDynamic @147-153 *)
Definition warmUp (c : Client) : gprog bool :=
  ctx ← do (WithTimeout testCacheSyncTimeout);
  synced ← waitForSync c ctx;
  (if negb synced then
     do (Printf ("k8s: NewWithDynamic informer cache did not sync within 5s " +:+
       "(miswired fake? check listKind/GVR); serving from an empty cache"))
   else mret tt);;
  do (Cancel ctx);;
  mret synced.
(* Go: console/internal/k8s/client.go NewWithDynamic *)
Definition NewWithDynamic (dyn : handle) : gprog Client :=
  c ← newWithInformer dyn; warmUp c;; mret c.
(** [EnterOnce] answers true to the one caller that runs the function. *)
(* Go: console/internal/k8s/client.go Close *)
Definition Close (c : Client) : gprog unit :=
  first ← do EnterOnce;
  if first : bool then do (CloseChan (c_stop c));; do Shutdown;; do LeaveOnce
  else mret tt.
(* Go: console/internal/k8s/client.go restConfig *)
Definition restConfig `{GoRuntime} : gprog (result handle) :=
  r ← do InClusterConfig;
  match r with
  | Ok cfg => mret (Ok cfg)
  | Err _ =>
      home ← do HomeDir;
      let kubeconfig := filepath_Join [home; ".kube"; "config"] in
      r ← do (BuildConfigFromFlags kubeconfig);
      mret (match r with
            | Ok cfg => Ok cfg
            | Err e => Err (wrapf ("no in-cluster config and kubeconfig " +:+ Quote kubeconfig +:+ " failed: ") e)
            end)
  end.
(** [fmt.Errorf("<text>: %w", err)] around a failed call. *)
Definition wrapped {A} (text : string) (p : gprog (result A)) : gprog (result A) :=
  r ← p; mret (match r with Ok x => Ok x | Err e => Err (wrapf (text +:+ ": ") e) end).
(* Go: console/internal/k8s/client.go New *)
Definition New `{GoRuntime} : gprog (result Client) :=
  cfg ←? restConfig;
  dyn ←? wrapped "build dynamic client" (do (NewDynamicForConfig cfg));
  cs ←? wrapped "build clientset" (do (NewClientsetForConfig cfg));
  c ← newWithInformer dyn;
  mret (Ok (MkClient (c_dyn c) (Some cs) (c_stop c))).

(** ** The shared state *)
Inductive once_state := NotYet | Running | Finished.
Record gstate := MkState {
  g_closed : list bool;          (* the channels made so far, and whether each is closed *)
  g_timers : list chan;          (* those that belong to a context with a deadline *)
  g_mu : bool; g_once : once_state; g_last : Z;
  g_requested : bool;            (* the factory has an informer for the Apps *)
  g_handler : bool;              (* that informer has the watch-error handler *)
  g_informers : nat;             (* informer goroutines that run *)
  g_wired : option chan;         (* the channel that stops them *)
  g_synced : bool; g_shutdowns : nat;
}.
#[global] Instance gstate_eta : Eta gstate := λ x, MkState (g_closed x) (g_timers x) (g_mu x) (g_once x) (g_last x)
  (g_requested x) (g_handler x) (g_informers x) (g_wired x) (g_synced x) (g_shutdowns x).
Definition no_client : gstate := MkState [] [] false NotYet zero_time false false 0 None false 0.
Definition is_closed (s : gstate) (ch : chan) : bool := default false (g_closed s !! ch).

(** A goroutine that a call starts. *)
Inductive goroutine := FanIn (stopCh stop fanDone done : chan) | WatchError (err : string).

(** [perform s c r s' new]: in state [s] the call [c] can answer [r], leaving [s'] and
    starting [new].  What client-go and the clock answer is left open, except for what is
    documented: [SetWatchErrorHandler] fails on a started informer, [Start] starts the
    requested informers, [WaitForCacheSync] returns when the caches are filled or the
    channel is closed, [Shutdown] when the informer goroutines have ended. *)
Definition perform (s : gstate) R (c : gcall R) : R → gstate → list goroutine → Prop :=
  match c in gcall R return R → gstate → list goroutine → Prop with
  | MakeChan => λ r s' new,
      r = length (g_closed s) ∧ s' = s <| g_closed := g_closed s ++ [false] |> ∧ new = []
  | CloseChan ch => λ _ s' new,
      g_closed s !! ch = Some false ∧ s' = s <| g_closed := <[ch := true]> (g_closed s) |> ∧ new = []
  | Select chs => λ _ s' new, (∃ ch, ch ∈ chs ∧ is_closed s ch = true) ∧ s' = s ∧ new = []
  | WithTimeout _ => λ r s' new,
      r = length (g_closed s) ∧
      s' = s <| g_closed := g_closed s ++ [false] |> <| g_timers := r :: g_timers s |> ∧ new = []
  | Cancel ch => λ _ s' new, s' = s <| g_closed := <[ch := true]> (g_closed s) |> ∧ new = []
  | GoFanIn stopCh stop fanDone done => λ _ s' new, s' = s ∧ new = [FanIn stopCh stop fanDone done]
  | LockWatchMu => λ _ s' new, g_mu s = false ∧ s' = s <| g_mu := true |> ∧ new = []
  | UnlockWatchMu => λ _ s' new, g_mu s = true ∧ s' = s <| g_mu := false |> ∧ new = []
  | EnterOnce => λ r s' new,
      (g_once s = NotYet ∧ r = true ∧ s' = s <| g_once := Running |> ∨
       g_once s = Finished ∧ r = false ∧ s' = s) ∧ new = []
  | LeaveOnce => λ _ s' new, s' = s <| g_once := Finished |> ∧ new = []
  | ReadLastWatchErr => λ r s' new, r = g_last s ∧ s' = s ∧ new = []
  | WriteLastWatchErr t => λ _ s' new, s' = s <| g_last := t |> ∧ new = []
  | Informer gvr => λ _ s' new,
      s' = s <| g_requested := g_requested s || bool_decide (gvr = GVR) |> ∧ new = []
  | SetWatchErrorHandler => λ r s' new,
      new = [] ∧ (match g_wired s with
                  | None => r = Ok tt ∧ s' = s <| g_handler := true |>
                  | Some _ => is_ok r = false ∧ s' = s
                  end)
  | StartFactory stop => λ _ s' new,
      s' = s <| g_informers := if g_requested s then 1%nat else 0%nat |> <| g_wired := Some stop |> ∧ new = []
  | WaitForCacheSync done => λ r s' new,
      (g_synced s = true ∧ (∀ gvr, r gvr = bool_decide (gvr = GVR)) ∨
       is_closed s done = true ∧ (∀ gvr, r gvr = false)) ∧ s' = s ∧ new = []
  | Shutdown => λ _ s' new,
      g_informers s = 0%nat ∧ s' = s <| g_shutdowns := S (g_shutdowns s) |> ∧ new = []
  | ViewNow | Printf _ | NewDynamicSharedInformerFactory _ _ | InClusterConfig | HomeDir
  | BuildConfigFromFlags _ | NewDynamicForConfig _ | NewClientsetForConfig _ => λ _ s' new, s' = s ∧ new = []
  end.
(** Closing a closed (or nil) channel panics; unlocking an unlocked mutex is fatal. *)
Definition crashes (s : gstate) R (c : gcall R) : bool :=
  match c with
  | CloseChan ch => bool_decide (g_closed s !! ch ≠ Some false)
  | UnlockWatchMu => negb (g_mu s)
  | _ => false
  end.

(** One goroutine on its own, as when a Client is built. *)
Inductive alone {A} : gstate → gprog A → gstate → A → Prop :=
| alone_ret s a : alone s (mret a) s a
| alone_call {R} s s' s'' (c : gcall R) k r a :
    perform s R c r s' [] → alone s' (k r) s'' a → alone s (Call _ c k) s'' a.

(** ** Interleaving *)
(** What a goroutine of the program came to. *)
Inductive answer := Closed | IsStale (b : bool) | Warm (synced : bool) | Ended.
Notation thread := (gprog answer).
Definition body (g : goroutine) : thread :=
  match g with
  | FanIn stopCh stop fanDone done => fanIn stopCh stop fanDone done;; mret Ended
  | WatchError err => watchErrorHandler err;; mret Ended
  end.
(** The operations of a Client, each in a goroutine of its own. *)
Inductive operation (c : Client) : thread → Prop :=
| op_close : operation c (Close c;; mret Closed)
| op_stale : operation c (b ← Stale_; mret (IsStale b))
| op_warm : operation c (b ← warmUp c; mret (Warm b))
| op_watch err : operation c (body (WatchError err)).

(** What happens around the goroutines. *)
Inductive happens (s : gstate) : gstate → Prop :=
| cache_filled : g_informers s ≠ 0%nat → g_synced s = false → happens s (s <| g_synced := true |>)
| informer_ends ch n : g_wired s = Some ch → is_closed s ch = true → g_informers s = S n →
    happens s (s <| g_informers := n |>)
| deadline_passes ch : ch ∈ g_timers s → g_closed s !! ch = Some false →
    happens s (s <| g_closed := <[ch := true]> (g_closed s) |>).

Inductive config := Up (s : gstate) (threads : list thread) | Crashed.
(** [step w]: [w] is true when the watch fails and the informer calls the handler. *)
Inductive step : bool → config → config → Prop :=
| step_call {R} s s' (c : gcall R) k r new l1 l2 :
    perform s R c r s' new →
    step false (Up s (l1 ++ Call _ c k :: l2)) (Up s' (l1 ++ k r :: (body <$> new) ++ l2))
| step_crash {R} s (c : gcall R) k l1 l2 : crashes s R c = true →
    step false (Up s (l1 ++ Call _ c k :: l2)) Crashed
| step_happens s s' l : happens s s' → step false (Up s l) (Up s' l)
| step_watch s l err : g_handler s = true → g_informers s ≠ 0%nat →
    step true (Up s l) (Up s (body (WatchError err) :: l)).
(** [steps n w a b]: [n] steps from [a] to [b], [w] of them failures of the watch. *)
Inductive steps : nat → nat → config → config → Prop :=
| steps_refl a : steps 0 0 a a
| steps_next b n w a1 a2 a3 : step b a1 a2 → steps n w a2 a3 → steps (S n) (if b then S w else w) a1 a3.

(** ** The protocol of a goroutine *)
(** Where a goroutine is in its protocol: what it holds, which channels it has yet to
    close, what it has learnt.  [t], [d] and [f] are the deadline, [done] and [fanDone]. *)
Inductive role :=
| Idle | Holding | Entered | Stopped | ShutDown | HasClosed
| Timed (t : chan) | Made1 (t d : chan) | Made2 (t d f : chan) | Waiting (t d f : chan)
| Waited (t f : chan) (b : bool) | Warming (t : chan) (b : bool) | Warmed (b : bool)
| Selecting (t d f : chan) | Releasing (d : chan).

Section protocol.
Context (stop : chan).

Definition protocol : monitor role := λ x R c,
  match c in gcall R return R → option role with
  | MakeChan => λ ch, match x with Timed t => Some (Made1 t ch) | Made1 t d => Some (Made2 t d ch) | _ => None end
  | CloseChan ch => λ _,
      match x with
      | Entered => if bool_decide (ch = stop) then Some Stopped else None
      | Waited t f b => if bool_decide (ch = f) then Some (Warming t b) else None
      | Releasing d => if bool_decide (ch = d) then Some Idle else None
      | _ => None
      end
  | Select chs => λ _,
      match x with
      | Selecting t d f => if bool_decide (chs = [t; stop; f]) then Some (Releasing d) else None
      | _ => None
      end
  | WithTimeout _ => λ t, match x with Idle => Some (Timed t) | _ => None end
  | Cancel ch => λ _,
      match x with Warming t b => if bool_decide (ch = t) then Some (Warmed b) else None | _ => None end
  | GoFanIn t' stop' f' d' => λ _,
      match x with
      | Made2 t d f => if bool_decide ((t', stop', f', d') = (t, stop, f, d)) then Some (Waiting t d f) else None
      | _ => None
      end
  | LockWatchMu => λ _, match x with Idle => Some Holding | _ => None end
  | UnlockWatchMu => λ _, match x with Holding => Some Idle | _ => None end
  | EnterOnce => λ r, match x with Idle => Some (if r : bool then Entered else HasClosed) | _ => None end
  | LeaveOnce => λ _, match x with ShutDown => Some HasClosed | _ => None end
  | Shutdown => λ _, match x with Stopped => Some ShutDown | _ => None end
  | ReadLastWatchErr => λ _, match x with Holding => Some Holding | _ => None end
  | WriteLastWatchErr _ => λ _, match x with Holding => Some Holding | _ => None end
  | ViewNow => λ _, match x with Idle | Holding => Some x | _ => None end
  | Printf _ => λ _, match x with Idle | Warming _ _ => Some x | _ => None end
  | WaitForCacheSync d' => λ r,
      match x with
      | Waiting t d f => if bool_decide (d' = d) then Some (Waited t f (r GVR)) else None
      | _ => None
      end
  | _ => λ _, None
  end.
Definition at_end (x : role) (a : answer) : Prop :=
  match a with
  | Closed => x = HasClosed | Warm b => x = Warmed b | IsStale _ | Ended => x = Idle
  end.
Definition conforms (p : thread) (x : role) : Prop := wp protocol p x at_end.
Definition start (g : goroutine) : role :=
  match g with FanIn t _ f d => Selecting t d f | WatchError _ => Idle end.
Definition begins (g : goroutine) : Prop :=
  match g with FanIn _ stop' _ _ => stop' = stop | WatchError _ => True end.

Lemma operation_conforms c p : c_stop c = stop → operation c p → conforms p Idle.
Proof.
  intros Hc Hop. destruct Hop; unfold conforms; cbn; try done.
  - rewrite Hc. intros []; cbn; [|done]. rewrite bool_decide_eq_true_2; done.
  - intros t d f. rewrite Hc, bool_decide_eq_true_2 by done. cbn. intros _ r.
    rewrite bool_decide_eq_true_2 by done. cbn. rewrite bool_decide_eq_true_2 by done. intros _.
    destruct (r GVR); cbn; intros; by rewrite bool_decide_eq_true_2.
Qed.
Lemma body_conforms g : begins g → conforms (body g) (start g).
Proof.
  destruct g; unfold conforms; cbn; [|done]. intros -> _. rewrite bool_decide_eq_true_2 by done.
  cbn. intros _. by rewrite bool_decide_eq_true_2.
Qed.

(** ** Coherence of the roles with the shared state *)
(** The channels a goroutine alone may close, those it closes to let another one go on,
    the one it waits for, its deadline; its share of the mutex and of the once. *)
Definition owned (x : role) : list chan :=
  match x with
  | Made1 _ d | Selecting _ d _ | Releasing d => [d]
  | Made2 _ d f => [d; f]
  | Waiting _ _ f | Waited _ f _ => [f]
  | _ => []
  end.
Definition dones (x : role) : list chan :=
  match x with Selecting _ d _ | Releasing d => [d] | _ => [] end.
Definition waits (x : role) : list chan := match x with Waiting _ d _ => [d] | _ => [] end.
Definition timer (x : role) : list chan :=
  match x with
  | Timed t | Made1 t _ | Made2 t _ _ | Waiting t _ _ | Waited t _ _ | Warming t _ | Selecting t _ _ => [t]
  | _ => []
  end.
Definition holds (x : role) : list unit := match x with Holding => [tt] | _ => [] end.
Inductive once_phase := BeforeClose | AfterClose | AfterShutdown.
Definition onces (x : role) : list once_phase :=
  match x with Entered => [BeforeClose] | Stopped => [AfterClose] | ShutDown => [AfterShutdown] | _ => [] end.
(** What a goroutine has learnt stays true. *)
Definition learnt (s : gstate) (x : role) : Prop :=
  match x with
  | HasClosed => g_once s = Finished
  | Waited _ _ b | Warming _ b | Warmed b => b = true → g_synced s = true
  | _ => True
  end.
(** The channel is open until the once runs; when the once is over, it is closed and no
    informer runs. *)
Definition once_ok (s : gstate) (os : list once_phase) : Prop :=
  let opened := g_closed s !! stop = Some false ∧ g_shutdowns s = 0%nat in
  let stopped := g_closed s !! stop = Some true ∧ g_shutdowns s = 0%nat in
  let over := g_closed s !! stop = Some true ∧ g_informers s = 0%nat ∧ g_shutdowns s = 1%nat in
  match g_once s with
  | NotYet => os = [] ∧ opened
  | Finished => os = [] ∧ over
  | Running => (os = [BeforeClose] ∧ opened) ∨ (os = [AfterClose] ∧ stopped) ∨ (os = [AfterShutdown] ∧ over)
  end.

Record coherent (s : gstate) (xs : list role) : Prop := {
  co_wired : g_wired s = Some stop;
  co_owned : NoDup (xs ≫= owned);
  co_open ch : ch ∈ xs ≫= owned → g_closed s !! ch = Some false ∧ ch ≠ stop ∧ ch ∉ g_timers s;
  co_timer t : t ∈ xs ≫= timer → t ∈ g_timers s;
  co_timers t : t ∈ g_timers s → is_Some (g_closed s !! t) ∧ t ≠ stop;
  co_holds : xs ≫= holds = if g_mu s then [tt] else [];
  co_once : once_ok s (xs ≫= onces);
  co_waits d : d ∈ xs ≫= waits → is_closed s d = true ∨ d ∈ xs ≫= dones;
  co_learnt : Forall (learnt s) xs;
}.

#[global] Instance coherent_proper s : Proper ((≡ₚ) ==> iff) (coherent s).
Proof.
  assert (Hp : ∀ xs ys, xs ≡ₚ ys → coherent s xs → coherent s ys); [|intros xs ys Hxy; split; by apply Hp].
  intros xs ys Hxy [H1 H2 H3 H4 H5 H6 H7 H8 H9].
  assert (Hb : ∀ B (f : role → list B), xs ≫= f ≡ₚ ys ≫= f) by (intros; by rewrite Hxy).
  split; [done| by rewrite <-Hb | intros ch; rewrite <-Hb; auto | intros t; rewrite <-Hb; auto | done | | |
    intros d; rewrite <-!Hb; auto | by rewrite <-Hxy].
  - pose proof (Hb _ holds) as E. rewrite H6 in E. destruct (g_mu s);
      [by apply Permutation_singleton_l in E | by apply Permutation_nil_l in E].
  - pose proof (Hb _ onces) as E. revert H7. unfold once_ok. destruct (g_once s).
    1, 3: intros [Eo ?]; split; [|done]; rewrite Eo in E; by apply Permutation_nil_l in E.
    intros [[Eo ?]|[[Eo ?]|[Eo ?]]]; rewrite Eo in E; apply Permutation_singleton_l in E; auto.
Qed.

Ltac by_parts := split; cbn [mbind list_bind app fmap list_fmap].
(** Another role with the same channels and shares. *)
Lemma coherent_role s x y xs : coherent s (x :: xs) →
  owned y = owned x → dones x ⊆ dones y → waits y ⊆ waits x → timer y ⊆ g_timers s →
  holds y = holds x → onces y = onces x → learnt s y → coherent s (y :: xs).
Proof.
  intros [H1 H2 H3 H4 H5 H6 H7 H8 H9] Eo Ed Ew Et Eh En El.
  apply Forall_cons in H9 as [_ H9]. cbn [mbind list_bind] in *.
  by_parts; rewrite ?Eo, ?Eh, ?En; auto.
  - intros t [Ht|Ht]%elem_of_app; [auto|]. apply H4, elem_of_app. by right.
  - intros d Hd. destruct (H8 d) as [|Hd']; [|by left|].
    + apply elem_of_app in Hd as [Hd|Hd]; apply elem_of_app; auto.
    + right. apply elem_of_app in Hd' as [Hd'|Hd']; apply elem_of_app; auto.
Qed.
(** A channel is made. *)
Lemma coherent_grow s xs : coherent s xs →
  coherent (s <| g_closed := g_closed s ++ [false] |>) xs ∧
  length (g_closed s) ∉ xs ≫= owned ∧ length (g_closed s) ∉ g_timers s ∧ length (g_closed s) ≠ stop.
Proof.
  intros [H1 H2 H3 H4 H5 H6 H7 H8 H9].
  assert (Hnone : g_closed s !! length (g_closed s) = None) by by apply lookup_ge_None.
  assert (Hold : ∀ ch b, g_closed s !! ch = Some b → (g_closed s ++ [false]) !! ch = Some b)
    by (intros; by apply lookup_app_l_Some).
  assert (Hstop : is_Some (g_closed s !! stop)).
  { revert H7. unfold once_ok. destruct (g_once s); naive_solver. }
  split_and!.
  - split; try done; cbn.
    + intros ch Hch. destruct (H3 _ Hch) as (? & ? & ?). auto.
    + intros t Ht. destruct (H5 _ Ht) as ([b ?] & ?). split; [exists b; auto|done].
    + revert H7. unfold once_ok. cbn. destruct (g_once s); naive_solver.
    + intros d Hd. destruct (H8 _ Hd) as [Hc|]; [left|by right]. unfold is_closed in *. cbn.
      destruct (g_closed s !! d) as [b|] eqn:Ed; [|done]. by rewrite (Hold _ _ Ed).
  - intros Hin. apply H3 in Hin. naive_solver.
  - intros Hin. apply H5 in Hin as [[? ?] ?]. naive_solver.
  - intros E. rewrite <-E in Hstop. destruct Hstop. naive_solver.
Qed.
(** It belongs to the goroutine that made it, or to a deadline. *)
Lemma coherent_own s x y ch xs : coherent s (x :: xs) →
  ch ∉ (x :: xs) ≫= owned → ch ∉ g_timers s → ch ≠ stop → g_closed s !! ch = Some false →
  owned y = owned x ++ [ch] → dones y = dones x → waits y = waits x → timer y = timer x →
  holds y = holds x → onces y = onces x → learnt s y → coherent s (y :: xs).
Proof.
  intros [H1 H2 H3 H4 H5 H6 H7 H8 H9] Hn Ht Hs Ho Eo Ed Ew Et Eh En El.
  apply Forall_cons in H9 as [_ H9]. cbn [mbind list_bind] in *.
  by_parts; rewrite ?Eo, ?Ed, ?Ew, ?Et, ?Eh, ?En, <-?app_assoc; auto.
  - rewrite (Permutation_app_comm [ch]), app_assoc. apply NoDup_app. split_and!; [done|set_solver|by apply NoDup_singleton].
  - intros ch'. rewrite !elem_of_app, list_elem_of_singleton. intros [?|[->|?]]; [|done|];
      apply H3, elem_of_app; auto.
Qed.
Lemma coherent_timer s ch xs : coherent s xs →
  ch ∉ xs ≫= owned → ch ≠ stop → g_closed s !! ch = Some false → coherent (s <| g_timers := ch :: g_timers s |>) xs.
Proof.
  intros [H1 H2 H3 H4 H5 H6 H7 H8 H9] Hn Hs Ho. split; try done; cbn.
  - intros ch' Hch. specialize (H3 ch' Hch). set_solver.
  - intros t Ht. specialize (H4 t Ht). set_solver.
  - intros t [->|Ht]%elem_of_cons; [by rewrite Ho|auto].
Qed.
(** A channel is closed: one of a deadline, or the one of the goroutine that closes it. *)
Lemma is_closed_close s ch d : is_closed s d = true → is_closed (s <| g_closed := <[ch := true]> (g_closed s) |>) d = true.
Proof.
  unfold is_closed. cbn. intros Hd. destruct (g_closed s !! d) as [b|] eqn:Ed; [|done]. cbn in Hd. subst b.
  destruct (decide (ch = d)) as [->|]; [|by rewrite list_lookup_insert_ne, Ed].
  rewrite list_lookup_insert_eq; [done|]. by apply lookup_lt_Some in Ed.
Qed.
Lemma coherent_close s x y ch xs : coherent s (x :: xs) → ch ≠ stop →
  ch ∉ xs ≫= owned → is_Some (g_closed s !! ch) →
  owned y = [] → dones x ⊆ [ch] → waits y = [] → timer y ⊆ g_timers s → holds y = holds x → onces y = onces x → learnt s y →
  coherent (s <| g_closed := <[ch := true]> (g_closed s) |>) (y :: xs).
Proof.
  intros [H1 H2 H3 H4 H5 H6 H7 H8 H9] Hs Hn Ho Eo Ed Ew Et Eh En El.
  apply Forall_cons in H9 as [_ H9]. cbn [mbind list_bind] in *.
  by_parts; rewrite ?Eo, ?Ew, ?Eh, ?En; cbn [app]; try done.
  - by apply NoDup_app in H2 as (_ & _ & ?).
  - intros ch' Hch. cbn. destruct (H3 ch' ltac:(set_solver)) as (? & ? & ?).
    rewrite list_lookup_insert_ne; [done|]. by intros ->.
  - intros t. specialize (H4 t). set_solver.
  - intros t Ht. cbn in *. destruct (H5 _ Ht) as [? ?]. split; [|done].
    destruct (decide (ch = t)) as [->|]; [|by rewrite list_lookup_insert_ne].
    rewrite list_lookup_insert_eq; [done|]. by apply lookup_lt_is_Some.
  - revert H7. unfold once_ok. cbn. rewrite list_lookup_insert_ne by done. done.
  - intros d Hd. destruct (H8 d ltac:(set_solver)) as [Hc|Hc]; [left; by apply is_closed_close|].
    apply elem_of_app in Hc as [Hc|Hc]; [|set_solver]. left. apply Ed, list_elem_of_singleton in Hc as ->.
    unfold is_closed. cbn. rewrite list_lookup_insert_eq; [done|]. by apply lookup_lt_is_Some.
  - constructor; [by destruct y|]. eapply Forall_impl; [exact H9|]. by intros [].
Qed.

(** The mutex and the once. *)
Lemma coherent_mu s x y xs b : coherent s (x :: xs) → g_mu s = negb b → (x, y) = (if b then (Idle, Holding) else (Holding, Idle)) →
  coherent (s <| g_mu := b |>) (y :: xs).
Proof.
  intros [H1 H2 H3 H4 H5 H6 H7 H8 H9] Hm Exy. apply Forall_cons in H9 as [_ H9].
  assert (Hf : Forall (learnt (s <| g_mu := b |>)) xs) by (eapply Forall_impl; [exact H9|by intros []]).
  cbn [mbind list_bind] in H6. rewrite Hm in H6.
  destruct b; injection Exy as -> ->; by_parts; try done.
  - cbn in *. by rewrite H6.
  - by constructor.
  - cbn in *. by injection H6.
  - by constructor.
Qed.
Lemma coherent_once s x y xs s' : coherent s (x :: xs) →
  owned x = [] → owned y = [] → dones x = [] → waits y = [] → timer y = [] → holds x = [] → holds y = [] →
  (g_closed s' = g_closed s ∨ g_closed s' = <[stop := true]> (g_closed s)) →
  g_timers s' = g_timers s → g_mu s' = g_mu s → g_wired s' = g_wired s → g_synced s' = g_synced s →
  (g_once s = Finished → g_once s' = Finished) →
  once_ok s' (onces y ++ (xs ≫= onces)) → learnt s' y → coherent s' (y :: xs).
Proof.
  intros [H1 H2 H3 H4 H5 H6 H7 H8 H9] Ox Oy Dx Wy Ty Hx Hy Ec Et Em Ew Es Eo Hok Hl.
  apply Forall_cons in H9 as [_ H9]. cbn [mbind list_bind] in *. rewrite ?Ox, ?Dx, ?Hx in *. cbn [app] in *.
  assert (Hgrow : ∀ ch, is_Some (g_closed s !! ch) → ch ≠ stop → g_closed s' !! ch = g_closed s !! ch).
  { intros ch _ Hne. destruct Ec as [->| ->]; [done|by rewrite list_lookup_insert_ne]. }
  by_parts; rewrite ?Oy, ?Wy, ?Ty, ?Hy, ?Em, ?Et; cbn [app]; try done.
  - congruence.
  - intros ch Hch. destruct (H3 _ Hch) as (? & ? & ?). rewrite Hgrow; naive_solver.
  - intros t Ht. apply H4. set_solver.
  - intros t Ht. destruct (H5 _ Ht) as [? ?]. by rewrite Hgrow.
  - intros d Hd. destruct (H8 d ltac:(set_solver)) as [Hc|Hc]; [left|right; set_solver].
    destruct Ec as [E|E]; [unfold is_closed in *; by rewrite E|].
    pose proof (is_closed_close s stop d Hc) as Hc'. unfold is_closed in *. cbn in Hc'. by rewrite E.
  - constructor; [done|]. eapply Forall_impl; [exact H9|]. intros []; cbn; rewrite ?Es; auto.
Qed.

(** The channel a goroutine owns is not the Client's, and nobody else's. *)
Lemma coherent_mine s x xs ch : coherent s (x :: xs) → ch ∈ owned x →
  ch ≠ stop ∧ ch ∉ xs ≫= owned ∧ g_closed s !! ch = Some false.
Proof.
  intros [_ H2 H3 _ _ _ _ _ _] Hin. cbn [mbind list_bind] in *.
  destruct (H3 ch) as (? & ? & ?); [apply elem_of_app; by left|].
  apply NoDup_app in H2 as (_ & Hd & _). auto.
Qed.
Lemma coherent_fan s t d f xs : coherent s (Made2 t d f :: xs) → coherent s (Waiting t d f :: Selecting t d f :: xs).
Proof.
  intros [H1 H2 H3 H4 H5 H6 H7 H8 H9]. apply Forall_cons in H9 as [_ H9]. cbn [mbind list_bind app] in *.
  by_parts; cbn [owned dones waits timer holds onces app] in *; try done.
  - by rewrite Permutation_swap.
  - intros ch Hch. apply H3. set_solver.
  - intros t'. specialize (H4 t'). set_solver.
  - intros d' Hd. apply elem_of_cons in Hd as [->|Hd]; [right; set_solver|].
    destruct (H8 d' Hd) as [|]; [by left|right; apply elem_of_cons; by right].
  - by repeat constructor.
Qed.

(** A call that follows the protocol keeps the roles coherent. *)
Lemma coherent_call {R} (c : gcall R) s s' r new x y xs :
  coherent s (x :: xs) → protocol x R c r = Some y → perform s R c r s' new →
  coherent s' (y :: (start <$> new) ++ xs) ∧ Forall begins new.
Proof.
  intros Hco Hp Hs. destruct c; cbn in Hp; try discriminate Hp; destruct x; try discriminate Hp;
    repeat case_bool_decide; simplify_eq; cbn in Hs; destruct_and?; simplify_eq;
    (split; [|by repeat constructor]); cbn [fmap list_fmap app]; try done.
  1, 2: apply coherent_grow in Hco as (Hco & Hn & Ht & Hst); (eapply coherent_own; [exact Hco|done|done|done|..]); try done;
    cbn; by rewrite lookup_app_r, Nat.sub_diag.
  all: pose proof (co_once _ _ Hco) as Ho; pose proof (co_learnt _ _ Hco) as Hl; apply Forall_cons in Hl as [Hl _];
    pose proof (co_timer _ _ Hco) as Ht; pose proof (λ ch, coherent_mine s _ xs ch Hco) as Hmine.
  - eapply coherent_once; try done; [by right|]. revert Ho. unfold once_ok. cbn. destruct (g_once s); [naive_solver| |naive_solver].
    intros [[E [? ?]]|[[E _]|[E _]]]; [|done..]. right. left. injection E as ->.
    rewrite list_lookup_insert_eq; [done|]. by eapply lookup_lt_Some.
  - destruct (Hmine f) as (? & ? & ?); [set_solver|]. eapply coherent_close; try done; intros ch Hch; [set_solver|].
    apply Ht. cbn in *. set_solver.
  - destruct (Hmine d) as (? & ? & ?); [set_solver|].
    eapply coherent_close; try done; set_solver.
  - eapply coherent_role; try done; set_solver.
  - apply coherent_grow in Hco as (Hco & Hn & Htn & Hst). eapply (coherent_role _ Idle);
      [apply (coherent_timer _ _ _ Hco Hn Hst); cbn; by rewrite lookup_app_r, Nat.sub_diag|..]; try done; cbn; set_solver.
  - assert (Hin : t ∈ g_timers s) by (apply Ht; set_solver). destruct (co_timers _ _ Hco _ Hin) as [? ?].
    eapply coherent_close; try done; [|set_solver..]. intros Hi. by apply (co_open _ _ Hco) in Hi as (_ & _ & ?).
  - by apply coherent_fan.
  - by eapply coherent_mu.
  - by eapply coherent_mu.
  - match goal with H : _ ∨ _ |- _ => destruct H as [(Eo & -> & ->)|(Eo & -> & ->)] end; [|eapply coherent_role; try done; set_solver].
    eapply coherent_once; try done; [by left|by rewrite Eo|]. revert Ho. unfold once_ok. rewrite Eo. cbn. intros [-> ?]. by left.
  - eapply coherent_once; try done; [by left|]. revert Ho. unfold once_ok. cbn. destruct (g_once s); [naive_solver| |naive_solver].
    intros [[E _]|[[E _]|[E ?]]]; [done..|]. by injection E as ->.
  - destruct Hco as [H1 H2 H3 H4 H5 H6 H7 H8 H9]. by split.
  - eapply coherent_role; try done; [set_solver| |]; [intros t' Ht'; apply Ht; cbn in *; set_solver|].
    match goal with H : _ ∨ _ |- _ => destruct H as [[Hsy _]|[_ Hr]] end; cbn; [done|by rewrite Hr].
  - eapply coherent_once; try done; [by left|]. revert Ho. unfold once_ok. cbn. destruct (g_once s); [naive_solver| |naive_solver].
    intros [[E _]|[[E [? ?]]|[E _]]]; [done| |done]. right. right. injection E as ->. by split_and!; [|..|congruence].
Qed.

(** What happens around the goroutines keeps them coherent too. *)
Lemma coherent_idle s xs : coherent s xs ↔ coherent s (Idle :: xs).
Proof.
  split; intros [H1 H2 H3 H4 H5 H6 H7 H8 H9]; split; try done; [by constructor|].
  by apply Forall_cons in H9 as [_ ?].
Qed.
Lemma coherent_happens s s' xs : happens s s' → coherent s xs → coherent s' xs.
Proof.
  intros Hh Hco. destruct Hh as [|ch n Hw Hc Hi|ch Hin Hc].
  - destruct Hco as [H1 H2 H3 H4 H5 H6 H7 H8 H9]. split; try done. eapply Forall_impl; [exact H9|by intros []].
  - destruct Hco as [H1 H2 H3 H4 H5 H6 H7 H8 H9]. split; try done.
    revert H7. unfold once_ok. cbn. rewrite Hi. destruct (g_once s); naive_solver.
  - apply coherent_idle. destruct (co_timers _ _ Hco _ Hin) as [? ?]. pose proof (co_open _ _ Hco ch).
    apply coherent_idle in Hco. eapply coherent_close; try done; set_solver.
Qed.

(** ** Safety *)
Definition sound (a : config) : Prop :=
  match a with Up s l => ∃ xs, coherent s xs ∧ Forall2 conforms l xs | Crashed => False end.
Lemma conforms_call {R} (c : gcall R) k x r : conforms (Call _ c k) x →
  ∃ y, protocol x R c r = Some y ∧ conforms (k r) y.
Proof. intros Hw. specialize (Hw r). destruct (protocol x R c r) as [y|]; [by exists y|done]. Qed.
Lemma no_crash {R} (c : gcall R) k s x xs : coherent s (x :: xs) → conforms (Call _ c k) x → crashes s R c = false.
Proof.
  intros Hco Hw. destruct c; try done; destruct (conforms_call _ _ _ tt Hw) as (y & Hp & _); cbn in Hp.
  - apply bool_decide_eq_false_2. intros Hne. apply Hne.
    destruct x; try discriminate Hp; case_bool_decide; simplify_eq.
    + pose proof (co_once _ _ Hco) as Ho. revert Ho. unfold once_ok. cbn. destruct (g_once s); naive_solver.
    + by destruct (coherent_mine _ _ _ f Hco) as (_ & _ & ?); [set_solver|].
    + by destruct (coherent_mine _ _ _ d Hco) as (_ & _ & ?); [set_solver|].
  - destruct x; try discriminate Hp. pose proof (co_holds _ _ Hco) as Hh. cbn in *. by destruct (g_mu s).
Qed.
Lemma step_sound w a b : step w a b → sound a → sound b.
Proof.
  intros Hs. destruct Hs as [R s s' c k r new l1 l2 Hp|R s c k l1 l2 Hc|s s' l Hh|s l err Hh Hi];
    intros (xs & Hco & Hl).
  - apply Forall2_app_inv_l in Hl as (xs1 & xs2 & H1 & H2 & ->).
    apply Forall2_cons_inv_l in H2 as (x & xs2' & Hx & H2 & ->).
    destruct (conforms_call _ _ _ r Hx) as (y & Hy & Hk). rewrite <-Permutation_middle in Hco.
    destruct (coherent_call _ _ _ _ _ _ _ _ Hco Hy Hp) as [Hco' Hnew].
    exists (xs1 ++ y :: (start <$> new) ++ xs2'). split.
    + by rewrite <-Permutation_middle, app_assoc, (Permutation_app_comm xs1), <-app_assoc.
    + apply Forall2_app; [done|]. constructor; [done|]. apply Forall2_app; [|done].
      apply Forall2_fmap, Forall_Forall2_diag. eapply Forall_impl; [exact Hnew|]. intros g Hg. by apply body_conforms.
  - apply Forall2_app_inv_l in Hl as (xs1 & xs2 & H1 & H2 & ->).
    apply Forall2_cons_inv_l in H2 as (x & xs2' & Hx & H2 & ->). rewrite <-Permutation_middle in Hco.
    by rewrite (no_crash _ _ _ _ _ Hco Hx) in Hc.
  - exists xs. split; [by eapply coherent_happens|done].
  - exists (Idle :: xs). split; [by rewrite <-coherent_idle|]. constructor; [|done]. by apply (body_conforms (WatchError err)).
Qed.

(** ** Progress *)
Definition movable (s : gstate) (l : list thread) : Prop := ∃ b, step false (Up s l) b.
Lemma call_moves {R} (c : gcall R) k r s s' new l :
  Call _ c k ∈ l → perform s R c r s' new → movable s l.
Proof. intros (l1 & l2 & ->)%list_elem_of_split Hp. eexists. by apply step_call. Qed.
Lemma happens_moves s s' l : happens s s' → movable s l.
Proof. intros Hh. eexists. by apply step_happens. Qed.

Section progress.
Context (s : gstate) (l : list thread) (xs : list role).
Context (Hco : coherent s xs) (Hl : Forall2 conforms l xs).
#[local] Set Default Proof Using "Type Hco Hl".

Lemma at_role x : x ∈ xs → ∃ p, p ∈ l ∧ conforms p x.
Proof.
  intros (i & Hi)%list_elem_of_lookup. destruct (Forall2_lookup_r _ _ _ _ _ Hl Hi) as (p & Hp & ?).
  exists p. split; [|done]. by eapply list_elem_of_lookup_2.
Qed.
Lemma in_roles {B} (f : role → list B) b : b ∈ xs ≫= f → ∃ x, x ∈ xs ∧ b ∈ f x.
Proof. intros Hb. apply list_elem_of_bind in Hb as (x & ? & ?). eauto. Qed.
Lemma roles_in {B} (f : role → list B) b x : x ∈ xs → b ∈ f x → b ∈ xs ≫= f.
Proof. intros ??. apply list_elem_of_bind. eauto. Qed.

(** The next call of a goroutine that is not at its end. *)
Lemma next_is x : x ∈ xs → (∀ a, ¬ at_end x a) →
  (∀ R (c : gcall R), (∀ r, is_Some (protocol x R c r)) → ∃ r s' new, perform s R c r s' new) → movable s l.
Proof.
  intros Hx Hend Hc. destruct (at_role x Hx) as (p & Hp & Hw). destruct p as [a|R c k]; [by destruct (Hend a)|].
  destruct (Hc R c) as (r & s' & new & Hperf); [|by eapply call_moves].
  intros r. destruct (conforms_call _ _ _ r Hw) as (y & -> & _). eauto.
Qed.
Ltac allowed c H :=
  let y := fresh "y" in let Ey := fresh "Ey" in
  destruct c; first [destruct (H tt) as [y Ey]|destruct (H 0%nat) as [y Ey]|destruct (H true) as [y Ey]
    |destruct (H 0%Z) as [y Ey]|destruct (H (λ _, true)) as [y Ey]|destruct (H (Ok tt)) as [y Ey]
    |destruct (H (Ok 0%nat)) as [y Ey]|destruct (H "") as [y Ey]];
  cbn in Ey; try discriminate Ey; repeat case_bool_decide; simplify_eq.
Lemma holding_moves : Holding ∈ xs → movable s l.
Proof.
  intros Hx. apply (next_is Holding Hx); [by intros []|]. intros R c H. allowed c H; cbn; [|by eexists _, _, _|by eexists tt, _, _|by eexists 0%Z, _, _].
  pose proof (co_holds _ _ Hco) as Hh. destruct (g_mu s); [by eexists tt, _, _|].
  assert (Hi : tt ∈ xs ≫= holds) by (eapply roles_in; [exact Hx|set_solver]). rewrite Hh in Hi. set_solver.
Qed.
Lemma releasing_moves d : Releasing d ∈ xs → movable s l.
Proof.
  intros Hx. apply (next_is _ Hx); [by intros []|]. intros R c H. allowed c H; cbn.
  eexists tt, _, _. split_and!; [|done..]. apply (co_open _ _ Hco). eapply roles_in; [done|set_solver].
Qed.
Lemma selecting_moves t d f : Selecting t d f ∈ xs → movable s l.
Proof.
  intros Hx. destruct (is_closed s t) eqn:Ht.
  - apply (next_is _ Hx); [by intros []|]. intros R c H. allowed c H; cbn.
    eexists tt, _, _. split_and!; [|done..]. exists t. split; [set_solver|done].
  - assert (Hin : t ∈ g_timers s) by (apply (co_timer _ _ Hco); eapply roles_in; [done|set_solver]).
    destruct (co_timers _ _ Hco _ Hin) as [[b Hb] _]. unfold is_closed in Ht. rewrite Hb in Ht. cbn in Ht. subst b.
    eapply happens_moves. by apply (deadline_passes s t).
Qed.
Lemma once_moves o : o ∈ xs ≫= onces → movable s l.
Proof.
  intros Hin. pose proof (co_once _ _ Hco) as Ho. pose proof (co_wired _ _ Hco) as Hwi.
  destruct (in_roles _ _ Hin) as (x & Hx & Hox).
  assert (Hone : xs ≫= onces = [o] ∧ once_ok s [o]).
  { revert Ho. unfold once_ok. destruct (g_once s); [intros [E _]; rewrite E in Hin; set_solver| |intros [E _]; rewrite E in Hin; set_solver].
    intros [[E ?]|[[E ?]|[E ?]]]; rewrite E in Hin |- *; apply list_elem_of_singleton in Hin as ->; auto. }
  destruct Hone as [_ Hok]. destruct x; cbn in Hox; try (set_solver); apply list_elem_of_singleton in Hox as ->.
  - apply (next_is _ Hx); [by intros []|]. intros R c H. allowed c H; cbn. eexists tt, _, _. split_and!; [|done..].
    revert Hok. unfold once_ok. destruct (g_once s); naive_solver.
  - destruct (g_informers s) as [|n] eqn:Hi.
    + apply (next_is _ Hx); [by intros []|]. intros R c H. allowed c H; cbn. by eexists tt, _, _.
    + eapply happens_moves, (informer_ends s stop n); [done| |done]. unfold is_closed.
      assert (g_closed s !! stop = Some true) as ->; [|done]. revert Hok. unfold once_ok. destruct (g_once s); naive_solver.
  - apply (next_is _ Hx); [by intros []|]. intros R c H. allowed c H; cbn. by eexists tt, _, _.
Qed.
(** A goroutine that is not at its end moves, or what it waits for does. *)
Lemma role_moves {R} (c : gcall R) k x : Call _ c k ∈ l → x ∈ xs → conforms (Call _ c k) x → movable s l.
Proof.
  intros Hp Hx Hw.
  assert (Hnext : ∀ r s' new, perform s R c r s' new → movable s l) by (intros; by eapply call_moves).
  assert (Hc : ∀ r, is_Some (protocol x R c r)) by (intros r; destruct (conforms_call _ _ _ r Hw) as (y & -> & _); eauto).
  destruct x; try (by eapply holding_moves); try (by eapply releasing_moves); try (by eapply selecting_moves);
    try (by eapply once_moves, roles_in; [exact Hx|apply list_elem_of_singleton]);
    allowed c Hc; try (by eapply (Hnext tt)); try (by eapply (Hnext 0)); try (by eapply (Hnext (length (g_closed s)))).
  - destruct (g_mu s) eqn:Hm; [|by eapply (Hnext tt)]. pose proof (co_holds _ _ Hco) as Hh. rewrite Hm in Hh.
    destruct (in_roles holds tt) as ([] & Hy & Hin); [rewrite Hh; set_solver|..];
      cbn in Hin; try (by apply not_elem_of_nil in Hin). by apply holding_moves.
  - pose proof (co_once _ _ Hco) as Ho. revert Ho. unfold once_ok. destruct (g_once s) eqn:Eo.
    + intros _. eapply (Hnext true). cbn. split; [|done]. by left.
    + intros [[E _]|[[E _]|[E _]]]; eapply once_moves; rewrite E; by apply list_elem_of_singleton.
    + intros _. eapply (Hnext false). cbn. split; [|done]. by right.
  - destruct (g_synced s) eqn:Es; [eapply (Hnext (λ gvr, bool_decide (gvr = GVR))); cbn; auto|].
    destruct (co_waits _ _ Hco d) as [Hd|Hd]; [eapply roles_in; [done|set_solver]|eapply (Hnext (λ _, false)); cbn; auto|].
    destruct (in_roles _ _ Hd) as ([] & Hy & Hin); cbn in Hin; try (by apply not_elem_of_nil in Hin);
      apply list_elem_of_singleton in Hin as ->; [by eapply selecting_moves|by eapply releasing_moves].
  - eapply (Hnext tt). cbn. split; [|done]. apply (co_open _ _ Hco). eapply roles_in; [done|set_solver].
Qed.
End progress.

Definition finished (p : thread) : Prop := match p with Ret _ _ => True | Call _ _ _ => False end.
Lemma sound_progress s l : sound (Up s l) → Forall finished l ∨ movable s l.
Proof.
  intros (xs & Hco & Hl).
  assert (Hor : Forall finished l ∨ ∃ i R (c : gcall R) k, l !! i = Some (Call _ c k)).
  { clear. induction l as [|[a|R c k] l [IH|(i & R' & c' & k' & IH)]]; [by left|by left; constructor| | |];
      right; [exists (S i)|exists 0%nat|exists (S i)]; eauto. }
  destruct Hor as [?|(i & R & c & k & Hi)]; [by left|right].
  destruct (Forall2_lookup_l _ _ _ _ _ Hl Hi) as (x & Hx & Hw).
  eapply role_moves; try done; by eapply list_elem_of_lookup_2.
Qed.
End protocol.

(** ** Termination *)
(** The steps a call can lead to, its own included. *)
Definition cost {R} (c : gcall R) : nat :=
  match c with GoFanIn _ _ _ _ => 3 | WithTimeout _ | StartFactory _ => 2 | _ => 1 end.
Fixpoint within (p : thread) (n : nat) : Prop :=
  match p with
  | Ret _ _ => True
  | Call _ c k => (cost c ≤ n)%nat ∧ ∀ r, within (k r) (n - cost c)
  end.
Definition opened (ts : list chan) (cl : list bool) : nat := length (filter (λ t, default false (cl !! t) = false) ts).
Arguments opened : simpl never.
(** What may still happen around the goroutines. *)
Definition potential (s : gstate) : nat :=
  (g_informers s + (if g_synced s then 0 else 1) + opened (g_timers s) (g_closed s))%nat.
Definition work (g : goroutine) : nat := match g with FanIn _ _ _ _ => 2 | WatchError _ => 5 end.

Lemma within_body g : within (body g) (work g).
Proof. destruct g; cbn; repeat (split; [lia|]; intros ?); done. Qed.
Lemma within_operation c p : operation c p → within p 11.
Proof.
  intros []; cbn; repeat first [progress cbn|split; [lia|]|intros ?|done];
    repeat case_match; cbn; repeat first [split; [lia|]|intros ?]; done.
Qed.
Lemma is_closed_insert s ch t : is_closed (s <| g_closed := <[ch := true]> (g_closed s) |>) t = false → is_closed s t = false.
Proof. intros Ht. destruct (is_closed s t) eqn:E; [|done]. by rewrite (is_closed_close _ ch _ E) in Ht. Qed.
Lemma is_closed_grow s t : is_closed (s <| g_closed := g_closed s ++ [false] |>) t = is_closed s t.
Proof.
  unfold is_closed. cbn. destruct (decide (t < length (g_closed s))%nat); [by rewrite lookup_app_l|].
  rewrite lookup_app_r, (lookup_ge_None_2 (g_closed s)) by lia. by destruct (t - length (g_closed s))%nat as [|[|]].
Qed.
Lemma filter_le {A} (P Q : A → Prop) `{∀ x, Decision (P x)} `{∀ x, Decision (Q x)} (l : list A) :
  (∀ x, P x → Q x) → (length (filter P l) ≤ length (filter Q l))%nat.
Proof.
  intros HPQ. induction l as [|x l IH]; [done|]. rewrite !filter_cons.
  repeat case_decide; cbn; try lia. exfalso. auto.
Qed.
Lemma filter_lt {A} (P Q : A → Prop) `{∀ x, Decision (P x)} `{∀ x, Decision (Q x)} (l : list A) y :
  (∀ x, P x → Q x) → y ∈ l → Q y → ¬ P y → (length (filter P l) < length (filter Q l))%nat.
Proof.
  intros HPQ Hy Qy Py. induction l as [|x l IH]; [by apply not_elem_of_nil in Hy|]. rewrite !filter_cons.
  apply elem_of_cons in Hy as [<-|Hy].
  - rewrite decide_False, decide_True by done. cbn. pose proof (filter_le P Q l HPQ). lia.
  - specialize (IH Hy). repeat case_decide; cbn; try lia. exfalso. auto.
Qed.
Lemma opened_le ts cl cl' :
  (∀ t, default false (cl' !! t) = false → default false (cl !! t) = false) → (opened ts cl' ≤ opened ts cl)%nat.
Proof. intros Hle. by apply filter_le. Qed.
Lemma opened_cons t ts cl : (opened (t :: ts) cl ≤ S (opened ts cl))%nat.
Proof. unfold opened. rewrite filter_cons. case_decide; cbn; lia. Qed.
Lemma potential_call {R} (c : gcall R) s r s' new : perform s R c r s' new →
  (potential s' + sum_list (work <$> new) < potential s + cost c)%nat.
Proof.
  assert (Hgrow : (opened (g_timers s) (g_closed s ++ [false]) ≤ opened (g_timers s) (g_closed s))%nat).
  { apply opened_le. intros t. pose proof (is_closed_grow s t) as E. unfold is_closed in E. cbn in E. by rewrite E. }
  assert (Hclose : ∀ ch, (opened (g_timers s) (<[ch := true]> (g_closed s)) ≤ opened (g_timers s) (g_closed s))%nat).
  { intros ch. apply opened_le. intros t. apply (is_closed_insert s ch t). }
  unfold potential. destruct c; cbn; intros Hs; destruct_and?; simplify_eq; cbn; try lia.
  - specialize (Hclose ch). lia.
  - pose proof (opened_cons (length (g_closed s)) (g_timers s) (g_closed s ++ [false])). lia.
  - specialize (Hclose ch). lia.
  - destruct_or?; destruct_and?; simplify_eq; cbn; lia.
  - destruct (g_wired s); destruct_and?; simplify_eq; cbn; lia.
  - destruct (g_requested s); lia.
Qed.
Lemma potential_happens s s' : happens s s' → (potential s' < potential s)%nat.
Proof.
  intros Hh. unfold potential. destruct Hh as [? E|ch n ? ? E|ch Hin Hc]; cbn; [rewrite E; lia..|].
  enough (opened (g_timers s) (<[ch := true]> (g_closed s)) < opened (g_timers s) (g_closed s))%nat by lia.
  apply (filter_lt _ _ (g_timers s) ch (λ t, is_closed_insert s ch t) Hin); unfold is_closed; cbn; [by rewrite Hc|].
  rewrite list_lookup_insert_eq; [done|]. by eapply lookup_lt_Some.
Qed.

(** Every step but a failure of the watch uses up some of what is left. *)
Definition remaining (a : config) (m : nat) : Prop :=
  match a with
  | Up s l => ∃ ns, Forall2 within l ns ∧ m = (potential s + sum_list ns)%nat
  | Crashed => True
  end.
Lemma step_left w a b m : step w a b → remaining a m →
  ∃ m', remaining b m' ∧ if w then m' = (m + 5)%nat else (m' < m)%nat ∨ b = Crashed.
Proof.
  intros Hs. destruct Hs as [R s s' c k r new l1 l2 Hp|R s c k l1 l2 Hc|s s' l Hh|s l err Hh Hi].
  - intros (ns & Hl & ->). apply Forall2_app_inv_l in Hl as (n1 & n2 & H1 & H2 & ->).
    apply Forall2_cons_inv_l in H2 as (n & n2' & [Hn Hk] & H2 & ->). eexists. split.
    + exists (n1 ++ (n - cost c)%nat :: (work <$> new) ++ n2'). split; [|reflexivity].
      apply Forall2_app; [done|]. constructor; [done|]. apply Forall2_app; [|done].
      apply Forall2_fmap, Forall_Forall2_diag, Forall_true. intros. apply within_body.
    + left. pose proof (potential_call _ _ _ _ _ Hp). rewrite !sum_list_with_app. cbn. rewrite sum_list_with_app. lia.
  - intros _. exists m. split; [done|by right].
  - intros (ns & Hl & ->). eexists. split; [by exists ns|]. left. pose proof (potential_happens _ _ Hh). lia.
  - intros (ns & Hl & ->). eexists. split; [exists (5%nat :: ns); split; [|reflexivity]; constructor; [apply (within_body (WatchError err))|done]|].
    cbn. lia.
Qed.

(** ** A Client's life *)
Lemma alone_call_inv {A R} s (c : gcall R) (k : R → gprog A) s'' a :
  alone s (Call _ c k) s'' a → ∃ r s', perform s R c r s' [] ∧ alone s' (k r) s'' a.
Proof.
  intros Ha. remember (Call A c k) as p eqn:E. destruct Ha as [|R' s s' s'' c' k' r a Hp Ha]; [done|].
  exact (match E in _ = q return match q with
    | Call _ c k => ∃ r0 s'0, perform s _ c r0 s'0 [] ∧ alone s'0 (k r0) s'' a | Ret _ _ => True end
    with eq_refl => ex_intro _ r (ex_intro _ s' (conj Hp Ha)) end).
Qed.
(** A built Client: its informer runs with the handler in place, stopped by its channel. *)
Definition built : gstate := MkState [false] [] false NotYet zero_time true true 1 (Some 0%nat) false 0.
Lemma newWithInformer_built dyn s c :
  alone no_client (newWithInformer dyn) s c → s = built ∧ c = MkClient dyn None 0.
Proof.
  intros Ha. do 5 (apply alone_call_inv in Ha as (? & ? & Hp & Ha); cbn in Hp; destruct_and?; simplify_eq).
  by inversion Ha; subst.
Qed.
Lemma built_coherent c pool : c_stop c = 0%nat → Forall (operation c) pool → sound 0 (Up built pool).
Proof.
  intros Hc Hops. exists ((λ _, Idle) <$> pool). split.
  - assert (Hnil : ∀ B (f : role → list B), f Idle = [] → ((λ _, Idle) <$> pool) ≫= f = []).
    { intros B f Hf. induction pool as [|p l IH]; [done|]. apply Forall_cons in Hops as [_ Hops]. cbn. by rewrite Hf, IH. }
    split; rewrite ?Hnil by done; try done; [constructor|set_solver..|].
    by apply Forall_fmap, Forall_true.
  - apply Forall2_fmap_r, Forall_Forall2_diag. eapply Forall_impl; [exact Hops|]. intros p Hp. by eapply operation_conforms.
Qed.
Lemma steps_sound stop n w a b m : steps n w a b → sound stop a → remaining a m →
  sound stop b ∧ ∃ m', remaining b m' ∧ (n + m' ≤ m + 6 * w)%nat.
Proof.
  intros Hs. revert m. induction Hs as [a|v n w a1 a2 a3 Hs _ IH]; intros m Hok Hm; [split; [done|]; exists m; split; [done|lia]|].
  assert (Hok2 : sound stop a2) by by eapply step_sound.
  destruct (step_left _ _ _ _ Hs Hm) as (m2 & Hm2 & Hlt). destruct (IH m2 Hok2 Hm2) as (H3 & m3 & Hm3 & Hle).
  split; [done|]. exists m3. split; [done|]. destruct v; [lia|]. destruct Hlt as [?| ->]; [lia|done].
Qed.

(** C14: the goroutines of a console client never crash and never get stuck: whatever number
    of callers close it, ask whether it is stale or wait for its cache, and whenever the
    watch fails, no interleaving closes a channel twice or unlocks an unlocked mutex; in
    every configuration all goroutines have ended or one can go on, and the number of
    steps is bounded, so each of them ends (the one that [waitForSync] starts too, and
    waiting never outlives its deadline or [Close]); once a [Close] has returned, the
    informer's channel is closed, its goroutine has ended and the factory was shut down
    exactly once; a wait reports success only for a filled cache; the watch-error handler
    was in place before the informer started. *)
Theorem client_goroutines dyn s c pool n w a :
  alone no_client (newWithInformer dyn) s c → Forall (operation c) pool → steps n w (Up s pool) a →
  ∃ s' threads, a = Up s' threads ∧
    (Forall finished threads ∨ ∃ b, step false a b) ∧
    (n ≤ 2 + 11 * length pool + 6 * w)%nat ∧
    (mret Closed ∈ threads →
       g_closed s' !! c_stop c = Some true ∧ g_informers s' = 0%nat ∧ g_shutdowns s' = 1%nat) ∧
    (mret (Warm true) ∈ threads → g_synced s' = true) ∧
    g_handler s = true.
Proof.
  intros [-> ->]%newWithInformer_built Hops Hs. cbn [c_stop].
  assert (Hm : remaining (Up built pool) (2 + sum_list (replicate (length pool) 11%nat))).
  { exists (replicate (length pool) 11%nat). split; [|done]. apply Forall2_replicate_r; [done|].
    eapply Forall_impl; [exact Hops|]. by intros; eapply within_operation. }
  destruct (steps_sound 0 _ _ _ _ _ Hs (built_coherent (MkClient dyn None 0) _ eq_refl Hops) Hm) as (Hok & m & Hm' & Hle).
  destruct a as [s' l|]; [|done]. exists s', l. split; [done|]. split; [by apply (sound_progress 0)|].
  rewrite sum_list_replicate in Hle. split; [lia|].
  destruct Hok as (xs & Hco & Hl). pose proof (co_learnt _ _ _ Hco) as Hlearnt. rewrite Forall_forall in Hlearnt.
  assert (Hend : ∀ r, mret r ∈ l → ∃ x, x ∈ xs ∧ at_end x r ∧ learnt s' x).
  { intros r (i & Hi)%list_elem_of_lookup. destruct (Forall2_lookup_l _ _ _ _ _ Hl Hi) as (x & Hx & ?).
    apply list_elem_of_lookup_2 in Hx. eauto. }
  split_and!; [| |done].
  - intros Hin. destruct (Hend _ Hin) as (x & Hx & -> & Hfin). cbn in Hfin.
    pose proof (co_once _ _ _ Hco) as Ho. unfold once_ok in Ho. rewrite Hfin in Ho. tauto.
  - intros Hin. destruct (Hend _ Hin) as (x & Hx & -> & Hsy). by apply Hsy.
Qed.

(** Two callers race to close a Client: the second one waits for the first. *)
Definition racers : list thread := let c := MkClient 7 None 0 in [Close c;; mret Closed; Close c;; mret Closed].
Ltac thread_steps l1 r := eapply (steps_next false); [eapply (step_call _ _ _ _ r [] l1); cbn; split_and!; eauto|cbn].
Lemma client_goroutines_witness : ∃ s,
  alone no_client (newWithInformer 7) s (MkClient 7 None 0) ∧
  ∃ s', steps 6 0 (Up s racers) (Up s' [mret Closed; mret Closed]) ∧
    g_closed s' !! 0%nat = Some true ∧ g_informers s' = 0%nat ∧ g_shutdowns s' = 1%nat.
Proof.
  assert (Ha : alone no_client (newWithInformer 7) built (MkClient 7 None 0)).
  { do 2 (eapply (alone_call _ _ _ _ _ tt); [cbn; split; reflexivity|]). eapply alone_call; [cbn; split_and!; reflexivity|].
    eapply (alone_call _ _ _ _ _ (Ok tt)); [cbn; split_and!; reflexivity|]. eapply (alone_call _ _ _ _ _ tt); [cbn; split; reflexivity|]. constructor. }
  set (over := MkState [true] [] false Finished zero_time true true 0 (Some 0%nat) false 1).
  assert (Hrun : steps 6 0 (Up built racers) (Up over [mret Closed; mret Closed])).
  { thread_steps (@nil thread) true. thread_steps (@nil thread) tt.
    eapply (steps_next false); [eapply step_happens, informer_ends; reflexivity|].
    thread_steps (@nil thread) tt. thread_steps (@nil thread) tt. thread_steps [mret Closed : thread] false. constructor. }
  exists built. split; [exact Ha|]. exists over. split; [exact Hrun|].
  assert (Hops : Forall (operation (MkClient 7 None 0)) racers) by repeat constructor.
  destruct (client_goroutines 7 built (MkClient 7 None 0) racers 6 0 _ Ha Hops Hrun) as (s' & l & E & _ & _ & Hc & _).
  injection E as <- <-. apply Hc. by left.
Defined.
