(* ===== verification/ConsolePatch.v ===== *)
(** From the console's patch to the operator's decision.

    The console writes annotations and nothing else; here its patch bodies are parsed,
    applied by the API server (a parameter: an RFC 7386 merge), and read back the way
    the operator reads them. *)
From Stdlib Require Import ZArith Ascii String SpecFloat.
From stdpp Require Import base gmap strings list numbers sorting.
From S2P Require Import Prelude GoStd GoNum GoTime Decisions Images BuildSpec RepoHost AppTypes Kube BuildSteps Free Prog JsonDecode Ensure Cleanup Shim Unstructured Humanize View ViewMap AppJson ViewSpec JsonPrint GoUrl ConsoleCalls ConsoleClient.

Open Scope string_scope.
Open Scope list_scope.
Open Scope Z_scope.

(** ** The API server's merge *)
(** RFC 7386 on an object whose new values are strings: null removes a member. *)
Definition merge_strings (l : list (string * jval)) (m : umap) : umap :=
  foldl (λ m '(k, v), match v with VStr s => <[k := UStr s]> m | _ => delete k m end) m l.
Definition string_or_null (v : jval) : bool := match v with VStr _ | VNull => true | _ => false end.
Definition server_managed : list string := ["resourceVersion"; "managedFields"].

(** What [application/merge-patch+json] promises for a patch of annotations: the
    annotations are merged; every other member keeps its value, but for the metadata the
    server maintains itself. *)
Class PatchServer := {
  server_patch : umap → string → option umap;
  server_patch_spec m md body l :
    json_parse body = Some (VObj [("metadata", VObj [("annotations", VObj l)])]) →
    forallb (λ kv, string_or_null kv.2) l = true → m !! "metadata" = Some (UMap md) →
    ∃ m' md', server_patch m body = Some m' ∧ m' !! "metadata" = Some (UMap md') ∧
      (∀ k, k ≠ "metadata" → m' !! k = m !! k) ∧
      (∀ k, k ≠ "annotations" → k ∉ server_managed → md' !! k = md !! k) ∧
      md' !! "annotations" = Some (UMap (merge_strings l (of_nil (as_map (at_ md "annotations")))));
}.
(** A server that does just that, for evaluation. *)
#[refine] Definition merging_server : PatchServer := {|
  server_patch m body :=
    match json_parse body, m !! "metadata" with
    | Some (VObj [("metadata", VObj [("annotations", VObj l)])]), Some (UMap md) =>
        Some (<["metadata" := UMap (<["annotations" :=
          UMap (merge_strings l (of_nil (as_map (at_ md "annotations"))))]> md)]> m)
    | _, _ => None
    end
|}.
Proof.
  intros m md body l -> _ ->. do 2 eexists. split_and!; [done|apply lookup_insert_eq|..].
  - intros k Hk. by rewrite lookup_insert_ne.
  - intros k Hk _. by rewrite lookup_insert_ne.
  - apply lookup_insert_eq.
Defined.

(** ** The bodies parse *)
Lemma digit_json n : json_safe_byte (digit_of n) = true.
Proof.
  unfold digit_of. pose proof (Z.mod_pos_bound n 10 eq_refl) as Hn. revert Hn.
  generalize (n mod 10). intros d Hd. unfold json_safe_byte. rewrite chr_digit_bv by lia.
  unfold between. rewrite !(proj2 (Z.leb_le _ _)) by lia. done.
Qed.
Lemma pad2_json n : json_safe (pad2 n) = true.
Proof. unfold pad2, json_safe. cbn. by rewrite !digit_json. Qed.
Lemma json_safe_app s t : json_safe (s +:+ t) = json_safe s && json_safe t.
Proof. apply string_forallb_app. Qed.
Lemma json_safe_cons c s : json_safe (String c s) = json_safe_byte c && json_safe s.
Proof. done. Qed.
Lemma Itoa_json n : 0 ≤ n → json_safe (Itoa n) = true.
Proof. intros Hn%Itoa_visible. unfold json_safe. by_bytes. Qed.
Lemma year_json y : json_safe (year_text y) = true.
Proof.
  unfold year_text, pad4. repeat (case_match; breflect); rewrite ?json_safe_app, ?pad2_json;
    try done; by rewrite Itoa_json by lia.
Qed.
Lemma FormatRFC3339_json t : json_safe (FormatRFC3339 t) = true.
Proof.
  unfold FormatRFC3339. destruct (civil _) as [[y m] d].
  rewrite json_safe_app, year_json. cbn [andb].
  repeat (rewrite json_safe_cons; cbn [andb]; rewrite json_safe_app, pad2_json); done.
Qed.

Section console.
Context `{GoRuntime}.

(** A patch body as a tree of texts. *)
Definition annotation_body (l : list (string * string)) : string :=
  object_text [("metadata", object_text [("annotations", object_text l)])].
Lemma annotation_body_parses l : l ≠ [] →
  Forall (λ '(k, s, v), json_safe k = true ∧ parses 3 s v) l →
  json_parse (annotation_body (fst <$> l)) =
    Some (VObj [("metadata", VObj [("annotations", VObj (map (λ '(k, s, v), (k, v)) l))])]).
Proof.
  intros Hne Hl. apply json_parse_text. unfold annotation_body.
  pose proof (parses_object 2 l ltac:(done) Hne Hl) as P2.
  pose proof (parses_object 1 [("annotations", _, _)] ltac:(done) ltac:(done)
    ltac:(repeat constructor; exact P2)) as P1.
  exact (parses_object 0 [("metadata", _, _)] ltac:(done) ltac:(done) ltac:(repeat constructor; exact P1)).
Qed.

(** Two texts that are the same pieces in the same order. *)
Ltac texts :=
  unfold annotation_body, object_text; cbn [members];
  change (Quote "metadata") with (dquote +:+ "metadata" +:+ dquote);
  change (Quote "annotations") with (dquote +:+ "annotations" +:+ dquote);
  repeat match goal with |- context [Quote ?x] => generalize (Quote x); intros ? end;
  match goal with |- context [quoted ?x] => let y := eval vm_compute in (quoted x) in change (quoted x) with y end;
  let d := eval vm_compute in dquote in change dquote with d;
  repeat (rewrite str_app_assoc || rewrite str_app_cons || rewrite str_app_nil_l); reflexivity.
Lemma rebuildPatch_body user now : rebuildPatch user now =
  annotation_body [(AnnotationRebuildRequestedAt, Quote (FormatRFC3339 now));
                   (AnnotationRebuildBy, Quote user); (AnnotationRebuildCommit, "null")].
Proof. unfold rebuildPatch. texts. Qed.
Lemma cleanupPatch_body k1 k2 user now : cleanupPatch k1 k2 user now =
  annotation_body [(k1, Quote (FormatRFC3339 now)); (k2, Quote user)].
Proof. unfold cleanupPatch. texts. Qed.

(** ** What arrives *)
(** Nothing differs but annotations and what the server maintains. *)
Definition only_annotations (m m' : umap) : Prop :=
  (∀ k, k ≠ "metadata" → m' !! k = m !! k) ∧
  (∀ k, k ≠ "annotations" → k ∉ server_managed → nested m' ["metadata"; k] = nested m ["metadata"; k]).

Context `{UnstructuredLib} `{PatchServer}.

Lemma merge_strings_fmap l (m : gmap string string) :
  merge_strings l (UStr <$> m) =
  UStr <$> foldl (λ m '(k, v), match v with VStr s => <[k := s]> m | _ => delete k m end) m l.
Proof.
  unfold merge_strings. revert m. induction l as [|[k v] l IH]; intros m; [done|]. cbn [foldl].
  rewrite <-IH. f_equal. destruct v; by rewrite ?fmap_delete, ?fmap_insert.
Qed.
Lemma patch_arrives app body l :
  json_parse body = Some (VObj [("metadata", VObj [("annotations", VObj l)])]) →
  forallb (λ kv, string_or_null kv.2) l = true →
  ∃ m', server_patch (json_App app) body = Some m' ∧ only_annotations (json_App app) m' ∧
    GetAnnotations m' =
      foldl (λ m '(k, v), match v with VStr s => <[k := s]> m | _ => delete k m end) (om_Annotations (app_Meta app)) l.
Proof.
  intros Hb Hl. set (md := of_nil (as_map (json_ObjectMeta (app_Meta app)))).
  assert (Hmd : json_App app !! "metadata" = Some (UMap md)) by (unfold json_App; by rewrite fields_lookup).
  destruct (server_patch_spec _ _ _ _ Hb Hl Hmd) as (m' & md' & Hs & Hm' & Ho & Hk & Ha).
  exists m'. split; [done|]. split.
  - split; [done|]. intros k Hn Hnm. rewrite (nested_cons _ _ _ _ _ Hm'), (nested_cons _ _ _ _ _ Hmd).
    by apply Hk.
  - apply GetAnnotations_spec. rewrite (nested_cons _ _ _ _ _ Hm'), nested_key, Ha.
    replace (of_nil (as_map (at_ md "annotations"))) with (UStr <$> om_Annotations (app_Meta app)).
    + rewrite merge_strings_fmap. generalize (foldl (λ m '(k, v), match v with VStr s => <[k := s]> m | _ => delete k m end)
        (om_Annotations (app_Meta app)) l). intros m.
      destruct (decide (m = ∅)) as [->|]; [done|by apply string_map_json].
    + unfold md. cbn [json_ObjectMeta obj as_map of_nil default from_option id].
      rewrite at_fields. cbn [assoc String.eqb Ascii.eqb Bool.eqb]. by rewrite of_nil_omapping.
Qed.

Lemma quoted_member k s : json_safe k = true → json_safe s = true →
  json_safe k = true ∧ parses 3 (Quote s) (VStr s).
Proof. intros Hk Hs. split; [done|]. by apply parses_quote. Qed.
Lemma rebuildPatch_parses user now : json_safe user = true →
  json_parse (rebuildPatch user now) = Some (VObj [("metadata", VObj [("annotations", VObj
    [(AnnotationRebuildRequestedAt, VStr (FormatRFC3339 now)); (AnnotationRebuildBy, VStr user);
     (AnnotationRebuildCommit, VNull)])])]).
Proof.
  intros Hu. rewrite rebuildPatch_body.
  apply (annotation_body_parses [(AnnotationRebuildRequestedAt, Quote (FormatRFC3339 now), VStr (FormatRFC3339 now));
     (AnnotationRebuildBy, Quote user, VStr user); (AnnotationRebuildCommit, "null", VNull)]); [done|].
  apply Forall_cons; split; [apply quoted_member; [reflexivity|apply FormatRFC3339_json]|].
  apply Forall_cons; split; [by apply quoted_member|].
  apply Forall_cons; split; [split; [reflexivity|apply parses_null]|]. apply Forall_nil. done.
Qed.
Lemma cleanupPatch_parses k1 k2 user now :
  json_safe k1 = true → json_safe k2 = true → json_safe user = true →
  json_parse (cleanupPatch k1 k2 user now) = Some (VObj [("metadata", VObj [("annotations", VObj
    [(k1, VStr (FormatRFC3339 now)); (k2, VStr user)])])]).
Proof.
  intros Hk1 Hk2 Hu. rewrite cleanupPatch_body.
  apply (annotation_body_parses [(k1, Quote (FormatRFC3339 now), VStr (FormatRFC3339 now)); (k2, Quote user, VStr user)]); [done|].
  apply Forall_cons; split; [apply quoted_member; [done|apply FormatRFC3339_json]|].
  apply Forall_cons; split; [by apply quoted_member|]. apply Forall_nil. done.
Qed.

(** C19: from a click to a build, for a user whose name is not empty and made of printable
    ASCII characters: the rebuild patch the console sends is the JSON of the three
    annotations, and once merged the App differs in its annotations only.  Whatever App
    the operator then reads off the object, it sees a manual trigger by that user, with no
    commit left over from the watcher, and starts a build as soon as none is active, unless
    the same second's request was already processed. *)
Theorem console_rebuild_request app user now :
  json_safe user = true → user ≠ "" →
  json_parse (rebuildPatch user now) = Some (VObj [("metadata", VObj [("annotations", VObj
    [(AnnotationRebuildRequestedAt, VStr (FormatRFC3339 now)); (AnnotationRebuildBy, VStr user);
     (AnnotationRebuildCommit, VNull)])])]) ∧
  ∃ m', server_patch (json_App app) (rebuildPatch user now) = Some m' ∧
    only_annotations (json_App app) m' ∧
    ∀ app', om_Annotations (app_Meta app') = GetAnnotations m' →
      classifyTrigger app' = BuildTriggerManual ∧
      annotation app' RebuildByAnnotation = user ∧
      annotation app' RebuildCommitAnnotation = "" ∧
      (∀ k, k ∉ [RebuildAnnotation; RebuildByAnnotation; RebuildCommitAnnotation] →
         annotation app' k = annotation app k) ∧
      (∀ last, last ≠ FormatRFC3339 now →
         DecideBuild (annotation app' RebuildAnnotation) last false = StartBuild).
Proof.
  intros Hu Hne. split; [by apply rebuildPatch_parses|].
  destruct (patch_arrives app _ _ (rebuildPatch_parses user now Hu) eq_refl) as (m' & Hm & Ho & Ha).
  exists m'. split_and!; [done|done|]. intros app' Happ. rewrite Ha in Happ. cbn [foldl] in Happ.
  unfold classifyTrigger, annotation. rewrite !Happ.
  change RebuildAnnotation with AnnotationRebuildRequestedAt. change RebuildByAnnotation with AnnotationRebuildBy.
  change RebuildCommitAnnotation with AnnotationRebuildCommit.
  rewrite lookup_delete_eq, !lookup_delete_ne, lookup_insert_eq, lookup_insert_ne, lookup_insert_eq by done.
  cbn [default from_option id]. rewrite (proj2 (String.eqb_neq user "") Hne). split_and!; [done..| |].
  - intros k Hk. rewrite !not_elem_of_cons in Hk. destruct Hk as (? & ? & ? & _). by rewrite lookup_delete_ne, !lookup_insert_ne.
  - intros last Hl. by apply DecideBuild_start.
Qed.

(** The same for the prune buttons: the operator finds the request under the button's
    own action, and the other action as it was. *)
Theorem console_cleanup_request app user now :
  json_safe user = true →
  (∃ m', server_patch (json_App app) (cleanupPatch AnnotationCleanupCacheRequestedAt AnnotationCleanupCacheBy user now) = Some m' ∧
     only_annotations (json_App app) m' ∧
     ∀ app', om_Annotations (app_Meta app') = GetAnnotations m' →
       cleanupActionsFor app' = MkCleanupAction cleanupModeCache (FormatRFC3339 now) user :: tail (cleanupActionsFor app)) ∧
  (∃ m', server_patch (json_App app) (cleanupPatch AnnotationCleanupReleasesRequestedAt AnnotationCleanupReleasesBy user now) = Some m' ∧
     only_annotations (json_App app) m' ∧
     ∀ app', om_Annotations (app_Meta app') = GetAnnotations m' →
       cleanupActionsFor app' = list.take 1 (cleanupActionsFor app) ++ [MkCleanupAction cleanupModeReleases (FormatRFC3339 now) user]).
Proof.
  intros Hu.
  pose proof (patch_arrives app _ _ (cleanupPatch_parses AnnotationCleanupCacheRequestedAt
    AnnotationCleanupCacheBy user now eq_refl eq_refl Hu) eq_refl) as Hcache.
  pose proof (patch_arrives app _ _ (cleanupPatch_parses AnnotationCleanupReleasesRequestedAt
    AnnotationCleanupReleasesBy user now eq_refl eq_refl Hu) eq_refl) as Hrel.
  split; [destruct Hcache as (m' & Hm & Ho & Ha)|destruct Hrel as (m' & Hm & Ho & Ha)];
    exists m'; (split_and!; [done|done|]); intros app' Happ; rewrite Ha in Happ; cbn [foldl] in Happ;
    unfold cleanupActionsFor, annotation; rewrite Happ; by simplify_map_eq.
Qed.
End console.

(** Outside the printable names the body is not JSON: Go's [%q] and JSON escape
    differently. *)
Example quoted_user_not_json :
  json_parse (rebuildPatch (H := ascii_only_tables) ("ada" +:+ s1 (chr 127)) 1700000000000000000) = None.
Proof. vm_compute. reflexivity. Qed.
