(* ===== verification/Loki.v ===== *)
(** console/internal/loki: the query_range client for the logs of finished builds. *)
From Stdlib Require Import ZArith Ascii String.
From stdpp Require Import base gmap strings list numbers sorting.
From S2P Require Import Prelude GoStd GoNum GoSort Images RepoHost BuildSpec AppTypes Kube Free JsonDecode Unstructured Humanize View GoUrl ConsoleCalls.

Open Scope string_scope.
Open Scope list_scope.
Open Scope Z_scope.

(** ** client.go *)
(* Go: console/internal/loki/client.go Config *)
Record Config := MkConfig {
  cfg_URL : string; cfg_BasicAuthUser : string; cfg_BasicAuthPass : string;
  cfg_BearerToken : string; cfg_TenantID : string;
}.
(** The client, [None] for a nil pointer. *)
(* Go: console/internal/loki/client.go Configured *)
Definition Configured (c : option Config) : bool :=
  match c with Some cfg => negb (String.eqb (cfg_URL cfg) "") | None => false end.

(** ** source.go *)
(* Go: console/internal/loki/source.go Source @8-19 *)
Inductive Source := SourceLivePod | SourceLoki | SourcePodFallback | SourceUnavailable.
#[global] Instance Source_eq_dec : EqDecision Source.
Proof. solve_decision. Defined.
(* Go: console/internal/loki/source.go ResolveLogSource *)
Definition ResolveLogSource (inProgress lokiConfigured podRetained : bool) : Source :=
  if inProgress then SourceLivePod
  else if lokiConfigured then SourceLoki
  else if podRetained then SourcePodFallback
  else SourceUnavailable.

(** ** query.go *)
(* Go: console/internal/loki/query.go defaultLimit *)
Definition defaultLimit : Z := 100.
(* Go: console/internal/loki/query.go queryRangePath *)
Definition queryRangePath : string := "/loki/api/v1/query_range".
(* Go: console/internal/loki/query.go buildSelector *)
Definition buildSelector (namespace pod container : string) : string :=
  "{namespace=" +:+ dquote +:+ namespace +:+ dquote +:+ ",pod=" +:+ dquote +:+ pod +:+ dquote +:+
  (if negb (String.eqb container "") then ",container=" +:+ dquote +:+ container +:+ dquote else "") +:+ "}".

(** encoding/base64's StdEncoding, for [SetBasicAuth]. *)
Definition b64_char (n : Z) : ascii :=
  if n <? 26 then chr (65 + n) else if n <? 52 then chr (71 + n) else if n <? 62 then chr (n - 4)
  else if n =? 62 then "+"%char else "/"%char.
Fixpoint base64 (s : string) : string :=
  match s with
  | String a (String b (String c t)) =>
      let n := bv a * 65536 + bv b * 256 + bv c in
      s4 (b64_char (n / 262144)) (b64_char (n / 4096 mod 64)) (b64_char (n / 64 mod 64)) (b64_char (n mod 64))
      +:+ base64 t
  | String a (String b "") =>
      let n := bv a * 65536 + bv b * 256 in
      s4 (b64_char (n / 262144)) (b64_char (n / 4096 mod 64)) (b64_char (n / 64 mod 64)) "="
  | String a "" =>
      let n := bv a * 65536 in s4 (b64_char (n / 262144)) (b64_char (n / 4096 mod 64)) "=" "="
  | "" => ""
  end.

(** [t.UnixNano()] *)
Definition UnixNano (t : Z) : Z := i64 t.
Definition query_values (q : Values) (namespace pod container : string) (start end_ limit : Z) : Values :=
  let q := Set_ q "query" (buildSelector namespace pod container) in
  let q := Set_ q "limit" (Itoa limit) in
  let q := Set_ q "direction" "backward" in
  let q := if negb (IsZero start) then Set_ q "start" (Itoa (UnixNano start)) else q in
  if negb (IsZero end_) then Set_ q "end" (Itoa (UnixNano end_)) else q.
Definition auth_headers (cfg : Config) : gmap string string :=
  let h : gmap string string :=
    if negb (String.eqb (cfg_BearerToken cfg) "") then {["Authorization" := "Bearer " +:+ cfg_BearerToken cfg]}
    else if negb (String.eqb (cfg_BasicAuthUser cfg) "") || negb (String.eqb (cfg_BasicAuthPass cfg) "")
    then {["Authorization" := "Basic " +:+ base64 (cfg_BasicAuthUser cfg +:+ ":" +:+ cfg_BasicAuthPass cfg)]}
    else ∅ in
  if negb (String.eqb (cfg_TenantID cfg) "") then <["X-Scope-Orgid" := cfg_TenantID cfg]> h else h.
(* Go: console/internal/loki/query.go buildRequest *)
Definition buildRequest (cfg : Config) (namespace pod container : string) (start end_ limit : Z)
    : cprog (result http_request) :=
  let limit := if limit <=? 0 then defaultLimit else limit in
  let url := cfg_URL cfg +:+ queryRangePath in
  q ←? do (ParseRequestURL url);
  mret (Ok (MkRequest url (Encode (query_values q namespace pod container start end_ limit)) (auth_headers cfg))).

(** ** tail.go *)
(* Go: console/internal/loki/tail.go ErrNotConfigured *)
Definition ErrNotConfigured : error := errorf "loki: not configured".
(* Go: console/internal/loki/tail.go QueryError @19-28 *)
Definition QueryError (StatusCode : Z) (Body : string) : error :=
  errorf ("loki: query failed with status " +:+ Itoa StatusCode +:+ ": " +:+ Body).

(** A stream's [values] *)
Notation stream := (gslice (string * string)).
(* Go: console/internal/loki/tail.go queryRangeResponse *)
Definition into_response `{GoRuntime} (v : jval) : option (gslice stream) :=
  into_struct ["data"] (λ _ v s,
    into_struct ["result"] (λ _ v s,
      into_slice ([], 0%nat) (λ v st,
        into_struct ["values"] (λ _ v st, into_slice ("", "") into_pair v st) v st) v s) v s) v ([], 0%nat).

Record entry := MkEntry { e_ts : Z; e_line : string }.
(** The value of [strconv.ParseInt(v[0], 10, 64)] with its error dropped. *)
Definition entry_of (v : string * string) : entry := MkEntry (ParseInt v.1).1 v.2.
Definition newest_last (x y : entry) : bool := e_ts x <? e_ts y.
(* Go: console/internal/loki/tail.go Tail @76-99 *)
Definition tail_lines (streams : list stream) (limit : Z) : list string :=
  let entries := map entry_of (streams ≫= elems) in
  let entries := SliceStable newest_last entries in
  let entries := if limit <? Z.of_nat (length entries)
                 then list.drop (length entries - Z.to_nat limit) entries else entries in
  map e_line entries.
(* Go: console/internal/loki/tail.go Tail *)
Definition Tail `{GoRuntime} (c : option Config) (namespace pod container : string) (start end_ limit : Z)
    : cprog (result (list string)) :=
  match c with
  | Some cfg =>
      if negb (Configured c) then mret (Err ErrNotConfigured)
      else
        let limit := if limit <=? 0 then defaultLimit else limit in
        req ←? buildRequest cfg namespace pod container start end_ limit;
        status ←? do (HttpDo req);
        body ←? do ReadResponseBody;
        if (status <? 200) || (300 <=? status) then mret (Err (QueryError status body))
        else match json_parse body ≫= into_response with
             | None => mret (Err (wrapf "loki: decode response: " (errorf "invalid JSON")))
             | Some streams => mret (Ok (tail_lines (elems streams) limit))
             end
  | None => mret (Err ErrNotConfigured)
  end.
(* Go: console/internal/loki/client.go Client *)
Definition loki_tailer `{GoRuntime} (c : option Config) : LokiTailer := MkLokiTailer (Configured c) (Tail c).

#[global] Instance loki_tailer_reads `{GoRuntime} c : ReadOnlyTailer (loki_tailer c).
Proof.
  split. intros. cbn [loki_tailer lt_Tail]. unfold Tail. destruct c as [cfg|]; [|done]. case_match; [done|].
  apply calls_try; [|intros req; apply calls_try; [by apply calls_do|]; intros status;
    apply calls_try; [by apply calls_do|]; intros body; repeat case_match; done].
  apply calls_try; [by apply calls_do|]. done.
Qed.

(** ** Properties *)
(** The lines are those of the newest [limit] entries, oldest first; entries of one
    instant keep the order in which Loki sent them. *)
Theorem tail_lines_newest streams limit : 0 < limit →
  let all := map entry_of (streams ≫= elems) in
  ∃ older newer, SliceStable newest_last all = older ++ newer ∧ all ≡ₚ older ++ newer ∧
    tail_lines streams limit = map e_line newer ∧
    Z.of_nat (length newer) = Z.min limit (Z.of_nat (length all)) ∧
    StronglySorted (λ x y, e_ts x ≤ e_ts y) (older ++ newer).
Proof.
  intros Hl. cbv zeta. unfold tail_lines. set (all := map entry_of _). set (s := SliceStable newest_last all).
  assert (Hp : s ≡ₚ all) by apply SliceStable_perm.
  exists (if limit <? Z.of_nat (length s) then list.take (length s - Z.to_nat limit) s else []),
    (if limit <? Z.of_nat (length s) then list.drop (length s - Z.to_nat limit) s else s).
  assert (E : s = (if limit <? Z.of_nat (length s) then list.take (length s - Z.to_nat limit) s else []) ++
    (if limit <? Z.of_nat (length s) then list.drop (length s - Z.to_nat limit) s else s)).
  { case_match; [by rewrite list.take_drop|done]. }
  split_and!; [done|by rewrite <-E| done| |].
  - rewrite <-(Permutation_length Hp). destruct (Z.ltb_spec limit (Z.of_nat (length s))); [rewrite length_drop|]; lia.
  - rewrite <-E. eapply StronglySorted_impl, (SliceStable_sorted newest_last).
    intros x y. unfold not_after, newest_last. intros. lia.
Qed.
