(* ===== verification/LogView.v ===== *)
(** console/internal/server: loghl.go, and the HTML the console writes itself
    (timeTag, plainPre): classification of log lines and escaping.

    Regular expressions are trees with package regexp's leftmost-first semantics;
    text is a list of runes with their bytes. *)
From Stdlib Require Import ZArith Ascii String.
From stdpp Require Import base gmap strings list numbers sorting.
From S2P Require Import Prelude GoStd GoNum GoJson JsonDecode.

Open Scope string_scope.
Open Scope list_scope.
Open Scope Z_scope.

(** ** Package regexp *)
Notation text := (list (Z * string)).
Inductive re :=
| REmpty
| RChr (f : Z → bool)
| RWordB
| RCat (a b : re)
| RAlt (a b : re)
| ROpt (a : re)
| RStar (a : re).

(** [\b]: ASCII word characters on one side only. *)
Definition is_word (r : Z) : bool := between 48 r 57 || between 65 r 90 || between 97 r 122 || (r =? 95).
Definition next_word (t : text) : bool := match t with (r, _) :: _ => is_word r | [] => false end.

(** A position: whether the rune before it is a word character, and the text after it.
    [ends] lists where a match from a position can end, preferred first. *)
Notation position := (bool * text)%type.
Fixpoint star_ends (step : position → list position) (fuel : nat) (p : position) : list position :=
  match fuel with
  | O => [p]
  | S f => (step p ≫= λ q, if (length q.2 <? length p.2)%nat then star_ends step f q else []) ++ [p]
  end.
Fixpoint ends (e : re) (p : position) : list position :=
  match e with
  | REmpty => [p]
  | RChr f => match p.2 with
              | (r, _) :: t => if f r then [(is_word r, t)] else []
              | [] => []
              end
  | RWordB => if xorb p.1 (next_word p.2) then [p] else []
  | RCat a b => ends a p ≫= ends b
  | RAlt a b => ends a p ++ ends b p
  | ROpt a => ends a p ++ [p]
  | RStar a => star_ends (ends a) (length p.2) p
  end.

(** [MatchString]: a match from any position. *)
Fixpoint match_from (e : re) (prev : bool) (t : text) : bool :=
  match ends e (prev, t) with
  | _ :: _ => true
  | [] => match t with (r, _) :: t' => match_from e (is_word r) t' | [] => false end
  end.
Definition MatchString (e : re) (line : string) : bool := match_from e false (decode line).

(** Building blocks of the syntax *)
Definition RRune (r : Z) : re := RChr (Z.eqb r).
Definition RPlus (a : re) : re := RCat a (RStar a).
Fixpoint RRep (n : nat) (a : re) : re := match n with O => REmpty | S n' => RCat a (RRep n' a) end.
Definition RDigit : re := RChr (λ r, between 48 r 57).
Definition is_space_class (r : Z) : bool := (r =? 9) || (r =? 10) || (r =? 12) || (r =? 13) || (r =? 32).
(** A literal under [(?i)]: ASCII letters fold, and s and k also with their two
    non-ASCII variants. *)
Definition fold_rune (c r : Z) : bool :=
  let lower x := if between 65 x 90 then x + 32 else x in
  (lower c =? lower r) || ((lower c =? 115) && (r =? 0x17F)) || ((lower c =? 107) && (r =? 0x212A)).
Fixpoint RFold (s : string) : re :=
  match s with "" => REmpty | String c s' => RCat (RChr (fold_rune (bv c))) (RFold s') end.
Definition RWord (s : string) : re := RCat RWordB (RCat (RFold s) RWordB).
Definition RAlts (l : list re) : re :=
  match l with [] => RChr (λ _, false) | a :: l' => foldl RAlt a l' end.

(** ** loghl.go *)
(* Go: console/internal/server/loghl.go reLogErr *)
Definition reLogErr : re := RAlts
  [RWord "error"; RWord "errors"; RWord "fatal"; RWord "failed"; RWord "failure"; RWord "panic";
   RFold "npm ERR!";
   RCat (RFold "exit ") (RCat (RAlt (RFold "code") (RFold "status"))
     (RCat (RFold " ") (RChr (λ r, between 49 r 57))))].
(* Go: console/internal/server/loghl.go reLogWarn *)
Definition reLogWarn : re := RAlts [RWord "warn"; RWord "warning"; RWord "deprecated"].
(* Go: console/internal/server/loghl.go reLogOk *)
Definition reLogOk : re := RAlts [RWord "succeeded"; RWord "successfully"; RWord "success"; RFold "build complete"].
(** The two groups of [reLogTS]; it is anchored at the start. *)
Definition clock : re :=
  RCat (RRep 2 RDigit) (RCat (RRune 58) (RCat (RRep 2 RDigit) (RCat (RRune 58) (RRep 2 RDigit)))).
Definition fraction_opt : re := ROpt (RCat (RRune 46) (RPlus RDigit)).
(* Go: console/internal/server/loghl.go reLogTS *)
Definition reLogTS_1 : re := RAlts
  [RCat (ROpt (RRune 91)) (RCat (RRep 4 RDigit) (RCat (RRune 45) (RCat (RRep 2 RDigit) (RCat (RRune 45)
     (RCat (RRep 2 RDigit) (RCat (RChr (λ r, (r =? 84) || (r =? 32))) (RCat clock
     (RCat (RStar (RChr (λ r, negb (is_space_class r)))) (ROpt (RRune 93))))))))));
   RCat (RRune 91) (RCat clock (RCat fraction_opt (RRune 93)));
   RCat clock fraction_opt].
Definition reLogTS_2 : re := RPlus (RChr is_space_class).

(** The text between a position and a later one. *)
Definition span (from to : text) : string :=
  concat_strings (map snd (list.take (length from - length to) from)).
(** [FindStringSubmatch]: the two groups and the rest of the line. *)
Definition find_timestamp (line : string) : option (string * string * string) :=
  let t := decode line in
  match (ends reLogTS_1 (false, t) ≫= λ p, (λ q, (p.2, q.2)) <$> ends reLogTS_2 p) with
  | (p, q) :: _ => Some (span t p, span p q, concat_strings (map snd q))
  | [] => None
  end.

(* Go: console/internal/server/loghl.go logLevelClass *)
Definition logLevelClass (line : string) : string :=
  if MatchString reLogErr line then "log-err"
  else if MatchString reLogWarn line then "log-warn"
  else if MatchString reLogOk line then "log-ok"
  else "".

(** [template.HTMLEscapeString] *)
Definition html_byte (c : ascii) : string :=
  let b := bv c in
  if b =? 0 then encode_rune RuneError
  else if b =? 34 then "&#34;" else if b =? 39 then "&#39;" else if b =? 38 then "&amp;"
  else if b =? 60 then "&lt;" else if b =? 62 then "&gt;" else s1 c.
Fixpoint HTMLEscapeString (s : string) : string :=
  match s with "" => "" | String c s' => html_byte c +:+ HTMLEscapeString s' end.

(* Go: console/internal/server/loghl.go highlightLogLine *)
Definition highlightLogLine (line : string) : string :=
  let lvl := logLevelClass line in
  let class := if negb (String.eqb lvl "") then "log-ln" +:+ " " +:+ lvl else "log-ln" in
  quoted "<span class='" +:+ class +:+ quoted "'>" +:+
  (match find_timestamp line with
   | Some (m1, m2, rest) =>
       quoted "<span class='log-ts'>" +:+ HTMLEscapeString m1 +:+ "</span>" +:+
       HTMLEscapeString m2 +:+ HTMLEscapeString rest
   | None => HTMLEscapeString line
   end) +:+ "</span>".

(** ** render.go and manifest.go *)
(* Go: console/internal/server/render.go timeTag *)
Definition timeTag (ts : string) (full : bool) : string :=
  if String.eqb ts "" then "—"
  else let esc := HTMLEscapeString ts in
       let attr := if full then quoted " data-format='full'" else "" in
       quoted "<time datetime='" +:+ esc +:+ dquote +:+ attr +:+ ">" +:+ esc +:+ "</time>".
(* Go: console/internal/server/manifest.go plainPre *)
Definition plainPre (raw : string) : string := "<pre>" +:+ HTMLEscapeString raw +:+ "</pre>".

Example log_classes :
  map logLevelClass
    ["npm ERR! missing script"; "ERROR in ./src/app.ts"; "terrors everywhere"; "exit status 1"; "exit code 0";
     "1 warning, no errors"; "DeprecationWarning: x"; "(node) warning: deprecated"; "Build Complete in 3s";
     "compiled successfully"; "unsuccessful"]
  = ["log-err"; "log-err"; ""; "log-err"; ""; "log-err"; ""; "log-warn"; "log-ok"; "log-ok"; ""].
Proof. vm_compute. reflexivity. Qed.
Example timestamps :
  map find_timestamp
    ["2026-07-01T12:00:00.5Z  start"; "[12:00:00] x"; "12:00:00.123 x"; "[2026-07-01 12:00:00] y"; "12:00 x"; "12:00:00"]
  = [Some ("2026-07-01T12:00:00.5Z", "  ", "start"); Some ("[12:00:00]", " ", "x"); Some ("12:00:00.123", " ", "x");
     Some ("[2026-07-01 12:00:00]", " ", "y"); None; None].
Proof. vm_compute. reflexivity. Qed.

(** ** Escaped text *)
(** The references the escaper writes for the five markup characters. *)
Definition char_refs : list (string * ascii) :=
  [("&#34;", chr 34); ("&#39;", chr 39); ("&amp;", chr 38); ("&lt;", chr 60); ("&gt;", chr 62)].
(** No markup character or NUL is left, and every ampersand begins one of the references:
    inside an element or a quoted attribute such text is character data only. *)
Fixpoint inert (s : string) : bool :=
  match s with
  | "" => true
  | String c s' =>
      negb (existsb (Z.eqb (bv c)) [0; 34; 39; 60; 62]) &&
      (negb (bv c =? 38) || existsb (λ r, HasPrefix s r.1) char_refs) && inert s'
  end.
(** The references read back. *)
Fixpoint unescape (skip : nat) (s : string) : string :=
  match s with
  | "" => ""
  | String c s' =>
      match skip with
      | S k => unescape k s'
      | O => match List.find (λ r, HasPrefix s r.1) char_refs with
             | Some (r, c') => String c' (unescape (String.length r - 1) s')
             | None => String c (unescape 0 s')
             end
      end
  end.
(** The escaper's one replacement: NUL, which HTML cannot carry, by U+FFFD. *)
Fixpoint without_nul (s : string) : string :=
  match s with "" => "" | String c s' => (if bv c =? 0 then encode_rune RuneError else s1 c) +:+ without_nul s' end.

Lemma inert_byte c t : inert (html_byte c +:+ t) = inert t.
Proof. by destruct c as [[] [] [] [] [] [] [] []]. Qed.
Lemma unescape_byte c t : unescape 0 (html_byte c +:+ t) =
  (if bv c =? 0 then encode_rune RuneError else s1 c) +:+ unescape 0 t.
Proof. by destruct c as [[] [] [] [] [] [] [] []]. Qed.
Lemma escape_inert s : inert (HTMLEscapeString s) = true.
Proof. induction s as [|c s IH]; [done|]. cbn [HTMLEscapeString]. by rewrite inert_byte. Qed.
Lemma unescape_escape s : unescape 0 (HTMLEscapeString s) = without_nul s.
Proof. induction s as [|c s IH]; [done|]. cbn [HTMLEscapeString without_nul]. by rewrite unescape_byte, IH. Qed.

(** A piece of generated HTML: a tag as it stands, or text that is escaped. *)
Inductive piece := Tag (t : string) | Text (s : string).
Definition render (l : list piece) : string :=
  concat_strings (map (λ p, match p with Tag t => t | Text s => HTMLEscapeString s end) l).
Definition tag_of (p : piece) : option string := match p with Tag t => Some t | Text _ => None end.
Definition text_of (p : piece) : option string := match p with Text s => Some s | Tag _ => None end.
(** The tags of a line: one span of a fixed class around everything, and one around the
    timestamp. *)
Definition line_tags : list string :=
  map (λ c, quoted "<span class='" +:+ c +:+ quoted "'>") ["log-ln"; "log-ln log-err"; "log-ln log-warn"; "log-ln log-ok"].
Definition ts_tag : string := quoted "<span class='log-ts'>".
Definition end_tag : string := "</span>".

(** ** Matches are parts of the line *)
Definition reaches (p q : position) : Prop := ∃ k, p.2 = k ++ q.2.
Lemma reaches_refl p : reaches p p.
Proof. by exists []. Qed.
Lemma reaches_trans p q r : reaches p q → reaches q r → reaches p r.
Proof. intros [k Hk] [l Hl]. exists (k ++ l). by rewrite Hk, Hl, app_assoc. Qed.
Lemma star_reaches step fuel p q :
  (∀ p q, q ∈ step p → reaches p q) → q ∈ star_ends step fuel p → reaches p q.
Proof.
  intros Hs. revert p q. induction fuel as [|f IH]; intros p q; cbn [star_ends].
  - intros ->%list_elem_of_singleton. apply reaches_refl.
  - rewrite elem_of_app, list_elem_of_singleton. intros [(r & Hr & Hq)%list_elem_of_bind| ->]; [|apply reaches_refl].
    case_match; [|by apply elem_of_nil in Hr]. eapply reaches_trans; [by apply Hs|by apply IH].
Qed.
Lemma ends_reaches e p q : q ∈ ends e p → reaches p q.
Proof.
  revert p q. induction e as [|f| |a IHa b IHb|a IHa b IHb|a IHa|a IHa]; intros p q; cbn [ends].
  - intros ->%list_elem_of_singleton. apply reaches_refl.
  - destruct p as [w [|[r raw] t]]; cbn; [by intros ?%elem_of_nil|]. case_match; [|by intros ?%elem_of_nil].
    intros ->%list_elem_of_singleton. by exists [(r, raw)].
  - case_match; [|by intros ?%elem_of_nil]. intros ->%list_elem_of_singleton. apply reaches_refl.
  - intros (r & Hr & Hq)%list_elem_of_bind. eapply reaches_trans; [by apply IHa|by apply IHb].
  - rewrite elem_of_app. intros [Hq|Hq]; auto.
  - rewrite elem_of_app, list_elem_of_singleton. intros [Hq| ->]; [auto|apply reaches_refl].
  - by apply star_reaches.
Qed.
Lemma concat_strings_app l k : concat_strings (l ++ k) = concat_strings l +:+ concat_strings k.
Proof.
  induction l as [|x l IH]; [done|]. cbn [app]. by rewrite !concat_strings_cons, IH, str_app_assoc.
Qed.
Lemma span_app k t : span (k ++ t) t = concat_strings (map snd k).
Proof. unfold span. rewrite length_app, Nat.add_sub. by rewrite take_app_length. Qed.
Lemma find_timestamp_split line m1 m2 rest :
  find_timestamp line = Some (m1, m2, rest) → line = m1 +:+ m2 +:+ rest.
Proof.
  unfold find_timestamp. destruct (_ ≫= _) as [|[p q] l] eqn:E; [done|]. intros [= <- <- <-].
  assert (Hin : (p, q) ∈ (p, q) :: l) by left. rewrite <-E in Hin.
  apply list_elem_of_bind in Hin as (r & (s & [= -> ->] & Hs)%list_elem_of_fmap & Hr).
  apply ends_reaches in Hr as [k1 H1]. apply ends_reaches in Hs as [k2 H2]. cbn in H1.
  rewrite H1, H2, !span_app, <-!concat_strings_app, <-!map_app.
  rewrite <-H2, <-H1. symmetry. apply decode_raw.
Qed.

Lemma line_class line : quoted "<span class='" +:+
  (if negb (String.eqb (logLevelClass line) "") then "log-ln" +:+ " " +:+ logLevelClass line else "log-ln") +:+
  quoted "'>" ∈ line_tags.
Proof. unfold logLevelClass, line_tags. repeat case_match; cbn; set_solver. Qed.

(** C29: no log line can inject markup or lose its text.  Whatever a build printed, its
    highlighted line is made of pieces: one span of a fixed class, in it at most one
    timestamp span, and escaped text.  The texts make up exactly the line.  Escaped, none
    of them has a markup character left, every ampersand begins one of the escaper's
    references, and reading the references back gives the text, but for a NUL byte, which
    the escaper replaces by U+FFFD. *)
Theorem log_line_text line : ∃ ps opening, highlightLogLine line = render ps ∧
  opening ∈ line_tags ∧
  (omap tag_of ps = [opening; end_tag] ∨ omap tag_of ps = [opening; ts_tag; end_tag; end_tag]) ∧
  head ps = Some (Tag opening) ∧ last ps = Some (Tag end_tag) ∧
  concat_strings (omap text_of ps) = line ∧
  ∀ s, Text s ∈ ps → inert (HTMLEscapeString s) = true ∧ unescape 0 (HTMLEscapeString s) = without_nul s.
Proof.
  unfold highlightLogLine. cbv zeta. pose proof (line_class line) as Hc. revert Hc.
  generalize (if negb (String.eqb (logLevelClass line) "") then "log-ln" +:+ " " +:+ logLevelClass line else "log-ln"). intros cls Hc.
  set (opening := quoted "<span class='" +:+ cls +:+ quoted "'>") in Hc.
  assert (Ho : ∀ t, quoted "<span class='" +:+ cls +:+ quoted "'>" +:+ t = opening +:+ t)
    by (intros t; unfold opening; by rewrite !str_app_assoc).
  rewrite Ho. clearbody opening. clear Ho.
  destruct (find_timestamp line) as [[[m1 m2] rest]|] eqn:E.
  - apply find_timestamp_split in E as ->.
    exists [Tag opening; Tag ts_tag; Text m1; Tag end_tag; Text m2; Text rest; Tag end_tag], opening. split_and!; [|done|by right|done|done| |].
    + unfold render. cbn [map]. rewrite !concat_strings_cons. unfold end_tag, ts_tag. by rewrite !str_app_assoc.
    + cbn. by rewrite str_app_nil_r.
    + intros s _. split; [apply escape_inert|apply unescape_escape].
  - exists [Tag opening; Text line; Tag end_tag], opening. split_and!; [|done|by left|done|done| |].
    + unfold render. cbn [map]. rewrite !concat_strings_cons. done.
    + cbn. by rewrite str_app_nil_r.
    + intros s _. split; [apply escape_inert|apply unescape_escape].
Qed.
