(* ===== verification/Manifest.v ===== *)
(** console/internal/server/manifest.go: the read-only manifest page.

    Chroma (lexer and formatter) is a parameter of [highlightYAML]. *)
From Stdlib Require Import ZArith Ascii String SpecFloat.
From stdpp Require Import base gmap sets strings list numbers sorting.
From S2P Require Import Prelude GoStd GoNum GoTime BuildSpec AppTypes Kube Config BuildSteps Unstructured Humanize View ViewMap AppJson ViewSpec LogView.

Open Scope string_scope.
Open Scope list_scope.
Open Scope Z_scope.

(* Go: console/internal/server/manifest.go hiddenValue *)
Definition hiddenValue : string := "(hidden)".

Section manifest.
Context `{UnstructuredLib}.

(** The metadata the page keeps: name, namespace, labels and the annotation keys. *)
(* Go: console/internal/server/manifest.go pruneManifest @36-53 *)
Definition prune_metadata (o : umap) : umap :=
  let m : umap := ∅ in
  let m := if negb (String.eqb (GetName o) "") then <["name" := UStr (GetName o)]> m else m in
  let m := if negb (String.eqb (GetNamespace o) "") then <["namespace" := UStr (GetNamespace o)]> m else m in
  let m := if bool_decide (GetLabels o = ∅) then m else <["labels" := UMap (UStr <$> GetLabels o)]> m in
  if bool_decide (GetAnnotations o = ∅) then m
  else <["annotations" := UMap ((λ _, UStr hiddenValue) <$> GetAnnotations o)]> m.

(** The spec with its credential replaced, and whether it was. *)
(* Go: console/internal/server/manifest.go pruneManifest @58-66 *)
Definition prune_spec (spec : umap) : umap * bool :=
  match spec !! "auth" with
  | Some (UMap auth) =>
      if bool_decide (is_Some (auth !! "passwordHash"))
      then (<["auth" := UMap (<["passwordHash" := UStr hiddenValue]> auth)]> spec, true)
      else (spec, false)
  | _ => (spec, false)
  end.

(* Go: console/internal/server/manifest.go pruneManifest *)
Definition pruneManifest (o : umap) : umap * bool :=
  let out : umap := ∅ in
  let out := match o !! "apiVersion" with Some v => <["apiVersion" := v]> out | None => out end in
  let out := match o !! "kind" with Some v => <["kind" := v]> out | None => out end in
  let m := prune_metadata o in
  let out := if bool_decide (m = ∅) then out else <["metadata" := UMap m]> out in
  let masked := negb (bool_decide (GetAnnotations o = ∅)) in
  match o !! "spec" with
  | Some (UMap spec) => let '(spec', hid) := prune_spec spec in (<["spec" := UMap spec']> out, masked || hid)
  | _ => (out, masked)
  end.

(* Go: console/internal/server/manifest.go setupHint *)
Definition setupHint (o : umap) : string :=
  let '(pipeline, found) := NestedMap o ["spec"; "pipeline"] in
  let pipeline := of_nil pipeline in
  if negb found then ""
  else
    let setup := of_nil (fst (NestedMap pipeline ["phases"; "setup"])) in
    if fst (NestedBool setup ["skip"]) then "setup skipped by spec"
    else
      let image := fst (NestedString setup ["image"]) in
      let command := default [] (fst (NestedSlice setup ["command"])) in
      if negb (String.eqb image "") || (0 <? length command)%nat then ""
      else if negb (snd (NestedFieldNoCopy pipeline ["nodeVersion"])) then ""
      else "setup omitted — the operator runs its default install for " +:+
           fst (NestedString pipeline ["packageManager"]) +:+
           "; the exact command is echoed in the build logs".

(** Chroma: tokenising (absent when the lexer is), then formatting. *)
Context (tokens : Type) (tokenise : option (string → result tokens)) (format : tokens → result string).
(* Go: console/internal/server/manifest.go highlightYAML *)
Definition highlightYAML (raw : string) : string :=
  match tokenise with
  | None => plainPre raw
  | Some tok => match tok raw with
                | Err _ => plainPre raw
                | Ok it => match format it with Ok html => html | Err _ => plainPre raw end
                end
  end.
End manifest.

(** ** What the page can tell *)
Section secrecy.
Context `{UnstructuredLib}.

(** Specs that differ in the credential only. *)
Inductive spec_alike : option uval → option uval → Prop :=
| alike_same v : spec_alike v v
| alike_hash (spec auth : umap) h h' : spec_alike
    (Some (UMap (<["auth" := UMap (<["passwordHash" := h]> auth)]> spec)))
    (Some (UMap (<["auth" := UMap (<["passwordHash" := h']> auth)]> spec))).

(** Objects an onlooker may not tell apart: they agree on what the page is meant to
    show, and may differ in annotation values, in the credential, in the status and in
    everything the API server maintains. *)
Definition alike (o o' : umap) : Prop :=
  o !! "apiVersion" = o' !! "apiVersion" ∧ o !! "kind" = o' !! "kind" ∧
  GetName o = GetName o' ∧ GetNamespace o = GetNamespace o' ∧ GetLabels o = GetLabels o' ∧
  dom (GetAnnotations o) = dom (GetAnnotations o') ∧ spec_alike (o !! "spec") (o' !! "spec").

Lemma hidden_values {V} (m m' : gmap string V) :
  dom m = dom m' → (λ _, UStr hiddenValue) <$> m = (λ _, UStr hiddenValue) <$> m'.
Proof.
  intros Hd. apply map_eq. intros k. rewrite !lookup_fmap.
  assert (is_Some (m !! k) ↔ is_Some (m' !! k)) as Hk by (rewrite <-!elem_of_dom; set_solver).
  destruct (m !! k), (m' !! k); try done; exfalso; destruct Hk as [Hk Hk'];
    [destruct Hk; eauto|destruct Hk'; eauto]; done.
Qed.
Lemma prune_spec_alike spec auth h h' :
  prune_spec (<["auth" := UMap (<["passwordHash" := h]> auth)]> spec) =
  prune_spec (<["auth" := UMap (<["passwordHash" := h']> auth)]> spec).
Proof.
  unfold prune_spec. rewrite !lookup_insert_eq. rewrite !bool_decide_eq_true_2 by eauto.
  by rewrite !insert_insert_eq.
Qed.

(** C28: the manifest page leaks nothing it hides: objects that differ in annotation
    values, in the inline credential, in the status or in server-managed metadata only
    give the same page. *)
Theorem manifest_noninterference o o' : alike o o' → pruneManifest o = pruneManifest o'.
Proof.
  intros (Ha & Hk & Hn & Hns & Hl & Hd & Hs).
  assert (He : bool_decide (GetAnnotations o = ∅) = bool_decide (GetAnnotations o' = ∅)).
  { apply bool_decide_ext. by rewrite <-!dom_empty_iff_L, Hd. }
  assert (Hm : prune_metadata o = prune_metadata o').
  { unfold prune_metadata. by rewrite Hn, Hns, Hl, He, (hidden_values _ _ Hd). }
  unfold pruneManifest. rewrite Ha, Hk, Hm, He. destruct Hs as [v|spec auth h h']; [done|].
  by rewrite (prune_spec_alike spec auth h h').
Qed.

(** What the page shows of an App is what was applied: the spec unchanged, unless it
    carries a credential. *)
Lemma manifest_shows_spec app : (∀ a, as_Auth (app_Spec app) = Some a → ac_PasswordHash a = None) →
  (pruneManifest (json_App app)).1 !! "spec" = Some (UMap (json_AppSpec (app_Spec app))).
Proof.
  intros Hauth. unfold pruneManifest. rewrite spec_json.
  replace (prune_spec (json_AppSpec (app_Spec app))) with (json_AppSpec (app_Spec app), false).
  { cbn [fst]. apply lookup_insert_eq. }
  unfold prune_spec. replace (json_AppSpec (app_Spec app) !! "auth") with (optr json_AuthConfig (as_Auth (app_Spec app)))
    by (unfold json_AppSpec; by rewrite fields_lookup).
  destruct (as_Auth (app_Spec app)) as [a|] eqn:E; [|done].
  change (optr json_AuthConfig (Some a)) with (Some (json_AuthConfig a)). unfold json_AuthConfig, obj.
  rewrite fields_lookup. cbn [assoc String.eqb Ascii.eqb Bool.eqb]. by rewrite (Hauth a).
Qed.
End secrecy.

(** ** The setup hint *)
Section hint.
Context `{UnstructuredLib} `{GoRuntime}.

Definition default_hint (pm : string) : string :=
  "setup omitted — the operator runs its default install for " +:+ pm +:+
  "; the exact command is echoed in the build logs".

Lemma setupHint_json app : setupHint (json_App app) =
  if sps_Skip (app_Setup app) then "setup skipped by spec"
  else if phaseConfigured (sps_PhaseSpec (app_Setup app)) then ""
  else if pl_NodeVersion (app_Pipeline app) =? 0 then "" else default_hint (pl_PackageManager (app_Pipeline app)).
Proof.
  unfold setupHint. rewrite NestedMap_spec.
  rewrite (nested_cons _ _ _ _ _ (spec_json app)), nested_key.
  replace (json_AppSpec (app_Spec app) !! "pipeline") with (Some (json_PipelineSpec (app_Pipeline app)))
    by (unfold json_AppSpec; by rewrite fields_lookup).
  unfold json_PipelineSpec, obj. cbn [negb of_nil default from_option id].
  set (p := app_Pipeline app). set (pm := fields _).
  assert (Hs : nested pm ["phases"; "setup"] = Some (json_SetupPhaseSpec (app_Setup app))).
  { rewrite (nested_cons _ _ _ _ (of_nil (as_map (json_PhasesSpec (pl_Phases p))))), nested_key.
    - unfold json_PhasesSpec, obj. cbn [as_map of_nil default from_option id]. by rewrite fields_lookup.
    - unfold pm. by rewrite fields_lookup. }
  rewrite NestedMap_spec, Hs. unfold json_SetupPhaseSpec, obj. cbn [fst of_nil default from_option id].
  set (st := app_Setup app). set (sm := fields _).
  rewrite NestedBool_spec, NestedString_spec, NestedSlice_spec, !nested_key.
  assert (Hl : ∀ k, sm !! k = assoc (json_PhaseSpec (sps_PhaseSpec st) ++ [("skip", obool (sps_Skip st))]) k)
    by (intros; apply fields_lookup).
  rewrite !Hl. cbn [assoc json_PhaseSpec Datatypes.app String.eqb Ascii.eqb Bool.eqb].
  replace (fst match obool (sps_Skip st) with Some (UBool b) => (b, true) | _ => (false, false) end) with (sps_Skip st)
    by (by destruct (sps_Skip st)).
  destruct (sps_Skip st); [done|].
  replace (phaseConfigured (sps_PhaseSpec st)) with
    (negb (String.eqb (fst match ostr (aps_Image (sps_PhaseSpec st)) with Some (UStr s) => (s, true) | _ => ("", false) end) "")
     || (0 <? length (default [] (fst match olist UStr (default [] (aps_Command (sps_PhaseSpec st))) with
          Some (UList l) => (Some l, true) | _ => (None, false) end)))%nat); last first.
  { unfold phaseConfigured, ostr, olist, nlen. apply f_equal2.
    - destruct (String.eqb (aps_Image (sps_PhaseSpec st)) "") eqn:E; cbn [fst]; by rewrite ?E.
    - by destruct (default [] (aps_Command (sps_PhaseSpec st))). }
  case_match; [done|]. rewrite NestedString_spec, nested_key.
  replace (pm !! "packageManager") with (Some (UStr (pl_PackageManager p))) by (unfold pm; by rewrite fields_lookup).
  assert (Hv : nested pm ["nodeVersion"] = oint (pl_NodeVersion p)) by (unfold pm; rewrite nested_key; by rewrite fields_lookup).
  unfold oint in Hv. destruct (pl_NodeVersion p =? 0); [by rewrite (NestedFieldNoCopy_none _ _ Hv)|].
  by rewrite (NestedFieldNoCopy_found _ _ _ Hv).
Qed.

(** The hint never lies about the operator: it announces the default install exactly
    when the operator injects one, and a skipped setup exactly when the spec opts out. *)
Theorem setupHint_agrees cfg app :
  (setupHint (json_App app) = default_hint (pl_PackageManager (app_Pipeline app)) ↔
     snd (effectiveSetup app cfg) = true ∧ phaseConfigured (sps_PhaseSpec (app_Setup app)) = false) ∧
  (setupHint (json_App app) = "setup skipped by spec" ↔ sps_Skip (app_Setup app) = true).
Proof.
  rewrite setupHint_json. unfold effectiveSetup, setupRuns.
  destruct (sps_Skip (app_Setup app)), (phaseConfigured _); cbn; try done;
    destruct (pl_NodeVersion (app_Pipeline app) =? 0); cbn; split; split; try done; naive_solver.
Qed.
End hint.
