(* ===== verification/Server.v ===== *)
(** console/internal/server/server.go: the HTTP handlers, with render.go's page data.

    A handler is a program over the console's calls that ends in a response; an
    out-of-range slice would be a [Panic].  Template execution, YAML and Chroma are
    parameters. *)
From Stdlib Require Import ZArith Ascii String SpecFloat.
From stdpp Require Import base gmap strings list numbers sorting.
From S2P Require Import Prelude GoStd GoNum GoTime Images RepoHost BuildSpec AppTypes Kube Free Unstructured Humanize View ViewMap GoUrl ListPage ConsoleCalls Loki LogView Manifest.

Open Scope string_scope.
Open Scope list_scope.
Open Scope Z_scope.

(** ** Requests and responses *)
(** A request: the decoded path, its decoded segments, the query and the headers. *)
Record request := MkReq {
  r_Method : string; r_Path : string; r_Segments : list string; r_Query : Values;
  r_Header : gmap string string;
}.
Definition header (r : request) (k : string) : string := default "" (r_Header r !! k).
(* Go: console/internal/sentryhttp/middleware.go UserFrom *)
Definition UserFrom (r : request) : string :=
  let u := header r "X-Forwarded-User" in
  if negb (String.eqb u "") then u else header r "X-Auth-Request-User".

(* Go: console/internal/server/render.go detailData *)
Record detailData := MkDetail {
  DD_Head : head; DD_App : View.App; DD_Requested : bool; DD_CleanupRequested : string;
}.
(* Go: console/internal/server/render.go logpaneData *)
Record logpaneData := MkLogpane {
  LP_Namespace : string; LP_Build : Build; LP_Container : string; LP_Steps : list Step;
  LP_SourceNote : string; LP_Lines : list string; LP_Unavailable : string; LP_FetchErr : option error;
  LP_Follow : bool; LP_AppActive : bool; LP_IsCurrent : bool;
}.
#[export] Instance eta_logpaneData : Eta logpaneData := λ x,
  MkLogpane (LP_Namespace x) (LP_Build x) (LP_Container x) (LP_Steps x) (LP_SourceNote x) (LP_Lines x)
    (LP_Unavailable x) (LP_FetchErr x) (LP_Follow x) (LP_AppActive x) (LP_IsCurrent x).
(* Go: console/internal/server/render.go manifestData *)
Record manifestData := MkManifest {
  MD_Head : head; MD_Namespace : string; MD_Name : string; MD_Highlighted : string; MD_HasHidden : bool;
  MD_SetupHint : string;
}.
(* Go: console/internal/server/render.go errorData *)
Record errorData := MkErrorData { ED_Head : head; ED_Message : string; ED_Detail : string; ED_Code : Z }.

Inductive page :=
| PText (body : string)
| PSignedOut (h : head)
| PList (d : listData)
| PDetail (d : detailData)
| PManifest (d : manifestData)
| PPartial (app : View.App)
| PLogpane (d : logpaneData)
| PError (d : errorData)
| PRedirect (location : string)
| PPlain (text : string).
Record response := MkResponse { rs_Status : Z; rs_Page : page }.
(** [render]: status 200 with a page. *)
(* Go: console/internal/server/render.go render *)
Definition render (p : page) : response := MkResponse 200 p.

(** ** Choosing a build and a container *)
(* Go: console/internal/server/server.go releaseStepName *)
Definition releaseStepName : string := "release".
(* Go: console/internal/server/server.go containerSteps *)
Definition containerSteps (rec : Build) : list Step :=
  List.filter (λ st, negb (String.eqb (VS_Name st) releaseStepName)) (VB_Steps rec).
(* Go: console/internal/server/server.go validContainer *)
Definition validContainer (steps : list Step) (name : string) : bool :=
  existsb (λ st, String.eqb (VS_Name st) name) steps.
(* Go: console/internal/server/server.go pickBuild *)
Definition pickBuild (app : View.App) (build : string) : option (Build * bool) :=
  if String.eqb build "" || String.eqb build "current" then Some (VA_Build app, true)
  else if String.eqb (VB_JobName (VA_Build app)) build then Some (VA_Build app, true)
  else (λ h, (h, false)) <$> List.find (λ h, String.eqb (VB_JobName h) build) (VA_BuildHistory app).

(** The first Pending step after a Succeeded one. *)
Fixpoint next_pending (started : bool) (steps : list Step) : option Step :=
  match steps with
  | [] => None
  | st :: rest =>
      if String.eqb (VS_Status st) "Succeeded" then next_pending true rest
      else if started && String.eqb (VS_Status st) "Pending" then Some st
      else next_pending started rest
  end.
(* Go: console/internal/server/server.go defaultContainer *)
Definition defaultContainer (steps : list Step) : string :=
  match List.find (λ st, String.eqb (VS_Status st) "Failed" || String.eqb (VS_Status st) "Aborted") steps with
  | Some st => VS_Name st
  | None =>
      match List.find (λ st, String.eqb (VS_Status st) "Running") steps with
      | Some st => VS_Name st
      | None =>
          match next_pending false steps with
          | Some st => VS_Name st
          | None =>
              match steps with
              | [] => "build"
              | first :: rest =>
                  if String.eqb (VS_Status first) "Pending" then VS_Name first
                  else VS_Name (default first (last rest))
              end
          end
      end
  end.
(* Go: console/internal/server/server.go containerMemLimit *)
Definition containerMemLimit `{KubeLib} (pod : option Pod) (container : string) : Z :=
  match pod with
  | None => 0
  | Some pod =>
      match List.find (λ c, String.eqb (k_Name c) container)
              (p_InitContainers (pod_Spec pod) ++ p_Containers (pod_Spec pod)) with
      | Some c => match rr_Limits (k_Resources c) !! "memory" with Some mem => q_Value mem | None => 0 end
      | None => 0
      end
  end.
(* Go: console/internal/server/server.go dashOr *)
Definition dashOr (s : string) : string := if String.eqb s "" then "—" else s.

(* Go: console/internal/server/server.go ErrNoUser *)
Definition ErrNoUser : error := errorf "no authenticated user header".
(* Go: console/internal/server/server.go logTailLines *)
Definition logTailLines : Z := 5000.

(** Libraries: [sigs.k8s.io/yaml] and Chroma. *)
Class PageLib := {
  yaml_Marshal : umap → result string;
  chroma_tokens : Type;
  chroma_tokenise : option (string → result chroma_tokens);
  chroma_format : chroma_tokens → result string;
}.
Definition some_pages : PageLib := {|
  yaml_Marshal _ := Ok "spec: {}"; chroma_tokens := string;
  chroma_tokenise := None; chroma_format := Ok |}.

(* Go: console/internal/server/server.go Server *)
Record Server := MkServer {
  S_apps : AppPatcher; S_pods : option PodReader; S_tailer : option LokiTailer; S_metrics : option PodMetricser;
}.

(** ** Handlers *)
Section handlers.
Context `{GoRuntime} `{MapOrder} `{KubeLib} `{CronNext} `{FloatLib} `{UnstructuredLib} `{PageLib}.
Context (s : Server).

(* Go: console/internal/server/server.go renderError *)
Definition renderError (r : request) (code : Z) (msg : string) (err : error) : cprog response :=
  do (AttachError msg err);;
  mret (MkResponse code (PError (MkErrorData (MkHead "Error" (UserFrom r) false false) msg (err_text err) code))).

(* Go: console/internal/server/server.go handleHealthz *)
Definition handleHealthz : cprog response := mret (MkResponse 200 (PText "ok")).
(* Go: console/internal/server/server.go handleSignedOut *)
Definition handleSignedOut : cprog response := mret (render (PSignedOut (MkHead "Signed out" "" true false))).
Definition http_NotFound : response := MkResponse 404 (PPlain "404 page not found").

(* Go: console/internal/server/server.go handleList *)
Definition handleList (r : request) : cprog (outcome response) :=
  if negb (String.eqb (r_Path r) "/") then mret (Val http_NotFound)
  else
    synced ← ap_Synced (S_apps s);
    if negb synced then mret (Val (render (PList (warming_page (MkHead "Apps" (UserFrom r) false false)))))
    else
      apps ← ap_List (S_apps s);
      match apps with
      | Err err => resp ← renderError r 502 "Could not list Apps" err; mret (Val resp)
      | Ok apps =>
          stale ← ap_Stale (S_apps s);
          mret (match list_page (UserFrom r) stale (r_Query r) apps with
                | Val d => Val (render (PList d))
                | Panic => Panic
                end)
      end.

(** [getApp]: the object, or the not-found page. *)
(* Go: console/internal/server/server.go getApp *)
Definition getApp (r : request) (ns name : string) (k : umap → cprog response) : cprog response :=
  obj ← ap_Get (S_apps s) ns name;
  match obj with
  | Err err => renderError r 404 "App not found" err
  | Ok o => k o
  end.

(** [view.FromUnstructured(obj)] *)
Definition view_of (o : umap) : cprog View.App := now ← do CNow; mret (FromUnstructured now o).

Definition unavailable (app : View.App) : View.App := app <| VA_BuildMetricsNote := "metrics unavailable" |>.
(* Go: console/internal/server/server.go attachBuildMetrics @531-547 *)
Definition build_metrics (pod : Pod) (container : string) (usage : ContainerUsage) : BuildMetrics :=
  let memLim := containerMemLimit (Some pod) container in
  let '(pct, over) := StorageBar (CU_MemoryBytes usage) memLim in
  let bar := negb (pct =? StorageBarNoBar) in
  MkBuildMetrics container (CU_MemoryBytes usage) (HumanizeBytes (CU_MemoryBytes usage)) memLim
    (if 0 <? memLim then HumanizeBytes memLim else "")
    (if bar then pct else 0) (if bar then over else false) bar.
(* Go: console/internal/server/server.go attachBuildMetrics *)
Definition attachBuildMetrics (ns : string) (app : View.App) : cprog View.App :=
  match S_metrics s, S_pods s with
  | Some metrics, Some pods =>
      if negb (BuildActive app) || String.eqb (VB_PodName (VA_Build app)) "" then mret app
      else
        let container := defaultContainer (containerSteps (VA_Build app)) in
        pod ← pr_GetPod pods ns (VB_PodName (VA_Build app));
        match pod with
        | Err _ => mret (unavailable app)
        | Ok pod =>
            usages ← pm_PodMetrics metrics (p_NodeName (pod_Spec pod)) ns (VB_PodName (VA_Build app));
            match usages with
            | Err _ => mret (unavailable app)
            | Ok m => match m !! container with
                      | None => mret (unavailable app)
                      | Some usage =>
                          mret (app <| VA_BuildMetrics := Some (build_metrics pod container usage) |>)
                      end
            end
        end
  | _, _ => mret app
  end.

(* Go: console/internal/server/server.go handleDetail *)
Definition handleDetail (r : request) (ns name : string) : cprog response :=
  getApp r ns name (λ o,
    app ← view_of o;
    app ← attachBuildMetrics ns app;
    mret (render (PDetail (MkDetail (MkHead name (UserFrom r) false true) app
      (String.eqb (Get (r_Query r) "rebuild") "requested") (Get (r_Query r) "cleanup"))))).
(* Go: console/internal/server/server.go handlePartial *)
Definition handlePartial (r : request) (ns name : string) : cprog response :=
  getApp r ns name (λ o,
    app ← view_of o;
    app ← attachBuildMetrics ns app;
    mret (render (PPartial app))).
(* Go: console/internal/server/server.go handleManifest *)
Definition handleManifest (r : request) (ns name : string) : cprog response :=
  getApp r ns name (λ o,
    let '(pruned, masked) := pruneManifest o in
    match yaml_Marshal pruned with
    | Err err => renderError r 500 "Could not render manifest" err
    | Ok raw => mret (render (PManifest (MkManifest (MkHead (name +:+ " · manifest") (UserFrom r) false true)
        ns name (highlightYAML chroma_tokens chroma_tokenise chroma_format raw) masked (setupHint o))))
    end).

(* Go: console/internal/server/server.go podLines *)
Definition podLines (ns pod container : string) : cprog (result (list string)) :=
  match S_pods s with
  | None => mret (Err (errorf "pod reader unavailable"))
  | Some pods => pr_PodLogTail pods ns pod container logTailLines
  end.
(** [data.Lines, data.FetchErr = f()] *)
Definition fetched (data : logpaneData) (lines : result (list string)) : logpaneData :=
  match lines with
  | Ok l => data <| LP_Lines := l |>
  | Err e => data <| LP_FetchErr := Some e |>
  end.
Definition in_progress (rec : Build) (isCurrent : bool) : bool :=
  isCurrent && (String.eqb (VB_Phase rec) "Running" || String.eqb (VB_Phase rec) "Pending") &&
  String.eqb (VB_CompletionTime rec) "".
Definition loki_configured : bool := match S_tailer s with Some t => lt_Configured t | None => false end.
Definition fold_error (data : logpaneData) : logpaneData :=
  match LP_FetchErr data with
  | Some e => data <| LP_Unavailable := "logs unavailable — " +:+ err_text e |>
  | None => data
  end.
(* Go: console/internal/server/server.go resolveLogs *)
Definition resolveLogs (ns : string) (rec : Build) (isCurrent : bool) (container : string) (steps : list Step)
    : cprog logpaneData :=
  let data := MkLogpane ns rec container steps "" [] "" None false false false in
  podRetained ← match S_pods s with
                | Some pods => if negb (String.eqb (VB_PodName rec) "")
                               then p ← pr_GetPod pods ns (VB_PodName rec); mret (is_ok p) else mret false
                | None => mret false
                end;
  data ← match ResolveLogSource (in_progress rec isCurrent) loki_configured podRetained with
         | SourceLivePod =>
             lines ← podLines ns (VB_PodName rec) container;
             mret (fetched (data <| LP_SourceNote := "live pod" |>) lines)
         | SourcePodFallback =>
             lines ← podLines ns (VB_PodName rec) container;
             mret (fetched (data <| LP_SourceNote := "pod (Loki unavailable)" |>) lines)
         | SourceLoki =>
             now ← do CNow;
             let start := default zero_time (ParseRFC3339 (VB_StartTime rec)) in
             let end_ := if negb (String.eqb (VB_CompletionTime rec) "")
                         then default now (ParseRFC3339 (VB_CompletionTime rec)) else now in
             match S_tailer s with
             | Some t => lines ← lt_Tail t ns (VB_PodName rec) container start end_ logTailLines;
                         mret (fetched (data <| LP_SourceNote := "Loki" |>) lines)
             | None => mret data
             end
         | SourceUnavailable =>
             mret (data <| LP_Unavailable :=
               if String.eqb (VB_JobName rec) "" && String.eqb (VB_PodName rec) ""
               then "no builds yet — logs will appear when the first build starts"
               else "logs unavailable — job " +:+ dashOr (VB_JobName rec) +:+ " / pod " +:+ dashOr (VB_PodName rec) |>)
         end;
  mret (fold_error data).

(* Go: console/internal/server/server.go handleLogs *)
Definition handleLogs (r : request) (ns name : string) : cprog response :=
  getApp r ns name (λ o,
    app ← view_of o;
    let follow := String.eqb (Get (r_Query r) "follow") "1" in
    let build := if follow then "current" else Get (r_Query r) "build" in
    match pickBuild app build with
    | None => renderError r 404 "build not found" (errorf ("no build matches " +:+ build))
    | Some (rec, isCurrent) =>
        let steps := containerSteps rec in
        let container := Get (r_Query r) "container" in
        let container := if follow || negb (validContainer steps container) then defaultContainer steps else container in
        data ← resolveLogs ns rec isCurrent container steps;
        mret (render (PLogpane (data <| LP_Follow := follow |> <| LP_AppActive := BuildActive app |>
          <| LP_IsCurrent := isCurrent |>)))
    end).

(** The three write routes differ in the request, the message and the flag. *)
(* Go: console/internal/server/server.go handleRebuild *)
Definition write_route (request_ : string → string → string → cprog (result unit)) (failed flag : string)
    (r : request) (ns name : string) : cprog response :=
  let user := UserFrom r in
  if String.eqb user "" then renderError r 401 "No authenticated user" ErrNoUser
  else
    res ← request_ ns name user;
    match res with
    | Err err => renderError r 502 failed err
    | Ok _ => mret (MkResponse 303 (PRedirect ("/ns/" +:+ ns +:+ "/app/" +:+ name +:+ "?" +:+ flag)))
    end.
(* Go: console/internal/server/server.go handleRebuild *)
Definition handleRebuild : request → string → string → cprog response :=
  write_route (ap_RequestRebuild (S_apps s)) "Rebuild request failed" "rebuild=requested".
(* Go: console/internal/server/server.go handleCleanupCache *)
Definition handleCleanupCache : request → string → string → cprog response :=
  write_route (ap_RequestCleanupCache (S_apps s)) "Cache cleanup request failed" "cleanup=cache".
(* Go: console/internal/server/server.go handleCleanupReleases *)
Definition handleCleanupReleases : request → string → string → cprog response :=
  write_route (ap_RequestCleanupReleases (S_apps s)) "Release cleanup request failed" "cleanup=releases".

(** [ServeMux]: the most specific pattern of the method; HEAD counts as GET; a path
    that only patterns of other methods match is refused.  Every path matches [GET /]. *)
Definition is_get (r : request) : bool := String.eqb (r_Method r) "GET" || String.eqb (r_Method r) "HEAD".
Definition method_not_allowed : response := MkResponse 405 (PPlain "Method Not Allowed").
Definition pages (p : cprog response) : cprog (outcome response) := resp ← p; mret (Val resp).
(** The paths under an App: [/ns/{namespace}/app/{name}], and with one more segment. *)
Definition app_path (segs : list string) : option (string * string * option string) :=
  match segs with
  | [a; ns; b; name] => if String.eqb a "ns" && String.eqb b "app" then Some (ns, name, None) else None
  | [a; ns; b; name; act] => if String.eqb a "ns" && String.eqb b "app" then Some (ns, name, Some act) else None
  | _ => None
  end.
Definition acts (act : option string) (s : string) : bool := bool_decide (act = Some s).
(* Go: console/internal/server/server.go Routes *)
Definition Routes (r : request) : cprog (outcome response) :=
  if is_get r then
    if bool_decide (r_Segments r = ["healthz"]) then pages handleHealthz
    else if bool_decide (r_Segments r = ["signed-out"]) then pages handleSignedOut
    else match app_path (r_Segments r) with
         | Some (ns, name, act) =>
             if bool_decide (act = None) then pages (handleDetail r ns name)
             else if acts act "manifest" then pages (handleManifest r ns name)
             else if acts act "partial" then pages (handlePartial r ns name)
             else if acts act "logs" then pages (handleLogs r ns name)
             else handleList r
         | None => handleList r
         end
  else if String.eqb (r_Method r) "POST" then
    match app_path (r_Segments r) with
    | Some (ns, name, act) =>
        if acts act "rebuild" then pages (handleRebuild r ns name)
        else if acts act "cleanup-cache" then pages (handleCleanupCache r ns name)
        else if acts act "cleanup-releases" then pages (handleCleanupReleases r ns name)
        else mret (Val method_not_allowed)
    | None => mret (Val method_not_allowed)
    end
  else mret (Val method_not_allowed).
End handlers.
