(* ===== verification/ServerSpec.v ===== *)
(** What the console's handlers guarantee, for the server wired as console/cmd/console
    wires it. *)
From Stdlib Require Import ZArith Ascii String SpecFloat.
From stdpp Require Import base gmap strings list numbers sorting.
From S2P Require Import Prelude GoStd GoNum GoTime GoSort Images RepoHost BuildSpec AppTypes Kube Config BuildSteps Naming GitCred BuildPod Free Unstructured Humanize View ViewMap AppJson ViewSpec GoUrl ListPage ConsoleCalls ConsoleClient Loki LogView Manifest Server.

Open Scope string_scope.
Open Scope list_scope.
Open Scope Z_scope.

(** ** The production server *)
(* Go: console/internal/server/server.go New *)
Definition New (apps : AppPatcher) (pods : option PodReader) (tailer : option LokiTailer) (metrics : option PodMetricser)
    : Server := MkServer apps pods tailer metrics.

Section production.
Context `{GoRuntime} `{MapOrder} `{KubeLib} `{CronNext} `{FloatLib} `{UnstructuredLib} `{PageLib}.

(** The wiring of [main]: one client for Apps, pods and metrics, and the Loki client. *)
(* Go: console/cmd/console/main.go main *)
Definition production (loki : Loki.Config) : Server :=
  New k8s_apps (Some (k8s_pods true)) (Some (loki_tailer (Some loki))) (Some (k8s_metrics true)).

Lemma pages_calls P p : calls P p → calls P (pages p).
Proof. intros Hp. apply calls_bind; [done|]. done. Qed.

(** ** Handlers of GET routes only read *)
Section reads.
Context (s : Server).
Context `{!ReadOnlyApps (S_apps s)}.
Context (Hpods : ∀ p, S_pods s = Some p → ReadOnlyPods p).
Context (Htail : ∀ t, S_tailer s = Some t → ReadOnlyTailer t).
Context (Hmetrics : ∀ m, S_metrics s = Some m → ReadOnlyMetrics m).
Set Default Proof Using "All".

Lemma renderError_reads r code msg err : calls reads (renderError r code msg err).
Proof. by repeat split. Qed.
Lemma getApp_reads r ns name k : (∀ o, calls reads (k o)) → calls reads (getApp s r ns name k).
Proof.
  intros Hk. apply calls_bind; [apply get_reads|]. intros [o|e]; [apply Hk|apply renderError_reads].
Qed.
Lemma view_of_reads o : calls reads (view_of o).
Proof. by repeat split. Qed.
Lemma attachBuildMetrics_reads ns app : calls reads (attachBuildMetrics s ns app).
Proof.
  unfold attachBuildMetrics. destruct (S_metrics s) as [m|] eqn:Em; [|done]. destruct (S_pods s) as [p|] eqn:Ep; [|done].
  destruct (Hpods p eq_refl), (Hmetrics m eq_refl). case_match; [done|].
  apply calls_bind; [done|]. intros [pod|e]; [|done]. apply calls_bind; [done|]. intros [us|e]; [|done]. by case_match.
Qed.
Lemma podLines_reads ns pod c : calls reads (podLines s ns pod c).
Proof. unfold podLines. destruct (S_pods s) as [p|] eqn:Ep; [|done]. by destruct (Hpods p eq_refl). Qed.
Lemma resolveLogs_reads ns rec cur c steps : calls reads (resolveLogs s ns rec cur c steps).
Proof.
  unfold resolveLogs. apply calls_bind.
  { destruct (S_pods s) as [p|] eqn:Ep; [|done]. destruct (Hpods p eq_refl). case_match; [|done].
    apply calls_bind; [done|]. done. }
  intros retained. apply calls_bind; [|done]. destruct (ResolveLogSource _ _ _).
  - apply calls_bind; [apply podLines_reads|]. done.
  - split; [done|]. intros now. destruct (S_tailer s) as [t|] eqn:Et; [|done]. destruct (Htail t eq_refl).
    apply calls_bind; [done|]. done.
  - apply calls_bind; [apply podLines_reads|]. done.
  - done.
Qed.
Lemma handleLogs_reads r ns name : calls reads (handleLogs s r ns name).
Proof.
  apply getApp_reads. intros o. apply calls_bind; [apply view_of_reads|]. intros app.
  cbv zeta. match goal with |- context [pickBuild app ?b] => destruct (pickBuild app b) as [[rec cur]|] end;
    [|apply renderError_reads].
  apply calls_bind; [apply resolveLogs_reads|]. done.
Qed.
Lemma handleList_reads r : calls reads (handleList s r).
Proof.
  unfold handleList. case_match; [done|]. apply calls_bind; [apply synced_reads|]. intros synced. case_match; [done|].
  apply calls_bind; [apply list_reads|]. intros [apps|e].
  - apply calls_bind; [apply stale_reads|]. done.
  - apply calls_bind; [apply renderError_reads|]. done.
Qed.
Lemma handleManifest_reads r ns name : calls reads (handleManifest s r ns name).
Proof.
  apply getApp_reads. intros o. destruct (pruneManifest o). destruct (yaml_Marshal _); [done|apply renderError_reads].
Qed.
Lemma handleDetail_reads r ns name : calls reads (handleDetail s r ns name).
Proof.
  apply getApp_reads. intros o. apply calls_bind; [apply view_of_reads|]. intros app.
  apply calls_bind; [apply attachBuildMetrics_reads|]. done.
Qed.
Lemma handlePartial_reads r ns name : calls reads (handlePartial s r ns name).
Proof.
  apply getApp_reads. intros o. apply calls_bind; [apply view_of_reads|]. intros app.
  apply calls_bind; [apply attachBuildMetrics_reads|]. done.
Qed.
End reads.

(** ** Writes *)
(** The patches of a run. *)
Definition patch_of (e : event ccall) : option (string * string * string) :=
  match e with Ev c r => match c in ccall R return R → _ with
    | MergePatch ns name body => λ _, Some (ns, name, body) | _ => λ _, None end r end.
Definition accepted (e : event ccall) : bool :=
  match e with Ev c r => match c in ccall R return R → _ with
    | MergePatch _ _ _ => λ r, is_ok r | _ => λ _, true end r end.

(** The patch a request asks for: who asks comes from the proxy's header, what for from
    the path, and the body says only that. *)
Definition asks_for (r : request) (ns name body : string) : Prop :=
  r_Method r = "POST" ∧ UserFrom r ≠ "" ∧ ∃ now,
    (r_Segments r = ["ns"; ns; "app"; name; "rebuild"] ∧ body = rebuildPatch (UserFrom r) now) ∨
    (r_Segments r = ["ns"; ns; "app"; name; "cleanup-cache"] ∧
       body = cleanupPatch AnnotationCleanupCacheRequestedAt AnnotationCleanupCacheBy (UserFrom r) now) ∨
    (r_Segments r = ["ns"; ns; "app"; name; "cleanup-releases"] ∧
       body = cleanupPatch AnnotationCleanupReleasesRequestedAt AnnotationCleanupReleasesBy (UserFrom r) now).

(** What may have been sent, and what the answer says about it. *)
Definition lawful (r : request) (tr : list (event ccall)) (resp : outcome response) : Prop :=
  (omap patch_of tr = [] ∧ ∀ p, resp = Val p → rs_Status p ≠ 303) ∨
  (∃ ns name body, omap patch_of tr = [(ns, name, body)] ∧ asks_for r ns name body ∧
     ∃ p, resp = Val p ∧ (rs_Status p = 303 ↔ forallb accepted tr = true)).

Lemma reads_no_patches tr : Forall (λ e, match e with Ev c _ => reads _ c end) tr → omap patch_of tr = [].
Proof. induction 1 as [|[R c r] tr Hc _ IH]; [done|]. cbn. by destruct c. Qed.

Definition not_redirect (o : outcome response) : Prop := ∀ p, o = Val p → rs_Status p ≠ 303.
Lemma lawful_reads r p tr resp : calls reads p → returns p not_redirect → run p tr resp → lawful r tr resp.
Proof.
  intros Hc Hr Hrun. left. split.
  - by eapply reads_no_patches, calls_run.
  - exact (returns_run p not_redirect tr resp Hr Hrun).
Qed.

Lemma lawful_write r ns name request_ failed flag (body : string → Z → string) text tr resp :
  (∀ ns name user, request_ ns name user =
     (now ← do CNow; wrapping (text ns name) (do (MergePatch ns name (body user now))))) →
  (∀ now, UserFrom r ≠ "" → asks_for r ns name (body (UserFrom r) now)) →
  run (pages (write_route request_ failed flag r ns name)) tr resp → lawful r tr resp.
Proof.
  intros Hreq Hasks Hrun. unfold write_route in Hrun. cbv zeta in Hrun.
  destruct (String.eqb_spec (UserFrom r) "") as [Hu|Hu].
  - eapply lawful_reads, Hrun; [by repeat split|]. intros ? p [= <-]. done.
  - rewrite Hreq in Hrun. refine (all_runs_run _ (lawful r) _ _ _ Hrun).
    intros now [[]|e]; cbn.
    + right. do 3 eexists. split; [done|]. split; [by apply Hasks|]. eexists. split; [done|]. by cbn.
    + intros []. right. do 3 eexists. split; [done|]. split; [by apply Hasks|]. eexists. split; [done|]. by cbn.
Qed.

(** No page of a GET route is a redirect. *)
Definition plain (p : response) : Prop := rs_Status p ≠ 303.
Lemma returns_pages p : returns p plain → returns (pages p) not_redirect.
Proof. intros Hp. apply returns_bind. eapply returns_mono, Hp. by intros q Hq q' [= <-]. Qed.
Lemma returns_then {A B} (p : cprog A) (f : A → cprog B) Q : (∀ a, returns (f a) Q) → returns (p ≫= f) Q.
Proof. intros Hf. apply returns_bind. eapply returns_mono, returns_any. by intros a _. Qed.
Lemma getApp_plain s r ns name k : (∀ o, returns (k o) plain) → returns (getApp s r ns name k) plain.
Proof. intros Hk. apply returns_then. intros [o|e]; [apply Hk|]. by intros []. Qed.

Lemma handleList_plain s r : returns (handleList s r) not_redirect.
Proof.
  unfold handleList. case_match; [by intros p [= <-]|]. apply returns_then. intros synced.
  case_match; [by intros p [= <-]|]. apply returns_then. intros [apps|e].
  - apply returns_then. intros stale p. cbn. case_match; by intros [= <-].
  - intros [] p [= <-]. done.
Qed.
Lemma get_pages_plain s r ns name :
  returns (handleDetail s r ns name) plain ∧ returns (handlePartial s r ns name) plain ∧
  returns (handleManifest s r ns name) plain ∧ returns (handleLogs s r ns name) plain.
Proof.
  split_and!; apply getApp_plain; intros o.
  - by do 2 (apply returns_then; intros ?).
  - by do 2 (apply returns_then; intros ?).
  - destruct (pruneManifest o), (yaml_Marshal _); [done|by intros []].
  - apply returns_then. intros app. cbv zeta.
    match goal with |- context [pickBuild app ?b] => destruct (pickBuild app b) as [[rec cur]|] end; [|by intros []].
    by apply returns_then.
Qed.

Lemma app_path_inv segs ns name act : app_path segs = Some (ns, name, Some act) → segs = ["ns"; ns; "app"; name; act].
Proof.
  unfold app_path. destruct segs as [|a [|n [|b [|m [|c [|]]]]]]; try done; case_match eqn:E; try done.
  apply andb_true_iff in E as [->%String.eqb_eq ->%String.eqb_eq]. by intros [= -> -> ->].
Qed.

(** C12: the console writes annotations and nothing else: whatever requests it serves, a
    run of the server sends no patch to the cluster, or one, and that one only for a POST
    with a user from the proxy, on the App of the path, with the body of the button that
    was pressed.  The browser is redirected exactly when that patch was accepted. *)
Theorem console_writes loki r tr resp : run (Routes (production loki) r) tr resp → lawful r tr resp.
Proof.
  pose proof (k8s_pods_reads true) as Hp. pose proof (k8s_metrics_reads true) as Hm.
  pose proof (loki_tailer_reads (Some loki)) as Ht. pose proof k8s_apps_reads as Ha.
  set (s := production loki).
  assert (Hpods : ∀ p, S_pods s = Some p → ReadOnlyPods p) by (by intros p [= <-]).
  assert (Htail : ∀ t, S_tailer s = Some t → ReadOnlyTailer t) by (by intros t [= <-]).
  assert (Hmetrics : ∀ m, S_metrics s = Some m → ReadOnlyMetrics m) by (by intros m [= <-]).
  assert (Hget : ∀ p tr resp, calls reads p → returns p plain → run (pages p) tr resp → lawful r tr resp).
  { intros p tr' resp' Hc Hr. apply lawful_reads; [by apply pages_calls|by apply returns_pages]. }
  assert (Hlist : run (handleList s r) tr resp → lawful r tr resp).
  { apply lawful_reads; [by apply handleList_reads|apply handleList_plain]. }
  unfold Routes. destruct (is_get r).
  - case_bool_decide; [by apply Hget|]. case_bool_decide; [by apply Hget|].
    destruct (app_path (r_Segments r)) as [[[ns name] act]|]; [|done].
    destruct (get_pages_plain s r ns name) as (Hd & Hpa & Hma & Hl).
    repeat (case_match; [apply Hget; [|done]; eauto using handleDetail_reads, handlePartial_reads, handleManifest_reads, handleLogs_reads|]); done.
  - assert (Hno : run (mret (Val method_not_allowed)) tr resp → lawful r tr resp).
    { apply lawful_reads; [done|]. by intros p [= <-]. }
    destruct (String.eqb_spec (r_Method r) "POST") as [HP|]; [|done].
    destruct (app_path (r_Segments r)) as [[[ns name] act]|] eqn:E; [|done].
    assert (Hseg : ∀ a, act = Some a → r_Segments r = ["ns"; ns; "app"; name; a]) by (intros a ->; by apply app_path_inv).
    unfold acts. case_bool_decide as H1'; [|case_bool_decide as H2'; [|case_bool_decide as H3'; [|done]]].
    all: eapply lawful_write; [done|intros now Hu; split; [done|split; [done|]]; exists now; rewrite (Hseg _ ltac:(done)); tauto].
Qed.

(** ** The detail page *)
Definition without_metrics (a : View.App) : View.App :=
  a <| VA_BuildMetrics := None |> <| VA_BuildMetricsNote := "" |>.
Lemma attachBuildMetrics_only s ns app :
  returns (attachBuildMetrics s ns app) (λ app', without_metrics app' = without_metrics app).
Proof.
  unfold attachBuildMetrics. destruct (S_metrics s) as [m|]; [|done]. destruct (S_pods s) as [p|]; [|done].
  case_match; [done|]. apply returns_then. intros [pod|e]; [|done]. apply returns_then. intros [us|e]; [|done].
  by case_match.
Qed.

(** Answers of a cluster that holds [app] where the console looks. *)
Definition holds_app (app : AppTypes.App) (R : Type) (c : ccall R) : R → Prop :=
  match c in ccall R return R → Prop with GetObject _ _ => λ r, r = Ok (json_App app) | _ => λ _, True end.

(** C13: the detail page is the operator's status: with the App stored as the operator
    writes it, the page (and the fragment its poller fetches) is rendered with status 200
    whatever the pods, the kubelet and the metrics answer, and shows exactly the
    operator's record, live memory figures aside. *)
Theorem detail_shows_status loki r ns name app tr resp :
  om_Name (app_Meta app) ≠ "" → om_Namespace (app_Meta app) ≠ "" →
  Forall (λ e, match e with Ev c a => holds_app app _ c a end) tr →
  (run (handleDetail (production loki) r ns name) tr resp →
     ∃ d now, resp = MkResponse 200 (PDetail d) ∧ without_metrics (DD_App d) = shows_app now app) ∧
  (run (handlePartial (production loki) r ns name) tr resp →
     ∃ a now, resp = MkResponse 200 (PPartial a) ∧ without_metrics a = shows_app now app).
Proof.
  intros Hn Hns Htr. set (s := production loki).
  assert (Hview : ∀ k : View.App → cprog response, ∀ Q,
    (∀ now, returns (k (shows_app now app)) Q) →
    returns_given (holds_app app) (getApp s r ns name (λ o, a ← view_of o; k a)) Q).
  { intros k Q Hk. apply given_bind. intros res ->.
    change (∀ now : Z, True → returns_given (holds_app app) (k (FromUnstructured now (json_App app))) Q). intros now _.
    rewrite console_shows_status by done. apply given_returns, Hk. }
  split; intros Hrun.
  - refine (given_run _ _ (λ resp, ∃ d now, resp = MkResponse 200 (PDetail d) ∧ without_metrics (DD_App d) = shows_app now app)
      _ _ (Hview _ _ _) Hrun Htr).
    intros now. apply returns_bind. eapply returns_mono, attachBuildMetrics_only. intros a Ha.
    apply returns_ret. eexists _, now. split; [reflexivity|exact Ha].
  - refine (given_run _ _ (λ resp, ∃ a now, resp = MkResponse 200 (PPartial a) ∧ without_metrics a = shows_app now app)
      _ _ (Hview _ _ _) Hrun Htr).
    intros now. apply returns_bind. eapply returns_mono, attachBuildMetrics_only. intros a Ha.
    apply returns_ret. eexists _, now. split; [reflexivity|exact Ha].
Qed.

(** ** The log pane *)
Lemma defaultContainer_valid steps : steps ≠ [] → validContainer steps (defaultContainer steps) = true.
Proof.
  intros Hne. assert (Hin : ∀ st, st ∈ steps → validContainer steps (VS_Name st) = true).
  { intros st Hst. apply existsb_elem. exists st. by rewrite String.eqb_refl. }
  assert (Hnp : ∀ l b st, next_pending b l = Some st → st ∈ l).
  { induction l as [|x l IH]; intros b st; cbn; [done|]. repeat case_match; intros; simplify_eq; set_solver. }
  unfold defaultContainer.
  destruct (List.find _ steps) as [x|] eqn:E1; [apply find_some_elem in E1 as [? _]; by apply Hin|].
  match goal with |- context [List.find ?f steps] => destruct (List.find f steps) as [y|] eqn:E2 end;
    [apply find_some_elem in E2 as [? _]; by apply Hin|].
  destruct (next_pending false steps) as [z|] eqn:E3; [by eapply Hin, Hnp|].
  destruct steps as [|first rest]; [done|]. case_match; [apply Hin; by left|].
  apply Hin. destruct (last rest) as [st|] eqn:El; [|by left]. right. by apply last_Some_elem_of.
Qed.
Lemma resolveLogs_pane s ns rec cur c steps :
  returns (resolveLogs s ns rec cur c steps) (λ d, LP_Build d = rec ∧ LP_Container d = c ∧ LP_Steps d = steps ∧ LP_Namespace d = ns).
Proof.
  unfold resolveLogs. apply returns_then. intros retained. apply returns_bind.
  assert (Hfold : ∀ d, LP_Build d = rec ∧ LP_Container d = c ∧ LP_Steps d = steps ∧ LP_Namespace d = ns →
    returns (mret (fold_error d) : cprog _) (λ d, LP_Build d = rec ∧ LP_Container d = c ∧ LP_Steps d = steps ∧ LP_Namespace d = ns)).
  { intros d Hd. apply returns_ret. unfold fold_error. by destruct (LP_FetchErr d). }
  destruct (ResolveLogSource _ _ _).
  1,3: apply returns_then; intros [l|e]; by apply Hfold.
  - intros now. destruct (S_tailer s) as [t|]; [|by apply Hfold]. apply returns_then. intros [l|e]; by apply Hfold.
  - by apply Hfold.
Qed.

(** The steps of an App's timeline, the synthetic one aside, are containers of its build
    pod. *)
Lemma pod_container_names rc app token d name :
  name ∈ k_Name <$> base_containers rc app token → ∃ c, c ∈ all_containers (buildPodSpec rc app token d) ∧ k_Name c = name.
Proof.
  intros (c & -> & Hc)%list_elem_of_fmap. unfold buildPodSpec.
  match goal with |- context [mount_credential ?p ?n ?a ?d] =>
    destruct (mount_credential_containers p n a d) as (f & -> & Hf) end.
  exists (f c). split; [|destruct (Hf c) as [->| ->]; [done|apply with_credential_name]].
  apply list_elem_of_fmap_2. unfold all_containers. cbn [p_InitContainers p_Containers]. by rewrite <-!app_assoc.
Qed.
Lemma setup_step rc app : setupRuns app = snd (effectiveSetup app (r_Config rc)).
Proof. unfold effectiveSetup. destruct (setupRuns app); cbn; [|done]. by case_match. Qed.
Lemma step_container rc app token name :
  name ∈ applicableSteps app → name ≠ releaseStepName → name ∈ k_Name <$> base_containers rc app token.
Proof.
  unfold applicableSteps, base_containers. rewrite (setup_step rc).
  destruct (snd (effectiveSetup app (r_Config rc))), (phaseConfigured (fps_PhaseSpec (app_Fetch app)));
    rewrite ?elem_of_app, ?elem_of_cons, ?elem_of_nil; intros; destruct_or!; subst; try done;
    by repeat (apply elem_of_cons; first [left; reflexivity|right]).
Qed.

Lemma pane_step b app rc token c : map st_Name (b_Steps b) = applicableSteps app →
  (containerSteps (shows_build b) ≠ [] → validContainer (containerSteps (shows_build b)) c = true) →
  c ∈ k_Name <$> base_containers rc app token.
Proof.
  intros Hsteps Hv. unfold containerSteps, shows_build in Hv. cbn [VB_Steps] in Hv.
  assert (Hne : List.filter (λ st, negb (String.eqb (VS_Name st) releaseStepName)) (map shows_step (b_Steps b)) ≠ []).
  { destruct (b_Steps b) as [|st l]; [done|]. injection Hsteps as Hst _. intros E. cbn in E. by rewrite Hst in E. }
  specialize (Hv Hne). apply existsb_elem in Hv as (st & Hst & <-%String.eqb_eq).
  apply list_elem_of_In, filter_In in Hst as [(x & <- & Hx)%in_map_iff Hr].
  apply step_container.
  - rewrite <-Hsteps. apply list_elem_of_In. by apply (in_map st_Name).
  - cbn in *. by apply negb_true_iff, String.eqb_neq in Hr.
Qed.
(** What the pane of a build may ask: the build's pod; the log of one container of it, or
    the same of Loki, whose selector names that namespace, pod and container. *)
Definition reads_log (ns pod container : string) (R : Type) (c : ccall R) : Prop :=
  match c with
  | GetCorePod ns' pod' => ns' = ns ∧ pod' = pod
  | OpenLogStream ns' pod' c' _ => ns' = ns ∧ pod' = pod ∧ c' = container
  | HttpDo req => ∃ q, rq_RawQuery req = Encode q ∧ Get q "query" = buildSelector ns pod container
  | MergePatch _ _ _ | GetNodeSummary _ => False
  | _ => True
  end.
(** A request that does not get to a log. *)
Definition no_log (R : Type) (c : ccall R) : Prop :=
  match c with GetObject _ _ | CNow | AttachError _ _ => True | _ => False end.
Lemma no_log_reads ns pod c R (call : ccall R) : no_log R call → reads_log ns pod c R call.
Proof. by destruct call. Qed.
Lemma query_selector q ns pod c start end_ limit :
  Get (query_values q ns pod c start end_ limit) "query" = buildSelector ns pod c.
Proof. unfold query_values, Get, Set_. destruct (negb (IsZero start)), (negb (IsZero end_)); by simplify_map_eq. Qed.
Lemma Tail_reads_log loki ns pod c start end_ limit : calls (reads_log ns pod c) (Tail loki ns pod c start end_ limit).
Proof.
  unfold Tail. destruct loki as [cfg|]; [|done]. case_match; [done|]. unfold buildRequest.
  split; [done|]. intros [q|e]; [|done]. split; [eexists; split; [done|apply query_selector]|].
  intros [status|e]; [|done]. split; [done|]. intros [body|e]; [|done]. cbn [free_bind free_bind_]. prog_walk.
Qed.
Lemma podLines_reads_log loki ns pod c : calls (reads_log ns pod c) (podLines (production loki) ns pod c).
Proof.
  unfold podLines. cbn [production New S_pods k8s_pods pr_PodLogTail]. unfold PodLogTail. cbn [negb].
  apply calls_try; [by apply calls_wrapping, calls_do|]. intros _.
  apply calls_try; [by apply calls_wrapping, calls_do|]. done.
Qed.
Lemma resolveLogs_reads_log loki ns rec cur c steps :
  calls (reads_log ns (VB_PodName rec) c) (resolveLogs (production loki) ns rec cur c steps).
Proof.
  unfold resolveLogs. apply calls_bind.
  { cbn [production New S_pods k8s_pods pr_GetPod]. destruct (negb _); [|done].
    apply calls_bind; [unfold GetPod; cbn [negb]; by apply calls_wrapping, calls_do|done]. }
  intros retained. apply calls_bind; [|done]. destruct (ResolveLogSource _ _ _); [| | |done].
  1,3: apply calls_bind; [apply podLines_reads_log|done].
  split; [done|]. intros now. cbn [free_bind_]. apply calls_bind; [apply Tail_reads_log|done].
Qed.


(** ** Following a build *)
Definition has_status (l : list string) (st : Step) : bool := existsb (String.eqb (VS_Status st)) l.
Lemma find_none_all {A} (f : A → bool) l : Forall (λ x, f x = false) l → List.find f l = None.
Proof. induction 1 as [|x l Hx Hl IH]; [done|]. cbn. by rewrite Hx. Qed.
Lemma find_app_none {A} (f : A → bool) l k : Forall (λ x, f x = false) l → List.find f (l ++ k) = List.find f k.
Proof. induction 1 as [|x l Hx Hl IH]; [done|]. cbn. by rewrite Hx. Qed.
Lemma next_pending_done b done_ k : Forall (λ st, VS_Status st = "Succeeded") done_ → done_ ≠ [] →
  next_pending b (done_ ++ k) = next_pending true k.
Proof.
  intros Hd. revert b. induction Hd as [|st l Hs Hl IH]; intros b Hne; [done|]. cbn. rewrite Hs. cbn.
  destruct l; [done|]. by apply IH.
Qed.
Lemma next_pending_none b l : Forall (λ st, VS_Status st = "Succeeded") l → next_pending b l = None.
Proof. intros Hl. revert b. induction Hl as [|st l Hs Hl IH]; intros b; cbn; [done|]. rewrite Hs. apply IH. Qed.

(** Follow mode shows the step that matters: on a timeline whose steps before one have
    succeeded and whose steps after it are pending, the log shown is that step's, be it
    running, failed, aborted or next in line; once all have succeeded it is the last. *)
Theorem follow_active done_ st rest :
  Forall (λ x, VS_Status x = "Succeeded") done_ → Forall (λ x, VS_Status x = "Pending") rest →
  (VS_Status st ∈ ["Running"; "Failed"; "Aborted"; "Pending"] →
     defaultContainer (done_ ++ st :: rest) = VS_Name st) ∧
  (VS_Status st = "Succeeded" → defaultContainer (done_ ++ [st]) = VS_Name st).
Proof.
  intros Hd Hr.
  assert (Hfd : ∀ f : string → bool, f "Succeeded" = false → Forall (λ x, f (VS_Status x) = false) done_).
  { intros f Hf. eapply Forall_impl; [exact Hd|]. by intros x ->. }
  assert (Hfr : ∀ f : string → bool, f "Pending" = false → Forall (λ x, f (VS_Status x) = false) rest).
  { intros f Hf. eapply Forall_impl; [exact Hr|]. by intros x ->. }
  assert (Hfind : ∀ f : string → bool, f "Succeeded" = false → f "Pending" = false →
    List.find (λ x, f (VS_Status x)) (done_ ++ st :: rest) = if f (VS_Status st) then Some st else None).
  { intros f H1' H2'. rewrite find_app_none by auto. cbn. case_match; [done|]. apply find_none_all; auto. }
  split.
  - intros Hs. unfold defaultContainer.
    rewrite (Hfind (λ x, String.eqb x "Failed" || String.eqb x "Aborted")) by done.
    rewrite (Hfind (λ x, String.eqb x "Running")) by done.
    rewrite !elem_of_cons in Hs. destruct Hs as [->|[->|[->|[Hs|[]%elem_of_nil]]]]; try done.
    rewrite Hs. cbn [String.eqb Ascii.eqb Bool.eqb orb]. destruct done_ as [|x l].
    + cbn. rewrite Hs. cbn. replace (next_pending false rest) with (@None Step); [done|].
      clear -Hr. induction Hr as [|y l Hy Hl IH]; [done|]. cbn. by rewrite Hy.
    + rewrite next_pending_done by done. cbn. by rewrite Hs.
  - intros Hs. unfold defaultContainer.
    assert (Hall : Forall (λ x, VS_Status x = "Succeeded") (done_ ++ [st])) by (apply Forall_app; auto).
    rewrite !find_none_all by (eapply Forall_impl; [exact Hall|]; by intros x ->).
    rewrite next_pending_none by done. destruct done_ as [|x l]; cbn [app].
    + by rewrite Hs.
    + inversion_clear Hd as [|?? Hx ?]. rewrite Hx. cbn [String.eqb Ascii.eqb Bool.eqb]. by rewrite last_snoc.
Qed.

(** ** The list page never panics *)
Definition cache_fits (R : Type) (c : ccall R) : R → Prop :=
  match c in ccall R return R → Prop with
  | ListCache => λ r, match r with Ok l => fits (length l) | Err _ => True end | _ => λ _, True end.
Lemma view_objects_length objs : returns (view_objects objs) (λ l, (length l <= length objs)%nat).
Proof.
  induction objs as [|[o|] objs IH]; cbn [view_objects]; [apply returns_ret; cbn; lia| |].
  - apply returns_then. intros a. apply returns_bind. eapply returns_mono, IH. intros l Hl.
    apply returns_ret. cbn [length] in *. lia.
  - eapply returns_mono, IH. intros l Hl. cbn [length] in *. lia.
Qed.
Theorem list_never_panics loki r : returns_given cache_fits (handleList (production loki) r) (λ o, o ≠ Panic).
Proof.
  unfold handleList. case_match; [done|]. apply given_bind. intros synced _. destruct synced; cbn [negb]; [|done].
  apply given_bind.
  assert (HL : returns_given cache_fits (ap_List (S_apps (production loki)))
    (λ r, match r with Ok l => fits (length l) | Err _ => True end)).
  { apply given_bind. intros [objs|e] Hf; [|done].
    change (returns_given cache_fits (view_objects objs ≫= λ apps, mret (Ok apps) : cprog (result (list View.App)))
      (λ r, match r with Ok l => fits (length l) | Err _ => True end)).
    apply given_returns, returns_bind. eapply returns_mono, view_objects_length. intros l Hl. apply returns_ret. unfold cache_fits, fits in *. lia. }
  eapply given_mono, HL. intros [apps|e] Hf; [|by intros [] _]. apply given_returns, returns_then. intros stale.
  apply returns_ret. by rewrite list_page_at.
Qed.
End production.
