(* ===== verification/SentryHttp.v ===== *)
(** console/internal/sentryhttp: the middleware that recovers panics and reports 5xx
    responses, its rate limiter and error carrier.

    A handler is what it does to the response: the writes it makes, the panic it ends in
    if any, and the error it attached.  An event is what is handed to the Sentry client. *)
From Stdlib Require Import ZArith Ascii String.
From stdpp Require Import base gmap strings list numbers sorting.
From S2P Require Import Prelude GoStd GoNum GoTime BuildSpec AppTypes Kube Free Prog Observability Images Unstructured Humanize View GoUrl ListPage ConsoleCalls LogView Manifest Server.

Open Scope string_scope.
Open Scope list_scope.
Open Scope Z_scope.

(** ** ratelimit.go *)
(* Go: console/internal/sentryhttp/ratelimit.go limitWindow *)
Definition limitWindow : Z := Hour.
(* Go: console/internal/sentryhttp/ratelimit.go pruneInterval *)
Definition pruneInterval : Z := Minute.
(* Go: console/internal/sentryhttp/ratelimit.go fingerprintLimiter *)
Record fingerprintLimiter := MkLimiter { lastSent : gmap string Z; lastPrune : Z }.
(* Go: console/internal/sentryhttp/ratelimit.go newFingerprintLimiter *)
Definition newFingerprintLimiter : fingerprintLimiter := MkLimiter ∅ zero_time.
(* Go: console/internal/sentryhttp/ratelimit.go allow *)
Definition allow (l : fingerprintLimiter) (now : Z) (fingerprint : list string) : fingerprintLimiter * bool :=
  let key := Join fingerprint (s1 (chr 0)) in
  let l := if pruneInterval <=? Sub now (lastPrune l)
           then MkLimiter (filter (λ kv, Sub now kv.2 < limitWindow) (lastSent l)) now else l in
  match lastSent l !! key with
  | Some sent => if Sub now sent <? limitWindow then (l, false)
                 else (MkLimiter (<[key := now]> (lastSent l)) (lastPrune l), true)
  | None => (MkLimiter (<[key := now]> (lastSent l)) (lastPrune l), true)
  end.

(** The console's limiter and the operator's are the same machine. *)
Definition to_operator (l : fingerprintLimiter) : Observability.fingerprintLimiter :=
  Observability.MkLimiter (lastSent l) (lastPrune l).
Lemma allow_operator l now fp :
  Observability.allow (to_operator l) now fp = (to_operator (allow l now fp).1, (allow l now fp).2).
Proof.
  unfold Observability.allow, allow, to_operator. destruct l as [sent prune]. cbn [l_lastSent l_lastPrune lastSent lastPrune].
  change Observability.pruneInterval with pruneInterval. change Observability.limitWindow with limitWindow.
  change (joinFingerprint fp) with (Join fp (s1 (chr 0))).
  destruct (pruneInterval <=? Sub now prune); cbn [l_lastSent l_lastPrune lastSent lastPrune];
    (match goal with |- context [?m !! ?k] => destruct (m !! k) as [t|] end);
    try destruct (Sub now t <? limitWindow); done.
Qed.

(** ** middleware.go *)
Inductive write := WriteHeader (code : Z) | WriteBody (b : string).
(** [statusRecorder]: the first status counts; a body without one means 200. *)
(* Go: console/internal/sentryhttp/middleware.go statusRecorder @17-37 *)
Definition record_status (status : Z) (w : write) : Z :=
  if status =? 0 then match w with WriteHeader code => code | WriteBody _ => 200 end else status.

Inductive panic_value := ErrAbortHandler | PanicError (e : error) | PanicOther (text : string).
(** [carrier]: what AttachError left. *)
(* Go: console/internal/sentryhttp/carrier.go carrier *)
Record carrier := MkCarrier { c_msg : string; c_err : option error }.
(* Go: console/internal/sentryhttp/carrier.go AttachError *)
Definition attach (planted : option carrier) (msg : string) (err : option error) : option carrier :=
  match planted with Some _ => Some (MkCarrier msg err) | None => None end.

Record handling := MkHandling {
  h_writes : list write; h_panic : option panic_value; h_attached : list (string * option error);
}.
Inductive event :=
| Exception (text : string)
| Message (msg : string) (status : Z) (fingerprint : list string) (user : string).
Inductive ending := Finished | Aborts.
Record handled := MkHandled {
  hd_limiter : fingerprintLimiter; hd_status : Z; hd_ending : ending; hd_events : list event;
}.

Definition fingerprint_of (r : request) (status : Z) : list string := [r_Method r; r_Path r; Itoa status].
Definition message_of (r : request) (status : Z) (c : option carrier) : string :=
  r_Method r +:+ " " +:+ r_Path r +:+ " -> " +:+ Itoa status +:+
  match c with
  | None => ""
  | Some c => (if negb (String.eqb (c_msg c) "") then ": " +:+ c_msg c else "") +:+
              match c_err c with Some e => ": " +:+ err_text e | None => "" end
  end.
(* Go: console/internal/sentryhttp/middleware.go wrapWithClock *)
Definition wrapWithClock (hub : bool) (l : fingerprintLimiter) (now : Z) (r : request) (h : handling) : handled :=
  let planted := if hub then Some (MkCarrier "" None) else None in
  let c := foldl (λ c '(msg, err), attach c msg err) planted (h_attached h) in
  let status := foldl record_status 0 (h_writes h) in
  match h_panic h with
  | Some ErrAbortHandler => MkHandled l status Aborts []
  | Some v =>
      let events := if hub then [Exception (match v with PanicError e => err_text e | PanicOther t => "panic: " +:+ t
                                            | ErrAbortHandler => "" end)] else [] in
      if status =? 0 then MkHandled l 500 Finished events else MkHandled l status Aborts events
  | None =>
      if hub && (500 <=? status) then
        let '(l, ok) := allow l now (fingerprint_of r status) in
        MkHandled l status Finished
          (if ok then [Message (message_of r status c) status (fingerprint_of r status) (UserFrom r)] else [])
      else MkHandled l status Finished []
  end.

(** ** Properties *)
Lemma record_status_nonzero l st : st ≠ 0 → foldl record_status st l = st.
Proof. intros Hs. induction l as [|w l IH]; [done|]. cbn [foldl].
  replace (record_status st w) with st; [done|]. unfold record_status. by rewrite (proj2 (Z.eqb_neq _ _) Hs).
Qed.

(** C40: a panic never takes the server down and is never mistaken for success: if nothing was
    sent yet the client gets a 500; otherwise the connection is aborted, so a truncated
    page is not taken for a whole one; the deliberate abort passes through unreported. *)
Theorem panics_contained hub l now r h v : h_panic h = Some v →
  let out := wrapWithClock hub l now r h in
  (v = ErrAbortHandler → hd_ending out = Aborts ∧ hd_events out = []) ∧
  (v ≠ ErrAbortHandler →
     length (hd_events out) = (if hub then 1 else 0)%nat ∧
     (h_writes h = [] → hd_ending out = Finished ∧ hd_status out = 500) ∧
     (hd_ending out = Finished → hd_status out = 500 ∨ hd_status out = 0) ∧
     (∀ w ws, h_writes h = w :: ws → w ≠ WriteHeader 0 → hd_ending out = Aborts)).
Proof.
  intros Hv. cbv zeta. unfold wrapWithClock. rewrite Hv. split; [by intros ->|]. intros Hne.
  assert (E : match v with ErrAbortHandler => True | _ => False end → False) by (by destruct v).
  set (st := foldl record_status 0 (h_writes h)).
  assert (Hout : ∀ (P : handled → Prop) ev, length ev = (if hub then 1 else 0)%nat →
    (st = 0 → P (MkHandled l 500 Finished ev)) → (st ≠ 0 → P (MkHandled l st Aborts ev)) →
    P (if st =? 0 then MkHandled l 500 Finished ev else MkHandled l st Aborts ev)).
  { intros P ev _ H1 H2. destruct (Z.eqb_spec st 0); auto. }
  assert (Hst : ∀ w ws, h_writes h = w :: ws → w ≠ WriteHeader 0 → st ≠ 0).
  { intros w ws Hw Hn. unfold st. rewrite Hw. cbn [foldl].
    destruct w as [code|b]; [change (record_status 0 (WriteHeader code)) with code|
      change (record_status 0 (WriteBody b)) with 200; by rewrite record_status_nonzero].
    destruct (decide (code = 0)) as [->|]; [done|by rewrite record_status_nonzero]. }
  destruct v; [done|..]; (apply Hout; [by destruct hub|..]); intros Hs; cbn; split_and!; try done; try (by destruct hub); auto;
    try (intros Hw; unfold st in Hs; by rewrite Hw in Hs); intros w ws Hw Hn; by eapply Hst in Hn.
Qed.
