(* ===== verification/ConsoleMain.v ===== *)
(** console/cmd/console/main.go and console/internal/sentryhttp/init.go: the console's
    start-up, as a program over the process and, through [OnK8s], over what the Kubernetes
    client asks for while it is built. *)
From Stdlib Require Import ZArith Ascii String SpecFloat.
From stdpp Require Import base gmap strings list numbers sorting.
From S2P Require Import Prelude GoStd GoNum GoTime GoSort Images RepoHost BuildSpec AppTypes Kube Config BuildSteps Naming GitCred BuildPod Free Unstructured Humanize View ViewMap AppJson ViewSpec GoUrl ListPage ConsoleCalls ConsoleClient Loki LogView Manifest Server ServerSpec ClientProc.

Open Scope string_scope.
Open Scope list_scope.
Open Scope Z_scope.

#[global] Instance LokiConfig_eq_dec : EqDecision Loki.Config.
Proof. solve_decision. Defined.

(** How [ListenAndServe] ends. *)
Inductive listen_error := ErrServerClosed | ListenFailed (text : string).
(** The HTTP server: its address, whether the middleware reports, the Loki configuration and
    the Kubernetes client behind its handlers, the header timeout. *)
Record http_server := MkHttpServer {
  hs_Addr : string; hs_hub : bool; hs_loki : Loki.Config; hs_client : Client; hs_ReadHeaderTimeout : Z;
}.
Inductive mcall : Type → Type :=
| OnK8s {R} (c : gcall R) : mcall R
| Getenv (key : string) : mcall string
| NewSentryClient (dsn environment release : string) : mcall (result unit)
| Logf (text : string) : mcall unit
| Flush (d : Z) : mcall unit
| Fatalf (text : string) : mcall unit
| ListenAndServe (srv : http_server) : mcall (option listen_error).
Notation mprog := (free mcall).
Fixpoint on_k8s {A} (p : gprog A) : mprog A :=
  match p with Ret _ a => mret a | Call _ c k => Call _ (OnK8s c) (λ r, on_k8s (k r)) end.

(** The handlers that are served: those of the production server when the client has a
    clientset. *)
Definition served `{GoRuntime} `{MapOrder} `{KubeLib} `{CronNext} `{FloatLib} `{UnstructuredLib}
    (srv : http_server) : Server :=
  let clientset := bool_decide (is_Some (c_clientset (hs_client srv))) in
  ServerSpec.New k8s_apps (Some (k8s_pods clientset)) (Some (loki_tailer (Some (hs_loki srv))))
    (Some (k8s_metrics clientset)).

Section main.
Context `{GoRuntime}.

(* Go: console/internal/sentryhttp/init.go InitFromEnv *)
Definition InitFromEnv : mprog (result bool) :=
  dsn ← do (Getenv "SENTRY_DSN");
  if String.eqb dsn "" then mret (Ok false)
  else
    environment ← do (Getenv "SENTRY_ENVIRONMENT");
    release ← do (Getenv "SENTRY_RELEASE");
    r ← do (NewSentryClient dsn environment release);
    mret (match r with Err e => Err (wrapf "init sentry: " e) | Ok _ => Ok true end).
(** The process has ended when [Fatalf] returns. *)
(* Go: console/cmd/console/main.go fatalf *)
Definition fatalf (hub : bool) (text : string) : mprog Z :=
  (if hub then do (Flush (2 * Second)) else mret tt);; do (Fatalf text);; mret 1.
(* Go: console/cmd/console/main.go main @50-56 *)
Definition loki_from_env : mprog Loki.Config :=
  url ← do (Getenv "LOKI_URL");
  user ← do (Getenv "LOKI_BASIC_AUTH_USER");
  pass ← do (Getenv "LOKI_BASIC_AUTH_PASS");
  token ← do (Getenv "LOKI_BEARER_TOKEN");
  tenant ← do (Getenv "LOKI_TENANT_ID");
  mret (Loki.MkConfig url user pass token tenant).
(** The second half of [main]: the clients and the server. *)
(* Go: console/cmd/console/main.go main @44-66 *)
Definition serve (addr : string) (hub : bool) : mprog Z :=
  r ← on_k8s ClientProc.New;
  match r with
  | Err e => fatalf hub ("console: kubernetes client: " +:+ err_text e)
  | Ok client =>
      lokiClient ← loki_from_env;
      let srv := MkHttpServer addr hub lokiClient client (10 * Second) in
      do (Logf ("console: listening on " +:+ addr));;
      err ← do (ListenAndServe srv);
      match err with
      | Some (ListenFailed text) => fatalf hub ("console: server: " +:+ text)
      | _ => mret 0
      end
  end.
(** The exit code of the process. *)
(* Go: console/cmd/console/main.go main *)
Definition main : mprog Z :=
  addr ← do (Getenv "LISTEN_ADDR");
  let addr := if String.eqb addr "" then ":8080" else addr in
  r ← InitFromEnv;
  (match r with Err e => do (Logf ("console: sentry disabled: " +:+ err_text e)) | Ok _ => mret tt end);;
  serve addr (match r with Ok hub => hub | Err _ => false end).
End main.

(** ** Start-up *)
(** What a run has established. *)
Record progress := MkProgress {
  p_env : gmap string string;      (* the environment as read *)
  p_hub : bool;                    (* reporting is on *)
  p_config : option handle;        (* the connection that was found *)
  p_clients : option handle * option handle;  (* the dynamic client and the clientset, for it *)
  p_handler : bool;                (* the watch-error handler is set *)
  p_stop : option chan;            (* the informer runs, stopped by this channel *)
  p_served : option bool;          (* the server ended, in order or not *)
  p_flushed : bool; p_fatal : bool;
}.
#[global] Instance eta_progress : Eta progress := λ x, MkProgress (p_env x) (p_hub x) (p_config x) (p_clients x)
  (p_handler x) (p_stop x) (p_served x) (p_flushed x) (p_fatal x).
Definition nothing_yet : progress := MkProgress ∅ false None (None, None) false None None false false.
Definition env_of (s : progress) (key : string) : string := default "" (p_env s !! key).
Definition check (b : bool) (s : progress) : option progress := if b then Some s else None.
(** The server the environment asks for, behind a complete client whose informer runs. *)
Definition serves (s : progress) (srv : http_server) : bool :=
  bool_decide (hs_Addr srv = (if String.eqb (env_of s "LISTEN_ADDR") "" then ":8080" else env_of s "LISTEN_ADDR")) &&
  Bool.eqb (hs_hub srv) (p_hub s) &&
  bool_decide (hs_loki srv = Loki.MkConfig (env_of s "LOKI_URL") (env_of s "LOKI_BASIC_AUTH_USER")
    (env_of s "LOKI_BASIC_AUTH_PASS") (env_of s "LOKI_BEARER_TOKEN") (env_of s "LOKI_TENANT_ID")) &&
  bool_decide ((Some (c_dyn (hs_client srv)), c_clientset (hs_client srv)) = p_clients s) &&
  bool_decide (is_Some (c_clientset (hs_client srv))) &&
  bool_decide (Some (c_stop (hs_client srv)) = p_stop s).
Definition k8s_monitor (s : progress) {R} (c : gcall R) : R → option progress :=
  match c in gcall R return R → option progress with
  | InClusterConfig => λ r, Some (s <| p_config := match r with Ok cfg => Some cfg | Err _ => None end |>)
  | HomeDir => λ _, check (bool_decide (p_config s = None)) s
  | BuildConfigFromFlags _ => λ r,
      check (bool_decide (p_config s = None)) (s <| p_config := match r with Ok cfg => Some cfg | Err _ => None end |>)
  | NewDynamicForConfig cfg => λ r,
      check (bool_decide (p_config s = Some cfg))
        (s <| p_clients := (match r with Ok d => Some d | Err _ => None end, None) |>)
  | NewClientsetForConfig cfg => λ r,
      check (bool_decide (p_config s = Some cfg))
        (s <| p_clients := ((p_clients s).1, match r with Ok d => Some d | Err _ => None end) |>)
  | NewDynamicSharedInformerFactory dyn resync => λ _, check (bool_decide ((p_clients s).1 = Some dyn) && (resync =? 0)) s
  | Informer gvr => λ _, check (bool_decide (gvr = GVR)) s
  | MakeChan => λ _, Some s
  | SetWatchErrorHandler => λ _, check (bool_decide (p_stop s = None)) (s <| p_handler := true |>)
  | StartFactory stop => λ _, check (p_handler s && bool_decide (p_stop s = None)) (s <| p_stop := Some stop |>)
  | _ => λ _, None
  end.
Definition main_monitor : monitor progress := λ s R c,
  match c in mcall R return R → option progress with
  | OnK8s c => k8s_monitor s c
  | Getenv key => λ v, Some (s <| p_env := <[key := v]> (p_env s) |>)
  | NewSentryClient _ _ _ => λ r, Some (s <| p_hub := is_ok r |>)
  | Logf _ => λ _, Some s
  | Flush _ => λ _, Some (s <| p_flushed := true |>)
  | Fatalf _ => λ _, check (p_flushed s || negb (p_hub s)) (s <| p_fatal := true |>)
  | ListenAndServe srv => λ r, check (serves s srv && bool_decide (p_served s = None))
      (s <| p_served := Some (match r with Some (ListenFailed _) => false | _ => true end) |>)
  end.

Lemma wp_on_k8s {A} (p : gprog A) s Q :
  wp (λ s R c, k8s_monitor s c) p s Q → wp main_monitor (on_k8s p) s Q.
Proof.
  revert s. induction p as [a|R c k IH]; intros s; [done|]. cbn. intros Hw r. specialize (Hw r).
  destruct (k8s_monitor s c r); [by apply IH|done].
Qed.
Notation k8s_wp := (wp (λ s R c, k8s_monitor s c)).
Ltac checked := cbn; unfold check; repeat rewrite bool_decide_eq_true_2 by done; cbn.
Lemma wp_restConfig `{GoRuntime} s Q : p_config s = None →
  (∀ cfg, Q (s <| p_config := Some cfg |>) (Ok cfg)) → (∀ e, Q s (Err e)) → k8s_wp restConfig s Q.
Proof.
  intros Hc Hok Herr. assert (E : s <| p_config := None |> = s) by (destruct s; cbn in *; by rewrite Hc).
  intros [cfg|e]; cbn; [apply Hok|]. intros home r. rewrite E.
  destruct r as [cfg|e']; [apply Hok|]. rewrite E. apply Herr.
Qed.
(** A client that was built is complete and its informer runs; nothing waits for its cache. *)
Lemma wp_New `{GoRuntime} s Q : p_config s = None → p_stop s = None →
  (∀ c cfg cs, c_clientset c = Some cs →
     Q (s <| p_config := Some cfg |> <| p_clients := (Some (c_dyn c), Some cs) |> <| p_handler := true |> <| p_stop := Some (c_stop c) |>) (Ok c)) →
  (∀ cfg cl e, Q (s <| p_config := cfg |> <| p_clients := cl |>) (Err e)) → k8s_wp ClientProc.New s Q.
Proof.
  intros Hc Hs Hok Herr. apply wp_try, wp_restConfig; [done| |].
  - intros cfg. apply wp_try. intros dyn. checked. destruct dyn as [dyn|e]; [|apply Herr].
    intros cs. checked. destruct cs as [cs|e]; [|apply Herr].
    checked. intros [] [] stop. rewrite Hs. checked. intros ? []. by apply (Hok (MkClient dyn (Some cs) stop) cfg cs).
  - intros e. specialize (Herr (p_config s) (p_clients s) e). by destruct s.
Qed.
Lemma wp_fatalf hub text s Q : p_hub s = hub →
  (∀ f, Q (s <| p_flushed := f |> <| p_fatal := true |>) 1) → wp main_monitor (fatalf hub text) s Q.
Proof.
  intros Hh HQ. destruct hub; cbn.
  - intros _. cbn. intros _. apply HQ.
  - rewrite Hh, orb_true_r. cbn. intros _. specialize (HQ (p_flushed s)). by destruct s.
Qed.

Definition ends (s : progress) (code : Z) : Prop :=
  (code = 0 ∧ p_fatal s = false ∧ p_served s = Some true) ∨ (code = 1 ∧ p_fatal s = true ∧ p_served s ≠ Some true).
Lemma wp_serve `{GoRuntime} addr hub s :
  p_config s = None → p_stop s = None → p_served s = None → p_fatal s = false → p_hub s = hub →
  addr = (if String.eqb (env_of s "LISTEN_ADDR") "" then ":8080" else env_of s "LISTEN_ADDR") →
  wp main_monitor (serve addr hub) s ends.
Proof.
  intros Hc Hst Hsv Hf Hh Ha. apply wp_bind, wp_on_k8s, wp_New; [done|done| |].
  - intros c cfg cs Hcs. intros url user pass token tenant []. intros err.
    match goal with |- match main_monitor ?s _ _ _ with _ => _ end => set (s' := s) end.
    assert (Hs' : serves s' (MkHttpServer addr hub (Loki.MkConfig url user pass token tenant) c (10 * Second)) &&
      bool_decide (p_served s' = None) = true).
    { unfold serves, env_of. subst s'. cbn. rewrite Hsv, Hcs, Hh. simplify_map_eq. rewrite eqb_reflx.
      by rewrite !bool_decide_eq_true_2. }
    cbn [main_monitor]. rewrite Hs'. cbn [check]. subst s'. cbn in *.
    destruct err as [[|text]|]; [by left| |by left].
    apply wp_fatalf; [done|]. intros f. by right.
  - intros cfg cl e. apply wp_fatalf; [done|]. intros f. right. cbn. by rewrite Hsv.
Qed.

Lemma feed_event {call : Type → Type} {S} (M : @monitor call S) s tr s' R (c : call R) r :
  feed M s tr = Some s' → Ev c r ∈ tr → ∃ s1 s2, M s1 R c r = Some s2.
Proof.
  intros Hf (tr1 & tr2 & ->)%list_elem_of_split. revert s Hf. induction tr1 as [|[R' c' r'] tr1 IH]; intros s; cbn.
  - destruct (M s R c r) as [s2|] eqn:E; [eauto|done].
  - destruct (M s R' c' r') as [s2|]; [apply IH|done].
Qed.
Lemma serves_production `{GoRuntime} `{MapOrder} `{KubeLib} `{CronNext} `{FloatLib} `{UnstructuredLib} s srv :
  serves s srv = true → served srv = production (hs_loki srv).
Proof.
  unfold serves. rewrite !andb_true_iff, !bool_decide_eq_true. intros [[_ Hc] _]. unfold served. by rewrite bool_decide_eq_true_2.
Qed.

(** C24: the console starts without waiting for the cluster and serves what was asked for:
    in every run the connection is the in-cluster one or else the kubeconfig's, both
    clients are made for it, and one informer for the Apps is started, after its
    watch-error handler was set and with the channel the client can close; nothing waits
    for its cache.  The server is started at most once, on the address and with the Loki
    settings of the environment, with the production handlers over that client, and reports exactly when a Sentry
    client was made; a failing one is no reason to stop.  The process ends with code 1
    exactly when it logs a fatal error, which it does only after flushing the events. *)
Theorem console_startup `{GoRuntime} `{MapOrder} `{KubeLib} `{CronNext} `{FloatLib} `{UnstructuredLib} tr code :
  run main tr code →
  (∃ s, feed main_monitor nothing_yet tr = Some s ∧ ends s code) ∧
  ∀ srv r, Ev (ListenAndServe srv) r ∈ tr → served srv = production (hs_loki srv).
Proof.
  intros Hr. enough (Hw : wp main_monitor main nothing_yet ends).
  { destruct (wp_sound _ _ _ _ _ _ Hw Hr) as (s & Hf & He). split; [eauto|]. intros srv r Hin.
    destruct (feed_event _ _ _ _ _ _ _ Hf Hin) as (s1 & s2 & Hc). cbn in Hc.
    destruct (serves s1 srv) eqn:Es; [by eapply serves_production|done]. }
  intros addr. intros dsn. cbn. destruct (String.eqb_spec dsn "") as [->|Hd].
  - by apply wp_serve.
  - intros environment release [[]|e]; cbn; [|intros []]; by apply wp_serve.
Qed.

(** A console outside a cluster, with a broken Sentry DSN, whose port is taken. *)
Definition laptop (R : Type) (c : mcall R) : unit → R * unit :=
  λ w, (match c in mcall R return R with
        | OnK8s c =>
            match c in gcall R return R with
            | InClusterConfig => Err (errorf "not in a cluster") | HomeDir => "/home/dev"
            | BuildConfigFromFlags _ => Ok 1%nat | NewDynamicForConfig _ => Ok 2%nat | NewClientsetForConfig _ => Ok 3%nat
            | MakeChan | WithTimeout _ => 0%nat | SetWatchErrorHandler => Ok tt | EnterOnce => true
            | ReadLastWatchErr | ViewNow => 0 | WaitForCacheSync _ => λ _, false
            | _ => tt
            end
        | Getenv key => if String.eqb key "SENTRY_DSN" then "not a DSN" else ""
        | NewSentryClient _ _ _ => Err (errorf "bad DSN")
        | ListenAndServe _ => Some (ListenFailed "address already in use")
        | _ => tt
        end, w).
#[local] Existing Instance ascii_only_tables.
#[local] Existing Instance some_order.
#[local] Existing Instance any_quantity.
#[local] Existing Instance next_minute.
#[local] Existing Instance some_floats.
#[local] Existing Instance plain_accessors.
Lemma console_startup_witness : ∃ s,
  run main (trace_of laptop main tt) 1 ∧
  feed main_monitor nothing_yet (trace_of laptop main tt) = Some s ∧ p_fatal s = true ∧ p_served s = Some false.
Proof.
  assert (Hr : run main (trace_of laptop main tt) 1) by exact (executes laptop main tt).
  destruct (console_startup _ _ Hr) as [(s & Hf & He) _]. exists s. split; [exact Hr|]. split; [exact Hf|].
  vm_compute in Hf. injection Hf as <-. split; reflexivity.
Defined.
