(* ===== verification/Startup.v ===== *)
(** cmd/main.go: the operator's start-up, as a program over what it asks of the process
    and the cluster before the manager runs. *)
From Stdlib Require Import ZArith Ascii String.
From stdpp Require Import base gmap strings list numbers sorting.
From S2P Require Import Prelude GoStd GoNum Images BuildSpec AppTypes Kube Config Naming GitCred Free Prog GitSync.

Open Scope string_scope.
Open Scope list_scope.
Open Scope Z_scope.

(** [GetConfigOrDie] answers false when it ends the process.  [Direct] is a request of
    the throwaway client, as the operator's own code makes it. *)
Inductive scall : Type → Type :=
| ReadFile (path : string) : scall (result string)
| Getenv (key : string) : scall string
| GetConfigOrDie : scall bool
| NewDirectClient : scall (result unit)
| Direct {R} (c : call R) : scall R
| NewManager (opts : ManagerOptions) (leaderElectionID : string) : scall (result unit)
| SetupWithManager (r : AppReconciler) : scall (result unit)
| AddHealthzCheck (name : string) : scall (result unit)
| AddReadyzCheck (name : string) : scall (result unit)
| StartManager : scall (result unit)
| FlushReporter : scall unit
| InitSentry : scall (result unit).
Notation sprog := (free scall).
#[global] Instance NodeImage_eq_dec : EqDecision NodeImage.
Proof. solve_decision. Defined.
#[global] Instance OperatorConfig_eq_dec : EqDecision OperatorConfig.
Proof. solve_decision. Defined.

Fixpoint direct {A} (p : prog A) : sprog A :=
  match p with Ret _ a => mret a | Call _ c k => Call _ (Direct c) (λ r, direct (k r)) end.

(** How the process goes on: an early exit, or [run]'s result. *)
Inductive fate := Exited | Returned (r : result unit).

Section startup.
Context `{GoRuntime} `{MapOrder} `{KubeLib} (unmarshal : string → result FileConfig).

(** The gitAuth check that precedes the manager. *)
(* Go: cmd/main.go run @84-107 *)
Definition validate_git_auth (cfg : OperatorConfig) : sprog (result unit) :=
  if negb (Enabled (cfg_GitAuth cfg)) then mret (Ok tt)
  else
    podNamespace ← do (Getenv "POD_NAMESPACE");
    if String.eqb podNamespace "" then
      mret (Err (errorf "gitAuth is enabled but POD_NAMESPACE is empty (set via the downward API)"))
    else
      do NewDirectClient ;?
      direct (ValidateGitAuthSecret podNamespace (cfg_GitAuth cfg)).

(** The manager: its construction, the reconciler and the probes. *)
(* Go: cmd/main.go run @109-153 *)
Definition run_manager (cfg : OperatorConfig) (mgrOpts : ManagerOptions) : sprog (result unit) :=
  do (NewManager mgrOpts "app.baker.toggle-corp.com") ;?
  podNamespace ← do (Getenv "POD_NAMESPACE");
  do (SetupWithManager (MkAppReconciler cfg (mo_StorageClass mgrOpts) (mo_TraefikNamespace mgrOpts) podNamespace)) ;?
  do (AddHealthzCheck "healthz") ;?
  do (AddReadyzCheck "readyz") ;?
  do StartManager.

Definition run_body (configPath : string) : sprog fate :=
  raw ← do (ReadFile configPath);
  match LoadConfig (λ _, raw) unmarshal configPath with
  | Err e => mret (Returned (Err e))
  | Ok (cfg, mgrOpts) =>
      alive ← do GetConfigOrDie;
      if negb alive then mret Exited
      else r ← (validate_git_auth cfg ;? run_manager cfg mgrOpts); mret (Returned r)
  end.
(** The flush is deferred: it runs on every return, not on an exit. *)
(* Go: cmd/main.go run *)
Definition run_operator (configPath : string) : sprog fate :=
  f ← run_body configPath;
  match f with
  | Exited => mret Exited
  | Returned r => do FlushReporter;; mret (Returned r)
  end.

(** The exit code.  A failing Sentry set-up only disables reporting. *)
(* Go: cmd/main.go main *)
Definition main (configPath : string) : sprog Z :=
  do InitSentry;;
  f ← run_operator configPath;
  mret (match f with Returned (Ok _) => 0 | _ => 1 end).

(** ** Fail closed *)
(** What has been established when the manager starts. *)
Record facts := MkFacts { f_cfg : option OperatorConfig; f_namespace : string; f_secret : bool; f_reconciler : option AppReconciler }.
Definition no_facts : facts := MkFacts None "" false None.
Definition established (s : facts) : bool :=
  match f_cfg s, f_reconciler s with
  | Some cfg, Some r =>
      (negb (Enabled (cfg_GitAuth cfg)) || f_secret s) && bool_decide (r_Config r = cfg)
  | _, _ => false
  end.
(** The Secret the configuration names, read in the operator's own namespace, complete. *)
Definition complete_secret (s : facts) (namespace name : string) (data : result (gmap string string)) : bool :=
  match f_cfg s, data with
  | Some cfg, Ok d => negb (String.eqb namespace "") && String.eqb namespace (f_namespace s) &&
                      String.eqb name (ga_SecretName (cfg_GitAuth cfg)) && is_ok (checkGitCredentialData d)
  | _, _ => false
  end.
Definition startup_monitor : monitor facts := λ s R c,
  match c in scall R return R → option facts with
  | ReadFile path => λ raw, Some (MkFacts (match LoadConfig (λ _, raw) unmarshal path with
                                           | Ok (cfg, _) => Some cfg | Err _ => None end) "" false None)
  | Getenv key => λ v, Some (if String.eqb key "POD_NAMESPACE"
                             then MkFacts (f_cfg s) v (f_secret s) (f_reconciler s) else s)
  | Direct c => match c in call R return R → option facts with
                | ReadSecret ns name => λ data, Some (MkFacts (f_cfg s) (f_namespace s) (complete_secret s ns name data) (f_reconciler s))
                | _ => λ _, Some s
                end
  | SetupWithManager r => λ res, Some (MkFacts (f_cfg s) (f_namespace s) (f_secret s) (if is_ok res then Some r else None))
  | StartManager => λ _, if established s then Some s else None
  | _ => λ _, Some s
  end.

Lemma wp_validate cfg :
  wp startup_monitor (validate_git_auth cfg) (MkFacts (Some cfg) "" false None) (λ s r,
    match r with
    | Ok _ => f_cfg s = Some cfg ∧ (Enabled (cfg_GitAuth cfg) = true → f_secret s = true)
    | Err _ => True
    end).
Proof.
  unfold validate_git_auth. destruct (Enabled (cfg_GitAuth cfg)) eqn:En; cbn [negb]; [|done].
  apply wp_bind, wp_do. intros ns. cbn [startup_monitor String.eqb Ascii.eqb Bool.eqb f_cfg f_secret f_reconciler].
  destruct (String.eqb_spec ns "") as [->|Hns]; [done|]. apply wp_try, wp_do. intros [[]|e]; [|done].
  cbn [startup_monitor]. unfold ValidateGitAuthSecret. rewrite En, (proj2 (String.eqb_neq _ _) Hns).
  intros [data|e]; [|done]. cbn -[checkGitCredentialData complete_secret].
  destruct (checkGitCredentialData data) as [[]|] eqn:Ec; [|done].
  split; [done|]. intros _. cbn -[checkGitCredentialData]. rewrite Ec, (proj2 (String.eqb_neq _ _) Hns), !String.eqb_refl. done.
Qed.
Lemma wp_run_manager cfg opts s :
  f_cfg s = Some cfg → (Enabled (cfg_GitAuth cfg) = true → f_secret s = true) →
  wp startup_monitor (run_manager cfg opts) s (λ _ _, True).
Proof.
  intros Hc Hs. unfold run_manager. intros [[]|e]; [|done]. intros ns. intros [[]|e]; [|done].
  intros [[]|e]; [|done]. intros [[]|e]; [|done]. intros r. cbn [startup_monitor String.eqb Ascii.eqb Bool.eqb].
  unfold established. cbn. rewrite Hc, bool_decide_eq_true_2 by done.
  destruct (Enabled (cfg_GitAuth cfg)); [by rewrite Hs|done].
Qed.
Lemma wp_run_body configPath : wp startup_monitor (run_body configPath) no_facts (λ _ _, True).
Proof.
  unfold run_body. apply wp_bind, wp_do. intros raw. cbn [startup_monitor].
  destruct (LoadConfig (λ _, raw) unmarshal configPath) as [[cfg opts]|e]; [|done].
  apply wp_bind, wp_do. intros alive. cbn [startup_monitor]. destruct alive; cbn [negb]; [|done].
  apply wp_bind, wp_try. eapply wp_mono; [|apply wp_validate].
  intros s [[]|e]; [|done]. intros [Hc Hs]. eapply wp_mono; [|by apply wp_run_manager]. done.
Qed.

(** C23: the operator fails closed: in no run does the manager start unless the operator
    configuration was valid, the reconciler was set up with it and, where a git credential
    is configured, its Secret was found complete in the operator's own namespace. *)
Theorem startup_fails_closed configPath tr code :
  run (main configPath) tr code → is_Some (feed startup_monitor no_facts tr).
Proof.
  intros Hrun. assert (Hw : wp startup_monitor (main configPath) no_facts (λ _ _, True)).
  { unfold main. apply wp_bind, wp_do. intros r. cbn [startup_monitor]. apply wp_bind, wp_bind.
    eapply wp_mono; [|apply wp_run_body]. by intros s [|res] _. }
  destruct (wp_sound _ _ _ _ _ _ Hw Hrun) as (s & -> & _). eauto.
Qed.
End startup.
