(* ===== verification/ConsoleWorlds.v ===== *)
(** Concrete requests: the theorems about the console and the start-up, applied to runs
    that list, show, rebuild, follow a log, recover from a panic and start the operator. *)
From Stdlib Require Import ZArith Ascii String SpecFloat.
From stdpp Require Import base gmap sets strings list numbers sorting.
From S2P Require Import Prelude GoStd GoNum GoTime GoSort Decisions Images BuildSpec RepoHost AppTypes Kube Config BuildSteps Naming GitCred BuildPod Free Prog JsonDecode GitSync Observability Unstructured Humanize View ViewMap AppJson ViewSpec JsonPrint GoUrl ListPage ConsoleCalls ConsoleClient ConsolePatch Loki LogView Manifest Server ServerSpec SentryHttp Startup.

Open Scope string_scope.
Open Scope list_scope.
Open Scope Z_scope.

#[local] Existing Instance ascii_only_tables.
#[local] Existing Instance some_order.
#[local] Existing Instance any_quantity.
#[local] Existing Instance next_minute.
#[local] Existing Instance some_floats.
#[local] Existing Instance plain_accessors.
#[local] Existing Instance some_pages.
#[local] Existing Instance merging_server.

(** ** The list page *)
Definition listed (ns name : string) (group : string) : View.App :=
  MkVApp ns name group 0 "Pending" "" "" false [] zero_vbuild [] "" "" "" "" "" (MkVRelease "" "" "")
    (MkVStorage "" "" 0 []) (MkVCleanup zero_vaction zero_vaction) (MkVManualTrigger "" "") ""
    (MkVScheduled false "") (MkVWatch false "" "") false None "".
(** Sixty Apps, listed in no particular order. *)
Definition sixty : list View.App := (λ i, listed "web" ("site-" +:+ Itoa (60 - i)) (if i <? 7 then "" else "docs")) <$> seqZ 0 60.
Lemma sixty_fits : fits (length sixty).
Proof.
  assert (Hn : length sixty = 60%nat) by (vm_compute; reflexivity). rewrite Hn.
  unfold fits, pageSize, i64_max. lia.
Qed.

Lemma list_page_bounds_witness : ∃ d, list_page "ada" false ∅ sixty = Val d ∧ 1 ≤ LD_Page d ≤ LD_TotalPages d.
Proof.
  destruct (list_page_bounds "ada" false ∅ sixty sixty_fits) as (d & Hd & Hp & _).
  exact (ex_intro _ d (conj Hd Hp)).
Defined.
Lemma pages_cover_matches_witness :
  length (matching (read_filters ∅) sixty) = 60%nat ∧
  concat ((λ p, match list_page "ada" false (Set_ ∅ "page" (Itoa p)) sixty with Val d => LD_Apps d | Panic => [] end)
          <$> seqZ 1 (page_count (length (matching (read_filters ∅) sixty)))) = matching (read_filters ∅) sixty.
Proof. split; [vm_compute; reflexivity|]. apply (pages_cover_matches "ada" false ∅ sixty sixty_fits). Defined.
Lemma list_page_cache_order_witness :
  list_page "ada" false ∅ sixty = list_page "ada" false ∅ (reverse sixty).
Proof.
  apply (list_page_cache_order "ada" false ∅ sixty (reverse sixty) sixty_fits); [by rewrite reverse_Permutation|].
  apply (bool_decide_eq_true_1 _). vm_compute. reflexivity.
Defined.
Lemma pager_links_witness : ∃ d d', list_page "ada" false ∅ sixty = Val d ∧
  list_page "ada" false (link_query (LD_NextURL d)) sixty = Val d' ∧ LD_Page d' = LD_Page d + 1.
Proof.
  destruct (list_page "ada" false ∅ sixty) as [d|] eqn:E; [|vm_compute in E; discriminate].
  destruct (pager_links "ada" false ∅ sixty d sixty_fits E) as [Hn _].
  destruct Hn as (d' & Hd' & Hp & _); [|exact (ex_intro _ d (ex_intro _ d' (conj eq_refl (conj Hd' Hp))))].
  assert (Hd : match list_page "ada" false ∅ sixty with Val d => LD_HasNext d | Panic => false end = true)
    by (vm_compute; reflexivity).
  rewrite E in Hd. exact Hd.
Defined.
Lemma facet_links_witness : ∃ d d', list_page "ada" false ∅ sixty = Val d ∧
  list_page "ada" false (link_query "/?status=pending") sixty = Val d' ∧ LD_Status d' = "pending".
Proof.
  destruct (list_page "ada" false ∅ sixty) as [d|] eqn:E; [|vm_compute in E; discriminate].
  pose (fc := MkFacet "pending" "pending" 60 false "/?status=pending").
  destruct (facet_links "ada" false ∅ sixty d fc sixty_fits E) as (d' & Hd' & Hs & _);
    [|exact (ex_intro _ d (ex_intro _ d' (conj eq_refl (conj Hd' Hs))))].
  assert (Hd : match list_page "ada" false ∅ sixty with Val d => last (LD_StatusFacets d) | Panic => None end = Some fc)
    by (vm_compute; reflexivity). rewrite E in Hd.
  exact (last_Some_elem_of _ _ Hd).
Defined.

(** ** Requests *)
Definition get (path : list string) (q : Values) : request :=
  MkReq "GET" ("/" +:+ Join path "/") path q {["X-Forwarded-User" := "ada"]}.
Definition post (path : list string) : request :=
  MkReq "POST" ("/" +:+ Join path "/") path ∅ {["X-Forwarded-User" := "ada"]}.
(** A cluster that holds the sample App and accepts patches. *)
Definition console_world : ∀ R, ccall R → unit → R * unit := λ R c w,
  (match c in ccall R return R with
   | CNow => 1700000000000000000 | LastWatchErr => zero_time | HasSynced => true
   | ListCache => Ok [Some (json_App sample_app)]
   | GetObject _ _ => Ok (json_App sample_app) | MergePatch _ _ _ => Ok tt
   | GetCorePod _ _ => Err (errorf "gone") | OpenLogStream _ _ _ _ => Err (errorf "gone")
   | ReadLogStream => Ok "" | GetNodeSummary _ => Err (errorf "gone")
   | ParseRequestURL _ => Ok ∅ | HttpDo _ => Err (errorf "refused") | ReadResponseBody => Ok ""
   | AttachError _ _ => tt
   end, w).
Definition no_loki : Loki.Config := MkConfig "" "" "" "" "".
Definition rebuild_click : request := post ["ns"; "web"; "app"; "site"; "rebuild"].

Lemma console_writes_witness :
  (λ x, x.1.1) <$> omap patch_of (trace_of console_world (Routes (production no_loki) rebuild_click) tt) = ["web"] ∧
  lawful rebuild_click (trace_of console_world (Routes (production no_loki) rebuild_click) tt)
    (value_of console_world (Routes (production no_loki) rebuild_click) tt).
Proof.
  split; [vm_compute; reflexivity|]. exact (console_writes no_loki rebuild_click _ _ (executes _ _ _)).
Defined.

Lemma detail_shows_status_witness : ∃ d now,
  value_of console_world (handleDetail (production no_loki) (get ["ns"; "web"; "app"; "site"] ∅) "web" "site") tt =
    MkResponse 200 (PDetail d) ∧ without_metrics (DD_App d) = shows_app now sample_app.
Proof.
  set (p := handleDetail _ _ _ _).
  assert (Ht : Forall (λ e, match e with Ev c a => holds_app sample_app _ c a end) (trace_of console_world p tt)).
  { change (trace_of console_world p tt) with
      [Ev (GetObject "web" "site") (Ok (json_App sample_app)); Ev CNow 1700000000000000000].
    repeat constructor. }
  exact (proj1 (detail_shows_status no_loki (get ["ns"; "web"; "app"; "site"] ∅) "web" "site" sample_app _ _
    ltac:(done) ltac:(done) Ht) (executes _ _ _)).
Defined.

Lemma console_rebuild_request_witness : is_Some (json_parse (rebuildPatch "ada" 1700000000000000000)) ∧ ∃ m',
  server_patch (json_App sample_app) (rebuildPatch "ada" 1700000000000000000) = Some m' ∧
  only_annotations (json_App sample_app) m'.
Proof.
  destruct (console_rebuild_request sample_app "ada" 1700000000000000000) as (Hp & m' & Hm & Ho & _);
    [reflexivity|discriminate|exact (conj (ex_intro _ _ Hp) (ex_intro _ m' (conj Hm Ho)))].
Defined.

(** ** Pages *)
Definition secret_app (hash note : string) : AppTypes.App :=
  sample_app <| app_Meta ::= λ m, m <| om_Annotations := {["note" := note]} |> |>
    <| app_Spec ::= λ s, s <| as_Auth := Some (MkAuthConfig (Some hash) None) |> |>.
Lemma secret_alike : alike (json_App (secret_app "$2y$10$abc" "one")) (json_App (secret_app "$2y$10$xyz" "two")).
Proof.
  unfold alike. split_and!; try (vm_compute; reflexivity).
  rewrite !spec_json. set (spec := json_AppSpec (app_Spec sample_app)).
  assert (Hs : ∀ h note, json_AppSpec (app_Spec (secret_app h note)) =
    <["auth" := UMap (<["passwordHash" := UStr h]> ∅)]> spec).
  { intros h note. apply map_eq. intros k. destruct (decide (k = "auth")) as [->|Hk].
    - rewrite lookup_insert_eq. unfold json_AppSpec. by rewrite fields_lookup.
    - rewrite lookup_insert_ne by done. unfold spec, json_AppSpec. rewrite !fields_lookup.
      cbn [assoc]. by rewrite (proj2 (String.eqb_neq "auth" k)) by congruence. }
  rewrite !Hs. constructor.
Qed.
Lemma manifest_noninterference_witness :
  pruneManifest (json_App (secret_app "$2y$10$abc" "one")) = pruneManifest (json_App (secret_app "$2y$10$xyz" "two")).
Proof. exact (manifest_noninterference _ _ secret_alike). Defined.

(** A build in progress, followed. *)
Definition building : AppTypes.App :=
  sample_app <| app_Status ::= λ s, s <| s_Build ::= λ b, b <| b_Phase := "Running" |> <| b_PodName := "site-1" |>
    <| b_Steps := deriveBuildSteps (applicableSteps sample_app) (Some oom_pod) false |> |> |>.
Definition building_world : ∀ R, ccall R → unit → R * unit := λ R c w,
  (match c in ccall R return R with
   | CNow => 1700000000000000000 | LastWatchErr => zero_time | HasSynced => true
   | ListCache => Ok [] | GetObject _ _ => Ok (json_App building) | MergePatch _ _ _ => Ok tt
   | GetCorePod _ _ => Ok oom_pod | OpenLogStream _ _ _ _ => Ok tt
   | ReadLogStream => Ok "building" | GetNodeSummary _ => Err (errorf "gone")
   | ParseRequestURL _ => Ok ∅ | HttpDo _ => Err (errorf "refused") | ReadResponseBody => Ok ""
   | AttachError _ _ => tt
   end, w).
(** A request for the log of a container that is none. *)
Definition odd_request : request := get ["ns"; "web"; "app"; "site"; "logs"] {["container" := ["../etc"]]}.
Definition odd_pane := handleLogs (production no_loki) odd_request "web" "site".
Definition opened (e : Free.event ccall) : option (string * string * string) :=
  match e with Ev (OpenLogStream ns pod c _) _ => Some (ns, pod, c) | _ => None end.

Lemma panics_contained_witness :
  hd_status (wrapWithClock true SentryHttp.newFingerprintLimiter 0 rebuild_click (MkHandling [] (Some (PanicOther "boom")) [])) = 500.
Proof.
  destruct (panics_contained true SentryHttp.newFingerprintLimiter 0 rebuild_click
    (MkHandling [] (Some (PanicOther "boom")) []) (PanicOther "boom") eq_refl) as [_ H].
  destruct H as (_ & H & _); [discriminate|]. exact (proj2 (H eq_refl)).
Defined.

(** ** Start-up *)
Definition startup_world : ∀ R, scall R → unit → R * unit := λ R c w,
  (match c in scall R return R with
   | ReadFile _ => Ok "config" | Getenv _ => "baker-system" | GetConfigOrDie => true | NewDirectClient => Ok tt
   | Direct c => match c in call R return R with
                 | ReadSecret _ _ => Ok {[gitAuthUsernameKey := "bot"; gitAuthPasswordKey := "token"]}
                 | c => default_answer c
                 end
   | NewManager _ _ => Ok tt | SetupWithManager _ => Ok tt | AddHealthzCheck _ => Ok tt | AddReadyzCheck _ => Ok tt
   | StartManager => Ok tt | FlushReporter => tt | InitSentry => Ok tt
   end, w).
Lemma startup_fails_closed_witness :
  value_of startup_world (main (λ _, Ok sample_file) "/etc/baker/config.yaml") tt = 0 ∧
  is_Some (feed (startup_monitor (λ _, Ok sample_file)) no_facts
    (trace_of startup_world (main (λ _, Ok sample_file) "/etc/baker/config.yaml") tt)).
Proof.
  split; [vm_compute; reflexivity|].
  exact (startup_fails_closed (λ _, Ok sample_file) "/etc/baker/config.yaml" _ _ (executes _ _ _)).
Defined.
